(* ===== verification/_CoqProject ===== *)
-Q . S2P
Prelude.v
Bytes.v
GoStd.v
FileSystem.v
Rely.v
External.v
Types.v
CoreTypes.v
Samples.v
Anchors.v
BlobCoder.v
TxEncoding.v
Hash.v
Json.v
JsonText.v
Tee.v
AtomicFile.v
Spared.v
Bootstrap.v
Abi.v
Proposal.v
Forks.v
Decode.v
Fixtures.v
GuestInput.v
Blobs.v
Manifest.v
AnchorLink.v
Execution.v
AnchorSig.v
Binding.v
Signer.v
Replay.v
Validate.v
Prove.v
Config.v
Aggregate.v
Server.v
Serve.v
Command.v
TeeScenario.v
Scenario.v
