(* ===== verification/Prelude.v ===== *)
(** * gaiko2: a verification development

    gaiko2 is a prover for Taiko's Shasta protocol.  A request carries a guest
    input: the L2 blocks of one proposal with their execution witnesses, the
    blobs the proposal points to, and headers of L1 and L2.  The service
    checks that the blocks are the canonical derivation of the proposal, runs
    them without a database, and signs the hash of the proposal's carry data
    with a key that lives in an enclave; signatures of consecutive proposals
    are aggregated into one.  This development models all of the Go code under
    [src/internal] and the command of [src/cmd/gaiko2], except for the parts
    named at the end.

    ** The way of a request

<<
    Command  ->  Config (environment, registered forks)  ->  Tee (sealed key)
                     |
    Server  (bytes of the body -> request)                Signer (89-byte proof)
       |                                                        ^
       +-> Validate  = GuestInput ; Proposal ; Blobs ; Binding   |
       |                 Binding = Manifest ; BlobCoder ;        |
       |                           Execution ; AnchorSig ;       |
       |                           AnchorLink ; Anchors          |
       +-> Prove     = Replay (each block) ; Hash  --------------+
       +-> Aggregate = Proposal ; Hash  -------------------------+
>>

    ** Files and the code they model

    Under [src/internal/prover]:
    - [Json], [Decode]: [decode.go], the field helpers and the decoders of
      headers, transactions, witnesses and blocks;
    - [GuestInput], [Proposal]: [guestinput.go] and [guestinput_carry.go], with
      the ABI description and value of a proposal;
    - [Blobs], [BlobCoder]: [blob_validate.go] and [blob_coder.go];
    - [TxEncoding]: [transaction_encoding.go];
    - [Manifest], [Anchors], [AnchorSig], [AnchorLink], [Binding]: the five
      parts of [manifest_validate.go] (deriving and validating manifests, the
      rules on anchor numbers, the canonical anchor signature, the anchors'
      link to L1 with [l2_state.go], and the comparison of the witnessed
      blocks with the derived ones);
    - [Execution]: [manifest_tx_filter.go] and the chain context of [replay.go];
    - [Forks], [Replay], [Prove]: the chain configurations, the execution of
      one block and the service of [replay.go];
    - [Validate]: [validate.go] and the seal of [types.go];
    - [Hash], [Aggregate]: [hash.go], [aggregate_validate.go], [aggregate.go];
    - [Signer], [Config]: [signer.go] and [config.go].

    Elsewhere:
    - [Tee]: [src/internal/tee], one definition per function; [AtomicFile],
      [Spared] and [Bootstrap] hold its theorems;
    - [Server]: [src/internal/api/server.go], the messages of
      [src/internal/protocol/shasta_v1.go], [service.go];
    - [Command], [Serve]: [src/cmd/gaiko2/main.go], its commands and the life of
      its HTTP server.

    Shared: [Prelude] (errors, the result monad, loops that may fail, their
    tactics and hints), [Bytes] (big-endian words, hashes, addresses), [GoStd]
    (the text functions of Go's library), [JsonText] ([encoding/json] between
    bytes and trees), [Abi] (the encoding of the Solidity ABI), [FileSystem] (a
    file system with crashes, faults and several processes, and the programs
    that call it), [Rely] (rely-guarantee reasoning on them), [External] and [CoreTypes] (what the source calls and
    does not contain), [Types] (the views of [types.go]).  [Samples],
    [Fixtures], [Scenario] and [TeeScenario] build concrete inputs: a complete
    request from its text to its signature, and processes that race for a key.

    ** State and effects

    A Go function that returns an error returns a [result]; an early return is
    [reject_if] or [let!].  Loops are folds over the slice they range over
    ([for_range], [for_check], [for_fold]).  Machine integers are [Z] with
    their wrap-around written out where the code can wrap.  A byte array of
    fixed size is the number it encodes.  The state of the EVM is threaded
    explicitly through [Execution] and [Replay].  A function of [Tee], [Config]
    or [Command] is a [prog]: a tree of system calls.  [run] executes it alone
    under an oracle that may let any call fail; [cstep] interleaves the
    programs of several processes call by call.  [serveHTTP] is a transition
    system ([Serve.serve_step], with the world's [world_step]).  A sealed
    request keeps copies of what was validated, and a caller may change the
    exported fields between validation and proving: the theorems on the seal
    quantify over both.

    ** What is proved

    - End to end: [Prove.prove_validated_sound] (a proof of a validated request
      is the signer's output on the hash of a carry whose blocks are the
      derivation of the proposal and were executed to their roots),
      [Server.served_proof_sound] (the same for every answer with status 200
      of the server to a request to its proving path),
      [Validate.ValidateRequestWithContext_spec] (what a validated request
      holds, field by field), [Prove.Prove_sound],
      [Binding.ValidateGuestInputManifestBinding_sound],
      [Replay.Execute_unzen_sound].
    - What is signed: the digests of [Hash] determine the carry, up to
      collisions of Keccak on the messages at hand, and with it the proposal and
      its blob hashes ([GuestInput.one_digest_one_proposal]); a changed request
      is not signed ([Validate.validateRequestSigningBinding_spec]); what the service
      signs can be aggregated ([Aggregate.aggregate_roundtrip]).
    - Each check accepts exactly what it is meant to ([..._spec] theorems):
      derivation, anchors, headers, blobs, witnesses, carries, events.
      [Manifest.prepareSourceManifest_spec] fixes the one manifest a source is
      resolved to.
    - Round trips with encoders that are part of the specification: the blob
      codec, anchor calldata, headers in the two styles of the producers
      ([Decode.header_json]), carries, the 89-byte proof, JSON files.
    - Keys and files: [AtomicFile.atomicWriteFile_crash_safe] (a reader never
      finds a torn file, and a reported success is never taken back),
      [Bootstrap.Bootstrap_exclusive], [Bootstrap.saved_state_reads_back],
      [Bootstrap.bootstrap_returns],
      [Command.runBootstrapCommand_consistent].
    - The outside: [Config.configured_service_spec] (which key, which id, may
      it aggregate), [Server.decodeRequest_spec], [Server.handlers_answer],
      [Serve.serveHTTP_ends].

    ** Bounds and fuel

    Every function of the model is total.  The scanner of JSON takes fuel,
    twice the length of the text and one more ([JsonText.scan_fuel] shows that
    more changes nothing); the decoder of blobs runs its 1024 rounds; the search
    for a temporary name makes 128 attempts; the loops towards the root of the
    file system recurse on the elements of the path; printing a number has fuel
    for more digits than it can have ([GoStd.digits_fuel]), trimming a text its
    length; nothing else needs fuel.

    ** What is assumed

    Code outside the repository is a class: Keccak, secp256k1 and ECDSA, KZG,
    the ABI packer, zlib and RLP, the trie database, the EVM, the upstream
    chain configurations, the enclave runtime.  Their laws are Go's types (a
    32-byte result is 32 bytes) or documented behaviour (group laws, sealing
    inverted by unsealing, a signature recovers its signer, packing a
    value of a known ABI type gives its encoding); collision freedom is a
    hypothesis on the messages of the theorem that needs it.

    ** Not modelled

    - [main], which turns an error into a message and an exit status, and the
      sockets below [net.Listen]: [Command.run_command] takes what listens and
      serves as an argument, [Serve] models what it does.
    - The answers of [http.ServeMux] to other paths, and HTTP itself.
    - Texts of errors: an error keeps its format string and its chain, which is
      what [errors.Is] and [errors.As] can see.
    - A raw JSON message is its tree, so its spelling inside a document is not
      kept; the texts of requests and state files are read and written byte by
      byte ([JsonText]).  [strings.ToLower] lowers what becomes ASCII, which
      decides the same of the ASCII words the source compares with.
    - Symbolic links and permissions of directories in the file system.
    - Helpers that only tests or log lines use ([quantityValue], [keysOf],
      [equalHex], [manifestTxLabel]), and the accessors of the chain context
      that the EVM does not call ([Config], [Engine], [CurrentHeader]). *)

From Corelib Require Export ssreflect.
#[export] Unset SsrRewrite.
From Stdlib Require Export ZArith Lia Bool String.
From stdpp Require Export base tactics decidable list gmap strings.

#[global] Open Scope Z_scope.
Set Default Goal Selector "!".

(* ------------------------------------------------------------------ *)
(** ** Errors

    A Go [error] value.  [Errorf m] is [fmt.Errorf]/[errors.New] without a
    [%w] verb, [Wrapf m e] is [fmt.Errorf] with one [%w], [Join a b] is
    [errors.Join] (or two [%w] verbs), and [Sentinel s] is a package level
    error variable that [errors.Is] can recognise.  [Typed t e] is a pointer
    to an error struct of type [t] ([*os.PathError], [*http.MaxBytesError])
    that [errors.As] can recognise.  The message is the format string; the
    values interpolated into it are not kept. *)

Inductive error : Type :=
  | Errorf (msg : string)
  | Wrapf (msg : string) (cause : error)
  | Join (e1 e2 : error)
  | Sentinel (name : string)
  | Typed (type : string) (cause : error).

#[export] Instance error_eq_dec : EqDecision error.
Proof. solve_decision. Defined.

(** [errors.Is(err, target)] for a target that is a sentinel. *)
Fixpoint errors_Is (e : error) (target : string) : bool :=
  match e with
  | Errorf _ => false
  | Wrapf _ c => errors_Is c target
  | Join a b => errors_Is a target || errors_Is b target
  | Sentinel s => String.eqb s target
  | Typed _ c => errors_Is c target
  end.

(** [errors.As(err, &target)] for a target of pointer type [type]. *)
Fixpoint errors_As (e : error) (type : string) : bool :=
  match e with
  | Errorf _ | Sentinel _ => false
  | Wrapf _ c => errors_As c type
  | Join a b => errors_As a type || errors_As b type
  | Typed t c => String.eqb t type || errors_As c type
  end.

(** ** Results: the [(value, error)] pair of a Go function *)

Inductive result (A : Type) : Type :=
  | Ok (a : A)
  | Err (e : error).
Arguments Ok {A} a.
Arguments Err {A} e.

#[export] Instance result_eq_dec {A} `{EqDecision A} : EqDecision (result A).
Proof. solve_decision. Defined.

Definition res_bind {A B} (m : result A) (k : A -> result B) : result B :=
  match m with Ok a => k a | Err e => Err e end.

(** [if err != nil { return fmt.Errorf("...: %w", err) }] *)
Definition wrap_err {A} (msg : string) (m : result A) : result A :=
  match m with Ok a => Ok a | Err e => Err (Wrapf msg e) end.

(** [if cond { return err }] *)
Definition reject_if (c : bool) (e : error) : result unit :=
  if c then Err e else Ok tt.

Definition is_ok {A} (m : result A) : bool :=
  match m with Ok _ => true | Err _ => false end.

(** A Go pointer dereferenced after a [nil] check. *)
Definition some_or {A} (o : option A) (e : error) : result A :=
  match o with Some a => Ok a | None => Err e end.

Declare Scope go_scope.
Delimit Scope go_scope with go.
Notation "'let!' x ':=' m 'in' k" := (res_bind m (fun x => k))
  (at level 10, x binder, m at level 100, k at level 200) : go_scope.
Notation "m ';;!' k" := (res_bind m (fun _ => k))
  (at level 100, k at level 200, right associativity) : go_scope.
#[global] Open Scope go_scope.

(** Loops over a slice: the index starts at [i]; the first error stops the
    loop and is returned. *)
Fixpoint for_range {A B} (f : nat -> A -> result B) (i : nat) (l : list A)
  : result (list B) :=
  match l with
  | [] => Ok []
  | a :: l' =>
      let! b := f i a in
      let! bs := for_range f (S i) l' in
      Ok (b :: bs)
  end.

(** A loop that only checks. *)
Fixpoint for_check {A} (f : nat -> A -> result unit) (i : nat) (l : list A)
  : result unit :=
  match l with
  | [] => Ok tt
  | a :: l' => f i a ;;! for_check f (S i) l'
  end.

(** A loop that threads local variables. *)
Fixpoint for_fold {A S} (f : nat -> S -> A -> result S) (i : nat) (s : S) (l : list A)
  : result S :=
  match l with
  | [] => Ok s
  | a :: l' => let! s' := f i s a in for_fold f (i + 1)%nat s' l'
  end.

(* ------------------------------------------------------------------ *)
(** ** Laws of the result monad *)

Create HintDb go discriminated.
Create Rewrite HintDb go.

Lemma res_bind_ok {A B} (m : result A) (k : A -> result B) b :
  res_bind m k = Ok b <-> exists a, m = Ok a /\ k a = Ok b.
Proof. destruct m; naive_solver. Qed.

Lemma res_bind_assoc {A B C} (m : result A) (f : A -> result B) (g : B -> result C) :
  res_bind (res_bind m f) g = res_bind m (fun a => res_bind (f a) g).
Proof. by destruct m. Qed.

Lemma res_seq_ok {B} (m : result unit) (k : result B) b :
  (m ;;! k) = Ok b <-> m = Ok tt /\ k = Ok b.
Proof. destruct m as [[]|]; naive_solver. Qed.

Lemma wrap_err_ok {A} msg (m : result A) a : wrap_err msg m = Ok a <-> m = Ok a.
Proof. destruct m; naive_solver. Qed.

Lemma reject_if_ok c e u : reject_if c e = Ok u <-> c = false.
Proof. destruct c, u; naive_solver. Qed.

Lemma some_or_ok {A} (o : option A) e a : some_or o e = Ok a <-> o = Some a.
Proof. destruct o; naive_solver. Qed.

Lemma is_ok_true {A} (m : result A) : is_ok m = true <-> exists a, m = Ok a.
Proof. destruct m; naive_solver. Qed.

Lemma for_range_ok {A B} (f : nat -> A -> result B) i l bs :
  for_range f i l = Ok bs <->
  length bs = length l /\
  forall j a b, l !! j = Some a -> bs !! j = Some b -> f (i + j)%nat a = Ok b.
Proof.
  revert i bs. induction l as [|a l IH]; intros i bs; simpl.
  - split.
    + intros [= <-]. split; [done|]. intros j ? ? Hj. by rewrite lookup_nil in Hj.
    + intros [Hlen _]. destruct bs; naive_solver.
  - rewrite res_bind_ok. setoid_rewrite res_bind_ok. setoid_rewrite IH. split.
    + intros (b & Hb & bs' & [Hlen Hf] & [= <-]). simpl. split; [lia|].
      intros [|j] a' b' Ha Hb'; simplify_eq/=.
      * by rewrite Nat.add_0_r.
      * rewrite Nat.add_succ_r. by apply (Hf j).
    + intros [Hlen Hf]. destruct bs as [|b bs']; [done|]. simplify_eq/=.
      exists b. split.
      { rw -(Nat.add_0_r i). by apply (Hf 0%nat). }
      exists bs'. split; [|done]. split; [done|]. intros j a' b' Ha Hb'.
      change (f (S (i + j)) a' = Ok b'). rw -Nat.add_succ_r. by apply (Hf (S j)).
Qed.

Lemma for_range_length {A B} (f : nat -> A -> result B) i l bs :
  for_range f i l = Ok bs -> length bs = length l.
Proof. rewrite for_range_ok. tauto. Qed.

(** What every element is mapped to, the results are. *)
Lemma for_range_Forall {A B} (P : B -> Prop) (f : nat -> A -> result B) i l bs :
  (forall j a b, f j a = Ok b -> P b) -> for_range f i l = Ok bs -> Forall P bs.
Proof.
  intros Hf [Hlen Hr]%for_range_ok. apply Forall_lookup. intros j b Hb.
  destruct (lookup_lt_is_Some_2 l j) as [a Ha].
  { rw -Hlen. by eapply lookup_lt_Some. }
  by eapply Hf, Hr.
Qed.

Lemma for_check_ok {A} (f : nat -> A -> result unit) i l u :
  for_check f i l = Ok u <-> forall j a, l !! j = Some a -> f (i + j)%nat a = Ok tt.
Proof.
  destruct u. revert i. induction l as [|a l IH]; intros i; simpl.
  - split; [|done]. intros _ j ? Hj. by rewrite lookup_nil in Hj.
  - rewrite res_bind_ok. setoid_rewrite IH. split.
    + intros ([] & Ha & Hf) [|j] a' Hj; simplify_eq/=.
      * by rewrite Nat.add_0_r.
      * rewrite Nat.add_succ_r. by apply Hf.
    + intros Hf. exists tt. split.
      * rw -(Nat.add_0_r i). by apply (Hf 0%nat).
      * intros j a' Hj. change (f (S (i + j)) a' = Ok tt). rw -Nat.add_succ_r. by apply (Hf (S j)).
Qed.

(** When the body ignores the index, a checking loop is [Forall]. *)
Lemma for_check_Forall {A} (f : A -> result unit) i l u :
  for_check (fun _ => f) i l = Ok u <-> Forall (fun a => f a = Ok tt) l.
Proof.
  rw for_check_ok Forall_lookup. done.
Qed.

(** The invariant rule of a loop with local variables. *)
Lemma for_fold_inv {A S} (f : nat -> S -> A -> result S) (I : nat -> S -> Prop) i s l s' :
  I i s ->
  (forall j s a s', l !! j = Some a -> I (i + j)%nat s -> f (i + j)%nat s a = Ok s' ->
     I (i + j + 1)%nat s') ->
  for_fold f i s l = Ok s' -> I (i + length l)%nat s'.
Proof.
  revert i s. induction l as [|a l IH]; intros i s HI Hstep; simpl.
  - intros [= <-]. by rewrite Nat.add_0_r.
  - rewrite res_bind_ok. intros (s1 & Hf & Hrest).
    replace (i + Datatypes.S (length l))%nat with (i + 1 + length l)%nat by lia.
    eapply IH; [| |exact Hrest].
    + rw -(Nat.add_0_r i). eapply (Hstep 0%nat); [done| |];
        by rewrite Nat.add_0_r.
    + intros j t b t' Hb HIt Ht.
      replace (i + 1 + j)%nat with (i + Datatypes.S j)%nat in * by lia.
      by eapply (Hstep (Datatypes.S j)).
Qed.

(** [go_inv] turns the hypothesis that a handler returned without error into
    the facts its checks established. *)
Ltac go_inv_step :=
  match goal with
  | H : res_bind _ _ = Ok _ |- _ =>
      let a := fresh "a" in let Ha := fresh "H" in
      apply res_bind_ok in H; destruct H as (a & Ha & H)
  | H : wrap_err _ _ = Ok _ |- _ => apply wrap_err_ok in H
  | H : reject_if _ _ = Ok _ |- _ => apply reject_if_ok in H
  | H : some_or _ _ = Ok _ |- _ => apply some_or_ok in H
  | H : Ok _ = Ok _ |- _ => injection H; clear H; intros; try subst
  | H : Err _ = Ok _ |- _ => discriminate H
  | H : Ok _ = Err _ |- _ => discriminate H
  | u : unit |- _ => destruct u
  end.
Ltac go_inv := repeat go_inv_step.

(** [go_bool] reads boolean conditions as propositions. *)
Ltac go_bool_step :=
  match goal with
  | H : negb _ = true |- _ => apply negb_true_iff in H
  | H : negb _ = false |- _ => apply negb_false_iff in H
  | H : _ || _ = false |- _ => apply orb_false_iff in H; destruct H
  | H : _ && _ = true |- _ => apply andb_true_iff in H; destruct H
  | H : _ || _ = true |- _ => apply orb_true_iff in H
  | H : _ && _ = false |- _ => apply andb_false_iff in H
  | H : (_ =? _) = true |- _ => apply Z.eqb_eq in H
  | H : (_ =? _) = false |- _ => apply Z.eqb_neq in H
  | H : (_ <? _) = true |- _ => apply Z.ltb_lt in H
  | H : (_ <? _) = false |- _ => apply Z.ltb_ge in H
  | H : (_ <=? _) = true |- _ => apply Z.leb_le in H
  | H : (_ <=? _) = false |- _ => apply Z.leb_gt in H
  | H : (_ >? _) = true |- _ => rewrite Z.gtb_ltb in H
  | H : (_ >? _) = false |- _ => rewrite Z.gtb_ltb in H
  | H : (_ >=? _) = true |- _ => rewrite Z.geb_leb in H
  | H : (_ >=? _) = false |- _ => rewrite Z.geb_leb in H
  | H : bool_decide _ = true |- _ => apply bool_decide_eq_true in H
  | H : bool_decide _ = false |- _ => apply bool_decide_eq_false in H
  | H : Nat.eqb _ _ = true |- _ => apply Nat.eqb_eq in H
  | H : Nat.eqb _ _ = false |- _ => apply Nat.eqb_neq in H
  | H : ~ (_ <> _) |- _ => apply dec_stable in H
  end.
Ltac go_bool := repeat go_bool_step.
Ltac go_ok := go_inv; go_bool.

#[export] Hint Rewrite @res_bind_ok @wrap_err_ok reject_if_ok @some_or_ok : go.
#[export] Hint Resolve for_range_length : go.

(* ------------------------------------------------------------------ *)
(** ** Machine integers: [uint64] with its wrap-around *)

Definition u64_mod : Z := 2 ^ 64.
Definition is_uint (w : Z) (z : Z) : Prop := 0 <= z < 2 ^ w.
Abbreviation is_u64 := (is_uint 64).

Definition add64 (a b : Z) : Z := (a + b) mod 2 ^ 64.
Definition sub64 (a b : Z) : Z := (a - b) mod 2 ^ 64.

#[export] Instance is_uint_dec w z : Decision (is_uint w z).
Proof. unfold is_uint. apply _. Defined.

Lemma add64_range a b : is_u64 (add64 a b).
Proof. apply Z.mod_pos_bound. lia. Qed.

Lemma sub64_range a b : is_u64 (sub64 a b).
Proof. apply Z.mod_pos_bound. lia. Qed.

Lemma add64_small a b : 0 <= a -> 0 <= b -> a + b < 2 ^ 64 -> add64 a b = a + b.
Proof. intros. apply Z.mod_small. lia. Qed.

Lemma sub64_small a b : 0 <= b <= a -> a < 2 ^ 64 -> sub64 a b = a - b.
Proof. intros. apply Z.mod_small. lia. Qed.

(** A subtraction that underflows wraps to the top of the range. *)
Lemma sub64_underflow a b : is_u64 a -> is_u64 b -> a < b -> sub64 a b = 2 ^ 64 + a - b.
Proof.
  unfold is_uint, sub64. intros. symmetry. apply (Z.mod_unique _ _ (-1)); lia.
Qed.

Lemma is_uint_mono w w' z : 0 <= w <= w' -> is_uint w z -> is_uint w' z.
Proof.
  unfold is_uint. intros Hw [Hz1 Hz2]. split; [done|].
  eapply Z.lt_le_trans; [done|]. apply Z.pow_le_mono_r; lia.
Qed.

#[export] Hint Resolve add64_range sub64_range : go.

(** [big.Int.Uint64]: the low 64 bits of the absolute value. *)
Definition big_Uint64 (z : Z) : Z := Z.abs z mod 2 ^ 64.

Lemma big_Uint64_small z : is_u64 z -> big_Uint64 z = z.
Proof.
  unfold is_uint, big_Uint64. intros. rewrite Z.abs_eq by lia. apply Z.mod_small. lia.
Qed.

(** [big.Int.IsUint64] and [big.Int.BitLen]. *)
Definition big_IsUint64 (z : Z) : bool := (0 <=? z) && (z <? 2 ^ 64).
Definition big_BitLen (z : Z) : Z :=
  if z =? 0 then 0 else Z.log2 (Z.abs z) + 1.

Lemma big_BitLen_le z n : 0 <= z -> 0 <= n -> (big_BitLen z <= n <-> z < 2 ^ n).
Proof.
  intros Hz Hn. unfold big_BitLen. destruct (Z.eqb_spec z 0) as [->|Hne].
  - split; [|lia]. intros _. apply Z.pow_pos_nonneg; lia.
  - rewrite Z.abs_eq by lia. rewrite Z.log2_lt_pow2 by lia. lia.
Qed.

(* ------------------------------------------------------------------ *)
(** ** Lists *)

(** Adjacent elements of a list are related by [R]. *)
Fixpoint chained {A} (R : A -> A -> Prop) (l : list A) : Prop :=
  match l with
  | a :: ((b :: _) as l') => R a b /\ chained R l'
  | _ => True
  end.

#[export] Instance chained_dec {A} (R : A -> A -> Prop) `{!RelDecision R} l :
  Decision (chained R l).
Proof.
  induction l as [|a [|b l] IH]; simpl.
  - left. exact I.
  - left. exact I.
  - destruct (decide (R a b)); destruct IH; [left|right|right|right]; simpl in *; tauto.
Defined.

Lemma chained_lookup {A} (R : A -> A -> Prop) l :
  chained R l <->
  forall i a b, l !! i = Some a -> l !! S i = Some b -> R a b.
Proof.
  induction l as [|a [|b l] IH].
  - split; [|done]. intros _ i ? ? H. by rewrite lookup_nil in H.
  - split; [|done]. intros _ [|i] ? ? H1 H2; simplify_eq/=.
  - change (R a b /\ chained R (b :: l) <-> forall i x y,
      (a :: b :: l) !! i = Some x -> (a :: b :: l) !! S i = Some y -> R x y).
    rewrite IH. split.
    + intros [HR H] [|i] x y Hx Hy; simplify_eq/=; eauto.
    + intros H. split; [by apply (H 0%nat)|]. intros i x y Hx Hy.
      by apply (H (S i)).
Qed.

Lemma chained_impl {A} (R R' : A -> A -> Prop) l :
  (forall a b, R a b -> R' a b) -> chained R l -> chained R' l.
Proof. rw !chained_lookup. eauto. Qed.

(** A relation that is transitive relates every earlier element to every
    later one. *)
Lemma chained_trans {A} (R : A -> A -> Prop) `{!Transitive R} l i j a b :
  chained R l -> (i < j)%nat -> l !! i = Some a -> l !! j = Some b -> R a b.
Proof.
  rewrite chained_lookup. intros HR Hij Ha Hb.
  induction Hij as [|j Hij IH] in b, Hb |- *; [by eapply HR|].
  destruct (lookup_lt_is_Some_2 l j) as [c Hc].
  { apply lookup_lt_Some in Hb. lia. }
  etrans; [by apply IH|by eapply HR].
Qed.

Lemma cons_inv {A} (x y : A) l m : x :: l = y :: m -> x = y /\ l = m.
Proof. by intros [= -> ->]. Qed.

(** Splits an equation of explicit lists without evaluating the elements. *)
Ltac cons_inv H :=
  lazymatch type of H with
  | _ :: _ = _ :: _ =>
      let H1 := fresh "Heq" in apply cons_inv in H; destruct H as [H1 H]; cons_inv H
  | _ => clear H
  end.

(** Splits visible conjunctions only (it does not unfold a range). *)
Ltac split_conj := repeat match goal with |- _ /\ _ => split end.

Lemma forallb_eq_Forall x l : forallb (fun a => a =? x) l = true <-> Forall (eq x) l.
Proof.
  induction l as [|a l IH]; cbn; [done|].
  rewrite andb_true_iff, IH, Forall_cons, Z.eqb_eq. naive_solver.
Qed.
