(* ===== verification/Bytes.v ===== *)
(** * Bytes, big-endian words, hashes and addresses

    A [[]byte] is a [list byte].  The fixed arrays [common.Hash] ([[32]byte])
    and [common.Address] ([[20]byte]) are the big-endian numbers of their
    bytes, in the ranges [is_hash] and [is_address]; [Hash_Bytes] and
    [Address_Bytes] give the array back.  This file also holds the word
    encoders of [internal/prover/hash.go]. *)

From Stdlib Require Export Init.Byte.
From Stdlib Require Strings.Byte.
From S2P Require Import Prelude.

#[export] Instance byte_eq_dec : EqDecision byte := Strings.Byte.byte_eq_dec.
#[export] Instance byte_countable : Countable byte :=
  inj_countable Strings.Byte.to_N Strings.Byte.of_N Strings.Byte.of_to_N.

(* ------------------------------------------------------------------ *)
(** ** Bytes as numbers *)

Definition byte_val (b : byte) : Z := Z.of_N (Strings.Byte.to_N b).

(** [byte(z)]: the conversion truncates. *)
Definition byte_of (z : Z) : byte :=
  default x00 (Strings.Byte.of_N (Z.to_N (z mod 256))).

Lemma byte_val_range b : 0 <= byte_val b < 256.
Proof.
  unfold byte_val. pose proof (Strings.Byte.to_N_bounded b). lia.
Qed.

Lemma byte_val_of z : byte_val (byte_of z) = z mod 256.
Proof.
  unfold byte_val, byte_of. pose proof (Z.mod_pos_bound z 256 ltac:(lia)).
  destruct (Strings.Byte.of_N (Z.to_N (z mod 256))) as [b|] eqn:E; simpl.
  - apply Strings.Byte.to_of_N in E. lia.
  - apply Strings.Byte.of_N_None_iff in E. lia.
Qed.

Lemma byte_of_val b : byte_of (byte_val b) = b.
Proof.
  unfold byte_of, byte_val. pose proof (Strings.Byte.to_N_bounded b).
  rewrite Z.mod_small by lia. rewrite N2Z.id. by rewrite Strings.Byte.of_to_N.
Qed.

Lemma byte_val_inj a b : byte_val a = byte_val b -> a = b.
Proof. intros H. by rw -(byte_of_val a) -(byte_of_val b) H. Qed.

Lemma byte_of_mod z : byte_of (z mod 256) = byte_of z.
Proof. apply byte_val_inj. rw !byte_val_of Z.mod_mod //. Qed.

(* ------------------------------------------------------------------ *)
(** ** Big-endian numbers *)

Definition be_Z (bs : list byte) : Z :=
  fold_left (fun acc b => acc * 256 + byte_val b) bs 0.

Fixpoint be_bytes (n : nat) (z : Z) : list byte :=
  match n with
  | O => []
  | S n' => be_bytes n' (z / 256) ++ [byte_of z]
  end.

Lemma be_Z_snoc bs b : be_Z (bs ++ [b]) = be_Z bs * 256 + byte_val b.
Proof. unfold be_Z. by rewrite fold_left_app. Qed.

Lemma length_be_bytes n z : length (be_bytes n z) = n.
Proof.
  revert z. induction n as [|n IH]; intros z; simpl; [done|].
  rewrite length_app, IH. simpl. lia.
Qed.

Lemma be_Z_range bs : 0 <= be_Z bs < 256 ^ Z.of_nat (length bs).
Proof.
  induction bs as [|b bs IH] using rev_ind; [done|].
  rewrite be_Z_snoc, length_app. simpl.
  replace (Z.of_nat (length bs + 1)) with (Z.succ (Z.of_nat (length bs))) by lia.
  rewrite Z.pow_succ_r by lia. pose proof (byte_val_range b). lia.
Qed.

Lemma be_Z_bytes n z : be_Z (be_bytes n z) = z mod 256 ^ Z.of_nat n.
Proof.
  revert z. induction n as [|n IH]; intros z; simpl be_bytes.
  - rewrite Z.mod_1_r. done.
  - rewrite be_Z_snoc, IH, byte_val_of.
    replace (Z.of_nat (S n)) with (Z.succ (Z.of_nat n)) by lia.
    rewrite Z.pow_succ_r by lia.
    assert (0 < 256 ^ Z.of_nat n) by (apply Z.pow_pos_nonneg; lia).
    rewrite Z.rem_mul_r by lia. lia.
Qed.

Lemma be_bytes_Z bs : be_bytes (length bs) (be_Z bs) = bs.
Proof.
  induction bs as [|b bs IH] using rev_ind; [done|].
  rewrite length_app, be_Z_snoc, Nat.add_comm. simpl.
  pose proof (byte_val_range b).
  rewrite Z.div_add_l by lia. rewrite (Z.div_small (byte_val b)) by lia.
  rewrite Z.add_0_r, IH. f_equal. f_equal.
  rw -byte_of_mod. rewrite Z.add_comm, Z.mod_add by lia.
  rw Z.mod_small //. apply byte_of_val.
Qed.

Lemma be_bytes_inj n a b :
  0 <= a < 256 ^ Z.of_nat n -> 0 <= b < 256 ^ Z.of_nat n ->
  be_bytes n a = be_bytes n b -> a = b.
Proof.
  intros Ha Hb H. apply (f_equal be_Z) in H. rewrite !be_Z_bytes in H.
  by rewrite !Z.mod_small in H by done.
Qed.

Lemma be_Z_inj bs cs : length bs = length cs -> be_Z bs = be_Z cs -> bs = cs.
Proof. intros Hl H. rw -(be_bytes_Z bs) -(be_bytes_Z cs) Hl H //. Qed.

Lemma be_Z_app bs cs :
  be_Z (bs ++ cs) = be_Z bs * 256 ^ Z.of_nat (length cs) + be_Z cs.
Proof.
  induction cs as [|c cs IH] using rev_ind.
  - rw app_nil_r. change (be_Z []) with 0. simpl length. lia.
  - rw app_assoc !be_Z_snoc IH length_app /=.
    replace (Z.of_nat (length cs + 1)) with (Z.succ (Z.of_nat (length cs))) by lia.
    rewrite Z.pow_succ_r by lia. ring.
Qed.

Lemma be_Z_zeros n : be_Z (replicate n x00) = 0.
Proof.
  induction n as [|n IH]; [done|].
  rewrite replicate_S_end, be_Z_snoc, IH. done.
Qed.

(* ------------------------------------------------------------------ *)
(** ** [common.Hash] and [common.Address] *)

Abbreviation HashLength := 32%nat.
Abbreviation AddressLength := 20%nat.
Abbreviation is_hash := (is_uint 256).
Abbreviation is_address := (is_uint 160).

(** [Hash.Bytes] and [Address.Bytes]. *)
Definition Hash_Bytes (h : Z) : list byte := be_bytes HashLength h.
Definition Address_Bytes (a : Z) : list byte := be_bytes AddressLength a.

(** [common.BytesToHash]: "if b is larger than len(h), b will be cropped from
    the left"; a shorter [b] is right aligned. *)
Definition BytesToHash (bs : list byte) : Z := be_Z bs mod 2 ^ 256.
Definition BytesToAddress (bs : list byte) : Z := be_Z bs mod 2 ^ 160.

(** [common.LeftPadBytes]. *)
Definition LeftPadBytes (bs : list byte) (l : nat) : list byte :=
  if (l <=? length bs)%nat then bs else replicate (l - length bs) x00 ++ bs.

Lemma length_Hash_Bytes h : length (Hash_Bytes h) = 32%nat.
Proof. apply length_be_bytes. Qed.

Lemma length_Address_Bytes a : length (Address_Bytes a) = 20%nat.
Proof. apply length_be_bytes. Qed.

Lemma BytesToHash_range bs : is_hash (BytesToHash bs).
Proof. apply Z.mod_pos_bound. lia. Qed.

Lemma BytesToAddress_range bs : is_address (BytesToAddress bs).
Proof. apply Z.mod_pos_bound. lia. Qed.

Lemma pow256 n : 256 ^ Z.of_nat n = 2 ^ (8 * Z.of_nat n).
Proof. rewrite Z.pow_mul_r by lia. done. Qed.

Lemma be_Z_Hash_Bytes h : be_Z (Hash_Bytes h) = h mod 2 ^ 256.
Proof. apply be_Z_bytes. Qed.

Lemma be_Z_Address_Bytes a : be_Z (Address_Bytes a) = a mod 2 ^ 160.
Proof. apply be_Z_bytes. Qed.

Lemma BytesToHash_Bytes h : is_hash h -> BytesToHash (Hash_Bytes h) = h.
Proof.
  intros Hh. unfold BytesToHash, Hash_Bytes. rewrite be_Z_bytes.
  change (256 ^ Z.of_nat 32) with (2 ^ 256). unfold is_uint in Hh.
  by rewrite !Z.mod_small by (rewrite ?Z.mod_small; done).
Qed.

Lemma BytesToAddress_Bytes a : is_address a -> BytesToAddress (Address_Bytes a) = a.
Proof.
  intros Ha. unfold BytesToAddress, Address_Bytes. rewrite be_Z_bytes.
  change (256 ^ Z.of_nat 20) with (2 ^ 160). unfold is_uint in Ha.
  by rewrite !Z.mod_small by (rewrite ?Z.mod_small; done).
Qed.

Lemma Hash_Bytes_BytesToHash bs : length bs = 32%nat -> Hash_Bytes (BytesToHash bs) = bs.
Proof.
  intros Hl. unfold BytesToHash, Hash_Bytes. pose proof (be_Z_range bs) as Hr.
  rewrite Hl in Hr. change (256 ^ Z.of_nat 32) with (2 ^ 256) in Hr.
  rewrite Z.mod_small by done. rw -Hl. apply be_bytes_Z.
Qed.

Lemma Address_Bytes_BytesToAddress bs :
  length bs = 20%nat -> Address_Bytes (BytesToAddress bs) = bs.
Proof.
  intros Hl. unfold BytesToAddress, Address_Bytes. pose proof (be_Z_range bs) as Hr.
  rewrite Hl in Hr. change (256 ^ Z.of_nat 20) with (2 ^ 160) in Hr.
  rewrite Z.mod_small by done. rw -Hl. apply be_bytes_Z.
Qed.

Lemma Hash_Bytes_inj a b : is_hash a -> is_hash b -> Hash_Bytes a = Hash_Bytes b -> a = b.
Proof. intros Ha Hb. by apply be_bytes_inj. Qed.

#[export] Hint Resolve BytesToHash_range BytesToAddress_range length_Hash_Bytes
  length_Address_Bytes : go.
#[export] Hint Rewrite length_be_bytes length_Hash_Bytes length_Address_Bytes : go.

#[global] Arguments be_Z : simpl never.
#[global] Opaque be_bytes Hash_Bytes Address_Bytes.
