(* ===== verification/GoStd.v ===== *)
(** * The parts of the Go standard library the source uses on text

    [strings.TrimSpace], [strings.TrimPrefix], [strconv.ParseUint],
    [big.Int.SetString], [encoding/hex] and [%d] formatting.  A Go string is a
    Rocq [string] read as a sequence of bytes. *)

From Stdlib Require Import Ascii.
From S2P Require Import Prelude Bytes.

(* ------------------------------------------------------------------ *)
(** ** Characters *)

Abbreviation chars := (list ascii).
Definition chars_of (s : string) : chars := list_ascii_of_string s.
Definition ascii_code (c : ascii) : Z := Z.of_N (N_of_ascii c).

(** The value of a digit in any base up to 36. *)
Definition digit_val (c : ascii) : option Z :=
  let n := ascii_code c in
  if (48 <=? n) && (n <=? 57) then Some (n - 48)
  else if (97 <=? n) && (n <=? 122) then Some (n - 87)
  else if (65 <=? n) && (n <=? 90) then Some (n - 55)
  else None.

Fixpoint digits_val (base acc : Z) (cs : chars) : option Z :=
  match cs with
  | [] => Some acc
  | c :: cs' =>
      match digit_val c with
      | Some d => if d <? base then digits_val base (acc * base + d) cs' else None
      | None => None
      end
  end.

(** [strconv.ParseUint(s, base, bitSize)] for base 10 or 16. *)
Definition ParseUint (s : string) (base bitSize : Z) : result Z :=
  match chars_of s with
  | [] => Err (Errorf "strconv.ParseUint: invalid syntax")
  | cs =>
      match digits_val base 0 cs with
      | None => Err (Errorf "strconv.ParseUint: invalid syntax")
      | Some v =>
          if v <? 2 ^ bitSize then Ok v
          else Err (Errorf "strconv.ParseUint: value out of range")
      end
  end.

(** [strconv.ParseUint(s, 0, bitSize)]: the base is read off the prefix, and
    underscores may stand between digits.  [underscoreOK] is the check of that
    name in [strconv]: [saw_digit] holds after a digit or the base prefix,
    [saw_underscore] after an underscore. *)
Definition base_prefix (c : ascii) : option Z :=
  match c with
  | "b"%char | "B"%char => Some 2
  | "o"%char | "O"%char => Some 8
  | "x"%char | "X"%char => Some 16
  | _ => None
  end.

Fixpoint underscores_ok (base : Z) (saw_digit saw_underscore : bool) (cs : chars) : bool :=
  match cs with
  | [] => negb saw_underscore
  | "_"%char :: cs' => saw_digit && underscores_ok base false true cs'
  | c :: cs' =>
      match digit_val c with
      | Some d =>
          if d <? base then underscores_ok base true false cs'
          else negb saw_underscore && underscores_ok base false false cs'
      | None => negb saw_underscore && underscores_ok base false false cs'
      end
  end.

Definition underscoreOK (cs : chars) : bool :=
  match cs with
  | "0"%char :: p :: cs' =>
      match base_prefix p with
      | Some base => underscores_ok (Z.max base 10) true false cs'
      | None => underscores_ok 10 false false cs
      end
  | _ => underscores_ok 10 false false cs
  end.

Definition ParseUint_auto (s : string) (bitSize : Z) : result Z :=
  let syntax := Err (Errorf "strconv.ParseUint: invalid syntax") in
  let cs := chars_of s in
  let '(base, digits) :=
    match cs with
    | "0"%char :: p :: ((_ :: _) as rest) =>
        match base_prefix p with
        | Some base => (base, rest)
        | None => (8, p :: rest)
        end
    | "0"%char :: rest => (8, rest)
    | _ => (10, cs)
    end in
  match cs with
  | [] => syntax
  | _ =>
      match digits_val base 0 (filter (fun c => c <> "_"%char) digits) with
      | None => syntax
      | Some v =>
          if negb (v <? 2 ^ bitSize) then Err (Errorf "strconv.ParseUint: value out of range")
          else if existsb (Ascii.eqb "_") digits && negb (underscoreOK cs) then syntax
          else Ok v
      end
  end.

(** [strings.ToLower], exact on ASCII text: the ASCII letters and the two
    other runes whose lower case is an ASCII letter (U+0130 and U+212A) are
    mapped, every other non-ASCII rune is left as it is.  The source only
    compares the result with ASCII words. *)
Definition lower_ascii (c : ascii) : ascii :=
  let n := ascii_code c in
  if (65 <=? n) && (n <=? 90) then ascii_of_N (Z.to_N (n + 32)) else c.

Fixpoint lower_chars (cs : chars) : chars :=
  match cs with
  | [] => []
  | "196"%char :: (("176"%char :: cs') as t) => "i"%char :: lower_chars cs'
  | "226"%char :: (("132"%char :: ("170"%char :: cs')) as t) => "k"%char :: lower_chars cs'
  | c :: cs' => lower_ascii c :: lower_chars cs'
  end.

Definition ToLower (s : string) : string := string_of_list_ascii (lower_chars (chars_of s)).

(** [new(big.Int).SetString(s, base)] for base 10 or 16: an optional sign and
    at least one digit, nothing after. *)
Definition big_SetString (s : string) (base : Z) : option Z :=
  let unsigned (cs : chars) :=
    match cs with [] => None | _ => digits_val base 0 cs end in
  match chars_of s with
  | "-"%char :: cs => Z.opp <$> unsigned cs
  | "+"%char :: cs => unsigned cs
  | cs => unsigned cs
  end.

(** [strings.HasPrefix] and the tail after a prefix. *)
Fixpoint strip_prefix (p cs : chars) : option chars :=
  match p, cs with
  | [], _ => Some cs
  | a :: p', c :: cs' => if Ascii.eqb a c then strip_prefix p' cs' else None
  | _ :: _, [] => None
  end.

Definition HasPrefix (s p : string) : bool :=
  match strip_prefix (chars_of p) (chars_of s) with Some _ => true | None => false end.

Definition TrimPrefix (s p : string) : string :=
  match strip_prefix (chars_of p) (chars_of s) with
  | Some cs => string_of_list_ascii cs
  | None => s
  end.

(** [s[n:]]. *)
Definition str_drop (n : nat) (s : string) : string :=
  string_of_list_ascii (drop n (chars_of s)).

(** The UTF-8 encodings of the runes [unicode.IsSpace] accepts. *)
Definition space_runes : list chars :=
  map (map ascii_of_nat)
    ([ [9]; [10]; [11]; [12]; [13]; [32]; [194; 133]; [194; 160]; [225; 154; 128] ] ++
     map (fun b => [226; 128; b]) (seq 128 11) ++
     [ [226; 128; 168]; [226; 128; 169]; [226; 128; 175]; [226; 129; 159];
       [227; 128; 128] ])%nat.

Definition strip_any (ps : list chars) (cs : chars) : option chars :=
  foldr (fun p r => match strip_prefix p cs with Some cs' => Some cs' | None => r end)
    None ps.

(** The fuel is the length: every round removes a byte. *)
Fixpoint trim_with (ps : list chars) (fuel : nat) (cs : chars) : chars :=
  match fuel with
  | O => cs
  | S fuel' =>
      match strip_any ps cs with Some cs' => trim_with ps fuel' cs' | None => cs end
  end.

(** [strings.TrimSpace]. *)
Definition TrimSpace (s : string) : string :=
  let cs := chars_of s in
  let left_trimmed := trim_with space_runes (length cs) cs in
  let both := rev (trim_with (map (@rev ascii) space_runes) (length left_trimmed)
    (rev left_trimmed)) in
  string_of_list_ascii both.

(* ------------------------------------------------------------------ *)
(** ** Hexadecimal *)

(** [encoding/hex.DecodeString]. *)
Fixpoint hex_pairs (cs : chars) : option (list byte) :=
  match cs with
  | [] => Some []
  | [_] => None
  | a :: b :: cs' =>
      match digit_val a, digit_val b, hex_pairs cs' with
      | Some x, Some y, Some bs =>
          if (x <? 16) && (y <? 16) then Some (byte_of (x * 16 + y) :: bs) else None
      | _, _, _ => None
      end
  end.

Definition hex_DecodeString (s : string) : result (list byte) :=
  match hex_pairs (chars_of s) with
  | Some bs => Ok bs
  | None => Err (Errorf "encoding/hex: invalid byte or odd length")
  end.

Definition hex_digit (z : Z) : ascii :=
  ascii_of_N (Z.to_N (if z <? 10 then 48 + z else 87 + z)).

(** [hex.EncodeToString]. *)
Definition hex_EncodeToString (bs : list byte) : string :=
  string_of_list_ascii
    (concat ((fun b => [hex_digit (byte_val b / 16); hex_digit (byte_val b mod 16)]) <$> bs)).

(* ------------------------------------------------------------------ *)
(** ** [fmt.Sprintf] of [%d] and [%x] *)

Fixpoint digit_chars (base : Z) (fuel : nat) (n : Z) (acc : chars) : chars :=
  match fuel with
  | O => acc
  | S fuel' =>
      let acc' := hex_digit (n mod base) :: acc in
      if n / base =? 0 then acc' else digit_chars base fuel' (n / base) acc'
  end.

(** The fuel is more than the number of digits of [n], in any base. *)
Definition format_base (base n : Z) : string :=
  string_of_list_ascii (digit_chars base (S (Z.to_nat (Z.log2 n))) n []).

Definition format_uint (n : Z) : string := format_base 10 n.
Definition format_hex (n : Z) : string := "0x" +:+ format_base 16 n.

(* ------------------------------------------------------------------ *)
(** ** Parsing what is printed *)

Lemma chars_of_list cs : chars_of (string_of_list_ascii cs) = cs.
Proof. apply list_ascii_of_string_of_list_ascii. Qed.

Lemma digits_val_app base acc cs ds :
  digits_val base acc (cs ++ ds) =
  match digits_val base acc cs with Some v => digits_val base v ds | None => None end.
Proof.
  revert acc. induction cs as [|c cs IH]; intros acc; simpl; [done|].
  destruct (digit_val c) as [d|]; [|done]. destruct (d <? base); [apply IH|done].
Qed.

Lemma digits_val_nonneg base acc cs v :
  0 <= base -> 0 <= acc -> digits_val base acc cs = Some v -> 0 <= v.
Proof.
  intros Hb. revert acc. induction cs as [|c cs IH]; simpl; intros acc Hacc.
  - intros [= <-]. done.
  - destruct (digit_val c) as [d|] eqn:Hd; [|done]. destruct (d <? base); [|done].
    apply IH. assert (0 <= d); [|nia]. unfold digit_val in Hd.
    repeat case_match; simplify_eq; go_bool; lia.
Qed.

Lemma digit_val_hex d : 0 <= d < 16 -> digit_val (hex_digit d) = Some d.
Proof.
  intros Hd. assert (Hc : d = 0 \/ d = 1 \/ d = 2 \/ d = 3 \/ d = 4 \/ d = 5 \/ d = 6 \/
    d = 7 \/ d = 8 \/ d = 9 \/ d = 10 \/ d = 11 \/ d = 12 \/ d = 13 \/ d = 14 \/ d = 15) by lia.
  repeat destruct Hc as [->|Hc]; try reflexivity. subst. reflexivity.
Qed.

Section Digits.
Context (base : Z) (Hbase : 2 <= base <= 16).

Lemma digit_chars_acc fuel n acc :
  digit_chars base fuel n acc = digit_chars base fuel n [] ++ acc.
Proof.
  revert n acc. induction fuel as [|fuel IH]; intros n acc; cbn [digit_chars]; [done|].
  destruct (n / base =? 0); [done|].
  rewrite IH, (IH (n / base) [_]). by rewrite <- app_assoc.
Qed.

Lemma digits_val_digit acc d :
  0 <= d < base -> digits_val base acc [hex_digit d] = Some (acc * base + d).
Proof.
  intros Hd. cbn [digits_val]. rewrite digit_val_hex by lia.
  by rewrite (proj2 (Z.ltb_lt d base)) by lia.
Qed.

Lemma digit_chars_val fuel n :
  0 <= n -> n < base ^ Z.of_nat fuel -> digits_val base 0 (digit_chars base fuel n []) = Some n.
Proof.
  revert n. induction fuel as [|fuel IH]; intros n Hn Hlt.
  { simpl in *. f_equal. lia. }
  cbn [digit_chars]. pose proof (Z.mod_pos_bound n base ltac:(lia)) as Hm.
  pose proof (Z.div_mod n base ltac:(lia)).
  destruct (Z.eqb_spec (n / base) 0) as [E|E].
  - rewrite digits_val_digit by done. f_equal. lia.
  - rewrite digit_chars_acc, digits_val_app, IH.
    + rewrite digits_val_digit by done. f_equal. lia.
    + apply Z.div_pos; lia.
    + rewrite Nat2Z.inj_succ, Z.pow_succ_r in Hlt by lia.
      apply Z.div_lt_upper_bound; lia.
Qed.

Lemma digits_fuel n : 0 <= n -> n < base ^ Z.of_nat (S (Z.to_nat (Z.log2 n))).
Proof using Hbase.
  intros Hn. destruct (Z.eqb_spec n 0) as [->|Hne].
  { apply Z.pow_pos_nonneg; lia. }
  pose proof (Z.log2_nonneg n). pose proof (Z.log2_spec n ltac:(lia)) as [_ Hlt].
  rewrite Nat2Z.inj_succ, Z2Nat.id by done. eapply Z.lt_le_trans; [done|].
  apply Z.pow_le_mono_l. lia.
Qed.

Lemma format_base_val n :
  0 <= n -> chars_of (format_base base n) <> [] /\
  digits_val base 0 (chars_of (format_base base n)) = Some n.
Proof.
  intros Hn. unfold format_base. rewrite chars_of_list. split.
  - cbn [digit_chars]. destruct (n / base =? 0); [done|]. rewrite digit_chars_acc.
    by destruct (digit_chars _ _ _ []).
  - apply digit_chars_val; [done|by apply digits_fuel].
Qed.

(** A printed [uint64] parses back to itself. *)
Lemma ParseUint_base n bits :
  0 <= n < 2 ^ bits -> ParseUint (format_base base n) base bits = Ok n.
Proof.
  intros Hn. unfold ParseUint. destruct (format_base_val n ltac:(lia)) as [Hne Hv].
  destruct (chars_of (format_base base n)) as [|c cs]; [done|].
  rewrite Hv. by rewrite (proj2 (Z.ltb_lt n (2 ^ bits))) by lia.
Qed.

(** A printed number is read back by [big.Int.SetString] too: it has no sign. *)
Lemma big_SetString_base n : 0 <= n -> big_SetString (format_base base n) base = Some n.
Proof.
  intros Hn. unfold big_SetString. destruct (format_base_val n Hn) as [Hne Hv].
  destruct (chars_of (format_base base n)) as [|c cs]; [done|].
  destruct c as [[] [] [] [] [] [] [] []]; try exact Hv; cbn in Hv; done.
Qed.
End Digits.

Lemma ParseUint_range s base bits v :
  0 <= base -> ParseUint s base bits = Ok v -> is_uint bits v.
Proof.
  unfold ParseUint, is_uint. intros Hb. destruct (chars_of s) as [|c cs]; [done|].
  destruct (digits_val base 0 (c :: cs)) as [w|] eqn:E; [|done].
  destruct (Z.ltb_spec w (2 ^ bits)); [|done]. intros [= <-].
  split; [|done]. by eapply digits_val_nonneg in E.
Qed.

Lemma ParseUint_format n bits :
  0 <= n < 2 ^ bits -> ParseUint (format_uint n) 10 bits = Ok n.
Proof. by apply ParseUint_base. Qed.

Lemma big_SetString_format n : 0 <= n -> big_SetString (format_uint n) 10 = Some n.
Proof. by apply big_SetString_base. Qed.

(** The digits after the prefix of a hexadecimal quantity. *)
Lemma format_hex_digits n :
  str_drop 2 (format_hex n) = format_base 16 n /\ HasPrefix (format_hex n) "0x" = true /\
  String.eqb (format_hex n) "" = false.
Proof.
  split; [|done]. unfold str_drop, format_hex. cbn.
  apply string_of_list_ascii_of_string.
Qed.

(** Decoding undoes encoding. *)
Lemma hex_Decode_Encode bs : hex_DecodeString (hex_EncodeToString bs) = Ok bs.
Proof.
  unfold hex_DecodeString, hex_EncodeToString. rewrite chars_of_list.
  assert (hex_pairs (concat ((fun b => [hex_digit (byte_val b / 16);
    hex_digit (byte_val b mod 16)]) <$> bs)) = Some bs) as ->; [|done].
  induction bs as [|b bs IH]; [done|]. rewrite fmap_cons, concat_cons. cbn [app hex_pairs].
  pose proof (byte_val_range b).
  pose proof (Z.mod_pos_bound (byte_val b) 16 ltac:(lia)).
  assert (0 <= byte_val b / 16 < 16).
  { split; [apply Z.div_pos; lia|apply Z.div_lt_upper_bound; lia]. }
  rewrite !digit_val_hex, IH by done.
  assert ((byte_val b / 16 <? 16) && (byte_val b mod 16 <? 16) = true) as ->.
  { rewrite andb_true_iff, !Z.ltb_lt. lia. }
  do 2 f_equal. pose proof (Z.div_mod (byte_val b) 16 ltac:(lia)).
  replace (byte_val b / 16 * 16 + byte_val b mod 16) with (byte_val b) by lia.
  apply byte_of_val.
Qed.
