(* ===== verification/FileSystem.v ===== *)
(** * The file system and effectful programs

    What [internal/tee] uses of the packages [os], [io/fs], [path/filepath]
    and [crypto/rand].  A Go function that touches the file system is a
    [prog]: a tree of calls, each followed by what the function does with the
    answer.  [handle] executes one call on a state [FS]; a [choice] made by the
    environment lets any call fail and supplies randomness.  Programs of
    several processes interleave call by call ([cstep]).

    [Print] writes to the standard output or error, which the state remembers.

    A state keeps, for every name, the entries a crash may bring back, and for
    every file whether its content reached the disk: [may_read] is what a
    reader may find at a name, now or after a crash in this state.  Symbolic
    links, ownership and the contents of directories are not modelled, and
    [os.Remove] only removes files (the source never removes a directory). *)

From Stdlib Require Import Ascii.
From S2P Require Import Prelude Bytes GoStd.
From stdpp Require Import relations.

#[local] Open Scope string_scope.
#[local] Open Scope list_scope.
#[local] Open Scope Z_scope.

(* ------------------------------------------------------------------ *)
(** ** [path/filepath]

    A cleaned path: whether it starts at the root, and its elements, the last
    one first. *)

Definition path : Type := bool * list string.

(** The elements between the separators. *)
Fixpoint split_slash (acc cs : chars) : list string :=
  match cs with
  | [] => [string_of_list_ascii (rev acc)]
  | c :: cs' =>
      if Ascii.eqb c "/" then string_of_list_ascii (rev acc) :: split_slash [] cs'
      else split_slash (c :: acc) cs'
  end.

Definition clean_element (rooted : bool) (acc : list string) (e : string) : list string :=
  if String.eqb e "" || String.eqb e "." then acc
  else if String.eqb e ".." then
    match acc with
    | [] => if rooted then [] else [".."]
    | x :: acc' => if String.eqb x ".." then ".." :: acc else acc'
    end
  else e :: acc.

(** [filepath.Clean]. *)
Definition Clean (s : string) : path :=
  let rooted := HasPrefix s "/" in
  (rooted, fold_left (clean_element rooted) (split_slash [] (chars_of s)) []).

(** [filepath.Dir], [filepath.Base], and [filepath.Join] of a path and one
    file name. *)
Definition Dir (p : path) : path := (p.1, tail p.2).

Definition Base (p : path) : string :=
  match p.2 with
  | e :: _ => e
  | [] => if p.1 then "/" else "."
  end.

Definition Join_path (p : path) (name : string) : path := (p.1, name :: p.2).

(** The text of a path. *)
Definition path_string (p : path) : string :=
  match p.2 with
  | [] => if p.1 then "/" else "."
  | _ => (if p.1 then "/" else "") +:+ String.concat "/" (rev p.2)
  end.

(** [filepath.Join] on texts: empty elements are skipped. *)
Definition Join_strings (elements : list string) : string :=
  match filter (fun e => e <> "") elements with
  | [] => ""
  | es => path_string (Clean (String.concat "/" es))
  end.

(* ------------------------------------------------------------------ *)
(** ** States *)

Inductive entry : Type :=
  | DirEntry (perm : Z)
  | FileEntry (ino : nat).

#[export] Instance entry_eq_dec : EqDecision entry.
Proof. solve_decision. Defined.

(** A file: its content, whether the content reached the disk, its
    permissions, and the process that created it. *)
Record inode := {
  in_data : list byte;
  in_synced : bool;
  in_perm : Z;
  in_opener : option nat;
}.

(** A name maps to its present entry followed by the older ones a crash may
    bring back. *)
Record FS := {
  fs_names : gmap path (list (option entry));
  fs_inodes : list inode;
  fs_umask : Z;
  fs_out : list (bool * string);
}.

Definition versions (fs : FS) (p : path) : list (option entry) :=
  default [None] (fs_names fs !! p).

Definition lookup_name (fs : FS) (p : path) : option entry :=
  match versions fs p with v :: _ => v | [] => None end.

(** The root and the working directory always exist. *)
Definition is_dir (fs : FS) (p : path) : bool :=
  match p.2 with
  | [] => true
  | _ => match lookup_name fs p with Some (DirEntry _) => true | _ => false end
  end.

Definition push (fs : FS) (p : path) (v : option entry) : FS := {|
  fs_names := <[p := v :: versions fs p]> (fs_names fs);
  fs_inodes := fs_inodes fs;
  fs_umask := fs_umask fs; fs_out := fs_out fs |}.

Definition set_inode (fs : FS) (i : nat) (n : inode) : FS := {|
  fs_names := fs_names fs;
  fs_inodes := <[i := n]> (fs_inodes fs);
  fs_umask := fs_umask fs; fs_out := fs_out fs |}.

(** What a reader may find in a file, at a name. *)
Definition inode_reads (n : inode) (c : list byte) : Prop :=
  in_synced n = true -> c = in_data n.

Inductive may_read (fs : FS) (p : path) : option (list byte) -> Prop :=
  | read_absent : None ∈ versions fs p -> may_read fs p None
  | read_file i n c :
      Some (FileEntry i) ∈ versions fs p -> fs_inodes fs !! i = Some n ->
      inode_reads n c -> may_read fs p (Some c).

(** The content of a file that a running process reads. *)
Definition contents (fs : FS) (p : path) : option (list byte) :=
  match lookup_name fs p with
  | Some (FileEntry i) => in_data <$> fs_inodes fs !! i
  | _ => None
  end.

(* ------------------------------------------------------------------ *)
(** ** Errors of the calls *)

Definition fs_ErrExist : string := "fs.ErrExist".
Definition fs_ErrNotExist : string := "fs.ErrNotExist".
Definition path_error (cause : error) : error := Typed "os.PathError" cause.
Definition link_error (cause : error) : error := Typed "os.LinkError" cause.
Definition EEXIST : error := Sentinel fs_ErrExist.
Definition ENOENT : error := Sentinel fs_ErrNotExist.
Definition ENOTDIR : error := Errorf "not a directory".
Definition EISDIR : error := Errorf "is a directory".
Definition EBADF : error := Errorf "file already closed".

(* ------------------------------------------------------------------ *)
(** ** Calls

    [RandRead n] is [cryptorand.Read] of [n] bytes; [Entropy] stands for the
    randomness a library or the enclave hardware draws for itself.
    [OpenExcl] is [os.OpenFile] with [O_RDWR|O_CREATE|O_EXCL]; a handle is the
    number of its file. *)

Inductive call : Type -> Type :=
  | Stat (p : path) : call (result bool)
  | Mkdir (p : path) (perm : Z) : call (result unit)
  | Chmod (p : path) (perm : Z) : call (result unit)
  | OpenExcl (p : path) (perm : Z) : call (result nat)
  | WriteFile (file : nat) (data : list byte) : call (result unit)
  | SyncFile (file : nat) : call (result unit)
  | CloseFile (file : nat) : call (result unit)
  | Rename (old new : path) : call (result unit)
  | Link (old new : path) : call (result unit)
  | Remove (p : path) : call (result unit)
  | ReadFile (p : path) : call (result (list byte))
  | OpenDir (p : path) : call (result unit)
  | SyncDir (p : path) : call (result unit)
  | RandRead (n : nat) : call (result (list byte))
  | Entropy : call (list byte)
  | Print (stderr : bool) (text : string) : call (result unit).

(** What the environment decides at a call: whether it fails, how much of a
    failing write reaches the file, and the random bytes. *)
Record choice := {
  ch_fault : option error;
  ch_partial : nat;
  ch_bytes : list byte;
}.

Definition no_fault : choice := {| ch_fault := None; ch_partial := 0; ch_bytes := [] |}.

(** A call that fails leaves the state as it is. *)
Definition guarded {A} (ch : choice) (fs : FS) (r : result A * FS) : result A * FS :=
  match ch_fault ch with
  | Some e => (Err e, fs)
  | None => r
  end.

Definition with_perm (fs : FS) (perm : Z) : Z := Z.land perm (Z.lnot (fs_umask fs)).

Definition do_Stat (fs : FS) (p : path) : result bool :=
  if is_dir fs p then Ok true
  else match lookup_name fs p with
       | Some _ => Ok false
       | None => Err (path_error ENOENT)
       end.

Definition exists_name (fs : FS) (p : path) : bool := is_ok (do_Stat fs p).

Definition do_Mkdir (fs : FS) (p : path) (perm : Z) : result unit * FS :=
  if exists_name fs p then (Err (path_error EEXIST), fs)
  else if negb (is_dir fs (Dir p)) then (Err (path_error ENOENT), fs)
  else (Ok tt, push fs p (Some (DirEntry (with_perm fs perm)))).

Definition do_Chmod (fs : FS) (p : path) (perm : Z) : result unit * FS :=
  match lookup_name fs p with
  | Some (DirEntry _) => (Ok tt, push fs p (Some (DirEntry perm)))
  | Some (FileEntry i) =>
      match fs_inodes fs !! i with
      | Some n =>
          (Ok tt, set_inode fs i {| in_data := in_data n; in_synced := in_synced n;
                                    in_perm := perm; in_opener := in_opener n |})
      | None => (Err (path_error ENOENT), fs)
      end
  | None => (Err (path_error ENOENT), fs)
  end.

Definition do_OpenExcl (who : nat) (fs : FS) (p : path) (perm : Z) : result nat * FS :=
  if exists_name fs p then (Err (path_error EEXIST), fs)
  else if negb (is_dir fs (Dir p)) then (Err (path_error ENOENT), fs)
  else
    let i := length (fs_inodes fs) in
    let n := {| in_data := []; in_synced := false; in_perm := with_perm fs perm;
                in_opener := Some who |} in
    let fs' := push fs p (Some (FileEntry i)) in
    (Ok i, {| fs_names := fs_names fs'; fs_inodes := fs_inodes fs ++ [n];
              fs_umask := fs_umask fs; fs_out := fs_out fs |}).

Definition append_data (fs : FS) (i : nat) (data : list byte) : FS :=
  match fs_inodes fs !! i with
  | Some n =>
      set_inode fs i {| in_data := in_data n ++ data; in_synced := false;
                        in_perm := in_perm n; in_opener := in_opener n |}
  | None => fs
  end.

(** A write that fails may have written a prefix. *)
Definition do_Write (ch : choice) (fs : FS) (i : nat) (data : list byte)
  : result unit * FS :=
  match ch_fault ch with
  | Some e => (Err e, append_data fs i (take (ch_partial ch) data))
  | None =>
      match fs_inodes fs !! i with
      | Some _ => (Ok tt, append_data fs i data)
      | None => (Err (path_error EBADF), fs)
      end
  end.

Definition do_Sync (fs : FS) (i : nat) : result unit * FS :=
  match fs_inodes fs !! i with
  | Some n =>
      (Ok tt, set_inode fs i {| in_data := in_data n; in_synced := true;
                                in_perm := in_perm n; in_opener := in_opener n |})
  | None => (Err (path_error EBADF), fs)
  end.

(** Renaming one link of a file to another link of it does nothing. *)
Definition do_Rename (fs : FS) (old new : path) : result unit * FS :=
  match lookup_name fs old with
  | Some (FileEntry i) =>
      if is_dir fs new then (Err (link_error EEXIST), fs)
      else if negb (is_dir fs (Dir new)) then (Err (link_error ENOENT), fs)
      else if bool_decide (lookup_name fs new = Some (FileEntry i)) then (Ok tt, fs)
      else (Ok tt, push (push fs new (Some (FileEntry i))) old None)
  | Some (DirEntry _) => (Err (link_error EISDIR), fs)
  | None => (Err (link_error ENOENT), fs)
  end.

Definition do_Link (fs : FS) (old new : path) : result unit * FS :=
  match lookup_name fs old with
  | Some (FileEntry i) =>
      if exists_name fs new then (Err (link_error EEXIST), fs)
      else if negb (is_dir fs (Dir new)) then (Err (link_error ENOENT), fs)
      else (Ok tt, push fs new (Some (FileEntry i)))
  | Some (DirEntry _) => (Err (link_error EISDIR), fs)
  | None => (Err (link_error ENOENT), fs)
  end.

Definition do_Remove (fs : FS) (p : path) : result unit * FS :=
  match lookup_name fs p with
  | Some (FileEntry _) => (Ok tt, push fs p None)
  | Some (DirEntry _) => (Err (path_error EISDIR), fs)
  | None => (Err (path_error ENOENT), fs)
  end.

Definition do_ReadFile (fs : FS) (p : path) : result (list byte) :=
  if is_dir fs p then Err (path_error EISDIR)
  else some_or (contents fs p) (path_error ENOENT).

Definition do_OpenDir (fs : FS) (p : path) : result unit :=
  if exists_name fs p then Ok tt else Err (path_error ENOENT).

(** After a directory is synced its entries survive a crash. *)
Definition do_SyncDir (fs : FS) (p : path) : FS := {|
  fs_names := map_imap (fun q vs => Some (if bool_decide (Dir q = p) then take 1 vs else vs))
    (fs_names fs);
  fs_inodes := fs_inodes fs;
  fs_umask := fs_umask fs; fs_out := fs_out fs |}.

Definition do_Print (fs : FS) (stderr : bool) (text : string) : FS := {|
  fs_names := fs_names fs;
  fs_inodes := fs_inodes fs;
  fs_umask := fs_umask fs;
  fs_out := fs_out fs ++ [(stderr, text)] |}.

Definition random_bytes (ch : choice) (n : nat) : list byte :=
  take n (ch_bytes ch ++ replicate n (byte_of 0)).

(** One call of process [who]. *)
Definition handle (who : nat) (ch : choice) {B} (c : call B) (fs : FS) : B * FS :=
  match c in call B return B * FS with
  | Stat p => guarded ch fs (do_Stat fs p, fs)
  | Mkdir p perm => guarded ch fs (do_Mkdir fs p perm)
  | Chmod p perm => guarded ch fs (do_Chmod fs p perm)
  | OpenExcl p perm => guarded ch fs (do_OpenExcl who fs p perm)
  | WriteFile file data => do_Write ch fs file data
  | SyncFile file => guarded ch fs (do_Sync fs file)
  | CloseFile file => guarded ch fs (Ok tt, fs)
  | Rename old new => guarded ch fs (do_Rename fs old new)
  | Link old new => guarded ch fs (do_Link fs old new)
  | Remove p => guarded ch fs (do_Remove fs p)
  | ReadFile p => guarded ch fs (do_ReadFile fs p, fs)
  | OpenDir p => guarded ch fs (do_OpenDir fs p, fs)
  | SyncDir p => guarded ch fs (Ok tt, do_SyncDir fs p)
  | RandRead n => guarded ch fs (Ok (random_bytes ch n), fs)
  | Entropy => (ch_bytes ch, fs)
  | Print stderr text => guarded ch fs (Ok tt, do_Print fs stderr text)
  end.

(* ------------------------------------------------------------------ *)
(** ** Programs *)

Inductive prog (A : Type) : Type :=
  | Ret (a : A)
  | Call {B} (c : call B) (k : B -> prog A).
Arguments Ret {A} a.
Arguments Call {A B} c k.

Fixpoint bind {A B} (m : prog A) (k : A -> prog B) : prog B :=
  match m with
  | Ret a => k a
  | Call c h => Call c (fun b => bind (h b) k)
  end.

Definition sys {B} (c : call B) : prog B := Call c Ret.

(** [x := m], and [x, err := m; if err != nil { return err }]. *)
Notation "'do!' x '<-' m 'in' k" := (bind m (fun x => k))
  (at level 10, x binder, m at level 100, k at level 200) : go_scope.

Definition bind_ok {A B} (m : prog (result A)) (k : A -> prog (result B))
  : prog (result B) :=
  bind m (fun r => match r with Ok a => k a | Err e => Ret (Err e) end).

Notation "'try!' x '<-' m 'in' k" := (bind_ok m (fun x => k))
  (at level 10, x binder, m at level 100, k at level 200) : go_scope.

Definition map_result {A B} (f : result A -> result B) (m : prog (result A))
  : prog (result B) := bind m (fun r => Ret (f r)).

(** A run of one program; the environment's choices are numbered. *)
Fixpoint run {A} (who : nat) (o : nat -> choice) (t : nat) (m : prog A) (fs : FS)
  : A * FS :=
  match m with
  | Ret a => (a, fs)
  | Call c k =>
      let '(b, fs') := handle who (o t) c fs in
      run who o (S t) (k b) fs'
  end.

(** One call of one program of a pool. *)
Definition advance {A} (who : nat) (ch : choice) (m : prog A) (fs : FS) : prog A * FS :=
  match m with
  | Ret a => (Ret a, fs)
  | Call c k => let '(b, fs') := handle who ch c fs in (k b, fs')
  end.

Definition pool (A : Type) : Type := list (prog A) * FS.

Inductive cstep {A} : pool A -> pool A -> Prop :=
  | cstep_thread ms fs who ch m m' fs' :
      ms !! who = Some m -> advance who ch m fs = (m', fs') ->
      cstep (ms, fs) (<[who := m']> ms, fs').

(** The program makes at most [n] calls, whatever the answers. *)
Fixpoint calls_at_most {A} (n : nat) (m : prog A) {struct m} : Prop :=
  match m with
  | Ret _ => True
  | Call c k => match n with O => False | S n' => forall b, calls_at_most n' (k b) end
  end.
