(* ===== verification/Rely.v ===== *)
(** * Rely-guarantee reasoning on programs

    A program of one process is judged in the presence of others: [R] is what
    the others may do between its calls, [G] what its own calls do.  A pool of
    processes whose guarantees imply each other's relies keeps every invariant
    the guarantees keep, whatever the interleaving and the faults
    ([pool_ok_rtc]). *)

From S2P Require Import Prelude Bytes GoStd FileSystem.
From stdpp Require Import relations.

#[local] Open Scope list_scope.

Definition relation_on_fs : Type := FS -> FS -> Prop.

Definition stable (R : relation_on_fs) (P : FS -> Prop) : Prop :=
  forall fs fs', P fs -> R fs fs' -> P fs'.

(** From a state in [P], every call of [m] is a step of [G], and [Q] holds of
    the result, if the others only take steps of [R]. *)
Fixpoint guarantees (who : nat) (R G : relation_on_fs) {A} (P : FS -> Prop) (m : prog A)
  (Q : A -> FS -> Prop) : Prop :=
  match m with
  | Ret a => forall fs, P fs -> Q a fs
  | Call c k =>
      forall ch fs b fs', P fs -> handle who ch c fs = (b, fs') ->
      G fs fs' /\
      exists P', stable R P' /\ P' fs' /\ guarantees who R G P' (k b) Q
  end.

Section Rules.
Context (who : nat) (R G : relation_on_fs).

Lemma guarantees_pre {A} (P P' : FS -> Prop) (m : prog A) Q :
  (forall fs, P fs -> P' fs) -> guarantees who R G P' m Q -> guarantees who R G P m Q.
Proof. intros HP. destruct m as [a|B c k]; simpl; [eauto|]. intros H ch fs b fs' Hfs. eauto. Qed.

(** A fact the precondition implies may be assumed. *)
Lemma guarantees_pure {A} (Phi : Prop) P (m : prog A) Q :
  (forall fs, P fs -> Phi) -> (Phi -> guarantees who R G P m Q) -> guarantees who R G P m Q.
Proof.
  intros HP. destruct m as [a|B c k]; simpl.
  - intros H fs Hfs. eauto.
  - intros H ch fs b fs' Hfs. eauto.
Qed.

Lemma guarantees_false {A} (m : prog A) Q : guarantees who R G (fun _ => False) m Q.
Proof. destruct m as [a|B c k]; simpl; [by intros fs []|]. by intros ch fs b fs' []. Qed.

Lemma guarantees_post {A} (P : FS -> Prop) (m : prog A) (Q Q' : A -> FS -> Prop) :
  (forall a fs, Q a fs -> Q' a fs) -> guarantees who R G P m Q -> guarantees who R G P m Q'.
Proof.
  intros HQ. revert P. induction m as [a|B c k IH]; intros P; simpl; [eauto|].
  intros H ch fs b fs' Hfs Hh. destruct (H ch fs b fs' Hfs Hh) as (HG & P' & Hst & HP' & Hk).
  split; [done|]. exists P'. eauto.
Qed.

Lemma guarantees_bind {A B} (P : FS -> Prop) (m : prog A) (k : A -> prog B) Q Q' :
  guarantees who R G P m Q -> (forall a, guarantees who R G (Q a) (k a) Q') ->
  guarantees who R G P (bind m k) Q'.
Proof.
  intros Hm Hk. revert P Hm. induction m as [a|C c h IH]; intros P Hm; simpl.
  - by eapply guarantees_pre.
  - intros ch fs b fs' Hfs Hh. destruct (Hm ch fs b fs' Hfs Hh) as (HG & P' & Hst & HP' & Hg).
    split; [done|]. exists P'. eauto.
Qed.

(** A result with an error passes through [try!]. *)
Lemma guarantees_bind_ok {A B} (P : FS -> Prop) (m : prog (result A))
  (k : A -> prog (result B)) Q (Q' : result B -> FS -> Prop) :
  guarantees who R G P m Q -> (forall a, guarantees who R G (Q (Ok a)) (k a) Q') ->
  (forall e fs, Q (Err e) fs -> Q' (Err e) fs) ->
  guarantees who R G P (bind_ok m k) Q'.
Proof.
  intros Hm Hk He. eapply guarantees_bind; [done|]. intros [a|e]; [done|]. simpl. eauto.
Qed.

(** One call. *)
Lemma guarantees_call {B} (P : FS -> Prop) (c : call B) (Q : B -> FS -> Prop) :
  (forall b, stable R (Q b)) ->
  (forall ch fs b fs', P fs -> handle who ch c fs = (b, fs') -> G fs fs' /\ Q b fs') ->
  guarantees who R G P (sys c) Q.
Proof.
  intros Hst H ch fs b fs' Hfs Hh. destruct (H ch fs b fs' Hfs Hh) as [HG HQ].
  split; [done|]. exists (Q b). split; [done|]. split; [done|]. simpl. eauto.
Qed.

(** A weaker guarantee. *)
Lemma guarantees_weaken {A} (G' : relation_on_fs) P (m : prog A) Q :
  (forall fs fs', G fs fs' -> G' fs fs') -> guarantees who R G P m Q ->
  guarantees who R G' P m Q.
Proof.
  intros HG. revert P. induction m as [a|B c k IH]; intros P; simpl; [done|].
  intros H ch fs b fs' HP Hh. destruct (H _ _ _ _ HP Hh) as (Hg & P' & Hst & HP' & Hk).
  split; [by apply HG|]. exists P'. eauto.
Qed.

(** The program alone. *)
Lemma guarantees_run {A} (m : prog A) P Q o t fs a fs' :
  guarantees who R G P m Q -> P fs -> run who o t m fs = (a, fs') -> Q a fs'.
Proof.
  revert P t fs. induction m as [x|B c k IH]; intros P t fs; simpl.
  - intros HQ HP [= <- <-]. eauto.
  - intros H HP. destruct (handle who (o t) c fs) as [b fs1] eqn:Hh.
    destruct (H _ _ _ _ HP Hh) as (_ & P' & _ & HP' & Hk). eauto.
Qed.
End Rules.

(* ------------------------------------------------------------------ *)
(** ** Pools *)

Section Pools.
Context {A : Type} (R G : nat -> relation_on_fs) (Q : nat -> A -> FS -> Prop) (I : FS -> Prop).
Context (G_R : forall i j fs fs', i <> j -> G j fs fs' -> R i fs fs').
Context (G_I : forall i fs fs', G i fs fs' -> I fs -> I fs').

Definition thread_ok (i : nat) (fs : FS) (m : prog A) : Prop :=
  exists P, stable (R i) P /\ P fs /\ guarantees i (R i) (G i) P m (Q i).

Definition pool_ok (c : pool A) : Prop :=
  I c.2 /\ forall i m, c.1 !! i = Some m -> thread_ok i c.2 m.

Lemma advance_ok i fs ch m m' fs' :
  thread_ok i fs m -> advance i ch m fs = (m', fs') ->
  (G i fs fs' \/ fs' = fs) /\ thread_ok i fs' m'.
Proof.
  intros (P & Hst & HP & Hm). destruct m as [a|B c k]; simpl.
  - intros [= <- <-]. split; [by right|]. by exists P.
  - destruct (handle i ch c fs) as [b fs1] eqn:Hh. intros [= <- <-].
    destruct (Hm _ _ _ _ HP Hh) as (HG & P' & Hst' & HP' & Hk).
    split; [by left|]. by exists P'.
Qed.

Lemma pool_ok_step c c' : pool_ok c -> cstep c c' -> pool_ok c'.
Proof.
  intros [HI Hall] Hs. destruct Hs as [ms fs i ch m m' fs' Hm Hadv]. simpl in *.
  destruct (advance_ok i fs ch m m' fs' (Hall i m Hm) Hadv) as [HG Hok]. split; simpl.
  - destruct HG as [HG| ->]; eauto.
  - intros j n Hj. destruct (decide (i = j)) as [<-|Hne].
    + rewrite list_lookup_insert_eq in Hj by (by eapply lookup_lt_Some). by simplify_eq.
    + rewrite list_lookup_insert_ne in Hj by done.
      destruct HG as [HG| ->]; [|by apply Hall].
      destruct (Hall j n Hj) as (P & Hst & HP & Hn). exists P.
      split; [done|]. split; [|done]. eapply Hst; [done|]. by eapply (G_R j i).
Qed.

Lemma pool_ok_rtc c c' : pool_ok c -> rtc cstep c c' -> pool_ok c'.
Proof. intros Hc Hs. induction Hs; eauto using pool_ok_step. Qed.

(** What is known of a process that has returned. *)
Lemma pool_ok_returned c i a : pool_ok c -> c.1 !! i = Some (Ret a) -> Q i a c.2.
Proof. intros [_ Hall] Hi. destruct (Hall i _ Hi) as (P & _ & HP & HQ). by apply HQ. Qed.
End Pools.
