(* ===== verification/External.v ===== *)
(** * The code gaiko2 calls and does not contain

    taiko-geth, the KZG library, the EVM and the enclave runtime are not part
    of the repository.  Each package is a type class whose fields are the
    functions the source calls; the laws in a class are type guarantees of Go
    (a [[32]byte] result is 32 bytes) or documented behaviour.  Every
    definition that calls such a function takes the class as an argument. *)

From S2P Require Import Prelude Bytes.

(** [crypto.Keccak256Hash] and [crypto.Keccak256]. *)
Class Keccak : Type := {
  Keccak256Hash : list byte -> Z;
  Keccak256Hash_range : forall bs, is_hash (Keccak256Hash bs);
}.

(** No two different messages of [S] have the same digest.  A finite,
    explicitly listed [S]: the collision resistance a statement uses is that
    of the messages the code hashed, nothing more. *)
Definition collision_free_on `{Keccak} (S : list (list byte)) : Prop :=
  forall x y, x ∈ S -> y ∈ S -> Keccak256Hash x = Keccak256Hash y -> x = y.

#[export] Instance collision_free_on_dec `{Keccak} S : Decision (collision_free_on S).
Proof.
  refine (cast_if (decide (Forall (fun x => Forall (fun y =>
    Keccak256Hash x = Keccak256Hash y -> x = y) S) S))).
  - intros x y Hx Hy. rewrite Forall_forall in f. specialize (f x Hx).
    rewrite Forall_forall in f. by apply f.
  - intros Hc. apply n. apply Forall_forall. intros x Hx.
    apply Forall_forall. intros y Hy. by apply Hc.
Defined.

Lemma collision_free_on_sub `{Keccak} S S' :
  S' ⊆ S -> collision_free_on S -> collision_free_on S'.
Proof. intros Hs Hc x y Hx Hy. apply Hc; by apply Hs. Qed.

(** [crypto.SigToPub] followed by [crypto.PubkeyToAddress], and [crypto.Sign]
    with a private key of type [PrivateKey] (the functions of
    [github.com/ethereum/go-ethereum/crypto] that the signers use). *)
Class Ecdsa : Type := {
  PrivateKey : Type;
  PublicKeyT : Type;
  key_PublicKey : PrivateKey -> PublicKeyT;
  Sign : list byte -> PrivateKey -> result (list byte);
  SigToPub : list byte -> list byte -> result PublicKeyT;
  PubkeyToAddress : PublicKeyT -> Z;
  FromECDSAPub : PublicKeyT -> list byte;
  HexToECDSA : string -> result PrivateKey;
  PubkeyToAddress_range : forall p, is_address (PubkeyToAddress p);
  Sign_length : forall h k sig, Sign h k = Ok sig -> length sig = 65%nat;
}.

(** [hexutil.Decode], and the text unmarshaler of [hexutil.Bytes]. *)
Class HexUtil : Type := {
  hexutil_Decode : string -> result (list byte);
  hexutil_UnmarshalText : string -> result (list byte);
}.

#[export] Hint Resolve Keccak256Hash_range PubkeyToAddress_range : go.
