(* ===== verification/Types.v ===== *)
(** * The views of a request

    The records of [internal/prover/types.go] that the validation and the
    proving code exchange, with decidable equality (Go compares them with
    [==]) and the range of each field. *)

From S2P Require Import Prelude Bytes.

Record CheckpointView := {
  cp_BlockNumber : Z;
  cp_BlockHash : Z;
  cp_StateRoot : Z;
}.

Record TransitionView := {
  tv_Proposer : Z;
  tv_Timestamp : Z;
}.

Record TransitionInputView := {
  ti_ProposalID : Z;
  ti_ProposalHash : Z;
  ti_ParentProposalHash : Z;
  ti_ParentBlockHash : Z;
  ti_ActualProver : Z;
  ti_Transition : TransitionView;
  ti_Checkpoint : CheckpointView;
}.

Record CarryView := {
  cv_ChainID : Z;
  cv_Verifier : Z;
  cv_TransitionInput : TransitionInputView;
}.

Record BlockView := {
  bv_Number : Z;
  bv_Hash : Z;
  bv_ParentHash : Z;
  bv_StateRoot : Z;
  bv_ReceiptsRoot : Z;
}.

Record AggregateProofView := {
  ap_InputHash : Z;
  ap_ProofBytes : list byte;
  ap_InstanceID : Z;
  ap_InstanceAddress : Z;
  ap_Signature : list byte;
  ap_Carry : CarryView;
}.

Record CompactAncestor := {
  ca_Number : Z;
  ca_Hash : Z;
  ca_ParentHash : Z;
  ca_Timestamp : Z;
}.

#[export] Instance CheckpointView_eq_dec : EqDecision CheckpointView.
Proof. solve_decision. Defined.
#[export] Instance TransitionView_eq_dec : EqDecision TransitionView.
Proof. solve_decision. Defined.
#[export] Instance TransitionInputView_eq_dec : EqDecision TransitionInputView.
Proof. solve_decision. Defined.
#[export] Instance CarryView_eq_dec : EqDecision CarryView.
Proof. solve_decision. Defined.
#[export] Instance BlockView_eq_dec : EqDecision BlockView.
Proof. solve_decision. Defined.
#[export] Instance CompactAncestor_eq_dec : EqDecision CompactAncestor.
Proof. solve_decision. Defined.

(** The ranges of the Go types ([uint64], [common.Hash], [common.Address]). *)
Definition typed_checkpoint (c : CheckpointView) : Prop :=
  is_u64 (cp_BlockNumber c) /\ is_hash (cp_BlockHash c) /\ is_hash (cp_StateRoot c).

Definition typed_transition_input (t : TransitionInputView) : Prop :=
  is_u64 (ti_ProposalID t) /\ is_hash (ti_ProposalHash t) /\
  is_hash (ti_ParentProposalHash t) /\ is_hash (ti_ParentBlockHash t) /\
  is_address (ti_ActualProver t) /\ is_address (tv_Proposer (ti_Transition t)) /\
  is_u64 (tv_Timestamp (ti_Transition t)) /\ typed_checkpoint (ti_Checkpoint t).

Definition typed_carry (c : CarryView) : Prop :=
  is_u64 (cv_ChainID c) /\ is_address (cv_Verifier c) /\
  typed_transition_input (cv_TransitionInput c).

#[export] Instance typed_carry_dec c : Decision (typed_carry c).
Proof.
  unfold typed_carry, typed_transition_input, typed_checkpoint. apply _.
Defined.
