(* ===== verification/CoreTypes.v ===== *)
(** * Blocks, headers, transactions and chain configurations

    The taiko-geth structs the source builds and reads field by field
    ([types.Header], the transaction data structs, [types.Block],
    [params.ChainConfig]) as records of the fields the source touches, and
    the taiko-geth functions on them as the classes [CoreTypes] (package
    [core/types]) and [ChainParams] (package [params] and the fork constants
    of [core]). *)

From S2P Require Import Prelude Bytes.

(** [types.Header]; a pointer field is an [option]. *)
Record Header := {
  hd_ParentHash : Z;
  hd_UncleHash : Z;
  hd_Coinbase : Z;
  hd_Root : Z;
  hd_TxHash : Z;
  hd_ReceiptHash : Z;
  hd_Bloom : list byte;
  hd_Difficulty : option Z;
  hd_Number : option Z;
  hd_GasLimit : Z;
  hd_GasUsed : Z;
  hd_Time : Z;
  hd_Extra : list byte;
  hd_MixDigest : Z;
  hd_Nonce : list byte;
  hd_BaseFee : option Z;
  hd_WithdrawalsHash : option Z;
  hd_BlobGasUsed : option Z;
  hd_ExcessBlobGas : option Z;
  hd_ParentBeaconRoot : option Z;
  hd_RequestsHash : option Z;
  hd_SlotNumber : option Z;
  hd_BlockAccessListHash : option Z;
}.

#[export] Instance Header_eq_dec : EqDecision Header.
Proof. solve_decision. Defined.

(** [header.Number.Uint64()].  Headers reach the code through [decodeL1Header],
    which always sets the number; the value at a nil pointer is not used. *)
Definition number_u64 (h : Header) : Z := default 0 (big_Uint64 <$> hd_Number h).

Record AccessTuple := { at_Address : Z; at_StorageKeys : list Z }.

Record SetCodeAuthorization := {
  sa_ChainID : Z;
  sa_Address : Z;
  sa_Nonce : Z;
  sa_V : Z;
  sa_R : Z;
  sa_S : Z;
}.

(** The structs handed to [types.NewTx]. *)
Inductive TxData : Type :=
  | LegacyTx (Nonce GasPrice Gas : Z) (To : option Z) (Value : Z) (Data : list byte)
      (V R S : Z)
  | AccessListTx (ChainID Nonce GasPrice Gas : Z) (To : option Z) (Value : Z)
      (Data : list byte) (AccessList : option (list AccessTuple)) (V R S : Z)
  | DynamicFeeTx (ChainID Nonce GasTipCap GasFeeCap Gas : Z) (To : option Z) (Value : Z)
      (Data : list byte) (AccessList : option (list AccessTuple)) (V R S : Z)
  | SetCodeTx (ChainID Nonce GasTipCap GasFeeCap Gas : Z) (To : Z) (Value : Z)
      (Data : list byte) (AccessList : option (list AccessTuple))
      (AuthList : list SetCodeAuthorization) (V R S : Z).

(** Transaction type bytes (EIP-2718). *)
Definition LegacyTxType : Z := 0.
Definition AccessListTxType : Z := 1.
Definition DynamicFeeTxType : Z := 2.
Definition BlobTxType : Z := 3.
Definition SetCodeTxType : Z := 4.

(** [types.Log] and [types.Receipt]: the fields the source reads. *)
Record Log := { lg_Address : Z; lg_Topics : list Z; lg_Data : list byte }.
Record Receipt := { rc_Status : Z; rc_Logs : list (option Log) }.
Definition ReceiptStatusSuccessful : Z := 1.

Record Withdrawal := { wd_Index : Z; wd_Validator : Z; wd_Address : Z; wd_Amount : Z }.

(** [stateless.Witness]: the headers parent first, and the sets of codes and
    trie nodes. *)
Record Witness := {
  wt_Headers : list Header;
  wt_Codes : gset (list byte);
  wt_State : gset (list byte);
}.

(** Packages [core/types] and [core/stateless]. *)
Class CoreTypes : Type := {
  Transaction : Type;
  NewTx : TxData -> Transaction;
  tx_Type : Transaction -> Z;
  tx_To : Transaction -> option Z;
  tx_ChainId : Transaction -> Z;
  tx_Nonce : Transaction -> Z;
  tx_Value : Transaction -> Z;
  tx_Gas : Transaction -> Z;
  tx_GasFeeCap : Transaction -> Z;
  tx_GasTipCap : Transaction -> Z;
  tx_Data : Transaction -> list byte;
  tx_AccessList : Transaction -> list AccessTuple;
  tx_RawSignatureValues : Transaction -> Z * Z * Z;
  tx_BlobGasFeeCap : Transaction -> Z;
  tx_HasBlobTxSidecar : Transaction -> bool;
  tx_Hash : Transaction -> Z;
  Header_Hash : Header -> Z;
  BytesToBloom : list byte -> list byte;
  CalcUncleHash : list Header -> Z;
  DeriveSha_txs : list Transaction -> Z;
  DeriveSha_withdrawals : list Withdrawal -> Z;
  CalcRequestsHash : list (list byte) -> Z;
  EmptyUncleHash : Z;
  EmptyWithdrawalsHash : Z;
  EmptyRequestsHash : Z;
  Witness_Root : Witness -> Z;
  BytesToBloom_256 : forall bs, length bs = 256%nat -> BytesToBloom bs = bs;
  Header_Hash_range : forall h, is_hash (Header_Hash h);
}.

(** [types.Block]: [NewBlockWithHeader(h).WithBody(b)]. *)
Record Block `{CoreTypes} := {
  blk_Header : Header;
  blk_Transactions : list Transaction;
  blk_Uncles : list Header;
  blk_Withdrawals : option (list Withdrawal);
}.

Definition blk_Hash `{CoreTypes} (b : Block) : Z := Header_Hash (blk_Header b).
Definition blk_NumberU64 `{CoreTypes} (b : Block) : Z := number_u64 (blk_Header b).

(** [params.ChainConfig]: the fields the source sets, and the rest. *)
Class ConfigTypes : Type := {
  ConfigRest : Type;
  BlobScheduleConfig : Type;
}.

Record ChainConfig `{ConfigTypes} := {
  cfg_ChainID : option Z;
  cfg_OntakeBlock : option Z;
  cfg_PacayaBlock : option Z;
  cfg_ShastaTime : option Z;
  cfg_UnzenTime : option Z;
  cfg_CancunTime : option Z;
  cfg_PragueTime : option Z;
  cfg_OsakaTime : option Z;
  cfg_BlobScheduleConfig : option BlobScheduleConfig;
  cfg_rest : ConfigRest;
}.

(** Packages [params] and [core]: the upstream configurations, the network
    ids and the fork schedule constants, and the fork predicates. *)
Class ChainParams `{ConfigTypes} : Type := {
  MainnetChainConfig : ChainConfig;
  HoleskyChainConfig : ChainConfig;
  SepoliaChainConfig : ChainConfig;
  HoodiChainConfig : ChainConfig;
  TaikoChainConfig : ChainConfig;
  TaikoMainnetNetworkID : Z;
  TaikoInternalNetworkID : Z;
  TaikoHoodiNetworkID : Z;
  MainnetOntakeBlock : option Z;
  MainnetPacayaBlock : option Z;
  InternalDevnetOntakeBlock : option Z;
  InternalDevnetPacayaBlock : option Z;
  TaikoHoodiOntakeBlock : option Z;
  TaikoHoodiPacayaBlock : option Z;
  MainnetShastaTime : Z;
  InternalShastaTime : Z;
  HoodiShastaTime : Z;
  MainnetUnzenTime : Z;
  DevnetUnzenTime : Z;
  HoodiUnzenTime : Z;
  DefaultBlobSchedule : option BlobScheduleConfig;
  IsUnzen : ChainConfig -> Z -> bool;
  IsShasta : ChainConfig -> Z -> bool;
  IsAmsterdam : ChainConfig -> option Z -> Z -> bool;
}.
