(* ===== verification/Samples.v ===== *)
(** * Concrete instances and inputs

    Small executable stand-ins for the external packages and a few sample
    values, used only where a theorem is applied at a concrete input. *)

From S2P Require Import Prelude Bytes GoStd External Types CoreTypes.

(** A digest that reduces its message, and its length, modulo a prime. *)
Definition sample_keccak_fn (bs : list byte) : Z :=
  (be_Z bs * 31 + Z.of_nat (length bs)) mod (2 ^ 256 - 189).

Lemma sample_keccak_range bs : 0 <= sample_keccak_fn bs < 2 ^ 256.
Proof.
  unfold sample_keccak_fn.
  pose proof (Z.mod_pos_bound (be_Z bs * 31 + Z.of_nat (length bs)) (2 ^ 256 - 189) eq_refl).
  lia.
Qed.

Definition sample_keccak : Keccak.
Proof.
  refine {| Keccak256Hash := sample_keccak_fn |}.
  intros bs. apply sample_keccak_range.
Defined.

Definition sample_carry (n : Z) : CarryView := {|
  cv_ChainID := 167000;
  cv_Verifier := 0x1234;
  cv_TransitionInput := {|
    ti_ProposalID := n;
    ti_ProposalHash := 1000 + n;
    ti_ParentProposalHash := 999 + n;
    ti_ParentBlockHash := 1999 + n;
    ti_ActualProver := 0x77;
    ti_Transition := {| tv_Proposer := 0x88; tv_Timestamp := 1700000000 + n |};
    ti_Checkpoint := {|
      cp_BlockNumber := 3000 + n; cp_BlockHash := 2000 + n; cp_StateRoot := 4000 + n |};
  |};
|}.

(** Hexadecimal with a mandatory [0x]. *)
Definition sample_hexutil : HexUtil := {|
  hexutil_Decode s :=
    if HasPrefix s "0x" then hex_DecodeString (str_drop 2 s)
    else Err (Errorf "hex string without 0x prefix");
  hexutil_UnmarshalText s :=
    if String.eqb s "" then Ok []
    else if HasPrefix s "0x" then hex_DecodeString (str_drop 2 s)
    else Err (Errorf "hex string without 0x prefix");
|}.

Lemma sample_hexutil_reads bs :
  @hexutil_Decode sample_hexutil (String.append "0x" (hex_EncodeToString bs)) = Ok bs.
Proof.
  cbn [hexutil_Decode sample_hexutil].
  change (HasPrefix (String.append "0x" (hex_EncodeToString bs)) "0x") with true.
  assert (str_drop 2 (String.append "0x" (hex_EncodeToString bs)) = hex_EncodeToString bs) as ->.
  { unfold str_drop. simpl. apply string_of_list_ascii_of_string. }
  apply hex_Decode_Encode.
Qed.

(** Upstream configurations that preset no Unzen-era fork. *)
Definition sample_config_types : ConfigTypes := {|
  ConfigRest := unit; BlobScheduleConfig := unit |}.

#[local] Existing Instance sample_config_types.

Definition sample_upstream (id : Z) : @ChainConfig sample_config_types := {|
  cfg_ChainID := Some id; cfg_OntakeBlock := None; cfg_PacayaBlock := None;
  cfg_ShastaTime := None; cfg_UnzenTime := None; cfg_CancunTime := None;
  cfg_PragueTime := None; cfg_OsakaTime := None; cfg_BlobScheduleConfig := None;
  cfg_rest := tt |}.

Definition time_active (o : option Z) (t : Z) : bool :=
  match o with Some a => a <=? t | None => false end.

Definition sample_params : @ChainParams sample_config_types := {|
  MainnetChainConfig := sample_upstream 1;
  HoleskyChainConfig := sample_upstream 17000;
  SepoliaChainConfig := sample_upstream 11155111;
  HoodiChainConfig := sample_upstream 560048;
  TaikoChainConfig := sample_upstream 0;
  TaikoMainnetNetworkID := 167000;
  TaikoInternalNetworkID := 167001;
  TaikoHoodiNetworkID := 167013;
  MainnetOntakeBlock := Some 538304;
  MainnetPacayaBlock := Some 1166000;
  InternalDevnetOntakeBlock := Some 0;
  InternalDevnetPacayaBlock := Some 0;
  TaikoHoodiOntakeBlock := Some 0;
  TaikoHoodiPacayaBlock := Some 0;
  MainnetShastaTime := 1000;
  InternalShastaTime := 0;
  HoodiShastaTime := 500;
  MainnetUnzenTime := 2000;
  DevnetUnzenTime := 0;
  HoodiUnzenTime := 1500;
  DefaultBlobSchedule := Some tt;
  IsUnzen c t := time_active (@cfg_UnzenTime sample_config_types c) t;
  IsShasta c t := time_active (@cfg_ShastaTime sample_config_types c) t;
  IsAmsterdam _ _ _ := false;
|}.

(** Transactions are their data; a header's hash mixes the fields the code
    compares. *)
Definition sample_header_hash (h : Header) : Z :=
  sample_keccak_fn (concat (be_bytes 32 <$>
    [ hd_ParentHash h; hd_Root h; hd_TxHash h; hd_ReceiptHash h; hd_MixDigest h;
      default 0 (hd_Number h); hd_Time h; hd_GasLimit h ])).

Definition tx_data_type (t : TxData) : Z :=
  match t with
  | LegacyTx _ _ _ _ _ _ _ _ _ => 0
  | AccessListTx _ _ _ _ _ _ _ _ _ _ _ => 1
  | DynamicFeeTx _ _ _ _ _ _ _ _ _ _ _ _ => 2
  | SetCodeTx _ _ _ _ _ _ _ _ _ _ _ _ _ => 4
  end.

Definition tx_data_to (t : TxData) : option Z :=
  match t with
  | LegacyTx _ _ _ to _ _ _ _ _ => to
  | AccessListTx _ _ _ _ to _ _ _ _ _ _ => to
  | DynamicFeeTx _ _ _ _ _ to _ _ _ _ _ _ => to
  | SetCodeTx _ _ _ _ _ to _ _ _ _ _ _ _ => Some to
  end.

Definition tx_data_input (t : TxData) : list byte :=
  match t with
  | LegacyTx _ _ _ _ _ d _ _ _ => d
  | AccessListTx _ _ _ _ _ _ d _ _ _ _ => d
  | DynamicFeeTx _ _ _ _ _ _ _ d _ _ _ _ => d
  | SetCodeTx _ _ _ _ _ _ _ d _ _ _ _ _ => d
  end.

(** The chain id, the nonce, the value, the gas, the fee cap, the tip cap and
    the signature. *)
Definition tx_data_numbers (t : TxData) : Z * Z * Z * Z * Z * Z * (Z * Z * Z) :=
  match t with
  | LegacyTx n p g _ v _ sv r s => (0, n, v, g, p, p, (sv, r, s))
  | AccessListTx c n p g _ v _ _ sv r s => (c, n, v, g, p, p, (sv, r, s))
  | DynamicFeeTx c n tip cap g _ v _ _ sv r s => (c, n, v, g, cap, tip, (sv, r, s))
  | SetCodeTx c n tip cap g _ v _ _ _ sv r s => (c, n, v, g, cap, tip, (sv, r, s))
  end.

Definition tx_data_access (t : TxData) : list AccessTuple :=
  match t with
  | LegacyTx _ _ _ _ _ _ _ _ _ => []
  | AccessListTx _ _ _ _ _ _ _ a _ _ _ => default [] a
  | DynamicFeeTx _ _ _ _ _ _ _ _ a _ _ _ => default [] a
  | SetCodeTx _ _ _ _ _ _ _ _ a _ _ _ _ => default [] a
  end.

Definition sample_tx_hash (t : TxData) : Z :=
  let '(c, n, v, g, cap, tip, (sv, r, s)) := tx_data_numbers t in
  sample_keccak_fn (tx_data_input t ++ concat (be_bytes 32 <$>
    [tx_data_type t; c; n; v; g; cap; tip; sv; r; s; default 0 (tx_data_to t)])).

Definition sample_core_types : CoreTypes.
Proof.
  refine {|
    Transaction := TxData;
    NewTx := id;
    tx_Type := tx_data_type;
    tx_To := tx_data_to;
    tx_ChainId t := let '(c, _, _, _, _, _, _) := tx_data_numbers t in c;
    tx_Nonce t := let '(_, n, _, _, _, _, _) := tx_data_numbers t in n;
    tx_Value t := let '(_, _, v, _, _, _, _) := tx_data_numbers t in v;
    tx_Gas t := let '(_, _, _, g, _, _, _) := tx_data_numbers t in g;
    tx_GasFeeCap t := let '(_, _, _, _, cap, _, _) := tx_data_numbers t in cap;
    tx_GasTipCap t := let '(_, _, _, _, _, tip, _) := tx_data_numbers t in tip;
    tx_Data := tx_data_input;
    tx_AccessList := tx_data_access;
    tx_RawSignatureValues t := (tx_data_numbers t).2;
    tx_BlobGasFeeCap _ := 0;
    tx_HasBlobTxSidecar _ := false;
    tx_Hash := sample_tx_hash;
    Header_Hash := sample_header_hash;
    BytesToBloom bs := bs;
    CalcUncleHash l := sample_keccak_fn (concat (be_bytes 32 <$> (sample_header_hash <$> l)));
    DeriveSha_txs l := sample_keccak_fn (concat (be_bytes 32 <$> (sample_tx_hash <$> l)));
    DeriveSha_withdrawals l := sample_keccak_fn (concat (be_bytes 32 <$> (wd_Index <$> l)));
    CalcRequestsHash l := sample_keccak_fn (concat l);
    EmptyUncleHash := sample_keccak_fn [];
    EmptyWithdrawalsHash := sample_keccak_fn [];
    EmptyRequestsHash := sample_keccak_fn [];
    Witness_Root w := default 0 (hd_Root <$> head (wt_Headers w));
    BytesToBloom_256 _ _ := eq_refl;
  |}.
  intros h. apply sample_keccak_range.
Defined.

(** An empty block header, [n] blocks after genesis. *)
Definition sample_header (n parent root : Z) : Header := {|
  hd_ParentHash := parent;
  hd_UncleHash := sample_keccak_fn [];
  hd_Coinbase := 0x88;
  hd_Root := root;
  hd_TxHash := sample_keccak_fn [];
  hd_ReceiptHash := 4;
  hd_Bloom := replicate 256 x00;
  hd_Difficulty := Some 0;
  hd_Number := Some n;
  hd_GasLimit := 16000000;
  hd_GasUsed := 21000;
  hd_Time := 1700000000 + 12 * n;
  hd_Extra := [x01; x02];
  hd_MixDigest := 9;
  hd_Nonce := replicate 8 x00;
  hd_BaseFee := Some 10000000;
  hd_WithdrawalsHash := Some (sample_keccak_fn []);
  hd_BlobGasUsed := None;
  hd_ExcessBlobGas := None;
  hd_ParentBeaconRoot := None;
  hd_RequestsHash := None;
  hd_SlotNumber := None;
  hd_BlockAccessListHash := None;
|}.
