(* ===== verification/Anchors.v ===== *)
(** * Anchor block numbers

    The rules of [internal/prover/manifest_validate.go] on the L1 block numbers
    the derived blocks anchor to: the window and the order within one source,
    the forced-inclusion prefix of a proposal, and the case of a stalled
    anchor.  Numbers are [uint64]; a difference wraps. *)

From S2P Require Import Prelude.

#[local] Open Scope string_scope.
#[local] Open Scope list_scope.
#[local] Open Scope Z_scope.

Definition shastaManifestMainnetChain : Z := 167000.
Definition shastaMaxAnchorOffset : Z := 128.
Definition shastaMaxAnchorOffsetMainnet : Z := 512.

Record manifestAnchorSourceSpan := {
  as_isForcedInclusion : bool;
  as_blockCount : nat;
}.

Definition anchorMaxOffsetForChain (chainID : Z) : Z :=
  if chainID =? shastaManifestMainnetChain then shastaMaxAnchorOffsetMainnet
  else shastaMaxAnchorOffset.

(** The lowest anchor a proposal of origin [origin] may use. *)
Definition minAnchorBlockNumber (origin chainID : Z) : Z :=
  if origin >? anchorMaxOffsetForChain chainID
  then sub64 origin (anchorMaxOffsetForChain chainID) else 0.

(** The body of the loop; [previous] is the anchor before, if any. *)
Definition progression_step (lastAnchorBlockNumber minAnchor originBlockNumber : Z)
  (previous : option Z) (anchor : Z) : result (option Z) :=
  reject_if (anchor <? lastAnchorBlockNumber)
    (Errorf "anchor is below last anchor block number") ;;!
  reject_if ((anchor <? minAnchor) || (anchor >? originBlockNumber))
    (Errorf "anchor is outside valid range") ;;!
  reject_if (match previous with Some p => anchor <? p | None => false end)
    (Errorf "anchor regressed below previous anchor") ;;!
  Ok (Some anchor).

Definition validateManifestAnchorProgression (anchorBlockNumbers : list Z)
  (lastAnchorBlockNumber originBlockNumber chainID : Z) : result unit :=
  reject_if (length anchorBlockNumbers =? 0)%nat
    (Errorf "anchor block numbers must not be empty") ;;!
  let minAnchor := minAnchorBlockNumber originBlockNumber chainID in
  let! _ := for_fold (fun _ => progression_step lastAnchorBlockNumber minAnchor
    originBlockNumber) 0 None anchorBlockNumbers in
  Ok tt.

Definition shouldBypassStalledAnchorLinkage (anchorNumbers : list Z)
  (lastAnchor origin chainID : Z) : bool :=
  match anchorNumbers with
  | [] => false
  | first :: _ =>
      if negb (first =? lastAnchor) || (sub64 origin first <=? anchorMaxOffsetForChain chainID)
      then false
      else forallb (fun a => a =? first) anchorNumbers
  end.

(** [count] adds up the forced sources before the last source. *)
Definition manifestForcedInclusionPrefixCount (sourceSpans : list manifestAnchorSourceSpan)
  : nat :=
  fold_left (fun count span =>
    if as_isForcedInclusion span then (count + as_blockCount span)%nat else count)
    (take (length sourceSpans - 1) sourceSpans) 0%nat.

(** The slice [l[i:j]]. *)
Definition slice {A} (i j : nat) (l : list A) : list A := take (j - i) (drop i l).

(** The body of the loop over the sources before the last one; [cursor] is the
    number of blocks covered so far. *)
Definition forced_source_step (anchorBlockNumbers : list Z) (lastAnchorBlockNumber : Z)
  (cursor : nat) (span : manifestAnchorSourceSpan) : result nat :=
  reject_if (negb (as_isForcedInclusion span))
    (Errorf "Shasta derivation source must be forced inclusion; only the final source may be normal") ;;!
  reject_if (as_blockCount span =? 0)%nat
    (Errorf "forced inclusion source must contain at least one block") ;;!
  let stop := (cursor + as_blockCount span)%nat in
  reject_if ((stop <? cursor)%nat || (length anchorBlockNumbers <? stop)%nat)
    (Errorf "source spans cover more blocks than anchor block numbers") ;;!
  for_check (fun _ anchor =>
    reject_if (negb (anchor =? lastAnchorBlockNumber))
      (Errorf "forced inclusion source anchor must equal parent anchor"))
    0 (slice cursor stop anchorBlockNumbers) ;;!
  Ok stop.

Definition validateSourceAwareManifestAnchors (anchorBlockNumbers : list Z)
  (sourceSpans : list manifestAnchorSourceSpan)
  (lastAnchorBlockNumber originBlockNumber chainID : Z) : result unit :=
  reject_if (length anchorBlockNumbers =? 0)%nat
    (Errorf "anchor block numbers must not be empty") ;;!
  let! normalSource := some_or (last sourceSpans)
    (Errorf "source spans must not be empty") in
  reject_if (as_isForcedInclusion normalSource)
    (Errorf "last Shasta derivation source must be a normal source") ;;!
  reject_if (as_blockCount normalSource =? 0)%nat
    (Errorf "normal Shasta derivation source must contain at least one block") ;;!
  let! cursor := for_fold (fun _ => forced_source_step anchorBlockNumbers
    lastAnchorBlockNumber) 0%nat 0%nat (take (length sourceSpans - 1) sourceSpans) in
  let stop := (cursor + as_blockCount normalSource)%nat in
  reject_if (stop <? cursor)%nat
    (Errorf "normal Shasta derivation source block count overflow") ;;!
  reject_if (negb (stop =? length anchorBlockNumbers)%nat)
    (Errorf "source spans cover a different number of blocks than anchor block numbers") ;;!
  if shouldBypassStalledAnchorLinkage anchorBlockNumbers lastAnchorBlockNumber
       originBlockNumber chainID
  then Ok tt
  else validateManifestAnchorProgression (slice cursor stop anchorBlockNumbers)
         lastAnchorBlockNumber originBlockNumber chainID.

(* ------------------------------------------------------------------ *)
(** ** What a sequence of anchors must satisfy *)

(** An anchor a proposal may use: not behind the last one, not ahead of the
    origin, and not further behind the origin than the offset. *)
Definition anchor_in_window (lastAnchor origin chainID anchor : Z) : Prop :=
  lastAnchor <= anchor /\ anchor <= origin /\ origin - anchorMaxOffsetForChain chainID <= anchor.

(** Every anchor stays at the last one although it left the window. *)
Definition stalled (anchors : list Z) (lastAnchor origin chainID : Z) : Prop :=
  anchors <> [] /\ Forall (eq lastAnchor) anchors /\
  anchorMaxOffsetForChain chainID < sub64 origin lastAnchor.

Lemma anchorMaxOffset_range chainID : 0 <= anchorMaxOffsetForChain chainID < 2 ^ 64.
Proof.
  unfold anchorMaxOffsetForChain, shastaMaxAnchorOffsetMainnet, shastaMaxAnchorOffset.
  destruct (_ =? _); lia.
Qed.

Lemma minAnchor_spec origin chainID anchor :
  is_u64 origin -> 0 <= anchor ->
  (minAnchorBlockNumber origin chainID <= anchor <->
   origin - anchorMaxOffsetForChain chainID <= anchor).
Proof.
  intros Ho Ha. unfold minAnchorBlockNumber, is_uint in *.
  pose proof (anchorMaxOffset_range chainID). destruct (Z.gtb_spec origin (anchorMaxOffsetForChain chainID)).
  - rewrite sub64_small by lia. lia.
  - lia.
Qed.

(** The loop of the progression check, from any previous anchor. *)
Lemma progression_loop lastAnchor minA origin previous i anchors s :
  for_fold (fun _ => progression_step lastAnchor minA origin) i previous anchors = Ok s <->
  Forall (fun a => lastAnchor <= a /\ minA <= a <= origin) anchors /\
  chained Z.le (option_list previous ++ anchors) /\
  s = match last anchors with Some a => Some a | None => previous end.
Proof.
  revert previous i. induction anchors as [|a l IH]; intros previous i.
  { cbn. rewrite app_nil_r. destruct previous as [p|]; cbn; naive_solver. }
  cbn [for_fold]. rewrite res_bind_ok. setoid_rewrite IH. split.
  - unfold progression_step. intros (x & Hx & Hl & Hc & ->). go_ok. split_conj.
    + constructor; [lia|done].
    + destruct previous as [p|]; cbn in *; [|done]. go_bool. split; [lia|done].
    + rewrite last_cons. by destruct (last l).
  - intros (Hf & Hc & ->). apply Forall_cons in Hf as [[? ?] Hf]. exists (Some a).
    rewrite last_cons. unfold progression_step. split.
    + destruct (Z.ltb_spec a lastAnchor); [lia|]. destruct (Z.ltb_spec a minA); [lia|].
      destruct (Z.gtb_spec a origin); [lia|]. destruct previous as [p|]; [|done].
      cbn in Hc |- *. destruct Hc as [Hpa _]. by destruct (Z.ltb_spec a p); [lia|].
    + split; [done|]. split; [|by destruct (last l)].
      destruct previous as [p|]; cbn in *; [tauto|done].
Qed.

Lemma progression_ok anchors lastAnchor origin chainID :
  is_u64 origin -> Forall is_u64 anchors ->
  (validateManifestAnchorProgression anchors lastAnchor origin chainID = Ok tt <->
   anchors <> [] /\ Forall (anchor_in_window lastAnchor origin chainID) anchors /\
   chained Z.le anchors).
Proof.
  intros Ho Hu. unfold validateManifestAnchorProgression.
  rewrite res_bind_ok. setoid_rewrite reject_if_ok. setoid_rewrite res_bind_ok.
  setoid_rewrite progression_loop. cbn [option_list app].
  assert (Hw : Forall (fun a => lastAnchor <= a /\
      minAnchorBlockNumber origin chainID <= a <= origin) anchors <->
    Forall (anchor_in_window lastAnchor origin chainID) anchors).
  { rewrite !Forall_forall. rewrite Forall_forall in Hu.
    split; intros Hf a Ha; specialize (Hf a Ha); specialize (Hu a Ha);
      pose proof (minAnchor_spec origin chainID a Ho ltac:(unfold is_uint in Hu; lia));
      unfold anchor_in_window in *; lia. }
  rewrite <- Hw. split.
  - intros (_ & Hn & s & (Hf & Hc & _) & _). split_conj; [|done|done].
    by intros ->.
  - intros (Hn & Hf & Hc). exists tt. split; [by destruct anchors|]. eauto.
Qed.

Lemma stalled_spec anchors lastAnchor origin chainID :
  shouldBypassStalledAnchorLinkage anchors lastAnchor origin chainID = true <->
  stalled anchors lastAnchor origin chainID.
Proof.
  unfold shouldBypassStalledAnchorLinkage, stalled. destruct anchors as [|first l].
  { naive_solver. }
  destruct (Z.eqb_spec first lastAnchor) as [->|Hne]; cbn [negb orb].
  - destruct (Z.leb_spec (sub64 origin lastAnchor) (anchorMaxOffsetForChain chainID)).
    + split; [done|]. intros (_ & _ & ?). lia.
    + rewrite forallb_forall, Forall_forall. setoid_rewrite Z.eqb_eq.
      setoid_rewrite list_elem_of_In. naive_solver.
  - split; [done|]. intros (_ & Hf & _). apply Forall_cons in Hf as [? _]. congruence.
Qed.

(* ------------------------------------------------------------------ *)
(** ** The sources of a proposal *)

Definition span_blocks (spans : list manifestAnchorSourceSpan) : nat :=
  sum_list (as_blockCount <$> spans).

Definition forced_span (s : manifestAnchorSourceSpan) : Prop :=
  as_isForcedInclusion s = true /\ (0 < as_blockCount s)%nat.

Lemma slice_length {A} i j (l : list A) :
  (i <= j <= length l)%nat -> length (slice i j l) = (j - i)%nat.
Proof. intros. unfold slice. rewrite length_take, length_drop. lia. Qed.

Lemma slice_app {A} i j k (l : list A) :
  (i <= j <= k)%nat -> slice i k l = slice i j l ++ slice j k l.
Proof.
  intros. unfold slice. replace (k - i)%nat with ((j - i) + (k - j))%nat by lia.
  rewrite <- take_take_drop, drop_drop. do 3 f_equal. lia.
Qed.

Lemma forall_slice_app {A} (P : A -> Prop) i j k (l : list A) :
  (i <= j <= k)%nat ->
  (Forall P (slice i k l) <-> Forall P (slice i j l) /\ Forall P (slice j k l)).
Proof. intros. rewrite (slice_app i j k) by done. apply Forall_app. Qed.

Lemma anchors_equal_loop anchor i l u :
  for_check (fun _ a =>
    reject_if (negb (a =? anchor))
      (Errorf "forced inclusion source anchor must equal parent anchor")) i l = Ok u <->
  Forall (eq anchor) l.
Proof.
  rewrite (for_check_Forall (fun a => reject_if (negb (a =? anchor)) _)).
  apply Forall_proper; [|done]. intros a. rewrite reject_if_ok, negb_false_iff, Z.eqb_eq.
  naive_solver.
Qed.

Lemma forced_loop anchors lastAnchor spans i cursor c :
  for_fold (fun _ => forced_source_step anchors lastAnchor) i cursor spans = Ok c <->
  Forall forced_span spans /\ c = (cursor + span_blocks spans)%nat /\
  (spans <> [] -> c <= length anchors)%nat /\
  Forall (eq lastAnchor) (slice cursor c anchors).
Proof.
  revert i cursor. induction spans as [|s l IH]; intros i cursor.
  { cbn. unfold span_blocks. cbn. rewrite Nat.add_0_r. split.
    - intros [= <-]. split_conj; try done. unfold slice. by rewrite Nat.sub_diag.
    - naive_solver. }
  cbn [for_fold]. rewrite res_bind_ok. setoid_rewrite IH. clear IH. unfold span_blocks.
  cbn [fmap list_fmap sum_list sum_list_with]. fold (span_blocks l). split.
  - unfold forced_source_step. intros (x & Hx & Hl & Hc & Hlen & Hf). go_ok.
    match goal with H : for_check _ _ _ = Ok _ |- _ => apply anchors_equal_loop in H end.
    repeat match goal with H : (_ <? _)%nat = false |- _ => apply Nat.ltb_ge in H end.
    split_conj.
    + constructor; [|done]. split; [done|lia].
    + unfold sum_list, span_blocks in *. cbn in *. lia.
    + intros _. destruct l as [|s' l']; [unfold span_blocks in *; cbn in *; lia|].
      by apply Hlen.
    + apply (forall_slice_app _ cursor (cursor + as_blockCount s)%nat); [lia|done].
  - intros (Hl & Hc & Hlen & Hf). apply Forall_cons in Hl as [[Hs Hpos] Hl].
    assert (Hc' : c = (cursor + as_blockCount s + span_blocks l)%nat).
    { unfold sum_list, span_blocks in *. cbn in *. lia. }
    specialize (Hlen ltac:(done)).
    apply (forall_slice_app _ cursor (cursor + as_blockCount s)%nat) in Hf as [Hf1 Hf2]; [|lia].
    exists (cursor + as_blockCount s)%nat. split_conj; try done.
    unfold forced_source_step. rewrite Hs. cbn [negb reject_if res_bind].
    destruct (Nat.eqb_spec (as_blockCount s) 0); [lia|]. cbn [reject_if res_bind].
    destruct (Nat.ltb_spec (cursor + as_blockCount s) cursor); [lia|].
    destruct (Nat.ltb_spec (length anchors) (cursor + as_blockCount s)); [lia|].
    cbn [orb reject_if res_bind].
    rewrite (proj2 (anchors_equal_loop lastAnchor 0 _ tt)) by done. done.
Qed.

Lemma take_all_but_last {A} (l : list A) x : take (length (l ++ [x]) - 1) (l ++ [x]) = l.
Proof. rewrite length_app. cbn. rewrite Nat.add_sub. apply take_app_length. Qed.

(** The number of blocks of the sources before the last one, all forced. *)
Lemma prefix_count_forced forced normal :
  Forall forced_span forced ->
  manifestForcedInclusionPrefixCount (forced ++ [normal]) = span_blocks forced.
Proof.
  intros Hf. unfold manifestForcedInclusionPrefixCount. rewrite take_all_but_last.
  unfold span_blocks.
  assert (Hgen : forall n, fold_left (fun count span =>
      if as_isForcedInclusion span then (count + as_blockCount span)%nat else count)
      forced n = (n + sum_list (as_blockCount <$> forced))%nat).
  { induction Hf as [|s l [Hs _] Hl IH]; intros n; cbn; [lia|].
    rewrite Hs, IH. unfold sum_list. lia. }
  apply (Hgen 0%nat).
Qed.

(** C30 (anchor rules of a proposal): the anchors of all derived blocks are
    accepted exactly when every source but the last is a non-empty forced
    inclusion, the last is a non-empty normal source, the sources cover the
    blocks exactly, every forced block keeps the last anchor, and the blocks
    of the normal source either do not fall behind the last anchor, stay in the
    window behind the origin and never go back, or the whole proposal is
    stalled at the last anchor. *)
Theorem validateSourceAwareManifestAnchors_spec anchors spans lastAnchor origin chainID
  (Ho : is_u64 origin) (Hu : Forall is_u64 anchors) :
  validateSourceAwareManifestAnchors anchors spans lastAnchor origin chainID = Ok tt <->
  exists forced normal,
    spans = forced ++ [normal] /\ Forall forced_span forced /\
    as_isForcedInclusion normal = false /\ (0 < as_blockCount normal)%nat /\
    length anchors = (span_blocks forced + as_blockCount normal)%nat /\
    Forall (eq lastAnchor) (take (span_blocks forced) anchors) /\
    (stalled anchors lastAnchor origin chainID \/
     Forall (anchor_in_window lastAnchor origin chainID) (drop (span_blocks forced) anchors) /\
     chained Z.le (drop (span_blocks forced) anchors)).
Proof.
  unfold validateSourceAwareManifestAnchors. split.
  - intros Hv. go_ok.
    match goal with H : last spans = Some ?n |- _ =>
      apply last_Some in H as [forced ->]; rename n into normal end.
    rewrite take_all_but_last in *.
    match goal with H : for_fold _ _ _ _ = Ok _ |- _ =>
      apply forced_loop in H as (Hforced & -> & _ & Hpre) end.
    exists forced, normal. unfold slice in *. cbn [Nat.add] in *.
    rewrite Nat.sub_0_r, drop_0 in Hpre. split_conj; try done; try lia.
    destruct (shouldBypassStalledAnchorLinkage _ _ _ _) eqn:Hb.
    { left. by apply stalled_spec. }
    right. apply progression_ok in Hv as (_ & Hw & Hc); [|done|by apply Forall_take, Forall_drop].
    rewrite take_ge in Hw, Hc by (rewrite length_drop; lia). done.
  - intros (forced & normal & -> & Hforced & Hn & Hpos & Hlen & Hpre & Hrule).
    destruct (Nat.eqb_spec (length anchors) 0); [lia|]. cbn [reject_if res_bind].
    rewrite last_snoc. cbn [some_or res_bind]. rewrite Hn. cbn [reject_if res_bind].
    destruct (Nat.eqb_spec (as_blockCount normal) 0); [lia|]. cbn [reject_if res_bind].
    rewrite take_all_but_last.
    rewrite (proj2 (forced_loop anchors lastAnchor forced 0 0 (span_blocks forced))).
    2:{ unfold slice. rewrite Nat.sub_0_r, drop_0. split_conj; try done. lia. }
    cbn [res_bind]. destruct (Nat.ltb_spec (span_blocks forced + as_blockCount normal)
      (span_blocks forced)); [lia|]. cbn [reject_if res_bind].
    rewrite Hlen, Nat.eqb_refl. cbn [negb reject_if res_bind].
    destruct (shouldBypassStalledAnchorLinkage _ _ _ _) eqn:Hb; [done|].
    destruct Hrule as [Hs|[Hw Hc]]; [apply stalled_spec in Hs; congruence|].
    unfold slice. rewrite take_ge by (rewrite length_drop; lia).
    apply progression_ok; [done|by apply Forall_drop|]. split_conj; try done.
    intros Hd. apply (f_equal length) in Hd. rewrite length_drop in Hd. cbn in Hd. lia.
Qed.

(** A forced source of one block, then two blocks in the window. *)
Lemma validateSourceAwareManifestAnchors_spec_witness :
  validateSourceAwareManifestAnchors [900; 950; 990]
    [ {| as_isForcedInclusion := true; as_blockCount := 1 |};
      {| as_isForcedInclusion := false; as_blockCount := 2 |} ] 900 1000 167001 = Ok tt.
Proof.
  apply (validateSourceAwareManifestAnchors_spec [900; 950; 990]).
  - unfold is_uint. lia.
  - repeat constructor; lia.
  - exists [{| as_isForcedInclusion := true; as_blockCount := 1 |}],
      {| as_isForcedInclusion := false; as_blockCount := 2 |}.
    split_conj; try reflexivity; try (cbn; lia).
    + repeat constructor.
    + repeat constructor.
    + right. split; [|cbn; lia]. unfold anchor_in_window, anchorMaxOffsetForChain,
        shastaMaxAnchorOffset. cbn. repeat apply Forall_cons_2; try apply Forall_nil_2; lia.
Defined.

(** C40 (the stalled case reads a wrapped difference): for anchors that all stay
    at the last one, the linkage bypass is taken when the last anchor is more
    than the offset behind the origin, as meant, and also when it is ahead of
    the origin, because the unsigned difference wraps; such an anchor is outside
    the window the progression check enforces. *)
Theorem shouldBypassStalledAnchorLinkage_spec anchors lastAnchor origin chainID
  (Ho : is_u64 origin) (Hl : is_u64 lastAnchor)
  (Hall : anchors <> [] /\ Forall (eq lastAnchor) anchors) :
  (lastAnchor <= origin ->
   (shouldBypassStalledAnchorLinkage anchors lastAnchor origin chainID = true <->
    lastAnchor + anchorMaxOffsetForChain chainID < origin)) /\
  (origin < lastAnchor ->
   (shouldBypassStalledAnchorLinkage anchors lastAnchor origin chainID = true <->
    lastAnchor - origin < 2 ^ 64 - anchorMaxOffsetForChain chainID) /\
   ~ Forall (anchor_in_window lastAnchor origin chainID) anchors).
Proof.
  destruct Hall as [Hne Hall]. rewrite stalled_spec. unfold stalled.
  pose proof (anchorMaxOffset_range chainID) as Hoff. unfold is_uint in *. split.
  - intros Hle. rewrite sub64_small by lia. intuition lia.
  - intros Hlt. rewrite sub64_underflow by (unfold is_uint; lia). split; [intuition lia|].
    intros Hw. destruct anchors as [|a l]; [done|].
    apply Forall_cons in Hw as [(? & ? & ?) _]. apply Forall_cons in Hall as [<- _]. lia.
Qed.

Lemma shouldBypassStalledAnchorLinkage_spec_witness :
  shouldBypassStalledAnchorLinkage [1001; 1001] 1001 1000 167001 = true.
Proof.
  apply (shouldBypassStalledAnchorLinkage_spec [1001; 1001] 1001 1000 167001);
    [unfold is_uint; lia|unfold is_uint; lia| |lia|vm_compute; reflexivity].
  split; [discriminate|repeat constructor].
Defined.
