(* ===== verification/BlobCoder.v ===== *)
(** * The blob codec

    [internal/prover/blob_coder.go]: [decodeShastaBlob] unpacks a 128 KiB blob
    into at most 130044 bytes.  The Go code writes into one output slice at
    moving positions; the model threads that slice.  Every 128 bytes of the
    blob (four field elements) hold 127 bytes: the 31 low bytes of each element
    and three bytes spread over the six low bits of the four element headers.
    The specification is the inverse packing, chunk by chunk. *)

From S2P Require Import Prelude Bytes.

#[local] Open Scope string_scope.
#[local] Open Scope list_scope.
#[local] Open Scope Z_scope.

Definition shastaBlobEncodingVersion : Z := 0.
Definition shastaBytesPerBlob : Z := 131072.
Definition shastaBlobMaxDataSize : Z := (4 * 31 + 3) * 1024 - 4.
Definition shastaBlobEncodingRounds : Z := 1024.

(* ------------------------------------------------------------------ *)
(** ** Byte slices at integer positions *)

Definition zlen (l : list byte) : Z := Z.of_nat (length l).

(** [l[i]], [l[i:j]] and [l[i] = b] where the position is in range. *)
Definition zget (i : Z) (l : list byte) : byte := default x00 (l !! Z.to_nat i).
Definition zslice (i j : Z) (l : list byte) : list byte :=
  take (Z.to_nat (j - i)) (drop (Z.to_nat i) l).
Definition zset (i : Z) (b : byte) (l : list byte) : list byte := <[Z.to_nat i := b]> l.

(** [copy(l[i:], src)] where [src] fits. *)
Definition zcopy (i : Z) (src l : list byte) : list byte :=
  take (Z.to_nat i) l ++ src ++ drop (Z.to_nat i + length src) l.

Definition zeros (n : Z) : list byte := replicate (Z.to_nat n) x00.

Definition all_zero (l : list byte) : bool := forallb (fun b => byte_val b =? 0) l.

(* ------------------------------------------------------------------ *)
(** ** The decoder *)

Record blobState := {
  bs_output : list byte;
  bs_outputPos : Z;
  bs_inputPos : Z;
  bs_encodedByte : list byte;
}.

Definition decodeShastaBlobFieldElement (data output : list byte) (outputPos inputPos : Z)
  : option (byte * Z * Z * list byte) :=
  if (inputPos + 32 >? zlen data) || (outputPos + 31 >? zlen output) then None
  else
    let header := zget inputPos data in
    if negb (Z.land (byte_val header) 0xc0 =? 0) then None
    else Some (header, outputPos + 32, inputPos + 32,
               zcopy outputPos (zslice (inputPos + 1) (inputPos + 32) data) output).

Definition reassembleShastaBlobEncodedBytes (outputPos : Z) (encodedByte output : list byte)
  : Z * list byte :=
  let outputPos := outputPos - 1 in
  let e i := byte_val (zget i encodedByte) in
  let x := Z.lor (Z.land (e 0) 0x3f) (Z.shiftl (Z.land (e 1) 0x30) 2) in
  let y := Z.lor (Z.land (e 1) 0x0f) (Z.shiftl (Z.land (e 3) 0x0f) 4) in
  let z := Z.lor (Z.land (e 2) 0x3f) (Z.shiftl (Z.land (e 3) 0x30) 2) in
  (outputPos,
   zset (outputPos - 32 * 3) (byte_of x)
     (zset (outputPos - 32 * 2) (byte_of y)
        (zset (outputPos - 32) (byte_of z) output))).

Definition invalid_blob : error := Errorf "invalid blob encoding".

(** The body of the loops over the field elements of a round. *)
Definition blob_element (raw : list byte) (st : blobState) (i : Z) : result blobState :=
  let! r := some_or (decodeShastaBlobFieldElement raw (bs_output st) (bs_outputPos st)
    (bs_inputPos st)) invalid_blob in
  let '(enc, newOutputPos, newInputPos, output) := r in
  Ok {| bs_output := output; bs_outputPos := newOutputPos; bs_inputPos := newInputPos;
        bs_encodedByte := zset i enc (bs_encodedByte st) |}.

Definition blob_reassemble (st : blobState) : blobState :=
  let '(outputPos, output) :=
    reassembleShastaBlobEncodedBytes (bs_outputPos st) (bs_encodedByte st) (bs_output st) in
  {| bs_output := output; bs_outputPos := outputPos; bs_inputPos := bs_inputPos st;
     bs_encodedByte := bs_encodedByte st |}.

(** The rounds after the first; the loop stops once the length is reached. *)
Fixpoint blob_rounds (raw : list byte) (length : Z) (rounds : nat) (st : blobState)
  : result blobState :=
  match rounds with
  | O => Ok st
  | S rounds' =>
      if bs_outputPos st >=? length then Ok st
      else
        let! st' := for_fold (fun _ => blob_element raw) 0 st [0; 1; 2; 3] in
        blob_rounds raw length rounds' (blob_reassemble st')
  end.

(** Nothing is left behind: the output past the length and the input past the
    last element read are zero. *)
Definition blob_finish (raw : list byte) (length : Z) (st : blobState) : result (list byte) :=
  reject_if (negb (all_zero (drop (Z.to_nat length) (bs_output st)))) invalid_blob ;;!
  reject_if (negb (all_zero (drop (Z.to_nat (bs_inputPos st)) raw))) invalid_blob ;;!
  Ok (take (Z.to_nat length) (bs_output st)).

Definition decodeShastaBlob (raw : list byte) : result (list byte) :=
  reject_if (negb (zlen raw =? shastaBytesPerBlob)) (Errorf "invalid blob length") ;;!
  reject_if (negb (byte_val (zget 1 raw) =? shastaBlobEncodingVersion)) invalid_blob ;;!
  let length := Z.lor (Z.lor (Z.shiftl (byte_val (zget 2 raw)) 16)
    (Z.shiftl (byte_val (zget 3 raw)) 8)) (byte_val (zget 4 raw)) in
  reject_if (length >? shastaBlobMaxDataSize) invalid_blob ;;!
  let output := zcopy 0 (zslice 5 32 raw) (zeros shastaBlobMaxDataSize) in
  let! st := for_fold (fun _ => blob_element raw) 0
    {| bs_output := output; bs_outputPos := 28; bs_inputPos := 32;
       bs_encodedByte := [zget 0 raw; x00; x00; x00] |} [1; 2; 3] in
  let! st := blob_rounds raw length (Z.to_nat (shastaBlobEncodingRounds - 1))
    (blob_reassemble st) in
  blob_finish raw length st.

(* ------------------------------------------------------------------ *)
(** ** The packing it inverts *)

(** 127 bytes into 128: the three bytes at 31, 63 and 95 go to the headers. *)
Definition encode_chunk (d : list byte) : list byte :=
  let b i := byte_val (zget i d) in
  [byte_of (b 31 mod 64)] ++ zslice 0 31 d ++
  [byte_of (b 63 mod 16 + 16 * (b 31 / 64))] ++ zslice 32 63 d ++
  [byte_of (b 95 mod 64)] ++ zslice 64 95 d ++
  [byte_of (b 63 / 16 + 16 * (b 95 / 64))] ++ zslice 96 127 d.

Fixpoint encode_chunks (n : nat) (data : list byte) : list byte :=
  match n with
  | O => []
  | S n' => encode_chunk (take 127 data) ++ encode_chunks n' (drop 127 data)
  end.

(** Version, length in three bytes, payload, zeros. *)
Definition blob_data (payload : list byte) : list byte :=
  [x00] ++ be_bytes 3 (zlen payload) ++ payload ++ zeros (shastaBlobMaxDataSize - zlen payload).

Definition encodeShastaBlob (payload : list byte) : list byte :=
  encode_chunks (Z.to_nat shastaBlobEncodingRounds) (blob_data payload).

(* ------------------------------------------------------------------ *)
(** ** Slices of appended lists *)

Lemma zlen_app a b : zlen (a ++ b) = zlen a + zlen b.
Proof. unfold zlen. rewrite length_app. lia. Qed.

Lemma zlen_cons x a : zlen (x :: a) = 1 + zlen a.
Proof. unfold zlen. cbn [length]. lia. Qed.

Lemma zlen_nil : zlen [] = 0.
Proof. done. Qed.

Lemma zlen_nonneg a : 0 <= zlen a.
Proof. unfold zlen. lia. Qed.

Lemma zlen_zeros n : 0 <= n -> zlen (zeros n) = n.
Proof. intros. unfold zlen, zeros. rewrite length_replicate. lia. Qed.

Create Rewrite HintDb zlen.
#[local] Hint Rewrite zlen_app zlen_cons zlen_nil : zlen.
Ltac zlen := autorewrite with zlen; lia.

(** Right-associates appended lists. *)
Ltac app_norm := repeat first [rewrite <- !app_assoc | progress cbn [app]].

Lemma zget_mid a x b i : i = zlen a -> zget i (a ++ x :: b) = x.
Proof.
  intros ->. unfold zget, zlen. rewrite Nat2Z.id, list_lookup_middle; done.
Qed.

Lemma zslice_mid a m b i j : i = zlen a -> j = zlen a + zlen m -> zslice i j (a ++ m ++ b) = m.
Proof.
  intros -> ->. unfold zslice, zlen. rewrite Nat2Z.id, drop_app_length.
  replace (Z.to_nat (Z.of_nat (length a) + Z.of_nat (length m) - Z.of_nat (length a)))
    with (length m) by lia. apply take_app_length.
Qed.

Lemma zset_mid a x y b i : i = zlen a -> zset i y (a ++ x :: b) = a ++ y :: b.
Proof.
  intros ->. unfold zset, zlen. rewrite Nat2Z.id, insert_app_r_alt by lia.
  by rewrite Nat.sub_diag.
Qed.

Lemma zcopy_mid a src old b i :
  i = zlen a -> zlen src = zlen old -> zcopy i src (a ++ old ++ b) = a ++ src ++ b.
Proof.
  intros -> Hl. unfold zcopy, zlen in *. rewrite Nat2Z.id, take_app_length.
  assert (length src = length old) as -> by lia.
  rewrite <- drop_drop, drop_app_length, drop_app_length. done.
Qed.

Lemma zeros_split n m : 0 <= n -> 0 <= m -> zeros (n + m) = zeros n ++ zeros m.
Proof. intros. unfold zeros. rewrite Z2Nat.inj_add by lia. by rewrite replicate_add. Qed.

Lemma zeros_S n : 0 < n -> zeros n = x00 :: zeros (n - 1).
Proof.
  intros. replace n with (1 + (n - 1)) at 1 by lia. by rewrite zeros_split by lia.
Qed.

Lemma all_zero_zeros l : all_zero l = true <-> l = zeros (zlen l).
Proof.
  unfold all_zero, zeros, zlen. rewrite Nat2Z.id. induction l as [|b l IH]; [done|].
  cbn [forallb length replicate]. rewrite andb_true_iff, IH, Z.eqb_eq. split.
  - intros [Hb ->]. rewrite length_replicate. f_equal. by apply byte_val_inj.
  - intros [= -> Hl]. done.
Qed.

(* ------------------------------------------------------------------ *)
(** ** The bits of four headers *)

Definition header_ok (h : byte) : bool := Z.land (byte_val h) 0xc0 =? 0.

Definition join_x (h0 h1 : byte) : byte :=
  byte_of (Z.lor (Z.land (byte_val h0) 0x3f) (Z.shiftl (Z.land (byte_val h1) 0x30) 2)).
Definition join_y (h1 h3 : byte) : byte :=
  byte_of (Z.lor (Z.land (byte_val h1) 0x0f) (Z.shiftl (Z.land (byte_val h3) 0x0f) 4)).
Definition join_z (h2 h3 : byte) : byte :=
  byte_of (Z.lor (Z.land (byte_val h2) 0x3f) (Z.shiftl (Z.land (byte_val h3) 0x30) 2)).

Definition low6 (b : byte) : byte := byte_of (byte_val b mod 64).
(** The header that carries the low half of [y] and the top bits of [x]. *)
Definition head1 (x y : byte) : byte := byte_of (byte_val y mod 16 + 16 * (byte_val x / 64)).
Definition head3 (y z : byte) : byte := byte_of (byte_val y / 16 + 16 * (byte_val z / 64)).

Definition all_bytes : list byte := byte_of ∘ Z.of_nat <$> seq 0 256.

Lemma all_bytes_spec b : b ∈ all_bytes.
Proof.
  apply list_elem_of_fmap. exists (Z.to_nat (byte_val b)). pose proof (byte_val_range b).
  split.
  - cbn. rewrite Z2Nat.id by lia. by rewrite byte_of_val.
  - apply elem_of_seq. lia.
Qed.

(** A fact about two bytes is checked on all of them. *)
Lemma byte_forall2 (P : byte -> byte -> bool) :
  forallb (fun a => forallb (P a) all_bytes) all_bytes = true -> forall a b, P a b = true.
Proof.
  rewrite forallb_forall. intros Hf a b.
  specialize (Hf a ltac:(apply list_elem_of_In, all_bytes_spec)).
  rewrite forallb_forall in Hf. apply Hf, list_elem_of_In, all_bytes_spec.
Qed.

Ltac byte_check P a b :=
  let H := fresh in
  pose proof (byte_forall2 P ltac:(vm_compute; reflexivity) a b) as H; cbv beta in H.

(** Splitting three bytes over the headers and joining them again. *)
Lemma split_join_xy x y :
  header_ok (low6 x) = true /\ header_ok (head1 x y) = true /\ header_ok (head3 x y) = true /\
  join_x (low6 x) (head1 x y) = x /\ join_z (low6 y) (head3 x y) = y /\
  Z.land (byte_val (head1 x y)) 0x0f = byte_val y mod 16 /\
  Z.land (byte_val (head3 x y)) 0x0f = byte_val x / 16.
Proof.
  byte_check (fun x y =>
    header_ok (low6 x) && header_ok (head1 x y) && header_ok (head3 x y) &&
    (byte_val (join_x (low6 x) (head1 x y)) =? byte_val x) &&
    (byte_val (join_z (low6 y) (head3 x y)) =? byte_val y) &&
    (Z.land (byte_val (head1 x y)) 0x0f =? byte_val y mod 16) &&
    (Z.land (byte_val (head3 x y)) 0x0f =? byte_val x / 16)) x y.
  go_bool. split_conj; try done; by apply byte_val_inj.
Qed.

Lemma split_join_y x y z : join_y (head1 x y) (head3 y z) = y.
Proof.
  destruct (split_join_xy x y) as (_ & _ & _ & _ & _ & E1 & _).
  destruct (split_join_xy y z) as (_ & _ & _ & _ & _ & _ & E3).
  unfold join_y. rewrite E1, E3. clear.
  byte_check (fun y _ : byte => byte_val (byte_of (Z.lor (byte_val y mod 16)
    (Z.shiftl (byte_val y / 16) 4))) =? byte_val y) y y.
  go_bool. by apply byte_val_inj.
Qed.

(** Joining the headers and splitting the bytes again. *)
Lemma join_split_pair a b :
  header_ok b = true ->
  low6 (join_x a b) = low6 a /\ byte_val (join_x a b) / 64 = byte_val b / 16 /\
  low6 (join_z a b) = low6 a /\ byte_val (join_z a b) / 64 = byte_val b / 16 /\
  byte_val (join_y a b) mod 16 = byte_val a mod 16 /\
  byte_val (join_y a b) / 16 = byte_val b mod 16 /\
  byte_of (byte_val b mod 16 + 16 * (byte_val b / 16)) = b /\ low6 b = b.
Proof.
  byte_check (fun a b => negb (header_ok b) ||
    ((byte_val (low6 (join_x a b)) =? byte_val (low6 a)) &&
     (byte_val (join_x a b) / 64 =? byte_val b / 16) &&
     (byte_val (low6 (join_z a b)) =? byte_val (low6 a)) &&
     (byte_val (join_z a b) / 64 =? byte_val b / 16) &&
     (byte_val (join_y a b) mod 16 =? byte_val a mod 16) &&
     (byte_val (join_y a b) / 16 =? byte_val b mod 16) &&
     (byte_val (byte_of (byte_val b mod 16 + 16 * (byte_val b / 16))) =? byte_val b) &&
     (byte_val (low6 b) =? byte_val b))) a b.
  intros Hb. rewrite Hb in H. cbn [negb orb] in H. go_bool.
  split_conj; try done; by apply byte_val_inj.
Qed.

Lemma join_split_heads h0 h1 h2 h3 :
  header_ok h1 = true -> header_ok h2 = true -> header_ok h3 = true ->
  low6 (join_x h0 h1) = low6 h0 /\ head1 (join_x h0 h1) (join_y h1 h3) = h1 /\
  low6 (join_z h2 h3) = h2 /\ head3 (join_y h1 h3) (join_z h2 h3) = h3.
Proof.
  intros H1 H2 H3.
  destruct (join_split_pair h0 h1 H1) as (E1 & E2 & _ & _ & _ & _ & E3 & _).
  destruct (join_split_pair h1 h3 H3) as (_ & _ & _ & _ & E4 & E5 & E6 & _).
  destruct (join_split_pair h2 h3 H3) as (_ & _ & E7 & E8 & _).
  destruct (join_split_pair h2 h2 H2) as (_ & _ & _ & _ & _ & _ & _ & E9).
  unfold head1, head3. rewrite E2, E4, E5, E8, E3, E6, E7, E9. done.
Qed.

(* ------------------------------------------------------------------ *)
(** ** One chunk *)

Definition mk_chunk h0 f1 h1 f2 h2 f3 h3 f4 : list byte :=
  (h0 :: f1) ++ (h1 :: f2) ++ (h2 :: f3) ++ (h3 :: f4).
Definition mk_data f1 x f2 y f3 z f4 : list byte :=
  f1 ++ x :: f2 ++ y :: f3 ++ z :: f4.

Lemma encode_chunk_mk f1 x f2 y f3 z f4 :
  zlen f1 = 31 -> zlen f2 = 31 -> zlen f3 = 31 -> zlen f4 = 31 ->
  encode_chunk (mk_data f1 x f2 y f3 z f4) =
  mk_chunk (low6 x) f1 (head1 x y) f2 (low6 z) f3 (head3 y z) f4.
Proof.
  intros L1 L2 L3 L4. unfold encode_chunk, mk_data, mk_chunk.
  rewrite (zget_mid f1 x _ 31) by lia.
  pose proof (fun b => zslice_mid [] f1 b 0 31 eq_refl ltac:(zlen)) as E.
  cbn [app] in E. rewrite E. clear E.
  replace (f1 ++ x :: f2 ++ y :: f3 ++ z :: f4)
    with ((f1 ++ x :: f2) ++ y :: f3 ++ z :: f4) by by rewrite <- !app_assoc.
  rewrite (zget_mid (f1 ++ x :: f2) y _ 63) by zlen.
  replace ((f1 ++ x :: f2) ++ y :: f3 ++ z :: f4)
    with ((f1 ++ [x]) ++ f2 ++ y :: f3 ++ z :: f4) by by rewrite <- !app_assoc.
  rewrite (zslice_mid (f1 ++ [x]) f2 _ 32 63) by zlen.
  replace ((f1 ++ [x]) ++ f2 ++ y :: f3 ++ z :: f4)
    with ((f1 ++ x :: f2 ++ [y]) ++ f3 ++ z :: f4) by by app_norm.
  rewrite (zslice_mid (f1 ++ x :: f2 ++ [y]) f3 _ 64 95) by zlen.
  replace ((f1 ++ x :: f2 ++ [y]) ++ f3 ++ z :: f4)
    with ((f1 ++ x :: f2 ++ y :: f3) ++ z :: f4) by by app_norm.
  rewrite (zget_mid (f1 ++ x :: f2 ++ y :: f3) z _ 95) by zlen.
  replace ((f1 ++ x :: f2 ++ y :: f3) ++ z :: f4)
    with ((f1 ++ x :: f2 ++ y :: f3 ++ [z]) ++ f4 ++ [])
    by (app_norm; by rewrite app_nil_r).
  rewrite (zslice_mid (f1 ++ x :: f2 ++ y :: f3 ++ [z]) f4 _ 96 127) by zlen. done.
Qed.

Lemma split_at_len n (l : list byte) m :
  0 <= n -> 0 <= m -> zlen l = n + m -> exists a b, l = a ++ b /\ zlen a = n /\ zlen b = m.
Proof.
  intros Hn Hm Hl. exists (take (Z.to_nat n) l), (drop (Z.to_nat n) l).
  rewrite take_drop. split; [done|]. unfold zlen in *. rewrite length_take, length_drop. lia.
Qed.

Lemma split_cons_len n (l : list byte) :
  0 <= n -> zlen l = 1 + n -> exists h f, l = h :: f /\ zlen f = n.
Proof.
  intros Hn Hl. destruct l as [|h f]; [unfold zlen in Hl; cbn in Hl; lia|].
  exists h, f. rewrite zlen_cons in Hl. split; [done|lia].
Qed.

(** Every 128 bytes are a chunk, every 127 bytes its data. *)
Lemma chunk_split c :
  zlen c = 128 -> exists h0 f1 h1 f2 h2 f3 h3 f4, c = mk_chunk h0 f1 h1 f2 h2 f3 h3 f4 /\
    zlen f1 = 31 /\ zlen f2 = 31 /\ zlen f3 = 31 /\ zlen f4 = 31.
Proof.
  intros Hc.
  destruct (split_at_len 32 c 96) as (a & r & -> & Ha & Hr); [lia..|].
  destruct (split_at_len 32 r 64) as (b & r' & -> & Hb & Hr'); [lia..|].
  destruct (split_at_len 32 r' 32) as (d & e & -> & Hd & He); [lia..|].
  destruct (split_cons_len 31 a) as (h0 & f1 & -> & ?); [lia..|].
  destruct (split_cons_len 31 b) as (h1 & f2 & -> & ?); [lia..|].
  destruct (split_cons_len 31 d) as (h2 & f3 & -> & ?); [lia..|].
  destruct (split_cons_len 31 e) as (h3 & f4 & -> & ?); [lia..|].
  by exists h0, f1, h1, f2, h2, f3, h3, f4.
Qed.

Lemma data_split d :
  zlen d = 127 -> exists f1 x f2 y f3 z f4, d = mk_data f1 x f2 y f3 z f4 /\
    zlen f1 = 31 /\ zlen f2 = 31 /\ zlen f3 = 31 /\ zlen f4 = 31.
Proof.
  intros Hc.
  destruct (split_at_len 31 d 96) as (f1 & r & -> & Ha & Hr); [lia..|].
  destruct (split_at_len 32 r 64) as (b & r' & -> & Hb & Hr'); [lia..|].
  destruct (split_at_len 32 r' 32) as (c & e & -> & Hd & He); [lia..|].
  destruct (split_cons_len 31 b) as (x & f2 & -> & ?); [lia..|].
  destruct (split_cons_len 31 c) as (y & f3 & -> & ?); [lia..|].
  destruct (split_cons_len 31 e) as (z & f4 & -> & ?); [lia..|].
  by exists f1, x, f2, y, f3, z, f4.
Qed.

(** A field element is copied whole, or the blob is refused. *)
Lemma blob_element_step raw st i pre h f suf A k :
  raw = pre ++ (h :: f) ++ suf -> zlen f = 31 -> bs_inputPos st = zlen pre ->
  bs_output st = A ++ zeros k -> bs_outputPos st = zlen A -> 31 <= k ->
  blob_element raw st i =
  if header_ok h then Ok {|
    bs_output := (A ++ f) ++ zeros (k - 31); bs_outputPos := zlen A + 32;
    bs_inputPos := zlen pre + 32; bs_encodedByte := zset i h (bs_encodedByte st) |}
  else Err invalid_blob.
Proof.
  intros -> Hf Hin Hout Hpos Hk. unfold blob_element, decodeShastaBlobFieldElement.
  rewrite Hin, Hout, Hpos. rewrite !zlen_app, zlen_cons, Hf, zlen_zeros by lia.
  pose proof (zlen_nonneg suf).
  destruct (Z.gtb_spec (zlen pre + 32) (zlen pre + (1 + 31 + zlen suf))); [lia|].
  destruct (Z.gtb_spec (zlen A + 31) (zlen A + k)); [lia|]. cbn [orb].
  cbn [app]. rewrite (zget_mid pre h _ (zlen pre)) by done. fold (header_ok h).
  destruct (header_ok h); [|done]. cbn [negb some_or res_bind].
  do 2 f_equal.
  replace (pre ++ h :: f ++ suf) with ((pre ++ [h]) ++ f ++ suf) by by rewrite <- app_assoc.
  rewrite (zslice_mid (pre ++ [h]) f) by zlen.
  replace k with (31 + (k - 31)) at 1 by lia. rewrite zeros_split by lia.
  rewrite (zcopy_mid A f (zeros 31)) by (rewrite ?zlen_zeros by lia; lia).
  by rewrite app_assoc.
Qed.

(** Elements two to four of a chunk; a hole is left before each of them. *)
Lemma three_elements raw st pre h1 f2 h2 f3 h3 f4 suf A m i0 :
  raw = pre ++ (h1 :: f2) ++ (h2 :: f3) ++ (h3 :: f4) ++ suf ->
  zlen f2 = 31 -> zlen f3 = 31 -> zlen f4 = 31 -> 0 <= m ->
  bs_inputPos st = zlen pre -> bs_output st = A ++ zeros (96 + m) ->
  bs_outputPos st = zlen A + 1 ->
  for_fold (fun _ => blob_element raw) i0 st [1; 2; 3] =
  if header_ok h1 && header_ok h2 && header_ok h3 then Ok {|
    bs_output := A ++ x00 :: f2 ++ x00 :: f3 ++ x00 :: f4 ++ zeros m;
    bs_outputPos := zlen A + 97; bs_inputPos := zlen pre + 96;
    bs_encodedByte := zset 3 h3 (zset 2 h2 (zset 1 h1 (bs_encodedByte st))) |}
  else Err invalid_blob.
Proof.
  intros Hraw L2 L3 L4 Hm Hin Hout Hpos. cbn [for_fold].
  assert (Hhole : forall B k, 0 < k -> B ++ zeros k = (B ++ [x00]) ++ zeros (k - 1)).
  { intros B k Hk. rewrite (zeros_S k) by done. by rewrite <- app_assoc. }
  rewrite (blob_element_step raw st 1 pre h1 f2 ((h2 :: f3) ++ (h3 :: f4) ++ suf)
    (A ++ [x00]) (95 + m)); [|done|done|done| |by rewrite zlen_app, Hpos|lia].
  2:{ rewrite Hout, Hhole by lia. do 2 f_equal. lia. }
  destruct (header_ok h1); [|done]. cbn [andb res_bind].
  rewrite (blob_element_step raw _ 2 (pre ++ h1 :: f2) h2 f3 ((h3 :: f4) ++ suf)
    (((A ++ [x00]) ++ f2) ++ [x00]) (63 + m)).
  2:{ rewrite Hraw, <- !app_assoc. done. }
  2: done. 2:{ cbn. zlen. } 2:{ cbn [bs_output]. rewrite Hhole by lia. do 2 f_equal. lia. }
  2:{ cbn. zlen. } 2: lia.
  destruct (header_ok h2); [|done]. cbn [andb res_bind].
  rewrite (blob_element_step raw _ 3 (pre ++ (h1 :: f2) ++ h2 :: f3) h3 f4 suf
    (((((A ++ [x00]) ++ f2) ++ [x00]) ++ f3) ++ [x00]) (31 + m)).
  2:{ rewrite Hraw, <- !app_assoc. done. }
  2: done. 2:{ cbn. zlen. } 2:{ cbn [bs_output]. rewrite Hhole by lia. do 2 f_equal. lia. }
  2:{ cbn. zlen. } 2: lia.
  destruct (header_ok h3); [|done]. cbn [res_bind bs_encodedByte]. do 2 f_equal.
  - app_norm. repeat f_equal. lia.
  - zlen.
  - zlen.
Qed.

Lemma reassemble_step A f2 f3 f4 Z0 ip h0 h1 h2 h3 :
  zlen f2 = 31 -> zlen f3 = 31 -> zlen f4 = 31 ->
  blob_reassemble {|
    bs_output := A ++ x00 :: f2 ++ x00 :: f3 ++ x00 :: f4 ++ Z0;
    bs_outputPos := zlen A + 97; bs_inputPos := ip; bs_encodedByte := [h0; h1; h2; h3] |} =
  {| bs_output := A ++ join_x h0 h1 :: f2 ++ join_y h1 h3 :: f3 ++ join_z h2 h3 :: f4 ++ Z0;
     bs_outputPos := zlen A + 96; bs_inputPos := ip; bs_encodedByte := [h0; h1; h2; h3] |}.
Proof.
  intros L2 L3 L4. unfold blob_reassemble, reassembleShastaBlobEncodedBytes.
  cbn [bs_output bs_outputPos bs_inputPos bs_encodedByte].
  change (zget 0 [h0; h1; h2; h3]) with h0. change (zget 1 [h0; h1; h2; h3]) with h1.
  change (zget 2 [h0; h1; h2; h3]) with h2. change (zget 3 [h0; h1; h2; h3]) with h3.
  fold (join_x h0 h1) (join_y h1 h3) (join_z h2 h3).
  f_equal; [|lia].
  replace (A ++ x00 :: f2 ++ x00 :: f3 ++ x00 :: f4 ++ Z0)
    with ((A ++ (x00 :: f2) ++ (x00 :: f3)) ++ x00 :: f4 ++ Z0)
    by by rewrite <- !app_assoc.
  rewrite (zset_mid (A ++ (x00 :: f2) ++ (x00 :: f3))) by zlen.
  replace ((A ++ (x00 :: f2) ++ x00 :: f3) ++ join_z h2 h3 :: f4 ++ Z0)
    with ((A ++ x00 :: f2) ++ x00 :: f3 ++ join_z h2 h3 :: f4 ++ Z0)
    by by app_norm.
  rewrite (zset_mid (A ++ x00 :: f2)) by zlen.
  replace ((A ++ x00 :: f2) ++ join_y h1 h3 :: f3 ++ join_z h2 h3 :: f4 ++ Z0)
    with (A ++ x00 :: f2 ++ join_y h1 h3 :: f3 ++ join_z h2 h3 :: f4 ++ Z0)
    by by rewrite <- !app_assoc.
  by rewrite (zset_mid A) by lia.
Qed.

Lemma zset_four e0 e1 e2 e3 h1 h2 h3 :
  zset 3 h3 (zset 2 h2 (zset 1 h1 [e0; e1; e2; e3])) = [e0; h1; h2; h3].
Proof. done. Qed.

(** A round after the first: four elements, then the three bytes. *)
Lemma full_round raw st pre h0 f1 h1 f2 h2 f3 h3 f4 suf A m :
  raw = pre ++ mk_chunk h0 f1 h1 f2 h2 f3 h3 f4 ++ suf ->
  zlen f1 = 31 -> zlen f2 = 31 -> zlen f3 = 31 -> zlen f4 = 31 -> 0 <= m ->
  bs_inputPos st = zlen pre -> bs_output st = A ++ zeros (127 + m) ->
  bs_outputPos st = zlen A -> (exists e0 e1 e2 e3, bs_encodedByte st = [e0; e1; e2; e3]) ->
  res_bind (for_fold (fun _ => blob_element raw) 0 st [0; 1; 2; 3])
    (fun st' => Ok (blob_reassemble st')) =
  if header_ok h0 && (header_ok h1 && header_ok h2 && header_ok h3) then Ok {|
    bs_output := (A ++ mk_data f1 (join_x h0 h1) f2 (join_y h1 h3) f3 (join_z h2 h3) f4) ++
      zeros m;
    bs_outputPos := zlen A + 127; bs_inputPos := zlen pre + 128;
    bs_encodedByte := [h0; h1; h2; h3] |}
  else Err invalid_blob.
Proof.
  intros Hraw L1 L2 L3 L4 Hm Hin Hout Hpos (e0 & e1 & e2 & e3 & Henc). subst raw.
  remember [1; 2; 3] as rest. cbn [for_fold]. subst rest.
  unfold mk_chunk. rewrite <- !app_assoc.
  rewrite (blob_element_step _ st 0 pre h0 f1 ((h1 :: f2) ++ (h2 :: f3) ++ (h3 :: f4) ++ suf)
    A (127 + m)) by (done || lia).
  destruct (header_ok h0); [|done]. cbn [andb res_bind].
  rewrite (three_elements _ _ (pre ++ h0 :: f1) h1 f2 h2 f3 h3 f4 suf (A ++ f1) m).
  2:{ by rewrite <- !app_assoc. } 2,3,4,5: done. 2:{ cbn. zlen. }
  2:{ cbn [bs_output]. do 2 f_equal. lia. } 2:{ cbn. zlen. }
  destruct (header_ok h1 && header_ok h2 && header_ok h3); [|done]. cbn [res_bind].
  rewrite Henc. change (zset 0 h0 [e0; e1; e2; e3]) with [h0; e1; e2; e3]. cbn [bs_encodedByte].
  rewrite zset_four, reassemble_step by done. do 2 f_equal.
  - unfold mk_data. by app_norm.
  - zlen.
  - zlen.
Qed.

(* ------------------------------------------------------------------ *)
(** ** All the rounds *)

Abbreviation chunked n := (Forall (fun c => zlen c = n)).

Lemma zlen_concat n cs : chunked n cs -> zlen (concat cs) = n * Z.of_nat (length cs).
Proof.
  induction 1 as [|c cs Hc _ IH]; [unfold zlen; cbn; lia|]. cbn [concat]. rewrite zlen_app, IH, Hc.
  cbn [length]. lia.
Qed.

Lemma encode_chunk_length d : zlen d = 127 -> zlen (encode_chunk d) = 128.
Proof.
  intros Hd. destruct (data_split d Hd) as (f1 & x & f2 & y & f3 & z & f4 & -> & ? & ? & ? & ?).
  rewrite encode_chunk_mk by done. unfold mk_chunk. zlen.
Qed.

Lemma encode_chunked ds : chunked 127 ds -> chunked 128 (encode_chunk <$> ds).
Proof. induction 1; cbn; constructor; eauto using encode_chunk_length. Qed.

Lemma encode_chunks_concat ds :
  chunked 127 ds -> encode_chunks (length ds) (concat ds) = concat (encode_chunk <$> ds).
Proof.
  induction 1 as [|d ds Hd _ IH]; [done|]. cbn [length encode_chunks concat fmap list_fmap].
  assert (Hl : length d = 127%nat) by (unfold zlen in Hd; lia).
  rewrite <- Hl at 1. rewrite take_app_length. rewrite <- Hl at 1. rewrite drop_app_length.
  by rewrite IH.
Qed.

(** Any bytes of the right number are chunks. *)
Lemma chunks_exist n k (l : list byte) :
  0 < n -> zlen l = n * Z.of_nat k -> exists cs, l = concat cs /\ length cs = k /\ chunked n cs.
Proof.
  intros Hn. revert l. induction k as [|k IH]; intros l Hl.
  - exists []. destruct l; [done|]. rewrite zlen_cons in Hl. pose proof (zlen_nonneg l). lia.
  - destruct (split_at_len n l (n * Z.of_nat k)) as (c & r & -> & Hc & Hr); [lia..|].
    destruct (IH r Hr) as (cs & -> & <- & Hcs). exists (c :: cs). split_conj; try done.
    by constructor.
Qed.

(** The loop invariant of [blob_rounds]: what is written, then zeros. *)
Definition round_inv (st : blobState) (pre A : list byte) (m : Z) : Prop :=
  bs_inputPos st = zlen pre /\ bs_output st = A ++ zeros m /\ bs_outputPos st = zlen A /\
  exists e0 e1 e2 e3, bs_encodedByte st = [e0; e1; e2; e3].

Lemma low6_ok b : header_ok b = true -> low6 b = b.
Proof. intros Hb. by destruct (join_split_pair b b Hb) as (_ & _ & _ & _ & _ & _ & _ & ?). Qed.

Lemma rounds_bind raw length n st :
  blob_rounds raw length (S n) st =
  if bs_outputPos st >=? length then Ok st
  else res_bind (res_bind (for_fold (fun _ => blob_element raw) 0 st [0; 1; 2; 3])
         (fun st' => Ok (blob_reassemble st'))) (blob_rounds raw length n).
Proof. cbn [blob_rounds]. destruct (_ >=? _); [done|]. by rewrite res_bind_assoc. Qed.

(** What accepted rounds decoded: packed chunks, up to where they stopped. *)
Lemma rounds_sound raw length cs : forall pre A st st',
  raw = pre ++ concat cs -> chunked 128 cs ->
  round_inv st pre A (127 * Z.of_nat (List.length cs)) ->
  blob_rounds raw length (List.length cs) st = Ok st' ->
  exists ds cs2, cs = (encode_chunk <$> ds) ++ cs2 /\ chunked 127 ds /\
    bs_output st' = A ++ concat ds ++ zeros (127 * Z.of_nat (List.length cs2)) /\
    bs_inputPos st' = zlen pre + 128 * Z.of_nat (List.length ds).
Proof.
  induction cs as [|c cs IH]; intros pre A st st' Hraw Hcs (Hin & Hout & Hpos & Henc).
  { intros [= <-]. exists [], []. cbn. rewrite Hout. split_conj; try done. lia. }
  apply Forall_cons in Hcs as [Hc Hcs]. cbn [List.length]. rewrite rounds_bind.
  destruct (bs_outputPos st >=? length).
  { intros [= <-]. exists [], (c :: cs). cbn [fmap list_fmap concat app List.length].
    rewrite Hout. split_conj; try done. lia. }
  destruct (chunk_split c Hc) as (h0&f1&h1&f2&h2&f3&h3&f4 & -> & ? & ? & ? & ?).
  rewrite (full_round raw st pre h0 f1 h1 f2 h2 f3 h3 f4 (concat cs) A
    (127 * Z.of_nat (List.length cs))) by (done || lia || (rewrite Hout; do 2 f_equal; cbn; lia)).
  destruct (header_ok h0) eqn:O0; [|done]. destruct (header_ok h1) eqn:O1; [|done].
  destruct (header_ok h2) eqn:O2; [|done]. destruct (header_ok h3) eqn:O3; [|done].
  cbn [andb res_bind]. set (d := mk_data _ _ _ _ _ _ _). intros Hrest.
  assert (Hd : zlen d = 127) by (unfold d, mk_data; zlen).
  assert (Hed : encode_chunk d = mk_chunk h0 f1 h1 f2 h2 f3 h3 f4).
  { unfold d. rewrite encode_chunk_mk by done.
    destruct (join_split_heads h0 h1 h2 h3 O1 O2 O3) as (-> & -> & -> & ->).
    by rewrite low6_ok. }
  apply (IH (pre ++ mk_chunk h0 f1 h1 f2 h2 f3 h3 f4) (A ++ d)) in Hrest
    as (ds & cs2 & -> & Hds & Hout' & Hin').
  - exists (d :: ds), cs2. cbn [fmap list_fmap app concat List.length]. rewrite Hed.
    split_conj; [done|by constructor| |].
    + rewrite Hout'. by app_norm.
    + rewrite Hin', zlen_app, Hc. lia.
  - by rewrite Hraw, <- app_assoc.
  - done.
  - unfold round_inv. cbn [bs_inputPos bs_output bs_outputPos bs_encodedByte].
    split_conj; try (by eauto).
    + by rewrite zlen_app, Hc.
    + by rewrite zlen_app, Hd.
Qed.

(** Packed chunks are accepted, up to the first position past the length. *)
Lemma rounds_complete raw length ds : forall pre A st,
  raw = pre ++ concat (encode_chunk <$> ds) -> chunked 127 ds ->
  round_inv st pre A (127 * Z.of_nat (List.length ds)) ->
  exists st' ds1 ds2, blob_rounds raw length (List.length ds) st = Ok st' /\ ds = ds1 ++ ds2 /\
    bs_output st' = A ++ concat ds1 ++ zeros (127 * Z.of_nat (List.length ds2)) /\
    bs_inputPos st' = zlen pre + 128 * Z.of_nat (List.length ds1) /\
    (ds2 = [] \/ length <= zlen A + zlen (concat ds1)).
Proof.
  induction ds as [|d ds IH]; intros pre A st Hraw Hds (Hin & Hout & Hpos & Henc).
  { exists st, [], []. cbn. rewrite Hout. split_conj; eauto. lia. }
  apply Forall_cons in Hds as [Hd Hds]. cbn [List.length]. rewrite rounds_bind.
  destruct (Z.geb_spec (bs_outputPos st) length).
  { exists st, [], (d :: ds). cbn [concat app List.length]. rewrite zlen_nil.
    split_conj; try done; [lia|right; lia]. }
  destruct (data_split d Hd) as (f1&x&f2&y&f3&z&f4 & -> & ? & ? & ? & ?).
  cbn [fmap list_fmap concat] in Hraw. rewrite encode_chunk_mk in Hraw by done.
  rewrite (full_round raw st pre _ f1 _ f2 _ f3 _ f4 (concat (encode_chunk <$> ds)) A
    (127 * Z.of_nat (List.length ds))) by (done || lia || (rewrite Hout; do 2 f_equal; cbn; lia)).
  destruct (split_join_xy x y) as (-> & -> & _ & Ex & _).
  destruct (split_join_xy z z) as (Oz & _).
  destruct (split_join_xy y z) as (_ & _ & O3 & _ & Ez & _).
  assert (Ey : join_y (head1 x y) (head3 y z) = y) by apply split_join_y.
  rewrite Oz, O3, Ex, Ey. cbn [andb res_bind].
  rewrite Ez. clear Ex Ey Ez.
  set (c := mk_chunk _ _ _ _ _ _ _ _) in *. set (dd := mk_data _ _ _ _ _ _ _) in *.
  assert (Hc : zlen c = 128) by (unfold c, mk_chunk; zlen).
  destruct (IH (pre ++ c) (A ++ dd)
    {| bs_output := (A ++ dd) ++ zeros (127 * Z.of_nat (List.length ds));
       bs_outputPos := zlen A + 127; bs_inputPos := zlen pre + 128;
       bs_encodedByte := [low6 x; head1 x y; low6 z; head3 y z] |})
    as (st' & ds1 & ds2 & Hr & -> & Hout' & Hin' & Hstop).
  - by rewrite Hraw, <- app_assoc.
  - done.
  - unfold round_inv. cbn [bs_inputPos bs_output bs_outputPos bs_encodedByte].
    split_conj; try (by eauto).
    + by rewrite zlen_app, Hc.
    + by rewrite zlen_app, Hd.
  - exists st', (dd :: ds1), ds2. rewrite Hr, Hout', Hin'. cbn [concat List.length].
    rewrite zlen_app, Hc. split_conj; try done.
    + by app_norm.
    + lia.
    + destruct Hstop as [->|Hs]; [by left|right]. rewrite zlen_app in *. lia.
Qed.

(* ------------------------------------------------------------------ *)
(** ** The whole blob *)

(** The two top bits of the first byte are never read by the decoder. *)
Definition mask_head (raw : list byte) : list byte :=
  match raw with [] => [] | h :: t => low6 h :: t end.

Lemma lor_shift a b n : 0 <= n -> 0 <= a -> 0 <= b < 2 ^ n -> Z.lor (Z.shiftl a n) b = a * 2 ^ n + b.
Proof.
  intros Hn Ha Hb. rewrite Z.shiftl_mul_pow2 by done.
  assert (Hland : Z.land (a * 2 ^ n) b = 0).
  { apply Z.bits_inj'. intros i Hi. rewrite Z.land_spec, Z.bits_0.
    destruct (Z.ltb_spec i n); [by rewrite Z.mul_pow2_bits_low|].
    assert (Z.testbit b i = false) as ->; [|apply andb_false_r].
    apply Z.testbit_false; [done|]. rewrite Z.div_small; [done|]. split; [lia|].
    eapply Z.lt_le_trans; [apply Hb|]. apply Z.pow_le_mono_r; lia. }
  by rewrite Z.add_nocarry_lxor, Z.lxor_lor.
Qed.

Lemma length_bytes l1 l2 l3 :
  Z.lor (Z.lor (Z.shiftl (byte_val l1) 16) (Z.shiftl (byte_val l2) 8)) (byte_val l3) =
  be_Z [l1; l2; l3].
Proof.
  pose proof (byte_val_range l1). pose proof (byte_val_range l2).
  pose proof (byte_val_range l3). unfold be_Z. cbn [fold_left].
  replace (Z.lor (Z.shiftl (byte_val l1) 16) (Z.shiftl (byte_val l2) 8))
    with (Z.shiftl (byte_val l1 * 256 + byte_val l2) 8).
  2:{ rewrite (lor_shift _ (Z.shiftl (byte_val l2) 8)) by (rewrite ?Z.shiftl_mul_pow2; lia).
      rewrite !Z.shiftl_mul_pow2 by lia. lia. }
  rewrite lor_shift by lia. lia.
Qed.

Lemma encode_zeros n :
  concat (encode_chunk <$> replicate n (zeros 127)) = zeros (128 * Z.of_nat n).
Proof.
  induction n as [|n IH]; [done|]. cbn [replicate fmap list_fmap concat]. rewrite IH.
  replace (encode_chunk (zeros 127)) with (zeros 128) by (vm_compute; reflexivity).
  rewrite <- zeros_split by lia. f_equal. lia.
Qed.

Lemma concat_zeros n : concat (replicate n (zeros 127)) = zeros (127 * Z.of_nat n).
Proof.
  induction n as [|n IH]; [done|]. cbn [replicate concat]. rewrite IH.
  rewrite <- zeros_split by lia. f_equal. lia.
Qed.

Lemma zeros_chunked n m : 0 <= m -> chunked m (replicate n (zeros m)).
Proof. intros Hm. apply Forall_replicate. by apply zlen_zeros. Qed.

(** The state after the first round. *)
Lemma first_round h0 f1 h1 f2 h2 f3 h3 f4 rest :
  let raw := mk_chunk h0 f1 h1 f2 h2 f3 h3 f4 ++ rest in
  zlen f1 = 31 -> zlen f2 = 31 -> zlen f3 = 31 -> zlen f4 = 31 ->
  res_bind (for_fold (fun _ => blob_element raw) 0
    {| bs_output := zcopy 0 (zslice 5 32 raw) (zeros shastaBlobMaxDataSize);
       bs_outputPos := 28; bs_inputPos := 32;
       bs_encodedByte := [zget 0 raw; x00; x00; x00] |} [1; 2; 3])
    (fun st => Ok (blob_reassemble st)) =
  if header_ok h1 && header_ok h2 && header_ok h3 then Ok {|
    bs_output :=
      drop 4 (mk_data f1 (join_x h0 h1) f2 (join_y h1 h3) f3 (join_z h2 h3) f4) ++
      zeros (127 * 1023);
    bs_outputPos := 123; bs_inputPos := 128; bs_encodedByte := [h0; h1; h2; h3] |}
  else Err invalid_blob.
Proof.
  intros raw L1 L2 L3 L4.
  destruct (split_at_len 4 f1 27) as (hd & f1' & -> & Hhd & Hf1); [lia..|].
  assert (Hraw : raw = (h0 :: hd) ++ f1' ++ (h1 :: f2) ++ (h2 :: f3) ++ (h3 :: f4) ++ rest).
  { unfold raw, mk_chunk. by app_norm. }
  assert (Hdrop : forall l, drop 4 (hd ++ l) = l).
  { intros l. replace 4%nat with (length hd) by (unfold zlen in Hhd; lia).
    apply drop_app_length. }
  assert (Hget : zget 0 raw = h0) by (rewrite Hraw; reflexivity).
  assert (Hsl : zslice 5 32 raw = f1') by (rewrite Hraw; apply zslice_mid; zlen).
  rewrite Hget, Hsl.
  replace (zeros shastaBlobMaxDataSize) with ([] ++ zeros 27 ++ zeros (96 + 127 * 1023)).
  2:{ cbn [app]. rewrite <- zeros_split by lia. f_equal. }
  rewrite (zcopy_mid [] f1' (zeros 27)) by (rewrite ?zlen_zeros by lia; done). cbn [app].
  rewrite (three_elements raw _ ((h0 :: hd) ++ f1') h1 f2 h2 f3 h3 f4 rest f1' (127 * 1023)).
  2:{ rewrite Hraw. by app_norm. } 2,3,4: done. 2: lia. 2:{ cbn [bs_inputPos]. zlen. }
  2:{ done. } 2:{ cbn [bs_outputPos]. lia. }
  destruct (header_ok h1 && header_ok h2 && header_ok h3); [|done].
  cbn [res_bind bs_encodedByte]. rewrite zset_four, reassemble_step by done. do 2 f_equal.
  - unfold mk_data. rewrite <- app_assoc, Hdrop. by app_norm.
  - lia.
  - zlen.
Qed.

Lemma bind_then {A B C} (m : result A) (g : A -> B) (k : B -> result C) :
  res_bind m (fun a => k (g a)) = res_bind (res_bind m (fun a => Ok (g a))) k.
Proof. by destruct m. Qed.

(** The decoder after its first round, for a blob cut into chunks. *)
Lemma decode_unfold h0 l1 l2 l3 v f1' h1 f2 h2 f3 h3 f4 cs :
  let f1 := v :: l1 :: l2 :: l3 :: f1' in
  let raw := mk_chunk h0 f1 h1 f2 h2 f3 h3 f4 ++ concat cs in
  let d0 := mk_data f1 (join_x h0 h1) f2 (join_y h1 h3) f3 (join_z h2 h3) f4 in
  let n := be_Z [l1; l2; l3] in
  zlen f1' = 27 -> zlen f2 = 31 -> zlen f3 = 31 -> zlen f4 = 31 ->
  chunked 128 cs -> length cs = 1023%nat ->
  decodeShastaBlob raw =
  (reject_if (negb (byte_val v =? shastaBlobEncodingVersion)) invalid_blob ;;!
   reject_if (n >? shastaBlobMaxDataSize) invalid_blob ;;!
   let! st := if header_ok h1 && header_ok h2 && header_ok h3 then Ok {|
       bs_output := drop 4 d0 ++ zeros (127 * 1023); bs_outputPos := 123; bs_inputPos := 128;
       bs_encodedByte := [h0; h1; h2; h3] |} else Err invalid_blob in
   let! st := blob_rounds raw n 1023 st in
   blob_finish raw n st).
Proof.
  intros f1 raw d0 n L1 L2 L3 L4 Hcs Hn.
  assert (Hlen : zlen raw = shastaBytesPerBlob).
  { unfold raw. rewrite zlen_app, (zlen_concat 128), Hn by done. unfold mk_chunk, f1, shastaBytesPerBlob. zlen. }
  unfold decodeShastaBlob at 1. rewrite Hlen, Z.eqb_refl. cbn [negb reject_if res_bind].
  change (zget 1 raw) with v. change (zget 2 raw) with l1.
  change (zget 3 raw) with l2. change (zget 4 raw) with l3.
  rewrite length_bytes. fold n. cbv zeta.
  destruct (negb (byte_val v =? shastaBlobEncodingVersion)); [done|].
  destruct (n >? shastaBlobMaxDataSize); [done|]. cbn [reject_if res_bind].
  rewrite (bind_then _ blob_reassemble (fun s => let! st := blob_rounds raw n 1023 s in
    blob_finish raw n st)). unfold raw.
  rewrite first_round by (done || (unfold f1; zlen)). done.
Qed.

Lemma be_Z3_range l1 l2 l3 : 0 <= be_Z [l1; l2; l3] < 2 ^ 24.
Proof. apply (be_Z_range [l1; l2; l3]). Qed.

(** Cutting a blob: the first chunk with its four special bytes, then 1023. *)
Lemma blob_split raw :
  zlen raw = shastaBytesPerBlob ->
  exists h0 v l1 l2 l3 f1' h1 f2 h2 f3 h3 f4 cs,
    raw = mk_chunk h0 (v :: l1 :: l2 :: l3 :: f1') h1 f2 h2 f3 h3 f4 ++ concat cs /\
    zlen f1' = 27 /\ zlen f2 = 31 /\ zlen f3 = 31 /\ zlen f4 = 31 /\
    chunked 128 cs /\ length cs = 1023%nat.
Proof.
  unfold shastaBytesPerBlob. intros Hl.
  destruct (split_at_len 128 raw (128 * 1023)) as (c & r & -> & Hc & Hr); [lia..|].
  destruct (chunks_exist 128 1023 r) as (cs & -> & Hn & Hcs); [lia|lia|].
  destruct (chunk_split c Hc) as (h0&f1&h1&f2&h2&f3&h3&f4 & -> & H1 & ? & ? & ?).
  destruct (split_cons_len 30 f1) as (v & f & -> & Hf); [lia..|].
  destruct (split_cons_len 29 f) as (l1 & g & -> & Hg); [lia..|].
  destruct (split_cons_len 28 g) as (l2 & k & -> & Hk); [lia..|].
  destruct (split_cons_len 27 k) as (l3 & f1' & -> & ?); [lia..|].
  by exists h0, v, l1, l2, l3, f1', h1, f2, h2, f3, h3, f4, cs.
Qed.

(** Data whose tail past [n] is zero is the header, the payload and zeros. *)
Lemma encode_shape d0 ds k n :
  let out := drop 4 d0 ++ concat ds ++ zeros (127 * Z.of_nat k) in
  zlen d0 = 127 -> take 4 d0 = x00 :: be_bytes 3 n -> chunked 127 ds ->
  (length ds + k)%nat = 1023%nat -> 0 <= n <= shastaBlobMaxDataSize ->
  all_zero (drop (Z.to_nat n) out) = true ->
  zlen (take (Z.to_nat n) out) = n /\
  encodeShastaBlob (take (Z.to_nat n) out) =
    encode_chunk d0 ++ concat (encode_chunk <$> ds) ++ zeros (128 * Z.of_nat k).
Proof.
  intros out Hd0 H4 Hds Hk Hn Hz.
  assert (Hout : zlen out = shastaBlobMaxDataSize).
  { unfold out. rewrite !zlen_app, (zlen_concat 127), zlen_zeros by (done || lia).
    unfold zlen in *. rewrite length_drop. unfold shastaBlobMaxDataSize. lia. }
  assert (Hp : zlen (take (Z.to_nat n) out) = n).
  { unfold zlen in *. rewrite length_take. lia. }
  split; [done|]. apply all_zero_zeros in Hz.
  assert (Hdata : blob_data (take (Z.to_nat n) out) = concat (d0 :: ds ++ replicate k (zeros 127))).
  { unfold blob_data. rewrite Hp. cbn [concat]. rewrite concat_app, concat_zeros.
    transitivity (take 4 d0 ++ out); [|by unfold out; rewrite app_assoc, take_drop].
    rewrite H4. cbn [app]. do 2 f_equal. rewrite <- (take_drop (Z.to_nat n) out) at 2.
    rewrite Hz. do 2 f_equal. unfold zlen in *. rewrite length_drop. lia. }
  unfold encodeShastaBlob. rewrite Hdata.
  replace (Z.to_nat shastaBlobEncodingRounds)
    with (length (d0 :: ds ++ replicate k (zeros 127))).
  2:{ cbn [length]. rewrite length_app, length_replicate, Hk. done. }
  rewrite encode_chunks_concat.
  2:{ constructor; [done|]. apply Forall_app_2; [done|]. by apply zeros_chunked. }
  cbn [fmap list_fmap concat]. fold (fmap encode_chunk (ds ++ replicate k (zeros 127))).
  by rewrite fmap_app, concat_app, encode_zeros.
Qed.

(** An accepted blob is, up to the two bits nobody reads, the packing of what
    it decodes to. *)
Lemma decode_sound raw p :
  decodeShastaBlob raw = Ok p ->
  zlen raw = shastaBytesPerBlob /\ zlen p <= shastaBlobMaxDataSize /\
  mask_head raw = encodeShastaBlob p.
Proof.
  intros Hd. assert (Hlen : zlen raw = shastaBytesPerBlob).
  { unfold decodeShastaBlob in Hd. apply res_bind_ok in Hd as (? & Hd & _). by go_ok. }
  split; [done|].
  destruct (blob_split raw Hlen) as (h0&v&l1&l2&l3&f1'&h1&f2&h2&f3&h3&f4&cs & -> & L1 & L2 &
    L3 & L4 & Hcs & Hn).
  rewrite decode_unfold in Hd by done.
  set (f1 := v :: l1 :: l2 :: l3 :: f1') in *. set (n := be_Z [l1; l2; l3]) in *.
  pose proof (be_Z3_range l1 l2 l3 : 0 <= n < _) as Hrange.
  destruct (header_ok h1) eqn:O1; [|go_inv; done]. destruct (header_ok h2) eqn:O2; [|go_inv; done].
  destruct (header_ok h3) eqn:O3; [|go_inv; done]. cbn [andb] in Hd. unfold blob_finish in Hd. go_ok.
  match goal with H : byte_val v = _ |- _ => rename H into Hv end.
  match goal with H : blob_rounds _ _ _ _ = Ok ?s |- _ => rename H into Hr, s into st end.
  match goal with H : all_zero (drop _ (bs_output st)) = _ |- _ => rename H into Hz1 end.
  match goal with H : all_zero (drop _ (_ ++ concat cs)) = _ |- _ => rename H into Hz2 end.
  set (d0 := mk_data f1 (join_x h0 h1) f2 (join_y h1 h3) f3 (join_z h2 h3) f4) in *.
  set (c0 := mk_chunk h0 f1 h1 f2 h2 f3 h3 f4) in *.
  assert (Hd0 : zlen d0 = 127) by (unfold d0, mk_data, f1; zlen).
  assert (Hc0 : zlen c0 = 128) by (unfold c0, mk_chunk, f1; zlen).
  assert (Hdrop : zlen (drop 4 d0) = 123) by (unfold zlen in *; rewrite length_drop; lia).
  rewrite <- Hn in Hr.
  apply (rounds_sound _ n cs c0 (drop 4 d0)) in Hr
    as (ds & cs2 & -> & Hds & Hout & Hin); [|done|done|].
  2:{ unfold round_inv. cbn [bs_inputPos bs_output bs_outputPos bs_encodedByte].
      rewrite Hn, Hdrop. split_conj; [done|done|done|by eexists _, _, _, _]. }
  rewrite length_app, length_fmap in Hn. apply Forall_app in Hcs as [_ Hcs].
  rewrite concat_app, app_assoc in Hz2 |- *.
  assert (Hcs2z : concat cs2 = zeros (128 * Z.of_nat (length cs2))).
  { rewrite <- (zlen_concat 128 cs2) by done. apply all_zero_zeros. rewrite Hin in Hz2.
    rewrite drop_app_length' in Hz2; [done|].
    pose proof (zlen_concat 128 _ (encode_chunked ds Hds)) as Hl. rewrite length_fmap in Hl.
    unfold zlen in *. rewrite length_app. lia. }
  rewrite Hout in Hz1 |- *.
  destruct (encode_shape d0 ds (length cs2) n) as [Hp He]; try done; [|lia|].
  { unfold d0, mk_data, f1. cbn [take app]. f_equal; [by apply byte_val_inj|].
    symmetry. apply (be_bytes_Z [l1; l2; l3]). }
  rewrite Hp, He. split; [lia|]. rewrite Hcs2z.
  unfold d0. rewrite encode_chunk_mk by (done || (unfold f1; zlen)).
  destruct (join_split_heads h0 h1 h2 h3 O1 O2 O3) as (-> & -> & -> & ->).
  unfold c0, mk_chunk. cbn [mask_head app]. by app_norm.
Qed.

Lemma join_low6 h0 h1 : join_x (low6 h0) h1 = join_x h0 h1.
Proof.
  assert (Hl : Z.land (byte_val (low6 h0)) 0x3f = Z.land (byte_val h0) 0x3f); [|unfold join_x; by rewrite Hl].
  byte_check (fun h _ : byte => Z.land (byte_val (low6 h)) 0x3f =? Z.land (byte_val h) 0x3f) h0 h0.
  by go_bool.
Qed.

Lemma app_eq_len (a b c d : list byte) : zlen a = zlen c -> a ++ b = c ++ d -> a = c /\ b = d.
Proof. intros Hl He. apply app_inj_1 in He; [done|]. unfold zlen in Hl. lia. Qed.

Lemma mk_chunk_inj h0 f1 h1 f2 h2 f3 h3 f4 g0 k1 g1 k2 g2 k3 g3 k4 :
  zlen f1 = 31 -> zlen f2 = 31 -> zlen f3 = 31 -> zlen k1 = 31 -> zlen k2 = 31 -> zlen k3 = 31 ->
  mk_chunk h0 f1 h1 f2 h2 f3 h3 f4 = mk_chunk g0 k1 g1 k2 g2 k3 g3 k4 ->
  (h0 = g0 /\ f1 = k1) /\ (h1 = g1 /\ f2 = k2) /\ (h2 = g2 /\ f3 = k3) /\ h3 = g3 /\ f4 = k4.
Proof.
  unfold mk_chunk. intros ?????? He.
  apply app_eq_len in He as [[= -> ->] He]; [|zlen].
  apply app_eq_len in He as [[= -> ->] He]; [|zlen].
  apply app_eq_len in He as [[= -> ->] [= -> ->]]; [done|zlen].
Qed.

Lemma zeros_app_inv a b n : a ++ b = zeros n -> a = zeros (zlen a) /\ b = zeros (zlen b).
Proof.
  intros He. assert (Hz : all_zero (a ++ b) = true).
  { rewrite He. unfold zeros, all_zero. apply forallb_forall. intros x Hx.
    apply list_elem_of_In, elem_of_replicate in Hx as [-> _]. done. }
  unfold all_zero in Hz. rewrite forallb_app in Hz. go_bool.
  split; by apply all_zero_zeros.
Qed.

(** A shorter list that starts the same appended list is a prefix. *)
Lemma app_prefix (p z q r : list byte) :
  p ++ z = q ++ r -> zlen p <= zlen q -> exists s, q = p ++ s /\ z = s ++ r.
Proof.
  intros He Hl. exists (drop (length p) q). unfold zlen in Hl.
  assert (Hq : take (length p) q = p).
  { apply (f_equal (take (length p))) in He. rewrite take_app_length in He.
    rewrite take_app_le in He by lia. done. }
  split; [by rewrite <- Hq at 1; rewrite take_drop|].
  rewrite <- (take_drop (length p) q), Hq, <- app_assoc in He. by apply app_inv_head in He.
Qed.

Lemma zero_chunks ds :
  chunked 127 ds -> concat ds = zeros (zlen (concat ds)) ->
  ds = replicate (length ds) (zeros 127).
Proof.
  induction 1 as [|d ds Hd Hds IH]; [done|]. cbn [concat length replicate]. intros Hz.
  apply zeros_app_inv in Hz as [Hz1 Hz2]. rewrite Hd in Hz1.
  f_equal; [done|]. by apply IH.
Qed.

Lemma drop_zlen n (a b : list byte) : n = zlen a -> drop (Z.to_nat n) (a ++ b) = b.
Proof. intros ->. unfold zlen. rewrite Nat2Z.id. apply drop_app_length. Qed.

Lemma take_zlen n (a b : list byte) : n = zlen a -> take (Z.to_nat n) (a ++ b) = a.
Proof. intros ->. unfold zlen. rewrite Nat2Z.id. apply take_app_length. Qed.

Lemma all_zero_zeros_n n : all_zero (zeros n) = true.
Proof.
  apply all_zero_zeros. unfold zlen, zeros. by rewrite length_replicate, Nat2Z.id.
Qed.

(** The rounds after the first give the payload back. *)
Lemma finish_packed p c0 q0 ds st0 :
  zlen c0 = 128 -> zlen q0 = 123 -> chunked 127 ds -> length ds = 1023%nat ->
  zlen p <= shastaBlobMaxDataSize ->
  q0 ++ concat ds = p ++ zeros (shastaBlobMaxDataSize - zlen p) ->
  bs_inputPos st0 = 128 -> bs_output st0 = q0 ++ zeros (127 * 1023) -> bs_outputPos st0 = 123 ->
  (exists e0 e1 e2 e3, bs_encodedByte st0 = [e0; e1; e2; e3]) ->
  (let! st := blob_rounds (c0 ++ concat (encode_chunk <$> ds)) (zlen p) 1023 st0 in
   blob_finish (c0 ++ concat (encode_chunk <$> ds)) (zlen p) st) = Ok p.
Proof.
  intros Hc0 Hq0 Hds Hn Hp Hpack Hin Hout Hpos Henc.
  destruct (rounds_complete (c0 ++ concat (encode_chunk <$> ds)) (zlen p) ds c0 q0 st0)
    as (st & ds1 & ds2 & Hr & -> & Hout' & Hin' & Hstop); [done|done| |].
  { unfold round_inv. rewrite Hn, Hc0, Hq0. done. }
  rewrite Hn in Hr. rewrite Hr. cbn [res_bind]. unfold blob_finish.
  apply Forall_app in Hds as [Hds1 Hds2]. rewrite concat_app, app_assoc in Hpack.
  assert (Hz : concat ds2 = zeros (zlen (concat ds2))).
  { destruct Hstop as [->|Hs]; [done|].
    symmetry in Hpack. apply app_prefix in Hpack as (s & _ & Hz); [|rewrite zlen_app; lia].
    symmetry in Hz. apply zeros_app_inv in Hz as [_ Hz]. done. }
  apply zero_chunks in Hz as Hds2z; [|done]. rewrite (zlen_concat 127) in Hz by done.
  rewrite Hout', <- Hz, app_assoc, Hpack, drop_zlen, take_zlen, all_zero_zeros_n by done.
  cbn [negb reject_if res_bind].
  rewrite fmap_app, concat_app, app_assoc, drop_zlen.
  2:{ pose proof (zlen_concat 128 _ (encode_chunked ds1 Hds1)) as Hl. rewrite length_fmap in Hl.
      rewrite zlen_app, Hl, Hin'. done. }
  by rewrite Hds2z, encode_zeros, all_zero_zeros_n.
Qed.

Lemma decode_complete raw p :
  zlen raw = shastaBytesPerBlob -> zlen p <= shastaBlobMaxDataSize ->
  mask_head raw = encodeShastaBlob p -> decodeShastaBlob raw = Ok p.
Proof.
  intros Hlen Hp Henc. pose proof (zlen_nonneg p) as Hp0.
  assert (H3 : length (be_bytes 3 (zlen p)) = 3%nat) by apply length_be_bytes.
  destruct (chunks_exist 127 1024 (blob_data p)) as (dall & Hdata & Hk & Hall); [lia| |].
  { unfold blob_data. rewrite !zlen_app, zlen_zeros by lia.
    assert (zlen (be_bytes 3 (zlen p)) = 3) as -> by (unfold zlen at 1; rewrite H3; done).
    rewrite zlen_cons, zlen_nil. unfold shastaBlobMaxDataSize. lia. }
  destruct dall as [|d0 ds]; [done|]. apply Forall_cons in Hall as [Hd0 Hds].
  injection Hk as Hk. unfold encodeShastaBlob in Henc. rewrite Hdata in Henc.
  replace (Z.to_nat shastaBlobEncodingRounds) with (length (d0 :: ds)) in Henc
    by (cbn [length]; rewrite Hk; done).
  rewrite encode_chunks_concat in Henc by by constructor. cbn [fmap list_fmap concat] in Henc.
  destruct (blob_split raw Hlen) as (h0&v&l1&l2&l3&f1'&h1&f2&h2&f3&h3&f4&cs & -> & L1 & L2 &
    L3 & L4 & Hcs & Hn).
  destruct (data_split d0 Hd0) as (g1 & x & g2 & y & g3 & z & g4 & -> & G1 & G2 & G3 & G4).
  rewrite encode_chunk_mk in Henc by done.
  change (mk_chunk (low6 h0) (v :: l1 :: l2 :: l3 :: f1') h1 f2 h2 f3 h3 f4 ++ concat cs =
    mk_chunk (low6 x) g1 (head1 x y) g2 (low6 z) g3 (head3 y z) g4 ++
    concat (encode_chunk <$> ds)) in Henc.
  apply app_eq_len in Henc as [Hc Hrest]; [|unfold mk_chunk; zlen].
  apply mk_chunk_inj in Hc as ([E0 <-] & [-> <-] & [-> <-] & -> & <-); try done; try zlen.
  unfold blob_data in Hdata. cbn [concat] in Hdata.
  destruct (be_bytes 3 (zlen p)) as [|m1 [|m2 [|m3 [|]]]] eqn:Hbe; try done.
  unfold mk_data in Hdata. cbn [app] in Hdata.
  injection Hdata as <- <- <- <- Hdata.
  assert (Hbz : be_Z [m1; m2; m3] = zlen p).
  { rewrite <- Hbe, be_Z_bytes. apply Z.mod_small. unfold shastaBlobMaxDataSize in Hp.
    change (256 ^ Z.of_nat 3) with 16777216. lia. }
  rewrite decode_unfold by done. rewrite Hbz, Hrest.
  destruct (Z.gtb_spec (zlen p) shastaBlobMaxDataSize); [lia|].
  destruct (split_join_xy x y) as (_ & -> & _ & Ex & _).
  destruct (split_join_xy z z) as (-> & _).
  destruct (split_join_xy y z) as (_ & _ & -> & _ & Ez & _).
  rewrite split_join_y, Ez, <- join_low6, E0, Ex. cbn [andb res_bind reject_if negb].
  change (byte_val x00 =? shastaBlobEncodingVersion) with true. cbn [negb reject_if res_bind].
  eapply finish_packed; cbn [bs_inputPos bs_output bs_outputPos bs_encodedByte];
    try reflexivity; try done.
  - unfold mk_chunk. zlen.
  - unfold mk_data. cbn [app drop]. rewrite drop_0. zlen.
  - by eexists _, _, _, _.
Qed.

(** C33 (the blob decoder inverts the packing): a byte string decodes to a
    payload exactly when it is 131072 bytes long, the payload fits, and the
    bytes are the packing of the payload, where the two top bits of the very
    first byte, which no element stores, are not looked at.  So every payload
    survives the round trip, and what decodes to it is unique up to these two
    bits. *)
Theorem decodeShastaBlob_spec raw p :
  decodeShastaBlob raw = Ok p <->
  zlen raw = shastaBytesPerBlob /\ zlen p <= shastaBlobMaxDataSize /\
  mask_head raw = encodeShastaBlob p.
Proof.
  split; [apply decode_sound|]. intros (? & ? & ?). by apply decode_complete.
Qed.
