(* ===== verification/TxEncoding.v ===== *)
(** * Transaction encodings a manifest may hold

    [internal/prover/transaction_encoding.go]: one transaction the execution
    engine could not decode invalidates the whole source. *)

From S2P Require Import Prelude Bytes CoreTypes Samples.

#[local] Open Scope string_scope.
#[local] Open Scope list_scope.
#[local] Open Scope Z_scope.

Section Encoding.
Context `{CoreTypes}.

(** The types the switch accepts. *)
Definition supported_type (t : Z) : bool :=
  existsb (Z.eqb t) [LegacyTxType; AccessListTxType; DynamicFeeTxType; BlobTxType;
    SetCodeTxType].

(** [value.Sign() < 0 || value.BitLen() > bits]. *)
Definition exceeds_bits (value bits : Z) : bool :=
  (value <? 0) || (big_BitLen value >? bits).

Definition validateLegacyV (v : Z) : result unit :=
  if (v =? 27) || (v =? 28) then Ok tt
  else
    reject_if (v <? 35) (Errorf "invalid legacy signature v") ;;!
    let chainID := Z.shiftr (v - 35) 1 in
    reject_if (negb (big_IsUint64 chainID)) (Errorf "legacy chain ID exceeds uint64") ;;!
    Ok tt.

Definition validateManifestTransactionEncoding (tx : Transaction) : result unit :=
  reject_if (negb (supported_type (tx_Type tx))) (Errorf "unsupported transaction type") ;;!
  for_check (fun _ field =>
    reject_if (exceeds_bits field.1.2 field.2) (Errorf (field.1.1 +:+ " exceeds its width")))
    0 [("maxFeePerGas", tx_GasFeeCap tx, 128); ("maxPriorityFeePerGas", tx_GasTipCap tx, 128);
       ("value", tx_Value tx, 256)] ;;!
  let '(v, r, s) := tx_RawSignatureValues tx in
  reject_if ((r <? 0) || (big_BitLen r >? 256) || (s <? 0) || (big_BitLen s >? 256))
    (Errorf "signature scalar exceeds uint256") ;;!
  if tx_Type tx =? LegacyTxType then validateLegacyV v
  else
    reject_if (negb (big_IsUint64 (tx_ChainId tx))) (Errorf "chain ID exceeds uint64") ;;!
    reject_if ((v <? 0) || (big_BitLen v >? 1)) (Errorf "invalid typed transaction parity") ;;!
    if tx_Type tx =? BlobTxType then
      reject_if (exceeds_bits (tx_BlobGasFeeCap tx) 128)
        (Errorf "maxFeePerBlobGas exceeds uint128") ;;!
      reject_if (tx_HasBlobTxSidecar tx)
        (Errorf "blob sidecar wrapper is not an execution transaction") ;;!
      Ok tt
    else Ok tt.

(* ---------------------------------------------------------------- *)
(** ** The grammar it enforces *)

(** [v] of a legacy transaction: unprotected, or EIP-155 of a 64-bit chain. *)
Definition legacy_v_ok (v : Z) : Prop :=
  v = 27 \/ v = 28 \/ exists chainID parity, is_u64 chainID /\ (parity = 0 \/ parity = 1) /\
    v = 35 + 2 * chainID + parity.

Definition encodable (tx : Transaction) : Prop :=
  let '(v, r, s) := tx_RawSignatureValues tx in
  tx_Type tx ∈ [LegacyTxType; AccessListTxType; DynamicFeeTxType; BlobTxType; SetCodeTxType] /\
  is_uint 128 (tx_GasFeeCap tx) /\ is_uint 128 (tx_GasTipCap tx) /\ is_uint 256 (tx_Value tx) /\
  is_uint 256 r /\ is_uint 256 s /\
  (tx_Type tx = LegacyTxType -> legacy_v_ok v) /\
  (tx_Type tx <> LegacyTxType -> is_u64 (tx_ChainId tx) /\ (v = 0 \/ v = 1)) /\
  (tx_Type tx = BlobTxType ->
   is_uint 128 (tx_BlobGasFeeCap tx) /\ tx_HasBlobTxSidecar tx = false).

Lemma exceeds_bits_false value bits :
  0 <= bits -> (value <? 0) || (big_BitLen value >? bits) = false <-> is_uint bits value.
Proof.
  intros Hb. rewrite orb_false_iff, Z.ltb_ge, Z.gtb_ltb, Z.ltb_ge. unfold is_uint.
  split; intros [H1 H2]; split; try done; by apply (big_BitLen_le value bits).
Qed.

Lemma validateLegacyV_ok v : validateLegacyV v = Ok tt <-> legacy_v_ok v.
Proof.
  unfold validateLegacyV, legacy_v_ok, big_IsUint64, is_uint.
  destruct (Z.eqb_spec v 27) as [->|]; [cbn; split; [by left|done]|].
  destruct (Z.eqb_spec v 28) as [->|]; [cbn; split; [by right; left|done]|]. cbn [orb].
  rewrite Z.shiftr_div_pow2, Z.pow_1_r by lia. split.
  - intros Hv. go_ok. right. right.
    exists ((v - 35) / 2), ((v - 35) mod 2).
    pose proof (Z.div_mod (v - 35) 2 ltac:(lia)). pose proof (Z.mod_pos_bound (v - 35) 2).
    split_conj; try lia.
  - intros [?|[?|(c & p & Hc & Hp & ->)]]; [done..|].
    destruct (Z.ltb_spec (35 + 2 * c + p) 35); [lia|]. cbn [reject_if res_bind].
    replace ((35 + 2 * c + p - 35) / 2) with c.
    2:{ apply (Z.div_unique _ _ _ p); lia. }
    destruct (Z.leb_spec 0 c); [|lia]. by destruct (Z.ltb_spec c (2 ^ 64)); [|lia].
Qed.

(** (the manifest transaction grammar): a transaction is accepted exactly
    when its type is one of the five known ones, its fees, value and signature
    scalars fit their widths, its [v] is 27, 28 or the EIP-155 encoding of a
    64-bit chain id for a legacy transaction and a parity bit with a 64-bit
    chain id otherwise, and a blob transaction carries no sidecar. *)
Theorem validateManifestTransactionEncoding_spec tx :
  validateManifestTransactionEncoding tx = Ok tt <-> encodable tx.
Proof.
  unfold validateManifestTransactionEncoding, encodable.
  destruct (tx_RawSignatureValues tx) as [[v r] s].
  rewrite res_bind_ok. setoid_rewrite reject_if_ok. setoid_rewrite res_bind_ok.
  assert (Htype : negb (supported_type (tx_Type tx)) = false <->
    tx_Type tx ∈ [LegacyTxType; AccessListTxType; DynamicFeeTxType; BlobTxType; SetCodeTxType]).
  { unfold supported_type. rewrite negb_false_iff, existsb_exists, list_elem_of_In.
    setoid_rewrite Z.eqb_eq. split; [by intros (x & Hx & ->)|by eauto]. }
  rewrite <- Htype. clear Htype.
  assert (Hbits : for_check (fun _ (field : string * Z * Z) =>
      reject_if (exceeds_bits field.1.2 field.2) (Errorf (field.1.1 +:+ " exceeds its width")))
    0 [("maxFeePerGas", tx_GasFeeCap tx, 128); ("maxPriorityFeePerGas", tx_GasTipCap tx, 128);
       ("value", tx_Value tx, 256)] = Ok tt <->
    is_uint 128 (tx_GasFeeCap tx) /\ is_uint 128 (tx_GasTipCap tx) /\ is_uint 256 (tx_Value tx)).
  { rewrite (for_check_Forall (fun field : string * Z * Z => reject_if _ _)).
    rewrite !Forall_cons, Forall_nil. unfold exceeds_bits. cbn [fst snd].
    rewrite !reject_if_ok, !exceeds_bits_false by lia. tauto. }
  assert (Hsig : (r <? 0) || (big_BitLen r >? 256) || (s <? 0) || (big_BitLen s >? 256) = false <->
    is_uint 256 r /\ is_uint 256 s).
  { rewrite <- !(exceeds_bits_false _ 256) by lia. rewrite !orb_false_iff. tauto. }
  split.
  - intros ([] & Ht & [] & Hb & Hrest). apply Hbits in Hb. apply res_bind_ok in Hrest as ([] & Hrs & Hrest).
    apply reject_if_ok, Hsig in Hrs.
    destruct (Z.eqb_spec (tx_Type tx) LegacyTxType) as [El|El].
    { apply validateLegacyV_ok in Hrest. split_conj; try tauto.
      intros Eb. rewrite El in Eb. discriminate Eb. }
    apply res_bind_ok in Hrest as ([] & Hc & Hrest). apply res_bind_ok in Hrest as ([] & Hv & Hrest).
    apply reject_if_ok, exceeds_bits_false in Hv; [|lia]. apply reject_if_ok in Hc.
    unfold big_IsUint64 in Hc. unfold is_uint in Hv. go_bool.
    split_conj; try tauto; [by rewrite Ht| |].
    { intros _. unfold is_uint. lia. }
    intros Eb. rewrite Eb, Z.eqb_refl in Hrest. go_inv.
    match goal with H : exceeds_bits _ _ = false |- _ =>
      apply exceeds_bits_false in H; [done|lia] end.
  - intros (Ht & Hg & Htip & Hval & Hr & Hs & Hl & Hn & Hb).
    exists tt. split; [done|]. exists tt. split; [by apply Hbits|].
    rewrite (proj2 Hsig) by done. cbn [reject_if res_bind].
    destruct (Z.eqb_spec (tx_Type tx) LegacyTxType) as [El|El].
    { by apply validateLegacyV_ok, Hl. }
    destruct (Hn El) as [Hc Hv]. unfold big_IsUint64, is_uint in *.
    destruct (Z.leb_spec 0 (tx_ChainId tx)); [|lia].
    destruct (Z.ltb_spec (tx_ChainId tx) (2 ^ 64)); [|lia]. cbn [andb negb reject_if res_bind].
    rewrite (proj2 (exceeds_bits_false v 1 ltac:(lia))) by (unfold is_uint; lia).
    cbn [reject_if res_bind].
    destruct (Z.eqb_spec (tx_Type tx) BlobTxType) as [Eb|]; [|done].
    destruct (Hb Eb) as [Hf ->]. unfold exceeds_bits.
    by rewrite (proj2 (exceeds_bits_false (tx_BlobGasFeeCap tx) 128 ltac:(lia))).
Qed.
End Encoding.
