(* ===== verification/Hash.v ===== *)
(** * The signed digests

    [internal/prover/hash.go] and the carry-vector checks of
    [internal/prover/aggregate_validate.go]: the word encoders, the subproof
    and aggregation digests, the commitment an aggregation signs and the
    conditions under which a sequence of carries can be aggregated. *)

From S2P Require Import Prelude Bytes External Types Samples.

(* ------------------------------------------------------------------ *)
(** ** Words *)

(** [binary.BigEndian.PutUint64(out[24:], value)] into a zeroed [[32]byte]. *)
Definition u64Word (value : Z) : Z :=
  BytesToHash (replicate 24 x00 ++ be_bytes 8 value).

Definition u48Word (value : Z) : Z := u64Word (Z.land value 0xffffffffffff).

Definition addressWord (addr : Z) : Z :=
  BytesToHash (LeftPadBytes (Address_Bytes addr) 32).

(** [copy(out[:], []byte("VERIFY_PROOF"))] into a zeroed [[32]byte]. *)
Definition verifyProofWord : Z :=
  BytesToHash
    ([x56; x45; x52; x49; x46; x59; x5f; x50; x52; x4f; x4f; x46] ++ replicate 20 x00).

Definition maxUint48 : Z := 2 ^ 48 - 1.

(** The bytes [hashWords] hands to Keccak. *)
Definition words_bytes (values : list Z) : list byte := concat (Hash_Bytes <$> values).

Definition hashWords `{Keccak} (values : list Z) : Z := Keccak256Hash (words_bytes values).

(* ------------------------------------------------------------------ *)
(** ** The subproof digest *)

Definition checkpoint_words (c : CheckpointView) : list Z :=
  [u48Word (cp_BlockNumber c); cp_BlockHash c; cp_StateRoot c].

Definition hashCheckpoint `{Keccak} (c : CheckpointView) : Z :=
  hashWords (checkpoint_words c).

Definition transition_words `{Keccak} (t : TransitionInputView) : list Z :=
  [ u64Word (ti_ProposalID t);
    ti_ProposalHash t;
    ti_ParentProposalHash t;
    ti_ParentBlockHash t;
    addressWord (ti_ActualProver t);
    addressWord (tv_Proposer (ti_Transition t));
    u48Word (tv_Timestamp (ti_Transition t));
    hashCheckpoint (ti_Checkpoint t);
    u48Word (cp_BlockNumber (ti_Checkpoint t));
    cp_BlockHash (ti_Checkpoint t);
    cp_StateRoot (ti_Checkpoint t) ].

Definition hashShastaTransitionInput `{Keccak} (t : TransitionInputView) : Z :=
  hashWords (transition_words t).

Definition subproof_words `{Keccak} (carry : CarryView) : list Z :=
  [ verifyProofWord;
    u64Word (cv_ChainID carry);
    addressWord (cv_Verifier carry);
    hashShastaTransitionInput (cv_TransitionInput carry) ].

Definition hashShastaSubproofCarry `{Keccak} (carry : CarryView) : Z :=
  hashWords (subproof_words carry).

(* ------------------------------------------------------------------ *)
(** ** Which carries can be aggregated *)

Definition carryFitsShastaWidths (carry : CarryView) : bool :=
  (ti_ProposalID (cv_TransitionInput carry) <=? maxUint48) &&
  (tv_Timestamp (ti_Transition (cv_TransitionInput carry)) <=? maxUint48) &&
  (cp_BlockNumber (ti_Checkpoint (cv_TransitionInput carry)) <=? maxUint48).

Definition checkedIncrementProposalID (proposalID : Z) : option Z :=
  if proposalID >=? maxUint48 then None else Some (add64 proposalID 1).

(** The body of the second loop, for two adjacent carries. *)
Definition carry_follows (prev next : CarryView) : bool :=
  match checkedIncrementProposalID (ti_ProposalID (cv_TransitionInput prev)) with
  | None => false
  | Some expectedProposalID =>
      if negb (expectedProposalID =? ti_ProposalID (cv_TransitionInput next)) then false
      else if negb (ti_ProposalHash (cv_TransitionInput prev) =?
                    ti_ParentProposalHash (cv_TransitionInput next)) then false
      else if negb (cv_ChainID prev =? cv_ChainID next) then false
      else if negb (cv_Verifier prev =? cv_Verifier next) then false
      else if negb (cp_BlockHash (ti_Checkpoint (cv_TransitionInput prev)) =?
                    ti_ParentBlockHash (cv_TransitionInput next)) then false
      else true
  end.

Fixpoint carries_follow (carries : list CarryView) : bool :=
  match carries with
  | prev :: ((next :: _) as rest) => carry_follows prev next && carries_follow rest
  | _ => true
  end.

Definition validateShastaProofCarryDataVec (carries : list CarryView) : bool :=
  match carries with
  | [] => false
  | first :: _ =>
      let expectedProver := ti_ActualProver (cv_TransitionInput first) in
      forallb (fun item =>
        carryFitsShastaWidths item &&
        (ti_ActualProver (cv_TransitionInput item) =? expectedProver)) carries &&
      carries_follow carries
  end.

(* ------------------------------------------------------------------ *)
(** ** The aggregation digest *)

Record shastaTransition := {
  st_Proposer : Z;
  st_Timestamp : Z;
  st_BlockHash : Z;
}.

Record shastaCommitment := {
  sc_FirstProposalID : Z;
  sc_FirstProposalParentBlockHash : Z;
  sc_LastProposalHash : Z;
  sc_ActualProver : Z;
  sc_EndBlockNumber : Z;
  sc_EndStateRoot : Z;
  sc_Transitions : list shastaTransition;
}.

Definition transition_of (item : CarryView) : shastaTransition := {|
  st_Proposer := tv_Proposer (ti_Transition (cv_TransitionInput item));
  st_Timestamp := tv_Timestamp (ti_Transition (cv_TransitionInput item));
  st_BlockHash := cp_BlockHash (ti_Checkpoint (cv_TransitionInput item));
|}.

Definition buildShastaCommitmentFromProofCarryDataVec (carries : list CarryView)
  : option shastaCommitment :=
  if negb (validateShastaProofCarryDataVec carries) then None
  else
    match head carries, last carries with
    | Some first, Some lst => Some {|
        sc_FirstProposalID := ti_ProposalID (cv_TransitionInput first);
        sc_FirstProposalParentBlockHash := ti_ParentBlockHash (cv_TransitionInput first);
        sc_LastProposalHash := ti_ProposalHash (cv_TransitionInput lst);
        sc_ActualProver := ti_ActualProver (cv_TransitionInput first);
        sc_EndBlockNumber := cp_BlockNumber (ti_Checkpoint (cv_TransitionInput lst));
        sc_EndStateRoot := cp_StateRoot (ti_Checkpoint (cv_TransitionInput lst));
        sc_Transitions := transition_of <$> carries;
      |}
    | _, _ => None
    end.

Definition transition_item_words (t : shastaTransition) : list Z :=
  [addressWord (st_Proposer t); u64Word (st_Timestamp t); st_BlockHash t].

Definition commitment_words (c : shastaCommitment) : list Z :=
  [ u64Word 0x20;
    u64Word (sc_FirstProposalID c);
    sc_FirstProposalParentBlockHash c;
    sc_LastProposalHash c;
    addressWord (sc_ActualProver c);
    u64Word (sc_EndBlockNumber c);
    sc_EndStateRoot c;
    u64Word 0xe0;
    u64Word (Z.of_nat (length (sc_Transitions c))) ] ++
  concat (transition_item_words <$> sc_Transitions c).

Definition hashCommitment `{Keccak} (c : shastaCommitment) : Z :=
  hashWords (commitment_words c).

Definition aggregation_words `{Keccak} (first : CarryView) (c : shastaCommitment)
  (instance : Z) : list Z :=
  [ verifyProofWord;
    u64Word (cv_ChainID first);
    addressWord (cv_Verifier first);
    hashCommitment c;
    addressWord instance ].

Definition hashShastaAggregationCarries `{Keccak} (carries : list CarryView) (instance : Z)
  : result Z :=
  match buildShastaCommitmentFromProofCarryDataVec carries, carries with
  | Some commitment, first :: _ => Ok (hashWords (aggregation_words first commitment instance))
  | _, _ => Err (Errorf "invalid shasta proof carry data")
  end.

(* ------------------------------------------------------------------ *)
(** ** Words are the numbers they encode *)

Lemma u64Word_eq v : is_u64 v -> u64Word v = v.
Proof.
  intros Hv. unfold u64Word, BytesToHash, is_uint in *.
  rewrite be_Z_app, be_Z_zeros, be_Z_bytes.
  change (256 ^ Z.of_nat 8) with (2 ^ 64). rewrite (Z.mod_small v) by lia.
  rewrite Z.mod_small; [lia|]. simpl (0 * _). lia.
Qed.

Lemma u64Word_range v : is_hash (u64Word v).
Proof. apply BytesToHash_range. Qed.

Lemma u48Word_range v : is_hash (u48Word v).
Proof. apply BytesToHash_range. Qed.

Lemma addressWord_range a : is_hash (addressWord a).
Proof. apply BytesToHash_range. Qed.

Lemma u48Word_eq v : is_u64 v -> u48Word v = v mod 2 ^ 48.
Proof.
  intros Hv. unfold u48Word. change 0xffffffffffff with (Z.ones 48).
  rewrite Z.land_ones by lia. apply u64Word_eq.
  pose proof (Z.mod_pos_bound v (2 ^ 48) ltac:(lia)). unfold is_uint in *. lia.
Qed.

Lemma u48Word_small v : 0 <= v <= maxUint48 -> u48Word v = v.
Proof.
  unfold maxUint48. intros Hv. rewrite u48Word_eq by (unfold is_uint; lia).
  apply Z.mod_small. lia.
Qed.

Lemma addressWord_eq a : is_address a -> addressWord a = a.
Proof.
  intros Ha. unfold addressWord, LeftPadBytes, BytesToHash.
  rewrite length_Address_Bytes. simpl (32 <=? 20)%nat. cbv iota.
  rewrite be_Z_app, be_Z_zeros, be_Z_Address_Bytes. unfold is_uint in Ha.
  rewrite (Z.mod_small a) by lia. rewrite Z.mod_small; lia.
Qed.

Lemma verifyProofWord_range : is_hash verifyProofWord.
Proof. apply BytesToHash_range. Qed.

Lemma hashWords_range `{Keccak} ws : is_hash (hashWords ws).
Proof. apply Keccak256Hash_range. Qed.

#[export] Hint Resolve u64Word_range u48Word_range addressWord_range verifyProofWord_range
  hashWords_range : go.

#[global] Opaque u64Word u48Word addressWord verifyProofWord.

(** Concatenated 32-byte words can be read back. *)
Lemma words_bytes_inj ws vs :
  Forall is_hash ws -> Forall is_hash vs -> words_bytes ws = words_bytes vs -> ws = vs.
Proof.
  unfold words_bytes. intros Hws. revert vs.
  induction Hws as [|w ws Hw Hws IH]; intros [|v vs] Hvs; simpl; [done| | |].
  - intros Hn. apply (f_equal length) in Hn.
    rewrite length_app, length_Hash_Bytes in Hn. done.
  - intros Hn. apply (f_equal length) in Hn.
    rewrite length_app, length_Hash_Bytes in Hn. done.
  - intros Heq. apply app_inj_1 in Heq as [H1 H2]; [|by rewrite !length_Hash_Bytes].
    apply Forall_cons in Hvs as [Hv Hvs].
    f_equal; [by apply Hash_Bytes_inj|by apply IH].
Qed.

(** Equal digests of word lists that are not a collision have equal words. *)
Lemma hashWords_inj `{Keccak} S ws vs :
  collision_free_on S -> words_bytes ws ∈ S -> words_bytes vs ∈ S ->
  Forall is_hash ws -> Forall is_hash vs -> hashWords ws = hashWords vs -> ws = vs.
Proof. intros Hc Hws Hvs Rw Rv Heq. apply words_bytes_inj; [done..|]. by apply Hc. Qed.

(* ------------------------------------------------------------------ *)
(** ** What the subproof digest binds *)

(** The three messages Keccak receives for one carry. *)
Definition subproof_messages `{Keccak} (c : CarryView) : list (list byte) :=
  [ words_bytes (checkpoint_words (ti_Checkpoint (cv_TransitionInput c)));
    words_bytes (transition_words (cv_TransitionInput c));
    words_bytes (subproof_words c) ].

(** Membership of a message in an explicit list of messages, syntactically. *)
Ltac in_messages :=
  cbn [app];
  repeat match goal with
  | |- ?x ∈ ?x :: _ => apply list_elem_of_here
  | |- _ ∈ _ :: _ => apply list_elem_of_further
  end.

(** Every word of a digest is 32 bytes. *)
Ltac words_range :=
  repeat match goal with
  | |- Forall _ [] => apply Forall_nil_2
  | |- Forall _ (_ :: _) => apply Forall_cons_2
  | |- Forall _ (_ ++ _) => apply Forall_app_2
  | |- is_hash (u64Word _) => apply u64Word_range
  | |- is_hash (u48Word _) => apply u48Word_range
  | |- is_hash (addressWord _) => apply addressWord_range
  | |- is_hash (hashWords _) => apply hashWords_range
  | |- is_hash verifyProofWord => apply verifyProofWord_range
  end; auto with go.

Lemma checkpoint_words_range c : typed_checkpoint c -> Forall is_hash (checkpoint_words c).
Proof. intros (? & ? & ?). unfold checkpoint_words. words_range. Qed.

Lemma transition_words_range `{Keccak} t :
  typed_transition_input t -> Forall is_hash (transition_words t).
Proof.
  intros (? & ? & ? & ? & ? & ? & ? & ? & ? & ?). unfold transition_words. words_range.
  apply hashWords_range.
Qed.

Lemma subproof_words_range `{Keccak} c : Forall is_hash (subproof_words c).
Proof. unfold subproof_words. words_range. apply hashWords_range. Qed.

Lemma u64Word_inj a b : is_u64 a -> is_u64 b -> u64Word a = u64Word b -> a = b.
Proof. intros Ha Hb. by rewrite !u64Word_eq. Qed.

Lemma addressWord_inj a b :
  is_address a -> is_address b -> addressWord a = addressWord b -> a = b.
Proof. intros Ha Hb. by rewrite !addressWord_eq. Qed.

Lemma u48Word_inj a b :
  0 <= a <= maxUint48 -> 0 <= b <= maxUint48 -> u48Word a = u48Word b -> a = b.
Proof. intros Ha Hb. by rewrite !u48Word_small. Qed.

Lemma transition_words_inj `{Keccak} t t' :
  typed_transition_input t -> typed_transition_input t' ->
  tv_Timestamp (ti_Transition t) <= maxUint48 ->
  tv_Timestamp (ti_Transition t') <= maxUint48 ->
  cp_BlockNumber (ti_Checkpoint t) <= maxUint48 ->
  cp_BlockNumber (ti_Checkpoint t') <= maxUint48 ->
  transition_words t = transition_words t' -> t = t'.
Proof.
  destruct t as [pid ph pph pbh prover [pr ts] [bn bh sr]],
    t' as [pid' ph' pph' pbh' prover' [pr' ts'] [bn' bh' sr']].
  unfold typed_transition_input, typed_checkpoint, is_uint, transition_words; simpl.
  intros (?&?&?&?&?&?&?&?&?&?) (?&?&?&?&?&?&?&?&?&?) ???? [=].
  repeat f_equal; try done;
    first [ solve [apply u64Word_inj; unfold is_uint; done]
          | solve [apply addressWord_inj; unfold is_uint; done]
          | solve [apply u48Word_inj; [lia|lia|done]] ].
Qed.

(** The digest determines the carry. *)
Lemma subproof_digest_inj `{Keccak} c c' :
  typed_carry c -> typed_carry c' ->
  carryFitsShastaWidths c = true -> carryFitsShastaWidths c' = true ->
  collision_free_on (subproof_messages c ++ subproof_messages c') ->
  hashShastaSubproofCarry c = hashShastaSubproofCarry c' ->
  c = c'.
Proof.
  intros (Hid & Hver & Ht) (Hid' & Hver' & Ht') Hf Hf' Hc Heq.
  unfold carryFitsShastaWidths in *. go_bool. unfold subproof_messages in Hc.
  eapply hashWords_inj in Heq; [|exact Hc|in_messages|in_messages|apply subproof_words_range..].
  unfold subproof_words in Heq. cons_inv Heq.
  eapply hashWords_inj in Heq3; [|exact Hc|in_messages|in_messages
    |by apply transition_words_range..].
  apply transition_words_inj in Heq3; [|done..].
  destruct c, c'; simpl in *. f_equal; [by apply u64Word_inj|by apply addressWord_inj|done].
Qed.

(** C19 (the digest a subproof signs pins down the whole carry): two carries whose
    integers fit their Solidity widths and whose [hashShastaSubproofCarry]
    digests agree are the same carry, as long as the at most six messages
    hashed on the way contain no Keccak collision.  Every field of the public
    input (chain, verifier, proposal, parents, prover, proposer, timestamp,
    checkpoint) is therefore bound by the signature. *)
Theorem hashShastaSubproofCarry_binding `{Keccak} c c' :
  typed_carry c -> typed_carry c' ->
  carryFitsShastaWidths c = true -> carryFitsShastaWidths c' = true ->
  collision_free_on (subproof_messages c ++ subproof_messages c') ->
  hashShastaSubproofCarry c = hashShastaSubproofCarry c' ->
  c = c'.
Proof. apply subproof_digest_inj. Qed.

Lemma hashShastaSubproofCarry_binding_witness :
  sample_carry 7 = sample_carry 7.
Proof.
  apply (@hashShastaSubproofCarry_binding sample_keccak).
  - vm_compute. repeat split; congruence.
  - vm_compute. repeat split; congruence.
  - reflexivity.
  - reflexivity.
  - apply (bool_decide_unpack _). vm_compute. exact I.
  - reflexivity.
Defined.

(* ------------------------------------------------------------------ *)
(** ** Which carry vectors are accepted *)

(** Consecutive proposals, linked by proposal hash and by block hash. *)
Definition carry_link (prev next : CarryView) : Prop :=
  ti_ProposalID (cv_TransitionInput next) = ti_ProposalID (cv_TransitionInput prev) + 1 /\
  ti_ParentProposalHash (cv_TransitionInput next) = ti_ProposalHash (cv_TransitionInput prev) /\
  cv_ChainID next = cv_ChainID prev /\
  cv_Verifier next = cv_Verifier prev /\
  ti_ParentBlockHash (cv_TransitionInput next) =
    cp_BlockHash (ti_Checkpoint (cv_TransitionInput prev)).

(** What an aggregated range of proposals [carries] starting at [first] is:
    a gap-free run of proposals of one chain, one verifier and one prover,
    each extending the one before it, with integers that fit the contract's
    [uint48] fields. *)
Record aggregatable (carries : list CarryView) (first : CarryView) : Prop := {
  agg_first : head carries = Some first;
  agg_item : forall i c, carries !! i = Some c ->
    ti_ProposalID (cv_TransitionInput c) =
      ti_ProposalID (cv_TransitionInput first) + Z.of_nat i /\
    cv_ChainID c = cv_ChainID first /\
    cv_Verifier c = cv_Verifier first /\
    ti_ActualProver (cv_TransitionInput c) = ti_ActualProver (cv_TransitionInput first) /\
    ti_ProposalID (cv_TransitionInput c) <= maxUint48 /\
    tv_Timestamp (ti_Transition (cv_TransitionInput c)) <= maxUint48 /\
    cp_BlockNumber (ti_Checkpoint (cv_TransitionInput c)) <= maxUint48;
  agg_linked : forall i a b, carries !! i = Some a -> carries !! S i = Some b ->
    ti_ParentProposalHash (cv_TransitionInput b) = ti_ProposalHash (cv_TransitionInput a) /\
    ti_ParentBlockHash (cv_TransitionInput b) =
      cp_BlockHash (ti_Checkpoint (cv_TransitionInput a));
}.

Lemma carry_follows_link prev next :
  typed_carry prev -> carryFitsShastaWidths next = true ->
  carry_follows prev next = true <-> carry_link prev next.
Proof.
  intros (_ & _ & [Hr _]) Hf. unfold carryFitsShastaWidths in Hf. go_bool.
  unfold carry_follows, checkedIncrementProposalID, carry_link, is_uint, maxUint48 in *.
  destruct (Z.geb_spec (ti_ProposalID (cv_TransitionInput prev)) (2 ^ 48 - 1)).
  { split; [done|]. lia. }
  rewrite add64_small by lia.
  repeat match goal with |- context [negb (?a =? ?b)] =>
    destruct (Z.eqb_spec a b); simpl end; split; intros; try done; lia.
Qed.

Lemma carries_follow_chained carries :
  Forall typed_carry carries -> Forall (fun c => carryFitsShastaWidths c = true) carries ->
  carries_follow carries = true <-> chained carry_link carries.
Proof.
  induction carries as [|a [|b l] IH]; intros Ht Hf; [done..|].
  apply Forall_cons in Ht as [Ha Ht]. apply Forall_cons in Hf as [_ Hf].
  change (carry_follows a b && carries_follow (b :: l) = true <->
    carry_link a b /\ chained carry_link (b :: l)).
  rewrite andb_true_iff, (IH Ht Hf), carry_follows_link; [done|done|].
  by apply Forall_inv in Hf.
Qed.

(** Along linked carries the proposal id counts up and the chain and verifier
    stay the same. *)
Lemma chained_carry_link_item carries first i c :
  chained carry_link carries -> head carries = Some first -> carries !! i = Some c ->
  ti_ProposalID (cv_TransitionInput c) =
    ti_ProposalID (cv_TransitionInput first) + Z.of_nat i /\
  cv_ChainID c = cv_ChainID first /\ cv_Verifier c = cv_Verifier first.
Proof.
  intros Hc Hh. revert c. induction i as [|i IH]; intros c Hi.
  - destruct carries; simplify_eq/=. split; [lia|done].
  - destruct (lookup_lt_is_Some_2 carries i) as [b Hb].
    { apply lookup_lt_Some in Hi. lia. }
    destruct (IH _ Hb) as (E1 & E2 & E3).
    destruct (proj1 (chained_lookup _ _) Hc _ _ _ Hb Hi) as (L1 & _ & L3 & L4 & _).
    rewrite L1, L3, L4, E1. split; [lia|done].
Qed.

Lemma accepted_aggregatable carries :
  Forall typed_carry carries -> validateShastaProofCarryDataVec carries = true ->
  exists first, aggregatable carries first.
Proof.
  intros Ht. destruct carries as [|first l]; [done|].
  unfold validateShastaProofCarryDataVec. rewrite andb_true_iff, forallb_forall.
  intros [Hall Hfol].
  assert (Hitem : forall c, c ∈ first :: l -> carryFitsShastaWidths c = true /\
    ti_ActualProver (cv_TransitionInput c) = ti_ActualProver (cv_TransitionInput first)).
  { intros c Hc%list_elem_of_In. specialize (Hall c Hc). go_bool. done. }
  rewrite carries_follow_chained in Hfol; [|done|].
  2:{ apply Forall_forall. intros c Hc. by apply Hitem. }
  exists first. split; [done| |].
  - intros i c Hi. destruct (Hitem c) as [Hw Hp]; [by eapply list_elem_of_lookup_2|].
    unfold carryFitsShastaWidths in Hw. go_bool.
    edestruct (chained_carry_link_item (first :: l) first i c) as (? & ? & ?); eauto.
    tauto.
  - intros i a b Hi Hi'.
    by destruct (proj1 (chained_lookup _ _) Hfol _ _ _ Hi Hi') as (_ & ? & _ & _ & ?).
Qed.

Lemma aggregatable_accepted carries first :
  Forall typed_carry carries -> aggregatable carries first ->
  validateShastaProofCarryDataVec carries = true.
Proof.
  intros Ht [Hh Hitem Hlink]. destruct carries as [|first' l]; [done|]. simplify_eq/=.
  assert (Hfits : forall c, c ∈ first :: l -> carryFitsShastaWidths c = true /\
    ti_ActualProver (cv_TransitionInput c) = ti_ActualProver (cv_TransitionInput first)).
  { intros c [i Hi]%list_elem_of_lookup.
    destruct (Hitem i c Hi) as (? & ? & ? & ? & ? & ? & ?).
    unfold carryFitsShastaWidths. rewrite !andb_true_iff, !Z.leb_le. tauto. }
  change (forallb (fun item => carryFitsShastaWidths item &&
    (ti_ActualProver (cv_TransitionInput item) =?
     ti_ActualProver (cv_TransitionInput first))) (first :: l) &&
    carries_follow (first :: l) = true).
  apply andb_true_iff. split.
  { apply forallb_forall. intros c Hc%list_elem_of_In. destruct (Hfits c Hc).
    rewrite andb_true_iff, Z.eqb_eq. done. }
  apply carries_follow_chained; [done| |].
  { apply Forall_forall. intros c Hc. by apply Hfits. }
  apply chained_lookup. intros i a b Hi Hi'.
  destruct (Hitem _ _ Hi) as (E1 & E2 & E3 & _).
  destruct (Hitem _ _ Hi') as (F1 & F2 & F3 & _).
  destruct (Hlink _ _ _ Hi Hi'). unfold carry_link.
  rewrite E1, E2, E3, F1, F2, F3. split; [lia|done].
Qed.

(** C21 (the carry-vector check is exactly "an unbroken run of proposals"): on
    carries with well-typed fields, [validateShastaProofCarryDataVec] accepts
    iff the vector is a non-empty gap-free run of consecutive proposals of one
    chain, verifier and prover, linked by proposal hash and block hash, within
    the [uint48] widths.  In particular a proposal id never wraps. *)
Theorem validateShastaProofCarryDataVec_spec carries :
  Forall typed_carry carries ->
  validateShastaProofCarryDataVec carries = true <->
  exists first, aggregatable carries first.
Proof.
  intros Ht. split; [by apply accepted_aggregatable|].
  intros [first Hf]. by eapply aggregatable_accepted.
Qed.

Lemma validateShastaProofCarryDataVec_spec_witness :
  Forall typed_carry [sample_carry 7; sample_carry 8] /\
  exists first, aggregatable [sample_carry 7; sample_carry 8] first.
Proof.
  assert (Ht : Forall typed_carry [sample_carry 7; sample_carry 8]).
  { apply (bool_decide_unpack _). vm_compute. exact I. }
  split; [exact Ht|].
  apply (proj1 (validateShastaProofCarryDataVec_spec _ Ht)). reflexivity.
Defined.

(* ------------------------------------------------------------------ *)
(** ** What the aggregation digest binds *)

Definition typed_transition (t : shastaTransition) : Prop :=
  is_address (st_Proposer t) /\ is_u64 (st_Timestamp t) /\ is_hash (st_BlockHash t).

Definition typed_commitment (c : shastaCommitment) : Prop :=
  is_u64 (sc_FirstProposalID c) /\ is_hash (sc_FirstProposalParentBlockHash c) /\
  is_hash (sc_LastProposalHash c) /\ is_address (sc_ActualProver c) /\
  is_u64 (sc_EndBlockNumber c) /\ is_hash (sc_EndStateRoot c) /\
  Forall typed_transition (sc_Transitions c).

Lemma build_typed carries c :
  Forall typed_carry carries ->
  buildShastaCommitmentFromProofCarryDataVec carries = Some c -> typed_commitment c.
Proof.
  unfold buildShastaCommitmentFromProofCarryDataVec. intros Ht.
  destruct (negb _); [done|].
  destruct (head carries) as [f|] eqn:Hf; [|done].
  destruct (last carries) as [l|] eqn:Hl; [|done]. intros [= <-].
  rewrite Forall_forall in Ht.
  assert (Hin_f : typed_carry f).
  { apply Ht. destruct carries; simplify_eq/=. apply list_elem_of_here. }
  assert (Hin_l : typed_carry l) by (apply Ht; by apply last_Some_elem_of).
  destruct Hin_f as (_ & _ & ? & ? & ? & ? & ? & ? & ? & ? & ? & ?).
  destruct Hin_l as (_ & _ & ? & ? & ? & ? & ? & ? & ? & ? & ? & ?).
  unfold typed_commitment; simpl. repeat (split; [done|]).
  apply Forall_fmap, Forall_forall. intros x Hx. unfold typed_transition; simpl.
  destruct (Ht x Hx) as (_ & _ & ? & ? & ? & ? & ? & ? & ? & ? & ? & ?). done.
Qed.

Lemma transition_item_words_range t :
  typed_transition t -> Forall is_hash (transition_item_words t).
Proof. intros (? & ? & ?). unfold transition_item_words. words_range. Qed.

Lemma commitment_words_range c : typed_commitment c -> Forall is_hash (commitment_words c).
Proof.
  intros (? & ? & ? & ? & ? & ? & Hts). unfold commitment_words. words_range.
  apply Forall_concat, Forall_fmap. eapply Forall_impl; [exact Hts|].
  exact transition_item_words_range.
Qed.

Lemma transition_item_words_concat_inj ts ts' :
  Forall typed_transition ts -> Forall typed_transition ts' ->
  concat (transition_item_words <$> ts) = concat (transition_item_words <$> ts') ->
  ts = ts'.
Proof.
  intros Ht. revert ts'. induction Ht as [|t ts (?&?&?) Hts IH]; intros [|t' ts'] Ht'; try done.
  apply Forall_cons in Ht' as [(?&?&?) Ht']. rewrite !fmap_cons, !concat_cons. intros Heq.
  apply app_inj_1 in Heq as [E Heq]; [|done]. apply IH in Heq; [|done]. subst ts'.
  unfold transition_item_words in E. cons_inv E. destruct t, t'; simpl in *.
  repeat f_equal; [by apply addressWord_inj|by apply u64Word_inj|done].
Qed.

Lemma commitment_words_inj c c' :
  typed_commitment c -> typed_commitment c' -> commitment_words c = commitment_words c' ->
  c = c'.
Proof.
  intros (?&?&?&?&?&?&Ht) (?&?&?&?&?&?&Ht') Heq.
  unfold commitment_words in Heq. apply app_inj_1 in Heq as [E Hts]; [|done].
  apply transition_item_words_concat_inj in Hts; [|done..]. cons_inv E.
  destruct c, c'; simpl in *. f_equal;
    first [done | by apply u64Word_inj | by apply addressWord_inj].
Qed.

(** The messages hashed for an aggregation. *)
Definition aggregation_messages `{Keccak} (carries : list CarryView) (instance : Z)
  : list (list byte) :=
  match buildShastaCommitmentFromProofCarryDataVec carries, carries with
  | Some c, first :: _ =>
      [words_bytes (commitment_words c); words_bytes (aggregation_words first c instance)]
  | _, _ => []
  end.

Lemma build_ok carries c :
  buildShastaCommitmentFromProofCarryDataVec carries = Some c ->
  exists first rest, carries = first :: rest /\ validateShastaProofCarryDataVec carries = true.
Proof.
  unfold buildShastaCommitmentFromProofCarryDataVec.
  destruct (validateShastaProofCarryDataVec carries) eqn:E; simpl; [|done].
  destruct carries; [done|]. eauto.
Qed.

Lemma build_some carries :
  validateShastaProofCarryDataVec carries = true ->
  is_Some (buildShastaCommitmentFromProofCarryDataVec carries).
Proof.
  intros E. unfold buildShastaCommitmentFromProofCarryDataVec. rewrite E. simpl negb.
  cbv iota. destruct carries as [|f l]; [done|].
  destruct (last (f :: l)) eqn:Hl; [done|]. by apply last_None in Hl.
Qed.

(** The aggregation digest exists exactly for an accepted carry vector. *)
Lemma hashShastaAggregationCarries_ok `{Keccak} carries instance :
  (exists d, hashShastaAggregationCarries carries instance = Ok d) <->
  validateShastaProofCarryDataVec carries = true.
Proof.
  unfold hashShastaAggregationCarries. split.
  - intros [d Hd]. destruct (buildShastaCommitmentFromProofCarryDataVec carries) eqn:E;
      [|done]. by apply build_ok in E as (? & ? & ? & ?).
  - intros Hv. destruct (build_some _ Hv) as [c E]. rewrite E.
    destruct carries; [done|]. eauto.
Qed.

Lemma aggregation_words_inj `{Keccak} f f' c c' i i' :
  typed_carry f -> typed_carry f' -> is_address i -> is_address i' ->
  aggregation_words f c i = aggregation_words f' c' i' ->
  cv_ChainID f = cv_ChainID f' /\ cv_Verifier f = cv_Verifier f' /\ i = i' /\
  hashCommitment c = hashCommitment c'.
Proof.
  intros (? & ? & _) (? & ? & _) ? ? E. unfold aggregation_words in E. cons_inv E.
  split; [by apply u64Word_inj|]. split; [by apply addressWord_inj|].
  split; [apply addressWord_inj; assumption|assumption].
Qed.

(** C20 (the aggregation digest binds the whole aggregated range): when two
    accepted carry vectors have the same [hashShastaAggregationCarries]
    digest and the four messages hashed contain no collision, they sign for
    the same prover instance, the same chain and verifier, and the same
    commitment: first proposal, parent block, last proposal hash, prover, end
    block and state root, and the full list of transitions. *)
Theorem hashShastaAggregationCarries_binding `{Keccak} carries carries' i i' d :
  Forall typed_carry carries -> Forall typed_carry carries' ->
  is_address i -> is_address i' ->
  collision_free_on (aggregation_messages carries i ++ aggregation_messages carries' i') ->
  hashShastaAggregationCarries carries i = Ok d ->
  hashShastaAggregationCarries carries' i' = Ok d ->
  i = i' /\
  cv_ChainID <$> head carries = cv_ChainID <$> head carries' /\
  cv_Verifier <$> head carries = cv_Verifier <$> head carries' /\
  buildShastaCommitmentFromProofCarryDataVec carries =
    buildShastaCommitmentFromProofCarryDataVec carries'.
Proof.
  intros Ht Ht' Hi Hi' Hc. unfold hashShastaAggregationCarries, aggregation_messages in *.
  destruct (buildShastaCommitmentFromProofCarryDataVec carries) as [c|] eqn:E; [|done].
  destruct carries as [|f l]; [done|]. intros [= Hd].
  destruct (buildShastaCommitmentFromProofCarryDataVec carries') as [c'|] eqn:E'; [|done].
  destruct carries' as [|f' l']; [done|]. intros [= Hd'].
  assert (Heq := eq_trans Hd (eq_sym Hd')).
  assert (Tc := build_typed _ _ Ht E). assert (Tc' := build_typed _ _ Ht' E').
  apply Forall_inv in Ht. apply Forall_inv in Ht'.
  eapply hashWords_inj in Heq; [|exact Hc|in_messages|in_messages
    |unfold aggregation_words; words_range; apply hashWords_range..].
  apply aggregation_words_inj in Heq as (E1 & E2 & -> & Heq); [|done..].
  eapply hashWords_inj in Heq; [|exact Hc|in_messages|in_messages
    |by apply commitment_words_range..].
  apply commitment_words_inj in Heq as ->; [|done..]. simpl. rewrite E1, E2. done.
Qed.

Lemma hashShastaAggregationCarries_binding_witness :
  exists d, @hashShastaAggregationCarries sample_keccak [sample_carry 7; sample_carry 8] 0x99 = Ok d /\
  buildShastaCommitmentFromProofCarryDataVec [sample_carry 7; sample_carry 8] =
    buildShastaCommitmentFromProofCarryDataVec [sample_carry 7; sample_carry 8].
Proof.
  assert (Hd : exists d, @hashShastaAggregationCarries sample_keccak
    [sample_carry 7; sample_carry 8] 0x99 = Ok d) by (eexists; reflexivity).
  destruct Hd as [d Hd]. exists d. split; [exact Hd|].
  apply (@hashShastaAggregationCarries_binding sample_keccak
    [sample_carry 7; sample_carry 8] [sample_carry 7; sample_carry 8] 0x99 0x99 d).
  - apply (bool_decide_unpack _). vm_compute. exact I.
  - apply (bool_decide_unpack _). vm_compute. exact I.
  - vm_compute. split; congruence.
  - vm_compute. split; congruence.
  - apply (bool_decide_unpack _). vm_compute. exact I.
  - exact Hd.
  - exact Hd.
Defined.
