(* ===== verification/Json.v ===== *)
(** * JSON values and the field decoders

    A [json.RawMessage] is the JSON value it holds, [None] when it is empty
    (a struct field that was absent).  Numbers keep their literal.  The model
    reads a document as its syntax tree, so two texts that differ only in
    insignificant blanks or escapes are one value.  The second half is the
    field helpers of [internal/prover/decode.go] and
    [internal/prover/guestinput_carry.go]: look a key up under its accepted
    spellings, then parse a quantity, a byte string, a hash or an address. *)

From Stdlib Require Import Ascii.
From S2P Require Import Prelude Bytes GoStd External.

#[local] Open Scope string_scope.
#[local] Open Scope Z_scope.

#[local] Set Warnings "-register-all".

Inductive json : Type :=
  | JNull
  | JBool (b : bool)
  | JNum (literal : string)
  | JStr (s : string)
  | JArr (items : list json)
  | JObj (members : list (string * json)).

Abbreviation RawMessage := (option json).
Abbreviation Fields := (gmap string json).

#[export] Instance json_eq_dec : EqDecision json.
Proof.
  refine (fix go (x y : json) : Decision (x = y) :=
    match x, y with
    | JNull, JNull => left eq_refl
    | JBool a, JBool b => cast_if (decide (a = b))
    | JNum a, JNum b => cast_if (decide (a = b))
    | JStr a, JStr b => cast_if (decide (a = b))
    | JArr l, JArr m =>
        cast_if ((fix goa (l m : list json) : Decision (l = m) :=
          match l, m with
          | [], [] => left eq_refl
          | a :: l', b :: m' => cast_if_and (go a b) (goa l' m')
          | _, _ => right _
          end) l m)
    | JObj l, JObj m =>
        cast_if ((fix goo (l m : list (string * json)) : Decision (l = m) :=
          match l, m with
          | [], [] => left eq_refl
          | (k, a) :: l', (k', b) :: m' =>
              cast_if_and3 (decide (k = k')) (go a b) (goo l' m')
          | _, _ => right _
          end) l m)
    | _, _ => right _
    end); clear go; try congruence; try clear goa; try clear goo; congruence.
Defined.

(* ------------------------------------------------------------------ *)
(** ** [json.Unmarshal] *)

Definition unmarshal_error : error := Errorf "json: cannot unmarshal value into Go value".
Definition syntax_error : error := Errorf "unexpected end of JSON input".

(** Into [map[string]json.RawMessage]: a repeated key keeps its last value,
    and [null] leaves the nil map. *)
Definition object_map (members : list (string * json)) : Fields :=
  fold_left (fun m kv => <[kv.1 := kv.2]> m) members ∅.

Definition decodeJSONObject (raw : RawMessage) : result Fields :=
  match raw with
  | None => Err syntax_error
  | Some JNull => Ok ∅
  | Some (JObj members) => Ok (object_map members)
  | Some _ => Err unmarshal_error
  end.

(** Into [[]json.RawMessage]: [None] is the nil slice. *)
Definition Unmarshal_raw_list (raw : RawMessage) : result (option (list json)) :=
  match raw with
  | None => Err syntax_error
  | Some JNull => Ok None
  | Some (JArr items) => Ok (Some items)
  | Some _ => Err unmarshal_error
  end.

(** Into a [string]: [null] leaves it empty. *)
Definition Unmarshal_string (raw : RawMessage) : result string :=
  match raw with
  | None => Err syntax_error
  | Some JNull => Ok ""
  | Some (JStr s) => Ok s
  | Some _ => Err unmarshal_error
  end.

Definition Unmarshal_bool (raw : RawMessage) : result bool :=
  match raw with
  | None => Err syntax_error
  | Some JNull => Ok false
  | Some (JBool b) => Ok b
  | Some _ => Err unmarshal_error
  end.

(** [decoder.UseNumber(); decoder.Decode(&number)] on a value that is neither
    [null] nor a string. *)
Definition Decode_number (raw : RawMessage) : result string :=
  match raw with
  | Some (JNum literal) => Ok literal
  | _ => Err unmarshal_error
  end.

(** Struct field names match without case: ASCII letters fold, and so do the
    two non-ASCII runes whose fold orbit holds an ASCII letter (U+017F with s
    and U+212A with k). *)
Definition upper (c : ascii) : ascii :=
  let n := ascii_code c in
  if (97 <=? n) && (n <=? 122) then ascii_of_N (Z.to_N (n - 32)) else c.

Fixpoint fold_chars (cs : chars) : chars :=
  match cs with
  | [] => []
  | "197"%char :: (("191"%char :: cs') as t) => "S"%char :: fold_chars cs'
  | "226"%char :: (("132"%char :: ("170"%char :: cs')) as t) => "K"%char :: fold_chars cs'
  | c :: cs' => upper c :: fold_chars cs'
  end.

Definition field_matches (name key : string) : bool :=
  bool_decide (fold_chars (chars_of name) = fold_chars (chars_of key)).

(** The members of an object that decode into the struct field [name], in
    order: each one is decoded over the result of the previous. *)
Definition members_of (name : string) (members : list (string * json)) : list json :=
  map snd (filter (fun kv => field_matches name kv.1 = true) members).

(** Into a [json.RawMessage] field: the last value wins. *)
Definition raw_field (name : string) (members : list (string * json)) : RawMessage :=
  last (members_of name members).

(** The members of the object a struct is decoded from; [null] sets nothing. *)
Definition struct_members (raw : RawMessage) : result (list (string * json)) :=
  match raw with
  | None => Err syntax_error
  | Some JNull => Ok []
  | Some (JObj members) => Ok members
  | Some _ => Err unmarshal_error
  end.

Definition isEmptyOrNullRawMessage (raw : RawMessage) : bool :=
  match raw with None | Some JNull => true | _ => false end.

(** [len(raw) == 0]. *)
Definition raw_empty (raw : RawMessage) : bool :=
  match raw with None => true | _ => false end.

(* ------------------------------------------------------------------ *)
(** ** Fields *)

Fixpoint lookupField (fields : Fields) (names : list string) : option json :=
  match names with
  | [] => None
  | name :: names' =>
      match fields !! name with
      | Some raw => Some raw
      | None => lookupField fields names'
      end
  end.

Definition missing_field (names : list string) : error :=
  Errorf ("missing required field " +:+ default "" (head names)).

Definition parse_field (names : list string) : string :=
  "parse field " +:+ default "" (head names).

Definition parseUint64String (value : string) : result Z :=
  if String.eqb value "" then Err (Errorf "empty quantity")
  else if HasPrefix value "0x" || HasPrefix value "0X"
  then ParseUint (str_drop 2 value) 16 64
  else ParseUint value 10 64.

Definition parseBigIntString (value : string) : result Z :=
  if String.eqb value "" then Err (Errorf "empty quantity")
  else
    let '(base, digits) :=
      if HasPrefix value "0x" || HasPrefix value "0X" then (16, str_drop 2 value)
      else (10, value) in
    some_or (big_SetString digits base) (Errorf "invalid quantity").

Definition parseUint64JSON (raw : RawMessage) : result Z :=
  if isEmptyOrNullRawMessage raw then Err (Errorf "empty quantity")
  else
    match raw with
    | Some (JStr value) => parseUint64String value
    | _ => let! number := Decode_number raw in ParseUint number 10 64
    end.

Definition parseBigIntJSON (raw : RawMessage) : result Z :=
  if isEmptyOrNullRawMessage raw then Err (Errorf "empty quantity")
  else
    match raw with
    | Some (JStr value) => parseBigIntString value
    | _ =>
        let! number := Decode_number raw in
        some_or (big_SetString number 10) (Errorf "invalid decimal quantity")
    end.

Definition requireUint64 (fields : Fields) (names : list string) : result Z :=
  let! raw := some_or (lookupField fields names) (missing_field names) in
  wrap_err (parse_field names) (parseUint64JSON (Some raw)).

Definition optionalUint64Ptr (fields : Fields) (names : list string) : result (option Z) :=
  match lookupField fields names with
  | None | Some JNull => Ok None
  | Some raw => let! v := wrap_err (parse_field names) (parseUint64JSON (Some raw)) in Ok (Some v)
  end.

Definition requireBigInt (fields : Fields) (names : list string) : result Z :=
  let! raw := some_or (lookupField fields names) (missing_field names) in
  wrap_err (parse_field names) (parseBigIntJSON (Some raw)).

Definition optionalBigInt (fields : Fields) (names : list string) : result (option Z) :=
  match lookupField fields names with
  | None | Some JNull => Ok None
  | Some raw => let! v := wrap_err (parse_field names) (parseBigIntJSON (Some raw)) in Ok (Some v)
  end.

Definition optionalBigIntWithDefault (fields : Fields) (names : list string) : result Z :=
  let! value := optionalBigInt fields names in
  match value with None => Ok 0 | Some v => Ok v end.

(** [uint256.FromBig] reports an overflow for 256 bits and more. *)
Definition bigIntToUint256 (value : Z) (field : string) : result Z :=
  reject_if (value <? 0) (Errorf ("not an unsigned 256-bit integer: " +:+ field)) ;;!
  reject_if (2 ^ 256 <=? value) (Errorf ("exceeds uint256: " +:+ field)) ;;!
  Ok value.

Definition requireUint256 (fields : Fields) (names : list string) : result Z :=
  let! value := requireBigInt fields names in
  bigIntToUint256 value (default "" (head names)).

Definition optionalUint256WithDefault (fields : Fields) (names : list string) : result Z :=
  let! value := optionalBigInt fields names in
  match value with
  | None => Ok 0
  | Some v => bigIntToUint256 v (default "" (head names))
  end.

Definition maxUint24 : Z := 2 ^ 24 - 1.

Definition requireUint48 (fields : Fields) (names : list string) : result Z :=
  let! value := requireUint64 fields names in
  reject_if (value >? 2 ^ 48 - 1) (Errorf "exceeds uint48") ;;!
  Ok value.

Definition requireUint24 (fields : Fields) (names : list string) : result Z :=
  let! value := requireUint64 fields names in
  reject_if (value >? maxUint24) (Errorf "exceeds uint24") ;;!
  Ok value.

Definition requireUint8 (fields : Fields) (names : list string) : result Z :=
  let! value := requireUint64 fields names in
  reject_if (value >? 0xff) (Errorf "exceeds uint8") ;;!
  Ok value.

Definition requireBool (fields : Fields) (names : list string) : result bool :=
  let! raw := some_or (lookupField fields names) (missing_field names) in
  reject_if (isEmptyOrNullRawMessage (Some raw)) (Errorf "missing or null required field") ;;!
  wrap_err (parse_field names) (Unmarshal_bool (Some raw)).

Definition requireJSONObjectField (fields : Fields) (names : list string) : result Fields :=
  let! raw := some_or (lookupField fields names) (missing_field names) in
  reject_if (isEmptyOrNullRawMessage (Some raw)) (Errorf "missing or null field") ;;!
  decodeJSONObject (Some raw).

Section Hex.
Context `{HexUtil}.

Definition parseBytesJSON (raw : RawMessage) : result (list byte) :=
  if isEmptyOrNullRawMessage raw then Err (Errorf "empty bytes value")
  else let! value := Unmarshal_string raw in hexutil_Decode value.

Definition parseHashString (value : string) : result Z :=
  let! decoded := hexutil_Decode value in
  reject_if (negb (length decoded =? HashLength)%nat) (Errorf "expected 32 bytes") ;;!
  Ok (BytesToHash decoded).

Definition parseAddressString (value : string) : result Z :=
  let! decoded := hexutil_Decode value in
  reject_if (negb (length decoded =? AddressLength)%nat) (Errorf "expected 20 bytes") ;;!
  Ok (BytesToAddress decoded).

Definition parseHashJSON (raw : RawMessage) : result Z :=
  if isEmptyOrNullRawMessage raw then Err (Errorf "empty hash")
  else let! value := Unmarshal_string raw in parseHashString value.

Definition parseAddressJSON (raw : RawMessage) : result Z :=
  if isEmptyOrNullRawMessage raw then Err (Errorf "empty address")
  else let! value := Unmarshal_string raw in parseAddressString value.

Definition requireBytes (fields : Fields) (names : list string) : result (list byte) :=
  let! raw := some_or (lookupField fields names) (missing_field names) in
  wrap_err (parse_field names) (parseBytesJSON (Some raw)).

Definition requireHash (fields : Fields) (names : list string) : result Z :=
  let! raw := some_or (lookupField fields names) (missing_field names) in
  wrap_err (parse_field names) (parseHashJSON (Some raw)).

Definition optionalHash (fields : Fields) (names : list string) : result (option Z) :=
  match lookupField fields names with
  | None | Some JNull => Ok None
  | Some raw => let! v := wrap_err (parse_field names) (parseHashJSON (Some raw)) in Ok (Some v)
  end.

Definition requireAddress (fields : Fields) (names : list string) : result Z :=
  let! raw := some_or (lookupField fields names) (missing_field names) in
  wrap_err (parse_field names) (parseAddressJSON (Some raw)).

Definition optionalAddress (fields : Fields) (names : list string) : result (option Z) :=
  match lookupField fields names with
  | None | Some JNull => Ok None
  | Some raw => let! v := wrap_err (parse_field names) (parseAddressJSON (Some raw)) in Ok (Some v)
  end.
End Hex.

(* ------------------------------------------------------------------ *)
(** ** Looking a field up *)

Lemma lookupField_cons fields name names :
  lookupField fields (name :: names) =
  match fields !! name with Some raw => Some raw | None => lookupField fields names end.
Proof. done. Qed.

Lemma lookupField_one fields name : lookupField fields [name] = fields !! name.
Proof. simpl. by destruct (fields !! name). Qed.

(** The first spelling present wins. *)
Lemma lookupField_spec fields names raw :
  lookupField fields names = Some raw <->
  exists i name, names !! i = Some name /\ fields !! name = Some raw /\
    forall j other, (j < i)%nat -> names !! j = Some other -> fields !! other = None.
Proof.
  induction names as [|n names IH].
  { split; [done|]. intros (i & ? & Hi & _). by rewrite lookup_nil in Hi. }
  rewrite lookupField_cons. destruct (fields !! n) as [r|] eqn:E.
  - split.
    + intros [= ->]. exists 0%nat, n. split; [done|]. split; [done|]. lia.
    + intros ([|i] & name & Hi & Hr & Hj); simplify_eq/=; [done|].
      rewrite (Hj 0%nat n) in E; [done|lia|done].
  - rewrite IH. split.
    + intros (i & name & Hi & Hr & Hj). exists (S i), name. split; [done|].
      split; [done|]. intros [|j] other Hlt Ho; simplify_eq/=; [done|].
      apply (Hj j); [lia|done].
    + intros ([|i] & name & Hi & Hr & Hj); simplify_eq/=.
      exists i, name. split; [done|]. split; [done|].
      intros j other Hlt Ho. apply (Hj (S j)); [lia|done].
Qed.

(* ------------------------------------------------------------------ *)
(** ** What a parsed field is *)

Lemma parseUint64String_range s v : parseUint64String s = Ok v -> is_u64 v.
Proof.
  unfold parseUint64String. destruct (String.eqb s ""); [done|].
  destruct (_ || _); apply ParseUint_range; lia.
Qed.

Lemma parseUint64JSON_range raw v : parseUint64JSON raw = Ok v -> is_u64 v.
Proof.
  unfold parseUint64JSON. destruct (isEmptyOrNullRawMessage raw); [done|].
  destruct raw as [[]|]; simpl; try done; [|apply parseUint64String_range].
  apply ParseUint_range. lia.
Qed.

Lemma requireUint64_range fields names v : requireUint64 fields names = Ok v -> is_u64 v.
Proof. unfold requireUint64. intros. go_inv. by eapply parseUint64JSON_range. Qed.

Lemma optionalUint64Ptr_range fields names v :
  optionalUint64Ptr fields names = Ok (Some v) -> is_u64 v.
Proof.
  unfold optionalUint64Ptr. destruct (lookupField fields names) as [[]|]; intros; go_inv;
    simplify_eq; by eapply parseUint64JSON_range.
Qed.

Lemma requireUint48_range fields names v : requireUint48 fields names = Ok v -> is_uint 48 v.
Proof.
  unfold requireUint48. intros. go_ok. apply requireUint64_range in H0 as ?.
  unfold is_uint in *. lia.
Qed.

Lemma requireUint24_range fields names v : requireUint24 fields names = Ok v -> is_uint 24 v.
Proof.
  unfold requireUint24, maxUint24. intros. go_ok. apply requireUint64_range in H0 as ?.
  unfold is_uint in *. lia.
Qed.

Lemma requireUint8_range fields names v : requireUint8 fields names = Ok v -> is_uint 8 v.
Proof.
  unfold requireUint8. intros. go_ok. apply requireUint64_range in H0 as ?.
  unfold is_uint in *. lia.
Qed.

Lemma bigIntToUint256_range v field u : bigIntToUint256 v field = Ok u -> u = v /\ is_uint 256 v.
Proof.
  unfold bigIntToUint256, is_uint. intros. go_ok. lia.
Qed.

Section HexRange.
Context `{HexUtil}.

Lemma parseHashJSON_range raw v : parseHashJSON raw = Ok v -> is_hash v.
Proof.
  unfold parseHashJSON, parseHashString. destruct (isEmptyOrNullRawMessage raw); [done|].
  intros. go_inv. auto with go.
Qed.

Lemma parseAddressJSON_range raw v : parseAddressJSON raw = Ok v -> is_address v.
Proof.
  unfold parseAddressJSON, parseAddressString.
  destruct (isEmptyOrNullRawMessage raw); [done|]. intros. go_inv. auto with go.
Qed.

Lemma requireHash_range fields names v : requireHash fields names = Ok v -> is_hash v.
Proof. unfold requireHash. intros. go_inv. by eapply parseHashJSON_range. Qed.

Lemma requireAddress_range fields names v : requireAddress fields names = Ok v -> is_address v.
Proof. unfold requireAddress. intros. go_inv. by eapply parseAddressJSON_range. Qed.

Lemma optionalHash_range fields names v : optionalHash fields names = Ok (Some v) -> is_hash v.
Proof.
  unfold optionalHash. destruct (lookupField fields names) as [[]|]; intros; go_inv;
    simplify_eq; by eapply parseHashJSON_range.
Qed.
End HexRange.

(** A decoder's local variables are in range: the lemmas above, used forward
    and backward. *)
Create HintDb ranges discriminated.
#[export] Hint Resolve requireUint64_range requireUint48_range requireUint24_range
  requireUint8_range requireHash_range requireAddress_range parseUint64JSON_range
  parseHashJSON_range parseAddressJSON_range optionalUint64Ptr_range
  optionalHash_range : ranges.
#[export] Hint Extern 2 (is_u64 _) =>
  eapply (is_uint_mono 48); [lia|eapply requireUint48_range; eassumption] : ranges.

(** A decimal literal decodes to its number, and so does its string form. *)
Lemma parseUint64JSON_num n :
  0 <= n < 2 ^ 64 -> parseUint64JSON (Some (JNum (format_uint n))) = Ok n.
Proof. intros Hn. unfold parseUint64JSON. simpl. by apply ParseUint_format. Qed.

(* ------------------------------------------------------------------ *)
(** ** Writing hexadecimal fields *)

(** The text of a byte string, a hash or an address on the wire. *)
Definition hex_text (bs : list byte) : string := "0x" +:+ hex_EncodeToString bs.

(** [hexutil.Decode] "decodes a hex string with 0x prefix". *)
Definition hexutil_reads_hex `{HexUtil} : Prop :=
  forall bs, hexutil_Decode (hex_text bs) = Ok bs.

Section HexWrite.
Context `{HexUtil} (Hhex : hexutil_reads_hex).

Lemma parseHashJSON_hex h :
  is_hash h -> parseHashJSON (Some (JStr (hex_text (Hash_Bytes h)))) = Ok h.
Proof.
  intros Hh. unfold parseHashJSON, parseHashString. cbn.
  rewrite Hhex. cbn. rewrite length_Hash_Bytes. cbn. by rewrite BytesToHash_Bytes.
Qed.

Lemma parseAddressJSON_hex a :
  is_address a -> parseAddressJSON (Some (JStr (hex_text (Address_Bytes a)))) = Ok a.
Proof.
  intros Ha. unfold parseAddressJSON, parseAddressString. cbn.
  rewrite Hhex. cbn. rewrite length_Address_Bytes. cbn. by rewrite BytesToAddress_Bytes.
Qed.

Lemma requireHash_hex fields names h :
  lookupField fields names = Some (JStr (hex_text (Hash_Bytes h))) -> is_hash h ->
  requireHash fields names = Ok h.
Proof. intros E Hh. unfold requireHash. rewrite E. cbn [some_or res_bind]. by rewrite parseHashJSON_hex. Qed.

Lemma requireAddress_hex fields names a :
  lookupField fields names = Some (JStr (hex_text (Address_Bytes a))) -> is_address a ->
  requireAddress fields names = Ok a.
Proof. intros E Ha. unfold requireAddress. rewrite E. cbn [some_or res_bind]. by rewrite parseAddressJSON_hex. Qed.
End HexWrite.

Lemma requireUint64_num fields names n :
  lookupField fields names = Some (JNum (format_uint n)) -> is_u64 n ->
  requireUint64 fields names = Ok n.
Proof. intros E Hn. unfold requireUint64. rewrite E. cbn [some_or res_bind]. by rewrite parseUint64JSON_num. Qed.

Lemma requireUint48_num fields names n :
  lookupField fields names = Some (JNum (format_uint n)) -> is_uint 48 n ->
  requireUint48 fields names = Ok n.
Proof.
  intros E Hn. unfold requireUint48. erewrite requireUint64_num by
    (try done; by eapply (is_uint_mono 48)). simpl. unfold is_uint in Hn.
  destruct (Z.gtb_spec n (2 ^ 48 - 1)); [lia|done].
Qed.

Lemma requireJSONObjectField_obj fields names members :
  lookupField fields names = Some (JObj members) ->
  requireJSONObjectField fields names = Ok (object_map members).
Proof. intros E. unfold requireJSONObjectField. by rewrite E. Qed.

Definition num_json (n : Z) : json := JNum (format_uint n).
Definition hex_json (n : Z) : json := JStr (format_hex n).
Definition hash_json (h : Z) : json := JStr (hex_text (Hash_Bytes h)).
Definition address_json (a : Z) : json := JStr (hex_text (Address_Bytes a)).
Definition bytes_json (bs : list byte) : json := JStr (hex_text bs).

Lemma requireBytes_hex `{HexUtil} fields names bs :
  hexutil_reads_hex -> lookupField fields names = Some (bytes_json bs) ->
  requireBytes fields names = Ok bs.
Proof. intros Hhex E. unfold requireBytes. rewrite E. cbn. by rewrite Hhex. Qed.

(* ------------------------------------------------------------------ *)
(** ** Styles of documents

    Some producers write snake case keys, numbers and [null]; a node's JSON-RPC
    interface writes camel case keys, hexadecimal quantities, and leaves an
    absent field out. *)

Record wire_style := {
  ws_camel : bool;
  ws_hex : bool;
  ws_omit : bool;
}.

Definition plain_style : wire_style := {| ws_camel := false; ws_hex := false; ws_omit := false |}.
Definition rpc_style : wire_style := {| ws_camel := true; ws_hex := true; ws_omit := true |}.

Section Style.
Context (st : wire_style).

Definition key_name (snake camel : string) : string := if ws_camel st then camel else snake.

Definition quantity (n : Z) : json := if ws_hex st then hex_json n else num_json n.

(** The value of a field that may be absent, if it is written at all. *)
Definition optional {A} (write : A -> json) (o : option A) : option json :=
  match o with
  | Some v => Some (write v)
  | None => if ws_omit st then None else Some JNull
  end.

Lemma parseUint64JSON_hex n : is_u64 n -> parseUint64JSON (Some (hex_json n)) = Ok n.
Proof.
  intros Hn. destruct (format_hex_digits n) as (Hd & Hp & He).
  cbn [parseUint64JSON hex_json isEmptyOrNullRawMessage]. unfold parseUint64String.
  rewrite He, Hp, Hd. cbn [orb]. by apply ParseUint_base.
Qed.

Lemma parseBigIntJSON_hex n : 0 <= n -> parseBigIntJSON (Some (hex_json n)) = Ok n.
Proof.
  intros Hn. destruct (format_hex_digits n) as (Hd & Hp & He).
  cbn [parseBigIntJSON hex_json isEmptyOrNullRawMessage]. unfold parseBigIntString.
  rewrite He, Hp, Hd. cbn [orb]. by rewrite big_SetString_base.
Qed.

Lemma parseUint64JSON_quantity n : is_u64 n -> parseUint64JSON (Some (quantity n)) = Ok n.
Proof.
  intros Hn. unfold quantity. destruct (ws_hex st); [by apply parseUint64JSON_hex|].
  by apply parseUint64JSON_num.
Qed.

Lemma parseBigIntJSON_quantity n : 0 <= n -> parseBigIntJSON (Some (quantity n)) = Ok n.
Proof.
  intros Hn. unfold quantity. destruct (ws_hex st); [by apply parseBigIntJSON_hex|].
  cbn [parseBigIntJSON num_json isEmptyOrNullRawMessage Decode_number res_bind].
  by rewrite big_SetString_format.
Qed.

Lemma requireUint64_written fields names n :
  lookupField fields names = Some (quantity n) -> is_u64 n -> requireUint64 fields names = Ok n.
Proof.
  intros E Hn. unfold requireUint64. rewrite E. cbn [some_or res_bind].
  by rewrite parseUint64JSON_quantity.
Qed.

Lemma requireBigInt_hex fields names n :
  lookupField fields names = Some (hex_json n) -> 0 <= n -> requireBigInt fields names = Ok n.
Proof.
  intros E Hn. unfold requireBigInt. rewrite E. cbn [some_or res_bind].
  by rewrite parseBigIntJSON_hex.
Qed.

(** A value that is written is not [null]. *)
Lemma written_match {A B} (write : A -> json) (read : json -> result A) (k : A -> B) o none :
  (forall v, write v <> JNull) ->
  (forall v, o = Some v -> read (write v) = Ok v) ->
  match optional write o with
  | None | Some JNull => Ok none
  | Some raw => let! v := read raw in Ok (k v)
  end = Ok (match o with Some v => k v | None => none end).
Proof.
  intros Hw Hr. destruct o as [v|]; cbn [optional].
  - specialize (Hw v). specialize (Hr v eq_refl). destruct (write v); try done; by rewrite Hr.
  - by destruct (ws_omit st).
Qed.

Lemma quantity_not_null n : quantity n <> JNull.
Proof. unfold quantity. by destruct (ws_hex st). Qed.

Lemma option_id {A} (o : option A) : match o with Some v => Some v | None => None end = o.
Proof. by destruct o. Qed.

Lemma optionalBigInt_written fields names o :
  lookupField fields names = optional quantity o ->
  (forall v, o = Some v -> 0 <= v) -> optionalBigInt fields names = Ok o.
Proof.
  intros E Ho. unfold optionalBigInt. rewrite E. etransitivity.
  - apply (written_match quantity (fun raw => wrap_err _ (parseBigIntJSON (Some raw))) Some).
    + apply quantity_not_null.
    + intros v Hv. by rewrite parseBigIntJSON_quantity by auto.
  - by rewrite option_id.
Qed.

Lemma optionalUint64Ptr_written fields names o :
  lookupField fields names = optional quantity o ->
  (forall v, o = Some v -> is_u64 v) -> optionalUint64Ptr fields names = Ok o.
Proof.
  intros E Ho. unfold optionalUint64Ptr. rewrite E. etransitivity.
  - apply (written_match quantity (fun raw => wrap_err _ (parseUint64JSON (Some raw))) Some).
    + apply quantity_not_null.
    + intros v Hv. by rewrite parseUint64JSON_quantity by auto.
  - by rewrite option_id.
Qed.

Lemma optionalHash_written `{HexUtil} fields names o :
  hexutil_reads_hex -> lookupField fields names = optional hash_json o ->
  (forall v, o = Some v -> is_hash v) -> optionalHash fields names = Ok o.
Proof.
  intros Hhex E Ho. unfold optionalHash. rewrite E. etransitivity.
  - apply (written_match hash_json (fun raw => wrap_err _ (parseHashJSON (Some raw))) Some).
    + done.
    + intros v Hv. unfold hash_json. cbv beta. by rewrite (parseHashJSON_hex Hhex) by auto.
  - by rewrite option_id.
Qed.
End Style.

(* ------------------------------------------------------------------ *)
(** ** Objects with optional members *)

(** The members that are there. *)
Definition present (members : list (string * option json)) : list (string * json) :=
  omap (fun kv => pair kv.1 <$> kv.2) members.

Fixpoint member (key : string) (members : list (string * option json)) : option json :=
  match members with
  | [] => None
  | (k, v) :: rest => if String.eqb key k then v else member key rest
  end.

Lemma object_map_insert m members :
  fold_left (fun m (kv : string * json) => <[kv.1 := kv.2]> m) members m = object_map members ∪ m.
Proof.
  unfold object_map. revert m. induction members as [|[k v] rest IH]; intros m; cbn [fold_left].
  - by rewrite (left_id_L ∅ (∪)).
  - rewrite IH, (IH (<[k:=v]> ∅)). cbn [fst snd].
    rewrite insert_empty, <- (assoc_L (∪)). by rewrite <- insert_union_singleton_l.
Qed.

Lemma object_map_cons k v members :
  object_map ((k, v) :: members) = object_map members ∪ {[ k := v ]}.
Proof.
  unfold object_map at 1. cbn [fold_left fst snd]. by rewrite object_map_insert, insert_empty.
Qed.

Lemma object_map_none members key :
  key ∉ members.*1 -> object_map members !! key = None.
Proof.
  induction members as [|[k v] rest IH]; [done|]. cbn [fmap list_fmap fst].
  intros [Hne Hr]%not_elem_of_cons. rewrite object_map_cons, lookup_union_r by auto.
  by rewrite lookup_singleton_ne.
Qed.

Lemma present_cons k o members :
  present ((k, o) :: members) =
  match o with Some v => (k, v) :: present members | None => present members end.
Proof. by destruct o. Qed.

Lemma present_keys members key : key ∈ (present members).*1 -> key ∈ members.*1.
Proof.
  intros ([k v] & -> & Hin)%list_elem_of_fmap. apply list_elem_of_omap in Hin as ([k' o] & Hin & E).
  cbn in E. destruct o as [w|]; [|done]. injection E as <- <-.
  apply list_elem_of_fmap. by exists (k', Some w).
Qed.

(** Every member is found under its key, if no key is repeated. *)
Lemma object_map_present members key :
  NoDup members.*1 -> object_map (present members) !! key = member key members.
Proof.
  induction members as [|[k o] rest IH]; [done|]. cbn [fmap list_fmap fst].
  intros [Hk Hnd]%NoDup_cons. specialize (IH Hnd).
  assert (Hk' : object_map (present rest) !! k = None).
  { apply object_map_none. by intros Hin%present_keys. }
  cbn [member]. rewrite present_cons. destruct (String.eqb_spec key k) as [->|Hne].
  - destruct o as [v|]; [|done]. by rewrite object_map_cons, lookup_union_r, lookup_singleton_eq.
  - destruct o as [v|]; [|done]. rewrite object_map_cons, <- IH. destruct (object_map (present rest) !! key) eqn:E.
    + by erewrite lookup_union_Some_l.
    + by rewrite lookup_union_r, lookup_singleton_ne.
Qed.

(** The order of the members does not matter. *)
Lemma present_NoDup members : NoDup members.*1 -> NoDup (present members).*1.
Proof.
  induction members as [|[k o] rest IH]; [done|]. cbn [fmap list_fmap fst].
  intros [Hk Hnd]%NoDup_cons. rewrite present_cons. destruct o as [v|]; [|by apply IH].
  cbn [fmap list_fmap fst].
  constructor; [|by apply IH]. by intros Hin%present_keys.
Qed.

Lemma object_map_list_to_map members : NoDup members.*1 -> object_map members = list_to_map members.
Proof.
  induction members as [|[k v] rest IH]; [done|]. cbn [fmap list_fmap fst].
  intros [Hk Hnd]%NoDup_cons. rewrite object_map_cons, IH by done. cbn.
  rewrite map_union_comm.
  - by rewrite <- insert_union_singleton_l.
  - apply map_disjoint_singleton_r. by apply not_elem_of_list_to_map_1.
Qed.

Lemma object_map_perm members members' :
  NoDup members.*1 -> members ≡ₚ members' -> object_map members = object_map members'.
Proof.
  intros Hnd Hp. assert (Hnd' : NoDup members'.*1) by by rewrite <- Hp.
  rewrite !object_map_list_to_map by done. by apply list_to_map_proper.
Qed.
