(* ===== verification/JsonText.v ===== *)
(** * JSON text

    The parts of [encoding/json] between bytes and syntax trees: the scanner
    (which, like Go's, reads a stream and can tell a wrong byte from a value
    that is not finished), the decoding of string literals, and the printer of
    [Marshal] and [MarshalIndent].  [Unmarshal_text] is the first half of
    [json.Unmarshal]; what a tree is decoded into is the business of the
    component that owns the Go type.  The theorem of this file is that what
    the source writes to its state files is read back as it was. *)

From Stdlib Require Import Ascii.
From S2P Require Import Prelude Bytes GoStd External Json.

#[local] Open Scope string_scope.
#[local] Open Scope list_scope.
#[local] Open Scope Z_scope.

Definition chars_of_bytes (bs : list byte) : chars := map ascii_of_byte bs.
Definition bytes_of_chars (cs : chars) : list byte := map byte_of_ascii cs.

(* ------------------------------------------------------------------ *)
(** ** Scanning *)

(** What a scanner says of a prefix of the input: a value and what follows it,
    a value that needs more bytes, or a byte that cannot be. *)
Inductive scan (A : Type) : Type :=
  | Done (a : A) (rest : chars)
  | More
  | Bad.
Arguments Done {A} a rest.
Arguments More {A}.
Arguments Bad {A}.

Definition scan_map {A B} (f : A -> B) (s : scan A) : scan B :=
  match s with Done a r => Done (f a) r | More => More | Bad => Bad end.

Definition scan_bind {A B} (s : scan A) (k : A -> chars -> scan B) : scan B :=
  match s with Done a r => k a r | More => More | Bad => Bad end.

Definition is_space (c : ascii) : bool :=
  match c with " " | "009" | "010" | "013" => true | _ => false end%char.

Fixpoint skip_space (cs : chars) : chars :=
  match cs with
  | c :: cs' => if is_space c then skip_space cs' else cs
  | [] => []
  end.

Fixpoint scan_literal (word cs : chars) : scan unit :=
  match word, cs with
  | [], _ => Done tt cs
  | _ :: _, [] => More
  | w :: word', c :: cs' => if Ascii.eqb w c then scan_literal word' cs' else Bad
  end.

(** The states of the scanner inside a number. *)
Inductive numstate := NumNeg | NumZero | NumInt | NumDot | NumFrac | NumExp | NumExpSign | NumExpDigits.

Definition is_digit (c : ascii) : bool := (48 <=? ascii_code c) && (ascii_code c <=? 57).
Definition is_exp (c : ascii) : bool := Ascii.eqb c "e" || Ascii.eqb c "E".

Definition num_step (st : numstate) (c : ascii) : option numstate :=
  match st with
  | NumNeg => if Ascii.eqb c "0" then Some NumZero else if is_digit c then Some NumInt else None
  | NumZero => if Ascii.eqb c "." then Some NumDot else if is_exp c then Some NumExp else None
  | NumInt =>
      if is_digit c then Some NumInt
      else if Ascii.eqb c "." then Some NumDot else if is_exp c then Some NumExp else None
  | NumDot => if is_digit c then Some NumFrac else None
  | NumFrac =>
      if is_digit c then Some NumFrac else if is_exp c then Some NumExp else None
  | NumExp =>
      if Ascii.eqb c "+" || Ascii.eqb c "-" then Some NumExpSign
      else if is_digit c then Some NumExpDigits else None
  | NumExpSign | NumExpDigits => if is_digit c then Some NumExpDigits else None
  end.

Definition num_end (st : numstate) : bool :=
  match st with NumZero | NumInt | NumFrac | NumExpDigits => true | _ => false end.

Fixpoint scan_number (st : numstate) (acc cs : chars) : scan chars :=
  match cs with
  | [] => if num_end st then Done (rev acc) [] else More
  | c :: cs' =>
      match num_step st c with
      | Some st' => scan_number st' (c :: acc) cs'
      | None => if num_end st then Done (rev acc) cs else Bad
      end
  end.

(** Inside a string: plain text, after a backslash, or [n] digits of a [\u]
    escape missing. *)
Inductive strstate := StrText | StrEscape | StrHex (n : nat).

Definition is_hex (c : ascii) : bool :=
  match digit_val c with Some d => d <? 16 | None => false end.

Definition str_step (st : strstate) (c : ascii) : option strstate :=
  match st with
  | StrText =>
      if Ascii.eqb c "\" then Some StrEscape
      else if ascii_code c <? 32 then None else Some StrText
  | StrEscape =>
      match c with
      | "b" | "f" | "n" | "r" | "t" | "\" | "/" | "034" => Some StrText
      | "u" => Some (StrHex 4)
      | _ => None
      end%char
  | StrHex n =>
      if is_hex c then Some (match n with S (S _ as m) => StrHex m | _ => StrText end)
      else None
  end.

(** The text between the quotes; the opening one is already read. *)
Fixpoint scan_string (st : strstate) (acc cs : chars) : scan chars :=
  match cs with
  | [] => More
  | c :: cs' =>
      if (match st with StrText => Ascii.eqb c "034" | _ => false end) then Done (rev acc) cs'
      else match str_step st c with
           | Some st' => scan_string st' (c :: acc) cs'
           | None => Bad
           end
  end.

(* ------------------------------------------------------------------ *)
(** ** String literals *)

(** The length of the UTF-8 sequence at the head, 0 when there is none
    ([utf8.DecodeRune]). *)
Definition in_range (lo hi : Z) (c : ascii) : bool :=
  (lo <=? ascii_code c) && (ascii_code c <=? hi).

Definition rune_length (cs : chars) : nat :=
  match cs with
  | [] => 0
  | a :: cs' =>
      if in_range 0 127 a then 1
      else match cs' with
      | [] => 0
      | b :: cs'' =>
          if in_range 194 223 a && in_range 128 191 b then 2
          else match cs'' with
          | [] => 0
          | c :: cs''' =>
              if in_range 128 191 c &&
                 ((in_range 224 224 a && in_range 160 191 b) ||
                  (in_range 237 237 a && in_range 128 159 b) ||
                  ((in_range 225 236 a || in_range 238 239 a) && in_range 128 191 b)) then 3
              else match cs''' with
              | [] => 0
              | d :: _ =>
                  if in_range 128 191 c && in_range 128 191 d &&
                     ((in_range 240 240 a && in_range 144 191 b) ||
                      (in_range 241 243 a && in_range 128 191 b) ||
                      (in_range 244 244 a && in_range 128 143 b)) then 4
                  else 0
              end
          end
      end
  end%nat.

Definition ascii_of_Z (z : Z) : ascii := ascii_of_N (Z.to_N z).

(** [utf8.AppendRune]; a rune outside the Unicode range or a surrogate is
    written as U+FFFD. *)
Definition replacement : chars := map ascii_of_Z [239; 191; 189].

Definition rune_chars (r : Z) : chars :=
  if r <? 128 then [ascii_of_Z r]
  else if r <? 2048 then map ascii_of_Z [192 + r / 64; 128 + r mod 64]
  else if (55296 <=? r) && (r <? 57344) then replacement
  else if r <? 65536 then map ascii_of_Z [224 + r / 4096; 128 + r / 64 mod 64; 128 + r mod 64]
  else if r <? 1114112 then
    map ascii_of_Z [240 + r / 262144; 128 + r / 4096 mod 64; 128 + r / 64 mod 64; 128 + r mod 64]
  else replacement.

Definition hex4 (a b c d : ascii) : Z := default 0 (digits_val 16 0 [a; b; c; d]).

(** The character after a backslash. *)
Definition unescape (c : ascii) : ascii :=
  match c with
  | "b" => "008" | "f" => "012" | "n" => "010" | "r" => "013" | "t" => "009" | c => c
  end%char.

(** [unquote] on the text of a literal the scanner accepted; [pending] bytes
    of a UTF-8 sequence are still to be copied. *)
Fixpoint unquote (pending : nat) (cs : chars) : chars :=
  match cs with
  | [] => []
  | "\"%char :: "u"%char :: a :: b :: c :: d :: rest =>
      let r := hex4 a b c d in
      match rest with
      | "\"%char :: "u"%char :: e :: f :: g :: h :: rest' =>
          let r' := hex4 e f g h in
          if (55296 <=? r) && (r <? 56320) && (56320 <=? r') && (r' <? 57344)
          then rune_chars ((r - 55296) * 1024 + (r' - 56320) + 65536) ++ unquote 0 rest'
          else rune_chars r ++ unquote 0 rest
      | _ => rune_chars r ++ unquote 0 rest
      end
  | "\"%char :: c :: rest => unescape c :: unquote 0 rest
  | c :: rest =>
      match pending with
      | S pending' => c :: unquote pending' rest
      | O =>
          match rune_length cs with
          | O => replacement ++ unquote 0 rest
          | S n => c :: unquote n rest
          end
      end
  end.

(* ------------------------------------------------------------------ *)
(** ** Values *)

(** [maxNestingDepth]. *)
Definition maxNestingDepth : nat := Z.to_nat 10000.

(** One value at the head of the input.  [depth] containers are open.  At most
    two units of fuel are given up for every byte read, so a fuel of more than
    twice the length of the input is never used up ([scan_fuel]). *)
Fixpoint scan_value (fuel depth : nat) (cs : chars) {struct fuel} : scan json :=
  match fuel with
  | O => Bad
  | S fuel' =>
      match skip_space cs with
      | [] => More
      | c :: rest =>
          match c with
          | "{"%char =>
              if (maxNestingDepth <=? depth)%nat then Bad
              else match skip_space rest with
                   | "}"%char :: rest' => Done (JObj []) rest'
                   | _ => scan_members fuel' (S depth) [] rest
                   end
          | "["%char =>
              if (maxNestingDepth <=? depth)%nat then Bad
              else match skip_space rest with
                   | "]"%char :: rest' => Done (JArr []) rest'
                   | _ => scan_elements fuel' (S depth) [] rest
                   end
          | "034"%char =>
              scan_map (fun s => JStr (string_of_list_ascii (unquote 0 s)))
                (scan_string StrText [] rest)
          | "t"%char => scan_map (fun _ => JBool true) (scan_literal (chars_of "rue") rest)
          | "f"%char => scan_map (fun _ => JBool false) (scan_literal (chars_of "alse") rest)
          | "n"%char => scan_map (fun _ => JNull) (scan_literal (chars_of "ull") rest)
          | _ =>
              let number st := scan_map (fun s => JNum (string_of_list_ascii s))
                (scan_number st [c] rest) in
              if Ascii.eqb c "-" then number NumNeg
              else if Ascii.eqb c "0" then number NumZero
              else if is_digit c then number NumInt
              else Bad
          end
      end
  end
with scan_elements (fuel depth : nat) (acc : list json) (cs : chars) {struct fuel} : scan json :=
  match fuel with
  | O => Bad
  | S fuel' =>
      scan_bind (scan_value fuel' depth cs) (fun v rest =>
        match skip_space rest with
        | [] => More
        | ","%char :: rest' => scan_elements fuel' depth (v :: acc) rest'
        | "]"%char :: rest' => Done (JArr (rev (v :: acc))) rest'
        | _ => Bad
        end)
  end
with scan_members (fuel depth : nat) (acc : list (string * json)) (cs : chars) {struct fuel}
  : scan json :=
  match fuel with
  | O => Bad
  | S fuel' =>
      match skip_space cs with
      | [] => More
      | "034"%char :: rest =>
          scan_bind (scan_string StrText [] rest) (fun key rest =>
            match skip_space rest with
            | [] => More
            | ":"%char :: rest =>
                scan_bind (scan_value fuel' depth rest) (fun v rest =>
                  let acc := (string_of_list_ascii (unquote 0 key), v) :: acc in
                  match skip_space rest with
                  | [] => More
                  | ","%char :: rest' => scan_members fuel' depth acc rest'
                  | "}"%char :: rest' => Done (JObj (rev acc)) rest'
                  | _ => Bad
                  end)
            | _ => Bad
            end)
      | _ => Bad
      end
  end.

(** The value at the head of a whole input. *)
Definition scan_json (cs : chars) : scan json := scan_value (S (2 * length cs)) 0 cs.

(** [json.Unmarshal] up to the tree: one value, with blanks around it. *)
Definition Unmarshal_text (bs : list byte) : result json :=
  match scan_json (chars_of_bytes bs) with
  | Done v rest => match skip_space rest with [] => Ok v | _ => Err syntax_error end
  | More | Bad => Err syntax_error
  end.

(* ------------------------------------------------------------------ *)
(** ** Printing *)

Definition hex_escape (r : Z) : chars :=
  chars_of "\u" ++
  map hex_digit [r / 4096; r / 256 mod 16; r / 16 mod 16; r mod 16].

(** One ASCII character of a string, with HTML escaping on. *)
Definition quote_ascii (c : ascii) : chars :=
  match c with
  | "034" | "\" => ["\"; c]
  | "008" => ["\"; "b"]
  | "012" => ["\"; "f"]
  | "010" => ["\"; "n"]
  | "013" => ["\"; "r"]
  | "009" => ["\"; "t"]
  | "<" | ">" | "&" => hex_escape (ascii_code c)
  | _ => if (ascii_code c <? 32)%Z then hex_escape (ascii_code c) else [c]
  end%char.

Fixpoint quote_chars (pending : nat) (cs : chars) : chars :=
  match cs with
  | [] => []
  | c :: rest =>
      match pending with
      | S pending' => c :: quote_chars pending' rest
      | O =>
          match rune_length cs with
          | O => hex_escape 65533 ++ quote_chars 0 rest
          | S O => quote_ascii c ++ quote_chars 0 rest
          | S n =>
              match cs with
              | "226"%char :: "128"%char :: "168"%char :: rest' => hex_escape 8232 ++ quote_chars 0 rest'
              | "226"%char :: "128"%char :: "169"%char :: rest' => hex_escape 8233 ++ quote_chars 0 rest'
              | _ => c :: quote_chars n rest
              end
          end
      end
  end.

Definition quoted (s : string) : chars :=
  ["034"%char] ++ quote_chars 0 (chars_of s) ++ ["034"%char].

Fixpoint separate {A} (sep : list A) (parts : list (list A)) : list (list A) :=
  match parts with
  | [] => []
  | [p] => [p]
  | p :: ps => p :: sep :: separate sep ps
  end.

(** [json.Marshal] of a tree. *)
Fixpoint compact (v : json) : chars :=
  match v with
  | JNull => chars_of "null"
  | JBool b => chars_of (if b then "true" else "false")
  | JNum literal => chars_of literal
  | JStr s => quoted s
  | JArr items =>
      ["["%char] ++ concat (separate [","%char] (map compact items)) ++ ["]"%char]
  | JObj members =>
      ["{"%char] ++
      concat (separate [","%char]
        (map (fun kv => quoted kv.1 ++ [":"%char] ++ compact kv.2) members)) ++ ["}"%char]
  end.

(** [json.MarshalIndent(v, "", "  ")] of an object whose members are scalars,
    the only values the source indents. *)
Definition indent_member (kv : string * json) : chars :=
  ["010"; " "; " "]%char ++ quoted kv.1 ++ [":"; " "]%char ++ compact kv.2.

Definition indent_object (members : list (string * json)) : chars :=
  match members with
  | [] => chars_of "{}"
  | _ =>
      ["{"%char] ++ concat (separate [","%char] (map indent_member members)) ++
      ["010"; "}"]%char
  end.

Definition MarshalIndent (members : list (string * json)) : list byte :=
  bytes_of_chars (indent_object members).

(* ------------------------------------------------------------------ *)
(** ** The fuel of the scanner *)

Lemma skip_space_length cs : (length (skip_space cs) <= length cs)%nat.
Proof. induction cs as [|c cs IH]; simpl; [lia|]. destruct (is_space c); simpl; lia. Qed.

Lemma scan_literal_length word cs u rest :
  scan_literal word cs = Done u rest -> (length rest <= length cs)%nat.
Proof.
  revert cs. induction word as [|w word IH]; intros cs; simpl.
  - by intros [= _ <-].
  - destruct cs as [|c cs]; [done|]. destruct (Ascii.eqb w c); [|done].
    intros E%IH. simpl. lia.
Qed.

Lemma scan_number_length st acc cs a rest :
  scan_number st acc cs = Done a rest -> (length rest <= length cs)%nat.
Proof.
  revert st acc. induction cs as [|c cs IH]; intros st acc; cbn [scan_number].
  - destruct (num_end st); [|done]. by intros [= _ <-].
  - destruct (num_step st c) as [st'|].
    + intros E%IH. simpl. lia.
    + destruct (num_end st); [|done]. by intros [= _ <-].
Qed.

Lemma scan_string_length st acc cs a rest :
  scan_string st acc cs = Done a rest -> (length rest < length cs)%nat.
Proof.
  revert st acc. induction cs as [|c cs IH]; intros st acc; cbn [scan_string]; [done|].
  simpl length. case_match.
  - intros [= _ <-]. lia.
  - destruct (str_step st c); [|done]. intros E%IH. lia.
Qed.

Lemma scan_map_done {A B} (f : A -> B) s b rest :
  scan_map f s = Done b rest -> exists a, s = Done a rest /\ b = f a.
Proof. destruct s; naive_solver. Qed.

Lemma scan_bind_done {A B} (s : scan A) (k : A -> chars -> scan B) b rest :
  scan_bind s k = Done b rest -> exists a r, s = Done a r /\ k a r = Done b rest.
Proof. destruct s; naive_solver. Qed.

(** What follows an accepted piece is shorter than the input. *)
Ltac scan_length :=
  repeat match goal with
  | H : scan_map _ _ = Done _ _ |- _ => apply scan_map_done in H as (? & H & _)
  | H : scan_bind _ _ = Done _ _ |- _ => apply scan_bind_done in H as (? & ? & ? & H)
  | H : scan_string _ _ _ = Done _ _ |- _ => apply scan_string_length in H
  | H : scan_number _ _ _ = Done _ _ |- _ => apply scan_number_length in H
  | H : scan_literal _ _ = Done _ _ |- _ => apply scan_literal_length in H
  | H : skip_space ?cs = _ |- _ =>
      let L := fresh in pose proof (skip_space_length cs) as L; rewrite H in L;
      simpl length in L; clear H
  | H : Done _ _ = Done _ _ |- _ => injection H as ? ?; subst
  end; simpl length in *; try lia.

Lemma scan_shorter fuel :
  (forall depth cs v rest, scan_value fuel depth cs = Done v rest ->
     (length rest < length cs)%nat) /\
  (forall depth acc cs v rest, scan_elements fuel depth acc cs = Done v rest ->
     (length rest < length cs)%nat) /\
  (forall depth acc cs v rest, scan_members fuel depth acc cs = Done v rest ->
     (length rest < length cs)%nat).
Proof.
  induction fuel as [|fuel (IHv & IHe & IHm)]; [done|]. split_and!.
  - intros depth cs v rest. cbn [scan_value].
    destruct (skip_space cs) as [|c cs'] eqn:Hs; [done|].
    repeat (case_match; try discriminate); intros E;
      try (apply IHe in E); try (apply IHm in E); scan_length.
  - intros depth acc cs v rest. cbn [scan_elements].
    intros E. apply scan_bind_done in E as (a & r & Ha & E). apply IHv in Ha.
    repeat (case_match; try discriminate); try (apply IHe in E); scan_length.
  - intros depth acc cs v rest. cbn [scan_members].
    destruct (skip_space cs) as [|c cs'] eqn:Hs; [done|].
    destruct c as [[] [] [] [] [] [] [] []]; try discriminate.
    intros E. apply scan_bind_done in E as (key & r & Hk & E). apply scan_string_length in Hk.
    destruct (skip_space r) as [|c' r'] eqn:Hs'; [done|].
    destruct c' as [[] [] [] [] [] [] [] []]; try discriminate.
    apply scan_bind_done in E as (a & r2 & Ha & E). apply IHv in Ha.
    repeat (case_match; try discriminate); try (apply IHm in E); scan_length.
Qed.

(** Any two fuels above twice the length give the same answer. *)
Lemma scan_fuel_all fuel :
  forall fuel',
  (forall depth cs, (2 * length cs < fuel)%nat -> (2 * length cs < fuel')%nat ->
     scan_value fuel depth cs = scan_value fuel' depth cs) /\
  (forall depth acc cs, (2 * length cs + 1 < fuel)%nat -> (2 * length cs + 1 < fuel')%nat ->
     scan_elements fuel depth acc cs = scan_elements fuel' depth acc cs) /\
  (forall depth acc cs, (2 * length cs < fuel)%nat -> (2 * length cs < fuel')%nat ->
     scan_members fuel depth acc cs = scan_members fuel' depth acc cs).
Proof.
  induction fuel as [|fuel IH]; intros fuel'; [split_and!; intros; lia|].
  destruct fuel' as [|fuel']; [split_and!; intros; lia|].
  destruct (IH fuel') as (IHv & IHe & IHm). split_and!.
  - intros depth cs Hf Hf'. cbn [scan_value].
    destruct (skip_space cs) as [|c cs'] eqn:Hs; [done|].
    pose proof (skip_space_length cs) as L. rewrite Hs in L. simpl length in L.
    destruct c as [[] [] [] [] [] [] [] []]; try reflexivity;
      lazy iota; (destruct (maxNestingDepth <=? depth)%nat; [done|]);
      try (rewrite IHe by lia); try (rewrite IHm by lia); reflexivity.
  - intros depth acc cs Hf Hf'. cbn [scan_elements]. rewrite (IHv depth cs) by lia.
    destruct (scan_value fuel' depth cs) as [v r| |] eqn:Hv; [|done|done].
    apply scan_shorter in Hv. cbn [scan_bind].
    destruct (skip_space r) as [|c r'] eqn:Hs; [done|].
    pose proof (skip_space_length r) as L. rewrite Hs in L. simpl length in L.
    destruct c as [[] [] [] [] [] [] [] []]; try reflexivity. apply IHe; lia.
  - intros depth acc cs Hf Hf'. cbn [scan_members].
    destruct (skip_space cs) as [|c cs'] eqn:Hs; [done|].
    pose proof (skip_space_length cs) as L. rewrite Hs in L. simpl length in L.
    destruct c as [[] [] [] [] [] [] [] []]; try reflexivity.
    destruct (scan_string StrText [] cs') as [key r| |] eqn:Hk; [|done|done].
    apply scan_string_length in Hk. cbn [scan_bind].
    destruct (skip_space r) as [|c r'] eqn:Hs'; [done|].
    pose proof (skip_space_length r) as L'. rewrite Hs' in L'. simpl length in L'.
    destruct c as [[] [] [] [] [] [] [] []]; try reflexivity.
    rewrite (IHv depth r') by lia.
    destruct (scan_value fuel' depth r') as [v r2| |] eqn:Hv; [|done|done].
    apply scan_shorter in Hv. cbn [scan_bind].
    destruct (skip_space r2) as [|c r3] eqn:Hs2; [done|].
    pose proof (skip_space_length r2) as L2. rewrite Hs2 in L2. simpl length in L2.
    destruct c as [[] [] [] [] [] [] [] []]; try reflexivity. apply IHm; lia.
Qed.

Lemma scan_fuel fuel cs :
  (2 * length cs < fuel)%nat -> scan_value fuel 0 cs = scan_json cs.
Proof. intros Hf. unfold scan_json. apply scan_fuel_all; lia. Qed.

(* ------------------------------------------------------------------ *)
(** ** What is written is read back *)

Definition ascii_text (s : string) : Prop :=
  Forall (fun c => ascii_code c < 128) (chars_of s).

#[export] Instance ascii_text_dec s : Decision (ascii_text s).
Proof. unfold ascii_text. apply _. Defined.

Lemma unquote_hex a b c d rest :
  (55296 <=? hex4 a b c d) && (hex4 a b c d <? 56320) = false ->
  unquote 0 ("\"%char :: "u"%char :: a :: b :: c :: d :: rest) =
  rune_chars (hex4 a b c d) ++ unquote 0 rest.
Proof.
  intros Hs. cbn [unquote]. cbv zeta. rewrite Hs. cbn [andb].
  repeat (case_match; try reflexivity).
Qed.

Lemma ascii_below_128 (P : ascii -> Prop) :
  Forall P (map ascii_of_nat (seq 0 128)) -> forall c, ascii_code c < 128 -> P c.
Proof.
  intros HP c Hc. rewrite Forall_forall in HP. apply HP. apply list_elem_of_In, in_map_iff.
  exists (nat_of_ascii c). split; [apply ascii_nat_embedding|]. apply in_seq.
  unfold ascii_code in Hc. unfold nat_of_ascii. lia.
Qed.

Lemma rune_length_ascii c rest : ascii_code c < 128 -> rune_length (c :: rest) = 1%nat.
Proof.
  intros Hc. unfold rune_length, in_range. assert (0 <= ascii_code c) by apply N2Z.is_nonneg.
  by rewrite (proj2 (Z.leb_le 0 _)), (proj2 (Z.leb_le _ 127)) by lia.
Qed.

Lemma quote_cons c cs :
  ascii_code c < 128 -> quote_chars 0 (c :: cs) = quote_ascii c ++ quote_chars 0 cs.
Proof. intros Hc. cbn [quote_chars]. by rewrite rune_length_ascii. Qed.

Lemma unquote_ascii c cs :
  ascii_code c < 128 -> unquote 0 (quote_ascii c ++ cs) = c :: unquote 0 cs.
Proof.
  revert c. apply ascii_below_128. vm_compute seq. cbn [map].
  repeat (apply Forall_cons; split;
    [first [reflexivity | apply unquote_hex; reflexivity]|]).
  apply Forall_nil. done.
Qed.

Lemma scan_quote_ascii c acc cs :
  ascii_code c < 128 ->
  scan_string StrText acc (quote_ascii c ++ cs) =
  scan_string StrText (rev (quote_ascii c) ++ acc) cs.
Proof.
  revert c. apply ascii_below_128. vm_compute seq. cbn [map].
  repeat (apply Forall_cons; split; [reflexivity|]). by apply Forall_nil.
Qed.

Lemma unquote_quote s :
  ascii_text s -> string_of_list_ascii (unquote 0 (quote_chars 0 (chars_of s))) = s.
Proof.
  unfold ascii_text. intros Hs. rewrite <- (string_of_list_ascii_of_string s) at 2.
  fold (chars_of s). f_equal. induction Hs as [|c cs Hc _ IH]; [done|].
  by rewrite quote_cons, unquote_ascii, IH.
Qed.

Lemma scan_string_quote s acc rest :
  ascii_text s ->
  scan_string StrText acc (quote_chars 0 (chars_of s) ++ "034"%char :: rest) =
  Done (rev acc ++ quote_chars 0 (chars_of s)) rest.
Proof.
  unfold ascii_text. intros Hs. revert acc.
  induction Hs as [|c cs Hc _ IH]; intros acc.
  { cbn. by rewrite app_nil_r. }
  rewrite quote_cons, <- app_assoc, scan_quote_ascii, IH by done.
  by rewrite rev_app_distr, rev_involutive, <- app_assoc.
Qed.

(** A printed number is digits, without a leading zero unless it is zero. *)
Lemma hex_digit_dec d : 0 <= d < 10 -> hex_digit d = ascii_of_N (Z.to_N (48 + d)).
Proof. intros Hd. unfold hex_digit. by rewrite (proj2 (Z.ltb_lt d 10)) by lia. Qed.

Lemma digit_char d : 0 <= d < 10 -> is_digit (hex_digit d) = true.
Proof.
  intros Hd. rewrite hex_digit_dec by done.
  unfold is_digit, ascii_code. rewrite N_ascii_embedding by lia.
  rewrite Z2N.id by lia. apply andb_true_iff. rewrite !Z.leb_le. lia.
Qed.

Lemma dec_chars_digits fuel n acc :
  Forall (fun c => is_digit c = true) acc ->
  Forall (fun c => is_digit c = true) (digit_chars 10 fuel n acc).
Proof.
  revert n acc. induction fuel as [|fuel IH]; intros n acc Hacc; cbn [digit_chars]; [done|].
  assert (Forall (fun c => is_digit c = true)
    (hex_digit (n mod 10) :: acc)) as H.
  { constructor; [|done]. apply digit_char, Z.mod_pos_bound. lia. }
  destruct (n / 10 =? 0); [done|]. by apply IH.
Qed.

Lemma dec_chars_lead fuel n :
  0 < n -> n < 10 ^ Z.of_nat fuel ->
  exists c cs, digit_chars 10 fuel n [] = c :: cs /\ Ascii.eqb c "0" = false.
Proof.
  revert n. induction fuel as [|fuel IH]; intros n Hn Hlt; [simpl in Hlt; lia|].
  cbn [digit_chars]. pose proof (Z.mod_pos_bound n 10 ltac:(lia)).
  pose proof (Z.div_mod n 10 ltac:(lia)).
  destruct (Z.eqb_spec (n / 10) 0) as [E|E].
  - eexists _, _. split; [done|]. apply Ascii.eqb_neq. intros Hc.
    rewrite hex_digit_dec in Hc by done. apply (f_equal N_of_ascii) in Hc. rewrite N_ascii_embedding in Hc by lia.
    change (N_of_ascii "0") with 48%N in Hc. lia.
  - rewrite digit_chars_acc. destruct (IH (n / 10)) as (c & cs & -> & Hc).
    + pose proof (Z.div_pos n 10). lia.
    + rewrite Nat2Z.inj_succ, Z.pow_succ_r in Hlt by lia.
      apply Z.div_lt_upper_bound; lia.
    + by eexists _, _.
Qed.

(** The characters that may follow a number in what the source prints. *)
Definition ends_number (rest : chars) : Prop :=
  match rest with
  | [] => True
  | c :: _ => num_step NumZero c = None /\ num_step NumInt c = None
  end.

Lemma scan_digits acc ds rest :
  Forall (fun c => is_digit c = true) ds -> ends_number rest ->
  scan_number NumInt acc (ds ++ rest) = Done (rev acc ++ ds) rest.
Proof.
  intros Hds Hend. revert acc. induction Hds as [|d ds Hd _ IH]; intros acc.
  - rewrite app_nil_r. destruct rest as [|c rest]; [done|]. destruct Hend as [_ Hi].
    cbn [app scan_number]. by rewrite Hi.
  - cbn [app scan_number num_step]. rewrite Hd, IH. cbn [rev].
    by rewrite <- app_assoc.
Qed.

(** The values of the state files. *)
Definition plain_scalar (v : json) : Prop :=
  match v with
  | JStr s => ascii_text s
  | JNum literal => exists n, 0 <= n /\ literal = format_uint n
  | _ => False
  end.

Definition plain_member (kv : string * json) : Prop :=
  ascii_text kv.1 /\ plain_scalar kv.2.

Lemma scan_value_space fuel depth c cs :
  is_space c = true -> scan_value fuel depth (c :: cs) = scan_value fuel depth cs.
Proof. intros Hc. destruct fuel; cbn [scan_value skip_space]; by rewrite ?Hc. Qed.

Lemma scan_value_digit fuel depth c rest :
  is_digit c = true ->
  scan_value (S fuel) depth (c :: rest) =
  scan_map (fun s => JNum (string_of_list_ascii s))
    (scan_number (if Ascii.eqb c "0" then NumZero else NumInt) [c] rest).
Proof. destruct c as [[] [] [] [] [] [] [] []]; try discriminate; reflexivity. Qed.

Lemma string_chars s : string_of_list_ascii (chars_of s) = s.
Proof. apply string_of_list_ascii_of_string. Qed.

Lemma scan_number_value fuel depth n rest :
  0 <= n -> ends_number rest ->
  scan_value (S fuel) depth (chars_of (format_uint n) ++ rest) = Done (JNum (format_uint n)) rest.
Proof.
  intros Hn Hend. destruct (Z.eqb_spec n 0) as [->|Hne].
  - change (chars_of (format_uint 0)) with ["0"%char]. cbn [app].
    rewrite scan_value_digit by done. destruct rest as [|c rest]; [done|].
    destruct Hend as [Hz _]. cbn -[num_step]. by rewrite Hz.
  - assert (Hc : chars_of (format_uint n) = digit_chars 10 (S (Z.to_nat (Z.log2 n))) n [])
      by apply chars_of_list.
    destruct (dec_chars_lead (S (Z.to_nat (Z.log2 n))) n) as (c & cs & E & Hlead).
    { lia. }
    { by apply digits_fuel. }
    pose proof (dec_chars_digits (S (Z.to_nat (Z.log2 n))) n [] (Forall_nil_2 _)) as Hd.
    rewrite E in Hd. apply Forall_cons_1 in Hd as [Hd Hds].
    rewrite Hc, E. cbn [app]. rewrite scan_value_digit, Hlead, scan_digits by done.
    cbn [scan_map rev app]. do 2 f_equal. by rewrite <- E, <- Hc, string_chars.
Qed.

Lemma scan_plain_scalar fuel depth v rest :
  plain_scalar v -> ends_number rest ->
  scan_value (S fuel) depth (compact v ++ rest) = Done v rest.
Proof.
  destruct v as [| |l|s| |]; cbn [plain_scalar compact]; try done.
  - intros (n & Hn & ->) Hend. by apply scan_number_value.
  - intros Hs _. unfold quoted. rewrite <- !app_assoc. cbn [app scan_value skip_space is_space].
    cbn -[quote_chars scan_string]. rewrite scan_string_quote by done.
    cbn [scan_map rev app]. by rewrite unquote_quote.
Qed.

(** One member, up to the comma or the brace after it. *)
Lemma scan_indented_member fuel depth acc kv rest :
  plain_member kv ->
  scan_members (S (S fuel)) depth acc (indent_member kv ++ ","%char :: rest) =
    scan_members (S fuel) depth (kv :: acc) rest /\
  scan_members (S (S fuel)) depth acc (indent_member kv ++ "010"%char :: "}"%char :: rest) =
    Done (JObj (rev (kv :: acc))) rest.
Proof.
  destruct kv as [k v]. intros [Hk Hv]; cbn [fst snd] in *. unfold indent_member, quoted.
  cbn [fst snd]. rewrite <- !app_assoc. cbn [app].
  split; cbn -[quote_chars scan_string scan_value]; rewrite scan_string_quote by done;
    cbn -[quote_chars scan_value unquote]; rewrite scan_value_space by done;
    rewrite scan_plain_scalar by done; cbn -[quote_chars unquote];
    by rewrite unquote_quote.
Qed.

Lemma separate_members kv kv' members :
  concat (separate [","%char] (map indent_member (kv :: kv' :: members))) =
  indent_member kv ++ [","%char] ++
  concat (separate [","%char] (map indent_member (kv' :: members))).
Proof. done. Qed.

Lemma scan_indented_members fuel depth acc kv members rest :
  Forall plain_member (kv :: members) -> (length members < fuel)%nat ->
  scan_members (S fuel) depth acc
    (concat (separate [","%char] (map indent_member (kv :: members))) ++
     "010"%char :: "}"%char :: rest) =
  Done (JObj (rev acc ++ kv :: members)) rest.
Proof.
  intros Hm. revert fuel acc kv Hm.
  induction members as [|kv' members IH]; intros fuel acc kv Hm Hf;
    apply Forall_cons_1 in Hm as [Hkv Hm]; destruct fuel as [|fuel]; simpl in Hf; try lia.
  - cbn [map separate concat]. rewrite app_nil_r.
    destruct (scan_indented_member fuel depth acc kv rest Hkv) as [_ ->]. by cbn [rev].
  - rewrite separate_members, <- !app_assoc. cbn [app].
    destruct (scan_indented_member fuel depth acc kv
      (concat (separate [","%char] (map indent_member (kv' :: members))) ++
       "010"%char :: "}"%char :: rest) Hkv) as [-> _].
    rewrite IH by (done || lia). cbn [rev]. by rewrite <- app_assoc.
Qed.

(** More fuel is needed for text than there are members. *)
Lemma indent_length members :
  (length members <= length (concat (separate [","%char] (map indent_member members))))%nat.
Proof.
  induction members as [|kv members IH]; [done|].
  destruct members as [|kv' members]; cbn [map separate concat] in *;
    rewrite !length_app; unfold indent_member at 1; rewrite !length_app; simpl length in *; lia.
Qed.

Lemma chars_bytes_chars cs : chars_of_bytes (bytes_of_chars cs) = cs.
Proof.
  unfold chars_of_bytes, bytes_of_chars. rewrite map_map.
  rewrite <- (map_id cs) at 2. apply map_ext, ascii_of_byte_of_ascii.
Qed.

(** A state file is read back as it was written: [json.MarshalIndent] of an
    object of ASCII strings and numbers, and the final newline. *)
Lemma Unmarshal_MarshalIndent members :
  Forall plain_member members ->
  Unmarshal_text (MarshalIndent members ++ [byte_of 10]) = Ok (JObj members).
Proof.
  intros Hm. unfold Unmarshal_text, MarshalIndent.
  assert (Hc : chars_of_bytes (bytes_of_chars (indent_object members) ++ [byte_of 10]) =
    indent_object members ++ ["010"%char]).
  { unfold chars_of_bytes. rewrite map_app. fold (chars_of_bytes (bytes_of_chars
      (indent_object members))). by rewrite chars_bytes_chars. }
  rewrite Hc. clear Hc. destruct members as [|kv members]; [reflexivity|].
  unfold scan_json, indent_object. rewrite <- !app_assoc. cbn [app].
  pose proof (indent_length (kv :: members)) as Hl.
  set (body := concat (separate [","%char] (map indent_member (kv :: members)))) in *.
  assert (Hs : skip_space (body ++ ["010"; "}"; "010"]%char) =
    "034"%char :: drop 4 (body ++ ["010"; "}"; "010"]%char)).
  { subst body. by destruct members. }
  cbn [scan_value skip_space is_space]. cbn -[scan_members skip_space body Nat.mul].
  rewrite Hs.
  assert (Hf : length (body ++ ["010"; "}"; "010"]%char) = S (S (length body + 1))).
  { rewrite length_app. simpl. lia. }
  assert (Hl' : exists fuel, (2 * S (S (S (length body + 1))) = S fuel)%nat /\
    (length members < fuel)%nat).
  { exists (S (2 * S (S (length body + 1))))%nat. cbn [length] in Hl. split; lia. }
  cbn [length]. rewrite Hf. destruct Hl' as (fuel & -> & Hl'). unfold body.
  by rewrite scan_indented_members.
Qed.
