(* ===== verification/Tee.v ===== *)
(** * Enclave keys and bootstrap data

    [internal/tee]: the sealed key, the attestation quote, the bootstrap and
    registration files, and the way files are written
    ([atomicWriteFile], [ensureDirectory]).  Every function is a program over
    the calls of [FileSystem]; the enclave runtime ([ego]) and the text
    encodings of go-ethereum are classes. *)

From Stdlib Require Import Ascii.
From S2P Require Import Prelude Bytes GoStd FileSystem External Json JsonText.
From stdpp Require Import sorting.

#[local] Open Scope string_scope.
#[local] Open Scope list_scope.
#[local] Open Scope Z_scope.

(* ------------------------------------------------------------------ *)
(** ** Writing files *)

Definition syncDirectory (p : path) : prog (result unit) :=
  try! _ <- sys (OpenDir p) in
  sys (SyncDir p).

(** The walk to the root; [current <> path] from the second round on. *)
Fixpoint sync_ancestors (first : bool) (rooted : bool) (elements : list string)
  : prog (result unit) :=
  do! r <- syncDirectory (rooted, elements) in
  match r with
  | Err e =>
      if negb first && errors_Is e fs_ErrNotExist then Ret (Ok tt) else Ret (Err e)
  | Ok _ =>
      match elements with
      | [] => Ret (Ok tt)
      | _ :: elements' => sync_ancestors false rooted elements'
      end
  end.

Definition syncDirectoryAncestors (p : path) : prog (result unit) :=
  sync_ancestors true p.1 p.2.

(** The first loop of [ensureDirectory]; the missing directories, the
    outermost first. *)
Fixpoint stat_missing (rooted : bool) (elements : list string) (missing : list path)
  : prog (result (list path)) :=
  do! r <- sys (Stat (rooted, elements)) in
  match r with
  | Ok true => Ret (Ok missing)
  | Ok false => Ret (Err (path_error ENOTDIR))
  | Err e =>
      if negb (errors_Is e fs_ErrNotExist) then Ret (Err e)
      else match elements with
           | [] => Ret (Err e)
           | _ :: elements' => stat_missing rooted elements' ((rooted, elements) :: missing)
           end
  end.

(** The second loop. *)
Fixpoint make_missing (perm : Z) (missing : list path) : prog (result unit) :=
  match missing with
  | [] => Ret (Ok tt)
  | dirPath :: missing' =>
      do! r <- sys (Mkdir dirPath perm) in
      match r with
      | Err e =>
          if negb (errors_Is e fs_ErrExist) then Ret (Err e)
          else
            try! isDir <- sys (Stat dirPath) in
            if negb isDir then Ret (Err (path_error ENOTDIR))
            else make_missing perm missing'
      | Ok _ =>
          try! _ <- sys (Chmod dirPath perm) in
          make_missing perm missing'
      end
  end.

Definition ensureDirectory (p : path) (perm : Z) : prog (result unit) :=
  try! missing <- stat_missing p.1 p.2 [] in
  try! _ <- make_missing perm missing in
  syncDirectoryAncestors p.

Definition maxAttempts : nat := 128.

(** [fmt.Sprintf("%s%x", prefix, suffix)]. *)
Definition temp_name (prefix : string) (suffix : list byte) : string :=
  prefix +:+ hex_EncodeToString suffix.

Fixpoint create_attempts (attempts : nat) (dirPath : path) (prefix : string) (perm : Z)
  : prog (result (path * nat)) :=
  match attempts with
  | O => Ret (Err (Errorf "create temporary file: too many name collisions"))
  | S attempts' =>
      do! r <- sys (RandRead 16) in
      match r with
      | Err e => Ret (Err (Wrapf "read temporary file randomness" e))
      | Ok suffix =>
          let p := Join_path dirPath (temp_name prefix suffix) in
          do! r <- sys (OpenExcl p perm) in
          match r with
          | Ok file => Ret (Ok (p, file))
          | Err e =>
              if errors_Is e fs_ErrExist then create_attempts attempts' dirPath prefix perm
              else Ret (Err e)
          end
      end
  end.

Definition createTempFile (dirPath : path) (prefix : string) (perm : Z)
  : prog (result (path * nat)) :=
  create_attempts maxAttempts dirPath prefix perm.

(** The installation, by renaming over [p] or by linking. *)
Definition install_call (p tmpName : path) (overwrite : bool) : prog (result unit) :=
  if overwrite then sys (Rename tmpName p)
  else try! _ <- sys (Link tmpName p) in sys (Remove tmpName).

(** The body of [atomicWriteFile] after the temporary file exists: the error
    it returns and the value of [cleanup] then. *)
Definition install_temp (p tmpName : path) (tmp : nat) (data : list byte) (overwrite : bool)
  : prog (result unit * bool) :=
  do! r <- sys (WriteFile tmp data) in
  match r with
  | Err e => do! _ <- sys (CloseFile tmp) in Ret (Err e, true)
  | Ok _ =>
  do! r <- sys (SyncFile tmp) in
  match r with
  | Err e => do! _ <- sys (CloseFile tmp) in Ret (Err e, true)
  | Ok _ =>
  do! r <- sys (CloseFile tmp) in
  match r with
  | Err e => Ret (Err e, true)
  | Ok _ =>
  do! r <- install_call p tmpName overwrite in
  match r with
  | Err e => Ret (Err e, true)
  | Ok _ => do! r <- syncDirectory (Dir p) in Ret (r, false)
  end end end end.

(** The deferred function. *)
Definition deferred_remove (tmpName : path) (outcome : result unit * bool)
  : prog (result unit) :=
  let '(r, cleanup) := outcome in
  if cleanup then do! _ <- sys (Remove tmpName) in Ret r else Ret r.

Definition atomicWriteFile (p : path) (data : list byte) (perm : Z) (overwrite : bool)
  : prog (result unit) :=
  try! tmp <- createTempFile (Dir p) (Base p +:+ ".tmp-") perm in
  let '(tmpName, file) := tmp in
  do! outcome <- install_temp p tmpName file data overwrite in
  deferred_remove tmpName outcome.

(** The modes [0o755], [0o644], [0o700] and [0o600]. *)
Definition mode_755 : Z := 493.
Definition mode_644 : Z := 420.
Definition mode_700 : Z := 448.
Definition mode_600 : Z := 384.

(** [writeJSON], the members of the object being the value. *)
Definition writeJSON (p : path) (value : list (string * json)) : prog (result unit) :=
  try! _ <- ensureDirectory (Dir p) mode_755 in
  atomicWriteFile p (MarshalIndent value ++ [byte_of 10]) mode_644 true.

Definition readJSON {A} (p : path) (decode : json -> result A) : prog (result A) :=
  try! contents <- sys (ReadFile p) in
  Ret (let! value := Unmarshal_text contents in decode value).

(* ------------------------------------------------------------------ *)
(** ** The enclave runtime *)

Definition ErrPrivateKeyExists : error := Sentinel "tee.ErrPrivateKeyExists".
Definition ErrPrivateKeyUnavailable : error := Sentinel "tee.ErrPrivateKeyUnavailable".

(** [ego/enclave], [ego/ecrypto] and the key functions of go-ethereum's
    [crypto].  The first argument of a randomized function is the randomness
    it draws.  The laws are the documented round trips: a blob sealed by this
    enclave is unsealed by it, and a key is the 32 bytes of its scalar. *)
Class Enclave `{Ecdsa} : Type := {
  GetRemoteReport : list byte -> list byte -> result (list byte);
  SealWithUniqueKey : list byte -> list byte -> result (list byte);
  Unseal : list byte -> result (list byte);
  GenerateKey : list byte -> result PrivateKey;
  FromECDSA : PrivateKey -> list byte;
  ToECDSA : list byte -> result PrivateKey;
  Unseal_Seal : forall ent plain sealed,
    SealWithUniqueKey ent plain = Ok sealed -> Unseal sealed = Ok plain;
  ToECDSA_FromECDSA : forall key, ToECDSA (FromECDSA key) = Ok key;
}.

(** The text marshalers of [hexutil.Bytes] and [common.Address]. *)
Class HexText `{HexUtil} : Type := {
  hexutil_MarshalText : list byte -> string;
  Address_MarshalText : Z -> string;
  Address_UnmarshalText : string -> result Z;
  hexutil_text : forall bs, ascii_text (hexutil_MarshalText bs) /\
    hexutil_UnmarshalText (hexutil_MarshalText bs) = Ok bs;
  Address_text : forall a, is_address a -> ascii_text (Address_MarshalText a) /\
    Address_UnmarshalText (Address_MarshalText a) = Ok a;
}.

(* ------------------------------------------------------------------ *)
(** ** State files *)

Definition bootstrapInfoFilename : string := "bootstrap.gaiko2.json".
Definition registeredInfoFilename : string := "registered.gaiko2.json".
Definition attestationInfoFilename : string := "attestation.gaiko2.json".
Definition privateKeyFilename : string := "priv.gaiko2.key".
Definition TypeEGo : string := "ego".

Record BootstrapData := {
  bd_PublicKey : list byte;
  bd_InstanceAddress : Z;
  bd_Quote : list byte;
}.

Record AttestationMetadata := {
  am_UniqueID : string;
  am_SignerID : string;
  am_ProductID : Z;
  am_SecurityVersion : Z;
}.

(** A Go map of this type; [None] is the nil map. *)
Definition RegisteredForks : Type := option (gmap string Z).

(** A struct field: every member with its name is decoded over the last. *)
Definition decode_member {A} (dec : A -> json -> result A) (zero : A) (name : string)
  (members : list (string * json)) : result A :=
  for_fold (fun _ => dec) 0 zero (members_of name members).

(** Into a [string], and into an unsigned integer of [bits] bits; [null]
    leaves the field as it is. *)
Definition decode_string (s : string) (v : json) : result string :=
  match v with
  | JNull => Ok s
  | JStr s' => Ok s'
  | _ => Err unmarshal_error
  end.

Definition decode_uint (bits : Z) (n : Z) (v : json) : result Z :=
  match v with
  | JNull => Ok n
  | JNum literal => ParseUint literal 10 bits
  | _ => Err unmarshal_error
  end.

Definition encode_AttestationMetadata (data : AttestationMetadata) : list (string * json) :=
  [ ("unique_id", JStr (am_UniqueID data));
    ("signer_id", JStr (am_SignerID data));
    ("product_id", JNum (format_uint (am_ProductID data)));
    ("security_version", JNum (format_uint (am_SecurityVersion data))) ].

Definition decode_AttestationMetadata (v : json) : result AttestationMetadata :=
  let! members := struct_members (Some v) in
  let! uniqueID := decode_member decode_string "" "unique_id" members in
  let! signerID := decode_member decode_string "" "signer_id" members in
  let! productID := decode_member (decode_uint 32) 0 "product_id" members in
  let! securityVersion := decode_member (decode_uint 32) 0 "security_version" members in
  Ok {| am_UniqueID := uniqueID; am_SignerID := signerID; am_ProductID := productID;
        am_SecurityVersion := securityVersion |}.

(** [encoding/json] writes the keys of a map in increasing order. *)
Definition key_le (a b : string * Z) : Prop := is_true (String.leb a.1 b.1).

#[export] Instance key_le_dec : RelDecision key_le.
Proof. unfold key_le. intros a b. apply _. Defined.

Definition encode_RegisteredForks (forks : gmap string Z) : list (string * json) :=
  (fun kv => (kv.1, JNum (format_uint kv.2))) <$> merge_sort key_le (map_to_list forks).

(** Into a map: an element starts from its zero value. *)
Definition decode_RegisteredForks (v : json) : result RegisteredForks :=
  match v with
  | JNull => Ok None
  | JObj members =>
      let! forks := for_fold (fun _ forks kv =>
        let! n := decode_uint 64 0 kv.2 in Ok (<[kv.1 := n]> forks)) 0 ∅ members in
      Ok (Some forks)
  | _ => Err unmarshal_error
  end.

Definition SaveAttestationMetadata (configDir : string) (data : AttestationMetadata)
  : prog (result unit) :=
  writeJSON (Join_path (Clean configDir) attestationInfoFilename) (encode_AttestationMetadata data).

Definition LoadAttestationMetadata (configDir : string) : prog (result AttestationMetadata) :=
  readJSON (Join_path (Clean configDir) attestationInfoFilename) decode_AttestationMetadata.

Definition ReadAttestationMetadataFile (p : string) : prog (result AttestationMetadata) :=
  readJSON (Clean p) decode_AttestationMetadata.

Definition SaveRegisteredForks (configDir : string) (forks : RegisteredForks)
  : prog (result unit) :=
  writeJSON (Join_path (Clean configDir) registeredInfoFilename)
    (encode_RegisteredForks (default ∅ forks)).

Definition LoadRegisteredForks (configDir : string) : prog (result (gmap string Z)) :=
  try! forks <- readJSON (Join_path (Clean configDir) registeredInfoFilename)
    decode_RegisteredForks in
  Ret (Ok (default ∅ forks)).

(** [DefaultConfigDir] and [DefaultSecretDir], with the answer of
    [os.UserHomeDir]. *)
Definition defaultDir (userHomeDir : result string) (kind : string) : string :=
  match userHomeDir with
  | Ok homeDir =>
      if String.eqb homeDir "" then Join_strings ["."; kind]
      else Join_strings [homeDir; ".config"; "gaiko2"; kind]
  | Err _ => Join_strings ["."; kind]
  end.

Definition DefaultConfigDir (userHomeDir : result string) : string :=
  defaultDir userHomeDir "config".
Definition DefaultSecretDir (userHomeDir : result string) : string :=
  defaultDir userHomeDir "secrets".

(* ------------------------------------------------------------------ *)
(** ** The provider *)

Section Bootstrap.
Context `{Ecdsa} `{!Enclave} `{HexUtil} `{!HexText}.

(** Into [hexutil.Bytes] and [common.Address]: both refuse [null]. *)
Definition decode_bytes (_ : list byte) (v : json) : result (list byte) :=
  match v with JStr s => hexutil_UnmarshalText s | _ => Err unmarshal_error end.

Definition decode_address (_ : Z) (v : json) : result Z :=
  match v with JStr s => Address_UnmarshalText s | _ => Err unmarshal_error end.

Definition encode_BootstrapData (data : BootstrapData) : list (string * json) :=
  [ ("public_key", JStr (hexutil_MarshalText (bd_PublicKey data)));
    ("new_instance", JStr (Address_MarshalText (bd_InstanceAddress data)));
    ("quote", JStr (hexutil_MarshalText (bd_Quote data))) ].

Definition decode_BootstrapData (v : json) : result BootstrapData :=
  let! members := struct_members (Some v) in
  let! publicKey := decode_member decode_bytes [] "public_key" members in
  let! instanceAddress := decode_member decode_address 0 "new_instance" members in
  let! quote := decode_member decode_bytes [] "quote" members in
  Ok {| bd_PublicKey := publicKey; bd_InstanceAddress := instanceAddress;
        bd_Quote := quote |}.

Definition bootstrap_path (configDir : string) : path :=
  Join_path (Clean configDir) bootstrapInfoFilename.

Definition SaveBootstrapData (configDir : string) (data : BootstrapData)
  : prog (result unit) :=
  writeJSON (bootstrap_path configDir) (encode_BootstrapData data).

Definition LoadBootstrapData (configDir : string) : prog (result BootstrapData) :=
  readJSON (bootstrap_path configDir) decode_BootstrapData.

(** The interface [Provider]. *)
Record Provider := {
  pv_LoadQuote : Z -> prog (result (list byte));
  pv_LoadPrivateKey : prog (result PrivateKey);
  pv_SavePrivateKey : PrivateKey -> bool -> prog (result unit);
  pv_HasPrivateKey : prog (result bool);
}.

(** [*EGoProvider] and its methods. *)
Definition key_path (secretDir : string) : path := Join_path (Clean secretDir) privateKeyFilename.

Definition LoadQuote (instance : Z) : prog (result (list byte)) :=
  do! ent <- sys Entropy in
  Ret (let! report := GetRemoteReport ent (Address_Bytes instance) in
       reject_if (length report <? 16)%nat (Errorf "unexpected report length") ;;!
       Ok (drop 16 report)).

Definition HasPrivateKey (secretDir : string) : prog (result bool) :=
  do! r <- sys (Stat (key_path secretDir)) in
  Ret (match r with
       | Err e => if errors_Is e fs_ErrNotExist then Ok false else Err e
       | Ok _ => Ok true
       end).

Definition LoadPrivateKey (secretDir : string) : prog (result PrivateKey) :=
  try! sealedText <- sys (ReadFile (key_path secretDir)) in
  Ret (let! plainText := Unseal sealedText in ToECDSA plainText).

Definition SavePrivateKey (secretDir : string) (privKey : PrivateKey) (overwrite : bool)
  : prog (result unit) :=
  do! ent <- sys Entropy in
  try! sealedText <- Ret (SealWithUniqueKey ent (FromECDSA privKey)) in
  try! _ <- ensureDirectory (Clean secretDir) mode_700 in
  map_result (fun r =>
      match r with
      | Err e => if negb overwrite && errors_Is e fs_ErrExist then Err ErrPrivateKeyExists
                 else Err e
      | Ok u => Ok u
      end)
    (atomicWriteFile (key_path secretDir) sealedText mode_600 overwrite).

Definition NewEGoProvider (secretDir : string) : Provider := {|
  pv_LoadQuote := LoadQuote;
  pv_LoadPrivateKey := LoadPrivateKey secretDir;
  pv_SavePrivateKey := SavePrivateKey secretDir;
  pv_HasPrivateKey := HasPrivateKey secretDir |}.

Record TeeConfig := { tc_Type : string; tc_SecretDir : string }.

Definition NewProvider (cfg : TeeConfig) : result Provider :=
  let providerType := ToLower (TrimSpace (tc_Type cfg)) in
  let providerType := if String.eqb providerType "" then TypeEGo else providerType in
  if String.eqb providerType TypeEGo then
    reject_if (String.eqb (TrimSpace (tc_SecretDir cfg)) "")
      (Errorf "tee secret dir is required for provider") ;;!
    Ok (NewEGoProvider (tc_SecretDir cfg))
  else Err (Errorf "unsupported tee type").

(* ------------------------------------------------------------------ *)
(** ** Bootstrap *)

Definition bootstrapData (provider : Provider) (privateKey : PrivateKey)
  : prog (result BootstrapData) :=
  let publicKey := key_PublicKey privateKey in
  let instanceAddress := PubkeyToAddress publicKey in
  map_result (fun r =>
      let! quote := wrap_err "load tee quote" r in
      Ok {| bd_PublicKey := FromECDSAPub publicKey;
            bd_InstanceAddress := instanceAddress;
            bd_Quote := quote |})
    (pv_LoadQuote provider instanceAddress).

Definition Bootstrap (provider : Provider) (force : bool) : prog (result BootstrapData) :=
  try! exists_ <-
    (if force then Ret (Ok false)
     else map_result (wrap_err "check existing tee private key") (pv_HasPrivateKey provider)) in
  if (exists_ : bool) then Ret (Err ErrPrivateKeyExists)
  else
    do! ent <- sys Entropy in
    try! privateKey <- Ret (wrap_err "generate tee private key" (GenerateKey ent)) in
    try! data <- bootstrapData provider privateKey in
    try! _ <- map_result (wrap_err "save tee private key")
      (pv_SavePrivateKey provider privateKey force) in
    Ret (Ok data).

(** Whether the saved data describes the key. *)
Definition describes (data : BootstrapData) (privateKey : PrivateKey) : bool :=
  bool_decide (bd_InstanceAddress data = PubkeyToAddress (key_PublicKey privateKey)) &&
  bool_decide (bd_PublicKey data = FromECDSAPub (key_PublicKey privateKey)) &&
  (0 <? length (bd_Quote data))%nat.

Definition BootstrapDataForExistingKey (provider : Provider) (configDir : string)
  : prog (result (BootstrapData * bool)) :=
  try! privateKey <- map_result (fun r =>
      match r with
      | Ok key => Ok key
      | Err e => Err (Prelude.Join ErrPrivateKeyUnavailable e)
      end) (pv_LoadPrivateKey provider) in
  let rebuild :=
    map_result (fun r => let! data := wrap_err "rebuild bootstrap data" r in Ok (data, false))
      (bootstrapData provider privateKey) in
  do! loaded <- LoadBootstrapData configDir in
  match loaded with
  | Ok existing => if describes existing privateKey then Ret (Ok (existing, true)) else rebuild
  | Err loadErr =>
      if errors_As loadErr "os.PathError" && negb (errors_Is loadErr fs_ErrNotExist)
      then Ret (Err (Wrapf "load existing bootstrap data" loadErr))
      else rebuild
  end.

Definition Check (provider : Provider) : prog (result unit) :=
  map_result (fun r => let! _ := r in Ok tt) (pv_LoadPrivateKey provider).
End Bootstrap.
