(* ===== verification/AtomicFile.v ===== *)
(** * Writers of one file

    Any number of processes write the file [target] with [atomicWriteFile],
    after [ensureDirectory] or not, while calls fail at random and the machine
    may stop between any two calls.  [writer_step] is what one writer
    guarantees at every call; [Rely] turns it into facts about all
    interleavings. *)

From Stdlib Require Import Ascii.
From S2P Require Import Prelude Bytes GoStd FileSystem Rely External Json JsonText Tee.
From stdpp Require Import relations.

#[local] Open Scope general_if_scope.
#[local] Open Scope string_scope.
#[local] Open Scope list_scope.

(* ------------------------------------------------------------------ *)
(** ** Names *)

Lemma versions_push fs p v q :
  versions (push fs p v) q = if decide (p = q) then v :: versions fs p else versions fs q.
Proof.
  unfold versions at 1. cbn [push fs_names]. destruct (decide (p = q)) as [->|Hne].
  - by rewrite lookup_insert_eq.
  - by rewrite lookup_insert_ne.
Qed.

Lemma lookup_push fs p v q :
  lookup_name (push fs p v) q = if decide (p = q) then v else lookup_name fs q.
Proof. unfold lookup_name. rewrite versions_push. by destruct (decide (p = q)). Qed.

Lemma versions_sync fs p q :
  versions (do_SyncDir fs p) q =
  if decide (Dir q = p) then take 1 (versions fs q) else versions fs q.
Proof.
  unfold versions, do_SyncDir. cbn [fs_names]. rewrite map_lookup_imap.
  destruct (fs_names fs !! q) as [vs|]; cbn [mbind option_bind default].
  - destruct (decide (Dir q = p)).
    + by rewrite bool_decide_true.
    + by rewrite bool_decide_false.
  - by destruct (decide (Dir q = p)).
Qed.

Lemma lookup_sync fs p q : lookup_name (do_SyncDir fs p) q = lookup_name fs q.
Proof.
  unfold lookup_name. rewrite versions_sync. destruct (decide (Dir q = p)); [|done].
  by destruct (versions fs q).
Qed.

Lemma lookup_in_versions fs p e : lookup_name fs p = Some e -> Some e ∈ versions fs p.
Proof. unfold lookup_name. destruct (versions fs p); [done|]. intros ->. left. Qed.

Lemma exists_name_false fs p : exists_name fs p = false -> lookup_name fs p = None.
Proof.
  unfold exists_name, do_Stat. destruct (is_dir fs p); [done|].
  by destruct (lookup_name fs p).
Qed.

Lemma is_dir_lookup fs p : is_dir fs p = false -> forall perm, lookup_name fs p <> Some (DirEntry perm).
Proof. unfold is_dir. intros Hd perm E. rewrite E in Hd. by destruct p.2. Qed.

(** Temporary names stand beside the target and differ from it. *)
Lemma temp_name_dir p prefix suffix :
  Dir (Join_path (Dir p) (temp_name prefix suffix)) = Dir p.
Proof. done. Qed.

Lemma string_length_app a b : String.length (a +:+ b) = (String.length a + String.length b)%nat.
Proof. induction a as [|c a IH]; simpl; [done|]. by rewrite IH. Qed.

Lemma temp_name_ne p suffix : Join_path (Dir p) (temp_name (Base p +:+ ".tmp-") suffix) <> p.
Proof.
  destruct p as [rooted [|e es]]; unfold Join_path, Dir, Base, temp_name; cbn [fst snd tail].
  - intros [=].
  - intros [= He]. apply (f_equal String.length) in He. revert He.
    rewrite !string_length_app. simpl. lia.
Qed.

(* ------------------------------------------------------------------ *)
(** ** What one writer does at one call *)

Definition same_file (f f' : inode) : Prop :=
  in_data f' = in_data f /\ in_synced f' = in_synced f /\ in_opener f' = in_opener f.

Lemma same_file_refl f : same_file f f.
Proof. done. Qed.

Section Writers.
Context (target : path).

(** A complete file of process [who], with content in [D], on the disk. *)
Definition finished (who : nat) (D : list byte -> Prop) (fs : FS) (n : nat) : Prop :=
  exists f, fs_inodes fs !! n = Some f /\ in_opener f = Some who /\
            in_synced f = true /\ D (in_data f).

(** [excl]: the step only creates the target, it does not replace it. *)
Record writer_step (excl : bool) (who : nat) (D : list byte -> Prop) (fs fs' : FS) : Prop := {
  ws_files : forall n f, fs_inodes fs !! n = Some f ->
    in_opener f <> Some who \/ Some (FileEntry n) ∈ versions fs target ->
    exists f', fs_inodes fs' !! n = Some f' /\ same_file f f';
  ws_new : forall n f', fs_inodes fs' !! n = Some f' ->
    is_Some (fs_inodes fs !! n) \/ in_opener f' = Some who;
  ws_grow : length (fs_inodes fs) <= length (fs_inodes fs');
  ws_names : forall p n f, p <> target -> Dir p = Dir target ->
    lookup_name fs p = Some (FileEntry n) -> fs_inodes fs !! n = Some f ->
    in_opener f <> Some who -> lookup_name fs' p = Some (FileEntry n);
  ws_target : forall v, v ∈ versions fs' target ->
    v ∈ versions fs target \/
    exists n, v = Some (FileEntry n) /\ finished who D fs' n /\
              (excl = true -> lookup_name fs target = None);
  ws_current : lookup_name fs' target = lookup_name fs target \/
    (exists n, lookup_name fs' target = Some (FileEntry n) /\ finished who D fs' n /\
               (excl = true -> lookup_name fs target = None));
}.

(** Every entry of the target is a file that exists, or a directory. *)
Definition entries_exist (fs : FS) : Prop :=
  forall n, Some (FileEntry n) ∈ versions fs target -> is_Some (fs_inodes fs !! n).

(** What the other processes do. *)
Definition others (excl : bool) (who : nat) (fs fs' : FS) : Prop :=
  exists i D, i <> who /\ writer_step excl i D fs fs'.

(** The process owns the temporary file [n] under the name [tmp], and it is
    not installed. *)
Record owns (who : nat) (tmp : path) (n : nat) (data : list byte) (synced : bool) (fs : FS)
  : Prop := {
  ow_name : lookup_name fs tmp = Some (FileEntry n);
  ow_file : exists f, fs_inodes fs !! n = Some f /\ in_data f = data /\
    in_synced f = synced /\ in_opener f = Some who;
  ow_out : ~ Some (FileEntry n) ∈ versions fs target;
  ow_exist : entries_exist fs;
}.

(** The name [tmp] leads to a file of the process, or nowhere. *)
Definition own_name (who : nat) (tmp : path) (fs : FS) : Prop :=
  entries_exist fs /\
  exists n f, lookup_name fs tmp = Some (FileEntry n) /\ fs_inodes fs !! n = Some f /\
              in_opener f = Some who.

(** The process installed file [n] with content [data]. *)
Definition installed (who n : nat) (data : list byte) (fs : FS) : Prop :=
  lookup_name fs target = Some (FileEntry n) /\ finished who (eq data) fs n.

(** ... and the directory was synced since. *)
Definition durable (who n : nat) (data : list byte) (fs : FS) : Prop :=
  installed who n data fs /\
  forall v, v ∈ versions fs target -> v = Some (FileEntry n).

Section Process.
Context (who : nat).

Lemma entries_exist_step excl i D fs fs' :
  writer_step excl i D fs fs' -> entries_exist fs -> entries_exist fs'.
Proof.
  intros Hw He n Hn. destruct (ws_target _ _ _ _ _ Hw _ Hn) as [Hin|(m & Hm & Hf & _)].
  - destruct (He n Hin) as [f Hf].
    destruct (ws_files _ _ _ _ _ Hw n f Hf ltac:(by right)) as (f' & -> & _). done.
  - simplify_eq. destruct Hf as (f & -> & _). done.
Qed.

Lemma stable_exist excl : stable (others excl who) entries_exist.
Proof. intros fs fs' He (i & D & _ & Hw). by eapply entries_exist_step. Qed.

(** A file of the process is untouched by the others. *)
Lemma own_file_step excl i D fs fs' n f :
  i <> who -> writer_step excl i D fs fs' -> fs_inodes fs !! n = Some f ->
  in_opener f = Some who ->
  exists f', fs_inodes fs' !! n = Some f' /\ same_file f f'.
Proof.
  intros Hne Hw Hf Ho. apply (ws_files _ _ _ _ _ Hw n f Hf). left. congruence.
Qed.

Lemma stable_owns excl tmp n data synced :
  tmp <> target -> Dir tmp = Dir target ->
  stable (others excl who) (owns who tmp n data synced).
Proof.
  intros Ht Hd fs fs' [Hname (f & Hf & Hdata & Hs & Ho) Hout He] (i & D & Hne & Hw).
  destruct (own_file_step _ _ _ _ _ _ _ Hne Hw Hf Ho) as (f' & Hf' & Hd' & Hs' & Ho').
  split.
  - eapply (ws_names _ _ _ _ _ Hw); [done..|]. congruence.
  - exists f'. split_and!; congruence.
  - intros Hin. destruct (ws_target _ _ _ _ _ Hw _ Hin) as [|(m & Hm & (g & Hg & Hgo & _) & _)];
      [done|]. simplify_eq. congruence.
  - by eapply entries_exist_step.
Qed.

Lemma stable_own_name excl tmp :
  tmp <> target -> Dir tmp = Dir target -> stable (others excl who) (own_name who tmp).
Proof.
  intros Ht Hd fs fs' [He (n & f & Hname & Hf & Ho)] (i & D & Hne & Hw).
  destruct (own_file_step _ _ _ _ _ _ _ Hne Hw Hf Ho) as (f' & Hf' & _ & _ & Ho').
  split; [by eapply entries_exist_step|]. exists n, f'. split; [|split; [done|congruence]].
  eapply (ws_names _ _ _ _ _ Hw); [done..|]. congruence.
Qed.

(** When the others only create the target, what is installed stays. *)
Lemma finished_step excl i D E fs fs' n :
  i <> who -> writer_step excl i D fs fs' -> finished who E fs n -> finished who E fs' n.
Proof.
  intros Hne Hw (f & Hf & Ho & Hs & HE).
  destruct (own_file_step _ _ _ _ _ _ _ Hne Hw Hf Ho) as (f' & Hf' & Hd' & Hs' & Ho').
  exists f'. split_and!; congruence.
Qed.

Lemma stable_installed n data : stable (others true who) (installed who n data).
Proof.
  intros fs fs' [Hl Hf] (i & D & Hne & Hw). split; [|by eapply finished_step].
  destruct (ws_current _ _ _ _ _ Hw) as [->|(m & _ & _ & Hx)]; [done|].
  rewrite Hx in Hl by done. done.
Qed.

Lemma stable_durable n data : stable (others true who) (durable who n data).
Proof.
  intros fs fs' [Hi Hall] Ho. split; [by eapply stable_installed|].
  destruct Ho as (i & D & Hne & Hw). intros v Hv.
  destruct (ws_target _ _ _ _ _ Hw v Hv) as [|(m & _ & _ & Hx)]; [by apply Hall|].
  destruct Hi as [Hl _]. rewrite Hx in Hl by done. done.
Qed.

Lemma stable_and R (P P' : FS -> Prop) :
  stable R P -> stable R P' -> stable R (fun fs => P fs /\ P' fs).
Proof. intros H H' fs fs' []. split; eauto. Qed.

Lemma stable_True R : stable R (fun _ => True).
Proof. done. Qed.

Lemma stable_less (R R' : relation_on_fs) P :
  (forall fs fs', R fs fs' -> R' fs fs') -> stable R' P -> stable R P.
Proof. intros HR Hst fs fs' HP Hr. eapply Hst; eauto. Qed.
End Process.

(* ------------------------------------------------------------------ *)
(** ** Calls that do not concern the target *)

Lemma writer_refl excl i D fs : writer_step excl i D fs fs.
Proof.
  split; eauto using same_file_refl.
Qed.

(** A name other than the target changes, and it did not lead to a file of
    somebody else. *)
Lemma writer_push excl i D fs p v :
  p <> target ->
  (forall n f, lookup_name fs p = Some (FileEntry n) -> fs_inodes fs !! n = Some f ->
     in_opener f = Some i) ->
  writer_step excl i D fs (push fs p v).
Proof.
  intros Hp Hown. split; cbn [push fs_inodes].
  - eauto using same_file_refl.
  - eauto.
  - done.
  - intros q n f Hq Hd Hl Hf Ho. rewrite lookup_push. destruct (decide (p = q)) as [<-|]; [|done].
    by specialize (Hown n f Hl Hf).
  - intros w. rewrite versions_push, decide_False by done. by left.
  - left. by rewrite lookup_push, decide_False.
Qed.

Lemma writer_sync excl i D fs p : writer_step excl i D fs (do_SyncDir fs p).
Proof.
  split; cbn [do_SyncDir fs_inodes].
  - eauto using same_file_refl.
  - eauto.
  - done.
  - intros. by rewrite lookup_sync.
  - intros v. rewrite versions_sync. destruct (decide _); [|by left].
    intros Hv. left. by eapply elem_of_take in Hv as (k & Hk & _); eapply list_elem_of_lookup_2.
  - left. apply lookup_sync.
Qed.

(** A change of the permissions of a file. *)
Lemma writer_perm excl i D fs n f f' :
  fs_inodes fs !! n = Some f -> same_file f f' ->
  writer_step excl i D fs (set_inode fs n f').
Proof.
  intros Hf Hsame. split; cbn [set_inode fs_inodes].
  - intros m g Hg _. destruct (decide (n = m)) as [<-|Hne].
    + exists f'. rewrite list_lookup_insert_eq by (by eapply lookup_lt_Some).
      by simplify_eq.
    + exists g. by rewrite list_lookup_insert_ne.
  - intros m g Hg. left. apply lookup_lt_is_Some. apply lookup_lt_Some in Hg.
    by rewrite length_insert in Hg.
  - by rewrite length_insert.
  - done.
  - by left.
  - by left.
Qed.

Definition quiet_call {B} (c : call B) : Prop :=
  match c with
  | Mkdir p _ | Chmod p _ => p <> target
  | Stat _ | CloseFile _ | ReadFile _ | OpenDir _ | SyncDir _ | RandRead _ | Entropy | Print _ _ => True
  | _ => False
  end.

Ltac no_change := intros; simplify_eq/=; apply writer_refl.

(** Such a call is a step of any writer. *)
Lemma quiet_step {B} excl i D who ch (c : call B) fs b fs' :
  quiet_call c -> handle who ch c fs = (b, fs') -> writer_step excl i D fs fs'.
Proof.
  destruct c; cbn [quiet_call handle]; try done; unfold guarded;
    try (destruct (ch_fault ch); no_change; fail); try no_change.
  - intros Hp. destruct (ch_fault ch); [no_change|]. unfold do_Mkdir.
    destruct (exists_name fs p) eqn:He; [no_change|].
    destruct (negb (is_dir fs (Dir p))); [no_change|].
    intros [= _ <-]. apply writer_push; [done|]. apply exists_name_false in He. congruence.
  - intros Hp. destruct (ch_fault ch); [no_change|]. unfold do_Chmod.
    destruct (lookup_name fs p) as [[perm'|n]|] eqn:Hl; [| |no_change].
    + intros [= _ <-]. apply writer_push; [done|]. congruence.
    + destruct (fs_inodes fs !! n) as [f|] eqn:Hf; [|no_change].
      intros [= _ <-]. by eapply writer_perm.
  - intros _. destruct (ch_fault ch); [no_change|]. intros [= _ <-]. apply writer_sync.
  - intros _. destruct (ch_fault ch); [no_change|]. intros [= _ <-].
    split; eauto using same_file_refl.
Qed.

(** A program of such calls. *)
Fixpoint quiet {A} (m : prog A) : Prop :=
  match m with
  | Ret _ => True
  | Call c k => quiet_call c /\ forall b, quiet (k b)
  end.

Lemma quiet_bind {A B} (m : prog A) (k : A -> prog B) :
  quiet m -> (forall a, quiet (k a)) -> quiet (bind m k).
Proof. induction m as [a|C c h IH]; simpl; naive_solver. Qed.

Lemma quiet_bind_ok {A B} (m : prog (result A)) (k : A -> prog (result B)) :
  quiet m -> (forall a, quiet (k a)) -> quiet (bind_ok m k).
Proof. intros Hm Hk. apply quiet_bind; [done|]. by intros []. Qed.

Lemma quiet_sys {B} (c : call B) : quiet_call c -> quiet (sys c).
Proof. done. Qed.

(** It keeps whatever [R] keeps, if [R] has the steps every writer may take. *)
Lemma quiet_guarantees_in {A} R excl e who D (P : FS -> Prop) (m : prog A) :
  (forall fs fs', (forall i E, writer_step excl i E fs fs') -> R fs fs') ->
  stable R P -> quiet m ->
  guarantees who R (writer_step e who D) P m (fun _ => P).
Proof.
  intros HR Hst. induction m as [a|B c k IH]; simpl; [done|].
  intros [Hc Hk] ch fs b fs' HP Hh. split; [by eapply quiet_step|]. exists P.
  split; [done|]. split; [|by apply IH].
  eapply Hst; [exact HP|]. apply HR. intros i E. by eapply quiet_step.
Qed.

Lemma others_quiet excl who fs fs' :
  (forall i E, writer_step excl i E fs fs') -> others excl who fs fs'.
Proof. intros Hw. exists (S who), (fun _ => True). split; [lia|done]. Qed.

(** It keeps whatever the steps of the other processes keep. *)
Lemma quiet_guarantees {A} excl e who D (P : FS -> Prop) (m : prog A) :
  stable (others excl who) P -> quiet m ->
  guarantees who (others excl who) (writer_step e who D) P m (fun _ => P).
Proof. eapply quiet_guarantees_in. intros fs fs'. apply others_quiet. Qed.

Lemma writer_step_weaken i D fs fs' : writer_step true i D fs fs' -> writer_step false i D fs fs'.
Proof.
  intros [Hf Hn Hg Hp Ht Hc]. split; try done.
  - intros v Hv. destruct (Ht v Hv) as [|(n & ? & ? & _)]; [by left|].
    right. exists n. by split_and!.
  - destruct Hc as [|(n & ? & ? & _)]; [by left|]. right. exists n. by split_and!.
Qed.

(* ------------------------------------------------------------------ *)
(** ** The calls on the temporary file *)

Section Calls.
Context (who : nat) (excl : bool) (D : list byte -> Prop).

Lemma open_step e ch fs p perm b fs' :
  p <> target -> Dir p = Dir target -> entries_exist fs ->
  handle who ch (OpenExcl p perm) fs = (b, fs') ->
  writer_step e who D fs fs' /\
  match b with Ok n => owns who p n [] false fs' | Err _ => entries_exist fs' end.
Proof.
  intros Hp Hd He. cbn [handle]. unfold guarded, do_OpenExcl.
  destruct (ch_fault ch); [by intros [= <- <-]; auto using writer_refl|].
  destruct (exists_name fs p) eqn:Hx; [by intros [= <- <-]; auto using writer_refl|].
  destruct (negb (is_dir fs (Dir p))); [by intros [= <- <-]; auto using writer_refl|].
  intros [= <- <-]. apply exists_name_false in Hx.
  set (i := length (fs_inodes fs)). set (f0 := {| in_data := []; in_synced := false;
    in_perm := with_perm fs perm; in_opener := Some who |}).
  match goal with |- writer_step _ _ _ _ ?s /\ _ => set (fs1 := s) end.
  assert (Hl : forall q, lookup_name fs1 q = lookup_name (push fs p (Some (FileEntry i))) q) by done.
  assert (Hv : forall q, versions fs1 q = versions (push fs p (Some (FileEntry i))) q) by done.
  assert (Hi : forall n f, fs_inodes fs !! n = Some f -> fs_inodes fs1 !! n = Some f).
  { intros n f Hf. cbn. by apply lookup_app_l_Some. }
  assert (Ht : versions fs1 target = versions fs target).
  { by rewrite Hv, versions_push, decide_False. }
  assert (Hnew : fs_inodes fs1 !! i = Some f0).
  { cbn. by apply list_lookup_middle. }
  split; [split|split].
  - intros n f Hf _. exists f. split; [by apply Hi|done].
  - intros n f Hf. cbn in Hf. apply lookup_app_Some in Hf as [Hf|[_ Hf]]; [by left|].
    right. by apply list_lookup_singleton_Some in Hf as [_ <-].
  - cbn. rewrite length_app. lia.
  - intros q n f Hq Hdq Hq' Hf Ho. rewrite Hl, lookup_push.
    destruct (decide (p = q)) as [<-|]; [congruence|done].
  - intros v. rewrite Ht. by left.
  - left. by rewrite Hl, lookup_push, decide_False.
  - by rewrite Hl, lookup_push, decide_True.
  - by exists f0.
  - rewrite Ht. intros Hin. destruct (He _ Hin) as [f Hf]. apply lookup_lt_Some in Hf. lia.
  - intros n. rewrite Ht. intros Hin. destruct (He n Hin) as [f Hf]. exists f. by apply Hi.
Qed.

(** A change of the own temporary file: its content or its state on disk. *)
Lemma own_file_change e fs tmp n data synced f f' :
  tmp <> target -> owns who tmp n data synced fs -> fs_inodes fs !! n = Some f ->
  in_opener f' = Some who ->
  writer_step e who D fs (set_inode fs n f') /\
  owns who tmp n (in_data f') (in_synced f') (set_inode fs n f').
Proof.
  intros Ht [Hname (g & Hg & _ & _ & Hgo) Hout He] Hf Ho. simplify_eq.
  assert (Hlt : n < length (fs_inodes fs)) by (by eapply lookup_lt_Some).
  split; [split|split]; cbn [set_inode fs_inodes].
  - intros m h Hh Hcase. destruct (decide (n = m)) as [<-|Hne].
    + simplify_eq. by destruct Hcase.
    + exists h. by rewrite list_lookup_insert_ne.
  - intros m h Hh. apply list_lookup_insert_Some in Hh as [(<- & <- & _)|(_ & Hh)]; eauto.
  - by rewrite length_insert.
  - done.
  - by left.
  - by left.
  - done.
  - exists f'. by rewrite list_lookup_insert_eq.
  - done.
  - intros m Hm. cbn [set_inode fs_inodes]. apply lookup_lt_is_Some. rewrite length_insert.
    by apply lookup_lt_is_Some, He.
Qed.

Lemma write_step e ch fs tmp n data b fs' :
  tmp <> target -> owns who tmp n [] false fs ->
  handle who ch (WriteFile n data) fs = (b, fs') ->
  writer_step e who D fs fs' /\
  match b with Ok _ => owns who tmp n data false fs' | Err _ => own_name who tmp fs' end.
Proof.
  intros Ht Hown. pose proof Hown as [Hname (f & Hf & Hdata & _ & Ho) _ _].
  cbn [handle]. unfold do_Write, append_data. rewrite Hf, Hdata. cbn [app].
  pose proof (fun d => own_file_change e fs tmp n [] false f
    {| in_data := d; in_synced := false; in_perm := in_perm f; in_opener := in_opener f |}
    Ht Hown Hf Ho) as Hch. cbn [in_data in_synced] in Hch.
  destruct (ch_fault ch); intros [= <- <-]; destruct (Hch (take (ch_partial ch) data)) as [Hw1 Ho1];
    destruct (Hch data) as [Hw2 Ho2]; split; try done.
  destruct Ho1 as [? (f1 & ? & ? & ? & ?) ? ?]. split; [done|]. by exists n, f1.
Qed.

Lemma owns_name tmp n data synced fs : owns who tmp n data synced fs -> own_name who tmp fs.
Proof. intros [? (f & ? & ? & ? & ?) ? ?]. split; [done|]. by exists n, f. Qed.

Lemma sync_step e ch fs tmp n data b fs' :
  tmp <> target -> owns who tmp n data false fs ->
  handle who ch (SyncFile n) fs = (b, fs') ->
  writer_step e who D fs fs' /\
  match b with Ok _ => owns who tmp n data true fs' | Err _ => own_name who tmp fs' end.
Proof.
  intros Ht Hown. pose proof Hown as [Hname (f & Hf & Hdata & _ & Ho) _ _].
  cbn [handle]. unfold guarded, do_Sync. rewrite Hf.
  destruct (ch_fault ch).
  { intros [= <- <-]. split; [apply writer_refl|]. by eapply owns_name. }
  pose proof (own_file_change e fs tmp n data false f
    {| in_data := in_data f; in_synced := true; in_perm := in_perm f; in_opener := in_opener f |}
    Ht Hown Hf Ho) as [Hw Ho1]. cbn [in_data in_synced] in Ho1.
  intros [= <- <-]. split; [done|]. by rewrite <- Hdata.
Qed.

(** The target is set to the own file. *)
Lemma writer_install e fs tmp n data :
  D data -> owns who tmp n data true fs ->
  (e = true -> lookup_name fs target = None) ->
  writer_step e who D fs (push fs target (Some (FileEntry n))) /\
  installed who n data (push fs target (Some (FileEntry n))).
Proof.
  intros HD [Hname (f & Hf & Hdata & Hs & Ho) Hout He] Hx.
  assert (Hfin : finished who D (push fs target (Some (FileEntry n))) n).
  { exists f. split_and!; try done. by rewrite Hdata. }
  assert (Hl : lookup_name (push fs target (Some (FileEntry n))) target = Some (FileEntry n)).
  { by rewrite lookup_push, decide_True. }
  split; [split|split]; cbn [push fs_inodes].
  - eauto using same_file_refl.
  - eauto.
  - done.
  - intros q m g Hq Hd Hl' _ _. by rewrite lookup_push, decide_False.
  - intros v. rewrite versions_push, decide_True by done.
    intros [->|Hv]%elem_of_cons; [right; by exists n|by left].
  - right. by exists n.
  - done.
  - by exists f.
Qed.

Lemma own_name_push tmp n data fs v :
  tmp <> target -> owns who tmp n data true fs ->
  writer_step false who D (push fs target v) (push (push fs target v) tmp None).
Proof.
  intros Ht [Hname (f & Hf & _ & _ & Ho) _ _]. apply writer_push; [done|].
  intros m g. rewrite lookup_push, decide_False, Hname by done. intros [= <-].
  cbn [push fs_inodes]. congruence.
Qed.

Lemma writer_trans e fs fs1 fs2 :
  writer_step e who D fs fs1 -> writer_step e who D fs1 fs2 ->
  lookup_name fs2 target = lookup_name fs1 target ->
  (forall v, v ∈ versions fs2 target -> v ∈ versions fs1 target) ->
  fs_inodes fs2 = fs_inodes fs1 ->
  writer_step e who D fs fs2.
Proof.
  intros [Hf Hn Hg Hp Ht Hc] [Hf2 _ _ Hp2 _ _] Hl Hv Hi.
  assert (Hfin : forall n, finished who D fs1 n -> finished who D fs2 n).
  { intros n (f & ? & ? & ? & ?). exists f. by rewrite Hi. }
  split; rewrite ?Hi; try done.
  - intros p n f Hpt Hd Hlk Hfn Ho. destruct (Hf n f Hfn ltac:(by left)) as (f' & Hf' & _ & _ & Ho').
    eapply Hp2; [done|done|by eapply Hp|exact Hf'|congruence].
  - intros v Hin. destruct (Ht v (Hv v Hin)) as [|(n & ? & ? & ?)]; [by left|].
    right. exists n. split_and!; auto.
  - rewrite Hl. destruct Hc as [|(n & ? & ? & ?)]; [by left|]. right. exists n. split_and!; auto.
Qed.

Lemma rename_step ch fs tmp n data b fs' :
  tmp <> target -> D data -> owns who tmp n data true fs ->
  handle who ch (Rename tmp target) fs = (b, fs') ->
  writer_step false who D fs fs' /\
  match b with
  | Ok _ => entries_exist fs' /\ installed who n data fs'
  | Err _ => own_name who tmp fs'
  end.
Proof.
  intros Ht HD Hown. pose proof Hown as [Hname _ Hout He].
  assert (Herr : writer_step false who D fs fs /\ own_name who tmp fs).
  { split; [apply writer_refl|by eapply owns_name]. }
  cbn [handle]. unfold guarded, do_Rename. rewrite Hname.
  destruct (ch_fault ch); [by intros [= <- <-]|].
  destruct (is_dir fs target); [by intros [= <- <-]|].
  destruct (negb (is_dir fs (Dir target))); [by intros [= <- <-]|].
  rewrite bool_decide_false by (intros Hl%lookup_in_versions; done).
  intros [= <- <-]. destruct (writer_install false fs tmp n data HD Hown ltac:(done)) as [Hw Hin].
  pose proof (own_name_push tmp n data fs (Some (FileEntry n)) Ht Hown) as Hw2.
  assert (Hst : writer_step false who D fs (push (push fs target (Some (FileEntry n))) tmp None)).
  { eapply writer_trans; [exact Hw|exact Hw2| |intros v|done].
    - by rewrite lookup_push, decide_False.
    - by rewrite versions_push, decide_False. }
  split; [done|]. split; [by eapply entries_exist_step|].
  destruct Hin as [Hl Hf]. split; [by rewrite lookup_push, decide_False|done].
Qed.

Lemma link_step ch fs tmp n data b fs' :
  tmp <> target -> D data -> owns who tmp n data true fs ->
  handle who ch (Link tmp target) fs = (b, fs') ->
  writer_step true who D fs fs' /\ own_name who tmp fs' /\
  (b = Ok tt -> installed who n data fs').
Proof.
  intros Ht HD Hown. pose proof Hown as [Hname _ Hout He].
  assert (Herr : writer_step true who D fs fs /\ own_name who tmp fs).
  { split; [apply writer_refl|by eapply owns_name]. }
  cbn [handle]. unfold guarded, do_Link. rewrite Hname.
  destruct (ch_fault ch); [intros [= <- <-]; by destruct Herr|].
  destruct (exists_name fs target) eqn:Hx; [intros [= <- <-]; by destruct Herr|].
  destruct (negb (is_dir fs (Dir target))); [intros [= <- <-]; by destruct Herr|].
  intros [= <- <-]. apply exists_name_false in Hx.
  destruct (writer_install true fs tmp n data HD Hown ltac:(done)) as [Hw Hin].
  split; [done|]. split; [|done]. split; [by eapply entries_exist_step|].
  destruct Hown as [_ (f & Hf & _ & _ & Ho) _ _]. exists n, f.
  by rewrite lookup_push, decide_False.
Qed.

Lemma remove_step e ch fs tmp b fs' :
  tmp <> target -> own_name who tmp fs ->
  handle who ch (Remove tmp) fs = (b, fs') ->
  writer_step e who D fs fs' /\ entries_exist fs' /\
  (forall n data, installed who n data fs -> installed who n data fs') /\
  (b <> Ok tt -> own_name who tmp fs').
Proof.
  intros Ht [He (n & f & Hname & Hf & Ho)].
  cbn [handle]. unfold guarded, do_Remove. rewrite Hname.
  destruct (ch_fault ch).
  { intros [= <- <-]. split; [apply writer_refl|]. split_and!; [done..|].
    intros _. split; [done|]. by exists n, f. }
  intros [= <- <-].
  assert (Hw : writer_step e who D fs (push fs tmp None)).
  { apply writer_push; [done|]. rewrite Hname. intros m g [= <-] Hg. congruence. }
  split; [done|]. split; [by eapply entries_exist_step|]. split; [|done].
  intros m data [Hl Hfin]. split; [by rewrite lookup_push, decide_False|done].
Qed.

Lemma sync_durable fs n data :
  installed who n data fs -> durable who n data (do_SyncDir fs (Dir target)).
Proof.
  intros [Hl Hf]. split; [split; [by rewrite lookup_sync|done]|].
  intros v. rewrite versions_sync, decide_True by done.
  unfold lookup_name in Hl. destruct (versions fs target) as [|w vs]; [done|].
  subst w. cbn [take]. intros Hv. by apply list_elem_of_singleton in Hv.
Qed.

Lemma syncdir_step e ch fs b fs' :
  entries_exist fs -> handle who ch (SyncDir (Dir target)) fs = (b, fs') ->
  writer_step e who D fs fs' /\ entries_exist fs' /\
  (b = Ok tt -> fs' = do_SyncDir fs (Dir target)).
Proof.
  intros He. cbn [handle]. unfold guarded. destruct (ch_fault ch).
  { intros [= <- <-]. split; [apply writer_refl|done]. }
  intros [= <- <-]. pose proof (writer_sync e who D fs (Dir target)) as Hw.
  split; [done|]. split; [by eapply entries_exist_step|done].
Qed.
End Calls.

(* ------------------------------------------------------------------ *)
(** ** [atomicWriteFile] *)

Section Program.
Context (who : nat) (excl : bool) (D : list byte -> Prop).
Context (R : relation_on_fs) (K KD : nat -> list byte -> FS -> Prop).

(** [K] holds of a file from its installation on and [KD] once the directory is
    synced, whatever [R] does, and [R] does no more than the others may. *)
Record claims_on_file : Prop := {
  cf_rely : forall fs fs', R fs fs' -> others excl who fs fs';
  cf_quiet : forall fs fs', (forall i E, writer_step excl i E fs fs') -> R fs fs';
  cf_stable : forall n data, stable R (K n data);
  cf_stable_durable : forall n data, stable R (KD n data);
  cf_install : forall n data fs, D data -> installed who n data fs -> K n data fs;
  cf_remove : forall n data fs fs', writer_step true who D fs fs' ->
    (installed who n data fs -> installed who n data fs') -> K n data fs -> K n data fs';
  cf_sync : forall n data fs, K n data fs -> KD n data (do_SyncDir fs (Dir target));
}.
Context (HK : claims_on_file).

Lemma rely_exist : stable R entries_exist.
Proof. eapply stable_less; [apply HK|apply stable_exist]. Qed.

Lemma rely_owns tmp n data synced :
  tmp <> target -> Dir tmp = Dir target -> stable R (owns who tmp n data synced).
Proof. intros Ht Hd. eapply stable_less; [apply HK|by apply stable_owns]. Qed.

Lemma rely_own_name tmp :
  tmp <> target -> Dir tmp = Dir target -> stable R (own_name who tmp).
Proof. intros Ht Hd. eapply stable_less; [apply HK|by apply stable_own_name]. Qed.

Lemma rely_quiet {A} e P (m : prog A) :
  stable R P -> quiet m -> guarantees who R (writer_step e who D) P m (fun _ => P).
Proof. apply (quiet_guarantees_in R excl), HK. Qed.

Lemma create_attempts_guarantees e attempts perm :
  guarantees who R (writer_step e who D) entries_exist
    (create_attempts attempts (Dir target) (Base target +:+ ".tmp-") perm)
    (fun r fs => match r with
       | Ok (tmp, n) => tmp <> target /\ Dir tmp = Dir target /\ owns who tmp n [] false fs
       | Err _ => entries_exist fs
       end).
Proof.
  induction attempts as [|attempts IH]; [by intros fs He|]. cbn [create_attempts].
  eapply guarantees_bind.
  { apply rely_quiet; [apply rely_exist|done]. }
  intros [suffix|err]; [|by intros fs He].
  set (p := Join_path (Dir target) (temp_name (Base target +:+ ".tmp-") suffix)).
  assert (Hp : p <> target) by apply temp_name_ne.
  eapply (guarantees_bind _ _ _ _ _ _ (fun r fs => match r with
    | Ok n => owns who p n [] false fs | Err _ => entries_exist fs end)).
  - apply guarantees_call.
    + intros [n|err]; [by apply rely_owns|apply rely_exist].
    + intros ch fs b fs' He Hh. by eapply open_step.
  - intros [n|err]; [by intros fs He|].
    destruct (errors_Is err fs_ErrExist); [exact IH|by intros fs He].
Qed.

(** What is known after the body of the function: the flag says whether the
    temporary name is still to be removed. *)
Definition after_install (tmp : path) (n : nat) (data : list byte)
  (outcome : result unit * bool) (fs : FS) : Prop :=
  entries_exist fs /\ (outcome.2 = true -> own_name who tmp fs) /\
  (outcome.1 = Ok tt -> outcome.2 = false /\ KD n data fs).

Lemma stable_exist_kept n data :
  stable R (fun fs => entries_exist fs /\ K n data fs).
Proof. apply stable_and; [apply rely_exist|apply HK]. Qed.

Lemma install_call_guarantees overwrite tmp n data :
  tmp <> target -> Dir tmp = Dir target -> D data ->
  guarantees who R (writer_step (negb overwrite) who D)
    (owns who tmp n data true) (install_call target tmp overwrite)
    (fun r fs => match r with
       | Ok _ => entries_exist fs /\ K n data fs
       | Err _ => own_name who tmp fs
       end).
Proof.
  intros Ht Hd HD. unfold install_call. destruct overwrite; cbn [negb].
  - apply guarantees_call.
    + intros [u|err]; [apply stable_exist_kept|by apply rely_own_name].
    + intros ch fs b fs' Hown Hh.
      destruct (rename_step who D ch fs tmp n data b fs' Ht HD Hown Hh) as [Hw Hb].
      split; [done|]. destruct b; [|done]. destruct Hb as [He Hi]. split; [done|]. by apply HK.
  - eapply guarantees_bind_ok.
    + eapply (guarantees_call _ _ _ _ _ (fun r fs => own_name who tmp fs /\
        (r = Ok tt -> K n data fs))).
      * intros b. apply stable_and; [by apply rely_own_name|].
        intros fs fs' Hk Ho E. eapply (cf_stable HK); eauto.
      * intros ch fs b fs' Hown Hh.
        destruct (link_step who D ch fs tmp n data b fs' Ht HD Hown Hh) as (Hw & Hn & Hi).
        split; [done|]. split; [done|]. intros E. apply HK; auto.
    + intros []. apply guarantees_call.
      * intros [u|err]; [apply stable_exist_kept|by apply rely_own_name].
      * intros ch fs b fs' [Hn Hk] Hh.
        destruct (remove_step who D true ch fs tmp b fs' Ht Hn Hh) as (Hw & He & Hi & Hr).
        split; [done|]. destruct b as [u|err]; [|by apply Hr].
        split; [done|]. eapply (cf_remove HK); [exact Hw|apply Hi|by apply Hk].
    + by intros err fs [Hn _].
Qed.

Lemma syncDirectory_guarantees e n data :
  guarantees who R (writer_step e who D)
    (fun fs => entries_exist fs /\ K n data fs) (syncDirectory (Dir target))
    (fun r fs => entries_exist fs /\ (r = Ok tt -> KD n data fs)).
Proof.
  unfold syncDirectory. eapply guarantees_bind_ok.
  - apply rely_quiet; [apply stable_exist_kept|done].
  - intros []. apply guarantees_call.
    + intros b. apply stable_and; [apply rely_exist|].
      intros fs fs' Hk Ho E. eapply (cf_stable_durable HK); eauto.
    + intros ch fs b fs' [He Hk] Hh.
      destruct (syncdir_step who D e ch fs b fs' He Hh) as (Hw & He' & Hd).
      split; [done|]. split; [done|]. intros E. rewrite (Hd E). by apply HK.
  - intros err fs [He _]. by split.
Qed.

Lemma stable_after_install tmp n data outcome :
  tmp <> target -> Dir tmp = Dir target ->
  stable R (after_install tmp n data outcome).
Proof.
  intros Ht Hd fs fs' (He & Hn & Hk) Ho. split_and!.
  - by eapply rely_exist.
  - intros Hc. eapply rely_own_name; eauto.
  - intros Hr. destruct (Hk Hr) as [Hc Hkd]. split; [done|].
    by eapply (cf_stable_durable HK).
Qed.

Lemma install_temp_guarantees overwrite tmp n data :
  tmp <> target -> Dir tmp = Dir target -> D data ->
  guarantees who R (writer_step (negb overwrite) who D)
    (owns who tmp n [] false) (install_temp target tmp n data overwrite)
    (after_install tmp n data).
Proof.
  intros Ht Hd HD. unfold install_temp.
  assert (Hfail : forall err, guarantees who R
    (writer_step (negb overwrite) who D) (own_name who tmp)
    (Ret (Err err, true)) (after_install tmp n data)).
  { intros err fs Hn. split; [by destruct Hn|]. by split. }
  assert (Hclose : forall err, guarantees who R
    (writer_step (negb overwrite) who D) (own_name who tmp)
    (do! _ <- sys (CloseFile n) in Ret (Err err, true)) (after_install tmp n data)).
  { intros err. eapply guarantees_bind; [|intros b; apply Hfail].
    by apply rely_quiet; [apply rely_own_name|]. }
  eapply (guarantees_bind _ _ _ _ _ _ (fun b fs => match b with
    | Ok _ => owns who tmp n data false fs | Err _ => own_name who tmp fs end)).
  { apply guarantees_call.
    - intros [u|err]; [by apply rely_owns|by apply rely_own_name].
    - intros ch fs b fs' Hown Hh. by eapply write_step. }
  intros [u|err]; [|apply Hclose].
  eapply (guarantees_bind _ _ _ _ _ _ (fun b fs => match b with
    | Ok _ => owns who tmp n data true fs | Err _ => own_name who tmp fs end)).
  { apply guarantees_call.
    - intros [v|err]; [by apply rely_owns|by apply rely_own_name].
    - intros ch fs b fs' Hown Hh. by eapply sync_step. }
  intros [v|err]; [|apply Hclose].
  eapply (guarantees_bind _ _ _ _ _ _ (fun _ => owns who tmp n data true)).
  { by apply rely_quiet; [apply rely_owns|]. }
  intros [w|err]; [|].
  2:{ eapply guarantees_pre; [|apply Hfail]. intros fs. apply owns_name. }
  eapply guarantees_bind; [by apply install_call_guarantees|].
  intros [x|err]; [|apply Hfail].
  eapply guarantees_bind; [apply syncDirectory_guarantees|].
  intros r fs [He Hk]. split; [done|]. split; [done|]. intros E. split; [done|]. by apply Hk.
Qed.

(** Under interference by [R], [atomicWriteFile] takes writer's steps only, and
    when it succeeds [KD] holds. *)
Lemma atomicWriteFile_claims data perm overwrite :
  D data ->
  guarantees who R (writer_step (negb overwrite) who D)
    entries_exist (atomicWriteFile target data perm overwrite)
    (fun r fs => entries_exist fs /\ (r = Ok tt -> exists n, KD n data fs)).
Proof.
  intros HD. unfold atomicWriteFile. eapply guarantees_bind_ok.
  - apply create_attempts_guarantees.
  - intros [tmp n]. cbn beta iota.
    destruct (decide (tmp <> target /\ Dir tmp = Dir target)) as [[Ht Hd]|Hno].
    2:{ eapply (guarantees_pre _ _ _ _ (fun _ => False)).
        - intros fs (Ht & Hd & _). by apply Hno.
        - apply guarantees_false. }
    eapply guarantees_pre; [intros fs (_ & _ & Hown); exact Hown|].
    eapply guarantees_bind; [by apply install_temp_guarantees|].
    intros [r cleanup]. unfold deferred_remove. destruct cleanup.
    + eapply (guarantees_bind _ _ _ _ _ _ (fun _ fs => entries_exist fs /\ r <> Ok tt)).
      * apply guarantees_call.
        -- intros b. apply stable_and; [apply rely_exist|by intros fs fs' ? _].
        -- intros ch fs b fs' (He & Hn & Hk) Hh.
           destruct (remove_step who D (negb overwrite) ch fs tmp b fs' Ht (Hn eq_refl) Hh)
             as (Hw & He' & _).
           split; [done|]. split; [done|]. intros E. by destruct (Hk E).
      * intros b fs [He Hr]. split; [done|]. by intros E.
    + intros fs (He & _ & Hk). split; [done|]. intros E. exists n. by apply Hk.
  - intros err fs He. by split.
Qed.

End Program.

(* ------------------------------------------------------------------ *)
(** ** What a success means *)

Section Success.
Context (who : nat) (excl : bool) (D : list byte -> Prop).

(** If nobody may replace the target, it is the file the process installed. *)
Definition kept (n : nat) (data : list byte) (fs : FS) : Prop :=
  excl = true -> installed who n data fs.
Definition kept_durable (n : nat) (data : list byte) (fs : FS) : Prop :=
  excl = true -> durable who n data fs.

Lemma kept_claims : claims_on_file who excl D (others excl who) kept kept_durable.
Proof.
  unfold kept, kept_durable. split.
  - done.
  - apply others_quiet.
  - intros n data fs fs' Hk Ho E. subst excl. eapply stable_installed; eauto.
  - intros n data fs fs' Hk Ho E. subst excl. eapply stable_durable; eauto.
  - done.
  - eauto.
  - intros n data fs Hk E. by apply sync_durable, Hk.
Qed.

Lemma atomicWriteFile_guarantees data perm overwrite :
  D data ->
  guarantees who (others excl who) (writer_step (negb overwrite) who D)
    entries_exist (atomicWriteFile target data perm overwrite)
    (fun r fs => entries_exist fs /\ (r = Ok tt -> exists n, kept_durable n data fs)).
Proof. apply (atomicWriteFile_claims who excl D _ kept), kept_claims. Qed.

(** The others bring content in [D]. *)
Definition others_in (fs fs' : FS) : Prop :=
  exists i, i <> who /\ writer_step excl i D fs fs'.

(** If all bring content in [D], the target is a complete file with content in
    [D] ever after... *)
Definition fresh (fs : FS) : Prop :=
  exists n i, lookup_name fs target = Some (FileEntry n) /\ finished i D fs n.
Definition fresh_durable (fs : FS) : Prop :=
  forall v, v ∈ versions fs target -> exists n i, v = Some (FileEntry n) /\ finished i D fs n.

Lemma finished_listed e j E i fs fs' n :
  writer_step e j E fs fs' -> Some (FileEntry n) ∈ versions fs target ->
  finished i D fs n -> finished i D fs' n.
Proof.
  intros Hw Hin (f & Hf & Ho & Hs & HD).
  destruct (ws_files _ _ _ _ _ Hw n f Hf ltac:(by right)) as (f' & Hf' & Hd' & Hs' & Ho').
  exists f'. split_and!; congruence.
Qed.

Lemma fresh_step e j fs fs' : writer_step e j D fs fs' -> fresh fs -> fresh fs'.
Proof.
  intros Hw (n & i & Hl & Hf). destruct (ws_current _ _ _ _ _ Hw) as [Hc|(m & Hm & Hfm & _)].
  - exists n, i. split; [congruence|]. eapply finished_listed; [done| |done].
    by apply lookup_in_versions.
  - by exists m, j.
Qed.

Lemma fresh_durable_step e j fs fs' :
  writer_step e j D fs fs' -> fresh_durable fs -> fresh_durable fs'.
Proof.
  intros Hw Hall v Hv. destruct (ws_target _ _ _ _ _ Hw v Hv) as [Hin|(m & -> & Hm & _)].
  - destruct (Hall v Hin) as (n & i & -> & Hf). exists n, i. split; [done|].
    by eapply finished_listed.
  - by exists m, j.
Qed.

(** ... of a success, whatever a crash may bring back. *)
Lemma fresh_claims :
  claims_on_file who excl D others_in (fun _ _ => fresh) (fun _ _ => fresh_durable).
Proof.
  split.
  - intros fs fs' (i & Hne & Hw). by exists i, D.
  - intros fs fs' Hw. exists (S who). split; [lia|done].
  - intros _ _ fs fs' Hf (i & _ & Hw). by eapply fresh_step.
  - intros _ _ fs fs' Hf (i & _ & Hw). by eapply fresh_durable_step.
  - intros n data fs HD [Hl (f & Hf & Ho & Hs & E)]. exists n, who. split; [done|].
    exists f. split_and!; [done..|]. by rewrite <- E.
  - intros _ _ fs fs' Hw _. by eapply fresh_step.
  - intros _ _ fs (n & i & Hl & Hf) v. rewrite versions_sync, decide_True by done.
    unfold lookup_name in Hl. destruct (versions fs target) as [|w vs]; [done|].
    subst w. intros ->%list_elem_of_singleton. by exists n, i.
Qed.

Lemma atomicWriteFile_fresh data perm overwrite :
  D data ->
  guarantees who others_in (writer_step (negb overwrite) who D)
    entries_exist (atomicWriteFile target data perm overwrite)
    (fun r fs => entries_exist fs /\ (r = Ok tt -> fresh_durable fs)).
Proof.
  intros HD. eapply guarantees_post; [|exact (atomicWriteFile_claims who excl D others_in _ _
    fresh_claims data perm overwrite HD)].
  intros r fs [He Hr]. split; [done|]. intros E. by destruct (Hr E).
Qed.
End Success.

(* ------------------------------------------------------------------ *)
(** ** The directories above the target *)

Fixpoint returns {A} (Phi : A -> Prop) (m : prog A) : Prop :=
  match m with
  | Ret a => Phi a
  | Call c k => forall b, returns Phi (k b)
  end.

Lemma quiet_bind_returns {A B} (Phi : A -> Prop) (m : prog A) (k : A -> prog B) :
  quiet m -> returns Phi m -> (forall a, Phi a -> quiet (k a)) ->
  quiet (bind m k).
Proof. induction m as [a|C c h IH]; simpl; naive_solver. Qed.

Lemma stat_missing_quiet rooted elements missing :
  quiet (stat_missing rooted elements missing).
Proof.
  revert missing. induction elements as [|e elements IH]; intros missing; cbn;
    (split; [done|]); intros [[]|err]; try done; by destruct (negb _).
Qed.

(** The names found missing are proper prefixes of the target. *)
Definition above (p : path) : Prop := 0 < length p.2 < length target.2.

Lemma stat_missing_returns rooted elements missing :
  length elements < length target.2 \/ elements = [] -> Forall above missing ->
  returns (fun r => match r with Ok l => Forall above l | Err _ => True end)
    (stat_missing rooted elements missing).
Proof.
  revert missing. induction elements as [|e elements IH]; intros missing Hlen Hm; cbn.
  - intros [[]|err]; cbn; try done. by destruct (negb _).
  - intros [[]|err]; cbn; try done. destruct (negb _); [done|].
    destruct Hlen as [Hlen|]; [|done]. simpl in Hlen.
    apply IH; [left; lia|]. constructor; [|done]. unfold above. cbn [snd]. simpl. lia.
Qed.

Lemma make_missing_quiet perm missing : Forall above missing -> quiet (make_missing perm missing).
Proof.
  induction 1 as [|p l Hp Hl IH]; [done|].
  assert (Hne : p <> target) by (intros ->; unfold above in Hp; lia).
  cbn. split; [done|]. intros [u|err]; cbn.
  - split; [done|]. by intros [].
  - destruct (negb _); [done|]. cbn. split; [done|]. intros [[]|]; cbn; done.
Qed.

Lemma sync_ancestors_quiet first rooted elements :
  quiet (sync_ancestors first rooted elements).
Proof.
  revert first. induction elements as [|e elements IH]; intros first; cbn;
    (split; [done|]); intros [u|err]; cbn; repeat (case_match; cbn); try done;
    (split; [done|]); intros [v|err]; cbn; repeat (case_match; cbn); try done.
Qed.

Lemma ensureDirectory_quiet perm : quiet (ensureDirectory (Dir target) perm).
Proof.
  unfold ensureDirectory. eapply quiet_bind_returns.
  - apply stat_missing_quiet.
  - apply stat_missing_returns; [|done]. destruct target as [rooted [|e es]]; cbn;
      [by right|left; lia].
  - intros [missing|err]; [|done]. intros Hm. apply quiet_bind_ok.
    + by apply make_missing_quiet.
    + intros _. apply sync_ancestors_quiet.
Qed.
End Writers.

(* ------------------------------------------------------------------ *)
(** ** Any number of writers *)

Record writer := { wr_data : list byte; wr_perm : Z; wr_overwrite : bool }.

Definition write_by (target : path) (w : writer) : prog (result unit) :=
  atomicWriteFile target (wr_data w) (wr_perm w) (wr_overwrite w).

(** What may be read at the target is what could be read at the start, or the
    whole content one of the writers brought. *)
Definition only_whole_files (target : path) (fs0 : FS) (D : list byte -> Prop) (fs : FS) : Prop :=
  entries_exist target fs /\
  forall c, may_read fs target c ->
    may_read fs0 target c \/ exists data, c = Some data /\ D data.

Lemma only_whole_files_step target fs0 D e i fs fs' :
  writer_step target e i D fs fs' ->
  only_whole_files target fs0 D fs -> only_whole_files target fs0 D fs'.
Proof.
  intros Hw [He Hr]. split; [by eapply entries_exist_step|].
  intros c Hc. destruct Hc as [Hin|n f' c Hin Hf' Hc].
  - destruct (ws_target _ _ _ _ _ _ Hw _ Hin) as [Hin'|(n & [=] & _)].
    apply Hr. by apply read_absent.
  - destruct (ws_target _ _ _ _ _ _ Hw _ Hin) as [Hin'|(m & [= <-] & (f & Hf & _ & Hs & HD) & _)].
    + destruct (He n Hin') as [f Hf].
      destruct (ws_files _ _ _ _ _ _ Hw n f Hf ltac:(by right)) as (g & Hg & Hdata & Hsy & _).
      simplify_eq. apply Hr. eapply read_file; [done|done|].
      intros Hsync. rewrite <- Hdata. apply Hc. by rewrite Hsy.
    + simplify_eq. right. eexists (in_data _). split; [|done]. by rewrite (Hc Hs).
Qed.

Lemma writers_whole target (ws : list writer) fs0 ms fs :
  entries_exist target fs0 ->
  rtc cstep (write_by target <$> ws, fs0) (ms, fs) ->
  let D d := exists w, w ∈ ws /\ d = wr_data w in
  only_whole_files target fs0 D fs /\
  forall i, ms !! i = Some (Ret (Ok tt)) -> fresh_durable target D fs.
Proof.
  intros He Hs D.
  set (Q := fun (_ : nat) (r : result unit) fs => entries_exist target fs /\
    (r = Ok tt -> fresh_durable target D fs)).
  assert (Hok : pool_ok (fun i => others_in target i false D)
    (fun i => writer_step target false i D) Q (only_whole_files target fs0 D) (ms, fs)).
  { refine (pool_ok_rtc _ _ _ _ _ _ (write_by target <$> ws, fs0) _ _ Hs); [| |split].
    - intros i j fs1 fs2 Hne Hw. exists j. split; [congruence|done].
    - intros i fs1 fs2 Hw. by eapply only_whole_files_step.
    - split; [done|]. by left.
    - intros i m Hi. cbn [fst] in Hi. rewrite list_lookup_fmap in Hi.
      apply fmap_Some in Hi as (w & Hw & ->). exists (entries_exist target).
      split; [|split; [done|]].
      { intros fs1 fs2 Hx (j & _ & Hst). by eapply entries_exist_step. }
      assert (HD : D (wr_data w)).
      { exists w. split; [by eapply list_elem_of_lookup_2|done]. }
      eapply guarantees_weaken; [|exact (atomicWriteFile_fresh target i false D (wr_data w)
        (wr_perm w) (wr_overwrite w) HD)].
      intros fs1 fs2. destruct (negb _); [apply writer_step_weaken|trivial]. }
  split; [by destruct Hok|]. intros i Hi.
  by destruct (pool_ok_returned _ _ _ _ _ i (Ok tt) Hok Hi) as [_ Hr]; apply Hr.
Qed.

Lemma fresh_durable_reads target D fs c :
  fresh_durable target D fs -> may_read fs target c -> exists data, c = Some data /\ D data.
Proof.
  intros Hall [Hin|n f c' Hin Hf Hc]; destruct (Hall _ Hin) as (m & i & [=] & g & Hg & _ & Hs & HD).
  simplify_eq. eexists. split; [by rewrite (Hc Hs)|done].
Qed.

(** C9 (crash safety): while any number of processes write a
    file with [atomicWriteFile], with and without overwriting, after every
    number of calls of each, with any call failing, what a reader finds there,
    also after a crash at that moment, is what could be found at the start or
    the complete content of one writer: never a truncated file, a mixture of
    two, or nothing where there was a file.  From the moment a writer has
    returned success it is the complete content of one writer: no crash brings
    back what was there before. *)
Theorem atomicWriteFile_crash_safe target (ws : list writer) fs0 ms fs c
  (He : entries_exist target fs0)
  (Hs : rtc cstep (write_by target <$> ws, fs0) (ms, fs))
  (Hc : may_read fs target c) :
  (may_read fs0 target c \/ exists w, w ∈ ws /\ c = Some (wr_data w)) /\
  (forall i, ms !! i = Some (Ret (Ok tt)) -> exists w, w ∈ ws /\ c = Some (wr_data w)).
Proof.
  destruct (writers_whole target ws fs0 ms fs He Hs) as [[_ Hr] Hd]. split.
  - destruct (Hr c Hc) as [|(d & -> & w & Hw & ->)]; [by left|]. right. by exists w.
  - intros i Hi. destruct (fresh_durable_reads _ _ _ _ (Hd i Hi) Hc) as (d & -> & w & Hw & ->).
    by exists w.
Qed.

(** A writer that succeeded has its content on the disk, if nobody replaces
    the file after it. *)
Lemma atomicWriteFile_durable target who o t data perm overwrite fs fs' :
  entries_exist target fs ->
  run who o t (atomicWriteFile target data perm overwrite) fs = (Ok tt, fs') ->
  entries_exist target fs' /\ exists n, durable target who n data fs'.
Proof.
  intros He Hr.
  pose proof (guarantees_run who _ _ _ _ _ o t fs _ fs'
    (atomicWriteFile_guarantees target who true (eq data) data perm overwrite eq_refl) He Hr)
    as [He' Hd].
  split; [done|]. destruct (Hd eq_refl) as [n Hn]. exists n. by apply Hn.
Qed.

Lemma durable_reads target who n data fs c :
  durable target who n data fs -> may_read fs target c -> c = Some data.
Proof.
  intros [[Hl (f & Hf & _ & Hs & Hd)] Hall] [Hin|m f' c' Hin Hf' Hc].
  - by apply Hall in Hin.
  - apply Hall in Hin. simplify_eq. by rewrite (Hc Hs).
Qed.
