(* ===== verification/Spared.v ===== *)
(** * Files that are not written

    Writing one state file leaves the others alone: the name, everything a
    crash may bring back under it, and the content. *)

From Stdlib Require Import Ascii.
From S2P Require Import Prelude Bytes GoStd FileSystem Rely External Json JsonText Tee.
From S2P Require Import AtomicFile.

#[local] Open Scope general_if_scope.
#[local] Open Scope string_scope.
#[local] Open Scope list_scope.

Section Spared.
Context (key : path).

Record spared (fs fs' : FS) : Prop := {
  sp_lookup : lookup_name fs' key = lookup_name fs key;
  sp_versions : forall v, v ∈ versions fs' key -> v ∈ versions fs key;
  sp_files : forall n f, Some (FileEntry n) ∈ versions fs' key -> fs_inodes fs !! n = Some f ->
    exists f', fs_inodes fs' !! n = Some f' /\ in_data f' = in_data f /\
               (in_synced f = true -> in_synced f' = true);
}.

#[export] Instance spared_refl : Reflexive spared.
Proof. intros fs. split; eauto. Qed.

#[export] Instance spared_trans : Transitive spared.
Proof.
  intros fs fs1 fs2 [Hl Hv Hf] [Hl' Hv' Hf']. split; [congruence|auto|].
  intros n f Hn Hfn. destruct (Hf n f (Hv' _ Hn) Hfn) as (f1 & Hf1 & Hd1 & Hs1).
  destruct (Hf' n f1 Hn Hf1) as (f2 & Hf2 & Hd2 & Hs2).
  exists f2. split_and!; [done|congruence|auto].
Qed.

Lemma spared_exist fs fs' : spared fs fs' -> entries_exist key fs -> entries_exist key fs'.
Proof.
  intros [_ Hv Hf] He n Hn. destruct (He n (Hv _ Hn)) as [f Hfn].
  destruct (Hf n f Hn Hfn) as (f' & -> & _). done.
Qed.

Lemma spared_contents fs fs' c :
  spared fs fs' -> contents fs key = Some c -> contents fs' key = Some c.
Proof.
  intros [Hl Hv Hf]. unfold contents. rewrite Hl.
  destruct (lookup_name fs key) as [[perm|n]|] eqn:Hk; try done.
  destruct (fs_inodes fs !! n) as [f|] eqn:Hfn; [|done]. cbn. intros [= <-].
  destruct (Hf n f) as (f' & -> & Hd & _); [by apply lookup_in_versions|done|].
  cbn. by rewrite Hd.
Qed.

(** A file on the disk stays what a reader finds. *)
Lemma spared_durable who n data fs fs' c :
  spared fs fs' -> durable key who n data fs -> may_read fs' key c -> c = Some data.
Proof.
  intros [Hl Hv Hf] [[_ (f & Hfn & _ & Hs & Hd)] Hall] [Hin|m f' c' Hin Hf' Hc].
  - apply Hv, Hall in Hin. done.
  - pose proof (Hall _ (Hv _ Hin)) as [= ->].
    destruct (Hf n f Hin Hfn) as (g & Hg & Hgd & Hgs). simplify_eq.
    rewrite (Hc (Hgs Hs)). congruence.
Qed.

Lemma spared_push fs p v : p <> key -> spared fs (push fs p v).
Proof.
  intros Hp. split; [by rewrite lookup_push, decide_False| |eauto].
  intros w. by rewrite versions_push, decide_False.
Qed.

(** The own file changes, and the name does not lead to it. *)
Lemma spared_set fs i f : ~ Some (FileEntry i) ∈ versions fs key -> spared fs (set_inode fs i f).
Proof.
  intros Hi. split; [done|done|]. intros n g Hn Hg. exists g. split; [|done].
  cbn. rewrite list_lookup_insert_ne; [done|]. by intros ->.
Qed.

(** The content of a file stays the same. *)
Lemma spared_same fs i f f' :
  fs_inodes fs !! i = Some f -> in_data f' = in_data f ->
  (in_synced f = true -> in_synced f' = true) -> spared fs (set_inode fs i f').
Proof.
  intros Hf Hd Hs. split; [done|done|]. intros n g Hn Hg. cbn.
  destruct (decide (i = n)) as [<-|Hne].
  - exists f'. simplify_eq. rewrite list_lookup_insert_eq by (by eapply lookup_lt_Some). done.
  - exists g. by rewrite list_lookup_insert_ne.
Qed.

Lemma spared_sync fs p : spared fs (do_SyncDir fs p).
Proof.
  split; [apply lookup_sync| |eauto].
  intros v. rewrite versions_sync. destruct (decide _); [|done].
  intros Hv. by eapply elem_of_take in Hv as (k & Hk & _); eapply list_elem_of_lookup_2.
Qed.

(** The name leads to a file. *)
Definition is_file (fs : FS) : Prop :=
  entries_exist key fs /\ exists n, lookup_name fs key = Some (FileEntry n).

Lemma spared_is_file fs fs' : spared fs fs' -> is_file fs -> is_file fs'.
Proof.
  intros Hs [He [n Hn]]. split; [by eapply spared_exist|]. exists n. by rewrite (sp_lookup _ _ Hs).
Qed.

Lemma is_file_exists fs p : is_file fs -> exists_name fs p = false -> p <> key.
Proof. intros [_ [n Hn]] Hx ->. apply exists_name_false in Hx. congruence. Qed.

(** Calls that leave the file alone; [i] is the own temporary file. *)
Definition spares (i : option nat) {B} (c : call B) : Prop :=
  match c with
  | Remove p => p <> key
  | Rename p q => p <> key /\ q <> key
  | WriteFile j _ => i = Some j
  | _ => True
  end.

Definition own_out (i : option nat) (fs : FS) : Prop :=
  forall j, i = Some j -> ~ Some (FileEntry j) ∈ versions fs key.

Lemma spared_own_out i fs fs' : spared fs fs' -> own_out i fs -> own_out i fs'.
Proof. intros Hs Ho j Hj Hin. apply (Ho j Hj). by apply (sp_versions _ _ Hs). Qed.

Ltac spared_idle := intros; simplify_eq/=; reflexivity.

Lemma spared_append fs i d :
  ~ Some (FileEntry i) ∈ versions fs key -> spared fs (append_data fs i d).
Proof.
  intros Hi. unfold append_data. destruct (fs_inodes fs !! i); [|reflexivity].
  by apply spared_set.
Qed.

Lemma spares_step i who ch {B} (c : call B) fs b fs' :
  is_file fs -> own_out i fs -> spares i c -> handle who ch c fs = (b, fs') -> spared fs fs'.
Proof.
  intros Hfile Hi. destruct c; cbn [spares handle]; unfold guarded;
    try (destruct (ch_fault ch); spared_idle; fail); try spared_idle.
  - intros _. destruct (ch_fault ch); [spared_idle|]. unfold do_Mkdir.
    destruct (exists_name fs p) eqn:Hx; [spared_idle|].
    destruct (negb (is_dir fs (Dir p))); [spared_idle|]. intros [= _ <-].
    apply spared_push. by eapply is_file_exists.
  - intros _. destruct (ch_fault ch); [spared_idle|]. unfold do_Chmod.
    destruct (lookup_name fs p) as [[perm'|n]|] eqn:Hl; [| |spared_idle].
    + intros [= _ <-]. apply spared_push. intros ->. destruct Hfile as [_ [n Hn]]. congruence.
    + destruct (fs_inodes fs !! n) as [f|] eqn:Hf; [|spared_idle].
      intros [= _ <-]. by eapply spared_same.
  - intros _. destruct (ch_fault ch); [spared_idle|]. unfold do_OpenExcl.
    destruct (exists_name fs p) eqn:Hx; [spared_idle|].
    destruct (negb (is_dir fs (Dir p))); [spared_idle|]. intros [= _ <-].
    assert (Hp : p <> key) by by eapply is_file_exists.
    destruct (spared_push fs p (Some (FileEntry (length (fs_inodes fs)))) Hp) as [Hl Hv Hf].
    split; [exact Hl|exact Hv|]. intros n f Hn Hfn. exists f. cbn.
    rewrite lookup_app_l by (by eapply lookup_lt_Some). done.
  - intros Hj. unfold do_Write. destruct (ch_fault ch).
    + intros [= _ <-]. by apply spared_append, Hi.
    + destruct (fs_inodes fs !! file); [|spared_idle]. intros [= _ <-].
      by apply spared_append, Hi.
  - intros _. destruct (ch_fault ch); [spared_idle|]. unfold do_Sync.
    destruct (fs_inodes fs !! file) as [f|] eqn:Hf; [|spared_idle].
    intros [= _ <-]. by eapply spared_same.
  - intros [Ho Hn]. destruct (ch_fault ch); [spared_idle|]. unfold do_Rename.
    repeat case_match; try spared_idle. intros [= _ <-].
    etransitivity; by apply spared_push.
  - intros _. destruct (ch_fault ch); [spared_idle|]. unfold do_Link.
    destruct (lookup_name fs old) as [[perm|n]|]; try spared_idle.
    destruct (exists_name fs new) eqn:Hx; [spared_idle|].
    destruct (negb (is_dir fs (Dir new))); [spared_idle|]. intros [= _ <-].
    apply spared_push. by eapply is_file_exists.
  - intros Hp. destruct (ch_fault ch); [spared_idle|]. unfold do_Remove.
    destruct (lookup_name fs p) as [[perm|n]|]; try spared_idle. intros [= _ <-].
    by apply spared_push.
  - intros _. destruct (ch_fault ch); [spared_idle|]. intros [= _ <-]. apply spared_sync.
  - intros _. destruct (ch_fault ch); [spared_idle|]. intros [= _ <-].
    split; [done|done|eauto].
Qed.

(** A program all whose calls leave the file alone. *)
Fixpoint careful (i : option nat) {A} (m : prog A) : Prop :=
  match m with
  | Ret _ => True
  | Call c k => spares i c /\ forall b, careful i (k b)
  end.

Lemma careful_bind i {A B} (m : prog A) (k : A -> prog B) :
  careful i m -> (forall a, careful i (k a)) -> careful i (bind m k).
Proof. induction m as [a|C c h IH]; simpl; naive_solver. Qed.

(** A program that spares the file, whatever the faults. *)
Definition sparing {A} (m : prog A) : Prop :=
  forall who o t fs a fs', is_file fs -> run who o t m fs = (a, fs') -> spared fs fs'.

Lemma careful_run i {A} (m : prog A) who o t fs a fs' :
  careful i m -> is_file fs -> own_out i fs -> run who o t m fs = (a, fs') -> spared fs fs'.
Proof.
  revert t fs. induction m as [x|B c k IH]; intros t fs; simpl.
  - intros _ _ _ [= _ <-]. reflexivity.
  - intros [Hc Hk] Hf Ho. destruct (handle who (o t) c fs) as [b fs1] eqn:Hh.
    pose proof (spares_step i who (o t) c fs b fs1 Hf Ho Hc Hh) as Hs. intros Hr.
    etransitivity; [exact Hs|]. eapply IH; [done| | |exact Hr].
    + by eapply spared_is_file.
    + by eapply spared_own_out.
Qed.

Lemma careful_sparing {A} (m : prog A) : careful None m -> sparing m.
Proof. intros Hc who o t fs a fs' Hf. by apply (careful_run None). Qed.

Lemma run_bind {A B} (m : prog A) (k : A -> prog B) who o t fs b fs' :
  run who o t (bind m k) fs = (b, fs') ->
  exists t' a fs1, run who o t m fs = (a, fs1) /\ run who o t' (k a) fs1 = (b, fs').
Proof.
  revert t fs. induction m as [x|C c h IH]; intros t fs; simpl.
  - intros Hr. by exists t, x, fs.
  - destruct (handle who (o t) c fs) as [y fs1]. apply IH.
Qed.

Lemma sparing_bind {A B} (m : prog A) (k : A -> prog B) :
  sparing m -> (forall a, sparing (k a)) -> sparing (bind m k).
Proof.
  intros Hm Hk who o t fs b fs' Hf Hr.
  destruct (run_bind _ _ _ _ _ _ _ _ Hr) as (t' & a & fs1 & H1 & H2).
  pose proof (Hm _ _ _ _ _ _ Hf H1) as Hs. etransitivity; [exact Hs|].
  eapply Hk; [|exact H2]. by eapply spared_is_file.
Qed.

Lemma sparing_bind_ok {A B} (m : prog (result A)) (k : A -> prog (result B)) :
  sparing m -> (forall a, sparing (k a)) -> sparing (bind_ok m k).
Proof.
  intros Hm Hk. apply sparing_bind; [done|]. intros [a|e]; [done|].
  by apply careful_sparing.
Qed.

(* ------------------------------------------------------------------ *)
(** ** Writing another file *)

Lemma run_sys {B} (c : call B) who o t fs : run who o t (sys c) fs = handle who (o t) c fs.
Proof. cbn [sys run]. by destruct (handle who (o t) c fs). Qed.

Lemma open_fresh who ch p perm fs i fs' :
  handle who ch (OpenExcl p perm) fs = (Ok i, fs') ->
  exists_name fs p = false /\ i = length (fs_inodes fs).
Proof.
  cbn [handle]. unfold guarded, do_OpenExcl. destruct (ch_fault ch); [done|].
  destruct (exists_name fs p); [done|]. destruct (negb (is_dir fs (Dir p))); [done|].
  by intros [= <- _].
Qed.

(** A temporary file is new, under a name that was free. *)
Lemma create_attempts_run attempts dirPath prefix perm who o t fs r fs' :
  is_file fs -> run who o t (create_attempts attempts dirPath prefix perm) fs = (r, fs') ->
  spared fs fs' /\
  forall tmp i, r = Ok (tmp, i) -> tmp <> key /\ own_out (Some i) fs'.
Proof.
  revert t fs. induction attempts as [|attempts IH]; intros t fs Hf.
  { intros [= <- <-]. split; [reflexivity|done]. }
  cbn [create_attempts]. intros Hr.
  destruct (run_bind _ _ _ _ _ _ _ _ Hr) as (t1 & b & fs1 & H1 & H2).
  assert (Hs1 : spared fs fs1).
  { eapply careful_sparing; [|exact Hf|exact H1]. done. }
  destruct b as [suffix|e].
  2:{ cbn in H2. simplify_eq. by split. }
  destruct (run_bind _ _ _ _ _ _ _ _ H2) as (t2 & b & fs2 & H3 & H4).
  assert (Hf1 : is_file fs1) by by eapply spared_is_file.
  assert (Hs2 : spared fs1 fs2).
  { eapply careful_sparing; [|exact Hf1|exact H3]. done. }
  assert (Hs : spared fs fs2) by by etransitivity.
  set (p := Join_path dirPath (temp_name prefix suffix)) in *.
  destruct b as [i|e].
  - cbn in H4. simplify_eq. split; [done|]. intros tmp j [= <- <-].
    assert (exists_name fs1 p = false /\ i = length (fs_inodes fs1)) as [Hx ->].
    { rewrite run_sys in H3. by apply open_fresh in H3. }
    split; [by eapply is_file_exists|]. intros j [= <-] Hin.
    destruct Hf1 as [He _]. apply (sp_versions _ _ Hs2), He in Hin as [f Hfn].
    apply lookup_lt_Some in Hfn. lia.
  - destruct (errors_Is e fs_ErrExist).
    + destruct (IH t2 fs2 ltac:(by eapply spared_is_file) H4) as [Hs3 Hok].
      split; [by etransitivity|done].
    + cbn in H4. simplify_eq. by split.
Qed.

Lemma install_temp_careful p tmp i data overwrite :
  p <> key -> tmp <> key -> careful (Some i) (install_temp p tmp i data overwrite).
Proof.
  intros Hp Ht. cbn. split; [done|]. intros [u|e]; [|done]. cbn. split; [done|].
  intros [v|e]; [|done]. cbn. split; [done|]. intros [w|e]; [|done].
  destruct overwrite; cbn; (split; [done|]); intros [x|e]; cbn; try done;
    (split; [done|]); intros [y|e]; cbn; try done; split; try done.
  intros [z|e]; cbn; done.
Qed.

Lemma atomicWriteFile_sparing p data perm overwrite :
  p <> key -> sparing (atomicWriteFile p data perm overwrite).
Proof.
  intros Hp who o t fs r fs' Hf Hr. unfold atomicWriteFile, bind_ok in Hr.
  destruct (run_bind _ _ _ _ _ _ _ _ Hr) as (t1 & b & fs1 & H1 & H2).
  destruct (create_attempts_run _ _ _ _ _ _ _ _ _ _ Hf H1) as [Hs Hok].
  destruct b as [[tmp i]|e].
  2:{ cbn in H2. by simplify_eq. }
  destruct (Hok tmp i eq_refl) as [Htmp Ho]. etransitivity; [exact Hs|].
  eapply (careful_run (Some i)); [|by eapply spared_is_file|exact Ho|exact H2].
  apply careful_bind; [by apply install_temp_careful|]. by intros [x []].
Qed.

Lemma stat_missing_careful rooted elements missing :
  careful None (stat_missing rooted elements missing).
Proof.
  revert missing. induction elements as [|e elements IH]; intros missing; cbn;
    (split; [done|]); intros [[]|err]; try done; by destruct (negb _).
Qed.

Lemma make_missing_careful perm missing : careful None (make_missing perm missing).
Proof.
  induction missing as [|p l IH]; [done|]. cbn. split; [done|]. intros [u|err]; cbn.
  - split; [done|]. by intros [].
  - destruct (negb _); [done|]. cbn. split; [done|]. intros [[]|]; cbn; done.
Qed.

Lemma sync_ancestors_careful first rooted elements :
  careful None (sync_ancestors first rooted elements).
Proof.
  revert first. induction elements as [|e elements IH]; intros first; cbn;
    (split; [done|]); intros [u|err]; cbn; repeat (case_match; cbn); try done;
    (split; [done|]); intros [v|err]; cbn; repeat (case_match; cbn); try done.
Qed.

Lemma writeJSON_sparing p value : p <> key -> sparing (writeJSON p value).
Proof.
  intros Hp. apply sparing_bind_ok; [|by intros _; apply atomicWriteFile_sparing].
  apply careful_sparing. apply careful_bind; [apply stat_missing_careful|].
  intros [missing|e]; [|done]. apply careful_bind; [apply make_missing_careful|].
  intros [u|e]; [|done]. apply sync_ancestors_careful.
Qed.

Lemma readJSON_sparing {A} p (dec : json -> result A) : sparing (readJSON p dec).
Proof. apply careful_sparing. cbn. split; [done|]. by intros [text|e]. Qed.
End Spared.

(* ------------------------------------------------------------------ *)
(** ** Well-formed states *)

(** Every entry, also one a crash may bring back, leads to a file that is
    there. *)
Definition well_formed (fs : FS) : Prop := forall p, entries_exist p fs.

Lemma well_formed_push fs p v :
  well_formed fs -> (forall n, v = Some (FileEntry n) -> is_Some (fs_inodes fs !! n)) ->
  well_formed (push fs p v).
Proof.
  intros Hw Hv q n. rewrite versions_push. cbn [push fs_inodes].
  destruct (decide (p = q)) as [<-|]; [|apply Hw].
  intros [Hn|Hn]%elem_of_cons; [by apply Hv|by apply (Hw p)].
Qed.

Lemma well_formed_lookup fs p n :
  well_formed fs -> lookup_name fs p = Some (FileEntry n) -> is_Some (fs_inodes fs !! n).
Proof. intros Hw Hl. apply (Hw p). by apply lookup_in_versions. Qed.

Lemma well_formed_set fs i f : well_formed fs -> well_formed (set_inode fs i f).
Proof.
  intros Hw p n Hn. cbn. apply lookup_lt_is_Some. rewrite length_insert.
  apply lookup_lt_is_Some. by apply (Hw p).
Qed.

(** Every call of every process keeps the state well formed. *)
Lemma handle_well_formed who ch {B} (c : call B) fs b fs' :
  well_formed fs -> handle who ch c fs = (b, fs') -> well_formed fs'.
Proof.
  intros Hw. destruct c; cbn [handle]; unfold guarded;
    try (destruct (ch_fault ch); intros; simplify_eq/=; exact Hw);
    try (intros; simplify_eq/=; exact Hw).
  - destruct (ch_fault ch); [by intros [= _ <-]|]. unfold do_Mkdir.
    repeat case_match; intros [= _ <-]; try done. by apply well_formed_push.
  - destruct (ch_fault ch); [by intros [= _ <-]|]. unfold do_Chmod.
    repeat case_match; intros [= _ <-]; try done;
      [by apply well_formed_push|by apply well_formed_set].
  - destruct (ch_fault ch); [by intros [= _ <-]|]. unfold do_OpenExcl.
    repeat case_match; intros [= _ <-]; try done. intros q n Hn. cbn.
    apply lookup_lt_is_Some. rewrite length_app. cbn [length].
    change (Some (FileEntry n) ∈ versions (push fs p (Some (FileEntry (length (fs_inodes fs))))) q)
      in Hn. rewrite versions_push in Hn. destruct (decide (p = q)) as [<-|].
    + apply elem_of_cons in Hn as [[= ->]|Hn]; [lia|].
      apply Hw, lookup_lt_is_Some in Hn. lia.
    + apply Hw, lookup_lt_is_Some in Hn. lia.
  - unfold do_Write, append_data. repeat case_match; intros [= _ <-]; try done;
      by apply well_formed_set.
  - destruct (ch_fault ch); [by intros [= _ <-]|]. unfold do_Sync.
    repeat case_match; intros [= _ <-]; try done. by apply well_formed_set.
  - destruct (ch_fault ch); [by intros [= _ <-]|]. unfold do_Rename.
    destruct (lookup_name fs old) as [[perm|n]|] eqn:Hl; try (by intros [= _ <-]).
    repeat case_match; intros [= _ <-]; try done. apply well_formed_push; [|done].
    apply well_formed_push; [done|]. intros m [= <-]. by eapply well_formed_lookup.
  - destruct (ch_fault ch); [by intros [= _ <-]|]. unfold do_Link.
    destruct (lookup_name fs old) as [[perm|n]|] eqn:Hl; try (by intros [= _ <-]).
    repeat case_match; intros [= _ <-]; try done. apply well_formed_push; [done|].
    intros m [= <-]. by eapply well_formed_lookup.
  - destruct (ch_fault ch); [by intros [= _ <-]|]. unfold do_Remove.
    repeat case_match; intros [= _ <-]; try done. by apply well_formed_push.
  - destruct (ch_fault ch); [by intros [= _ <-]|]. intros [= _ <-] q n.
    rewrite versions_sync. cbn [do_SyncDir fs_inodes]. intros Hn. apply (Hw q).
    destruct (decide _); [|done].
    by eapply elem_of_take in Hn as (k & Hk & _); eapply list_elem_of_lookup_2.
Qed.

Lemma run_well_formed {A} (m : prog A) who o t fs a fs' :
  well_formed fs -> run who o t m fs = (a, fs') -> well_formed fs'.
Proof.
  revert t fs. induction m as [x|B c k IH]; intros t fs; simpl.
  - by intros ? [= _ <-].
  - intros Hw. destruct (handle who (o t) c fs) as [b fs1] eqn:Hh.
    apply IH. by eapply handle_well_formed.
Qed.
