(* ===== verification/Bootstrap.v ===== *)
(** * What bootstrapping guarantees

    The theorems about [internal/tee/bootstrap.go] and [ego.go]: who wins when
    several processes create the key, what the returned bootstrap data says of
    the key on disk, that state files are read back as they were saved, and
    that no function runs on for ever. *)

From Stdlib Require Import Ascii.
From S2P Require Import Prelude Bytes GoStd FileSystem Rely External Json JsonText Tee.
From S2P Require Import AtomicFile.
From stdpp Require Import relations sorting.

#[local] Open Scope string_scope.
#[local] Open Scope list_scope.

(** A quiet program also tells what it returns. *)
Lemma quiet_returns target {A} excl e who D (P : FS -> Prop) (m : prog A) (Phi : A -> Prop) :
  stable (others target excl who) P -> quiet target m -> returns Phi m ->
  guarantees who (others target excl who) (writer_step target e who D) P m
    (fun r fs => P fs /\ Phi r).
Proof.
  intros Hst. induction m as [a|B c k IH]; simpl.
  - intros _ HPhi fs HP. by split.
  - intros [Hc Hk] HPhi ch fs b fs' HP Hh. split; [by eapply quiet_step|]. exists P.
    split; [done|]. split; [|by apply IH].
    eapply Hst; [exact HP|]. exists (S who), D. split; [lia|]. by eapply quiet_step.
Qed.

Section Keys.
Context `{Ecdsa} `{!Enclave} `{HexUtil} `{!HexText}.
Context (secretDir : string).

Let target : path := key_path secretDir.
Let provider : Provider := NewEGoProvider secretDir.

(** The data describes the key. *)
Definition data_of (data : BootstrapData) (key : PrivateKey) : Prop :=
  bd_InstanceAddress data = PubkeyToAddress (key_PublicKey key) /\
  bd_PublicKey data = FromECDSAPub (key_PublicKey key).

(** The bytes are a key this enclave can load. *)
Definition loads (sealed : list byte) (key : PrivateKey) : Prop :=
  (let! plainText := Unseal sealed in ToECDSA plainText) = Ok key.

Lemma sealed_loads ent key sealed :
  SealWithUniqueKey ent (FromECDSA key) = Ok sealed -> loads sealed key.
Proof.
  intros Hs. unfold loads. rewrite (Unseal_Seal _ _ _ Hs). cbn [res_bind].
  apply ToECDSA_FromECDSA.
Qed.

Definition a_sealed_key (sealed : list byte) : Prop := exists key, loads sealed key.

Lemma bootstrapData_quiet key : quiet target (bootstrapData provider key).
Proof. cbn. split; [done|]. by intros b. Qed.

Lemma bootstrapData_returns key :
  returns (fun r => match r with Ok data => data_of data key | Err _ => True end)
    (bootstrapData provider key).
Proof.
  intros ent. cbn -[wrap_err]. by destruct (wrap_err "load tee quote" _).
Qed.

Lemma HasPrivateKey_quiet : quiet target (HasPrivateKey secretDir).
Proof. cbn. split; [done|]. by intros b. Qed.

(** A key that was saved is on the disk. *)
Lemma SavePrivateKey_guarantees who excl key overwrite :
  guarantees who (others target excl who) (writer_step target (negb overwrite) who a_sealed_key)
    (entries_exist target) (SavePrivateKey secretDir key overwrite)
    (fun r fs => entries_exist target fs /\
       (r = Ok tt -> exists n sealed, loads sealed key /\ kept_durable target who excl n sealed fs)).
Proof.
  unfold SavePrivateKey. eapply guarantees_bind.
  { apply quiet_guarantees; [apply stable_exist|done]. }
  intros ent. cbn beta. destruct (SealWithUniqueKey ent (FromECDSA key)) as [sealed|err] eqn:Hs.
  2:{ intros fs He. by split. }
  change (bind_ok (Ret (Ok sealed)) ?k) with (k sealed). cbn beta.
  assert (Hl : loads sealed key) by (by eapply sealed_loads).
  eapply guarantees_bind_ok.
  { eapply quiet_guarantees; [apply stable_exist|].
    exact (ensureDirectory_quiet target mode_700). }
  - intros u. cbn beta. unfold map_result. eapply guarantees_bind.
    + apply (atomicWriteFile_guarantees target who excl a_sealed_key). by exists key.
    + intros r fs [He Hd]. split; [done|]. intros E. destruct r as [[]|err].
      * destruct (Hd eq_refl) as [n Hn]. by exists n, sealed.
      * by destruct (negb overwrite && errors_Is err fs_ErrExist).
  - intros err fs He. by split.
Qed.

(** What a bootstrap that succeeded knows. *)
Definition bootstrapped (who : nat) (excl : bool) (data : BootstrapData) (fs : FS) : Prop :=
  exists key n sealed,
    data_of data key /\ loads sealed key /\ kept_durable target who excl n sealed fs.

Lemma Bootstrap_guarantees who excl force :
  guarantees who (others target excl who) (writer_step target (negb force) who a_sealed_key)
    (entries_exist target) (Bootstrap provider force)
    (fun r fs => entries_exist target fs /\
       forall data, r = Ok data -> bootstrapped who excl data fs).
Proof.
  unfold Bootstrap. eapply (guarantees_bind_ok _ _ _ _ _ _ (fun _ => entries_exist target)).
  { destruct force; [by intros fs He|].
    apply quiet_guarantees; [apply stable_exist|].
    apply quiet_bind; [apply HasPrivateKey_quiet|done]. }
  2:{ intros err fs He. by split. }
  intros [|]; cbn beta iota; [intros fs He; by split|].
  eapply guarantees_bind.
  { apply quiet_guarantees; [apply stable_exist|done]. }
  intros ent. cbn beta. destruct (GenerateKey ent) as [key|err].
  2:{ intros fs He. by split. }
  change (bind_ok (Ret (wrap_err ?m (Ok key))) ?k) with (k key). cbn beta.
  eapply guarantees_bind_ok.
  { apply quiet_returns; [apply stable_exist|apply bootstrapData_quiet|
      apply bootstrapData_returns]. }
  2:{ intros err fs [He _]. by split. }
  intros data. apply (guarantees_pure _ _ _ (data_of data key)); [by intros fs []|].
  intros Hdata. eapply guarantees_pre; [intros fs [He _]; exact He|].
  eapply (guarantees_bind_ok _ _ _ _ _ _ (fun r fs => entries_exist target fs /\
    (r = Ok tt -> bootstrapped who excl data fs))).
  { unfold map_result. eapply guarantees_bind; [apply SavePrivateKey_guarantees|].
    intros r fs [He Hd]. split; [done|]. intros E. destruct r as [[]|err]; [|done].
    destruct (Hd eq_refl) as (n & sealed & Hl & Hk). by exists key, n, sealed. }
  - intros [] fs [He Hb]. split; [done|]. intros d [= <-]. by apply Hb.
  - intros err fs [He _]. by split.
Qed.

(* ------------------------------------------------------------------ *)
(** ** Several processes create the key *)

(** No process of the pool left files behind in the state. *)
Definition no_open_files (fs : FS) : Prop :=
  forall n f, fs_inodes fs !! n = Some f -> in_opener f = None.

(** A key that was there at the start is still there, untouched. *)
Definition old_key_kept (fs0 fs : FS) : Prop :=
  entries_exist target fs /\
  forall e, lookup_name fs0 target = Some e ->
    lookup_name fs target = Some e /\
    forall n f0, e = FileEntry n -> fs_inodes fs0 !! n = Some f0 ->
      exists f, fs_inodes fs !! n = Some f /\ same_file f0 f.

Lemma old_key_kept_step fs0 D i fs fs' :
  writer_step target true i D fs fs' -> old_key_kept fs0 fs -> old_key_kept fs0 fs'.
Proof.
  intros Hw [He Hk]. split; [by eapply entries_exist_step|].
  intros e Hl. destruct (Hk e Hl) as [Hl' Hf]. split.
  - destruct (ws_current _ _ _ _ _ _ Hw) as [->|(n & _ & _ & Hx)]; [done|].
    rewrite Hx in Hl' by done. done.
  - intros n f0 -> Hf0. destruct (Hf n f0 eq_refl Hf0) as (f & Hfn & Hs).
    destruct (ws_files _ _ _ _ _ _ Hw n f Hfn) as (f' & Hfn' & Hs').
    { right. by apply lookup_in_versions. }
    exists f'. split; [done|]. destruct Hs as (? & ? & ?), Hs' as (? & ? & ?).
    split_and!; congruence.
Qed.

Lemma bootstraps_ok k fs0 ms fs :
  entries_exist target fs0 ->
  rtc cstep (replicate k (Bootstrap provider false), fs0) (ms, fs) ->
  pool_ok (others target true) (fun i => writer_step target true i a_sealed_key)
    (fun i r fs => entries_exist target fs /\ forall data, r = Ok data -> bootstrapped i true data fs)
    (old_key_kept fs0) (ms, fs).
Proof.
  intros He Hs.
  refine (pool_ok_rtc _ _ _ _ _ _ (replicate k (Bootstrap provider false), fs0) _ _ Hs);
    [| |split].
  - intros i j fs1 fs2 Hne Hw. exists j, a_sealed_key. split; [congruence|done].
  - intros i fs1 fs2 Hw. by eapply old_key_kept_step.
  - split; [done|]. intros e Hl. split; [done|]. intros n f0 _ Hf0. by exists f0.
  - intros i m Hi. cbn [fst] in Hi. apply lookup_replicate in Hi as [-> _].
    exists (entries_exist target). split; [apply stable_exist|]. split; [done|].
    exact (Bootstrap_guarantees i true false).
Qed.

(** The process that returned data installed the key it describes, on a name
    that was free. *)
Lemma bootstrap_winner k fs0 ms fs i data :
  entries_exist target fs0 -> no_open_files fs0 ->
  rtc cstep (replicate k (Bootstrap provider false), fs0) (ms, fs) ->
  ms !! i = Some (Ret (Ok data)) ->
  lookup_name fs0 target = None /\
  exists key n sealed, data_of data key /\ loads sealed key /\ durable target i n sealed fs.
Proof.
  intros He Hno Hs Hi. pose proof (bootstraps_ok k fs0 ms fs He Hs) as Hok.
  pose proof (pool_ok_returned _ _ _ _ _ _ _ Hok Hi) as [_ Hb].
  destruct (Hb data eq_refl) as (key & n & sealed & Hd & Hl & Hk).
  pose proof (Hk eq_refl) as Hdur. split; [|by exists key, n, sealed].
  destruct (lookup_name fs0 target) as [e|] eqn:Hl0; [|done]. exfalso.
  destruct Hok as [[_ Hkept] _]. destruct (Hkept e Hl0) as [Hcur Hf]. cbn [snd] in *.
  destruct Hdur as [[Hlk (f & Hfn & Ho & _)] _]. rewrite Hcur in Hlk. simplify_eq.
  destruct (He n) as [f0 Hf0]; [by apply lookup_in_versions|].
  destruct (Hf n f0 eq_refl Hf0) as (f' & Hf' & _ & _ & Hso). simplify_eq.
  rewrite (Hno n f0 Hf0) in Hso. congruence.
Qed.

(** C8 (one key, one winner): let any number of processes run
    [Bootstrap] without force on one secret directory, interleaved in any way,
    with any call failing.  At most one of them ever succeeds; it succeeds
    only if there was no key; and from then on every reader, also after a
    crash, finds the sealed form of the very key its bootstrap data
    describes. *)
Theorem Bootstrap_exclusive k fs0 ms fs
  (He : entries_exist (key_path secretDir) fs0) (Hno : no_open_files fs0)
  (Hs : rtc cstep (replicate k (Bootstrap (NewEGoProvider secretDir) false), fs0) (ms, fs)) :
  (forall i j data data', ms !! i = Some (Ret (Ok data)) -> ms !! j = Some (Ret (Ok data')) ->
     i = j) /\
  (forall i data, ms !! i = Some (Ret (Ok data)) ->
     lookup_name fs0 (key_path secretDir) = None /\
     exists key sealed, data_of data key /\ loads sealed key /\
       forall c, may_read fs (key_path secretDir) c -> c = Some sealed).
Proof.
  split.
  - intros i j data data' Hi Hj.
    destruct (bootstrap_winner k fs0 ms fs i data He Hno Hs Hi) as
      (_ & key & n & sealed & _ & _ & [Hl (f & Hf & Ho & _)] & _).
    destruct (bootstrap_winner k fs0 ms fs j data' He Hno Hs Hj) as
      (_ & key' & n' & sealed' & _ & _ & [Hl' (f' & Hf' & Ho' & _)] & _).
    congruence.
  - intros i data Hi. destruct (bootstrap_winner k fs0 ms fs i data He Hno Hs Hi) as
      (Hfree & key & n & sealed & Hd & Hl & Hdur).
    split; [done|]. exists key, sealed. split_and!; [done..|].
    intros c. by eapply durable_reads.
Qed.

(** Running [Bootstrap] without force never harms a key: whatever the
    interleaving and the faults, a key that was there is read as before. *)
Lemma Bootstrap_keeps_key k fs0 ms fs c :
  entries_exist target fs0 ->
  rtc cstep (replicate k (Bootstrap provider false), fs0) (ms, fs) ->
  contents fs0 target = Some c -> contents fs target = Some c.
Proof.
  intros He Hs Hc. destruct (bootstraps_ok k fs0 ms fs He Hs) as [[_ Hkept] _].
  unfold contents in *. destruct (lookup_name fs0 target) as [[perm|n]|] eqn:Hl; try done.
  cbn [snd] in Hkept. destruct (Hkept _ eq_refl) as [-> Hf].
  destruct (fs_inodes fs0 !! n) as [f0|] eqn:Hf0; [|done].
  destruct (Hf n f0 eq_refl Hf0) as (f & -> & Hd & _). cbn in *. congruence.
Qed.
End Keys.

(* ------------------------------------------------------------------ *)
(** ** State files *)

Lemma writeJSON_guarantees target who excl D value :
  D (MarshalIndent value ++ [byte_of 10]) ->
  guarantees who (others target excl who) (writer_step target false who D)
    (entries_exist target) (writeJSON target value)
    (fun r fs => entries_exist target fs /\ (r = Ok tt -> exists n,
       kept_durable target who excl n (MarshalIndent value ++ [byte_of 10]) fs)).
Proof.
  intros HD. unfold writeJSON. eapply guarantees_bind_ok.
  - eapply quiet_guarantees; [apply stable_exist|]. exact (ensureDirectory_quiet target mode_755).
  - intros u. exact (atomicWriteFile_guarantees target who excl D _ mode_644 true HD).
  - intros err fs He. by split.
Qed.

(** What a saved value is read as, at once or after a crash. *)
Lemma writeJSON_reads target who o t value fs fs' c :
  entries_exist target fs -> Forall plain_member value ->
  run who o t (writeJSON target value) fs = (Ok tt, fs') ->
  may_read fs' target c ->
  exists text, c = Some text /\ Unmarshal_text text = Ok (JObj value).
Proof.
  intros He Hp Hr Hc.
  pose proof (guarantees_run who _ _ _ _ _ o t fs _ fs'
    (writeJSON_guarantees target who true (eq (MarshalIndent value ++ [byte_of 10])) value eq_refl)
    He Hr) as [_ Hd].
  destruct (Hd eq_refl) as [n Hn]. eexists. split; [by eapply durable_reads; [apply Hn|]|].
  by apply Unmarshal_MarshalIndent.
Qed.

Lemma contents_not_dir fs p c : p.2 <> [] -> contents fs p = Some c -> is_dir fs p = false.
Proof.
  unfold contents, is_dir. intros Hp. destruct p.2; [done|].
  by destruct (lookup_name fs p) as [[]|].
Qed.

(** Reading takes one call; [k] is what follows. *)
Lemma readJSON_bind {A B} who o t p (dec : json -> result A) (k : result A -> prog B) fs c :
  p.2 <> [] -> contents fs p = Some c -> ch_fault (o t) = None ->
  run who o t (bind (readJSON p dec) k) fs =
  run who o (S t) (k (let! v := Unmarshal_text c in dec v)) fs.
Proof.
  intros Hp Hc Ho. unfold readJSON. cbn. unfold guarded. rewrite Ho. unfold do_ReadFile.
  rewrite (contents_not_dir _ _ c Hp Hc), Hc. done.
Qed.

Lemma bind_ret {A} (m : prog A) who o t fs : run who o t (bind m Ret) fs = run who o t m fs.
Proof.
  revert t fs. induction m as [a|B c k IH]; intros t fs; simpl; [done|].
  destruct (handle who (o t) c fs). apply IH.
Qed.

Lemma readJSON_run {A} who o t p (dec : json -> result A) fs c :
  p.2 <> [] -> contents fs p = Some c -> ch_fault (o t) = None ->
  run who o t (readJSON p dec) fs = (let! v := Unmarshal_text c in dec v, fs).
Proof. intros Hp Hc Ho. by rewrite <- bind_ret, (readJSON_bind _ _ _ _ _ _ _ c). Qed.

Section StateFiles.
Context `{HexUtil} `{!HexText}.

Lemma decode_encode_BootstrapData data :
  is_address (bd_InstanceAddress data) ->
  Forall plain_member (encode_BootstrapData data) /\
  decode_BootstrapData (JObj (encode_BootstrapData data)) = Ok data.
Proof.
  destruct data as [pk addr quote]. cbn [bd_InstanceAddress]. intros Ha.
  destruct (hexutil_text pk) as [Hp1 Hp2], (hexutil_text quote) as [Hq1 Hq2],
    (Address_text addr Ha) as [Ha1 Ha2].
  split.
  - repeat constructor; cbn; try done; by vm_compute.
  - unfold decode_BootstrapData, decode_member, encode_BootstrapData.
    cbn [struct_members res_bind].
    change (members_of "public_key" _) with [JStr (hexutil_MarshalText pk)].
    change (members_of "new_instance" _) with [JStr (Address_MarshalText addr)].
    change (members_of "quote" _) with [JStr (hexutil_MarshalText quote)].
    cbn [for_fold decode_bytes decode_address]. rewrite Hp2, Ha2, Hq2. done.
Qed.

Definition typed_metadata (data : AttestationMetadata) : Prop :=
  ascii_text (am_UniqueID data) /\ ascii_text (am_SignerID data) /\
  is_uint 32 (am_ProductID data) /\ is_uint 32 (am_SecurityVersion data).

Lemma decode_encode_AttestationMetadata data :
  typed_metadata data ->
  Forall plain_member (encode_AttestationMetadata data) /\
  decode_AttestationMetadata (JObj (encode_AttestationMetadata data)) = Ok data.
Proof.
  destruct data as [u s p v]. unfold typed_metadata;
    cbn [am_UniqueID am_SignerID am_ProductID am_SecurityVersion]. intros (Hu & Hs & Hp & Hv).
  split.
  - repeat constructor; cbn; try done; try (by vm_compute).
    + exists p. by destruct Hp.
    + exists v. by destruct Hv.
  - unfold decode_AttestationMetadata, decode_member. cbn [struct_members res_bind].
    change (members_of "unique_id" _) with [JStr u].
    change (members_of "signer_id" _) with [JStr s].
    change (members_of "product_id" _) with [JNum (format_uint p)].
    change (members_of "security_version" _) with [JNum (format_uint v)].
    cbn [for_fold decode_string decode_uint res_bind].
    rewrite !ParseUint_format by done. done.
Qed.

Definition typed_forks (forks : gmap string Z) : Prop :=
  map_Forall (fun k n => ascii_text k /\ is_u64 n) forks.

Lemma decode_forks_fold l (forks : gmap string Z) :
  Forall (fun kv => is_u64 kv.2) l ->
  for_fold (fun _ (forks : gmap string Z) kv =>
      let! n := decode_uint 64 0 kv.2 in Ok (<[kv.1 := n]> forks)) 0
    forks ((fun kv : string * Z => (kv.1, JNum (format_uint kv.2))) <$> l) =
  Ok (foldl (fun m kv => <[kv.1 := kv.2]> m) forks l).
Proof.
  intros Hl. generalize 0%nat. revert forks.
  induction Hl as [|[k n] l Hn _ IH]; intros forks i; [done|].
  rewrite fmap_cons. cbn [for_fold fst snd decode_uint]. rewrite ParseUint_format by done.
  cbn [res_bind]. apply IH.
Qed.

Lemma foldl_insert_list_to_map (l : list (string * Z)) :
  NoDup l.*1 -> foldl (fun m kv => <[kv.1 := kv.2]> m) ∅ l = (list_to_map l : gmap string Z).
Proof.
  intros Hnd. transitivity (list_to_map (reverse l) : gmap string Z).
  - clear Hnd. induction l as [|[k n] l IH] using rev_ind; [done|].
    rewrite foldl_app, reverse_app. simpl. by rewrite IH.
  - apply list_to_map_proper; [|apply reverse_Permutation].
    by rewrite reverse_Permutation.
Qed.

Lemma decode_encode_RegisteredForks forks :
  typed_forks forks ->
  Forall plain_member (encode_RegisteredForks forks) /\
  decode_RegisteredForks (JObj (encode_RegisteredForks forks)) = Ok (Some forks).
Proof.
  intros Hf. unfold encode_RegisteredForks.
  pose proof (merge_sort_Permutation key_le (map_to_list forks)) as Hperm.
  assert (Hall : Forall (fun kv => ascii_text kv.1 /\ is_u64 kv.2)
    (merge_sort key_le (map_to_list forks))).
  { rewrite Hperm. apply map_Forall_to_list in Hf. eapply Forall_impl; [exact Hf|].
    by intros [k n]. }
  split.
  - apply Forall_fmap. eapply Forall_impl; [exact Hall|]. intros [k n] [Hk Hn].
    split; [done|]. exists n. by destruct Hn.
  - unfold decode_RegisteredForks. rewrite decode_forks_fold.
    + cbn [res_bind]. do 2 f_equal. rewrite foldl_insert_list_to_map.
      * rewrite <- (list_to_map_to_list forks) at 2. apply list_to_map_proper; [|done].
        rewrite Hperm. apply NoDup_fst_map_to_list.
      * rewrite Hperm. apply NoDup_fst_map_to_list.
    + eapply Forall_impl; [exact Hall|]. by intros [k n] [].
Qed.

(** C16 (state files survive): when a [Save] function returned without
    error, the matching [Load] returns the value that was saved, in the state
    reached and in every state a crash may leave of it; so do the metadata and
    the fork table, when their texts are ASCII and their numbers fit their
    fields ([typed_metadata], [typed_forks]). *)
Theorem saved_state_reads_back configDir who o t o' t' fs fs' fs''
  (Ho : ch_fault (o' t') = None) :
  (forall data, is_address (bd_InstanceAddress data) ->
     entries_exist (bootstrap_path configDir) fs ->
     run who o t (SaveBootstrapData configDir data) fs = (Ok tt, fs') ->
     may_read fs' (bootstrap_path configDir) (contents fs'' (bootstrap_path configDir)) ->
     run who o' t' (LoadBootstrapData configDir) fs'' = (Ok data, fs'')) /\
  (forall data, typed_metadata data ->
     entries_exist (Join_path (Clean configDir) attestationInfoFilename) fs ->
     run who o t (SaveAttestationMetadata configDir data) fs = (Ok tt, fs') ->
     may_read fs' (Join_path (Clean configDir) attestationInfoFilename)
       (contents fs'' (Join_path (Clean configDir) attestationInfoFilename)) ->
     run who o' t' (LoadAttestationMetadata configDir) fs'' = (Ok data, fs'')) /\
  (forall forks, typed_forks (default ∅ forks) ->
     entries_exist (Join_path (Clean configDir) registeredInfoFilename) fs ->
     run who o t (SaveRegisteredForks configDir forks) fs = (Ok tt, fs') ->
     may_read fs' (Join_path (Clean configDir) registeredInfoFilename)
       (contents fs'' (Join_path (Clean configDir) registeredInfoFilename)) ->
     run who o' t' (LoadRegisteredForks configDir) fs'' = (Ok (default ∅ forks), fs'')).
Proof.
  split_and!.
  - intros data Ha He Hr Hc. destruct (decode_encode_BootstrapData data Ha) as [Hp Hd].
    destruct (writeJSON_reads _ _ _ _ _ _ _ _ He Hp Hr Hc) as (text & Htext & Hu).
    unfold LoadBootstrapData. erewrite readJSON_run by done. rewrite Hu.
    cbn [res_bind]. by rewrite Hd.
  - intros data Ht He Hr Hc. destruct (decode_encode_AttestationMetadata data Ht) as [Hp Hd].
    destruct (writeJSON_reads _ _ _ _ _ _ _ _ He Hp Hr Hc) as (text & Htext & Hu).
    unfold LoadAttestationMetadata. erewrite readJSON_run by done. rewrite Hu.
    cbn [res_bind]. by rewrite Hd.
  - intros forks Ht He Hr Hc. destruct (decode_encode_RegisteredForks _ Ht) as [Hp Hd].
    destruct (writeJSON_reads _ _ _ _ _ _ _ _ He Hp Hr Hc) as (text & Htext & Hu).
    unfold LoadRegisteredForks, bind_ok. erewrite readJSON_bind by done.
    rewrite Hu. cbn [res_bind]. by rewrite Hd.
Qed.
End StateFiles.

(* ------------------------------------------------------------------ *)
(** ** Every function returns *)

Lemma calls_mono {A} n k (m : prog A) : (n <= k)%nat -> calls_at_most n m -> calls_at_most k m.
Proof.
  revert n k. induction m as [a|B c h IH]; intros n k Hnk; [simpl; trivial|].
  destruct n as [|n]; [intros []|]. destruct k as [|k]; [lia|]. simpl. intros Hc b.
  eapply IH; [|apply Hc]. lia.
Qed.

Lemma calls_bind_returns {A B} (Phi : A -> Prop) n k (m : prog A) (f : A -> prog B) :
  calls_at_most n m -> returns Phi m -> (forall a, Phi a -> calls_at_most k (f a)) ->
  calls_at_most (n + k) (bind m f).
Proof.
  revert n. induction m as [a|C c h IH]; intros n Hm HPhi Hf; simpl in *.
  - eapply calls_mono; [|by apply Hf]. lia.
  - destruct n as [|n]; [done|]. simpl. intros b. by apply IH.
Qed.

Lemma returns_True {A} (m : prog A) : returns (fun _ => True) m.
Proof. by induction m. Qed.

Lemma calls_bind {A B} n k (m : prog A) (f : A -> prog B) :
  calls_at_most n m -> (forall a, calls_at_most k (f a)) -> calls_at_most (n + k) (bind m f).
Proof. intros Hm Hf. eapply calls_bind_returns; [done|apply returns_True|by intros]. Qed.

Lemma calls_bind_ok {A B} n k (m : prog (result A)) (f : A -> prog (result B)) :
  calls_at_most n m -> (forall a, calls_at_most k (f a)) -> calls_at_most (n + k) (bind_ok m f).
Proof. intros Hm Hf. apply calls_bind; [done|]. by intros []. Qed.

Lemma calls_create attempts dirPath prefix perm :
  calls_at_most (2 * attempts) (create_attempts attempts dirPath prefix perm).
Proof.
  induction attempts as [|attempts IH]; [done|].
  replace (2 * S attempts)%nat with (2 + 2 * attempts)%nat by lia.
  cbn -[Nat.mul]. intros [suffix|err]; [|done]. cbn -[Nat.mul].
  intros [n|err]; [done|]. by destruct (errors_Is err fs_ErrExist).
Qed.

Lemma calls_install p tmpName n data overwrite :
  calls_at_most 7 (install_temp p tmpName n data overwrite).
Proof.
  cbn. intros [u|e]; [|done]. cbn. intros [v|e]; [|done]. cbn. intros [w|e]; [|done].
  destruct overwrite; cbn; intros [x|e]; cbn; try done; intros [y|e]; cbn; try done.
  by intros [z|e].
Qed.

Lemma calls_atomicWriteFile p data perm overwrite :
  calls_at_most (2 * maxAttempts + 8) (atomicWriteFile p data perm overwrite).
Proof.
  apply calls_bind_ok; [apply calls_create|]. intros [tmpName n].
  apply (calls_bind 7 1); [apply calls_install|]. by intros [r [|]].
Qed.

Lemma calls_sync_ancestors first rooted elements :
  calls_at_most (2 * length elements + 2) (sync_ancestors first rooted elements).
Proof.
  revert first. induction elements as [|e elements IH]; intros first; cbn.
  - intros [u|err]; cbn; [|by destruct (_ && _)]. intros [v|err]; cbn; [done|].
    by destruct (_ && _).
  - replace (length elements + S (length elements + 0) + 2)%nat
      with (S (2 * length elements + 2)) by lia.
    intros [u|err]; cbn -[Nat.mul]; [|by destruct (_ && _)].
    intros [v|err]; cbn -[Nat.mul]; [apply IH|by destruct (_ && _)].
Qed.

Lemma calls_stat_missing rooted elements missing :
  calls_at_most (length elements + 1) (stat_missing rooted elements missing).
Proof.
  revert missing. induction elements as [|e elements IH]; intros missing; cbn;
    intros [[]|err]; try done; by destruct (negb _).
Qed.

Lemma stat_missing_count rooted elements missing :
  returns (fun r => match r with
    | Ok l => (length l <= length elements + length missing)%nat | Err _ => True end)
    (stat_missing rooted elements missing).
Proof.
  revert missing. induction elements as [|e elements IH]; intros missing; cbn;
    intros [[]|err]; cbn; try done; try lia; destruct (negb _); cbn; try done.
  specialize (IH ((rooted, e :: elements) :: missing)). simpl in IH.
  by rewrite Nat.add_succ_r in IH.
Qed.

Lemma calls_make_missing perm missing :
  calls_at_most (2 * length missing) (make_missing perm missing).
Proof.
  induction missing as [|p l IH]; [done|].
  replace (2 * length (p :: l))%nat with (2 + 2 * length l)%nat by (simpl; lia).
  cbn -[Nat.mul]. intros [u|err]; cbn -[Nat.mul].
  - by intros [].
  - destruct (negb _); [done|]. cbn -[Nat.mul]. by intros [[]|].
Qed.

Lemma calls_ensureDirectory p perm :
  calls_at_most (5 * length p.2 + 3) (ensureDirectory p perm).
Proof.
  unfold ensureDirectory.
  replace (5 * length p.2 + 3)%nat
    with ((length p.2 + 1) + (2 * length p.2 + (2 * length p.2 + 2)))%nat by lia.
  eapply calls_bind_returns; [apply calls_stat_missing|apply stat_missing_count|].
  intros [missing|err]; [|done]. cbn [length]. rewrite Nat.add_0_r. intros Hl.
  apply calls_bind_ok; [|intros _; apply calls_sync_ancestors].
  eapply calls_mono; [|apply calls_make_missing]. lia.
Qed.

Lemma calls_writeJSON p value :
  calls_at_most (5 * length (Dir p).2 + 267) (writeJSON p value).
Proof.
  replace (5 * length (Dir p).2 + 267)%nat
    with ((5 * length (Dir p).2 + 3) + (2 * maxAttempts + 8))%nat by (unfold maxAttempts; lia).
  apply calls_bind_ok; [apply calls_ensureDirectory|]. intros _. apply calls_atomicWriteFile.
Qed.

(** The number of directories above a file of [dir], itself included. *)
Definition depth (dir : string) : nat := length (Clean dir).2.

(** C18 (no function runs on): whatever the file system and the
    random source answer (temporary names that always collide, directories
    that never appear), [Bootstrap], the recovery of the bootstrap data and
    the saving of a state file return after a number of calls bounded by the
    depth of the directory. *)
Theorem bootstrap_returns `{Ecdsa} `{!Enclave} `{HexUtil} `{!HexText} secretDir configDir :
  (forall force, calls_at_most (5 * depth secretDir + 271)
     (Bootstrap (NewEGoProvider secretDir) force)) /\
  calls_at_most 3 (BootstrapDataForExistingKey (NewEGoProvider secretDir) configDir) /\
  (forall data, calls_at_most (5 * depth configDir + 267)
     (SaveBootstrapData configDir data)).
Proof.
  unfold depth. split_and!.
  - intros force. unfold Bootstrap.
    replace (5 * length (Clean secretDir).2 + 271)%nat with (1 + (1 + (0 + (1 +
      (1 + (0 + ((5 * length (Clean secretDir).2 + 3) + (2 * maxAttempts + 8))))))))%nat
      by (unfold maxAttempts; lia).
    apply calls_bind_ok; [by destruct force|]. intros [|]; [done|].
    apply calls_bind; [done|]. intros ent.
    apply calls_bind_ok; [done|]. intros key.
    apply calls_bind_ok; [done|]. intros data.
    rewrite <- (Nat.add_0_r (1 + _)). apply calls_bind_ok; [|done].
    rewrite <- (Nat.add_0_r (1 + _)). apply calls_bind; [|done].
    apply calls_bind; [done|]. intros ent'. apply calls_bind_ok; [done|]. intros sealed.
    apply calls_bind_ok; [apply calls_ensureDirectory|]. intros _.
    rewrite <- (Nat.add_0_r (2 * maxAttempts + 8)).
    apply calls_bind; [apply calls_atomicWriteFile|done].
  - cbn. intros [sealed|err]; cbn; [|done]. destruct (res_bind _ _) as [key|err]; cbn; [|done].
    intros [text|err]; cbn; repeat (case_match; cbn); done.
  - intros data. apply (calls_writeJSON (bootstrap_path configDir)).
Qed.
