(* ===== verification/Abi.v ===== *)
(** * The ABI packer

    [accounts/abi] of taiko-geth as the source uses it: types built by
    [abi.NewType] from their Solidity names, values given as Go structs whose
    fields carry [abi] tags, and [Arguments.Pack].  The package is the class
    [Abi]; [AbiLaws] is what it documents, that [Pack] returns the encoding of
    the Solidity ABI specification, which this file defines and shows to be
    injective on the values of a type. *)

From S2P Require Import Prelude Bytes GoStd.

#[local] Open Scope string_scope.
#[local] Open Scope list_scope.
#[local] Open Scope Z_scope.
#[local] Open Scope general_if_scope.

(* ------------------------------------------------------------------ *)
(** ** Descriptions, types and values *)

(** [abi.ArgumentMarshaling]. *)
Inductive ArgumentMarshaling :=
  | Argument (Name Type_ : string) (Components : list ArgumentMarshaling).

(** A Go value handed to [Pack]: an integer ([*big.Int], [uint8]), the array
    types, a boolean, a slice, and a struct with its [abi] tags. *)
Inductive abi_value :=
  | VUint (z : Z)
  | VAddress (a : Z)
  | VBytes32 (h : Z)
  | VBool (b : bool)
  | VSlice (vs : list abi_value)
  | VStruct (fields : list (string * abi_value)).

(** The types of the Solidity ABI that occur. *)
Inductive abi_type :=
  | TUint (bits : Z)
  | TAddress
  | TBytes32
  | TBool
  | TSlice (elem : abi_type)
  | TTuple (components : list (string * abi_type)).

Section TypeInd.
Variable P : abi_type -> Prop.
Hypothesis HUint : forall bits, P (TUint bits).
Hypothesis HAddress : P TAddress.
Hypothesis HBytes32 : P TBytes32.
Hypothesis HBool : P TBool.
Hypothesis HSlice : forall t, P t -> P (TSlice t).
Hypothesis HTuple : forall cs, Forall (fun c => P c.2) cs -> P (TTuple cs).

Fixpoint abi_type_nested_ind (t : abi_type) : P t :=
  match t with
  | TUint bits => HUint bits
  | TAddress => HAddress
  | TBytes32 => HBytes32
  | TBool => HBool
  | TSlice e => HSlice e (abi_type_nested_ind e)
  | TTuple cs =>
      HTuple cs ((fix go cs : Forall (fun c => P c.2) cs :=
        match cs with
        | [] => Forall_nil_2 _
        | (n, t) :: cs' => Forall_cons_2 _ (n, t) cs' (abi_type_nested_ind t) (go cs')
        end) cs)
  end.
End TypeInd.

(** ** Reading a description *)

Definition elementary_type (name : string) : option abi_type :=
  if String.eqb name "address" then Some TAddress
  else if String.eqb name "bytes32" then Some TBytes32
  else if String.eqb name "bool" then Some TBool
  else if HasPrefix name "uint" then
    match ParseUint (TrimPrefix name "uint") 10 16 with
    | Ok bits => if (0 <? bits) && (bits <=? 256) then Some (TUint bits) else None
    | Err _ => None
    end
  else None.

(** A name and its number of trailing [[]]. *)
Definition split_brackets (name : string) : string * nat :=
  let fix go (fuel : nat) (cs : chars) (n : nat) : chars * nat :=
    match fuel, strip_prefix (chars_of "][") cs with
    | S fuel', Some cs' => go fuel' cs' (S n)
    | _, _ => (cs, n)
    end in
  let '(cs, n) := go (String.length name) (rev (chars_of name)) 0%nat in
  (string_of_list_ascii (rev cs), n).

(** The type a Solidity type name stands for, with its components if it is
    made of tuples. *)
Fixpoint type_of (a : ArgumentMarshaling) : option (string * abi_type) :=
  match a with
  | Argument name ty components =>
      let '(base, dims) := split_brackets ty in
      let elem :=
        if String.eqb base "tuple" then
          let fix members (l : list ArgumentMarshaling) : option (list (string * abi_type)) :=
            match l with
            | [] => Some []
            | c :: l' =>
                match type_of c, members l' with
                | Some m, Some ms => Some (m :: ms)
                | _, _ => None
                end
            end in
          TTuple <$> members components
        else elementary_type base in
      (fun e => (name, Nat.iter dims TSlice e)) <$> elem
  end.

(* ------------------------------------------------------------------ *)
(** ** The encoding of the specification *)

(** A type whose encoding does not move to the tail. *)
Fixpoint static (t : abi_type) : bool :=
  match t with
  | TSlice _ => false
  | TTuple cs => forallb (fun c => static c.2) cs
  | _ => true
  end.

Definition word (z : Z) : list byte := be_bytes 32 z.

(** [head(X)] is the encoding itself of a static component and otherwise the
    offset of its tail; the tails follow all heads. *)
Fixpoint heads (off : Z) (parts : list (bool * list byte)) : list byte :=
  match parts with
  | [] => []
  | (true, enc) :: parts' => enc ++ heads off parts'
  | (false, enc) :: parts' => word off ++ heads (off + Z.of_nat (length enc)) parts'
  end.

Definition tails (parts : list (bool * list byte)) : list byte :=
  concat ((fun p : bool * list byte => if p.1 then [] else p.2) <$> parts).

Definition heads_size (parts : list (bool * list byte)) : Z :=
  foldr (fun (p : bool * list byte) n => (if p.1 then Z.of_nat (length p.2) else 32) + n) 0 parts.

Definition layout (parts : list (bool * list byte)) : list byte :=
  heads (heads_size parts) parts ++ tails parts.

(** [enc(X)] of a value of the type. *)
Fixpoint encode (t : abi_type) (v : abi_value) : list byte :=
  match t, v with
  | TUint _, VUint z => word z
  | TAddress, VAddress a => word a
  | TBytes32, VBytes32 h => word h
  | TBool, VBool b => word (if b then 1 else 0)
  | TSlice e, VSlice vs =>
      word (Z.of_nat (length vs)) ++ layout ((fun v => (static e, encode e v)) <$> vs)
  | TTuple cs, VStruct fs =>
      layout ((fix go cs fs :=
        match cs, fs with
        | (_, t') :: cs', (_, v') :: fs' => (static t', encode t' v') :: go cs' fs'
        | _, _ => []
        end) cs fs)
  | _, _ => []
  end.

(** [enc] of one argument, as a function call packs it. *)
Definition encode_argument (t : abi_type) (v : abi_value) : list byte :=
  layout [(static t, encode t v)].

(** A value of the type: integers in range, the tags of a struct the names of
    the components, in order. *)
Fixpoint has_type (t : abi_type) (v : abi_value) : Prop :=
  match t, v with
  | TUint bits, VUint z => is_uint bits z /\ bits <= 256
  | TAddress, VAddress a => is_address a
  | TBytes32, VBytes32 h => is_hash h
  | TBool, VBool _ => True
  | TSlice e, VSlice vs => Z.of_nat (length vs) < 2 ^ 256 /\ Forall (has_type e) vs
  | TTuple cs, VStruct fs =>
      (fix go cs fs :=
        match cs, fs with
        | [], [] => True
        | (n, t') :: cs', (m, v') :: fs' => n = m /\ has_type t' v' /\ go cs' fs'
        | _, _ => False
        end) cs fs
  | _, _ => False
  end.

(* ------------------------------------------------------------------ *)
(** ** The package *)

Class Abi : Type := {
  AbiType : Type;
  (** [abi.NewType(t, internalType, components)]. *)
  abi_NewType : string -> string -> list ArgumentMarshaling -> result AbiType;
  (** [abi.Arguments{{Type: t}}.Pack(v)]. *)
  abi_Pack : AbiType -> abi_value -> result (list byte);
}.

(** What the package documents: a description of a known type is accepted and
    packing a value of that type gives its ABI encoding. *)
Class AbiLaws `{Abi} : Prop := {
  NewType_Pack : forall t internal components name ty,
    type_of (Argument name t components) = Some (name, ty) ->
    exists T, abi_NewType t internal components = Ok T /\
      forall v, has_type ty v -> abi_Pack T v = Ok (encode_argument ty v);
}.

(** The specification itself is a packer. *)
Definition spec_abi : Abi := {|
  AbiType := abi_type;
  abi_NewType t _ components :=
    let! ty := some_or (type_of (Argument "" t components)) (Errorf "unsupported arg type") in
    Ok ty.2;
  abi_Pack ty v := Ok (encode_argument ty v);
|}.

Lemma type_of_name name name' t components ty :
  type_of (Argument name t components) = Some (name, ty) ->
  type_of (Argument name' t components) = Some (name', ty).
Proof.
  cbn [type_of]. destruct (split_brackets t) as [base dims].
  intros He. apply fmap_Some in He as (e & -> & [= ->]). done.
Qed.

#[export] Instance spec_abi_laws : @AbiLaws spec_abi.
Proof.
  constructor. intros t internal components name ty Ht. exists ty. split; [|done].
  cbn [abi_NewType spec_abi]. by rewrite (type_of_name _ "" _ _ _ Ht).
Qed.

(* ------------------------------------------------------------------ *)
(** ** An encoding has one value

    The encoding of a value of a type, with anything after it, determines the
    value: a decoder needs neither the length nor the offsets. *)

Definition parts (ts : list abi_type) (vs : list abi_value) : list (bool * list byte) :=
  zip_with (fun t v => (static t, encode t v)) ts vs.

Definition one_value (t : abi_type) : Prop := forall v w r s,
  has_type t v -> has_type t w -> encode t v ++ r = encode t w ++ s -> v = w.

Lemma encode_slice e vs :
  encode (TSlice e) (VSlice vs) =
  word (Z.of_nat (length vs)) ++ layout (parts (replicate (length vs) e) vs).
Proof.
  cbn [encode]. do 2 f_equal. unfold parts.
  rewrite zip_with_replicate_l by done. done.
Qed.

Lemma encode_tuple cs fs :
  encode (TTuple cs) (VStruct fs) = layout (parts (cs.*2) (fs.*2)).
Proof.
  cbn [encode]. f_equal. revert fs.
  induction cs as [|[n t] cs IH]; intros [|[m v] fs]; cbn; f_equal; [done..|]. apply IH.
Qed.

Lemma has_type_tuple cs fs :
  has_type (TTuple cs) (VStruct fs) <->
  cs.*1 = fs.*1 /\ Forall2 has_type (cs.*2) (fs.*2).
Proof.
  cbn [has_type]. revert fs.
  induction cs as [|[n t] cs IH]; intros [|[m v] fs]; cbn.
  - by repeat constructor.
  - split; [done|]. by intros [? ?].
  - split; [done|]. by intros [? ?].
  - rewrite IH, Forall2_cons. naive_solver congruence.
Qed.

Lemma has_type_slice e vs :
  has_type (TSlice e) (VSlice vs) <->
  Z.of_nat (length vs) < 2 ^ 256 /\ Forall2 has_type (replicate (length vs) e) vs.
Proof.
  cbn [has_type]. apply and_iff_compat_l. induction vs as [|v vs IH]; cbn [length replicate].
  - by split; constructor.
  - by rewrite Forall_cons, Forall2_cons, IH.
Qed.

Lemma word_inj a b r s :
  0 <= a < 2 ^ 256 -> 0 <= b < 2 ^ 256 -> word a ++ r = word b ++ s -> a = b /\ r = s.
Proof.
  intros Ha Hb Heq. apply app_inj_1 in Heq as [Hw ->].
  - split; [|done]. by eapply (be_bytes_inj 32).
  - unfold word. by rewrite !length_be_bytes.
Qed.

Lemma word_skip a b r s : word a ++ r = word b ++ s -> r = s.
Proof.
  intros Heq. apply app_inj_1 in Heq as [_ ->]; [done|]. unfold word. by rewrite !length_be_bytes.
Qed.

(** The heads: what is static is the same and the rest is left. *)
Lemma heads_inj ts vs ws off off' r s :
  Forall one_value ts -> Forall2 has_type ts vs -> Forall2 has_type ts ws ->
  heads off (parts ts vs) ++ r = heads off' (parts ts ws) ++ s ->
  Forall3 (fun t v w => static t = true -> v = w) ts vs ws /\ r = s.
Proof.
  intros Hi. revert vs ws off off'. induction Hi as [|t ts Ht Hts IH]; intros vs ws off off' Hv Hw Heq.
  - inv Hv. inv Hw. by repeat constructor.
  - inv Hv as [|? v ? vs' Htv Hv']. inv Hw as [|? w ? ws' Htw Hw'].
    cbn [parts zip_with heads] in Heq. destruct (static t) eqn:Hs.
    + rewrite <- !app_assoc in Heq. assert (v = w) as -> by (eapply Ht; eauto).
      apply app_inv_head in Heq. apply IH in Heq as [Ha ->]; [|done..]. split; [|done].
      by constructor.
    + rewrite <- !app_assoc in Heq. apply word_skip, IH in Heq as [Ha ->]; [|done..].
      split; [|done]. constructor; [congruence|done].
Qed.

(** The tails: what is dynamic is the same too. *)
Lemma tails_inj ts vs ws r s :
  Forall one_value ts -> Forall2 has_type ts vs -> Forall2 has_type ts ws ->
  Forall3 (fun t v w => static t = true -> v = w) ts vs ws ->
  tails (parts ts vs) ++ r = tails (parts ts ws) ++ s -> vs = ws.
Proof.
  intros Hi. revert vs ws. induction Hi as [|t ts Ht Hts IH]; intros vs ws Hv Hw Ha Heq.
  - by inv Hv; inv Hw.
  - inv Hv as [|? v ? vs' Htv Hv']. inv Hw as [|? w ? ws' Htw Hw']. inversion Ha as [|? ? ? ? ? ? Hst Ha']; subst.
    unfold tails in Heq. cbn [parts zip_with fmap list_fmap concat fst snd] in Heq.
    rewrite <- !app_assoc in Heq.
    assert (v = w) as <-.
    { destruct (static t); [by apply Hst|]. by eapply Ht. }
    f_equal. eapply IH; [done..|]. by apply app_inv_head in Heq.
Qed.

Lemma layout_inj ts vs ws r s :
  Forall one_value ts -> Forall2 has_type ts vs -> Forall2 has_type ts ws ->
  layout (parts ts vs) ++ r = layout (parts ts ws) ++ s -> vs = ws.
Proof.
  intros Hi Hv Hw Heq. unfold layout in Heq. rewrite <- !app_assoc in Heq.
  apply heads_inj in Heq as [Ha Heq]; [|done..]. by eapply tails_inj.
Qed.

Lemma encode_one_value t : one_value t.
Proof.
  induction t as [bits| | | |e IH|cs IH] using abi_type_nested_ind;
    intros v w r s Hv Hw Heq; destruct v, w; try done.
  - destruct Hv as [Hv Hb], Hw as [Hw _]. f_equal. unfold is_uint in *.
    assert (2 ^ bits <= 2 ^ 256) by (apply Z.pow_le_mono_r; lia).
    cbn in Heq. by apply word_inj in Heq as [-> _]; [|lia..].
  - f_equal. cbn in *. unfold is_uint in *. by apply word_inj in Heq as [-> _]; [|lia..].
  - f_equal. cbn in *. by apply word_inj in Heq as [-> _].
  - cbn in *. apply word_inj in Heq as [Hb _]; [|by destruct b|by destruct b0].
    by destruct b, b0.
  - rewrite has_type_slice in Hv, Hw. destruct Hv as [Hl Hv], Hw as [Hm Hw].
    rewrite !encode_slice, <- !app_assoc in Heq.
    apply word_inj in Heq as [Hlen Heq]; [|lia..]. apply Nat2Z.inj in Hlen.
    rewrite <- Hlen in Heq, Hw. f_equal. eapply layout_inj; [|done..].
    by apply Forall_replicate.
  - rewrite has_type_tuple in Hv, Hw. destruct Hv as [Hn Hv], Hw as [Hm Hw].
    rewrite !encode_tuple in Heq. f_equal.
    assert (Hvs : fields.*2 = fields0.*2).
    { eapply layout_inj; [|done..]. by apply Forall_fmap. }
    rewrite <- (zip_fst_snd fields), <- (zip_fst_snd fields0). congruence.
Qed.

Lemma encode_argument_inj t v w :
  has_type t v -> has_type t w -> encode_argument t v = encode_argument t w -> v = w.
Proof.
  intros Hv Hw Heq. assert ([v] = [w]) as [= ->]; [|done].
  apply (layout_inj [t] [v] [w] [] []).
  - repeat constructor. apply encode_one_value.
  - by repeat constructor.
  - by repeat constructor.
  - by rewrite !app_nil_r.
Qed.
