(* ===== verification/Proposal.v ===== *)
(** * Proposals and proof carry data

    The decoders of [internal/prover/guestinput_carry.go]: the strict
    [proof_carry_data] decoder, the Shasta proposal with its derivation
    sources, the proposal hash, and the two fields read from
    [taiko.prover_data]. *)

From S2P Require Import Prelude Bytes GoStd Json External Types Hash Samples Abi.

#[local] Open Scope string_scope.
#[local] Open Scope Z_scope.

(* ------------------------------------------------------------------ *)
(** ** The proposal view *)

Record shastaBlobSliceView := {
  bs_BlobHashes : list Z;
  bs_Offset : Z;
  bs_Timestamp : Z;
}.

Record shastaDerivationSourceView := {
  ds_IsForcedInclusion : bool;
  ds_BlobSlice : shastaBlobSliceView;
}.

Record shastaProposalView := {
  sp_ID : Z;
  sp_Timestamp : Z;
  sp_EndOfSubmissionWindowTimestamp : Z;
  sp_Proposer : Z;
  sp_ParentProposalHash : Z;
  sp_OriginBlockNumber : Z;
  sp_OriginBlockHash : Z;
  sp_BasefeeSharingPctg : Z;
  sp_Sources : list shastaDerivationSourceView;
}.

(** ** Its ABI form *)

Definition proposalComponents : list ArgumentMarshaling := [
  Argument "id" "uint48" [];
  Argument "timestamp" "uint48" [];
  Argument "endOfSubmissionWindowTimestamp" "uint48" [];
  Argument "proposer" "address" [];
  Argument "parentProposalHash" "bytes32" [];
  Argument "originBlockNumber" "uint48" [];
  Argument "originBlockHash" "bytes32" [];
  Argument "basefeeSharingPctg" "uint8" [];
  Argument "sources" "tuple[]" [
    Argument "isForcedInclusion" "bool" [];
    Argument "blobSlice" "tuple" [
      Argument "blobHashes" "bytes32[]" [];
      Argument "offset" "uint24" [];
      Argument "timestamp" "uint48" [] ] ] ].

Definition shastaProposalABIType `{Abi} : result AbiType :=
  abi_NewType "tuple" "struct Shasta.Proposal" proposalComponents.

(** The structs [abiBlobSlice], [abiDerivationSource] and [abiShastaProposal]
    with their tags; [uint64Big] makes a [*big.Int] of a number. *)
Definition abiBlobSlice (blobSlice : shastaBlobSliceView) : abi_value := VStruct [
  ("blobHashes", VSlice (VBytes32 <$> bs_BlobHashes blobSlice));
  ("offset", VUint (bs_Offset blobSlice));
  ("timestamp", VUint (bs_Timestamp blobSlice)) ].

Definition abiDerivationSource (source : shastaDerivationSourceView) : abi_value := VStruct [
  ("isForcedInclusion", VBool (ds_IsForcedInclusion source));
  ("blobSlice", abiBlobSlice (ds_BlobSlice source)) ].

Definition toABI (proposal : shastaProposalView) : abi_value := VStruct [
  ("id", VUint (sp_ID proposal));
  ("timestamp", VUint (sp_Timestamp proposal));
  ("endOfSubmissionWindowTimestamp", VUint (sp_EndOfSubmissionWindowTimestamp proposal));
  ("proposer", VAddress (sp_Proposer proposal));
  ("parentProposalHash", VBytes32 (sp_ParentProposalHash proposal));
  ("originBlockNumber", VUint (sp_OriginBlockNumber proposal));
  ("originBlockHash", VBytes32 (sp_OriginBlockHash proposal));
  ("basefeeSharingPctg", VUint (sp_BasefeeSharingPctg proposal));
  ("sources", VSlice (abiDerivationSource <$> sp_Sources proposal)) ].

Section Decoders.
Context `{HexUtil}.

Definition decodeCarryStrict (raw : RawMessage) : result CarryView :=
  reject_if (isEmptyOrNullRawMessage raw) (Errorf "missing or null proof_carry_data") ;;!
  let! fields := wrap_err "unmarshal proof_carry_data" (decodeJSONObject raw) in
  let! chainID := wrap_err "parse proof_carry_data.chain_id"
    (requireUint64 fields ["chain_id"]) in
  let! verifier := wrap_err "parse proof_carry_data.verifier"
    (requireAddress fields ["verifier"]) in
  let! transitionFields := wrap_err "parse proof_carry_data.transition_input"
    (requireJSONObjectField fields ["transition_input"]) in
  let! proposalID := wrap_err "parse proof_carry_data.transition_input.proposal_id"
    (requireUint48 transitionFields ["proposal_id"]) in
  let! proposalHash := wrap_err "parse proof_carry_data.transition_input.proposal_hash"
    (requireHash transitionFields ["proposal_hash"]) in
  let! parentProposalHash :=
    wrap_err "parse proof_carry_data.transition_input.parent_proposal_hash"
    (requireHash transitionFields ["parent_proposal_hash"]) in
  let! parentBlockHash :=
    wrap_err "parse proof_carry_data.transition_input.parent_block_hash"
    (requireHash transitionFields ["parent_block_hash"]) in
  let! actualProver := wrap_err "parse proof_carry_data.transition_input.actual_prover"
    (requireAddress transitionFields ["actual_prover"]) in
  let! transition := wrap_err "parse proof_carry_data.transition_input.transition"
    (requireJSONObjectField transitionFields ["transition"]) in
  let! proposer := wrap_err "parse proof_carry_data.transition_input.transition.proposer"
    (requireAddress transition ["proposer"]) in
  let! timestamp := wrap_err "parse proof_carry_data.transition_input.transition.timestamp"
    (requireUint48 transition ["timestamp"]) in
  let! checkpoint := wrap_err "parse proof_carry_data.transition_input.checkpoint"
    (requireJSONObjectField transitionFields ["checkpoint"]) in
  let! blockNumber :=
    wrap_err "parse proof_carry_data.transition_input.checkpoint.blockNumber"
    (requireUint48 checkpoint ["blockNumber"]) in
  let! blockHash := wrap_err "parse proof_carry_data.transition_input.checkpoint.blockHash"
    (requireHash checkpoint ["blockHash"]) in
  let! stateRoot := wrap_err "parse proof_carry_data.transition_input.checkpoint.stateRoot"
    (requireHash checkpoint ["stateRoot"]) in
  Ok {|
    cv_ChainID := chainID;
    cv_Verifier := verifier;
    cv_TransitionInput := {|
      ti_ProposalID := proposalID;
      ti_ProposalHash := proposalHash;
      ti_ParentProposalHash := parentProposalHash;
      ti_ParentBlockHash := parentBlockHash;
      ti_ActualProver := actualProver;
      ti_Transition := {| tv_Proposer := proposer; tv_Timestamp := timestamp |};
      ti_Checkpoint := {|
        cp_BlockNumber := blockNumber;
        cp_BlockHash := blockHash;
        cp_StateRoot := stateRoot;
      |};
    |};
  |}.

(** [decodeCarry]. *)
Definition decodeCarry (raw : RawMessage) : result CarryView := decodeCarryStrict raw.

Definition decodeBlobSlice (raw : RawMessage) : result shastaBlobSliceView :=
  let! fields := decodeJSONObject raw in
  let! rawBlobHashes := some_or (lookupField fields ["blobHashes"; "blob_hashes"])
    (missing_field ["blobHashes"]) in
  reject_if (isEmptyOrNullRawMessage (Some rawBlobHashes))
    (Errorf "field blobHashes must be an array") ;;!
  let! rawHashes := wrap_err (parse_field ["blobHashes"])
    (Unmarshal_raw_list (Some rawBlobHashes)) in
  let! blobHashes := for_range (fun _ rawHash =>
    wrap_err "parse field blobHashes element" (parseHashJSON (Some rawHash)))
    0 (default [] rawHashes) in
  let! offset := requireUint24 fields ["offset"] in
  let! timestamp := requireUint48 fields ["timestamp"] in
  Ok {| bs_BlobHashes := blobHashes; bs_Offset := offset; bs_Timestamp := timestamp |}.

Definition decodeDerivationSource (raw : RawMessage) : result shastaDerivationSourceView :=
  let! fields := decodeJSONObject raw in
  let! isForcedInclusion :=
    requireBool fields ["isForcedInclusion"; "is_forced_inclusion"] in
  let! rawBlobSlice := some_or (lookupField fields ["blobSlice"; "blob_slice"])
    (missing_field ["blobSlice"]) in
  let! blobSlice := wrap_err (parse_field ["blobSlice"])
    (decodeBlobSlice (Some rawBlobSlice)) in
  Ok {| ds_IsForcedInclusion := isForcedInclusion; ds_BlobSlice := blobSlice |}.

Definition requireDerivationSources (fields : Fields) (names : list string)
  : result (list shastaDerivationSourceView) :=
  let! raw := some_or (lookupField fields names) (missing_field names) in
  reject_if (isEmptyOrNullRawMessage (Some raw)) (Errorf "field must be an array") ;;!
  let! rawSources := wrap_err (parse_field names) (Unmarshal_raw_list (Some raw)) in
  for_range (fun _ rawSource =>
    wrap_err (parse_field names) (decodeDerivationSource (Some rawSource)))
    0 (default [] rawSources).

Definition decodeShastaProposal (raw : RawMessage) : result shastaProposalView :=
  let! fields := wrap_err "unmarshal proposal" (decodeJSONObject raw) in
  let! id := requireUint48 fields ["id"] in
  let! timestamp := requireUint48 fields ["timestamp"] in
  let! endOfSubmissionWindowTimestamp := requireUint48 fields
    ["endOfSubmissionWindowTimestamp"; "end_of_submission_window_timestamp"] in
  let! proposer := requireAddress fields ["proposer"] in
  let! parentProposalHash :=
    requireHash fields ["parentProposalHash"; "parent_proposal_hash"] in
  let! originBlockNumber :=
    requireUint48 fields ["originBlockNumber"; "origin_block_number"] in
  let! originBlockHash := requireHash fields ["originBlockHash"; "origin_block_hash"] in
  let! basefeeSharingPctg :=
    requireUint8 fields ["basefeeSharingPctg"; "basefee_sharing_pctg"] in
  let! sources := requireDerivationSources fields ["sources"] in
  Ok {|
    sp_ID := id;
    sp_Timestamp := timestamp;
    sp_EndOfSubmissionWindowTimestamp := endOfSubmissionWindowTimestamp;
    sp_Proposer := proposer;
    sp_ParentProposalHash := parentProposalHash;
    sp_OriginBlockNumber := originBlockNumber;
    sp_OriginBlockHash := originBlockHash;
    sp_BasefeeSharingPctg := basefeeSharingPctg;
    sp_Sources := sources;
  |}.

Definition decodeGuestInputTaikoProposal (raw : RawMessage) : result shastaProposalView :=
  let! fields := wrap_err "unmarshal taiko" (decodeJSONObject raw) in
  let! eventRaw := some_or (lookupField fields ["proposal_event"; "proposalEvent"])
    (Errorf "missing taiko.proposal_event") in
  let! eventFields := wrap_err "unmarshal taiko.proposal_event"
    (decodeJSONObject (Some eventRaw)) in
  let! proposalRaw := some_or (lookupField eventFields ["proposal"])
    (Errorf "missing taiko.proposal_event.proposal") in
  wrap_err "decode taiko.proposal_event.proposal" (decodeShastaProposal (Some proposalRaw)).

Definition decodeGuestInputActualProver (raw : RawMessage) : result Z :=
  let! fields := wrap_err "unmarshal taiko" (decodeJSONObject raw) in
  let! proverDataRaw := some_or (lookupField fields ["prover_data"; "proverData"])
    (Errorf "missing taiko.prover_data") in
  let! proverData := wrap_err "unmarshal taiko.prover_data"
    (decodeJSONObject (Some proverDataRaw)) in
  let! rawActualProver := some_or (lookupField proverData ["actual_prover"; "actualProver"])
    (Errorf "missing taiko.prover_data.actual_prover") in
  wrap_err "parse taiko.prover_data.actual_prover" (parseAddressJSON (Some rawActualProver)).

Definition hashShastaProposal `{Keccak} `{Abi} (proposal : shastaProposalView) : result Z :=
  let! proposalType := shastaProposalABIType in
  let! encoded := abi_Pack proposalType (toABI proposal) in
  Ok (Keccak256Hash encoded).
End Decoders.

Definition decodeGuestInputLastAnchorBlockNumber (raw : RawMessage) : result (option Z) :=
  let! fields := wrap_err "unmarshal taiko" (decodeJSONObject raw) in
  match lookupField fields ["prover_data"; "proverData"] with
  | None => Ok None
  | Some proverDataRaw =>
      if isEmptyOrNullRawMessage (Some proverDataRaw) then Ok None
      else
        let! proverData := wrap_err "unmarshal taiko.prover_data"
          (decodeJSONObject (Some proverDataRaw)) in
        wrap_err "parse taiko.prover_data.last_anchor_block_number"
          (optionalUint64Ptr proverData ["last_anchor_block_number"; "lastAnchorBlockNumber"])
  end.

(* ------------------------------------------------------------------ *)
(** ** The hash of a proposal determines it *)

Definition typed_source (s : shastaDerivationSourceView) : Prop :=
  Forall is_hash (bs_BlobHashes (ds_BlobSlice s)) /\
  is_uint 24 (bs_Offset (ds_BlobSlice s)) /\ is_uint 48 (bs_Timestamp (ds_BlobSlice s)).

Definition typed_proposal (p : shastaProposalView) : Prop :=
  is_uint 48 (sp_ID p) /\ is_uint 48 (sp_Timestamp p) /\
  is_uint 48 (sp_EndOfSubmissionWindowTimestamp p) /\ is_address (sp_Proposer p) /\
  is_hash (sp_ParentProposalHash p) /\ is_uint 48 (sp_OriginBlockNumber p) /\
  is_hash (sp_OriginBlockHash p) /\ is_uint 8 (sp_BasefeeSharingPctg p) /\
  Forall typed_source (sp_Sources p).

(** No slice has [2^256] elements: its length fits the word before it. *)
Definition countable_slices (p : shastaProposalView) : Prop :=
  Z.of_nat (length (sp_Sources p)) < 2 ^ 256 /\
  Forall (fun s => Z.of_nat (length (bs_BlobHashes (ds_BlobSlice s))) < 2 ^ 256) (sp_Sources p).

Definition blobSliceType : abi_type := TTuple [
  ("blobHashes", TSlice TBytes32); ("offset", TUint 24); ("timestamp", TUint 48) ].

Definition derivationSourceType : abi_type := TTuple [
  ("isForcedInclusion", TBool); ("blobSlice", blobSliceType) ].

Definition proposalType : abi_type := TTuple [
  ("id", TUint 48); ("timestamp", TUint 48); ("endOfSubmissionWindowTimestamp", TUint 48);
  ("proposer", TAddress); ("parentProposalHash", TBytes32); ("originBlockNumber", TUint 48);
  ("originBlockHash", TBytes32); ("basefeeSharingPctg", TUint 8);
  ("sources", TSlice derivationSourceType) ].

Lemma source_has_type s :
  typed_source s -> Z.of_nat (length (bs_BlobHashes (ds_BlobSlice s))) < 2 ^ 256 ->
  has_type derivationSourceType (abiDerivationSource s).
Proof.
  intros (Hh & Ho & Ht) Hl. cbn. split_conj; try done.
  - by rewrite length_fmap.
  - by apply Forall_fmap.
Qed.

Lemma proposal_has_type p :
  typed_proposal p -> countable_slices p -> has_type proposalType (toABI p).
Proof.
  intros (? & ? & ? & ? & ? & ? & ? & ? & Hs) [Hl Hls].
  cbn -[derivationSourceType]. split_conj; try done.
  - by rewrite length_fmap.
  - apply Forall_fmap. rewrite Forall_forall in *. intros s Hin.
    by apply source_has_type; [apply Hs|apply Hls].
Qed.

Lemma toABI_inj p p' : toABI p = toABI p' -> p = p'.
Proof.
  assert (Hword : Inj (=) (=) VBytes32) by (by intros ? ? [=]).
  assert (Hsrc : Inj (=) (=) abiDerivationSource).
  { intros [b [hs o t]] [b' [hs' o' t']] [= -> Hh -> ->].
    do 2 f_equal. by apply list_fmap_eq_inj in Hh. }
  destruct p, p'. intros [= -> -> -> -> -> -> -> -> Hs]. f_equal.
  by apply list_fmap_eq_inj in Hs.
Qed.

(** What is hashed. *)
Definition proposal_message (p : shastaProposalView) : list byte :=
  encode_argument proposalType (toABI p).

Lemma hashShastaProposal_eq `{Keccak} `{AbiLaws} p :
  typed_proposal p -> countable_slices p ->
  hashShastaProposal p = Ok (Keccak256Hash (proposal_message p)).
Proof.
  intros Ht Hc. unfold hashShastaProposal, shastaProposalABIType.
  destruct (NewType_Pack "tuple" "struct Shasta.Proposal" proposalComponents "" proposalType
    eq_refl) as (T & -> & HT). cbn [res_bind].
  by rewrite (HT _ (proposal_has_type _ Ht Hc)).
Qed.

Lemma hashShastaProposal_inj `{Keccak} `{AbiLaws} p p' h :
  typed_proposal p -> typed_proposal p' -> countable_slices p -> countable_slices p' ->
  collision_free_on [proposal_message p; proposal_message p'] ->
  hashShastaProposal p = Ok h -> hashShastaProposal p' = Ok h -> p = p'.
Proof.
  intros Ht Ht' Hc Hc' Hcol. rewrite !hashShastaProposal_eq by done. intros [= <-] [= Heq].
  apply toABI_inj, (encode_argument_inj proposalType); [by apply proposal_has_type..|].
  symmetry. by apply Hcol; [set_solver..|].
Qed.

(** What the decoders return is typed. *)
Lemma decodeDerivationSource_typed `{HexUtil} raw s :
  decodeDerivationSource raw = Ok s -> typed_source s.
Proof.
  unfold decodeDerivationSource, decodeBlobSlice. intros Hd. go_inv.
  unfold typed_source; simpl. split_conj; eauto with ranges.
  eapply for_range_Forall; [|eassumption]. intros j ? ? Hb. cbv beta in Hb. go_inv.
  by eapply parseHashJSON_range.
Qed.

Lemma decodeShastaProposal_typed `{HexUtil} raw p :
  decodeShastaProposal raw = Ok p -> typed_proposal p.
Proof.
  unfold decodeShastaProposal, requireDerivationSources. intros Hd. go_inv.
  unfold typed_proposal; simpl. split_conj; eauto with ranges.
  eapply for_range_Forall; [|eassumption]. intros j ? ? Hb. cbv beta in Hb. go_inv.
  by eapply decodeDerivationSource_typed.
Qed.

(* ------------------------------------------------------------------ *)
(** ** What the carry decoder returns *)

Lemma decodeCarryStrict_typed `{HexUtil} raw c :
  decodeCarryStrict raw = Ok c -> typed_carry c.
Proof.
  unfold decodeCarryStrict. intros Hd. go_inv.
  unfold typed_carry, typed_transition_input, typed_checkpoint; simpl.
  split_conj; eauto with ranges.
Qed.

Lemma decodeCarryStrict_fits `{HexUtil} raw c :
  decodeCarryStrict raw = Ok c -> carryFitsShastaWidths c = true.
Proof.
  unfold decodeCarryStrict. intros Hd. go_inv.
  unfold carryFitsShastaWidths, maxUint48; simpl. rewrite !andb_true_iff, !Z.leb_le.
  repeat match goal with
  | Hq : requireUint48 _ _ = Ok _ |- _ => apply requireUint48_range in Hq; unfold is_uint in Hq
  end. lia.
Qed.

(** The wire form of a carry. *)
Definition carry_json (c : CarryView) : json :=
  let t := cv_TransitionInput c in
  JObj [
    ("chain_id", JNum (format_uint (cv_ChainID c)));
    ("verifier", JStr (hex_text (Address_Bytes (cv_Verifier c))));
    ("transition_input", JObj [
      ("proposal_id", JNum (format_uint (ti_ProposalID t)));
      ("proposal_hash", JStr (hex_text (Hash_Bytes (ti_ProposalHash t))));
      ("parent_proposal_hash", JStr (hex_text (Hash_Bytes (ti_ParentProposalHash t))));
      ("parent_block_hash", JStr (hex_text (Hash_Bytes (ti_ParentBlockHash t))));
      ("actual_prover", JStr (hex_text (Address_Bytes (ti_ActualProver t))));
      ("transition", JObj [
        ("proposer", JStr (hex_text (Address_Bytes (tv_Proposer (ti_Transition t)))));
        ("timestamp", JNum (format_uint (tv_Timestamp (ti_Transition t))))]);
      ("checkpoint", JObj [
        ("blockNumber", JNum (format_uint (cp_BlockNumber (ti_Checkpoint t))));
        ("blockHash", JStr (hex_text (Hash_Bytes (cp_BlockHash (ti_Checkpoint t)))));
        ("stateRoot", JStr (hex_text (Hash_Bytes (cp_StateRoot (ti_Checkpoint t)))))])])].

Lemma fits_widths c :
  typed_carry c -> carryFitsShastaWidths c = true ->
  is_uint 48 (ti_ProposalID (cv_TransitionInput c)) /\
  is_uint 48 (tv_Timestamp (ti_Transition (cv_TransitionInput c))) /\
  is_uint 48 (cp_BlockNumber (ti_Checkpoint (cv_TransitionInput c))).
Proof.
  intros (_ & _ & ? & _ & _ & _ & _ & _ & ? & ? & _ & _) Hf.
  unfold carryFitsShastaWidths, maxUint48, is_uint in *. go_bool. lia.
Qed.

Lemma decodeCarryStrict_json `{HexUtil} (Hhex : hexutil_reads_hex) c :
  typed_carry c -> carryFitsShastaWidths c = true ->
  decodeCarryStrict (Some (carry_json c)) = Ok c.
Proof.
  intros Ht Hf. destruct (fits_widths _ Ht Hf) as (? & ? & ?).
  destruct Ht as (? & ? & ? & ? & ? & ? & ? & ? & ? & ? & ? & ?).
  destruct c as [chain ver [pid ph pph pbh prover [pr ts] [bn bh sr]]].
  cbn [cv_ChainID cv_Verifier cv_TransitionInput ti_ProposalID ti_ProposalHash
    ti_ParentProposalHash ti_ParentBlockHash ti_ActualProver ti_Transition ti_Checkpoint
    tv_Proposer tv_Timestamp cp_BlockNumber cp_BlockHash cp_StateRoot] in *.
  unfold decodeCarryStrict, carry_json, decodeJSONObject. cbn [isEmptyOrNullRawMessage].
  repeat first
    [ progress cbn [reject_if res_bind wrap_err]
    | erewrite requireUint64_num by (reflexivity || done)
    | erewrite requireUint48_num by (reflexivity || done)
    | erewrite requireHash_hex by (reflexivity || done)
    | erewrite requireAddress_hex by (reflexivity || done)
    | erewrite requireJSONObjectField_obj by reflexivity ].
  reflexivity.
Qed.

(** (the carry decoder loses nothing and accepts only what the contract can
    hold): a carry whose integers fit their widths is read back unchanged from
    its wire form, and every carry [decodeCarryStrict] returns, for whatever
    document, is well typed and within the [uint48] fields.  So exactly the
    carries the digest theorem is about can be decoded. *)
Theorem decodeCarryStrict_roundtrip `{HexUtil} (Hhex : hexutil_reads_hex) c :
  (typed_carry c -> carryFitsShastaWidths c = true ->
   decodeCarryStrict (Some (carry_json c)) = Ok c) /\
  (forall raw, decodeCarryStrict raw = Ok c ->
   typed_carry c /\ carryFitsShastaWidths c = true).
Proof.
  split; [by apply decodeCarryStrict_json|]. intros raw Hd.
  split; [by eapply decodeCarryStrict_typed|by eapply decodeCarryStrict_fits].
Qed.

Lemma decodeCarryStrict_roundtrip_witness :
  @decodeCarryStrict sample_hexutil (Some (carry_json (sample_carry 7))) = Ok (sample_carry 7).
Proof.
  apply (@decodeCarryStrict_roundtrip sample_hexutil sample_hexutil_reads (sample_carry 7)).
  - vm_compute. repeat split; congruence.
  - reflexivity.
Defined.
