(* ===== verification/Forks.v ===== *)
(** * Chain configurations and fork pinning

    [chainConfigFor], [enableUnzenForksFrom], [pinForkTime] and
    [cloneChainConfig] of [internal/prover/replay.go].  Go clones the upstream
    configuration because it writes to it; a value of the model is immutable,
    so cloning rebuilds the record field by field. *)

From S2P Require Import Prelude Bytes CoreTypes Samples.

#[local] Open Scope string_scope.
#[local] Open Scope Z_scope.

Definition cloneBigInt (value : option Z) : option Z :=
  match value with None => None | Some v => Some v end.

Definition cloneUint64 (value : Z) : option Z := Some value.

Definition cloneUint64Ptr (value : option Z) : option Z :=
  match value with None => None | Some v => Some v end.

Definition bigIntFromUint64 (value : Z) : option Z := Some value.

Section Forks.
Context `{ConfigTypes}.

Definition cloneBlobSchedule (value : option BlobScheduleConfig) : option BlobScheduleConfig :=
  match value with None => None | Some v => Some v end.

Definition cloneChainConfig (cfg : ChainConfig) : ChainConfig := {|
  cfg_ChainID := cloneBigInt (cfg_ChainID cfg);
  cfg_OntakeBlock := cloneBigInt (cfg_OntakeBlock cfg);
  cfg_PacayaBlock := cloneBigInt (cfg_PacayaBlock cfg);
  cfg_ShastaTime := cloneUint64Ptr (cfg_ShastaTime cfg);
  cfg_UnzenTime := cloneUint64Ptr (cfg_UnzenTime cfg);
  cfg_CancunTime := cloneUint64Ptr (cfg_CancunTime cfg);
  cfg_PragueTime := cloneUint64Ptr (cfg_PragueTime cfg);
  cfg_OsakaTime := cloneUint64Ptr (cfg_OsakaTime cfg);
  cfg_BlobScheduleConfig := cloneBlobSchedule (cfg_BlobScheduleConfig cfg);
  cfg_rest := cfg_rest cfg;
|}.

(** Sets an unset fork time, or rejects a preset one that disagrees: the new
    value of [*field]. *)
Definition pinForkTime (field : option Z) (expected : Z) (name : string)
  : result (option Z) :=
  match field with
  | None => Ok (cloneUint64 expected)
  | Some preset =>
      if negb (preset =? expected)
      then Err (Errorf ("unexpected activation time: " +:+ name))
      else Ok (Some preset)
  end.

Context `{!ChainParams}.

(** The four fork times in the order of the source's table, then the blob
    schedule. *)
Definition enableUnzenForksFrom (cfg : ChainConfig) (timestamp : Z) : result ChainConfig :=
  let! unzen := pinForkTime (cfg_UnzenTime cfg) timestamp "Unzen" in
  let! cancun := pinForkTime (cfg_CancunTime cfg) timestamp "Cancun" in
  let! prague := pinForkTime (cfg_PragueTime cfg) timestamp "Prague" in
  let! osaka := pinForkTime (cfg_OsakaTime cfg) timestamp "Osaka" in
  Ok {|
    cfg_ChainID := cfg_ChainID cfg;
    cfg_OntakeBlock := cfg_OntakeBlock cfg;
    cfg_PacayaBlock := cfg_PacayaBlock cfg;
    cfg_ShastaTime := cfg_ShastaTime cfg;
    cfg_UnzenTime := unzen;
    cfg_CancunTime := cancun;
    cfg_PragueTime := prague;
    cfg_OsakaTime := osaka;
    cfg_BlobScheduleConfig :=
      match cfg_BlobScheduleConfig cfg with
      | None => cloneBlobSchedule DefaultBlobSchedule
      | Some s => Some s
      end;
    cfg_rest := cfg_rest cfg;
  |}.

(** The assignments a Taiko case makes before pinning the forks. *)
Definition taiko_config (chainID : Z) (ontake pacaya : option Z) (shasta : Z)
  : ChainConfig :=
  let cfg := cloneChainConfig TaikoChainConfig in {|
    cfg_ChainID := bigIntFromUint64 chainID;
    cfg_OntakeBlock := cloneBigInt ontake;
    cfg_PacayaBlock := cloneBigInt pacaya;
    cfg_ShastaTime := cloneUint64 shasta;
    cfg_UnzenTime := cfg_UnzenTime cfg;
    cfg_CancunTime := cfg_CancunTime cfg;
    cfg_PragueTime := cfg_PragueTime cfg;
    cfg_OsakaTime := cfg_OsakaTime cfg;
    cfg_BlobScheduleConfig := cfg_BlobScheduleConfig cfg;
    cfg_rest := cfg_rest cfg;
  |}.

Definition network_id (cfg : ChainConfig) : Z := default 0 (big_Uint64 <$> cfg_ChainID cfg).

Definition chainConfigFor (chainID : Z) : result ChainConfig :=
  if (chainID =? 0) || (chainID =? network_id MainnetChainConfig)
  then Ok (cloneChainConfig MainnetChainConfig)
  else if chainID =? network_id HoleskyChainConfig
  then Ok (cloneChainConfig HoleskyChainConfig)
  else if chainID =? network_id SepoliaChainConfig
  then Ok (cloneChainConfig SepoliaChainConfig)
  else if chainID =? network_id HoodiChainConfig
  then Ok (cloneChainConfig HoodiChainConfig)
  else if chainID =? TaikoMainnetNetworkID
  then enableUnzenForksFrom
    (taiko_config chainID MainnetOntakeBlock MainnetPacayaBlock MainnetShastaTime)
    MainnetUnzenTime
  else if chainID =? TaikoInternalNetworkID
  then enableUnzenForksFrom
    (taiko_config chainID InternalDevnetOntakeBlock InternalDevnetPacayaBlock
      InternalShastaTime)
    DevnetUnzenTime
  else if chainID =? TaikoHoodiNetworkID
  then enableUnzenForksFrom
    (taiko_config chainID TaikoHoodiOntakeBlock TaikoHoodiPacayaBlock HoodiShastaTime)
    HoodiUnzenTime
  else Err (Errorf "unsupported chain ID").
End Forks.

(* ------------------------------------------------------------------ *)
(** ** Fork drift fails closed *)

Section ForkFacts.
Context `{ChainParams}.

Lemma cloneChainConfig_eq cfg : cloneChainConfig cfg = cfg.
Proof. by destruct cfg as [[] [] [] [] [] [] [] [] [] ?]. Qed.

Lemma pinForkTime_ok field expected name r :
  pinForkTime field expected name = Ok r <->
  r = Some expected /\ (field = None \/ field = Some expected).
Proof.
  unfold pinForkTime, cloneUint64. destruct field as [p|]; [|naive_solver].
  destruct (Z.eqb_spec p expected); simpl; naive_solver.
Qed.

(** A preset fork time of [cfg], if any, is [timestamp]. *)
Definition forks_agree (cfg : ChainConfig) (timestamp : Z) : Prop :=
  forall t, t ∈ [cfg_UnzenTime cfg; cfg_CancunTime cfg; cfg_PragueTime cfg;
                 cfg_OsakaTime cfg] -> t = None \/ t = Some timestamp.

Lemma enableUnzenForksFrom_ok cfg timestamp cfg' :
  enableUnzenForksFrom cfg timestamp = Ok cfg' ->
  forks_agree cfg timestamp /\
  cfg_UnzenTime cfg' = Some timestamp /\ cfg_CancunTime cfg' = Some timestamp /\
  cfg_PragueTime cfg' = Some timestamp /\ cfg_OsakaTime cfg' = Some timestamp /\
  cfg_ChainID cfg' = cfg_ChainID cfg /\ cfg_ShastaTime cfg' = cfg_ShastaTime cfg /\
  cfg_OntakeBlock cfg' = cfg_OntakeBlock cfg /\ cfg_PacayaBlock cfg' = cfg_PacayaBlock cfg /\
  cfg_rest cfg' = cfg_rest cfg.
Proof.
  unfold enableUnzenForksFrom. intros He. go_inv.
  repeat match goal with Hp : pinForkTime _ _ _ = Ok _ |- _ => apply pinForkTime_ok in Hp as [-> ?] end.
  split; [|done]. intros t. rewrite !elem_of_cons, elem_of_nil. naive_solver.
Qed.

Lemma enableUnzenForksFrom_agree cfg timestamp :
  forks_agree cfg timestamp -> exists cfg', enableUnzenForksFrom cfg timestamp = Ok cfg'.
Proof.
  intros Ha. unfold enableUnzenForksFrom.
  assert (Hp : forall t name, t ∈ [cfg_UnzenTime cfg; cfg_CancunTime cfg;
    cfg_PragueTime cfg; cfg_OsakaTime cfg] ->
    pinForkTime t timestamp name = Ok (Some timestamp)).
  { intros t name Ht. apply pinForkTime_ok. split; [done|]. by apply Ha. }
  do 4 (rewrite Hp by set_solver; cbn [res_bind]). eauto.
Qed.

(** The networks of Ethereum L1, which come before the Taiko cases of the
    switch. *)
Definition l1_network (chainID : Z) : bool :=
  (chainID =? 0) || (chainID =? network_id MainnetChainConfig) ||
  (chainID =? network_id HoleskyChainConfig) || (chainID =? network_id SepoliaChainConfig) ||
  (chainID =? network_id HoodiChainConfig).

(** The Shasta and Unzen activation times of a Taiko network. *)
Definition taiko_schedule (chainID : Z) : option (Z * Z) :=
  if chainID =? TaikoMainnetNetworkID then Some (MainnetShastaTime, MainnetUnzenTime)
  else if chainID =? TaikoInternalNetworkID then Some (InternalShastaTime, DevnetUnzenTime)
  else if chainID =? TaikoHoodiNetworkID then Some (HoodiShastaTime, HoodiUnzenTime)
  else None.

(** C37 (fork drift fails closed): on a Taiko network, [chainConfigFor] returns a
    configuration exactly when every Unzen/Cancun/Prague/Osaka time that
    taiko-geth's configuration presets is the network's Unzen time.  The
    result has all four forks at that time, the network's own Shasta time
    and chain id, and otherwise the upstream settings; a chain id that is
    neither an L1 nor a Taiko network is refused. *)
Theorem chainConfigFor_taiko chainID :
  l1_network chainID = false ->
  match taiko_schedule chainID with
  | None => chainConfigFor chainID = Err (Errorf "unsupported chain ID")
  | Some (shasta, unzen) =>
      (forks_agree TaikoChainConfig unzen <->
       exists cfg, chainConfigFor chainID = Ok cfg) /\
      forall cfg, chainConfigFor chainID = Ok cfg ->
        cfg_ChainID cfg = Some chainID /\ cfg_ShastaTime cfg = Some shasta /\
        cfg_UnzenTime cfg = Some unzen /\ cfg_CancunTime cfg = Some unzen /\
        cfg_PragueTime cfg = Some unzen /\ cfg_OsakaTime cfg = Some unzen /\
        cfg_rest cfg = cfg_rest TaikoChainConfig
  end.
Proof.
  unfold l1_network, taiko_schedule, chainConfigFor. rewrite !orb_false_iff.
  intros ((((E0 & E1) & E2) & E3) & E4). rewrite E0, E1, E2, E3, E4.
  assert (Hcase : forall o p s u,
    (forks_agree TaikoChainConfig u <->
     exists cfg, enableUnzenForksFrom (taiko_config chainID o p s) u = Ok cfg) /\
    forall cfg, enableUnzenForksFrom (taiko_config chainID o p s) u = Ok cfg ->
      cfg_ChainID cfg = Some chainID /\ cfg_ShastaTime cfg = Some s /\
      cfg_UnzenTime cfg = Some u /\ cfg_CancunTime cfg = Some u /\
      cfg_PragueTime cfg = Some u /\ cfg_OsakaTime cfg = Some u /\
      cfg_rest cfg = cfg_rest TaikoChainConfig).
  { intros o p s u. assert (Hf : forks_agree (taiko_config chainID o p s) u <->
      forks_agree TaikoChainConfig u).
    { unfold forks_agree, taiko_config. rewrite cloneChainConfig_eq. done. }
    rewrite <- Hf. split; [split|].
    - apply enableUnzenForksFrom_agree.
    - intros [cfg Hc]. by apply enableUnzenForksFrom_ok in Hc as [? _].
    - intros cfg (_ & ? & ? & ? & ? & Hid & Hs & _ & _ & Hr)%enableUnzenForksFrom_ok.
      rewrite Hid, Hs, Hr. done. }
  destruct (chainID =? TaikoMainnetNetworkID); [apply Hcase|].
  destruct (chainID =? TaikoInternalNetworkID); [apply Hcase|].
  destruct (chainID =? TaikoHoodiNetworkID); [apply Hcase|done].
Qed.
End ForkFacts.

Lemma chainConfigFor_taiko_witness :
  exists cfg, @chainConfigFor sample_config_types sample_params 167000 = Ok cfg /\
    cfg_ShastaTime cfg = Some 1000 /\ cfg_UnzenTime cfg = Some 2000.
Proof.
  destruct (@chainConfigFor_taiko sample_config_types sample_params 167000 eq_refl)
    as [Hex Hval].
  destruct (proj1 Hex) as [cfg Hc].
  { intros t Ht. left. revert t Ht. apply Forall_forall. by repeat constructor. }
  exists cfg. destruct (Hval cfg Hc) as (_ & ? & ? & _). done.
Defined.
