(* ===== verification/Decode.v ===== *)
(** * Decoding headers, transactions, witnesses and replay blocks

    [internal/prover/decode.go] with [decodeReplayBlock] of [replay.go] and
    [decodeBlock] of [validate.go].  Struct decoding follows
    [encoding/json]: members match a field without case, a repeated member is
    decoded over the earlier one. *)

From S2P Require Import Prelude Bytes GoStd Json External Types CoreTypes Samples.

#[local] Open Scope string_scope.
#[local] Open Scope Z_scope.

(** [protocol.ReplayBlock]. *)
Record ReplayBlock := {
  rb_Block : RawMessage;
  rb_ChainSpec : RawMessage;
  rb_Witness : RawMessage;
  rb_Accounts : RawMessage;
}.

#[export] Instance ReplayBlock_eq_dec : EqDecision ReplayBlock.
Proof. solve_decision. Defined.

Record rawBlockBody := {
  rbb_Transactions : option (list json);
  rbb_Ommers : option (list json);
  rbb_Withdrawals : option (list json);
}.

Record rawBlockEnvelope := { rbe_Header : RawMessage; rbe_Body : rawBlockBody }.

Record rawTransactionSignature := {
  rts_R : RawMessage;
  rts_S : RawMessage;
  rts_YParity : RawMessage;
  rts_V : RawMessage;
}.

Record rawTransactionEnvelope := {
  rte_Signature : rawTransactionSignature;
  rte_Transaction : Fields;
}.

(** Decoding the members of an object, in order, into a struct: each member
    that matches a field updates it. *)
Definition decode_members {S} (upd : S -> string -> json -> result S) (s : S)
  (members : list (string * json)) : result S :=
  for_fold (fun _ s kv => upd s kv.1 kv.2) 0 s members.

Definition empty_body : rawBlockBody := {|
  rbb_Transactions := None; rbb_Ommers := None; rbb_Withdrawals := None |}.

Definition body_member (b : rawBlockBody) (key : string) (v : json) : result rawBlockBody :=
  if field_matches "transactions" key then
    let! l := Unmarshal_raw_list (Some v) in
    Ok {| rbb_Transactions := l; rbb_Ommers := rbb_Ommers b; rbb_Withdrawals := rbb_Withdrawals b |}
  else if field_matches "ommers" key then
    let! l := Unmarshal_raw_list (Some v) in
    Ok {| rbb_Transactions := rbb_Transactions b; rbb_Ommers := l; rbb_Withdrawals := rbb_Withdrawals b |}
  else if field_matches "withdrawals" key then
    let! l := Unmarshal_raw_list (Some v) in
    Ok {| rbb_Transactions := rbb_Transactions b; rbb_Ommers := rbb_Ommers b; rbb_Withdrawals := l |}
  else Ok b.

Definition envelope_member (e : rawBlockEnvelope) (key : string) (v : json)
  : result rawBlockEnvelope :=
  if field_matches "header" key then Ok {| rbe_Header := Some v; rbe_Body := rbe_Body e |}
  else if field_matches "body" key then
    let! members := struct_members (Some v) in
    let! b := decode_members body_member (rbe_Body e) members in
    Ok {| rbe_Header := rbe_Header e; rbe_Body := b |}
  else Ok e.

Definition decodeBlockEnvelope (raw : RawMessage) : result rawBlockEnvelope :=
  wrap_err "unmarshal block"
    (let! members := struct_members raw in
     decode_members envelope_member {| rbe_Header := None; rbe_Body := empty_body |} members).

Definition signature_member (s : rawTransactionSignature) (key : string) (v : json)
  : result rawTransactionSignature :=
  Ok (if field_matches "r" key then
        {| rts_R := Some v; rts_S := rts_S s; rts_YParity := rts_YParity s; rts_V := rts_V s |}
      else if field_matches "s" key then
        {| rts_R := rts_R s; rts_S := Some v; rts_YParity := rts_YParity s; rts_V := rts_V s |}
      else if field_matches "yParity" key then
        {| rts_R := rts_R s; rts_S := rts_S s; rts_YParity := Some v; rts_V := rts_V s |}
      else if field_matches "v" key then
        {| rts_R := rts_R s; rts_S := rts_S s; rts_YParity := rts_YParity s; rts_V := Some v |}
      else s).

Definition empty_signature : rawTransactionSignature := {|
  rts_R := None; rts_S := None; rts_YParity := None; rts_V := None |}.

(** A JSON object decoded into a map adds its members to the map; [null] makes
    it nil. *)
Definition map_field (m : Fields) (v : json) : result Fields :=
  match v with
  | JNull => Ok ∅
  | JObj members => Ok (object_map members ∪ m)
  | _ => Err unmarshal_error
  end.

Definition transaction_envelope_member (e : rawTransactionEnvelope) (key : string) (v : json)
  : result rawTransactionEnvelope :=
  if field_matches "signature" key then
    let! members := struct_members (Some v) in
    let! s := decode_members signature_member (rte_Signature e) members in
    Ok {| rte_Signature := s; rte_Transaction := rte_Transaction e |}
  else if field_matches "transaction" key then
    let! m := map_field (rte_Transaction e) v in
    Ok {| rte_Signature := rte_Signature e; rte_Transaction := m |}
  else Ok e.

(* ------------------------------------------------------------------ *)
(** ** Signatures *)

(** The parity, r and s of a signature; [yParity] before the legacy [v]. *)
Definition decodeSignature (signature : rawTransactionSignature) : result (Z * Z * Z) :=
  let! r := wrap_err "parse signature.r" (parseBigIntJSON (rts_R signature)) in
  let! s := wrap_err "parse signature.s" (parseBigIntJSON (rts_S signature)) in
  let parity := if raw_empty (rts_YParity signature) then rts_V signature
                else rts_YParity signature in
  let! v := wrap_err "parse signature parity" (parseBigIntJSON parity) in
  Ok (v, r, s).

(** EIP-155 replay protection in [v]; the parity is never nil here. *)
Definition legacyV (chainID : option Z) (parity : Z) : Z :=
  match chainID with
  | None => parity + 27
  | Some c => if Z.sgn c =? 0 then parity + 27 else c * 2 + 35 + parity
  end.

Section Decode.
Context `{HexUtil} `{CoreTypes}.

(* ---------------------------------------------------------------- *)
(** ** Headers *)

Definition decodeL1Header (raw : RawMessage) : result Header :=
  let! fields := wrap_err "unmarshal header" (decodeJSONObject raw) in
  let! number := requireUint64 fields ["number"] in
  let! gasLimit := requireUint64 fields ["gas_limit"; "gasLimit"] in
  let! gasUsed := requireUint64 fields ["gas_used"; "gasUsed"] in
  let! timestamp := requireUint64 fields ["timestamp"] in
  let! difficulty := requireBigInt fields ["difficulty"] in
  let! logsBloom := requireBytes fields ["logs_bloom"; "logsBloom"] in
  let! extraData := requireBytes fields ["extra_data"; "extraData"] in
  let! parentHash := requireHash fields ["parent_hash"; "parentHash"] in
  let! ommersHash := requireHash fields ["ommers_hash"; "sha3Uncles"; "uncleHash"] in
  let! stateRoot := requireHash fields ["state_root"; "stateRoot"] in
  let! txRoot := requireHash fields ["transactions_root"; "transactionsRoot"] in
  let! receiptRoot := requireHash fields ["receipts_root"; "receiptsRoot"] in
  let! beneficiary := requireAddress fields ["beneficiary"; "miner"] in
  let! mixHash := requireHash fields ["mix_hash"; "mixHash"] in
  let! nonceBytes := requireBytes fields ["nonce"] in
  reject_if (negb (length nonceBytes =? 8)%nat) (Errorf "field nonce must be 8 bytes") ;;!
  let! baseFee := optionalBigInt fields ["base_fee_per_gas"; "baseFeePerGas"] in
  let! withdrawalsRoot := optionalHash fields ["withdrawals_root"; "withdrawalsRoot"] in
  let! blobGasUsed := optionalUint64Ptr fields ["blob_gas_used"; "blobGasUsed"] in
  let! excessBlobGas := optionalUint64Ptr fields ["excess_blob_gas"; "excessBlobGas"] in
  let! parentBeaconRoot :=
    optionalHash fields ["parent_beacon_block_root"; "parentBeaconBlockRoot"] in
  let! requestsHash := optionalHash fields ["requests_hash"; "requestsHash"] in
  let! slotNumber := optionalUint64Ptr fields ["slot_number"; "slotNumber"] in
  let! blockAccessListHash :=
    optionalHash fields ["block_access_list_hash"; "blockAccessListHash"] in
  Ok {|
    hd_ParentHash := parentHash;
    hd_UncleHash := ommersHash;
    hd_Coinbase := beneficiary;
    hd_Root := stateRoot;
    hd_TxHash := txRoot;
    hd_ReceiptHash := receiptRoot;
    hd_Bloom := BytesToBloom logsBloom;
    hd_Difficulty := Some difficulty;
    hd_Number := Some number;
    hd_GasLimit := gasLimit;
    hd_GasUsed := gasUsed;
    hd_Time := timestamp;
    hd_Extra := extraData;
    hd_MixDigest := mixHash;
    hd_Nonce := nonceBytes;
    hd_BaseFee := baseFee;
    hd_WithdrawalsHash := withdrawalsRoot;
    hd_BlobGasUsed := blobGasUsed;
    hd_ExcessBlobGas := excessBlobGas;
    hd_ParentBeaconRoot := parentBeaconRoot;
    hd_RequestsHash := requestsHash;
    hd_SlotNumber := slotNumber;
    hd_BlockAccessListHash := blockAccessListHash;
  |}.

Definition decodeHeader (raw : RawMessage) : result Header :=
  let! header := decodeL1Header raw in
  reject_if (match hd_BlockAccessListHash header with Some _ => true | None => false end)
    (Errorf "field block_access_list_hash is not supported by taiko-geth replay") ;;!
  Ok header.

(* ---------------------------------------------------------------- *)
(** ** Access lists and authorizations *)

Record rawAccessTuple := {
  rat_Address : string;
  rat_StorageKeys : list string;
  rat_StorageKeysLegacy : list string;
}.

(** Into [[]string]: a [null] element is the empty string. *)
Definition Unmarshal_string_list (v : json) : result (list string) :=
  let! items := Unmarshal_raw_list (Some v) in
  for_range (fun _ item => Unmarshal_string (Some item)) 0 (default [] items).

Definition access_tuple_member (t : rawAccessTuple) (key : string) (v : json)
  : result rawAccessTuple :=
  if field_matches "address" key then
    match v with
    | JNull => Ok t
    | _ =>
        let! a := Unmarshal_string (Some v) in
        Ok {| rat_Address := a; rat_StorageKeys := rat_StorageKeys t;
              rat_StorageKeysLegacy := rat_StorageKeysLegacy t |}
    end
  else if field_matches "storageKeys" key then
    let! l := Unmarshal_string_list v in
    Ok {| rat_Address := rat_Address t; rat_StorageKeys := l;
          rat_StorageKeysLegacy := rat_StorageKeysLegacy t |}
  else if field_matches "storage_keys" key then
    let! l := Unmarshal_string_list v in
    Ok {| rat_Address := rat_Address t; rat_StorageKeys := rat_StorageKeys t;
          rat_StorageKeysLegacy := l |}
  else Ok t.

Definition Unmarshal_access_tuple (v : json) : result rawAccessTuple :=
  let! members := struct_members (Some v) in
  decode_members access_tuple_member
    {| rat_Address := ""; rat_StorageKeys := []; rat_StorageKeysLegacy := [] |} members.

Definition decode_access_tuple (item : rawAccessTuple) : result AccessTuple :=
  let keys := match rat_StorageKeys item with
              | [] => rat_StorageKeysLegacy item
              | ks => ks
              end in
  let! storageKeys := for_range (fun _ key =>
    wrap_err "parse access list storage key" (parseHashString key)) 0 keys in
  let! address := wrap_err "parse access list address"
    (parseAddressString (rat_Address item)) in
  Ok {| at_Address := address; at_StorageKeys := storageKeys |}.

Definition optionalAccessList (fields : Fields) (names : list string)
  : result (option (list AccessTuple)) :=
  match lookupField fields names with
  | None | Some JNull => Ok None
  | Some raw =>
      let! decoded := wrap_err (parse_field names)
        (let! items := Unmarshal_raw_list (Some raw) in
         for_range (fun _ item => Unmarshal_access_tuple item) 0 (default [] items)) in
      let! accessList := for_range (fun _ item => decode_access_tuple item) 0 decoded in
      Ok (Some accessList)
  end.

Definition decode_authorization (names : list string) (item : json)
  : result SetCodeAuthorization :=
  let! authorizationFields := wrap_err (parse_field names) (decodeJSONObject (Some item)) in
  let! inner := some_or (lookupField authorizationFields ["inner"])
    (missing_field ["inner"]) in
  reject_if (isEmptyOrNullRawMessage (Some inner)) (missing_field ["inner"]) ;;!
  let! innerFields := wrap_err (parse_field names) (decodeJSONObject (Some inner)) in
  let! chainID := wrap_err (parse_field names)
    (requireUint256 innerFields ["chain_id"; "chainId"]) in
  let! address := wrap_err (parse_field names) (requireAddress innerFields ["address"]) in
  let! nonce := wrap_err (parse_field names) (requireUint64 innerFields ["nonce"]) in
  let! parity := wrap_err (parse_field names)
    (requireUint64 authorizationFields ["yParity"; "v"]) in
  reject_if (parity >? 255) (Errorf "yParity exceeds uint8") ;;!
  let! r := wrap_err (parse_field names) (requireUint256 authorizationFields ["r"]) in
  let! s := wrap_err (parse_field names) (requireUint256 authorizationFields ["s"]) in
  Ok {| sa_ChainID := chainID; sa_Address := address; sa_Nonce := nonce;
        sa_V := parity; sa_R := r; sa_S := s |}.

Definition requireSetCodeAuthorizations (fields : Fields) (names : list string)
  : result (list SetCodeAuthorization) :=
  match lookupField fields names with
  | None | Some JNull => Err (missing_field names)
  | Some raw =>
      let! encoded := wrap_err (parse_field names) (Unmarshal_raw_list (Some raw)) in
      for_range (fun _ item => decode_authorization names item) 0 (default [] encoded)
  end.

(* ---------------------------------------------------------------- *)
(** ** Transactions *)

Definition decodeAccessListTransaction (raw : RawMessage)
  (signature : rawTransactionSignature) : result Transaction :=
  let! fields := wrap_err "unmarshal Eip2930 transaction" (decodeJSONObject raw) in
  let! chainID := requireBigInt fields ["chain_id"; "chainId"] in
  let! nonce := requireUint64 fields ["nonce"] in
  let! gasPrice := requireBigInt fields ["gas_price"; "gasPrice"] in
  let! gasLimit := requireUint64 fields ["gas_limit"; "gas"] in
  let! to := optionalAddress fields ["to"] in
  let! value := optionalBigIntWithDefault fields ["value"] in
  let! input := requireBytes fields ["input"; "data"] in
  let! accessList := optionalAccessList fields ["access_list"; "accessList"] in
  let! vrs := decodeSignature signature in
  let '(v, r, s) := vrs in
  Ok (NewTx (AccessListTx chainID nonce gasPrice gasLimit to value input accessList v r s)).

Definition decodeSetCodeTransaction (raw : RawMessage)
  (signature : rawTransactionSignature) : result Transaction :=
  let! fields := wrap_err "unmarshal Eip7702 transaction" (decodeJSONObject raw) in
  let! chainID := requireUint256 fields ["chain_id"; "chainId"] in
  let! nonce := requireUint64 fields ["nonce"] in
  let! gasTipCap :=
    requireUint256 fields ["max_priority_fee_per_gas"; "maxPriorityFeePerGas"] in
  let! gasFeeCap := requireUint256 fields ["max_fee_per_gas"; "maxFeePerGas"] in
  let! gasLimit := requireUint64 fields ["gas_limit"; "gas"] in
  let! to := requireAddress fields ["to"] in
  let! value := optionalUint256WithDefault fields ["value"] in
  let! input := requireBytes fields ["input"; "data"] in
  let! accessList := optionalAccessList fields ["access_list"; "accessList"] in
  let! authorizations :=
    requireSetCodeAuthorizations fields ["authorization_list"; "authorizationList"] in
  let! vrs := decodeSignature signature in
  let '(vBig, rBig, sBig) := vrs in
  let! v := bigIntToUint256 vBig "signature.yParity" in
  let! r := bigIntToUint256 rBig "signature.r" in
  let! s := bigIntToUint256 sBig "signature.s" in
  Ok (NewTx (SetCodeTx chainID nonce gasTipCap gasFeeCap gasLimit to value input accessList
    authorizations v r s)).

Definition decodeDynamicFeeTransaction (raw : RawMessage)
  (signature : rawTransactionSignature) : result Transaction :=
  let! fields := wrap_err "unmarshal Eip1559 transaction" (decodeJSONObject raw) in
  let! nonce := requireUint64 fields ["nonce"] in
  let! gasLimit := requireUint64 fields ["gas_limit"; "gas"] in
  let! chainID := requireBigInt fields ["chain_id"; "chainId"] in
  let! gasFeeCap := requireBigInt fields ["max_fee_per_gas"; "maxFeePerGas"] in
  let! gasTipCap :=
    requireBigInt fields ["max_priority_fee_per_gas"; "maxPriorityFeePerGas"] in
  let! value := optionalBigIntWithDefault fields ["value"] in
  let! input := requireBytes fields ["input"; "data"] in
  let! accessList := optionalAccessList fields ["access_list"; "accessList"] in
  let! to := optionalAddress fields ["to"] in
  let! vrs := decodeSignature signature in
  let '(v, r, s) := vrs in
  Ok (NewTx (DynamicFeeTx chainID nonce gasTipCap gasFeeCap gasLimit to value input
    accessList v r s)).

Definition decodeLegacyTransaction (raw : RawMessage)
  (signature : rawTransactionSignature) : result Transaction :=
  let! fields := wrap_err "unmarshal Legacy transaction" (decodeJSONObject raw) in
  let! nonce := requireUint64 fields ["nonce"] in
  let! gasLimit := requireUint64 fields ["gas_limit"; "gas"] in
  let! gasPrice := requireBigInt fields ["gas_price"; "gasPrice"] in
  let! value := optionalBigIntWithDefault fields ["value"] in
  let! input := requireBytes fields ["input"; "data"] in
  let! to := optionalAddress fields ["to"] in
  let! chainID := optionalBigInt fields ["chain_id"; "chainId"] in
  let! vrs := decodeSignature signature in
  let '(parity, r, s) := vrs in
  Ok (NewTx (LegacyTx nonce gasPrice gasLimit to value input (legacyV chainID parity) r s)).

Definition decodeTransaction (raw : RawMessage) : result Transaction :=
  let! envelope := wrap_err "unmarshal transaction envelope"
    (let! members := struct_members raw in
     decode_members transaction_envelope_member
       {| rte_Signature := empty_signature; rte_Transaction := ∅ |} members) in
  let variants := rte_Transaction envelope in
  let signature := rte_Signature envelope in
  match variants !! "Eip1559" with
  | Some encoded => decodeDynamicFeeTransaction (Some encoded) signature
  | None =>
  match variants !! "Eip2930" with
  | Some encoded => decodeAccessListTransaction (Some encoded) signature
  | None =>
  match variants !! "Eip7702" with
  | Some encoded => decodeSetCodeTransaction (Some encoded) signature
  | None =>
  match variants !! "Legacy" with
  | Some encoded => decodeLegacyTransaction (Some encoded) signature
  | None => Err (Errorf "unsupported transaction variants")
  end end end end.

Definition decodeTransactions (raws : list json) : result (list Transaction) :=
  for_range (fun _ rawTx => wrap_err "decode transaction" (decodeTransaction (Some rawTx)))
    0 raws.

(* ---------------------------------------------------------------- *)
(** ** Withdrawals *)

(** A [rawWithdrawal] is read member by member; every field is raw. *)
Definition decodeWithdrawal (raw : json) : result Withdrawal :=
  let! members := wrap_err "unmarshal withdrawal" (struct_members (Some raw)) in
  let! index := wrap_err "parse withdrawal index"
    (parseUint64JSON (raw_field "index" members)) in
  let validatorIndexRaw :=
    if raw_empty (raw_field "validatorIndex" members)
    then raw_field "validator_index" members
    else raw_field "validatorIndex" members in
  let! validatorIndex := wrap_err "parse withdrawal validator index"
    (parseUint64JSON validatorIndexRaw) in
  let! address := wrap_err "parse withdrawal address"
    (parseAddressJSON (raw_field "address" members)) in
  let! amount := wrap_err "parse withdrawal amount"
    (parseUint64JSON (raw_field "amount" members)) in
  Ok {| wd_Index := index; wd_Validator := validatorIndex; wd_Address := address;
        wd_Amount := amount |}.

Definition decodeWithdrawals (raws : option (list json))
  : result (option (list Withdrawal)) :=
  match raws with
  | None => Ok None
  | Some [] => Ok (Some [])
  | Some l => let! ws := for_range (fun _ raw => decodeWithdrawal raw) 0 l in Ok (Some ws)
  end.

(* ---------------------------------------------------------------- *)
(** ** Witnesses *)

Record rawWitness := {
  rw_State : list (list byte);
  rw_StateIndices : list Z;
  rw_Codes : list (list byte);
  rw_Headers : list json;
}.

(** [hexutil.Bytes.UnmarshalJSON]: a string, nothing else. *)
Definition Unmarshal_hexutil_bytes (v : json) : result (list byte) :=
  match v with JStr s => hexutil_UnmarshalText s | _ => Err unmarshal_error end.

Definition Unmarshal_hexutil_bytes_list (v : json) : result (list (list byte)) :=
  let! items := Unmarshal_raw_list (Some v) in
  for_range (fun _ item => Unmarshal_hexutil_bytes item) 0 (default [] items).

Definition Unmarshal_uint32 (v : json) : result Z :=
  match v with
  | JNull => Ok 0
  | JNum literal => ParseUint literal 10 32
  | _ => Err unmarshal_error
  end.

Definition Unmarshal_uint32_list (v : json) : result (list Z) :=
  let! items := Unmarshal_raw_list (Some v) in
  for_range (fun _ item => Unmarshal_uint32 item) 0 (default [] items).

Definition witness_member (w : rawWitness) (key : string) (v : json) : result rawWitness :=
  if field_matches "state" key then
    let! l := Unmarshal_hexutil_bytes_list v in
    Ok {| rw_State := l; rw_StateIndices := rw_StateIndices w; rw_Codes := rw_Codes w;
          rw_Headers := rw_Headers w |}
  else if field_matches "state_indices" key then
    let! l := Unmarshal_uint32_list v in
    Ok {| rw_State := rw_State w; rw_StateIndices := l; rw_Codes := rw_Codes w;
          rw_Headers := rw_Headers w |}
  else if field_matches "codes" key then
    let! l := Unmarshal_hexutil_bytes_list v in
    Ok {| rw_State := rw_State w; rw_StateIndices := rw_StateIndices w; rw_Codes := l;
          rw_Headers := rw_Headers w |}
  else if field_matches "headers" key then
    let! l := Unmarshal_raw_list (Some v) in
    Ok {| rw_State := rw_State w; rw_StateIndices := rw_StateIndices w;
          rw_Codes := rw_Codes w; rw_Headers := default [] l |}
  else Ok w.

(** A [rawWitnessHeader] holds two raw messages, so it decodes from any
    object and from [null]. *)
Definition witness_header_member (raw : json) : result json :=
  let compact := Errorf
    "witness header is not a full header; compact replay ancestors are not accepted" in
  match struct_members (Some raw) with
  | Err _ => Err compact
  | Ok members =>
      match raw_field "header" members with
      | None | Some JNull => Err compact
      | Some header => Ok header
      end
  end.

(** Producers list the ancestors oldest first; the result is parent first. *)
Definition decodeWitnessHeaders (raws : list json) : result (list Header) :=
  reject_if (length raws =? 0)%nat
    (Errorf "witness must include at least one ancestor header") ;;!
  let! headers := for_range (fun _ raw =>
    let! header := witness_header_member raw in
    wrap_err "decode witness header" (decodeHeader (Some header))) 0 raws in
  Ok (rev headers).

Definition decodeWitness (raw : RawMessage) : result Witness :=
  let! decoded := wrap_err "unmarshal witness"
    (let! members := struct_members raw in
     decode_members witness_member
       {| rw_State := []; rw_StateIndices := []; rw_Codes := []; rw_Headers := [] |}
       members) in
  reject_if (0 <? length (rw_StateIndices decoded))%nat
    (Errorf "witness contains state_indices; adapter must expand shared state nodes first") ;;!
  let! fullHeaders := decodeWitnessHeaders (rw_Headers decoded) in
  Ok {| wt_Headers := fullHeaders;
        wt_Codes := list_to_set (rw_Codes decoded);
        wt_State := list_to_set (rw_State decoded) |}.

(* ---------------------------------------------------------------- *)
(** ** Replay blocks *)

Definition decodeReplayBlock (replay : ReplayBlock) : result (Block * Witness) :=
  let! decoded := decodeBlockEnvelope (rb_Block replay) in
  let! header := decodeHeader (rbe_Header decoded) in
  let! txs := decodeTransactions (default [] (rbb_Transactions (rbe_Body decoded))) in
  let! uncles := for_range (fun _ rawUncle =>
    wrap_err "decode ommer" (decodeHeader (Some rawUncle)))
    0 (default [] (rbb_Ommers (rbe_Body decoded))) in
  let! withdrawals := decodeWithdrawals (rbb_Withdrawals (rbe_Body decoded)) in
  let! witness := decodeWitness (rb_Witness replay) in
  Ok ({| blk_Header := header; blk_Transactions := txs; blk_Uncles := uncles;
         blk_Withdrawals := withdrawals |}, witness).

Definition decodeBlock (block : ReplayBlock) : result BlockView :=
  let! decoded := decodeBlockEnvelope (rb_Block block) in
  let! header := decodeHeader (rbe_Header decoded) in
  Ok {|
    bv_Number := number_u64 header;
    bv_Hash := Header_Hash header;
    bv_ParentHash := hd_ParentHash header;
    bv_StateRoot := hd_Root header;
    bv_ReceiptsRoot := hd_ReceiptHash header;
  |}.
End Decode.

(* ------------------------------------------------------------------ *)
(** ** What the decoders return *)

Section Decoded.
Context `{HexUtil} `{CoreTypes}.

(** The number and the difficulty are always set, and every integer is in
    the range of its Go type. *)
Record decoded_header (h : Header) : Prop := {
  dh_number : exists n, hd_Number h = Some n /\ is_u64 n;
  dh_difficulty : is_Some (hd_Difficulty h);
  dh_parent : is_hash (hd_ParentHash h);
  dh_root : is_hash (hd_Root h);
  dh_receipts : is_hash (hd_ReceiptHash h);
  dh_mix : is_hash (hd_MixDigest h);
  dh_coinbase : is_address (hd_Coinbase h);
  dh_time : is_u64 (hd_Time h);
  dh_gas : is_u64 (hd_GasLimit h);
  dh_nonce : length (hd_Nonce h) = 8%nat;
}.

Lemma decodeL1Header_decoded raw h : decodeL1Header raw = Ok h -> decoded_header h.
Proof.
  unfold decodeL1Header. intros Hd. go_ok. constructor; cbn; eauto with ranges.
Qed.

Lemma decodeHeader_decoded raw h : decodeHeader raw = Ok h -> decoded_header h.
Proof. unfold decodeHeader. intros Hd. go_inv. by eapply decodeL1Header_decoded. Qed.

Lemma decodeHeader_number raw h : decodeHeader raw = Ok h -> hd_Number h = Some (number_u64 h).
Proof.
  intros Hd. destruct (dh_number _ (decodeHeader_decoded _ _ Hd)) as (n & Hn & Hr).
  unfold number_u64. rewrite Hn. simpl. by rewrite big_Uint64_small.
Qed.

(** [decodeBlock] and [decodeReplayBlock] read the same header. *)
Lemma decodeReplayBlock_view replay b w view :
  decodeReplayBlock replay = Ok (b, w) -> decodeBlock replay = Ok view ->
  view = {| bv_Number := blk_NumberU64 b; bv_Hash := blk_Hash b;
            bv_ParentHash := hd_ParentHash (blk_Header b);
            bv_StateRoot := hd_Root (blk_Header b);
            bv_ReceiptsRoot := hd_ReceiptHash (blk_Header b) |}.
Proof. unfold decodeReplayBlock, decodeBlock. intros Hr Hb. go_inv. by repeat match goal with
  | A : ?x = Ok _, B : ?x = Ok _ |- _ => rewrite A in B; injection B as ->
  end. Qed.

Lemma decodeReplayBlock_header replay b w :
  decodeReplayBlock replay = Ok (b, w) -> decoded_header (blk_Header b).
Proof. unfold decodeReplayBlock. intros Hr. go_inv. by eapply decodeHeader_decoded. Qed.

Lemma decodeWitness_headers raw w :
  decodeWitness raw = Ok w -> wt_Headers w <> [] /\ Forall decoded_header (wt_Headers w).
Proof.
  unfold decodeWitness, decodeWitnessHeaders. intros Hd. go_ok. cbn.
  match goal with H : for_range _ _ _ = Ok ?l |- _ =>
    pose proof (for_range_length _ _ _ _ H) as Hl; apply for_range_ok in H as [_ Hf];
    rename l into hs end.
  split.
  - intros Hn. apply (f_equal length) in Hn. rewrite length_rev in Hn. simpl in Hn. lia.
  - apply Forall_rev, Forall_lookup. intros i h Hi.
    destruct (lookup_lt_is_Some_2 (rw_Headers a) i) as [r Hr].
    { apply lookup_lt_Some in Hi. lia. }
    specialize (Hf _ _ _ Hr Hi). go_inv. by eapply decodeHeader_decoded.
Qed.
End Decoded.

(* ------------------------------------------------------------------ *)
(** ** Headers on the wire *)

(** A header as the producers write it, in either style: a witnessed block has
    its header in the plain style; the origin and ancestor headers and those of
    a witness come from a node.  The difficulty is hexadecimal in both. *)
Definition header_members (st : wire_style) (h : Header) : list (string * option json) := [
  (key_name st "parent_hash" "parentHash", Some (hash_json (hd_ParentHash h)));
  (key_name st "ommers_hash" "sha3Uncles", Some (hash_json (hd_UncleHash h)));
  (key_name st "beneficiary" "miner", Some (address_json (hd_Coinbase h)));
  (key_name st "state_root" "stateRoot", Some (hash_json (hd_Root h)));
  (key_name st "transactions_root" "transactionsRoot", Some (hash_json (hd_TxHash h)));
  (key_name st "receipts_root" "receiptsRoot", Some (hash_json (hd_ReceiptHash h)));
  (key_name st "logs_bloom" "logsBloom", Some (bytes_json (hd_Bloom h)));
  ("difficulty", hex_json <$> hd_Difficulty h);
  ("number", quantity st <$> hd_Number h);
  (key_name st "gas_limit" "gasLimit", Some (quantity st (hd_GasLimit h)));
  (key_name st "gas_used" "gasUsed", Some (quantity st (hd_GasUsed h)));
  ("timestamp", Some (quantity st (hd_Time h)));
  (key_name st "extra_data" "extraData", Some (bytes_json (hd_Extra h)));
  (key_name st "mix_hash" "mixHash", Some (hash_json (hd_MixDigest h)));
  ("nonce", Some (bytes_json (hd_Nonce h)));
  (key_name st "base_fee_per_gas" "baseFeePerGas", optional st (quantity st) (hd_BaseFee h));
  (key_name st "withdrawals_root" "withdrawalsRoot",
     optional st hash_json (hd_WithdrawalsHash h));
  (key_name st "blob_gas_used" "blobGasUsed", optional st (quantity st) (hd_BlobGasUsed h));
  (key_name st "excess_blob_gas" "excessBlobGas",
     optional st (quantity st) (hd_ExcessBlobGas h));
  (key_name st "parent_beacon_block_root" "parentBeaconBlockRoot",
     optional st hash_json (hd_ParentBeaconRoot h));
  (key_name st "requests_hash" "requestsHash", optional st hash_json (hd_RequestsHash h));
  (key_name st "slot_number" "slotNumber", optional st (quantity st) (hd_SlotNumber h));
  (key_name st "block_access_list_hash" "blockAccessListHash",
     optional st hash_json (hd_BlockAccessListHash h))].

Definition header_json (st : wire_style) (h : Header) : json :=
  JObj (present (header_members st h)).

(** The document writes the header in some style, its members in any order. *)
Definition writes_header (raw : json) (h : Header) : Prop :=
  exists st members, raw = JObj members /\ members ≡ₚ present (header_members st h).

(** The ranges of the Go types, with a number and a difficulty. *)
Definition typed_header (h : Header) : Prop :=
  (is_hash (hd_ParentHash h) /\ is_hash (hd_UncleHash h) /\ is_address (hd_Coinbase h) /\
   is_hash (hd_Root h) /\ is_hash (hd_TxHash h) /\ is_hash (hd_ReceiptHash h) /\
   is_hash (hd_MixDigest h)) /\
  (length (hd_Bloom h) = 256%nat /\ length (hd_Nonce h) = 8%nat) /\
  (is_u64 (hd_GasLimit h) /\ is_u64 (hd_GasUsed h) /\ is_u64 (hd_Time h)) /\
  (is_Some (hd_Number h) /\ is_Some (hd_Difficulty h)) /\
  from_option is_u64 True (hd_Number h) /\
  from_option (Z.le 0) True (hd_Difficulty h) /\
  from_option (Z.le 0) True (hd_BaseFee h) /\
  from_option is_hash True (hd_WithdrawalsHash h) /\
  from_option is_u64 True (hd_BlobGasUsed h) /\
  from_option is_u64 True (hd_ExcessBlobGas h) /\
  from_option is_hash True (hd_ParentBeaconRoot h) /\
  from_option is_hash True (hd_RequestsHash h) /\
  from_option is_u64 True (hd_SlotNumber h) /\
  from_option is_hash True (hd_BlockAccessListHash h).

Lemma from_option_some {A} (P : A -> Prop) o : from_option P True o -> forall v, o = Some v -> P v.
Proof. by intros Ho v ->. Qed.

Section HeaderWire.
Context `{HexUtil} `{CoreTypes}.

Lemma header_keys_NoDup st h : NoDup (header_members st h).*1.
Proof.
  destruct st as [camel hex omit]. unfold header_members, key_name. cbn [ws_camel fmap list_fmap fst].
  destruct camel; apply (bool_decide_unpack _); vm_compute; exact I.
Qed.

(** What the decoder finds in a document that writes the header. *)
Lemma header_lookup st h members names :
  members ≡ₚ present (header_members st h) ->
  lookupField (object_map members) names =
  fold_right (fun name later => match member name (header_members st h) with
    | Some raw => Some raw | None => later end) None names.
Proof.
  intros Hp. rewrite (object_map_perm _ (present (header_members st h))); [|rewrite Hp|done].
  2:{ apply present_NoDup, header_keys_NoDup. }
  induction names as [|name names IH]; [done|]. rewrite lookupField_cons, IH.
  by rewrite object_map_present by apply header_keys_NoDup.
Qed.

Ltac found :=
  first [ match goal with Hl : forall names, lookupField _ names = _ |- lookupField _ _ = _ =>
            rewrite Hl; first [reflexivity | cbn -[optional]; rewrite option_id; reflexivity] end
        | done | by apply from_option_some ].

Lemma decodeL1Header_json (Hhex : hexutil_reads_hex) raw h :
  typed_header h -> writes_header raw h -> decodeL1Header (Some raw) = Ok h.
Proof.
  intros ((? & ? & ? & ? & ? & ? & ?) & (Hbloom & Hnonce) & (? & ? & ?) &
    ((n & Hn) & (d & Hd)) & Hn' & Hd' & ? & ? & ? & ? & ? & ? & ? & ?)
    (st & members & -> & Hp).
  rewrite Hn in Hn'. rewrite Hd in Hd'. cbn [from_option] in Hn', Hd'.
  pose proof (fun names => header_lookup st h members names Hp) as Hl.
  unfold decodeL1Header, decodeJSONObject. cbn [res_bind wrap_err].
  generalize dependent (object_map members). intros fields Hl.
  unfold header_members, key_name in Hl. rewrite Hn, Hd in Hl.
  destruct (ws_camel st);
  repeat first
    [ progress cbn [reject_if res_bind wrap_err]
    | erewrite (requireUint64_written st) by found
    | erewrite requireHash_hex by found
    | erewrite requireAddress_hex by found
    | erewrite requireBytes_hex by found
    | erewrite requireBigInt_hex by found
    | erewrite (optionalBigInt_written st) by found
    | erewrite (optionalUint64Ptr_written st) by found
    | erewrite (optionalHash_written st) by found
    | rewrite Hnonce; cbn [Nat.eqb negb] ];
  rewrite BytesToBloom_256 by done; f_equal; destruct h; cbn in *; congruence.
Qed.
(** C38 (headers are decoded faithfully): every document that writes a header,
    in the plain style of the witnessed blocks or the style of a node's
    JSON-RPC interface, with its members in any order, is read back unchanged,
    every field in its place, by [decodeL1Header], and by [decodeHeader] unless
    the header commits to a block access list: those are refused, because
    replay does not support them.  Whatever document [decodeHeader] accepts,
    the result has its number and difficulty, holds values of the Go field
    types, and commits to no access list. *)
Theorem decodeHeader_roundtrip (Hhex : hexutil_reads_hex) h (Ht : typed_header h) raw
  (Hw : writes_header raw h) :
  decodeL1Header (Some raw) = Ok h /\
  (hd_BlockAccessListHash h = None -> decodeHeader (Some raw) = Ok h) /\
  (is_Some (hd_BlockAccessListHash h) -> is_ok (decodeHeader (Some raw)) = false) /\
  (forall raw' h', decodeHeader raw' = Ok h' ->
     decoded_header h' /\ hd_BlockAccessListHash h' = None).
Proof.
  pose proof (decodeL1Header_json Hhex raw h Ht Hw) as Hd. unfold decodeHeader. rewrite Hd.
  cbn [res_bind]. split; [done|]. split; [by intros ->|]. split; [by intros [v ->]|].
  intros raw' h' Hd'. go_inv. split; [by eapply decodeL1Header_decoded|].
  by destruct (hd_BlockAccessListHash h').
Qed.
End HeaderWire.

Lemma writes_header_json st h : writes_header (header_json st h) h.
Proof. by exists st, (present (header_members st h)). Qed.

Lemma decodeHeader_roundtrip_witness :
  @decodeHeader sample_hexutil sample_core_types
    (Some (header_json rpc_style (sample_header 5 7 8))) = Ok (sample_header 5 7 8).
Proof.
  apply (@decodeHeader_roundtrip sample_hexutil sample_core_types sample_hexutil_reads
    (sample_header 5 7 8)); [|apply writes_header_json|reflexivity].
  unfold typed_header. cbn. unfold is_uint.
  repeat split; try (eexists; reflexivity); vm_compute; congruence.
Defined.
