(* ===== verification/Fixtures.v ===== *)
(** * Concrete documents

    A small guest input, written as the producers write it and built from a
    proposal, its blocks and their parents.  The theorems are applied to it
    with the instances of Samples. *)

From S2P Require Import Prelude Bytes GoStd Json External Types CoreTypes Samples Hash.
From S2P Require Import Proposal Decode.

#[local] Open Scope string_scope.
#[local] Open Scope Z_scope.

Definition blob_slice_json (b : shastaBlobSliceView) : json := JObj [
  ("blobHashes", JArr (hash_json <$> bs_BlobHashes b));
  ("offset", hex_json (bs_Offset b));
  ("timestamp", hex_json (bs_Timestamp b))].

Definition source_json (s : shastaDerivationSourceView) : json := JObj [
  ("isForcedInclusion", JBool (ds_IsForcedInclusion s));
  ("blobSlice", blob_slice_json (ds_BlobSlice s))].

Definition proposal_json (p : shastaProposalView) : json := JObj [
  ("id", hex_json (sp_ID p));
  ("timestamp", hex_json (sp_Timestamp p));
  ("endOfSubmissionWindowTimestamp", hex_json (sp_EndOfSubmissionWindowTimestamp p));
  ("proposer", address_json (sp_Proposer p));
  ("parentProposalHash", hash_json (sp_ParentProposalHash p));
  ("originBlockNumber", hex_json (sp_OriginBlockNumber p));
  ("originBlockHash", hash_json (sp_OriginBlockHash p));
  ("basefeeSharingPctg", num_json (sp_BasefeeSharingPctg p));
  ("sources", JArr (source_json <$> sp_Sources p))].

(** The [taiko] object of a guest input. *)
Definition taiko_json (p : shastaProposalView) (prover lastAnchor : Z) (sources : list json)
  (l1Header : Header) (l1Ancestors : list Header) : json := JObj [
  ("proposal_id", num_json (sp_ID p));
  ("chain_spec", JObj [("chain_id", num_json 1)]);
  ("proposal_event", JObj [("proposal", proposal_json p)]);
  ("prover_data", JObj [
    ("actual_prover", address_json prover);
    ("last_anchor_block_number", num_json lastAnchor)]);
  ("data_sources", JArr sources);
  ("l1_header", header_json rpc_style l1Header);
  ("l1_ancestor_headers", JArr (header_json rpc_style <$> l1Ancestors))].

(** A dynamic fee transaction on the wire. *)
Definition dynamic_fee_json (chainID nonce tip cap gas to value : Z) (input : list byte)
  (v r s : Z) : json := JObj [
  ("signature", JObj [
    ("r", hex_json r); ("s", hex_json s); ("yParity", hex_json v); ("v", hex_json v)]);
  ("transaction", JObj [("Eip1559", JObj [
    ("chain_id", num_json chainID); ("nonce", num_json nonce);
    ("max_priority_fee_per_gas", num_json tip); ("max_fee_per_gas", num_json cap);
    ("gas_limit", num_json gas); ("to", address_json to); ("value", hex_json value);
    ("input", bytes_json input); ("access_list", JArr [])])])].

(** A witness: a block with its body, and the headers before it, oldest first. *)
Definition witness_json (chainID : Z) (store : Z) (h : Header) (txs : list json)
  (ancestors : list Header) (state : list (list byte)) : json := JObj [
  ("block", JObj [
    ("header", header_json plain_style h);
    ("body", JObj [("transactions", JArr txs); ("ommers", JArr []);
                   ("withdrawals", JArr [])])]);
  ("chain_spec", JObj [("chain_id", num_json chainID);
                       ("checkpoint_store_contract", address_json store)]);
  ("witness", JObj [
    ("state", JArr (bytes_json <$> state));
    ("codes", JArr []);
    ("headers", JArr ((fun a => JObj [("header", header_json rpc_style a)]) <$> ancestors))]);
  ("accounts", JObj [])].

Definition sample_proposal : shastaProposalView := {|
  sp_ID := 7;
  sp_Timestamp := 1700000300;
  sp_EndOfSubmissionWindowTimestamp := 1700000400;
  sp_Proposer := 0x88;
  sp_ParentProposalHash := 6;
  sp_OriginBlockNumber := 500;
  sp_OriginBlockHash := 77;
  sp_BasefeeSharingPctg := 75;
  sp_Sources := [{|
    ds_IsForcedInclusion := false;
    ds_BlobSlice := {| bs_BlobHashes := []; bs_Offset := 0; bs_Timestamp := 1700000299 |} |}];
|}.
