(* ===== verification/GuestInput.v ===== *)
(** * Guest inputs

    [internal/prover/guestinput.go] with [ValidateGuestInputCarry] of
    [guestinput_carry.go]: a request's guest input is decoded into a view, and
    the proof carry data it ships is compared, field by field, with the
    proposal, the first block, the last block and the prover data. *)

From S2P Require Import Abi.
From S2P Require Import Prelude Bytes GoStd Json External Types CoreTypes Samples Hash.
From S2P Require Import Proposal Decode Fixtures.

#[local] Open Scope string_scope.
#[local] Open Scope Z_scope.

(** [protocol.ShastaGuestInput]. *)
Record ShastaGuestInput := {
  gi_Witnesses : list json;
  gi_Taiko : RawMessage;
  gi_ProposalAncestorHeaders : list json;
  gi_ProposalStateNodes : list json;
  gi_ProofCarryData : RawMessage;
}.

Record GuestInputWitnessView := {
  wv_Raw : json;
  wv_BlockRaw : RawMessage;
  wv_ChainSpecRaw : RawMessage;
  wv_ChainID : Z;
  wv_ChainIDPresent : bool;
  wv_WitnessRaw : RawMessage;
  wv_AccountsRaw : RawMessage;
  wv_ReplayBlock : ReplayBlock;
}.

Record GuestInputTaikoView := {
  tk_ProposalID : Z;
  tk_ProposalEventProposalID : Z;
  tk_ChainID : Z;
  tk_ChainIDPresent : bool;
  tk_DataSourcesRaw : list json;
  tk_DataSourceCount : nat;
}.

Record GuestInputView := {
  gv_Raw : ShastaGuestInput;
  gv_Blocks : list BlockView;
  gv_Carry : CarryView;
  gv_GuestInputChainID : Z;
  gv_CarryChainID : Z;
  gv_Witnesses : list GuestInputWitnessView;
  gv_TaikoRaw : RawMessage;
  gv_Taiko : GuestInputTaikoView;
  gv_DataSourcesRaw : list json;
  gv_DataSourceCount : nat;
}.

(** The chain id of a chain specification, and whether it has one. *)
Definition decodeGuestInputChainID (raw : RawMessage) : result (Z * bool) :=
  if isEmptyOrNullRawMessage raw then Ok (0, false)
  else
    let! fields := decodeJSONObject raw in
    match lookupField fields ["chain_id"; "chainId"] with
    | None => Ok (0, false)
    | Some rawChainID =>
        let! chainID := wrap_err "parse chain_id" (parseUint64JSON (Some rawChainID)) in
        Ok (chainID, true)
    end.

(* ------------------------------------------------------------------ *)
(** ** The [taiko] object *)

Record rawGuestInputTaiko := {
  rgt_ProposalID : RawMessage;
  rgt_ChainSpec : RawMessage;
  rgt_ProposalEvent_Proposal_ID : RawMessage;
  rgt_DataSources : list json;
}.

Definition taiko_proposal_member (id : RawMessage) (key : string) (v : json)
  : result RawMessage :=
  Ok (if field_matches "id" key then Some v else id).

Definition taiko_event_member (id : RawMessage) (key : string) (v : json)
  : result RawMessage :=
  if field_matches "proposal" key then
    let! members := struct_members (Some v) in
    decode_members taiko_proposal_member id members
  else Ok id.

Definition taiko_member (t : rawGuestInputTaiko) (key : string) (v : json)
  : result rawGuestInputTaiko :=
  if field_matches "proposal_id" key then
    Ok {| rgt_ProposalID := Some v; rgt_ChainSpec := rgt_ChainSpec t;
          rgt_ProposalEvent_Proposal_ID := rgt_ProposalEvent_Proposal_ID t;
          rgt_DataSources := rgt_DataSources t |}
  else if field_matches "chain_spec" key then
    Ok {| rgt_ProposalID := rgt_ProposalID t; rgt_ChainSpec := Some v;
          rgt_ProposalEvent_Proposal_ID := rgt_ProposalEvent_Proposal_ID t;
          rgt_DataSources := rgt_DataSources t |}
  else if field_matches "proposal_event" key then
    let! members := struct_members (Some v) in
    let! id := decode_members taiko_event_member (rgt_ProposalEvent_Proposal_ID t) members in
    Ok {| rgt_ProposalID := rgt_ProposalID t; rgt_ChainSpec := rgt_ChainSpec t;
          rgt_ProposalEvent_Proposal_ID := id; rgt_DataSources := rgt_DataSources t |}
  else if field_matches "data_sources" key then
    let! l := Unmarshal_raw_list (Some v) in
    Ok {| rgt_ProposalID := rgt_ProposalID t; rgt_ChainSpec := rgt_ChainSpec t;
          rgt_ProposalEvent_Proposal_ID := rgt_ProposalEvent_Proposal_ID t;
          rgt_DataSources := default [] l |}
  else Ok t.

(** [if len(raw) != 0 { value, err := parseUint64JSON(raw) ... }]. *)
Definition uint64_unless_empty (msg : string) (raw : RawMessage) : result Z :=
  if raw_empty raw then Ok 0 else wrap_err msg (parseUint64JSON raw).

Definition decodeGuestInputTaiko (raw : RawMessage) : result GuestInputTaikoView :=
  reject_if (isEmptyOrNullRawMessage raw) (Errorf "missing or null taiko") ;;!
  let! decoded := wrap_err "unmarshal taiko"
    (let! members := struct_members raw in
     decode_members taiko_member
       {| rgt_ProposalID := None; rgt_ChainSpec := None;
          rgt_ProposalEvent_Proposal_ID := None; rgt_DataSources := [] |} members) in
  let! proposalID := uint64_unless_empty "parse taiko.proposal_id" (rgt_ProposalID decoded) in
  let! proposalEventProposalID :=
    uint64_unless_empty "parse taiko.proposal_event.proposal.id"
      (rgt_ProposalEvent_Proposal_ID decoded) in
  let! chain := wrap_err "decode taiko.chain_spec"
    (decodeGuestInputChainID (rgt_ChainSpec decoded)) in
  Ok {|
    tk_ProposalID := proposalID;
    tk_ProposalEventProposalID := proposalEventProposalID;
    tk_ChainID := chain.1;
    tk_ChainIDPresent := chain.2;
    tk_DataSourcesRaw := rgt_DataSources decoded;
    tk_DataSourceCount := length (rgt_DataSources decoded);
  |}.

Section GuestInput.
Context `{HexUtil} `{CoreTypes}.

(* ---------------------------------------------------------------- *)
(** ** Decoding *)

Definition decodeGuestInputWitness (raw : json) : result (GuestInputWitnessView * BlockView) :=
  let! members := wrap_err "unmarshal witness" (struct_members (Some raw)) in
  let replay := {|
    rb_Block := raw_field "block" members;
    rb_ChainSpec := raw_field "chain_spec" members;
    rb_Witness := raw_field "witness" members;
    rb_Accounts := raw_field "accounts" members;
  |} in
  reject_if (isEmptyOrNullRawMessage (rb_Block replay))
    (Errorf "missing or null witness.block") ;;!
  reject_if (isEmptyOrNullRawMessage (rb_ChainSpec replay))
    (Errorf "missing or null witness.chain_spec") ;;!
  reject_if (isEmptyOrNullRawMessage (rb_Witness replay))
    (Errorf "missing or null witness.witness") ;;!
  reject_if (isEmptyOrNullRawMessage (rb_Accounts replay))
    (Errorf "missing or null witness.accounts") ;;!
  let! block := decodeBlock replay in
  let! chain := wrap_err "decode witness.chain_spec"
    (decodeGuestInputChainID (rb_ChainSpec replay)) in
  Ok ({|
    wv_Raw := raw;
    wv_BlockRaw := rb_Block replay;
    wv_ChainSpecRaw := rb_ChainSpec replay;
    wv_ChainID := chain.1;
    wv_ChainIDPresent := chain.2;
    wv_WitnessRaw := rb_Witness replay;
    wv_AccountsRaw := rb_Accounts replay;
    wv_ReplayBlock := replay;
  |}, block).

(** The first witness's chain id, else the one of [taiko], else 0. *)
Definition guest_input_chain_id (first : GuestInputWitnessView) (taiko : GuestInputTaikoView)
  : Z :=
  if wv_ChainIDPresent first then wv_ChainID first
  else if tk_ChainIDPresent taiko then tk_ChainID taiko
  else 0.

Definition DecodeGuestInput (input : ShastaGuestInput) : result GuestInputView :=
  reject_if (length (gi_Witnesses input) =? 0)%nat
    (Errorf "guest input must include at least one witness") ;;!
  let! decoded := for_range (fun _ raw =>
    wrap_err "decode guest input witness" (decodeGuestInputWitness raw))
    0 (gi_Witnesses input) in
  let witnesses := fst <$> decoded in
  let blocks := snd <$> decoded in
  let! carry := decodeCarryStrict (gi_ProofCarryData input) in
  let! taiko := decodeGuestInputTaiko (gi_Taiko input) in
  Ok {|
    gv_Raw := input;
    gv_Blocks := blocks;
    gv_Carry := carry;
    gv_GuestInputChainID :=
      default 0 ((fun first => guest_input_chain_id first taiko) <$> head witnesses);
    gv_CarryChainID := cv_ChainID carry;
    gv_Witnesses := witnesses;
    gv_TaikoRaw := gi_Taiko input;
    gv_Taiko := taiko;
    gv_DataSourcesRaw := tk_DataSourcesRaw taiko;
    gv_DataSourceCount := tk_DataSourceCount taiko;
  |}.

(* ---------------------------------------------------------------- *)
(** ** The carry binding *)

Context `{Keccak} `{Abi}.

Definition ValidateGuestInputCarry (view : option GuestInputView) : result unit :=
  let! view := some_or view (Errorf "guest input view is nil") in
  let carry := gv_Carry view in
  let input := cv_TransitionInput carry in
  reject_if (length (gv_Witnesses view) =? 0)%nat
    (Errorf "guest input must include at least one witness") ;;!
  reject_if (gv_GuestInputChainID view =? 0) (Errorf "guest input chain id is missing") ;;!
  reject_if (negb (cv_ChainID carry =? gv_GuestInputChainID view))
    (Errorf "chain_id mismatch") ;;!
  reject_if (negb (ti_ProposalID input =? tk_ProposalID (gv_Taiko view)))
    (Errorf "proposal_id mismatch") ;;!
  reject_if (negb (tk_ProposalID (gv_Taiko view) =?
                   tk_ProposalEventProposalID (gv_Taiko view)))
    (Errorf "taiko proposal_id mismatch") ;;!
  let! proposal := decodeGuestInputTaikoProposal (gv_TaikoRaw view) in
  reject_if (negb (ti_ProposalID input =? sp_ID proposal) ||
             negb (tk_ProposalID (gv_Taiko view) =? sp_ID proposal) ||
             negb (tk_ProposalEventProposalID (gv_Taiko view) =? sp_ID proposal))
    (Errorf "proposal id representations mismatch") ;;!
  let! proposalHash := wrap_err "hash taiko.proposal_event.proposal"
    (hashShastaProposal proposal) in
  reject_if (negb (ti_ProposalHash input =? proposalHash))
    (Errorf "proposal_hash mismatch") ;;!
  reject_if (negb (ti_ParentProposalHash input =? sp_ParentProposalHash proposal))
    (Errorf "parent_proposal_hash mismatch") ;;!
  let! first := some_or (head (gv_Blocks view))
    (Errorf "guest input must include at least one decoded block") in
  reject_if (negb (ti_ParentBlockHash input =? bv_ParentHash first))
    (Errorf "parent_block_hash mismatch") ;;!
  let! actualProver := decodeGuestInputActualProver (gv_TaikoRaw view) in
  reject_if (negb (ti_ActualProver input =? actualProver))
    (Errorf "actual_prover mismatch") ;;!
  reject_if (negb (tv_Proposer (ti_Transition input) =? sp_Proposer proposal))
    (Errorf "transition.proposer mismatch") ;;!
  reject_if (negb (tv_Timestamp (ti_Transition input) =? sp_Timestamp proposal))
    (Errorf "transition.timestamp mismatch") ;;!
  let! lst := some_or (last (gv_Blocks view))
    (Errorf "guest input must include at least one decoded block") in
  let checkpoint := ti_Checkpoint input in
  reject_if (negb (cp_BlockNumber checkpoint =? bv_Number lst))
    (Errorf "checkpoint.blockNumber mismatch") ;;!
  reject_if (negb (cp_BlockHash checkpoint =? bv_Hash lst))
    (Errorf "checkpoint.blockHash mismatch") ;;!
  reject_if (negb (cp_StateRoot checkpoint =? bv_StateRoot lst))
    (Errorf "checkpoint.stateRoot mismatch") ;;!
  Ok tt.
End GuestInput.

(* ------------------------------------------------------------------ *)
(** ** What an accepted carry is *)

(** The carry of a proposal: everything but the verifier is a function of the
    proposal, its hash, the prover and the first and last block. *)
Definition carry_of (chainID verifier : Z) (proposal : shastaProposalView)
  (proposalHash actualProver : Z) (first lst : BlockView) : CarryView := {|
  cv_ChainID := chainID;
  cv_Verifier := verifier;
  cv_TransitionInput := {|
    ti_ProposalID := sp_ID proposal;
    ti_ProposalHash := proposalHash;
    ti_ParentProposalHash := sp_ParentProposalHash proposal;
    ti_ParentBlockHash := bv_ParentHash first;
    ti_ActualProver := actualProver;
    ti_Transition := {|
      tv_Proposer := sp_Proposer proposal; tv_Timestamp := sp_Timestamp proposal |};
    ti_Checkpoint := {|
      cp_BlockNumber := bv_Number lst; cp_BlockHash := bv_Hash lst;
      cp_StateRoot := bv_StateRoot lst |};
  |};
|}.

Section CarryBinding.
Context `{HexUtil} `{CoreTypes} `{Keccak} `{Abi}.

Lemma for_range_fmap_snd {A B C} (f : A -> result (B * C)) l rs :
  for_range (fun _ => f) 0 l = Ok rs -> Forall2 (fun a r => f a = Ok r) l rs.
Proof.
  rewrite for_range_ok. intros [Hl Hf]. apply Forall2_same_length_lookup_2; [done|].
  intros i a r Ha Hr. by apply (Hf i).
Qed.

(** What [DecodeGuestInput] returns, field by field. *)
Lemma DecodeGuestInput_ok input view :
  DecodeGuestInput input = Ok view <->
  exists decoded carry taiko,
    gi_Witnesses input <> [] /\
    for_range (fun _ raw => wrap_err "decode guest input witness"
      (decodeGuestInputWitness raw)) 0 (gi_Witnesses input) = Ok decoded /\
    decodeCarryStrict (gi_ProofCarryData input) = Ok carry /\
    decodeGuestInputTaiko (gi_Taiko input) = Ok taiko /\
    view = {|
      gv_Raw := input;
      gv_Blocks := snd <$> decoded;
      gv_Carry := carry;
      gv_GuestInputChainID := default 0
        ((fun first => guest_input_chain_id first taiko) <$> head (fst <$> decoded));
      gv_CarryChainID := cv_ChainID carry;
      gv_Witnesses := fst <$> decoded;
      gv_TaikoRaw := gi_Taiko input;
      gv_Taiko := taiko;
      gv_DataSourcesRaw := tk_DataSourcesRaw taiko;
      gv_DataSourceCount := tk_DataSourceCount taiko;
    |}.
Proof.
  unfold DecodeGuestInput. split.
  - intros Hd. go_ok. eexists _, _, _. split_conj; try done.
    intros Hn. by rewrite Hn in *.
  - intros (decoded & carry & taiko & Hne & Hdec & Hc & Ht & ->).
    destruct (gi_Witnesses input) as [|w ws] eqn:E; [done|].
    cbn [length Nat.eqb reject_if res_bind]. rewrite Hdec. cbn [res_bind].
    rewrite Hc. cbn [res_bind]. by rewrite Ht.
Qed.

Lemma DecodeGuestInput_witnesses input view :
  DecodeGuestInput input = Ok view ->
  gv_Witnesses view <> [] /\ length (gv_Blocks view) = length (gv_Witnesses view) /\
  gv_TaikoRaw view = gi_Taiko input /\ gv_Raw view = input.
Proof.
  rewrite DecodeGuestInput_ok. intros (d & c & t & Hne & Hd & _ & _ & ->). cbn.
  apply for_range_length in Hd. rewrite !length_fmap. split_conj; try done.
  intros Hn%fmap_nil_inv. subst. by destruct (gi_Witnesses input).
Qed.

(** The checks, collected: the carry is the one computed from the rest. *)
Lemma ValidateGuestInputCarry_ok view :
  ValidateGuestInputCarry (Some view) = Ok tt <->
  gv_Witnesses view <> [] /\ gv_GuestInputChainID view <> 0 /\
  exists proposal hash prover first lst,
    decodeGuestInputTaikoProposal (gv_TaikoRaw view) = Ok proposal /\
    hashShastaProposal proposal = Ok hash /\
    decodeGuestInputActualProver (gv_TaikoRaw view) = Ok prover /\
    head (gv_Blocks view) = Some first /\ last (gv_Blocks view) = Some lst /\
    tk_ProposalID (gv_Taiko view) = sp_ID proposal /\
    tk_ProposalEventProposalID (gv_Taiko view) = sp_ID proposal /\
    gv_Carry view = carry_of (gv_GuestInputChainID view) (cv_Verifier (gv_Carry view))
      proposal hash prover first lst.
Proof.
  unfold ValidateGuestInputCarry. cbn [some_or res_bind]. split.
  - intros Hv. go_ok. split_conj; [|done|].
    { intros Hn. by rewrite Hn in *. }
    eexists _, _, _, _, _. split_conj; try done; try congruence.
    destruct (gv_Carry view) as [? ? [? ? ? ? ? [] []]]. unfold carry_of. cbn in *.
    congruence.
  - intros (Hw & Hc & proposal & hash & prover & first & lst & Hp & Hh & Ha & Hf & Hl &
      Ht & He & Hcarry).
    destruct (gv_Witnesses view) as [|w ws]; [done|].
    rewrite Hcarry, Hp, Ha, Hf, Hl, Ht, He. cbn -[hashShastaProposal].
    rewrite Hh. rewrite !Z.eqb_refl. apply Z.eqb_neq in Hc. rewrite Hc. cbn. by rewrite Z.eqb_refl.
Qed.

(** C24 (an accepted carry is computed from the rest of the input): a decoded
    guest input passes [ValidateGuestInputCarry] exactly when its chain id is
    set, the three proposal ids it carries agree, and its proof carry data is
    the carry computed from the proposal event, the proposal's hash, the
    prover data and the first and last block; only the verifier is free. *)
Theorem ValidateGuestInputCarry_spec input view
  (Hdec : DecodeGuestInput input = Ok view) :
  ValidateGuestInputCarry (Some view) = Ok tt <->
  gv_GuestInputChainID view <> 0 /\
  exists proposal hash prover first lst,
    decodeGuestInputTaikoProposal (gi_Taiko input) = Ok proposal /\
    hashShastaProposal proposal = Ok hash /\
    decodeGuestInputActualProver (gi_Taiko input) = Ok prover /\
    head (gv_Blocks view) = Some first /\ last (gv_Blocks view) = Some lst /\
    tk_ProposalID (gv_Taiko view) = sp_ID proposal /\
    tk_ProposalEventProposalID (gv_Taiko view) = sp_ID proposal /\
    decodeCarryStrict (gi_ProofCarryData input) =
      Ok (carry_of (gv_GuestInputChainID view) (cv_Verifier (gv_Carry view))
            proposal hash prover first lst).
Proof.
  destruct (DecodeGuestInput_witnesses _ _ Hdec) as (Hw & _ & <- & _).
  assert (Hc : decodeCarryStrict (gi_ProofCarryData input) = Ok (gv_Carry view)).
  { apply DecodeGuestInput_ok in Hdec as (? & ? & ? & ? & ? & ? & ? & ->). done. }
  rewrite ValidateGuestInputCarry_ok, Hc. split.
  - intros (_ & Hn & p & h & a & f & l & Hp & Hh & Ha & Hf & Hl & Ht & He & Hq).
    split; [done|]. exists p, h, a, f, l. split_conj; congruence.
  - intros (Hn & p & h & a & f & l & Hp & Hh & Ha & Hf & Hl & Ht & He & Hq).
    split_conj; [done|done|]. exists p, h, a, f, l. split_conj; congruence.
Qed.
(** What a signed digest says of the request behind it: the messages hashed. *)
Definition signed_messages (view : GuestInputView) (proposal : shastaProposalView)
  : list (list byte) :=
  proposal_message proposal :: subproof_messages (gv_Carry view).

Lemma app_cons_sub {A} (a b : A) (l l' : list A) :
  (l ++ l' ⊆ (a :: l) ++ b :: l' /\ [a; b] ⊆ (a :: l) ++ b :: l')%list.
Proof. split; set_solver. Qed.

Lemma decoded_carry input view :
  DecodeGuestInput input = Ok view ->
  typed_carry (gv_Carry view) /\ carryFitsShastaWidths (gv_Carry view) = true.
Proof.
  rewrite DecodeGuestInput_ok. intros (d & c & t & _ & _ & Hc & _ & ->). cbn.
  by split; [eapply decodeCarryStrict_typed|eapply decodeCarryStrict_fits].
Qed.

Lemma decodeGuestInputTaikoProposal_typed raw p :
  decodeGuestInputTaikoProposal raw = Ok p -> typed_proposal p.
Proof.
  unfold decodeGuestInputTaikoProposal. intros Hd. go_inv.
  by eapply decodeShastaProposal_typed.
Qed.

(** C7 (one digest, one proposal): when two guest inputs pass the carry check
    and the digests a proof of them signs agree, they carry the same proposal,
    down to every blob hash, offset and timestamp of its sources, for the same
    chain, verifier and prover, and their blocks start at the same parent and
    end in the same checkpoint, as long as the messages hashed on the way
    contain no Keccak collision. *)
Theorem one_digest_one_proposal `{!AbiLaws} input input' view view' p p'
  (Hdec : DecodeGuestInput input = Ok view) (Hdec' : DecodeGuestInput input' = Ok view')
  (Hval : ValidateGuestInputCarry (Some view) = Ok tt)
  (Hval' : ValidateGuestInputCarry (Some view') = Ok tt)
  (Hp : decodeGuestInputTaikoProposal (gv_TaikoRaw view) = Ok p)
  (Hp' : decodeGuestInputTaikoProposal (gv_TaikoRaw view') = Ok p')
  (Hn : countable_slices p) (Hn' : countable_slices p')
  (Hcol : collision_free_on (signed_messages view p ++ signed_messages view' p'))
  (Hdigest : hashShastaSubproofCarry (gv_Carry view) = hashShastaSubproofCarry (gv_Carry view')) :
  p = p' /\ gv_Carry view = gv_Carry view' /\
  gv_GuestInputChainID view = gv_GuestInputChainID view' /\
  bv_ParentHash <$> head (gv_Blocks view) = bv_ParentHash <$> head (gv_Blocks view') /\
  (fun b => (bv_Number b, bv_Hash b, bv_StateRoot b)) <$> last (gv_Blocks view) =
  (fun b => (bv_Number b, bv_Hash b, bv_StateRoot b)) <$> last (gv_Blocks view').
Proof.
  destruct (decoded_carry _ _ Hdec) as [Ht Hf], (decoded_carry _ _ Hdec') as [Ht' Hf'].
  assert (Hc : gv_Carry view = gv_Carry view').
  { apply subproof_digest_inj; try done.
    eapply collision_free_on_sub; [|exact Hcol]. apply app_cons_sub. }
  apply ValidateGuestInputCarry_ok in Hval as
    (_ & _ & q & h & a & f & l & Hq & Hh & _ & Hhd & Hl & _ & _ & Hcarry).
  apply ValidateGuestInputCarry_ok in Hval' as
    (_ & _ & q' & h' & a' & f' & l' & Hq' & Hh' & _ & Hhd' & Hl' & _ & _ & Hcarry').
  rewrite Hp in Hq. rewrite Hp' in Hq'. simplify_eq.
  rewrite Hhd, Hhd', Hl, Hl'. cbn [fmap option_fmap option_map].
  pose proof Hc as Heq. rewrite Hcarry, Hcarry' in Heq. injection Heq as ? ? ? ? ? ? ? ? ? ? ? ?.
  split_conj; try done; [|congruence..].
  apply (hashShastaProposal_inj q q' h'); try done; [by eapply decodeGuestInputTaikoProposal_typed..| |congruence].
  eapply collision_free_on_sub; [|exact Hcol]. apply app_cons_sub.
Qed.
End CarryBinding.

(* ------------------------------------------------------------------ *)
(** ** A concrete guest input *)

Section Sample.
#[local] Existing Instance sample_hexutil.
#[local] Existing Instance sample_core_types.
#[local] Existing Instance sample_keccak.
#[local] Existing Instance spec_abi.

Definition sample_parent : Header := sample_header 10 1 2.
Definition sample_block : Header := sample_header 11 (Header_Hash sample_parent) 3.

Definition sample_taiko : json :=
  taiko_json sample_proposal 0x77 480 [JObj []] sample_parent [].

(** Three L1 blocks, 498 to 500, and a proposal that originates in the last. *)
Definition sample_l1 : list Header :=
  let h498 := sample_header 498 1 21 in
  let h499 := sample_header 499 (Header_Hash h498) 22 in
  [h498; h499; sample_header 500 (Header_Hash h499) 23].

Definition sample_origin : Header := default sample_parent (last sample_l1).

Definition sample_origin_proposal : shastaProposalView := {|
  sp_ID := 7; sp_Timestamp := 1700000300; sp_EndOfSubmissionWindowTimestamp := 1700000400;
  sp_Proposer := 0x88; sp_ParentProposalHash := 6; sp_OriginBlockNumber := 500;
  sp_OriginBlockHash := Header_Hash sample_origin; sp_BasefeeSharingPctg := 75;
  sp_Sources := sp_Sources sample_proposal |}.

Definition sample_block_view : BlockView := {|
  bv_Number := 11; bv_Hash := Header_Hash sample_block;
  bv_ParentHash := Header_Hash sample_parent; bv_StateRoot := 3; bv_ReceiptsRoot := 4 |}.

Definition sample_proposal_hash : Z :=
  match hashShastaProposal sample_proposal with Ok h => h | Err _ => 0 end.

Definition sample_guest_carry : CarryView :=
  carry_of 167001 0x1234 sample_proposal sample_proposal_hash 0x77 sample_block_view
    sample_block_view.

Definition sample_guest_input (c : CarryView) : ShastaGuestInput := {|
  gi_Witnesses := [witness_json 167001 0x5 sample_block [] [sample_parent] []];
  gi_Taiko := Some sample_taiko;
  gi_ProposalAncestorHeaders := [];
  gi_ProposalStateNodes := [];
  gi_ProofCarryData := Some (carry_json c);
|}.
End Sample.

(** The computed carry is accepted. *)
Lemma ValidateGuestInputCarry_spec_witness :
  exists view,
    @DecodeGuestInput sample_hexutil sample_core_types
      (sample_guest_input sample_guest_carry) = Ok view /\
    @ValidateGuestInputCarry sample_hexutil sample_keccak spec_abi (Some view) = Ok tt.
Proof.
  assert (Hcheck : match @DecodeGuestInput sample_hexutil sample_core_types
      (sample_guest_input sample_guest_carry) with
    | Ok v => bool_decide (gv_GuestInputChainID v = 167001 /\
        head (gv_Blocks v) = Some sample_block_view /\
        last (gv_Blocks v) = Some sample_block_view /\
        tk_ProposalID (gv_Taiko v) = 7 /\ tk_ProposalEventProposalID (gv_Taiko v) = 7 /\
        cv_Verifier (gv_Carry v) = 0x1234)
    | Err _ => false
    end = true) by (vm_compute; reflexivity).
  destruct (@DecodeGuestInput sample_hexutil sample_core_types
    (sample_guest_input sample_guest_carry)) as [view|e] eqn:E; [|discriminate].
  apply bool_decide_eq_true in Hcheck as (Hid & Hf & Hl & Hp & He & Hv).
  exists view. split; [reflexivity|].
  apply (@ValidateGuestInputCarry_spec sample_hexutil sample_core_types sample_keccak
    spec_abi _ _ E). rewrite Hid, Hv. split; [discriminate|].
  exists sample_proposal, sample_proposal_hash, 0x77, sample_block_view, sample_block_view.
  repeat split; try assumption; vm_compute; reflexivity.
Defined.

(** The same proposal in two requests that differ beside it. *)
Definition other_guest_input : ShastaGuestInput := {|
  gi_Witnesses := gi_Witnesses (sample_guest_input sample_guest_carry);
  gi_Taiko := gi_Taiko (sample_guest_input sample_guest_carry);
  gi_ProposalAncestorHeaders := [JObj []];
  gi_ProposalStateNodes := [JStr "0x"];
  gi_ProofCarryData := gi_ProofCarryData (sample_guest_input sample_guest_carry);
|}.

Definition accepted_sample (input : ShastaGuestInput) : option GuestInputView :=
  match @DecodeGuestInput sample_hexutil sample_core_types input with
  | Ok view =>
      if is_ok (@ValidateGuestInputCarry sample_hexutil sample_keccak spec_abi (Some view))
      then Some view else None
  | Err _ => None
  end.

Lemma accepted_sample_ok input view :
  accepted_sample input = Some view ->
  @DecodeGuestInput sample_hexutil sample_core_types input = Ok view /\
  @ValidateGuestInputCarry sample_hexutil sample_keccak spec_abi (Some view) = Ok tt.
Proof.
  unfold accepted_sample. destruct DecodeGuestInput as [v|e]; [|done].
  destruct ValidateGuestInputCarry as [[]|e] eqn:Hv; [|done]. by intros [= <-].
Qed.

Lemma sample_same_digest :
  match accepted_sample (sample_guest_input sample_guest_carry),
        accepted_sample other_guest_input with
  | Some v, Some v' =>
      @decodeGuestInputTaikoProposal sample_hexutil (gv_TaikoRaw v) = Ok sample_proposal /\
      @decodeGuestInputTaikoProposal sample_hexutil (gv_TaikoRaw v') = Ok sample_proposal /\
      bool_decide (@collision_free_on sample_keccak
        (@signed_messages sample_keccak v sample_proposal ++
         @signed_messages sample_keccak v' sample_proposal)) = true /\
      @hashShastaSubproofCarry sample_keccak (gv_Carry v) =
      @hashShastaSubproofCarry sample_keccak (gv_Carry v')
  | _, _ => False
  end.
Proof. vm_compute. repeat split. Qed.

Lemma one_digest_one_proposal_witness :
  exists view view',
    accepted_sample (sample_guest_input sample_guest_carry) = Some view /\
    accepted_sample other_guest_input = Some view' /\
    gv_Carry view = gv_Carry view'.
Proof.
  pose proof sample_same_digest as Hs.
  destruct (accepted_sample (sample_guest_input sample_guest_carry)) as [v|] eqn:E; [|destruct Hs].
  destruct (accepted_sample other_guest_input) as [v'|] eqn:E'; [|destruct Hs].
  destruct Hs as (Hp & Hp' & Hcol & Hd). exists v, v'. split; [reflexivity|]. split; [reflexivity|].
  apply accepted_sample_ok in E as [Hdec Hval], E' as [Hdec' Hval'].
  assert (Hn : countable_slices sample_proposal) by (split; [|repeat constructor]; reflexivity).
  apply (@one_digest_one_proposal sample_hexutil sample_core_types sample_keccak spec_abi
    spec_abi_laws _ _ v v' _ _ Hdec Hdec' Hval Hval' Hp Hp' Hn Hn (bool_decide_eq_true_1 _ Hcol) Hd).
Defined.
