(* ===== verification/Blobs.v ===== *)
(** * Blob sources

    [internal/prover/blob_validate.go]: the data sources of a guest input are
    decoded and every blob is tied to the blob hash of its derivation source
    through its KZG commitment. *)

From Stdlib Require Import Ascii.
From S2P Require Import Prelude Bytes GoStd Json External Types CoreTypes Samples Hash.
From S2P Require Import Proposal Decode Fixtures GuestInput BlobCoder.

#[local] Open Scope string_scope.
#[local] Open Scope list_scope.
#[local] Open Scope Z_scope.

(** Package [crypto/kzg4844]: the commitment of a blob and its versioned hash. *)
Class Kzg : Type := {
  BlobToCommitment : list byte -> result (list byte);
  CalcBlobHashV1 : list byte -> list byte;
}.

Definition CommitmentLength : Z := 48.

Record blobSourceDataView := {
  bd_TxDataFromBlob : list (list byte);
  bd_BlobCommitments : list (list byte);
  bd_BlobCommitmentsPresent : bool;
  bd_BlobProofs : list (list byte);
}.

Definition is_digit (c : ascii) : bool :=
  (48 <=? ascii_code c) && (ascii_code c <=? 57).

(** One element of a byte array: a JSON number from 0 to 255. *)
Definition parseByteJSON (rawByte : json) : result byte :=
  match rawByte with
  | JNull => Err (Errorf "invalid byte value: null")
  | JNum literal =>
      match chars_of literal with
      | c :: _ =>
          if is_digit c then
            let! parsed := wrap_err "invalid byte value" (ParseUint literal 10 8) in
            Ok (byte_of parsed)
          else Err (Errorf "invalid byte value: must be a JSON number")
      | [] => Err (Errorf "invalid byte value: must be a JSON number")
      end
  | _ => Err (Errorf "invalid byte value: must be a JSON number")
  end.

Definition parseByteArrayJSON (raw : json) : result (list byte) :=
  let! rawValues := Unmarshal_raw_list (Some raw) in
  for_range (fun _ rawByte => parseByteJSON rawByte) 0 (default [] rawValues).

Section Blobs.
Context `{HexUtil} `{Kzg}.

Definition parseFlexibleBytesJSON (raw : RawMessage) : result (list byte) :=
  reject_if (isEmptyOrNullRawMessage raw) (Errorf "empty bytes value") ;;!
  match raw with
  | Some (JStr value) => wrap_err "invalid hex string" (hexutil_Decode value)
  | Some (JArr items) => parseByteArrayJSON (JArr items)
  | _ => Err (Errorf "bytes must be a hex string or byte array")
  end.

Definition optionalByteSliceField (fields : Fields) (name : string)
  : result (option (list byte)) :=
  match lookupField fields [name] with
  | None => Ok None
  | Some raw =>
      reject_if (isEmptyOrNullRawMessage (Some raw)) (Errorf (name +:+ " must be bytes")) ;;!
      let! value := wrap_err name (parseFlexibleBytesJSON (Some raw)) in
      Ok (Some value)
  end.

(** The values of an array field and whether the field is there. *)
Definition optionalByteSlicesField (fields : Fields) (name : string)
  : result (list (list byte) * bool) :=
  match lookupField fields [name] with
  | None => Ok ([], false)
  | Some raw =>
      reject_if (isEmptyOrNullRawMessage (Some raw)) (Errorf (name +:+ " must be an array")) ;;!
      let! rawValues := wrap_err (name +:+ " must be an array") (Unmarshal_raw_list (Some raw)) in
      let! values := for_range (fun _ rawValue =>
        wrap_err name (parseFlexibleBytesJSON (Some rawValue))) 0 (default [] rawValues) in
      Ok (values, true)
  end.

Definition decodeBlobSourceData (raw : json) : result blobSourceDataView :=
  reject_if (isEmptyOrNullRawMessage (Some raw)) (Errorf "data source must be an object") ;;!
  let! fields := wrap_err "unmarshal data source" (decodeJSONObject (Some raw)) in
  optionalByteSliceField fields "tx_data_from_calldata" ;;!
  let! blobData := optionalByteSlicesField fields "tx_data_from_blob" in
  let! commitments := optionalByteSlicesField fields "blob_commitments" in
  let! proofs := optionalByteSlicesField fields "blob_proofs" in
  Ok {|
    bd_TxDataFromBlob := blobData.1;
    bd_BlobCommitments := commitments.1;
    bd_BlobCommitmentsPresent := commitments.2;
    bd_BlobProofs := proofs.1;
  |}.

Definition deriveBlobCommitmentAndHash (raw : list byte) : result (list byte * Z) :=
  reject_if (negb (zlen raw =? shastaBytesPerBlob)) (Errorf "raw blob length mismatch") ;;!
  let! commitment := wrap_err "compute blob commitment" (BlobToCommitment raw) in
  let versionedHash := CalcBlobHashV1 commitment in
  Ok (commitment, BytesToHash versionedHash).

(** The body of the loop over the blobs of one source. *)
Definition validateBlob (dataSource : blobSourceDataView) (expectedBlobHashes : list Z)
  (blobIndex : nat) (rawBlob : list byte) : result unit :=
  let! derived := wrap_err "tx_data_from_blob" (deriveBlobCommitmentAndHash rawBlob) in
  let! expected := some_or (expectedBlobHashes !! blobIndex)
    (Errorf "index out of range") in
  reject_if (negb (derived.2 =? expected)) (Errorf "blob hash mismatch") ;;!
  if bd_BlobCommitmentsPresent dataSource then
    let! provided := some_or (bd_BlobCommitments dataSource !! blobIndex)
      (Errorf "index out of range") in
    reject_if (negb (zlen provided =? CommitmentLength))
      (Errorf "blob_commitments must be 48 bytes") ;;!
    reject_if (negb (bool_decide (provided = derived.1)))
      (Errorf "blob_commitments mismatch")
  else Ok tt.

(** The body of the loop over the sources. *)
Definition validateBlobSource (dataSourcesRaw : list json) (sourceIndex : nat)
  (source : shastaDerivationSourceView) : result unit :=
  let! raw := some_or (dataSourcesRaw !! sourceIndex) (Errorf "index out of range") in
  let! dataSource := wrap_err "decode data_sources" (decodeBlobSourceData raw) in
  let expectedBlobHashes := bs_BlobHashes (ds_BlobSlice source) in
  if (length expectedBlobHashes =? 0)%nat then Ok tt
  else
    reject_if (negb (length (bd_TxDataFromBlob dataSource) =? length expectedBlobHashes)%nat)
      (Errorf "tx_data_from_blob count mismatch") ;;!
    reject_if (bd_BlobCommitmentsPresent dataSource &&
        negb (length (bd_BlobCommitments dataSource) =?
              length (bd_TxDataFromBlob dataSource))%nat)
      (Errorf "blob_commitments count mismatch") ;;!
    for_check (validateBlob dataSource expectedBlobHashes) 0 (bd_TxDataFromBlob dataSource).

Definition ValidateGuestInputBlobSources (view : option GuestInputView) : result unit :=
  let! view := some_or view (Errorf "guest input view is nil") in
  let! proposal := decodeGuestInputTaikoProposal (gv_TaikoRaw view) in
  reject_if (negb (length (gv_DataSourcesRaw view) =? length (sp_Sources proposal))%nat)
    (Errorf "data source count mismatch") ;;!
  if (length (sp_Sources proposal) =? 0)%nat then Ok tt
  else for_check (validateBlobSource (gv_DataSourcesRaw view)) 0 (sp_Sources proposal).

(* ---------------------------------------------------------------- *)
(** ** What accepted sources are *)

(** The hash of a blob: that of its commitment, for 128 KiB. *)
Definition blob_hash_of (blob : list byte) (h : Z) : Prop :=
  exists c, BlobToCommitment blob = Ok c /\ BytesToHash (CalcBlobHashV1 c) = h /\
    zlen blob = shastaBytesPerBlob.

Lemma derive_ok raw c h :
  deriveBlobCommitmentAndHash raw = Ok (c, h) <->
  zlen raw = shastaBytesPerBlob /\ BlobToCommitment raw = Ok c /\
  h = BytesToHash (CalcBlobHashV1 c).
Proof.
  unfold deriveBlobCommitmentAndHash. split.
  - intros Hd. go_ok. done.
  - intros (-> & Hc & ->). rewrite Z.eqb_refl. cbn. by rewrite Hc.
Qed.

Definition blob_bound (d : blobSourceDataView) (expected : list Z) (i : nat)
  (blob : list byte) : Prop :=
  exists h, expected !! i = Some h /\ blob_hash_of blob h /\
    (bd_BlobCommitmentsPresent d = true -> exists c,
       bd_BlobCommitments d !! i = Some c /\ BlobToCommitment blob = Ok c /\
       zlen c = CommitmentLength).

Lemma validateBlob_ok d expected i blob :
  validateBlob d expected i blob = Ok tt <-> blob_bound d expected i blob.
Proof.
  unfold validateBlob, blob_bound, blob_hash_of. split.
  - intros Hv. go_ok. destruct a as [c h].
    match goal with H : deriveBlobCommitmentAndHash _ = _ |- _ =>
      apply derive_ok in H as (? & ? & Hh) end.
    cbn in *. exists a0. split; [done|]. split; [exists c; split_conj; congruence|].
    intros Hp. rewrite Hp in Hv. go_ok. eexists. split_conj; [done|congruence|done].
  - intros (h & He & (c & Hc & Hh & Hl) & Hp).
    assert (Hd : deriveBlobCommitmentAndHash blob = Ok (c, h)) by by apply derive_ok.
    rewrite Hd, He. cbn. rewrite Z.eqb_refl. cbn.
    destruct (bd_BlobCommitmentsPresent d); [|done].
    destruct Hp as (c' & -> & Hc' & Hlen); [done|]. cbn. rewrite Hlen. cbn.
    rewrite bool_decide_true by congruence. done.
Qed.

(** The conditions on one source. *)
Definition source_bound (raw : json) (source : shastaDerivationSourceView) : Prop :=
  exists d, decodeBlobSourceData raw = Ok d /\
  let expected := bs_BlobHashes (ds_BlobSlice source) in
  (expected <> [] -> length (bd_TxDataFromBlob d) = length expected /\
   (bd_BlobCommitmentsPresent d = true ->
    length (bd_BlobCommitments d) = length (bd_TxDataFromBlob d)) /\
   forall i blob, bd_TxDataFromBlob d !! i = Some blob -> blob_bound d expected i blob).

Lemma validateBlobSource_ok raws i source :
  validateBlobSource raws i source = Ok tt <->
  exists raw, raws !! i = Some raw /\ source_bound raw source.
Proof.
  unfold validateBlobSource, source_bound. split.
  - intros Hv. go_ok. exists a. split; [done|]. exists a0. split; [done|]. cbn. intros Hne.
    destruct (Nat.eqb_spec (length (bs_BlobHashes (ds_BlobSlice source))) 0) as [Hz|_].
    { by apply length_zero_iff_nil in Hz. }
    go_ok. split_conj; [done| |].
    + intros Hp. match goal with H : _ = false \/ _ |- _ => destruct H as [H|H]; [congruence|] end.
      by go_bool.
    + rewrite for_check_ok in Hv. intros j blob Hj. apply validateBlob_ok.
      by apply (Hv j).
  - intros (raw & Hraw & d & Hd & Hb). rewrite Hraw. cbn [some_or res_bind].
    rewrite Hd. cbn [wrap_err res_bind].
    destruct (Nat.eqb_spec (length (bs_BlobHashes (ds_BlobSlice source))) 0) as [_|Hz]; [done|].
    destruct Hb as (Hl & Hp & Hf); [intros Hn; by rewrite Hn in Hz|]. rewrite Hl, Nat.eqb_refl.
    cbn [negb reject_if res_bind].
    assert ((bd_BlobCommitmentsPresent d && negb (length (bd_BlobCommitments d) =?
      length (bs_BlobHashes (ds_BlobSlice source)))%nat) = false) as ->.
    { destruct (bd_BlobCommitmentsPresent d); [|done]. rewrite (Hp eq_refl), Hl.
      by rewrite Nat.eqb_refl. }
    cbn [reject_if res_bind]. apply for_check_ok. intros j blob Hj.
    by apply validateBlob_ok, Hf.
Qed.

(** The check, collected. *)
Lemma ValidateGuestInputBlobSources_ok view :
  ValidateGuestInputBlobSources (Some view) = Ok tt <->
  exists proposal, decodeGuestInputTaikoProposal (gv_TaikoRaw view) = Ok proposal /\
    Forall2 source_bound (gv_DataSourcesRaw view) (sp_Sources proposal).
Proof.
  unfold ValidateGuestInputBlobSources. cbn [some_or res_bind]. rewrite res_bind_ok.
  apply exist_proper. intros proposal. apply and_iff_compat_l. split.
  - intros Hv. go_ok.
    match goal with H : length _ = length _ |- _ => rename H into Hl end.
    apply Forall2_same_length_lookup_2; [done|]. intros i raw source Hr Hs.
    destruct (Nat.eqb_spec (length (sp_Sources proposal)) 0).
    { apply lookup_lt_Some in Hs. lia. }
    rewrite for_check_ok in Hv. specialize (Hv i source Hs).
    apply validateBlobSource_ok in Hv as (raw' & Hr' & Hb). cbn in Hr'. by simplify_eq.
  - intros Hf. pose proof (Forall2_length _ _ _ Hf) as Hl. rewrite Hl, Nat.eqb_refl.
    cbn [negb reject_if res_bind].
    destruct (length (sp_Sources proposal) =? 0)%nat; [done|]. apply for_check_ok.
    intros i source Hs. apply validateBlobSource_ok. cbn.
    destruct (Forall2_lookup_r _ _ _ _ _ Hf Hs) as (raw & Hr & Hb). by exists raw.
Qed.

(** C25 (blobs are the proposal's): a guest input's data sources are accepted
    exactly when they decode, match the proposal's derivation sources one to
    one, and for every source with blob hashes ship as many 128 KiB blobs, each
    with the KZG versioned hash the proposal commits to at its index, and with
    the right commitment where commitments are shipped. *)
Theorem ValidateGuestInputBlobSources_spec view :
  ValidateGuestInputBlobSources (Some view) = Ok tt <->
  exists proposal, decodeGuestInputTaikoProposal (gv_TaikoRaw view) = Ok proposal /\
    Forall2 source_bound (gv_DataSourcesRaw view) (sp_Sources proposal).
Proof. apply ValidateGuestInputBlobSources_ok. Qed.
End Blobs.
