(* ===== verification/Manifest.v ===== *)
(** * Derived manifests

    The derivation part of [internal/prover/manifest_validate.go]: what blocks a
    proposal's data sources stand for.  A source's blobs are decoded into a
    manifest; content that does not decode, or that breaks the rules for
    timestamps, anchors or gas limits, degrades to the default manifest of one
    empty block with inherited metadata. *)

From S2P Require Import Prelude Bytes GoStd Json External Types CoreTypes Samples Anchors.
From S2P Require Import BlobCoder TxEncoding Hash Proposal Forks Decode Fixtures GuestInput.
From S2P Require Import Blobs.

#[local] Open Scope string_scope.
#[local] Open Scope list_scope.
#[local] Open Scope Z_scope.

Definition shastaPayloadVersion : Z := 1.
Definition shastaAnchorGasLimit : Z := 1000000.
Definition shastaMinBlockGasLimit : Z := 10000000.
Definition shastaMaxBlockGasLimit : Z := 45000000.
Definition shastaBlockGasLimitMaxChange : Z := 200.
Definition shastaGasLimitDenominator : Z := 1000000.
Definition shastaDerivationSourceMaxBlocks : Z := 192.
Definition shastaUnzenDerivationSourceLimit : Z := 768.
Definition shastaMaxManifestOffset : Z := shastaBytesPerBlob - 64.

(* ------------------------------------------------------------------ *)
(** ** Bounds *)

Definition manifestTimestampLowerBound
  (parentTimestamp proposalTimestamp forkTimestamp chainID : Z) : Z :=
  let offset := if chainID =? shastaManifestMainnetChain then 12 * 512 else 12 * 128 in
  let lower := add64 parentTimestamp 1 in
  let lower :=
    if (proposalTimestamp >? offset) && (lower <? sub64 proposalTimestamp offset)
    then sub64 proposalTimestamp offset else lower in
  if lower <? forkTimestamp then forkTimestamp else lower.

Definition effectiveManifestParentGasLimit (parentBlockNumber parentGasLimit : Z) : Z :=
  if parentBlockNumber =? 0 then parentGasLimit
  else if parentGasLimit <? shastaAnchorGasLimit then 0
  else sub64 parentGasLimit shastaAnchorGasLimit.

(** The big integers of the source do not wrap; only the results are read as
    [uint64]. *)
Definition manifestGasLimitBounds (parentGasLimit : Z) : Z * Z :=
  let upper := parentGasLimit * (shastaGasLimitDenominator + shastaBlockGasLimitMaxChange)
    / shastaGasLimitDenominator in
  let upper := if upper >? shastaMaxBlockGasLimit then shastaMaxBlockGasLimit else upper in
  let lower := parentGasLimit * (shastaGasLimitDenominator - shastaBlockGasLimitMaxChange)
    / shastaGasLimitDenominator in
  let lower := if lower <? shastaMinBlockGasLimit then shastaMinBlockGasLimit else lower in
  let lower := if lower >? upper then upper else lower in
  (big_Uint64 lower, big_Uint64 upper).

(** (gas limit bounds): for a parent limit of any [uint64] value the bounds
    are 200 millionths below and above it, clamped into 10 to 45 million, with
    the upper bound winning below the clamp; the big-integer arithmetic neither
    truncates nor inverts them, so the parent's own limit is allowed whenever
    it is itself inside the clamp. *)
Theorem manifestGasLimitBounds_spec parentGasLimit (Hp : is_u64 parentGasLimit) :
  let '(lower, upper) := manifestGasLimitBounds parentGasLimit in
  upper = Z.min (parentGasLimit * 1000200 / 1000000) 45000000 /\
  lower = Z.min (Z.max (parentGasLimit * 999800 / 1000000) 10000000) upper /\
  0 <= lower <= upper /\ upper <= 45000000 /\
  (10000000 <= parentGasLimit <= 45000000 -> lower <= parentGasLimit <= upper).
Proof.
  unfold manifestGasLimitBounds, shastaGasLimitDenominator, shastaBlockGasLimitMaxChange,
    shastaMaxBlockGasLimit, shastaMinBlockGasLimit, is_uint in *.
  change (1000000 + 200) with 1000200. change (1000000 - 200) with 999800.
  pose proof (Z.div_pos (parentGasLimit * 1000200) 1000000 ltac:(lia) ltac:(lia)).
  pose proof (Z.div_pos (parentGasLimit * 999800) 1000000 ltac:(lia) ltac:(lia)).
  pose proof (Z.div_le_lower_bound (parentGasLimit * 1000200) 1000000 parentGasLimit ltac:(lia)
    ltac:(lia)).
  pose proof (Z.div_le_upper_bound (parentGasLimit * 999800) 1000000 parentGasLimit ltac:(lia)
    ltac:(lia)).
  set (u := parentGasLimit * 1000200 / 1000000) in *.
  set (l := parentGasLimit * 999800 / 1000000) in *. clearbody u l.
  destruct (Z.gtb_spec u 45000000); destruct (Z.ltb_spec l 10000000);
    destruct (Z.gtb_spec (if l <? 10000000 then 10000000 else l) u);
    repeat match goal with |- context [?a >? ?b] => destruct (Z.gtb_spec a b) end;
    rewrite !big_Uint64_small by (unfold is_uint; lia); lia.
Qed.

Lemma manifestGasLimitBounds_spec_witness :
  manifestGasLimitBounds 15000000 = (14997000, 15003000).
Proof.
  pose proof (manifestGasLimitBounds_spec 15000000 ltac:(unfold is_uint; lia)) as H.
  destruct (manifestGasLimitBounds 15000000) as [lower upper].
  destruct H as (Hu & Hl & _). subst. vm_compute. reflexivity.
Defined.

(* ------------------------------------------------------------------ *)
(** ** Manifests *)

Record shastaManifestBlock `{CoreTypes} := {
  mb_Timestamp : Z;
  mb_Coinbase : Z;
  mb_AnchorBlockNumber : Z;
  mb_GasLimit : Z;
  mb_Transactions : list Transaction;
}.

Record shastaSourceManifest `{CoreTypes} := { sm_Blocks : list shastaManifestBlock }.

(** [zlib.NewReader] with [io.ReadAll], and [rlp.DecodeBytes] into a manifest. *)
Class ManifestCodec `{CoreTypes} : Type := {
  ZReader : Type;
  zlib_NewReader : list byte -> result ZReader;
  io_ReadAll : ZReader -> result (list byte);
  rlp_DecodeBytes : list byte -> result shastaSourceManifest;
}.

(** The parent a manifest is derived on: what the source reads of its header. *)
Record shastaManifestParentContext := {
  pc_Number : option Z;
  pc_Time : Z;
  pc_GasLimit : Z;
  pc_MixDigest : Z;
  pc_GrandparentHeader : option CompactAncestor;
  pc_AnchorBlockNumber : Z;
}.

Definition pc_number_u64 (parent : shastaManifestParentContext) : Z :=
  default 0 (big_Uint64 <$> pc_Number parent).

Section Manifest.
Context `{CoreTypes}.

Definition default_block : shastaManifestBlock := {|
  mb_Timestamp := 0; mb_Coinbase := 0; mb_AnchorBlockNumber := 0; mb_GasLimit := 0;
  mb_Transactions := [] |}.

Definition defaultSourceManifest : shastaSourceManifest := {| sm_Blocks := [default_block] |}.

Definition isDefaultSourceManifest (manifest : shastaSourceManifest) : bool :=
  match sm_Blocks manifest with
  | [block] =>
      (mb_Timestamp block =? 0) && (mb_Coinbase block =? 0) &&
      (mb_AnchorBlockNumber block =? 0) && (mb_GasLimit block =? 0) &&
      (length (mb_Transactions block) =? 0)%nat
  | _ => false
  end.

(** The loop over [manifest.Blocks]; [parentTime] is the loop's variable. *)
Fixpoint inherit_blocks (proposalTimestamp proposer anchor gasLimit forkTimestamp chainID : Z)
  (parentTime : Z) (blocks : list shastaManifestBlock) : list shastaManifestBlock :=
  match blocks with
  | [] => []
  | block :: rest =>
      let timestamp :=
        manifestTimestampLowerBound parentTime proposalTimestamp forkTimestamp chainID in
      {| mb_Timestamp := timestamp; mb_Coinbase := proposer; mb_AnchorBlockNumber := anchor;
         mb_GasLimit := gasLimit; mb_Transactions := mb_Transactions block |} ::
      inherit_blocks proposalTimestamp proposer anchor gasLimit forkTimestamp chainID
        timestamp rest
  end.

Definition applyInheritedManifestMetadata (manifest : shastaSourceManifest)
  (parent : shastaManifestParentContext) (proposal : shastaProposalView)
  (chainID forkTimestamp : Z) : shastaSourceManifest :=
  let parentTime := pc_Time parent in
  let parentGasLimit :=
    effectiveManifestParentGasLimit (pc_number_u64 parent) (pc_GasLimit parent) in
  {| sm_Blocks := inherit_blocks (sp_Timestamp proposal) (sp_Proposer proposal)
       (pc_AnchorBlockNumber parent) parentGasLimit forkTimestamp chainID parentTime
       (sm_Blocks manifest) |}.

(* ---------------------------------------------------------------- *)
(** ** The rules of a source *)

Fixpoint timestamps_ok (proposalTimestamp forkTimestamp chainID : Z) (parentTime : Z)
  (blocks : list shastaManifestBlock) : bool :=
  match blocks with
  | [] => true
  | block :: rest =>
      let lower :=
        manifestTimestampLowerBound parentTime proposalTimestamp forkTimestamp chainID in
      if lower >? proposalTimestamp then false
      else if (mb_Timestamp block <? lower) || (mb_Timestamp block >? proposalTimestamp)
      then false
      else timestamps_ok proposalTimestamp forkTimestamp chainID (mb_Timestamp block) rest
  end.

Definition validateManifestTimestamps (manifest : shastaSourceManifest)
  (parentTimestamp proposalTimestamp forkTimestamp chainID : Z) : bool :=
  timestamps_ok proposalTimestamp forkTimestamp chainID parentTimestamp (sm_Blocks manifest).

(** The loop that keeps the highest anchor. *)
Definition highest_anchor (start : Z) (anchors : list Z) : Z :=
  fold_left (fun highest anchor => if anchor >? highest then anchor else highest) anchors start.

Definition validateManifestAnchorNumbers (manifest : shastaSourceManifest)
  (originBlockNumber parentAnchorBlockNumber : Z) (isForcedInclusion : bool) (chainID : Z)
  : bool :=
  let anchors := mb_AnchorBlockNumber <$> sm_Blocks manifest in
  if isForcedInclusion then
    forallb (fun anchor => anchor =? parentAnchorBlockNumber) anchors
  else
    is_ok (validateManifestAnchorProgression anchors parentAnchorBlockNumber
      originBlockNumber chainID) &&
    (highest_anchor parentAnchorBlockNumber anchors >? parentAnchorBlockNumber).

Fixpoint gas_limits_ok (effectiveParentGasLimit : Z) (blocks : list shastaManifestBlock)
  : bool :=
  match blocks with
  | [] => true
  | block :: rest =>
      let '(lower, upper) := manifestGasLimitBounds effectiveParentGasLimit in
      if (mb_GasLimit block <? lower) || (mb_GasLimit block >? upper) then false
      else gas_limits_ok (mb_GasLimit block) rest
  end.

Definition validateManifestGasLimit (manifest : shastaSourceManifest)
  (parentBlockNumber parentGasLimit : Z) : bool :=
  gas_limits_ok (effectiveManifestParentGasLimit parentBlockNumber parentGasLimit)
    (sm_Blocks manifest).

Definition validateSourceManifest (manifest : shastaSourceManifest)
  (source : shastaDerivationSourceView) (parent : shastaManifestParentContext)
  (proposal : shastaProposalView) (chainID forkTimestamp : Z) : bool :=
  if (length (sm_Blocks manifest) =? 0)%nat then false
  else
    validateManifestTimestamps manifest (pc_Time parent) (sp_Timestamp proposal)
      forkTimestamp chainID &&
    validateManifestAnchorNumbers manifest (sp_OriginBlockNumber proposal)
      (pc_AnchorBlockNumber parent) (ds_IsForcedInclusion source) chainID &&
    validateManifestGasLimit manifest (pc_number_u64 parent) (pc_GasLimit parent).

(* ---------------------------------------------------------------- *)
(** ** Decoding a source *)

Definition validateManifestTransactions (manifest : shastaSourceManifest) : result unit :=
  for_check (fun _ block =>
    for_check (fun _ tx =>
      wrap_err "block transaction" (validateManifestTransactionEncoding tx))
      0 (mb_Transactions block)) 0 (sm_Blocks manifest).

Context `{!ManifestCodec}.

Definition decodeManifestPayload (payload : list byte) (offset maxBlocks : Z)
  : result shastaSourceManifest :=
  reject_if (offset >? zlen payload) (Errorf "manifest offset exceeds payload length") ;;!
  let payload := drop (Z.to_nat offset) payload in
  reject_if (zlen payload <? 64) (Errorf "manifest payload too short") ;;!
  reject_if (negb (bool_decide (zslice 0 24 payload = zeros 24)))
    (Errorf "manifest payload version exceeds uint64") ;;!
  let version := be_Z (zslice 24 32 payload) mod 2 ^ 32 in
  reject_if (negb (version =? shastaPayloadVersion))
    (Errorf "unsupported manifest payload version") ;;!
  let size := be_Z (zslice 56 64 payload) in
  reject_if (size >? zlen payload - 64) (Errorf "manifest compressed payload too short") ;;!
  let! zr := wrap_err "open manifest zlib stream"
    (zlib_NewReader (zslice 64 (64 + size) payload)) in
  let! decoded := wrap_err "decompress manifest payload" (io_ReadAll zr) in
  let! manifest := wrap_err "decode manifest rlp" (rlp_DecodeBytes decoded) in
  wrap_err "validate manifest transactions" (validateManifestTransactions manifest) ;;!
  reject_if (Z.of_nat (length (sm_Blocks manifest)) >? maxBlocks)
    (Errorf "manifest block count exceeds max") ;;!
  Ok manifest.

(** The loop that decodes and concatenates; the first blob that does not
    decode ends it. *)
Fixpoint concat_blobs (blobs : list (list byte)) : option (list byte) :=
  match blobs with
  | [] => Some []
  | raw :: rest =>
      match decodeShastaBlob raw with
      | Err _ => None
      | Ok decoded => (fun tail => decoded ++ tail) <$> concat_blobs rest
      end
  end.

Definition decodeBlobBackedSourceManifest (dataSource : blobSourceDataView)
  (offset maxBlocks : Z) : result shastaSourceManifest :=
  reject_if (length (bd_TxDataFromBlob dataSource) =? 0)%nat
    (Errorf "blob-backed derivation source is missing blob data") ;;!
  for_check (fun _ raw =>
    reject_if (negb (zlen raw =? shastaBytesPerBlob)) (Errorf "blob has invalid length"))
    0 (bd_TxDataFromBlob dataSource) ;;!
  match concat_blobs (bd_TxDataFromBlob dataSource) with
  | None => Ok defaultSourceManifest
  | Some concatenated =>
      match decodeManifestPayload concatenated offset maxBlocks with
      | Err _ => Ok defaultSourceManifest
      | Ok manifest => Ok manifest
      end
  end.

Definition prepareSourceManifest (dataSource : blobSourceDataView)
  (source : shastaDerivationSourceView) (parent : shastaManifestParentContext)
  (proposal : shastaProposalView) (chainID forkTimestamp maxBlocks : Z)
  : result shastaSourceManifest :=
  let! manifest :=
    if (length (bs_BlobHashes (ds_BlobSlice source)) =? 0)%nat ||
       (bs_Offset (ds_BlobSlice source) >? shastaMaxManifestOffset)
    then Ok defaultSourceManifest
    else decodeBlobBackedSourceManifest dataSource (bs_Offset (ds_BlobSlice source)) maxBlocks in
  let manifest :=
    if ds_IsForcedInclusion source && negb (length (sm_Blocks manifest) =? 1)%nat
    then defaultSourceManifest else manifest in
  let manifest :=
    if ds_IsForcedInclusion source || isDefaultSourceManifest manifest
    then applyInheritedManifestMetadata manifest parent proposal chainID forkTimestamp
    else manifest in
  if negb (validateSourceManifest manifest source parent proposal chainID forkTimestamp)
  then Ok (applyInheritedManifestMetadata defaultSourceManifest parent proposal chainID
             forkTimestamp)
  else Ok manifest.
End Manifest.

Section DerivationConfig.
Context `{ConfigTypes} `{!ChainParams}.

(** The Shasta fork time and the block limit of a source. *)
Definition shastaDerivationConfig (chainID proposalTimestamp : Z) : result (Z * Z) :=
  let! config := chainConfigFor chainID in
  let! shastaTime := some_or (cfg_ShastaTime config)
    (Errorf "canonical Shasta fork timestamp missing") in
  let maxBlocks := if IsUnzen config proposalTimestamp then shastaUnzenDerivationSourceLimit
                   else shastaDerivationSourceMaxBlocks in
  Ok (shastaTime, maxBlocks).
End DerivationConfig.

(* ------------------------------------------------------------------ *)
(** ** The rules, declaratively *)

Definition timestampOffset (chainID : Z) : Z :=
  if chainID =? shastaManifestMainnetChain then 12 * 512 else 12 * 128.

(** Unless the parent time is the last [uint64], the bound is the maximum of
    the three limits. *)
Lemma timestamp_lower_spec parent proposal fork chainID t :
  0 <= parent < 2 ^ 64 - 1 -> is_uint 48 proposal ->
  (manifestTimestampLowerBound parent proposal fork chainID <= t <->
   parent < t /\ fork <= t /\ (timestampOffset chainID < proposal ->
     proposal - timestampOffset chainID <= t)).
Proof.
  unfold manifestTimestampLowerBound, is_uint. fold (timestampOffset chainID).
  assert (0 <= timestampOffset chainID <= 6144).
  { unfold timestampOffset. destruct (_ =? _); lia. }
  generalize dependent (timestampOffset chainID). intros off Hoff Hp Hq.
  rewrite add64_small by lia.
  destruct (Z.gtb_spec proposal off); cbn [andb].
  - rewrite sub64_small by lia.
    destruct (Z.ltb_spec (parent + 1) (proposal - off));
      repeat match goal with |- context [?a <? ?b] => destruct (Z.ltb_spec a b) end; lia.
  - repeat match goal with |- context [?a <? ?b] => destruct (Z.ltb_spec a b) end; lia.
Qed.

Section Rules.
Context `{CoreTypes}.

Definition timestamp_in_window (proposalTimestamp fork chainID t : Z) : Prop :=
  fork <= t <= proposalTimestamp /\
  (timestampOffset chainID < proposalTimestamp ->
   proposalTimestamp - timestampOffset chainID <= t).

Lemma timestamps_ok_spec proposal fork chainID blocks : forall parent,
  0 <= parent < 2 ^ 64 - 1 -> is_uint 48 proposal ->
  Forall (fun b => is_u64 (mb_Timestamp b)) blocks ->
  (timestamps_ok proposal fork chainID parent blocks = true <->
   Forall (fun b => timestamp_in_window proposal fork chainID (mb_Timestamp b)) blocks /\
   chained Z.lt (parent :: (mb_Timestamp <$> blocks))).
Proof.
  induction blocks as [|b rest IH]; intros parent Hp Hq Hu; [by cbn; naive_solver|].
  apply Forall_cons in Hu as [Hb Hu]. cbn [timestamps_ok].
  pose proof (timestamp_lower_spec parent proposal fork chainID (mb_Timestamp b) Hp Hq) as Hs.
  set (lower := manifestTimestampLowerBound _ _ _ _) in *.
  rewrite Forall_cons. unfold timestamp_in_window at 1. unfold is_uint in *.
  change (chained Z.lt (parent :: (mb_Timestamp <$> b :: rest)))
    with (parent < mb_Timestamp b /\ chained Z.lt (mb_Timestamp b :: (mb_Timestamp <$> rest))).
  destruct (Z.gtb_spec lower proposal).
  { split; [done|]. intros ((Hw & _) & Hc & _). lia. }
  destruct (Z.ltb_spec (mb_Timestamp b) lower); cbn [orb].
  { split; [done|]. intros ((Hw & _) & Hc & _). lia. }
  destruct (Z.gtb_spec (mb_Timestamp b) proposal).
  { split; [done|]. intros ((Hw & _) & Hc & _). lia. }
  rewrite IH by (try done; lia). intuition lia.
Qed.

(** One block's gas limit after the one before. *)
Definition gas_step (parent gas : Z) : Prop :=
  (manifestGasLimitBounds parent).1 <= gas <= (manifestGasLimitBounds parent).2.

Lemma gas_limits_ok_spec blocks : forall parent,
  gas_limits_ok parent blocks = true <-> chained gas_step (parent :: (mb_GasLimit <$> blocks)).
Proof.
  induction blocks as [|b rest IH]; intros parent; [by cbn|].
  cbn [gas_limits_ok].
  change (chained gas_step (parent :: (mb_GasLimit <$> b :: rest)))
    with (gas_step parent (mb_GasLimit b) /\
          chained gas_step (mb_GasLimit b :: (mb_GasLimit <$> rest))).
  unfold gas_step at 1. destruct (manifestGasLimitBounds parent) as [lower upper].
  cbn [fst snd]. rewrite <- IH.
  destruct (Z.ltb_spec (mb_GasLimit b) lower); destruct (Z.gtb_spec (mb_GasLimit b) upper);
    cbn [orb]; intuition lia.
Qed.

Lemma highest_anchor_spec anchors : forall start,
  start <= highest_anchor start anchors /\
  (start < highest_anchor start anchors <-> Exists (Z.lt start) anchors).
Proof.
  unfold highest_anchor. induction anchors as [|a l IH]; intros start; cbn [fold_left].
  { rewrite Exists_nil. lia. }
  rewrite Exists_cons. destruct (Z.gtb_spec a start).
  - destruct (IH a) as [Hle _]. split; [lia|]. split; [by left|lia].
  - destruct (IH start) as [Hle Hiff]. split; [done|]. rewrite Hiff. intuition lia.
Qed.

(** What a source's own manifest must satisfy. *)
Definition valid_manifest (manifest : shastaSourceManifest)
  (source : shastaDerivationSourceView) (parent : shastaManifestParentContext)
  (proposal : shastaProposalView) (chainID fork : Z) : Prop :=
  let blocks := sm_Blocks manifest in
  let anchors := mb_AnchorBlockNumber <$> blocks in
  let lastAnchor := pc_AnchorBlockNumber parent in
  blocks <> [] /\
  Forall (fun b => timestamp_in_window (sp_Timestamp proposal) fork chainID (mb_Timestamp b))
    blocks /\
  chained Z.lt (pc_Time parent :: (mb_Timestamp <$> blocks)) /\
  (ds_IsForcedInclusion source = true -> Forall (eq lastAnchor) anchors) /\
  (ds_IsForcedInclusion source = false ->
   Forall (anchor_in_window lastAnchor (sp_OriginBlockNumber proposal) chainID) anchors /\
   chained Z.le anchors /\ Exists (Z.lt lastAnchor) anchors) /\
  chained gas_step (effectiveManifestParentGasLimit (pc_number_u64 parent) (pc_GasLimit parent) ::
    (mb_GasLimit <$> blocks)).

Definition typed_manifest (manifest : shastaSourceManifest) : Prop :=
  Forall (fun b => is_u64 (mb_Timestamp b) /\ is_u64 (mb_AnchorBlockNumber b)) (sm_Blocks manifest).

(** C27 (the rules of a source): a manifest is kept exactly when it has a
    block, its timestamps rise strictly from the parent's and stay between
    the fork, the window behind the proposal and the proposal itself, its
    anchors all stay (forced inclusion) or stay in their window, never go back
    and move at least once (normal source), and every gas limit is within
    the bounds of the one before. *)
Theorem validateSourceManifest_spec manifest source parent proposal chainID fork
  (Hm : typed_manifest manifest) (Ht : 0 <= pc_Time parent < 2 ^ 64 - 1)
  (Hp : is_uint 48 (sp_Timestamp proposal)) (Ho : is_u64 (sp_OriginBlockNumber proposal)) :
  validateSourceManifest manifest source parent proposal chainID fork = true <->
  valid_manifest manifest source parent proposal chainID fork.
Proof.
  unfold validateSourceManifest, valid_manifest, validateManifestTimestamps,
    validateManifestAnchorNumbers, validateManifestGasLimit.
  assert (Hts : Forall (fun b => is_u64 (mb_Timestamp b)) (sm_Blocks manifest)).
  { eapply Forall_impl; [exact Hm|]. by intros b [? _]. }
  assert (Han : Forall is_u64 (mb_AnchorBlockNumber <$> sm_Blocks manifest)).
  { apply Forall_fmap. eapply Forall_impl; [exact Hm|]. by intros b [_ ?]. }
  destruct (Nat.eqb_spec (length (sm_Blocks manifest)) 0) as [Hz|Hz].
  { apply length_zero_iff_nil in Hz. rewrite Hz. naive_solver. }
  assert (Hne : sm_Blocks manifest <> []) by by intros Hn; rewrite Hn in Hz.
  rewrite !andb_true_iff, timestamps_ok_spec, gas_limits_ok_spec by done.
  destruct (ds_IsForcedInclusion source).
  - rewrite forallb_eq_Forall. naive_solver.
  - rewrite andb_true_iff, is_ok_true, Z.gtb_ltb, Z.ltb_lt.
    destruct (highest_anchor_spec (mb_AnchorBlockNumber <$> sm_Blocks manifest)
      (pc_AnchorBlockNumber parent)) as [_ ->].
    assert (Hprog : (exists u, validateManifestAnchorProgression
        (mb_AnchorBlockNumber <$> sm_Blocks manifest) (pc_AnchorBlockNumber parent)
        (sp_OriginBlockNumber proposal) chainID = Ok u) <->
      Forall (anchor_in_window (pc_AnchorBlockNumber parent) (sp_OriginBlockNumber proposal)
        chainID) (mb_AnchorBlockNumber <$> sm_Blocks manifest) /\
      chained Z.le (mb_AnchorBlockNumber <$> sm_Blocks manifest)).
    { split.
      - intros ([] & Hu). by apply progression_ok in Hu as (_ & ? & ?).
      - intros [? ?]. exists tt. apply progression_ok; [done..|].
        split_conj; try done. by intros Hn%fmap_nil_inv. }
    rewrite Hprog. naive_solver.
Qed.
End Rules.

(* ------------------------------------------------------------------ *)
(** ** What a source always yields *)

Section Prepare.
Context `{CoreTypes} `{!ManifestCodec}.

(** A source that names blobs the offset can reach. *)
Definition blob_backed (source : shastaDerivationSourceView) : Prop :=
  bs_BlobHashes (ds_BlobSlice source) <> [] /\
  bs_Offset (ds_BlobSlice source) <= shastaMaxManifestOffset.

(** The host shipped the blobs, each of the right length. *)
Definition blobs_shipped (dataSource : blobSourceDataView) : Prop :=
  bd_TxDataFromBlob dataSource <> [] /\
  Forall (fun raw => zlen raw = shastaBytesPerBlob) (bd_TxDataFromBlob dataSource).

(** A block whose metadata is not the host's choice. *)
Definition inherited_block (parent : shastaManifestParentContext) (proposal : shastaProposalView)
  (chainID fork : Z) (block : shastaManifestBlock) : Prop :=
  mb_Timestamp block =
    manifestTimestampLowerBound (pc_Time parent) (sp_Timestamp proposal) fork chainID /\
  mb_Coinbase block = sp_Proposer proposal /\
  mb_AnchorBlockNumber block = pc_AnchorBlockNumber parent /\
  mb_GasLimit block =
    effectiveManifestParentGasLimit (pc_number_u64 parent) (pc_GasLimit parent).

Definition inherited_default (parent : shastaManifestParentContext)
  (proposal : shastaProposalView) (chainID fork : Z) (manifest : shastaSourceManifest) : Prop :=
  exists block, sm_Blocks manifest = [block] /\ mb_Transactions block = [] /\
    inherited_block parent proposal chainID fork block.

Lemma decodeManifestPayload_count payload offset maxBlocks m :
  decodeManifestPayload payload offset maxBlocks = Ok m ->
  Z.of_nat (length (sm_Blocks m)) <= maxBlocks.
Proof. unfold decodeManifestPayload. intros Hd. go_ok. lia. Qed.

Lemma decodeBlob_ok dataSource offset maxBlocks :
  is_ok (decodeBlobBackedSourceManifest dataSource offset maxBlocks) = true <->
  blobs_shipped dataSource.
Proof.
  rewrite is_ok_true. unfold decodeBlobBackedSourceManifest, blobs_shipped.
  assert (Hlens : forall u, for_check (fun _ (raw : list byte) =>
      reject_if (negb (zlen raw =? shastaBytesPerBlob)) (Errorf "blob has invalid length"))
      0 (bd_TxDataFromBlob dataSource) = Ok u <->
    Forall (fun raw => zlen raw = shastaBytesPerBlob) (bd_TxDataFromBlob dataSource)).
  { intros u. rewrite (for_check_Forall (fun raw : list byte => reject_if _ _)).
    apply Forall_proper; [|done]. intros raw.
    by rewrite reject_if_ok, negb_false_iff, Z.eqb_eq. }
  split.
  - intros [m Hm]. apply res_bind_ok in Hm as ([] & Hne & Hm).
    apply res_bind_ok in Hm as ([] & Hl & _). apply Hlens in Hl. go_ok. split; [|done].
    by intros Hn; rewrite Hn in *.
  - intros [Hne Hl]. apply (Hlens tt) in Hl. rewrite Hl.
    destruct (bd_TxDataFromBlob dataSource) as [|b l]; [done|]. cbn [length Nat.eqb reject_if res_bind].
    destruct (concat_blobs _) as [c|]; [|by eexists].
    by destruct (decodeManifestPayload c offset maxBlocks); eexists.
Qed.

Lemma concat_blobs_Forall2 blobs payload :
  concat_blobs blobs = Some payload <->
  exists decoded, Forall2 (fun raw d => decodeShastaBlob raw = Ok d) blobs decoded /\
                  payload = concat decoded.
Proof.
  revert payload. induction blobs as [|raw rest IH]; intros payload; cbn [concat_blobs].
  - split; [intros [= <-]; by exists []|]. intros (l & Hl & ->). by inv Hl.
  - split.
    + destruct (decodeShastaBlob raw) as [d|e] eqn:Hd; [|done].
      intros (tail & Ht & ->)%fmap_Some. apply IH in Ht as (l & Hl & ->).
      exists (d :: l). split; [by constructor|done].
    + intros (l & Hl & ->). inv Hl as [|? d ? l' Hd Hl']. rewrite Hd.
      rewrite (proj2 (IH (concat l'))) by eauto. done.
Qed.

Section Source.
Context (dataSource : blobSourceDataView) (source : shastaDerivationSourceView)
  (parent : shastaManifestParentContext) (proposal : shastaProposalView)
  (chainID fork maxBlocks : Z).

(** The blobs of the source all decode, and hold the manifest [m0]. *)
Definition carries (m0 : shastaSourceManifest) : Prop :=
  blob_backed source /\
  exists decoded,
    Forall2 (fun raw d => decodeShastaBlob raw = Ok d) (bd_TxDataFromBlob dataSource) decoded /\
    decodeManifestPayload (concat decoded) (bs_Offset (ds_BlobSlice source)) maxBlocks = Ok m0.

Definition obeys (m : shastaSourceManifest) : Prop :=
  validateSourceManifest m source parent proposal chainID fork = true.

(** What a manifest found in the blobs is used as: itself, unless it is the
    empty default, or one forced block with the metadata of its parent. *)
Inductive used_as (m0 : shastaSourceManifest) : shastaSourceManifest -> Prop :=
  | used_itself :
      ds_IsForcedInclusion source = false -> sm_Blocks m0 <> [default_block] -> obeys m0 ->
      used_as m0 m0
  | used_forced b b' :
      ds_IsForcedInclusion source = true -> sm_Blocks m0 = [b] ->
      inherited_block parent proposal chainID fork b' ->
      mb_Transactions b' = mb_Transactions b -> obeys {| sm_Blocks := [b'] |} ->
      used_as m0 {| sm_Blocks := [b'] |}.

(** What a source is resolved to: the default when the blobs hold no manifest
    that can be used. *)
Definition resolved (m : shastaSourceManifest) : Prop :=
  (exists m0, carries m0 /\ used_as m0 m) \/
  (inherited_default parent proposal chainID fork m /\
   ~ exists m0 m', carries m0 /\ used_as m0 m').

Lemma inherited_block_unique b b' :
  inherited_block parent proposal chainID fork b ->
  inherited_block parent proposal chainID fork b' ->
  mb_Transactions b = mb_Transactions b' -> b = b'.
Proof.
  intros (Ht & Hc & Ha & Hg) (Ht' & Hc' & Ha' & Hg') Htx. destruct b, b'; cbn in *. congruence.
Qed.

Lemma inherited_default_unique m m' :
  inherited_default parent proposal chainID fork m ->
  inherited_default parent proposal chainID fork m' -> m = m'.
Proof.
  intros (b & Hb & Htx & Hi) (b' & Hb' & Htx' & Hi').
  rewrite (inherited_block_unique b b') in Hb by congruence. destruct m, m'; cbn in *. congruence.
Qed.

Lemma used_as_unique m0 m m' : used_as m0 m -> used_as m0 m' -> m = m'.
Proof.
  intros H1 H2. destruct H1 as [Hf Hne Ho|b b1 Hf Hb Hi Htx Ho]; inv H2; try congruence.
  do 2 f_equal. apply inherited_block_unique; [done..|]. congruence.
Qed.

Lemma carries_unique m m' : carries m -> carries m' -> m = m'.
Proof.
  intros (_ & l & Hl & Hm) (_ & l' & Hl' & Hm').
  assert (l = l').
  { clear -Hl Hl'. revert l' Hl'. induction Hl as [|raw d blobs l Hd _ IH]; intros l' Hl'; inv Hl'; [done|].
    f_equal; [congruence|by apply IH]. }
  congruence.
Qed.

Lemma resolved_unique m m' : resolved m -> resolved m' -> m = m'.
Proof.
  intros [(m0 & Hc & Hu)|[Hd Hno]] [(m0' & Hc' & Hu')|[Hd' Hno']].
  - rewrite (carries_unique m0 m0') in Hu by done. by eapply used_as_unique.
  - destruct Hno'. by exists m0, m.
  - destruct Hno. by exists m0', m'.
  - by apply inherited_default_unique.
Qed.

Lemma apply_default :
  inherited_default parent proposal chainID fork
    (applyInheritedManifestMetadata defaultSourceManifest parent proposal chainID fork).
Proof. eexists. split; [done|]. by split. Qed.

Lemma isDefault_spec m : isDefaultSourceManifest m = true <-> sm_Blocks m = [default_block].
Proof.
  unfold isDefaultSourceManifest, default_block. destruct (sm_Blocks m) as [|b [|]]; try done.
  destruct b as [t c a g [|tx txs]]; cbn; [|by rewrite andb_false_r].
  rewrite andb_true_r, !andb_true_iff, !Z.eqb_eq. split; [|naive_solver].
  by intros [[[-> ->] ->] ->].
Qed.

(** The code after the manifest is read. *)
Definition fall_back (manifest : shastaSourceManifest) : shastaSourceManifest :=
  let manifest :=
    if ds_IsForcedInclusion source && negb (length (sm_Blocks manifest) =? 1)%nat
    then defaultSourceManifest else manifest in
  let manifest :=
    if ds_IsForcedInclusion source || isDefaultSourceManifest manifest
    then applyInheritedManifestMetadata manifest parent proposal chainID fork
    else manifest in
  if negb (validateSourceManifest manifest source parent proposal chainID fork)
  then applyInheritedManifestMetadata defaultSourceManifest parent proposal chainID fork
  else manifest.

Lemma fall_back_spec m0 :
  used_as m0 (fall_back m0) \/
  (inherited_default parent proposal chainID fork (fall_back m0) /\ forall m, ~ used_as m0 m).
Proof.
  pose proof apply_default as Hdef. unfold fall_back.
  destruct (ds_IsForcedInclusion source) eqn:Hf; cbn [andb orb].
  - destruct (sm_Blocks m0) as [|b [|b1 bs]] eqn:Hb; cbn [length Nat.eqb negb];
      try (right; split; [by destruct (validateSourceManifest _ _ _ _ _ _)|];
           intros m Hu; inv Hu; congruence).
    set (m1 := applyInheritedManifestMetadata m0 parent proposal chainID fork).
    assert (Hm1 : exists b', m1 = {| sm_Blocks := [b'] |} /\
      inherited_block parent proposal chainID fork b' /\ mb_Transactions b' = mb_Transactions b).
    { unfold m1, applyInheritedManifestMetadata. rewrite Hb. by eexists. }
    destruct Hm1 as (b' & Hm1 & Hi & Htx). rewrite Hm1.
    destruct (validateSourceManifest _ _ _ _ _ _) eqn:Hv; cbn [negb].
    + left. by eapply used_forced.
    + right. split; [done|]. intros m Hu. inv Hu as [|c c' ? Hc Hi' Htx' Ho]; [congruence|].
      rewrite (inherited_block_unique c' b') in Ho by congruence. unfold obeys in Ho. congruence.
  - destruct (isDefaultSourceManifest m0) eqn:Hd.
    + apply isDefault_spec in Hd. right. split; [|intros m Hu; inv Hu; congruence].
      replace m0 with defaultSourceManifest by (destruct m0; cbn in *; by subst).
      by destruct (validateSourceManifest _ _ _ _ _ _).
    + assert (sm_Blocks m0 <> [default_block]).
      { intros He%isDefault_spec. congruence. }
      destruct (validateSourceManifest m0 _ _ _ _ _) eqn:Hv; cbn [negb]; [by left; constructor|].
      right. split; [done|]. intros m Hu. inv Hu as [? ? Ho|]; [|congruence].
      unfold obeys in Ho. congruence.
Qed.

(** Reading a source. *)
Definition read_source : result shastaSourceManifest :=
  if (length (bs_BlobHashes (ds_BlobSlice source)) =? 0)%nat ||
     (bs_Offset (ds_BlobSlice source) >? shastaMaxManifestOffset)
  then Ok defaultSourceManifest
  else decodeBlobBackedSourceManifest dataSource (bs_Offset (ds_BlobSlice source)) maxBlocks.

Lemma prepareSourceManifest_eq :
  prepareSourceManifest dataSource source parent proposal chainID fork maxBlocks =
  (let! m0 := read_source in Ok (fall_back m0)).
Proof.
  unfold prepareSourceManifest, fall_back. fold read_source.
  destruct read_source as [m0|e]; cbn [res_bind]; [|done].
  by destruct (negb (validateSourceManifest _ _ _ _ _ _)).
Qed.

Lemma blob_backed_dec :
  (length (bs_BlobHashes (ds_BlobSlice source)) =? 0)%nat ||
  (bs_Offset (ds_BlobSlice source) >? shastaMaxManifestOffset) = false <-> blob_backed source.
Proof.
  unfold blob_backed. rewrite orb_false_iff, Nat.eqb_neq, length_zero_iff_nil.
  rewrite Z.gtb_ltb, Z.ltb_ge. tauto.
Qed.

Lemma read_source_fails :
  is_ok read_source = false <-> blob_backed source /\ ~ blobs_shipped dataSource.
Proof.
  unfold read_source. rewrite <- blob_backed_dec. destruct (_ || _); [naive_solver|].
  rewrite <- (decodeBlob_ok dataSource (bs_Offset (ds_BlobSlice source)) maxBlocks).
  rewrite not_true_iff_false. tauto.
Qed.

Lemma read_source_spec m0 :
  read_source = Ok m0 -> carries m0 \/ (m0 = defaultSourceManifest /\ forall m, ~ carries m).
Proof.
  unfold read_source, carries. pose proof blob_backed_dec as Hb.
  destruct (_ || _); [intros [= <-]; right; split; [done|]; by intros m [Hx%Hb _]|].
  unfold decodeBlobBackedSourceManifest. intros Hm.
  apply res_bind_ok in Hm as ([] & _ & Hm). apply res_bind_ok in Hm as ([] & _ & Hm).
  destruct (concat_blobs _) as [c|] eqn:Hc.
  - apply concat_blobs_Forall2 in Hc as (l & Hl & ->).
    destruct (decodeManifestPayload (concat l) _ _) as [m1|e] eqn:Hp.
    + injection Hm as <-. left. split; [by apply Hb|]. by exists l.
    + injection Hm as <-. right. split; [done|]. intros m (_ & l' & Hl' & Hp').
      assert (Hcl : concat_blobs (bd_TxDataFromBlob dataSource) = Some (concat l)).
      { apply concat_blobs_Forall2. by exists l. }
      assert (Hcl' : concat_blobs (bd_TxDataFromBlob dataSource) = Some (concat l')).
      { apply concat_blobs_Forall2. by exists l'. }
      congruence.
  - injection Hm as <-. right. split; [done|]. intros m (_ & l' & Hl' & _).
    assert (Hcl' : concat_blobs (bd_TxDataFromBlob dataSource) = Some (concat l')).
    { apply concat_blobs_Forall2. by exists l'. }
    congruence.
Qed.

Lemma read_source_shipped m0 :
  read_source = Ok m0 -> blob_backed source -> blobs_shipped dataSource.
Proof.
  unfold read_source. rewrite <- blob_backed_dec. intros Hr Hb. rewrite Hb in Hr.
  by rewrite <- (decodeBlob_ok dataSource (bs_Offset (ds_BlobSlice source)) maxBlocks), Hr.
Qed.

Lemma fall_back_resolved m0 : read_source = Ok m0 -> resolved (fall_back m0).
Proof.
  intros [Hc|[-> Hno]]%read_source_spec.
  - destruct (fall_back_spec m0) as [Hu|[Hd Hn]]; [left; by exists m0|].
    right. split; [done|]. intros (m1 & m' & Hc' & Hu).
    rewrite (carries_unique m1 m0) in Hu by done. by apply (Hn m').
  - right. split; [|intros (m0 & m' & Hc & _); by apply (Hno m0)].
    destruct (fall_back_spec defaultSourceManifest) as [Hu|[Hd _]]; [|done].
    remember (fall_back defaultSourceManifest) as m. destruct Hu as [_ Hne _|b b' _ Hb Hi Htx _]; [done|].
    injection Hb as <-. by exists b'.
Qed.

Lemma prepared m :
  prepareSourceManifest dataSource source parent proposal chainID fork maxBlocks = Ok m <->
  (blob_backed source -> blobs_shipped dataSource) /\ resolved m.
Proof.
  rewrite prepareSourceManifest_eq. split.
  - intros Hm. apply res_bind_ok in Hm as (m0 & Hr & [= <-]).
    split; [by eapply read_source_shipped|by apply fall_back_resolved].
  - intros [Hs Hm]. destruct read_source as [m0|e] eqn:Hr; cbn [res_bind].
    + f_equal. eapply resolved_unique; [by apply fall_back_resolved|done].
    + pose proof read_source_fails as [Hf _]. rewrite Hr in Hf. destruct (Hf eq_refl). tauto.
Qed.

(** It has one block at least and no more than the limit; a forced one has one. *)
Lemma resolved_blocks m :
  resolved m -> sm_Blocks m <> [] /\
  (1 <= maxBlocks -> Z.of_nat (length (sm_Blocks m)) <= maxBlocks) /\
  (ds_IsForcedInclusion source = true -> exists b, sm_Blocks m = [b] /\
     inherited_block parent proposal chainID fork b).
Proof.
  intros [(m0 & (_ & l & _ & Hp) & Hu)|[(b & Hb & Htx & Hi) _]].
  - apply decodeManifestPayload_count in Hp. destruct Hu as [Hf Hne Ho|b b' Hf Hb Hi Htx Ho].
    + split_conj; [|done|congruence]. unfold obeys, validateSourceManifest in Ho. intros Hn.
      by rewrite Hn in Ho.
    + split_conj; [done|cbn; lia|]. intros _. by exists b'.
  - rewrite Hb. split_conj; [done|cbn; lia|]. intros _. by exists b.
Qed.
End Source.

(** C26 (derivation is total and not the host's choice): preparing a source
    fails exactly when the source is blob backed and the host withheld its
    blobs or shipped one of the wrong length.  Otherwise the result is fixed:
    the manifest the blobs decode to, when it obeys the rules and is not the
    empty default; for a forced inclusion the one block they decode to, with
    its transactions and the metadata of its parent, when that obeys the rules;
    and in every other case the default block with inherited metadata.  It
    holds at least one block and at most the limit, and a forced inclusion
    yields exactly one block whose time, coinbase, anchor and gas limit are
    inherited. *)
Theorem prepareSourceManifest_spec dataSource source parent proposal chainID fork maxBlocks :
  let r := prepareSourceManifest dataSource source parent proposal chainID fork maxBlocks in
  (is_ok r = false <-> blob_backed source /\ ~ blobs_shipped dataSource) /\
  (forall m, r = Ok m <->
     (blob_backed source -> blobs_shipped dataSource) /\
     resolved dataSource source parent proposal chainID fork maxBlocks m) /\
  (forall m, r = Ok m ->
     sm_Blocks m <> [] /\
     (1 <= maxBlocks -> Z.of_nat (length (sm_Blocks m)) <= maxBlocks) /\
     (ds_IsForcedInclusion source = true -> exists b, sm_Blocks m = [b] /\
        inherited_block parent proposal chainID fork b)).
Proof.
  cbv zeta. split_conj.
  - rewrite <- (read_source_fails dataSource source maxBlocks), prepareSourceManifest_eq.
    by destruct (read_source dataSource source maxBlocks).
  - intros m. apply prepared.
  - intros m [_ Hm]%prepared. by eapply resolved_blocks.
Qed.
End Prepare.

Section Sample.
#[local] Existing Instance sample_core_types.

Definition sample_manifest_block (t anchor gas : Z) : shastaManifestBlock := {|
  mb_Timestamp := t; mb_Coinbase := 0x99; mb_AnchorBlockNumber := anchor; mb_GasLimit := gas;
  mb_Transactions := [] |}.

Definition sample_source_manifest : shastaSourceManifest := {|
  sm_Blocks := [sample_manifest_block 1700000200 480 15000000;
                sample_manifest_block 1700000212 490 15002000] |}.

Definition sample_parent_context : shastaManifestParentContext := {|
  pc_Number := Some 10; pc_Time := 1700000120; pc_GasLimit := 16000000; pc_MixDigest := 9;
  pc_GrandparentHeader := None; pc_AnchorBlockNumber := 480 |}.

Definition sample_source : shastaDerivationSourceView := {|
  ds_IsForcedInclusion := false;
  ds_BlobSlice := {| bs_BlobHashes := [5]; bs_Offset := 0; bs_Timestamp := 1700000299 |} |}.

Lemma validateSourceManifest_spec_witness :
  valid_manifest sample_source_manifest sample_source sample_parent_context sample_proposal
    167001 0.
Proof.
  apply (validateSourceManifest_spec sample_source_manifest).
  - repeat constructor; vm_compute; congruence.
  - cbn. lia.
  - vm_compute. split; congruence.
  - vm_compute. split; congruence.
  - vm_compute. reflexivity.
Defined.
End Sample.
