(* ===== verification/AnchorLink.v ===== *)
(** * The anchors' link to L1

    The last part of [internal/prover/manifest_validate.go] and
    [internal/prover/l2_state.go]: the checkpoint an anchor transaction carries,
    the predeployed contracts' addresses, the checkpoint stored in the parent L2
    state, and [validateAnchorL1Linkage], which ties every anchor checkpoint to
    the L1 block the proposal originates from. *)

From Stdlib Require Import Ascii.
From S2P Require Import Prelude Bytes GoStd Json External Types CoreTypes Samples Anchors.
From S2P Require Import BlobCoder Hash Proposal Decode Fixtures GuestInput.

#[local] Open Scope string_scope.
#[local] Open Scope list_scope.
#[local] Open Scope Z_scope.

(** Package [core/state] over a witness: [state.New] on the witness's database,
    [GetState], which leaves a deferred error in the database, and [Error]. *)
Class StateTypes : Type := {
  StateDB : Type;
  state_New : Witness -> Z -> result StateDB;
  GetState : StateDB -> Z -> Z -> Z * StateDB;
  StateDB_Error : StateDB -> option error;
}.

Definition shastaTaikoL2AddressSuffix : string := "10001".
Definition shastaCheckpointStoreSuffix : string := "5".
Definition shastaSignalServiceCheckpointsSlot : Z := 254.
Definition anchorV4CalldataLength : Z := 4 + 96.

Record anchorV4CheckpointView := {
  ac_blockNumber : Z;
  ac_blockHash : Z;
  ac_stateRoot : Z;
}.

#[export] Instance anchorV4CheckpointView_eq_dec : EqDecision anchorV4CheckpointView.
Proof. solve_decision. Defined.

(* ------------------------------------------------------------------ *)
(** ** Addresses and words *)

(** [common.HexToAddress] of hexadecimal text, the only kind the source passes:
    an odd number of digits gets a leading zero. *)
Definition HexToAddress (s : string) : Z :=
  let digits := TrimPrefix s "0x" in
  let padded := if Nat.odd (String.length digits) then "0" +:+ digits else digits in
  match hex_DecodeString padded with
  | Ok bs => BytesToAddress bs
  | Err _ => 0
  end.

(** [strings.Repeat("0", n)]. *)
Definition repeat_zero (n : Z) : string := string_of_list_ascii (replicate (Z.to_nat n) "0"%char).

Definition shastaPredeployAddress (chainID : Z) (suffix name : string) : result Z :=
  let prefix := TrimPrefix (format_uint chainID) "0" in
  let padding := Z.of_nat AddressLength * 2 - Z.of_nat (String.length prefix) -
    Z.of_nat (String.length suffix) in
  reject_if (padding <? 0) (Errorf ("chain_id is too long to derive address " +:+ name)) ;;!
  Ok (HexToAddress ("0x" +:+ prefix +:+ repeat_zero padding +:+ suffix)).

Definition shastaTaikoL2Address (chainID : Z) : result Z :=
  shastaPredeployAddress chainID shastaTaikoL2AddressSuffix "TaikoL2".

Definition shastaCheckpointStoreAddress (chainID : Z) : result Z :=
  shastaPredeployAddress chainID shastaCheckpointStoreSuffix "CheckpointStore".

Definition encodeShastaManifestExtraData (basefeeSharingPctg proposalID : Z) : list byte :=
  [byte_of basefeeSharingPctg] ++ drop 2 (be_bytes 8 proposalID).

(** [parentHeader.Difficulty] as a hash, zero when there is none. *)
Definition shastaManifestParentDifficulty (parentHeader : option Header) : Z :=
  match parentHeader with
  | Some h => match hd_Difficulty h with Some d => Z.abs d mod 2 ^ 256 | None => 0 end
  | None => 0
  end.

Section Words.
Context `{Keccak}.

Definition shastaManifestMixHash (parentMixHash blockNumber : Z) : Z :=
  Keccak256Hash (Hash_Bytes parentMixHash ++ replicate 24 x00 ++ be_bytes 8 blockNumber).

(** The slots of [checkpoints[blockNumber].blockHash] and [.stateRoot]. *)
Definition shastaCheckpointStorageSlots (blockNumber : Z) : Z * Z :=
  let blockHashSlot := Keccak256Hash
    (be_bytes 32 blockNumber ++ be_bytes 32 shastaSignalServiceCheckpointsSlot) in
  (blockHashSlot, (blockHashSlot + 1) mod 2 ^ 256).

(** The first four bytes of the digest of a function's signature. *)
Definition anchorV4_selector : list byte :=
  take 4 (Hash_Bytes (Keccak256Hash
    (byte_of ∘ ascii_code <$> chars_of "anchorV4((uint48,bytes32,bytes32))"))).

Definition decodeAnchorV4Checkpoint (input : list byte) : result anchorV4CheckpointView :=
  reject_if ((zlen input <? 4) || negb (bool_decide (zslice 0 4 input = anchorV4_selector)))
    (Errorf "first transaction is not anchorV4") ;;!
  reject_if (negb (zlen input =? anchorV4CalldataLength))
    (Errorf "anchorV4 calldata length mismatch") ;;!
  reject_if (negb (all_zero (zslice 4 (4 + 26) input)))
    (Errorf "anchorV4 blockNumber has non-canonical uint48 padding") ;;!
  let blockNumber := be_Z (zslice (4 + 24) (4 + 32) input) in
  reject_if (blockNumber >? maxUint48) (Errorf "anchorV4 blockNumber exceeds uint48") ;;!
  Ok {|
    ac_blockNumber := blockNumber;
    ac_blockHash := BytesToHash (zslice (4 + 32) (4 + 64) input);
    ac_stateRoot := BytesToHash (zslice (4 + 64) (4 + 96) input);
  |}.

(** The calldata of an [anchorV4] call. *)
Definition encode_anchorV4 (c : anchorV4CheckpointView) : list byte :=
  anchorV4_selector ++ be_bytes 32 (ac_blockNumber c) ++ Hash_Bytes (ac_blockHash c) ++
  Hash_Bytes (ac_stateRoot c).
End Words.

(* ------------------------------------------------------------------ *)
(** ** The parent L2 state *)

Section Link.
Context `{HexUtil} `{CoreTypes} `{Keccak} `{StateTypes}.

Definition decodeProposalStateNodes (raws : list json) : result (list (list byte)) :=
  for_range (fun _ raw =>
    let! hexNode := wrap_err "proposal_state_nodes" (Unmarshal_string (Some raw)) in
    wrap_err "proposal_state_nodes" (hexutil_Decode hexNode)) 0 raws.

Definition readParentL2Storage (view : GuestInputView) (account slot : Z) : result Z :=
  let! first := some_or (head (gv_Witnesses view))
    (Errorf "guest input must include at least one witness") in
  let! decoded := wrap_err "decode first witness block"
    (decodeReplayBlock (wv_ReplayBlock first)) in
  let replayWitness := decoded.2 in
  let! parentHeader := some_or (head (wt_Headers replayWitness))
    (Errorf "first witness missing parent header") in
  reject_if (negb (Header_Hash parentHeader =?
      ti_ParentBlockHash (cv_TransitionInput (gv_Carry view))))
    (Errorf "witness parent header hash does not match committed parent block hash") ;;!
  let! proposalNodes := decodeProposalStateNodes (gi_ProposalStateNodes (gv_Raw view)) in
  let witness := {|
    wt_Headers := wt_Headers replayWitness;
    wt_Codes := wt_Codes replayWitness;
    wt_State := wt_State replayWitness ∪ list_to_set proposalNodes |} in
  let! db := wrap_err "open parent state" (state_New witness (hd_Root parentHeader)) in
  let '(value, db) := GetState db account slot in
  match StateDB_Error db with
  | Some err => Err (Wrapf "read slot from parent state" err)
  | None => Ok value
  end.

Definition decodeWitnessCheckpointStore (view : GuestInputView) : result Z :=
  let! first := some_or (head (gv_Witnesses view))
    (Errorf "guest input must include at least one witness") in
  let! fields := wrap_err "unmarshal witness.chain_spec"
    (decodeJSONObject (wv_ChainSpecRaw first)) in
  requireAddress fields ["checkpoint_store_contract"; "checkpointStoreContract"].

Definition verifiedCheckpointStore (view : GuestInputView) : result Z :=
  let! expected := shastaCheckpointStoreAddress (gv_GuestInputChainID view) in
  let! got := decodeWitnessCheckpointStore view in
  reject_if (negb (got =? expected)) (Errorf "checkpoint_store_contract mismatch") ;;!
  Ok expected.

Definition verifiedParentShastaCheckpoint (view : GuestInputView) (blockNumber : Z)
  : result anchorV4CheckpointView :=
  let! store := verifiedCheckpointStore view in
  let '(blockHashSlot, stateRootSlot) := shastaCheckpointStorageSlots blockNumber in
  let! blockHash := wrap_err "read parent CheckpointStore blockHash"
    (readParentL2Storage view store blockHashSlot) in
  let! stateRoot := wrap_err "read parent CheckpointStore stateRoot"
    (readParentL2Storage view store stateRootSlot) in
  reject_if (blockHash =? 0) (Errorf "parent CheckpointStore blockHash is zero") ;;!
  reject_if (stateRoot =? 0) (Errorf "parent CheckpointStore stateRoot is zero") ;;!
  Ok {| ac_blockNumber := blockNumber; ac_blockHash := blockHash; ac_stateRoot := stateRoot |}.

(* ---------------------------------------------------------------- *)
(** ** The L1 headers *)

Definition decodeGuestInputL1Headers (raw : RawMessage) : result (Header * list Header) :=
  let! fields := wrap_err "unmarshal taiko" (decodeJSONObject raw) in
  let l1HeaderRaw := lookupField fields ["l1_header"; "l1Header"] in
  reject_if (isEmptyOrNullRawMessage l1HeaderRaw) (Errorf "missing taiko.l1_header") ;;!
  let! l1Header := wrap_err "decode taiko.l1_header" (decodeL1Header l1HeaderRaw) in
  let ancestorsRaw := lookupField fields ["l1_ancestor_headers"; "l1AncestorHeaders"] in
  if isEmptyOrNullRawMessage ancestorsRaw then Ok (l1Header, [])
  else
    let! rawList := wrap_err "unmarshal taiko.l1_ancestor_headers"
      (Unmarshal_raw_list ancestorsRaw) in
    let! ancestors := for_range (fun _ r =>
      wrap_err "decode taiko.l1_ancestor_headers" (decodeL1Header (Some r)))
      0 (default [] rawList) in
    Ok (l1Header, ancestors).

(** The checkpoint of an L1 header. *)
Definition header_checkpoint (h : Header) : anchorV4CheckpointView := {|
  ac_blockNumber := number_u64 h; ac_blockHash := Header_Hash h; ac_stateRoot := hd_Root h |}.

(** The inner loop: consume the checkpoints with this header's number.  The
    list is [headerCheckpoints[cpIndex:]]. *)
Fixpoint match_checkpoints (number headerHash root : Z) (cps : list anchorV4CheckpointView)
  : result (list anchorV4CheckpointView) :=
  match cps with
  | cp :: rest =>
      if ac_blockNumber cp =? number then
        reject_if (negb (ac_blockHash cp =? headerHash) || negb (ac_stateRoot cp =? root))
          (Errorf "anchor checkpoint not found in taiko.l1_ancestor_headers") ;;!
        match_checkpoints number headerHash root rest
      else Ok cps
  | [] => Ok []
  end.

(** The loop's variables: the checkpoints left and the last header's number
    and hash. *)
Record linkState := {
  ls_cps : list anchorV4CheckpointView;
  ls_prev : option (Z * Z);
}.

Definition link_header (st : linkState) (header : Header) : result linkState :=
  let! n := some_or (hd_Number header) (Errorf "taiko.l1_ancestor_headers missing number") in
  let headerHash := Header_Hash header in
  let number := big_Uint64 n in
  match ls_prev st with
  | Some (prevNumber, prevHash) =>
      reject_if (negb (number =? add64 prevNumber 1))
        (Errorf "taiko.l1_ancestor_headers must be contiguous") ;;!
      reject_if (negb (hd_ParentHash header =? prevHash))
        (Errorf "taiko.l1_ancestor_headers parent hash mismatch")
  | None => Ok tt
  end ;;!
  let! cps := match_checkpoints number headerHash (hd_Root header) (ls_cps st) in
  Ok {| ls_cps := cps; ls_prev := Some (number, headerHash) |}.

Definition all_match_parent (cps : list anchorV4CheckpointView)
  (parentCheckpoint : anchorV4CheckpointView) (msg : string) : result unit :=
  for_check (fun _ cp => reject_if (negb (bool_decide (cp = parentCheckpoint))) (Errorf msg))
    0 cps.

Definition validateAnchorL1Linkage (view : GuestInputView) (proposal : shastaProposalView)
  (checkpoints : list anchorV4CheckpointView) (sourceSpans : list manifestAnchorSourceSpan)
  (lastAnchor : Z) : result unit :=
  let! headers := decodeGuestInputL1Headers (gv_TaikoRaw view) in
  let '(l1Header, ancestors) := headers in
  reject_if (negb (bool_decide
      (big_Uint64 <$> hd_Number l1Header = Some (sp_OriginBlockNumber proposal))))
    (Errorf "taiko.l1_header.number mismatch") ;;!
  reject_if (negb (Header_Hash l1Header =? sp_OriginBlockHash proposal))
    (Errorf "taiko.l1_header hash mismatch") ;;!
  if shouldBypassStalledAnchorLinkage (ac_blockNumber <$> checkpoints) lastAnchor
       (sp_OriginBlockNumber proposal) (gv_GuestInputChainID view)
  then
    let! parentCheckpoint := verifiedParentShastaCheckpoint view lastAnchor in
    all_match_parent checkpoints parentCheckpoint
      "anchor checkpoint does not match parent checkpoint"
  else
    let startIndex := manifestForcedInclusionPrefixCount sourceSpans in
    reject_if (length checkpoints <? startIndex)%nat
      (Errorf "forced-inclusion prefix exceeds checkpoint count") ;;!
    (if (0 <? startIndex)%nat then
       let! parentCheckpoint := verifiedParentShastaCheckpoint view lastAnchor in
       all_match_parent (take startIndex checkpoints) parentCheckpoint
         "forced-inclusion anchor checkpoint does not match parent checkpoint"
     else Ok tt) ;;!
    reject_if (length ancestors =? 0)%nat
      (Errorf "taiko.l1_ancestor_headers must not be empty") ;;!
    let! st := for_fold (fun _ => link_header) 0
      {| ls_cps := drop startIndex checkpoints; ls_prev := None |} ancestors in
    let '(lastNumber, lastHash) := default (0, 0) (ls_prev st) in
    reject_if (negb (lastNumber =? sp_OriginBlockNumber proposal))
      (Errorf "taiko.l1_ancestor_headers last block number mismatch") ;;!
    reject_if (negb (lastHash =? sp_OriginBlockHash proposal))
      (Errorf "taiko.l1_ancestor_headers last hash mismatch") ;;!
    reject_if (negb (length (ls_cps st) =? 0)%nat)
      (Errorf "anchor checkpoint not found in taiko.l1_ancestor_headers") ;;!
    Ok tt.
End Link.

(* ------------------------------------------------------------------ *)
(** ** The anchor call *)

Section AnchorCall.
Context `{Keccak}.

Definition typed_anchor_checkpoint (c : anchorV4CheckpointView) : Prop :=
  is_uint 48 (ac_blockNumber c) /\ is_hash (ac_blockHash c) /\ is_hash (ac_stateRoot c).

Lemma selector_length : zlen anchorV4_selector = 4.
Proof. unfold zlen, anchorV4_selector. by rewrite length_take, length_Hash_Bytes. Qed.

Lemma word48 n : is_uint 48 n -> be_bytes 32 n = zeros 26 ++ be_bytes 6 n.
Proof.
  unfold is_uint. intros Hn. apply be_Z_inj.
  - rewrite length_app, !length_be_bytes. unfold zeros. by rewrite length_replicate.
  - rewrite be_Z_app, !be_Z_bytes. unfold zeros. rewrite be_Z_zeros, length_be_bytes.
    change (256 ^ Z.of_nat 32) with (2 ^ 256). change (256 ^ Z.of_nat 6) with (2 ^ 48).
    rewrite !Z.mod_small by lia. lia.
Qed.

(** The pieces of 100 bytes of calldata. *)
Lemma calldata_slices sel a b c d :
  zlen sel = 4 -> zlen a = 26 -> zlen b = 6 -> zlen c = 32 -> zlen d = 32 ->
  let input := sel ++ (a ++ b) ++ c ++ d in
  zlen input = 100 /\ zslice 0 4 input = sel /\ zslice 4 (4 + 26) input = a /\
  zslice (4 + 24) (4 + 32) input = drop 24 a ++ b /\
  zslice (4 + 32) (4 + 64) input = c /\ zslice (4 + 64) (4 + 96) input = d.
Proof.
  intros Hs Ha Hb Hc Hd input.
  assert (Ha' : a = take 24 a ++ drop 24 a) by by rewrite take_drop.
  assert (zlen (take 24 a) = 24) by (unfold zlen in *; rewrite length_take; lia).
  assert (zlen (drop 24 a) = 2) by (unfold zlen in *; rewrite length_drop; lia).
  split_conj.
  - unfold input. rewrite !zlen_app. lia.
  - apply (zslice_mid [] sel). { done. } unfold zlen in *. cbn. lia.
  - unfold input. rewrite <- (app_assoc a). apply zslice_mid; lia.
  - unfold input. rewrite Ha' at 1.
    replace (sel ++ ((take 24 a ++ drop 24 a) ++ b) ++ c ++ d)
      with ((sel ++ take 24 a) ++ (drop 24 a ++ b) ++ c ++ d) by by app_norm.
    apply zslice_mid; rewrite !zlen_app; lia.
  - unfold input. rewrite app_assoc. apply zslice_mid; rewrite !zlen_app; lia.
  - unfold input.
    replace (sel ++ (a ++ b) ++ c ++ d) with ((sel ++ (a ++ b) ++ c) ++ d ++ [])
      by (app_norm; by rewrite app_nil_r).
    apply zslice_mid; rewrite !zlen_app; lia.
Qed.

(** C36 (anchor calldata is canonical): [decodeAnchorV4Checkpoint] returns a
    checkpoint exactly for the one calldata that encodes it: selector, the
    block number as a [uint48] word, block hash, state root, and nothing else. *)
Theorem decodeAnchorV4Checkpoint_spec input c :
  decodeAnchorV4Checkpoint input = Ok c <->
  typed_anchor_checkpoint c /\ input = encode_anchorV4 c.
Proof.
  unfold decodeAnchorV4Checkpoint, typed_anchor_checkpoint, encode_anchorV4. split.
  - intros Hd. go_ok.
    match goal with H : zlen input = _ |- _ => rename H into Hlen end.
    unfold anchorV4CalldataLength in Hlen.
    destruct (split_at_len 4 input 96) as (sel & r & -> & Hs & Hr); [lia..|].
    destruct (split_at_len 32 r 64) as (w & r' & -> & Hw & Hr'); [lia..|].
    destruct (split_at_len 26 w 6) as (a & b & -> & Ha & Hb); [lia..|].
    destruct (split_at_len 32 r' 32) as (h & s & -> & Hh & Hst); [lia..|].
    destruct (calldata_slices sel a b h s Hs Ha Hb Hh Hst) as (_ & E1 & E2 & E3 & E4 & E5).
    rewrite E1, E2, E3 in *. rewrite E4, E5. cbn [ac_blockNumber ac_blockHash ac_stateRoot].
    match goal with H : all_zero a = true |- _ => apply all_zero_zeros in H; rewrite Ha in H;
      rename H into Hz end.
    assert (Hbz : be_Z (drop 24 a ++ b) = be_Z b).
    { rewrite be_Z_app, Hz. change (drop 24 (zeros 26)) with (replicate 2 x00).
      rewrite be_Z_zeros. lia. }
    rewrite Hbz in *. pose proof (be_Z_range b) as Hrange.
    assert (length b = 6%nat) as Hb' by (unfold zlen in Hb; lia).
    rewrite Hb' in Hrange. change (256 ^ Z.of_nat 6) with (2 ^ 48) in Hrange.
    split_conj; [done|apply BytesToHash_range|apply BytesToHash_range|].
    rewrite word48 by done. rewrite !Hash_Bytes_BytesToHash by (unfold zlen in *; lia).
    rewrite <- Hb', be_bytes_Z, <- Hz. by subst sel.
  - intros ((Hn & Hh & Hs) & ->). rewrite word48 by done.
    destruct (calldata_slices anchorV4_selector (zeros 26) (be_bytes 6 (ac_blockNumber c))
      (Hash_Bytes (ac_blockHash c)) (Hash_Bytes (ac_stateRoot c)))
      as (E0 & E1 & E2 & E3 & E4 & E5); [apply selector_length|done|unfold zlen|unfold zlen|unfold zlen|].
    1-3: by rewrite ?length_be_bytes, ?length_Hash_Bytes.
    rewrite E0, E1, E2, E3, E4, E5. cbn [Z.ltb Z.compare orb]. rewrite bool_decide_true by done.
    cbn [orb negb reject_if res_bind].
    change (100 =? anchorV4CalldataLength) with true. cbn [orb negb reject_if res_bind].
    rewrite all_zero_zeros_n. cbn [orb negb reject_if res_bind].
    change (drop 24 (zeros 26)) with (replicate 2 x00).
    rewrite be_Z_app, be_Z_zeros, be_Z_bytes. unfold is_uint in Hn.
    change (256 ^ Z.of_nat 6) with (2 ^ 48). rewrite (Z.mod_small (ac_blockNumber c)) by done.
    rewrite Z.mul_0_l, Z.add_0_l.
    destruct (Z.gtb_spec (ac_blockNumber c) maxUint48); [unfold maxUint48 in *; lia|].
    cbn [reject_if res_bind]. rewrite !BytesToHash_Bytes by done. by destruct c.
Qed.
End AnchorCall.

(* ------------------------------------------------------------------ *)
(** ** What the link to L1 establishes *)

Section Linkage.
Context `{HexUtil} `{CoreTypes} `{Keccak} `{StateTypes}.

(** [b] is the child of [a]. *)
Definition header_follows (a b : Header) : Prop :=
  number_u64 b = add64 (number_u64 a) 1 /\ hd_ParentHash b = Header_Hash a.

(** A hash-linked segment of L1 that ends in the given block. *)
Definition l1_segment (headers : list Header) (number hash : Z) : Prop :=
  chained header_follows headers /\
  exists lst, last headers = Some lst /\ number_u64 lst = number /\ Header_Hash lst = hash.

Lemma match_checkpoints_ok h cps rest :
  match_checkpoints (number_u64 h) (Header_Hash h) (hd_Root h) cps = Ok rest ->
  exists used, cps = used ++ rest /\ Forall (eq (header_checkpoint h)) used.
Proof.
  revert rest. induction cps as [|cp cps IH]; intros rest; cbn [match_checkpoints].
  - intros [= <-]. by exists [].
  - destruct (Z.eqb_spec (ac_blockNumber cp) (number_u64 h)).
    + intros Hm. go_ok. apply IH in Hm as (used & -> & Hu). exists (cp :: used).
      split; [done|]. constructor; [|done]. destruct cp. unfold header_checkpoint.
      cbn in *. congruence.
    + intros [= <-]. by exists [].
Qed.

(** The header before the first one of the loop, if any. *)
Definition prev_link (prev : option (Z * Z)) (h : Header) : Prop :=
  match prev with
  | Some p => number_u64 h = add64 p.1 1 /\ hd_ParentHash h = p.2
  | None => True
  end.

Lemma link_header_ok st h st' :
  link_header st h = Ok st' ->
  prev_link (ls_prev st) h /\ ls_prev st' = Some (number_u64 h, Header_Hash h) /\
  exists used, ls_cps st = used ++ ls_cps st' /\ Forall (eq (header_checkpoint h)) used.
Proof.
  unfold link_header, prev_link, number_u64. intros Hl. go_inv. cbn [ls_prev ls_cps].
  match goal with H : hd_Number h = Some _ |- _ => rename H into Hn end.
  rewrite Hn. cbn [fmap option_fmap option_map default].
  split_conj.
  - destruct (ls_prev st) as [[pn ph]|]; [|done]. go_ok. done.
  - done.
  - apply match_checkpoints_ok. unfold number_u64. by rewrite Hn.
Qed.

Lemma link_fold_ok hs : forall i st st',
  for_fold (fun _ => link_header) i st hs = Ok st' ->
  chained header_follows hs /\ (forall h, head hs = Some h -> prev_link (ls_prev st) h) /\
  ls_prev st' = match last hs with
    | Some h => Some (number_u64 h, Header_Hash h) | None => ls_prev st end /\
  exists used, ls_cps st = used ++ ls_cps st' /\
    Forall (fun cp => exists h, h ∈ hs /\ cp = header_checkpoint h) used.
Proof.
  induction hs as [|h hs IH]; intros i st st'; cbn [for_fold].
  - intros [= <-]. split_conj; try done. by exists [].
  - intros Hf. apply res_bind_ok in Hf as (st1 & Hstep & Hf).
    apply link_header_ok in Hstep as (Hp & Hprev & used1 & Hu1 & Hf1).
    apply IH in Hf as (Hc & Hhead & Hlast & used2 & Hu2 & Hf2). split_conj.
    + destruct hs as [|h' hs']; [done|]. split; [|done].
      specialize (Hhead h' eq_refl). by rewrite Hprev in Hhead.
    + by intros ? [= <-].
    + rewrite Hlast, last_cons, Hprev. by destruct (last hs).
    + exists (used1 ++ used2). split; [by rewrite Hu1, Hu2, app_assoc|].
      apply Forall_app_2.
      * eapply Forall_impl; [exact Hf1|]. intros cp <-. exists h.
        split; [apply list_elem_of_here|done].
      * eapply Forall_impl; [exact Hf2|]. intros cp (h' & Hh' & ->). exists h'.
        split; [by apply list_elem_of_further|done].
Qed.

Lemma all_match_parent_ok cps cp msg u :
  all_match_parent cps cp msg = Ok u <-> Forall (eq cp) cps.
Proof.
  unfold all_match_parent. rewrite (for_check_Forall (fun c => reject_if _ _)).
  apply Forall_proper; [|done]. intros c.
  rewrite reject_if_ok, negb_false_iff, bool_decide_eq_true. naive_solver.
Qed.

(** C29 (anchors come from L1): when the linkage is accepted, the shipped L1
    header is the proposal's origin block; if the proposal is stalled, every
    anchor checkpoint is the one stored in the parent L2 state; otherwise the
    forced-inclusion blocks carry that stored checkpoint, and the checkpoint of
    every other block is the number, hash and state root of a header in a
    hash-linked segment of L1 that ends in the origin block. *)
Theorem validateAnchorL1Linkage_sound view proposal checkpoints spans lastAnchor
  (Hok : validateAnchorL1Linkage view proposal checkpoints spans lastAnchor = Ok tt) :
  let origin := sp_OriginBlockNumber proposal in
  let prefix := manifestForcedInclusionPrefixCount spans in
  exists l1Header ancestors,
    decodeGuestInputL1Headers (gv_TaikoRaw view) = Ok (l1Header, ancestors) /\
    number_u64 l1Header = origin /\ Header_Hash l1Header = sp_OriginBlockHash proposal /\
    (stalled (ac_blockNumber <$> checkpoints) lastAnchor origin (gv_GuestInputChainID view) /\
     (exists cp, verifiedParentShastaCheckpoint view lastAnchor = Ok cp /\
        Forall (eq cp) checkpoints) \/
     (prefix <= length checkpoints)%nat /\
     ((0 < prefix)%nat -> exists cp, verifiedParentShastaCheckpoint view lastAnchor = Ok cp /\
        Forall (eq cp) (take prefix checkpoints)) /\
     l1_segment ancestors origin (sp_OriginBlockHash proposal) /\
     Forall (fun cp => exists h, h ∈ ancestors /\ cp = header_checkpoint h)
       (drop prefix checkpoints)).
Proof.
  cbv zeta. unfold validateAnchorL1Linkage in Hok.
  apply res_bind_ok in Hok as ([l1Header ancestors] & Hdec & Hok).
  apply res_bind_ok in Hok as ([] & Hnum & Hok). apply res_bind_ok in Hok as ([] & Hhash & Hok).
  exists l1Header, ancestors. split; [done|].
  apply reject_if_ok in Hnum, Hhash. go_bool. split.
  { unfold number_u64. by rewrite Hnum. }
  split; [done|]. destruct (shouldBypassStalledAnchorLinkage _ _ _ _) eqn:Hb.
  - left. apply stalled_spec in Hb. split; [done|]. go_inv. eexists. split; [done|].
    by eapply all_match_parent_ok.
  - right. apply res_bind_ok in Hok as ([] & Hlen & Hok).
    apply res_bind_ok in Hok as ([] & Hpre & Hok). apply res_bind_ok in Hok as ([] & Hne & Hok).
    apply res_bind_ok in Hok as (st & Hfold & Hok).
    apply link_fold_ok in Hfold as (Hc & _ & Hlast & used & Hu & Hf). cbn [ls_prev ls_cps] in *.
    apply reject_if_ok in Hlen, Hne. apply Nat.ltb_ge in Hlen.
    destruct (last ancestors) as [lst|] eqn:El.
    2:{ apply last_None in El. by rewrite El in Hne. }
    rewrite Hlast in Hok. cbn [default id] in Hok. go_ok. split_conj; [done| | |].
    + intros Hpos. apply Nat.ltb_lt in Hpos. rewrite Hpos in Hpre. go_inv.
      eexists. split; [done|]. by eapply all_match_parent_ok.
    + unfold l1_segment. split; [done|]. exists lst. split_conj; done.
    + assert (ls_cps st = []) as Hnil by by apply length_zero_iff_nil.
      by rewrite Hu, Hnil, app_nil_r.
Qed.
End Linkage.

(* ------------------------------------------------------------------ *)
(** ** A concrete segment *)

Section Sample.
#[local] Existing Instance sample_hexutil.
#[local] Existing Instance sample_core_types.
#[local] Existing Instance sample_keccak.

(** A state without storage. *)
Definition sample_state : StateTypes := {|
  StateDB := Witness;
  state_New w _ := Ok w;
  GetState w _ _ := (0, w);
  StateDB_Error _ := None |}.
#[local] Existing Instance sample_state.

Definition sample_link_view : GuestInputView :=
  let taiko := Some (taiko_json sample_origin_proposal 0x77 480 [] sample_origin sample_l1) in {|
    gv_Raw := {| gi_Witnesses := []; gi_Taiko := taiko; gi_ProposalAncestorHeaders := [];
                 gi_ProposalStateNodes := []; gi_ProofCarryData := None |};
    gv_Blocks := []; gv_Carry := sample_carry 1; gv_GuestInputChainID := 167001;
    gv_CarryChainID := 167001; gv_Witnesses := []; gv_TaikoRaw := taiko;
    gv_Taiko := {| tk_ProposalID := 7; tk_ProposalEventProposalID := 7; tk_ChainID := 1;
                   tk_ChainIDPresent := true; tk_DataSourcesRaw := []; tk_DataSourceCount := 0 |};
    gv_DataSourcesRaw := []; gv_DataSourceCount := 0 |}.

Definition sample_l1_499 : Header := default sample_parent (sample_l1 !! 1%nat).

(** Two blocks anchored to 499, one to 500. *)
Lemma validateAnchorL1Linkage_sound_witness :
  exists l1Header ancestors,
    decodeGuestInputL1Headers (gv_TaikoRaw sample_link_view) = Ok (l1Header, ancestors) /\
    number_u64 l1Header = 500.
Proof.
  destruct (validateAnchorL1Linkage_sound sample_link_view sample_origin_proposal
    [header_checkpoint sample_l1_499; header_checkpoint sample_l1_499;
     header_checkpoint sample_origin]
    [{| as_isForcedInclusion := false; as_blockCount := 3 |}] 498)
    as (l1 & ancestors & Hdec & Hnum & _); [vm_compute; reflexivity|].
  exists l1, ancestors. split; [exact Hdec|exact Hnum].
Defined.
End Sample.

