(* ===== verification/Execution.v ===== *)
(** * Executing transactions

    The interface to the EVM of taiko-geth, the chain context of a replayed
    block ([internal/prover/replay.go]) and the filter that turns a manifest's
    transaction list into the transactions a canonical block commits
    ([internal/prover/manifest_tx_filter.go]).

    A [context.Context] is polled at many places; the model gives every poll
    its own site, so a [Context] is any function from sites to errors: whatever
    the moment a request is cancelled, some [Context] behaves that way. *)

From S2P Require Import Prelude Bytes GoStd CoreTypes Samples AnchorLink Forks.

#[local] Open Scope string_scope.
#[local] Open Scope list_scope.
#[local] Open Scope Z_scope.

(* ------------------------------------------------------------------ *)
(** ** Contexts *)

Inductive poll_site : Type :=
  | AtEntry
  | AtSource (i : nat)
  | AtBlock (i : nat)
  | AtCandidate (i : nat)
  | AtCommitEntry
  | AtCommit (i : nat)
  | InBlock (i : nat) (site : poll_site).

Definition Context : Type := poll_site -> option error.

(** [context.Background()]. *)
Definition Background : Context := fun _ => None.

(** [if err := ctx.Err(); err != nil { return err }]. *)
Definition ctx_Err (ctx : Context) (site : poll_site) : result unit :=
  match ctx site with Some err => Err err | None => Ok tt end.

Definition in_block (ctx : Context) (i : nat) : Context := fun site => ctx (InBlock i site).

(* ------------------------------------------------------------------ *)
(** ** The EVM *)

(** [replayChainContext], without the consensus engine. *)
Record replayChainContext `{ConfigTypes} := {
  cc_config : ChainConfig;
  cc_current : Header;
  cc_headersByHash : gmap Z Header;
  cc_hashesByNumber : gmap Z Z;
}.

(** Packages [core], [core/vm] and [core/types] where they execute.  A
    [Machine] is an EVM with the state database and the zk gas meter it points
    to; the calls that change them return the new machine. *)
Class Evm `{CoreTypes} `{ConfigTypes} `{StateTypes} : Type := {
  Signer : Type;
  MakeSigner : ChainConfig -> option Z -> Z -> Signer;
  Sender : Signer -> Transaction -> result Z;
  Signer_Hash : Signer -> Transaction -> Z;
  WithSignature : Transaction -> Signer -> list byte -> result Transaction;
  MarshalBinary : Transaction -> result (list byte);
  UnmarshalBinary : list byte -> result Transaction;
  MarkAsAnchor : Transaction -> result Transaction;
  Message : Type;
  TransactionToMessage : Transaction -> Signer -> option Z -> result Message;
  set_BasefeeSharingPctg : Message -> Z -> Message;
  DecodeShastaBasefeeSharingPctg : list byte -> Z;
  DecodeOntakeExtraData : list byte -> Z;
  DAOFork_at : ChainConfig -> option Z -> bool;
  IsOntake : ChainConfig -> option Z -> bool;
  IsPrague : ChainConfig -> option Z -> Z -> bool;
  IsVerkle : ChainConfig -> option Z -> Z -> bool;
  cfg_Taiko : ChainConfig -> bool;
  Machine : Type;
  ApplyDAOHardFork : StateDB -> StateDB;
  (** [NewEVMBlockContext] and [NewEVM], with a fresh zk gas meter or none. *)
  NewEVM : Header -> replayChainContext -> StateDB -> ChainConfig -> bool -> Machine;
  ProcessBeaconBlockRoot : Z -> Machine -> Machine;
  ProcessParentBlockHash : Z -> Machine -> Machine;
  machine_StateDB : Machine -> StateDB;
  SetTxContext : Z -> nat -> Machine -> Machine;
  meter_ResetTransaction : Machine -> Machine;
  ResetZkGasErr : Machine -> Machine;
  meter_CommitTransaction : Machine -> option error * Machine;
  meter_BlockZkGasUsed : Machine -> Z;
  Snapshot : Machine -> Z * Machine;
  RevertToSnapshot : Z -> Machine -> Machine;
  GasPool : Type;
  NewGasPool : Z -> GasPool;
  gp_Used : GasPool -> Z;
  ApplyTransactionWithEVM : Message -> GasPool -> Machine -> option Z -> Z -> Z -> Transaction ->
    result Receipt * GasPool * Machine;
}.

(* ------------------------------------------------------------------ *)
(** ** Recoverable errors *)

Definition ErrZkGasLimitExceeded : string := "vm.ErrZkGasLimitExceeded".

Definition recoverableNonAnchorTxErrors : list string := [
  ErrZkGasLimitExceeded;
  "core.ErrGasLimitReached"; "core.ErrGasLimitOverflow"; "core.ErrNonceTooLow";
  "core.ErrNonceTooHigh"; "core.ErrNonceMax"; "core.ErrInsufficientFunds";
  "core.ErrInsufficientFundsForTransfer"; "core.ErrInsufficientBalanceWitness";
  "core.ErrGasUintOverflow"; "core.ErrIntrinsicGas"; "core.ErrFloorDataGas";
  "core.ErrTxTypeNotSupported"; "core.ErrTipAboveFeeCap"; "core.ErrTipVeryHigh";
  "core.ErrFeeCapVeryHigh"; "core.ErrFeeCapTooLow"; "core.ErrSenderNoEOA";
  "core.ErrBlobFeeCapTooLow"; "core.ErrMissingBlobHashes"; "core.ErrTooManyBlobs";
  "core.ErrBlobTxCreate"; "core.ErrEmptyAuthList"; "core.ErrSetCodeTxCreate";
  "core.ErrGasLimitTooHigh"; "vm.ErrMaxInitCodeSizeExceeded"].

Definition isRecoverableNonAnchorTxError (err : error) : bool :=
  existsb (errors_Is err) recoverableNonAnchorTxErrors.

Definition validateSuccessfulAnchorReceipt (receipt : option Receipt) : result unit :=
  match receipt with
  | None => Err (Errorf "missing anchor transaction receipt")
  | Some r =>
      reject_if (negb (rc_Status r =? ReceiptStatusSuccessful))
        (Errorf "anchor transaction receipt failed")
  end.

Section ChainContext.
Context `{CoreTypes} `{ConfigTypes}.

Definition addHeader (c : replayChainContext) (hash : Z) (header : Header)
  : replayChainContext := {|
  cc_config := cc_config c; cc_current := cc_current c;
  cc_headersByHash := <[hash := header]> (cc_headersByHash c);
  cc_hashesByNumber := <[number_u64 header := hash]> (cc_hashesByNumber c) |}.

Definition newReplayChainContext (config : ChainConfig) (block : Block) (witness : Witness)
  : replayChainContext :=
  fold_left (fun c header => addHeader c (Header_Hash header) header) (wt_Headers witness)
    {| cc_config := config; cc_current := blk_Header block; cc_headersByHash := ∅;
       cc_hashesByNumber := ∅ |}.

Definition GetHeader (c : replayChainContext) (hash number : Z) : option Header :=
  match cc_headersByHash c !! hash with
  | None => None
  | Some header =>
      match hd_Number header with
      | None => None
      | Some n => if big_Uint64 n =? number then Some header else None
      end
  end.

Definition GetHeaderByNumber (c : replayChainContext) (number : Z) : option Header :=
  match cc_hashesByNumber c !! number with
  | None => None
  | Some hash => GetHeader c hash number
  end.

Definition GetHeaderByHash (c : replayChainContext) (hash : Z) : option Header :=
  cc_headersByHash c !! hash.

(** A block with another header and the same body. *)
Definition with_header (block : Block) (header : Header) : Block := {|
  blk_Header := header; blk_Transactions := blk_Transactions block;
  blk_Uncles := blk_Uncles block; blk_Withdrawals := blk_Withdrawals block |}.

Definition set_Difficulty (h : Header) (d : option Z) : Header := {|
  hd_ParentHash := hd_ParentHash h; hd_UncleHash := hd_UncleHash h;
  hd_Coinbase := hd_Coinbase h; hd_Root := hd_Root h; hd_TxHash := hd_TxHash h;
  hd_ReceiptHash := hd_ReceiptHash h; hd_Bloom := hd_Bloom h; hd_Difficulty := d;
  hd_Number := hd_Number h; hd_GasLimit := hd_GasLimit h; hd_GasUsed := hd_GasUsed h;
  hd_Time := hd_Time h; hd_Extra := hd_Extra h; hd_MixDigest := hd_MixDigest h;
  hd_Nonce := hd_Nonce h; hd_BaseFee := hd_BaseFee h;
  hd_WithdrawalsHash := hd_WithdrawalsHash h; hd_BlobGasUsed := hd_BlobGasUsed h;
  hd_ExcessBlobGas := hd_ExcessBlobGas h; hd_ParentBeaconRoot := hd_ParentBeaconRoot h;
  hd_RequestsHash := hd_RequestsHash h; hd_SlotNumber := hd_SlotNumber h;
  hd_BlockAccessListHash := hd_BlockAccessListHash h |}.

Context `{!ChainParams}.

(** An Unzen block executes with difficulty zero; the header's difficulty is
    the zk gas the execution must reproduce. *)
Definition replayExecutionBlock (config : ChainConfig) (block : Block) : Block * option Z :=
  let header := blk_Header block in
  if negb (IsUnzen config (hd_Time header)) then (block, None)
  else (with_header block (set_Difficulty header (Some 0)),
        Some (default 0 (hd_Difficulty header))).
End ChainContext.

(* ------------------------------------------------------------------ *)
(** ** The manifest transaction filter *)

Section Filter.
Context `{CoreTypes} `{ConfigTypes} `{!ChainParams} `{StateTypes} `{!Evm}.

Definition cloneTransaction (tx : Transaction) : result Transaction :=
  let! raw := MarshalBinary tx in
  UnmarshalBinary raw.

(** The fork-dependent base fee share of a message. *)
Definition message_share (config : ChainConfig) (header : Header) (msg : Message) : Message :=
  if IsShasta config (hd_Time header)
  then set_BasefeeSharingPctg msg (DecodeShastaBasefeeSharingPctg (hd_Extra header))
  else if IsOntake config (hd_Number header)
  then set_BasefeeSharingPctg msg (DecodeOntakeExtraData (hd_Extra header))
  else msg.

(** The loop over the manifest's transactions. *)
Fixpoint candidate_loop (ctx : Context) (signer : Signer) (i : nat)
  (manifestTxs : list Transaction) : result (list Transaction) :=
  match manifestTxs with
  | [] => Ok []
  | tx :: rest =>
      ctx_Err ctx (AtCandidate i) ;;!
      if tx_Type tx =? BlobTxType then candidate_loop ctx signer (S i) rest
      else
        match Sender signer tx with
        | Err _ => candidate_loop ctx signer (S i) rest
        | Ok _ => let! txs := candidate_loop ctx signer (S i) rest in Ok (tx :: txs)
        end
  end.

Definition manifestCandidateTransactions (ctx : Context) (config : ChainConfig)
  (header : Header) (anchor : Transaction) (manifestTxs : list Transaction)
  : result (list Transaction) :=
  let signer := MakeSigner config (hd_Number header) (hd_Time header) in
  let! txs := candidate_loop ctx signer 0 manifestTxs in
  Ok (anchor :: txs).

(** The machine before the first transaction: the DAO fork, a new EVM with a
    zk gas meter or without, and the system calls. *)
Definition begin_block (chain : replayChainContext) (config : ChainConfig) (header : Header)
  (statedb : StateDB) (metered : bool) : Machine :=
  let statedb := if DAOFork_at config (hd_Number header) then ApplyDAOHardFork statedb
                 else statedb in
  let m := NewEVM header chain statedb config metered in
  let m := match hd_ParentBeaconRoot header with
           | Some root => ProcessBeaconBlockRoot root m | None => m end in
  if IsPrague config (hd_Number header) (hd_Time header) ||
     IsVerkle config (hd_Number header) (hd_Time header)
  then ProcessParentBlockHash (hd_ParentHash header) m else m.

(** [statedb.RevertToSnapshot(stateSnapshot); *gp = gasSnapshot]. *)
Definition revertManifestCandidate (m : Machine) (stateSnapshot : Z) (gasSnapshot : GasPool)
  : Machine * GasPool := (RevertToSnapshot stateSnapshot m, gasSnapshot).

Definition manifestWitnessStateError (m : Machine) : result unit :=
  match StateDB_Error (machine_StateDB m) with
  | Some err => Err (Wrapf "witness state error during manifest transaction filtering" err)
  | None => Ok tt
  end.

(** How one candidate ends: not committed, committed, or the end of the loop. *)
Inductive candidate_outcome : Type :=
  | Skipped (m : Machine) (gp : GasPool)
  | Committed (m : Machine) (gp : GasPool)
  | Stopped (m : Machine) (gp : GasPool).

(** What the loop does not change. *)
Record filterEnv := {
  fe_config : ChainConfig;
  fe_header : Header;
  fe_blockHash : Z;
  fe_signer : Signer;
  fe_isUnzen : bool;
}.

(** The candidate's copy: only the anchor is cloned and marked. *)
Definition candidate_copy (index : nat) (tx : Transaction) : result Transaction :=
  if (index =? 0)%nat then
    let! txCopy := wrap_err "clone anchor transaction" (cloneTransaction tx) in
    wrap_err "mark anchor transaction" (MarkAsAnchor txCopy)
  else Ok tx.

(** After a successful execution: the anchor must have succeeded, and an
    Unzen block meters the transaction. *)
Definition finish_candidate (env : filterEnv) (index : nat) (receipt : Receipt)
  (stateSnapshot : Z) (gasSnapshot : GasPool) (m : Machine) (gp : GasPool)
  : result candidate_outcome :=
  (if (index =? 0)%nat then validateSuccessfulAnchorReceipt (Some receipt) else Ok tt) ;;!
  if fe_isUnzen env then
    let '(commitErr, m) := meter_CommitTransaction m in
    match commitErr with
    | Some err =>
        if (index =? 0)%nat then Err (Wrapf "anchor transaction failed" err)
        else
          let '(m, gp) := revertManifestCandidate (meter_ResetTransaction m) stateSnapshot
            gasSnapshot in
          Ok (Stopped m gp)
    | None => Ok (Committed m gp)
    end
  else Ok (Committed m gp).

Definition commit_candidate (ctx : Context) (env : filterEnv) (index : nat)
  (committed : list Transaction) (tx : Transaction) (m : Machine) (gp : GasPool)
  : result candidate_outcome :=
  ctx_Err ctx (AtCommit index) ;;!
  let! txCopy := candidate_copy index tx in
  match TransactionToMessage txCopy (fe_signer env) (hd_BaseFee (fe_header env)) with
  | Err err =>
      if (index =? 0)%nat then Err (Wrapf "anchor transaction" err)
      else if negb (isRecoverableNonAnchorTxError err)
      then Err (Wrapf "non-anchor transaction message failed" err)
      else Ok (Skipped m gp)
  | Ok msg =>
      let msg := message_share (fe_config env) (fe_header env) msg in
      let m := SetTxContext (tx_Hash txCopy) (length committed) m in
      let m := if fe_isUnzen env then ResetZkGasErr (meter_ResetTransaction m) else m in
      let '(stateSnapshot, m) := Snapshot m in
      let gasSnapshot := gp in
      let '(r, gp, m) := ApplyTransactionWithEVM msg gp m (hd_Number (fe_header env))
        (fe_blockHash env) (hd_Time (fe_header env)) txCopy in
      manifestWitnessStateError m ;;!
      match r with
      | Err err =>
          if (index =? 0)%nat then Err (Wrapf "anchor transaction failed" err)
          else
            let '(m, gp) := revertManifestCandidate m stateSnapshot gasSnapshot in
            if negb (isRecoverableNonAnchorTxError err)
            then Err (Wrapf "non-anchor transaction failed" err)
            else if fe_isUnzen env && errors_Is err ErrZkGasLimitExceeded
            then Ok (Stopped (ResetZkGasErr (meter_ResetTransaction m)) gp)
            else Ok (Skipped m gp)
      | Ok receipt => finish_candidate env index receipt stateSnapshot gasSnapshot m gp
      end
  end.

Fixpoint commit_loop (ctx : Context) (env : filterEnv) (index : nat)
  (committed candidates : list Transaction) (m : Machine) (gp : GasPool)
  : result (list Transaction) :=
  match candidates with
  | [] => Ok committed
  | tx :: rest =>
      let! outcome := commit_candidate ctx env index committed tx m gp in
      match outcome with
      | Skipped m gp => commit_loop ctx env (S index) committed rest m gp
      | Committed m gp => commit_loop ctx env (S index) (committed ++ [tx]) rest m gp
      | Stopped _ _ => Ok committed
      end
  end.

Definition commitFilteredManifestTransactions (ctx : Context) (chain : replayChainContext)
  (config : ChainConfig) (block : Block) (statedb : StateDB) (candidates : list Transaction)
  : result (list Transaction) :=
  reject_if (length candidates =? 0)%nat (Errorf "missing anchor transaction") ;;!
  ctx_Err ctx AtCommitEntry ;;!
  let header := blk_Header block in
  let gp := NewGasPool (hd_GasLimit header) in
  let signer := MakeSigner config (hd_Number header) (hd_Time header) in
  let isUnzen := IsUnzen config (hd_Time header) in
  let m := begin_block chain config header statedb isUnzen in
  manifestWitnessStateError m ;;!
  commit_loop ctx {| fe_config := config; fe_header := header; fe_blockHash := blk_Hash block;
    fe_signer := signer; fe_isUnzen := isUnzen |} 0 [] candidates m gp.

Definition filterManifestTransactions (ctx : Context) (chainID : Z) (canonicalBlock : Block)
  (manifestTxs : list Transaction) (witness : Witness) : result (list Transaction) :=
  let! anchor := some_or (head (blk_Transactions canonicalBlock))
    (Errorf "missing anchor transaction") in
  let! config := chainConfigFor chainID in
  let! statedb := wrap_err "open witness state" (state_New witness (Witness_Root witness)) in
  let executionBlock := (replayExecutionBlock config canonicalBlock).1 in
  let chain := newReplayChainContext config executionBlock witness in
  let! candidates := manifestCandidateTransactions ctx config (blk_Header executionBlock)
    anchor manifestTxs in
  commitFilteredManifestTransactions ctx chain config executionBlock statedb candidates.

Definition validateManifestTransactionRoot (ctx : Context) (chainID : Z)
  (canonicalBlock : Block) (witness : Witness) (manifestTxs : list Transaction)
  : result unit :=
  let! filteredTxs :=
    filterManifestTransactions ctx chainID canonicalBlock manifestTxs witness in
  reject_if (negb (DeriveSha_txs filteredTxs =? hd_TxHash (blk_Header canonicalBlock)))
    (Errorf "transaction root mismatch") ;;!
  Ok tt.
End Filter.

(* ------------------------------------------------------------------ *)
(** ** What the filter keeps *)

Section FilterFacts.
Context `{CoreTypes} `{ConfigTypes} `{!ChainParams} `{StateTypes} `{!Evm}.

(** A manifest transaction execution can be offered. *)
Definition offered (signer : Signer) (tx : Transaction) : Prop :=
  tx_Type tx <> BlobTxType /\ is_ok (Sender signer tx) = true.

Lemma candidate_loop_ok ctx signer txs : forall i cs,
  candidate_loop ctx signer i txs = Ok cs -> cs `sublist_of` txs /\ Forall (offered signer) cs.
Proof.
  induction txs as [|tx txs IH]; intros i cs; cbn [candidate_loop].
  { intros [= <-]. split; constructor. }
  intros Hc. apply res_bind_ok in Hc as ([] & _ & Hc).
  destruct (Z.eqb_spec (tx_Type tx) BlobTxType) as [_|Hne].
  { apply IH in Hc as [Hs Hf]. split; [by apply sublist_cons|done]. }
  destruct (Sender signer tx) as [a|e] eqn:Es.
  - apply res_bind_ok in Hc as (cs' & Hc & [= <-]). apply IH in Hc as [Hs Hf].
    split; [by apply sublist_skip|]. constructor; [|done]. split; [done|by rewrite Es].
  - apply IH in Hc as [Hs Hf]. split; [by apply sublist_cons|done].
Qed.

(** The anchor is never skipped. *)
Lemma commit_anchor ctx env committed tx m gp o :
  commit_candidate ctx env 0 committed tx m gp = Ok o -> exists m' gp', o = Committed m' gp'.
Proof.
  unfold commit_candidate, finish_candidate. intros Hc.
  apply res_bind_ok in Hc as ([] & _ & Hc). apply res_bind_ok in Hc as (copy & _ & Hc).
  destruct (TransactionToMessage _ _ _) as [msg|e]; [|done].
  destruct (Snapshot _) as [snap m1].
  destruct (ApplyTransactionWithEVM _ _ _ _ _ _ _) as [[r gp1] m2].
  apply res_bind_ok in Hc as ([] & _ & Hc). destruct r as [receipt|e]; [|done].
  apply res_bind_ok in Hc as ([] & _ & Hc).
  destruct (fe_isUnzen env); [|injection Hc as <-; eauto].
  destruct (meter_CommitTransaction m2) as [[e|] m3]; [done|]. injection Hc as <-. eauto.
Qed.

Lemma commit_loop_sub ctx env candidates : forall index committed m gp txs,
  commit_loop ctx env index committed candidates m gp = Ok txs ->
  exists kept, txs = committed ++ kept /\ kept `sublist_of` candidates.
Proof.
  induction candidates as [|tx rest IH]; intros index committed m gp txs; cbn [commit_loop].
  { intros [= <-]. exists []. rewrite app_nil_r. split; [done|constructor]. }
  intros Hc. apply res_bind_ok in Hc as ([m1 gp1|m1 gp1|m1 gp1] & _ & Hc).
  - apply IH in Hc as (kept & -> & Hs). exists kept. split; [done|by apply sublist_cons].
  - apply IH in Hc as (kept & -> & Hs). exists (tx :: kept). rewrite <- app_assoc.
    split; [done|by apply sublist_skip].
  - injection Hc as <-. exists []. rewrite app_nil_r. split; [done|apply sublist_nil_l].
Qed.

(** The first candidate is committed. *)
Lemma commit_loop_first ctx env tx rest m gp txs :
  commit_loop ctx env 0 [] (tx :: rest) m gp = Ok txs ->
  exists kept, txs = tx :: kept /\ kept `sublist_of` rest.
Proof.
  cbn [commit_loop]. intros Hc. apply res_bind_ok in Hc as (o & Ho & Hc).
  apply commit_anchor in Ho as (m' & gp' & ->).
  by apply commit_loop_sub in Hc as (kept & -> & Hs); exists kept.
Qed.

Lemma filter_ok ctx chainID block manifestTxs witness txs :
  filterManifestTransactions ctx chainID block manifestTxs witness = Ok txs ->
  exists config anchor kept, chainConfigFor chainID = Ok config /\
    head (blk_Transactions block) = Some anchor /\
    txs = anchor :: kept /\ kept `sublist_of` manifestTxs /\
    Forall (offered (MakeSigner config (hd_Number (blk_Header block))
      (hd_Time (blk_Header block)))) kept.
Proof.
  unfold filterManifestTransactions, manifestCandidateTransactions,
    commitFilteredManifestTransactions. intros Hf.
  apply res_bind_ok in Hf as (anchor & Ha & Hf). apply res_bind_ok in Hf as (config & Hc & Hf).
  apply res_bind_ok in Hf as (db & _ & Hf). apply res_bind_ok in Hf as (cands & Hcand & Hf).
  apply res_bind_ok in Hcand as (cs & Hcs & [= <-]).
  apply candidate_loop_ok in Hcs as [Hsub Hoff].
  apply res_bind_ok in Hf as ([] & _ & Hf). apply res_bind_ok in Hf as ([] & _ & Hf).
  apply res_bind_ok in Hf as ([] & _ & Hf).
  apply commit_loop_first in Hf as (kept & -> & Hkept). apply some_or_ok in Ha.
  exists config, anchor, kept. split_conj; try done.
  - by etrans.
  - assert (Hhdr : forall e, hd_Number (blk_Header (replayExecutionBlock config block).1) =
        hd_Number (blk_Header block) /\
      hd_Time (blk_Header (replayExecutionBlock config block).1) = hd_Time (blk_Header block) + e * 0).
    { intros e. unfold replayExecutionBlock. destruct (negb _); cbn; split; lia || done. }
    destruct (Hhdr 0) as [Hn Ht]. rewrite Hn, Ht, Z.mul_0_r, Z.add_0_r in Hoff.
    rewrite Forall_forall in Hoff |- *. intros x Hx. apply Hoff.
    by eapply elem_of_sublist.
Qed.

(** C28 (the block commits what the manifest says): when the transaction root
    of a derived block is accepted, the root in its header is that of the
    block's own first transaction, the anchor, followed by some of the
    manifest's transactions in the manifest's order, none of them a blob
    transaction and each with a recoverable sender; nothing else is in the
    block. *)
Theorem validateManifestTransactionRoot_sound ctx chainID block witness manifestTxs
  (Hok : validateManifestTransactionRoot ctx chainID block witness manifestTxs = Ok tt) :
  exists config anchor kept, chainConfigFor chainID = Ok config /\
    head (blk_Transactions block) = Some anchor /\
    DeriveSha_txs (anchor :: kept) = hd_TxHash (blk_Header block) /\
    kept `sublist_of` manifestTxs /\
    Forall (offered (MakeSigner config (hd_Number (blk_Header block))
      (hd_Time (blk_Header block)))) kept.
Proof.
  unfold validateManifestTransactionRoot in Hok.
  apply res_bind_ok in Hok as (txs & Hf & Hok).
  apply filter_ok in Hf as (config & anchor & kept & ? & ? & -> & ? & ?).
  exists config, anchor, kept. go_ok. done.
Qed.
End FilterFacts.

(* ------------------------------------------------------------------ *)
(** ** A concrete filter run *)

Section Sample.
#[local] Existing Instance sample_core_types.
#[local] Existing Instance sample_config_types.
#[local] Existing Instance sample_params.
#[local] Existing Instance sample_state.

(** The event of an anchor call: its block number, twice. *)
Definition sample_anchor_topic : Z :=
  sample_keccak_fn (byte_of ∘ ascii_code <$> chars_of "Anchored(uint48,uint48,bytes32)").

Definition sample_logs (t : TxData) : list (option Log) :=
  if (length (tx_data_input t) <? 36)%nat then []
  else
    let word := take 32 (drop 4 (tx_data_input t)) in
    [Some {| lg_Address := default 0 (tx_data_to t); lg_Topics := [sample_anchor_topic];
             lg_Data := word ++ word ++ replicate 32 x00 |}].

Definition sample_sign (t : TxData) (sig : list byte) : TxData :=
  match t with
  | DynamicFeeTx c n tip cap g to v d a _ _ _ =>
      DynamicFeeTx c n tip cap g to v d a (byte_val (default x00 (last sig)))
        (be_Z (take 32 sig)) (be_Z (take 32 (drop 32 sig)))
  | _ => t
  end.

(** A machine that counts what it executed and rejects odd nonces; a sender
    can be recovered from a nonce below 100. *)
Definition sample_evm : Evm := {|
  Signer := unit;
  MakeSigner _ _ _ := tt;
  Sender _ t :=
    if tx_Nonce t <? 100 then Ok 0x0000777735367b36bC9B61C50022d9D0700dB4Ec else Err (Errorf "invalid signature");
  Signer_Hash _ t := sample_tx_hash t;
  WithSignature t _ sig := Ok (sample_sign t sig);
  MarshalBinary _ := Ok [];
  UnmarshalBinary _ := Ok (DynamicFeeTx 167001 0 0 0 0 None 0 [] None 0 0 0);
  MarkAsAnchor t := Ok t;
  Message := TxData;
  TransactionToMessage t _ _ := Ok t;
  set_BasefeeSharingPctg t _ := t;
  DecodeShastaBasefeeSharingPctg bs := byte_val (default x00 (head bs));
  DecodeOntakeExtraData _ := 0;
  DAOFork_at _ _ := false;
  IsOntake c n := time_active (@cfg_OntakeBlock sample_config_types c) (default 0 n);
  IsPrague c _ t := time_active (@cfg_PragueTime sample_config_types c) t;
  IsVerkle _ _ _ := false;
  cfg_Taiko _ := true;
  Machine := Witness * Z;
  ApplyDAOHardFork w := w;
  NewEVM _ _ w _ _ := (w, 0);
  ProcessBeaconBlockRoot _ m := m;
  ProcessParentBlockHash _ m := m;
  machine_StateDB m := m.1;
  SetTxContext _ _ m := m;
  meter_ResetTransaction m := m;
  ResetZkGasErr m := m;
  meter_CommitTransaction m := (None, m);
  meter_BlockZkGasUsed m := m.2;
  Snapshot m := (m.2, m);
  RevertToSnapshot s m := (m.1, s);
  GasPool := Z;
  NewGasPool g := g;
  gp_Used g := g;
  ApplyTransactionWithEVM t g m _ _ _ _ :=
    if Z.odd (tx_Nonce t) then (Err (Sentinel "core.ErrNonceTooLow"), g, (m.1, m.2 + 1))
    else (Ok {| rc_Status := 1; rc_Logs := sample_logs t |}, g - 21000, (m.1, m.2 + 1)); |}.
#[local] Existing Instance sample_evm.

Definition sample_tx (nonce : Z) : Transaction :=
  DynamicFeeTx 167001 nonce 0 10000000 21000 (Some 0x99) 0 [] None 1 5 6.

Definition sample_block_txs : list Transaction := [sample_tx 0; sample_tx 2; sample_tx 6].

Definition sample_filter_block : Block := {|
  blk_Header :=
    let h := sample_header 3 2 1 in {|
      hd_ParentHash := hd_ParentHash h; hd_UncleHash := hd_UncleHash h;
      hd_Coinbase := hd_Coinbase h; hd_Root := hd_Root h;
      hd_TxHash := DeriveSha_txs sample_block_txs;
      hd_ReceiptHash := hd_ReceiptHash h; hd_Bloom := hd_Bloom h; hd_Difficulty := Some 4;
      hd_Number := hd_Number h; hd_GasLimit := hd_GasLimit h; hd_GasUsed := hd_GasUsed h;
      hd_Time := hd_Time h; hd_Extra := hd_Extra h; hd_MixDigest := hd_MixDigest h;
      hd_Nonce := hd_Nonce h; hd_BaseFee := hd_BaseFee h;
      hd_WithdrawalsHash := None; hd_BlobGasUsed := None; hd_ExcessBlobGas := None;
      hd_ParentBeaconRoot := None; hd_RequestsHash := None; hd_SlotNumber := None;
      hd_BlockAccessListHash := None |};
  blk_Transactions := sample_block_txs; blk_Uncles := []; blk_Withdrawals := None |}.

Definition sample_filter_witness : Witness :=
  {| wt_Headers := [sample_header 2 1 1]; wt_Codes := ∅; wt_State := ∅ |}.

(** Of five listed transactions, nonce 3 is skipped by execution and 100 has
    no sender. *)
Lemma validateManifestTransactionRoot_sound_witness :
  exists config anchor kept, chainConfigFor 167001 = Ok config /\
    head (blk_Transactions sample_filter_block) = Some anchor /\
    DeriveSha_txs (anchor :: kept) = hd_TxHash (blk_Header sample_filter_block) /\
    kept `sublist_of` [sample_tx 2; sample_tx 3; sample_tx 100; sample_tx 6].
Proof.
  destruct (validateManifestTransactionRoot_sound Background 167001 sample_filter_block
    sample_filter_witness [sample_tx 2; sample_tx 3; sample_tx 100; sample_tx 6])
    as (config & anchor & kept & H1 & H2 & H3 & H4 & _); [vm_compute; reflexivity|].
  exists config, anchor, kept. split_conj; [exact H1|exact H2|exact H3|exact H4].
Defined.
End Sample.
