(* ===== verification/AnchorSig.v ===== *)
(** * The fixed-k anchor signature

    The driver signs anchor transactions with the public GoldenTouch key and the
    nonce scalar 1, or 2 when 1 gives a zero [s].  The signer at the end of
    [internal/prover/manifest_validate.go] re-derives that signature, so that an
    anchor transaction with any other valid signature is refused.  Scalars and
    points come from the secp256k1 package, whose documented arithmetic modulo
    the group order is the class [SecpLaws]. *)

From S2P Require Import Prelude Bytes GoStd BlobCoder AnchorLink.

#[local] Open Scope string_scope.
#[local] Open Scope list_scope.
#[local] Open Scope Z_scope.

Definition shastaGoldenTouchPrivateKey : string :=
  "92954368afd3caa1f3ce3ead0069c1af414054aefe1ef9aeacc1bf426222ce38".

Definition shastaGoldenTouchAccount : Z :=
  HexToAddress "0x0000777735367b36bC9B61C50022d9D0700dB4Ec".

(** [github.com/decred/dcrd/dcrec/secp256k1]: the scalar and field operations
    of the signer.  [ScalarBaseMult_Affine k] is [ScalarBaseMultNonConst] with
    [ToAffine]: the coordinates of [k] times the base point. *)
Class Secp : Type := {
  ModNScalar : Type;
  FieldVal : Type;
  SetByteSlice : list byte -> ModNScalar * bool;
  SetBytes : list byte -> ModNScalar * Z;
  SetInt : Z -> ModNScalar;
  IsZero : ModNScalar -> bool;
  Mul2 : ModNScalar -> ModNScalar -> ModNScalar;
  sc_Add : ModNScalar -> ModNScalar -> ModNScalar;
  sc_Mul : ModNScalar -> ModNScalar -> ModNScalar;
  sc_Negate : ModNScalar -> ModNScalar;
  InverseValNonConst : ModNScalar -> ModNScalar;
  IsOverHalfOrder : ModNScalar -> bool;
  PutBytesUnchecked : ModNScalar -> list byte;
  ScalarBaseMult_Affine : ModNScalar -> FieldVal * FieldVal;
  fv_PutBytes : FieldVal -> list byte;
  fv_IsOddBit : FieldVal -> Z;
}.

(** The order of the group. *)
Definition curve_order : Z :=
  0xFFFFFFFFFFFFFFFFFFFFFFFFFFFFFFFEBAAEDCE6AF48A03BBFD25E8CD0364141.

(** [common.FromHex] of hexadecimal text: the prefix is optional, an odd number
    of digits gets a leading zero, and text that does not decode is empty. *)
Definition FromHex (s : string) : list byte :=
  let digits := if HasPrefix s "0x" || HasPrefix s "0X" then str_drop 2 s else s in
  let padded := if Nat.odd (String.length digits) then "0" +:+ digits else digits in
  match hex_DecodeString padded with Ok bs => bs | Err _ => [] end.

Section Signer.
Context `{Secp}.

Definition fieldToModNScalar (v : FieldVal) : ModNScalar * Z := SetBytes (fv_PutBytes v).

Definition signShastaAnchorPayloadWithK (hash : list byte) (priv k : ModNScalar)
  : option (list byte) :=
  let '(x, y) := ScalarBaseMult_Affine k in
  let '(r, overflow) := fieldToModNScalar x in
  let pubKeyRecoveryCode := Z.lor (Z.shiftl overflow 1) (fv_IsOddBit y) in
  let kinv := InverseValNonConst k in
  let partialS := Mul2 priv r in
  let e := (SetByteSlice hash).1 in
  let s := sc_Mul (sc_Add partialS e) kinv in
  if IsZero s then None
  else
    let '(s, code) :=
      if IsOverHalfOrder s then (sc_Negate s, Z.lxor pubKeyRecoveryCode 1)
      else (s, pubKeyRecoveryCode) in
    Some (PutBytesUnchecked r ++ PutBytesUnchecked s ++ [byte_of code]).

(** The loop over the nonce scalars. *)
Fixpoint try_nonces (hash : list byte) (priv : ModNScalar) (ks : list Z)
  : result (list byte) :=
  match ks with
  | [] => Err (Errorf "failed to sign anchor transaction with fixed k")
  | k :: rest =>
      match signShastaAnchorPayloadWithK hash priv (SetInt k) with
      | Some sig => Ok sig
      | None => try_nonces hash priv rest
      end
  end.

Definition signShastaAnchorPayloadFixedK (hash : list byte) : result (list byte) :=
  reject_if (negb (length hash =? HashLength)%nat)
    (Errorf "anchor transaction signing hash must be 32 bytes") ;;!
  let '(priv, overflow) := SetByteSlice (FromHex shastaGoldenTouchPrivateKey) in
  reject_if (overflow || IsZero priv) (Errorf "invalid GoldenTouch private key") ;;!
  try_nonces hash priv [1; 2].
End Signer.

(* ------------------------------------------------------------------ *)
(** ** The documented arithmetic *)

(** [sc_val a] is the number the scalar [a] stands for. *)
Class SecpLaws `{Secp} : Type := {
  sc_val : ModNScalar -> Z;
  sc_range : forall a, 0 <= sc_val a < curve_order;
  SetByteSlice_val : forall bs, length bs = 32%nat ->
    sc_val (SetByteSlice bs).1 = be_Z bs mod curve_order /\
    (SetByteSlice bs).2 = (curve_order <=? be_Z bs);
  SetBytes_val : forall bs, length bs = 32%nat ->
    sc_val (SetBytes bs).1 = be_Z bs mod curve_order /\
    (SetBytes bs).2 = Z.b2z (curve_order <=? be_Z bs);
  SetInt_val : forall k, is_uint 32 k -> sc_val (SetInt k) = k;
  IsZero_val : forall a, IsZero a = (sc_val a =? 0);
  Mul2_val : forall a b, sc_val (Mul2 a b) = (sc_val a * sc_val b) mod curve_order;
  Mul_val : forall a b, sc_val (sc_Mul a b) = (sc_val a * sc_val b) mod curve_order;
  Add_val : forall a b, sc_val (sc_Add a b) = (sc_val a + sc_val b) mod curve_order;
  Negate_val : forall a, sc_val (sc_Negate a) = (- sc_val a) mod curve_order;
  Inverse_val : forall a, sc_val a = 1 \/ sc_val a = 2 ->
    (sc_val (InverseValNonConst a) * sc_val a) mod curve_order = 1;
  IsOverHalfOrder_val : forall a, IsOverHalfOrder a = (sc_val a >? curve_order / 2);
  PutBytes_val : forall a, length (PutBytesUnchecked a) = 32%nat /\
    be_Z (PutBytesUnchecked a) = sc_val a;
  fv_PutBytes_length : forall v, length (fv_PutBytes v) = 32%nat;
  fv_IsOddBit_range : forall v, fv_IsOddBit v = 0 \/ fv_IsOddBit v = 1;
}.

(** The parts of a 65-byte signature. *)
Definition sig_r (sig : list byte) : Z := be_Z (take 32 sig).
Definition sig_s (sig : list byte) : Z := be_Z (take 32 (drop 32 sig)).
Definition sig_v (sig : list byte) : Z := byte_val (default x00 (last sig)).

Section Facts.
Context `{SecpLaws}.

Definition golden_key : Z := be_Z (FromHex shastaGoldenTouchPrivateKey).

(** The x coordinate of [k] times the base point, as a number. *)
Definition nonce_x (k : Z) : Z := be_Z (fv_PutBytes (ScalarBaseMult_Affine (SetInt k)).1).

(** The ECDSA equation before [s] is normalised: [k * s = e + r * key]. *)
Definition ecdsa_s (k e s : Z) : Prop :=
  (k * s) mod curve_order = (e + nonce_x k * golden_key) mod curve_order.

(** [sig] is the low-s ECDSA signature of [hash] by the golden key with nonce
    [k]. *)
Definition fixed_k_signature (hash : list byte) (k : Z) (sig : list byte) : Prop :=
  length sig = 65%nat /\ sig_r sig = nonce_x k mod curve_order /\
  0 < sig_s sig <= curve_order / 2 /\ 0 <= sig_v sig <= 3 /\
  (ecdsa_s k (be_Z hash) (sig_s sig) \/ ecdsa_s k (be_Z hash) (- sig_s sig)).

Lemma golden_key_bytes : length (FromHex shastaGoldenTouchPrivateKey) = 32%nat.
Proof. vm_compute. reflexivity. Qed.

Lemma golden_key_range : 0 < golden_key < curve_order.
Proof. vm_compute. done. Qed.

Lemma curve_order_pos : 0 < curve_order.
Proof. done. Qed.

Lemma curve_half : curve_order = 2 * (curve_order / 2) + 1.
Proof. reflexivity. Qed.

(** Multiplying by the inverse of the nonce solves the ECDSA equation. *)
Lemma solve_s k kinv m :
  (kinv * k) mod curve_order = 1 ->
  (k * ((m mod curve_order * kinv) mod curve_order)) mod curve_order = m mod curve_order.
Proof.
  intros Hk. pose proof curve_order_pos. rewrite Z.mul_mod_idemp_r by lia.
  replace (k * (m mod curve_order * kinv)) with (m mod curve_order * (kinv * k)) by ring.
  rewrite <- (Z.mul_mod_idemp_r (m mod curve_order) (kinv * k)) by lia.
  rewrite Hk, Z.mul_1_r. apply Z.mod_mod. lia.
Qed.

(** The recovery code takes four values. *)
Lemma recovery_code (b : bool) odd : odd = 0 \/ odd = 1 ->
  let code := Z.lor (Z.shiftl (Z.b2z b) 1) odd in
  0 <= code <= 3 /\ 0 <= Z.lxor code 1 <= 3.
Proof. intros [->| ->]; destruct b; by vm_compute. Qed.

Lemma sig_parts r s (c : Z) : length r = 32%nat -> length s = 32%nat -> 0 <= c <= 3 ->
  let sig := r ++ s ++ [byte_of c] in
  length sig = 65%nat /\ sig_r sig = be_Z r /\ sig_s sig = be_Z s /\ sig_v sig = c.
Proof.
  intros Hr Hs Hc. cbv zeta. unfold sig_r, sig_s, sig_v.
  rewrite !length_app, Hr, Hs, take_app_length', drop_app_length', take_app_length' by done.
  split_conj; [done..|]. rewrite app_assoc, last_snoc. cbn [default].
  unfold id. rewrite byte_val_of. apply Z.mod_small. lia.
Qed.

(** Before it is normalised, [s] of nonce [k]. *)
Definition raw_s (hash : list byte) (priv k : ModNScalar) : ModNScalar :=
  sc_Mul (sc_Add (Mul2 priv (fieldToModNScalar (ScalarBaseMult_Affine k).1).1)
    (SetByteSlice hash).1) (InverseValNonConst k).

Lemma raw_s_equation hash priv k : length hash = 32%nat -> sc_val priv = golden_key ->
  k = 1 \/ k = 2 -> ecdsa_s k (be_Z hash) (sc_val (raw_s hash priv (SetInt k))).
Proof.
  intros Hh Hp Hk. pose proof curve_order_pos.
  assert (Hkv : sc_val (SetInt k) = k) by (apply SetInt_val; unfold is_uint; lia).
  unfold ecdsa_s, raw_s, nonce_x, fieldToModNScalar.
  rewrite Mul_val, Add_val, Mul2_val, Hp.
  rewrite (proj1 (SetBytes_val _ (fv_PutBytes_length _))), (proj1 (SetByteSlice_val _ Hh)).
  rewrite solve_s.
  2:{ pose proof (Inverse_val (SetInt k)) as Hi. rewrite Hkv in Hi. by apply Hi. }
  rewrite <- Z.add_mod, Z.add_comm by lia.
  rewrite <- (Z.add_mod_idemp_r _ (golden_key * _)), Z.mul_mod_idemp_r, Z.add_mod_idemp_r by lia.
  by rewrite (Z.mul_comm golden_key).
Qed.

(** One nonce: no signature exactly when [s] is zero. *)
Lemma signWithK_spec hash priv k : length hash = 32%nat -> sc_val priv = golden_key ->
  k = 1 \/ k = 2 ->
  match signShastaAnchorPayloadWithK hash priv (SetInt k) with
  | Some sig => fixed_k_signature hash k sig
  | None => ecdsa_s k (be_Z hash) 0
  end.
Proof.
  intros Hh Hp Hk. pose proof (raw_s_equation hash priv k Hh Hp Hk) as Heq.
  pose proof (sc_range (raw_s hash priv (SetInt k))) as Hrange.
  unfold signShastaAnchorPayloadWithK. unfold raw_s in *.
  destruct (ScalarBaseMult_Affine (SetInt k)) as [x y] eqn:Exy. cbn [fst] in *.
  pose proof (SetBytes_val _ (fv_PutBytes_length x)) as [Hr Ho].
  unfold fieldToModNScalar in *. destruct (SetBytes (fv_PutBytes x)) as [r overflow].
  cbn [fst snd] in *. subst overflow.
  set (s := sc_Mul _ _) in *. clearbody s. rewrite IsZero_val.
  destruct (Z.eqb_spec (sc_val s) 0) as [Hz|Hz]; [by rewrite <- Hz|].
  assert (Hx : nonce_x k = be_Z (fv_PutBytes x)) by by unfold nonce_x; rewrite Exy.
  destruct (recovery_code (curve_order <=? be_Z (fv_PutBytes x)) (fv_IsOddBit y)
    (fv_IsOddBit_range y)) as [Hc Hc'].
  rewrite IsOverHalfOrder_val.
  destruct (PutBytes_val r) as [Hrl Hrv]. destruct (Z.gtb_spec (sc_val s) (curve_order / 2)).
  - assert (Hneg : sc_val (sc_Negate s) = curve_order - sc_val s).
    { rewrite Negate_val. symmetry. apply (Z.mod_unique _ _ (-1)); lia. }
    destruct (PutBytes_val (sc_Negate s)) as [Hsl Hsv].
    destruct (sig_parts _ _ _ Hrl Hsl Hc') as (Hl & Hr' & Hs & Hv).
    unfold fixed_k_signature. rewrite Hr', Hs, Hv, Hsv, Hrv, Hr, Hx, Hneg.
    pose proof curve_half. split_conj; [exact Hl|reflexivity|lia|lia|apply Hc'|apply Hc'|].
    right. unfold ecdsa_s in *. rewrite <- Heq.
    replace (k * - (curve_order - sc_val s)) with (k * sc_val s + (- k) * curve_order) by ring.
    apply Z.mod_add. done.
  - destruct (PutBytes_val s) as [Hsl Hsv].
    destruct (sig_parts _ _ _ Hrl Hsl Hc) as (Hl & Hr' & Hs & Hv).
    unfold fixed_k_signature. rewrite Hr', Hs, Hv, Hsv, Hrv, Hr, Hx.
    split_conj; [exact Hl|reflexivity|lia|lia|apply Hc|apply Hc|by left].
Qed.

(** C32 (the canonical anchor signature): for every 32-byte hash the signer
    returns the low-s ECDSA signature of the hash by the GoldenTouch key with
    nonce 1, or with nonce 2 when the first gives no [s]; it fails only when
    neither nonce gives one or the hash has another length.  The recovery code
    always fits two bits. *)
Theorem signShastaAnchorPayloadFixedK_spec hash :
  match signShastaAnchorPayloadFixedK hash with
  | Ok sig => length hash = 32%nat /\
      (fixed_k_signature hash 1 sig \/
       ecdsa_s 1 (be_Z hash) 0 /\ fixed_k_signature hash 2 sig)
  | Err _ => length hash <> 32%nat \/ ecdsa_s 1 (be_Z hash) 0 /\ ecdsa_s 2 (be_Z hash) 0
  end.
Proof.
  unfold signShastaAnchorPayloadFixedK.
  destruct (Nat.eqb_spec (length hash) 32) as [Hh|]; cbn [negb reject_if res_bind]; [|by left].
  destruct (SetByteSlice_val _ golden_key_bytes) as [Hv Ho]. fold golden_key in Hv, Ho.
  destruct (SetByteSlice (FromHex shastaGoldenTouchPrivateKey)) as [priv overflow].
  cbn [fst snd] in *. pose proof golden_key_range as Hg. rewrite Z.mod_small in Hv by lia.
  assert (Hle : (curve_order <=? golden_key) = false) by (apply Z.leb_gt; lia).
  rewrite Hle in Ho. subst overflow. rewrite IsZero_val, Hv.
  assert (Hnz : (golden_key =? 0) = false) by (apply Z.eqb_neq; lia).
  rewrite Hnz. cbn [orb reject_if res_bind try_nonces].
  pose proof (signWithK_spec hash priv 1 Hh Hv (or_introl eq_refl)) as H1.
  pose proof (signWithK_spec hash priv 2 Hh Hv (or_intror eq_refl)) as H2.
  destruct (signShastaAnchorPayloadWithK hash priv (SetInt 1)) as [sig|]; [by auto|].
  destruct (signShastaAnchorPayloadWithK hash priv (SetInt 2)) as [sig|]; by auto.
Qed.
End Facts.

(* ------------------------------------------------------------------ *)
(** ** Integers modulo the order *)

Section Sample.
(** The multiples 1 and 2 of the base point. *)
Definition sample_base_x (k : Z) : Z :=
  if k =? 1 then 0x79BE667EF9DCBBAC55A06295CE870B07029BFCDB2DCE28D959F2815B16F81798
  else 0xC6047F9441ED7D6D3045406E95C07CD85C778E4B8CEF3CA7ABAC09B95C709EE5.
Definition sample_base_y (k : Z) : Z :=
  if k =? 1 then 0x483ADA7726A3C4655DA4FBFC0E1108A8FD17B448A68554199C47D08FFB10D4B8
  else 0x1AE168FEA63DC339A3C58419466CEAEEF7F632653266D0E1236431A950CFE52A.

#[local] Notation mod_n z := (z mod curve_order).

Definition sample_secp : Secp := {|
  ModNScalar := Z;
  FieldVal := Z;
  SetByteSlice bs := (be_Z bs, curve_order <=? be_Z bs);
  SetBytes bs := (be_Z bs, Z.b2z (curve_order <=? be_Z bs));
  SetInt k := k;
  IsZero a := mod_n a =? 0;
  Mul2 a b := mod_n a * mod_n b;
  sc_Mul a b := mod_n a * mod_n b;
  sc_Add a b := mod_n a + mod_n b;
  sc_Negate a := - mod_n a;
  InverseValNonConst a := if mod_n a =? 1 then 1 else (curve_order + 1) / 2;
  IsOverHalfOrder a := mod_n a >? curve_order / 2;
  PutBytesUnchecked a := be_bytes 32 (mod_n a);
  ScalarBaseMult_Affine k := (sample_base_x k, sample_base_y k);
  fv_PutBytes v := be_bytes 32 v;
  fv_IsOddBit v := Z.b2z (Z.odd v); |}.
#[local] Existing Instance sample_secp.

Lemma mod_n_range z : 0 <= mod_n z < curve_order.
Proof. by apply Z.mod_pos_bound. Qed.

Definition sample_secp_laws : SecpLaws.
Proof.
  assert (Hn : curve_order < 2 ^ 256) by done.
  refine {| sc_val (a : @ModNScalar sample_secp) := mod_n a |}; cbn.
  - apply mod_n_range.
  - done.
  - done.
  - intros k Hk. apply Z.mod_small. unfold is_uint, curve_order in *. lia.
  - done.
  - done.
  - done.
  - intros a b. by rewrite <- Z.add_mod.
  - intros a. rewrite <- (Z.sub_0_l (mod_n a)), Zminus_mod_idemp_r. done.
  - intros a [Ha|Ha]; rewrite Ha; vm_compute; done.
  - done.
  - intros a. rewrite length_be_bytes, be_Z_bytes. split; [done|].
    apply Z.mod_small. pose proof (mod_n_range a). change (256 ^ Z.of_nat 32) with (2 ^ 256). lia.
  - intros v. apply length_be_bytes.
  - intros v. destruct (Z.odd v); cbn; lia.
Defined.
#[local] Existing Instance sample_secp_laws.

(** The signature of a hash with the real key and curve. *)
Definition sample_sig_hash : list byte := be_bytes 32 (2 ^ 255 + 12345).

Lemma signShastaAnchorPayloadFixedK_spec_witness :
  exists sig, signShastaAnchorPayloadFixedK sample_sig_hash = Ok sig /\
    sig_r sig = sample_base_x 1 /\ length sig = 65%nat.
Proof.
  pose proof (signShastaAnchorPayloadFixedK_spec sample_sig_hash) as Hs.
  destruct (signShastaAnchorPayloadFixedK sample_sig_hash) as [sig|e] eqn:E;
    [|vm_compute in E; discriminate].
  exists sig. split; [done|]. destruct Hs as [_ [(Hl & Hr & _)|[Hz _]]].
  - split; [|exact Hl]. rewrite Hr. vm_compute. reflexivity.
  - exfalso. revert Hz. unfold ecdsa_s. vm_compute. discriminate.
Defined.
End Sample.
