(* ===== verification/Binding.v ===== *)
(** * Blocks against their manifest

    The last step of [internal/prover/manifest_validate.go]:
    [ValidateGuestInputManifestBinding] derives the blocks of a proposal from its
    data sources and checks that the witnessed blocks are those blocks, built on
    the committed parent: header fields, ancestry, transaction root, the anchor
    transaction and its canonical signature, and the anchors' link to L1. *)

From S2P Require Import Prelude Bytes GoStd Json External Types CoreTypes Samples Anchors.
From S2P Require Import BlobCoder TxEncoding Hash Proposal Forks Decode Fixtures GuestInput.
From S2P Require Import Blobs Manifest AnchorLink Execution AnchorSig.

#[local] Open Scope string_scope.
#[local] Open Scope list_scope.
#[local] Open Scope Z_scope.

(** [misc.VerifyEIP4396Header] of package [consensus/misc]. *)
Class Eip4396 `{ConfigTypes} : Type := {
  VerifyEIP4396Header : ChainConfig -> Header -> Z -> Header -> result unit;
}.

(** [p != nil]. *)
Definition present {A} (o : option A) : bool := match o with Some _ => true | None => false end.

(** [if p == nil { return missing }; if *p != v { return mismatch }]. *)
Definition must_be (v : Z) (o : option Z) (missing mismatch : string) : result unit :=
  let! got := some_or o (Errorf missing) in
  reject_if (negb (got =? v)) (Errorf mismatch).

(* ------------------------------------------------------------------ *)
(** ** Header fields *)

Section Headers.
Context `{ConfigTypes} `{!ChainParams} `{CoreTypes} `{!Eip4396}.

Definition validateManifestHeaderDifficulty (chainID : Z) (header : Header) : result unit :=
  let! config := chainConfigFor chainID in
  if IsUnzen config (hd_Time header) then Ok tt
  else must_be 0 (hd_Difficulty header) "missing difficulty in pre-Unzen block header"
         "pre-Unzen difficulty mismatch".

Definition validateManifestPreUnzenHeaderFields (header : Header) : result unit :=
  reject_if (present (hd_BlobGasUsed header)) (Errorf "pre-Unzen blob_gas_used must be absent") ;;!
  reject_if (present (hd_ExcessBlobGas header))
    (Errorf "pre-Unzen excess_blob_gas must be absent") ;;!
  reject_if (present (hd_ParentBeaconRoot header))
    (Errorf "pre-Unzen parent_beacon_block_root must be absent") ;;!
  reject_if (present (hd_RequestsHash header)) (Errorf "pre-Unzen requests_hash must be absent").

Definition validateManifestUnzenHeaderFields (header : Header) : result unit :=
  must_be 0 (hd_BlobGasUsed header) "Unzen blob_gas_used missing"
    "Unzen blob_gas_used mismatch" ;;!
  must_be 0 (hd_ExcessBlobGas header) "Unzen excess_blob_gas missing"
    "Unzen excess_blob_gas mismatch" ;;!
  must_be 0 (hd_ParentBeaconRoot header) "Unzen parent_beacon_block_root missing"
    "Unzen parent_beacon_block_root mismatch" ;;!
  must_be EmptyRequestsHash (hd_RequestsHash header) "Unzen requests_hash missing"
    "Unzen requests_hash mismatch".

Definition validateManifestHeaderSlotNumber (config : ChainConfig) (header : Header)
  : result unit :=
  if IsAmsterdam config (hd_Number header) (hd_Time header)
  then reject_if (negb (present (hd_SlotNumber header))) (Errorf "Amsterdam slot_number missing")
  else reject_if (present (hd_SlotNumber header))
         (Errorf "pre-Amsterdam slot_number must be absent").

Definition validateManifestHeaderForkFields (chainID : Z) (header : Header) : result unit :=
  let! config := chainConfigFor chainID in
  let! _ := some_or (hd_Number header)
    (Errorf "block header is missing number for fork field validation") in
  (if IsUnzen config (hd_Time header) then validateManifestUnzenHeaderFields header
   else validateManifestPreUnzenHeaderFields header) ;;!
  validateManifestHeaderSlotNumber config header.

Definition validateManifestHeaderStaticFields (header : Header) : result unit :=
  reject_if (negb (bool_decide (hd_Nonce header = zeros 8)))
    (Errorf "block header nonce mismatch") ;;!
  reject_if (negb (hd_UncleHash header =? EmptyUncleHash)) (Errorf "ommers_hash mismatch") ;;!
  must_be EmptyWithdrawalsHash (hd_WithdrawalsHash header) "withdrawals_root missing"
    "withdrawals_root mismatch".

(** The numbers are set: [validateManifestHeaderBaseFee] checks them first. *)
Definition validateManifestHeaderAncestry (header parentHeader : Header)
  (grandparentHeader : option CompactAncestor) : result unit :=
  reject_if (negb (add64 (number_u64 parentHeader) 1 =? number_u64 header))
    (Errorf "parent header number mismatch") ;;!
  reject_if (negb (Header_Hash parentHeader =? hd_ParentHash header))
    (Errorf "parent header hash mismatch") ;;!
  if default 0 (hd_Number parentHeader) =? 0 then Ok tt
  else
    let! grandparent := some_or grandparentHeader
      (Errorf "missing grandparent header for base fee validation") in
    reject_if (negb (add64 (ca_Number grandparent) 1 =? number_u64 parentHeader))
      (Errorf "grandparent header number mismatch") ;;!
    reject_if (negb (ca_Hash grandparent =? hd_ParentHash parentHeader))
      (Errorf "grandparent header hash mismatch").

Definition manifestParentBlockTime (parentHeader : Header)
  (grandparentHeader : option CompactAncestor) : result Z :=
  if default 0 (hd_Number parentHeader) =? 0 then Ok 0
  else
    let! grandparent := some_or grandparentHeader
      (Errorf "missing grandparent header for base fee validation") in
    reject_if (hd_Time parentHeader <? ca_Timestamp grandparent)
      (Errorf "parent header timestamp is before grandparent") ;;!
    Ok (sub64 (hd_Time parentHeader) (ca_Timestamp grandparent)).

Definition validateManifestHeaderBaseFee (chainID : Z) (header : Header)
  (parentHeader : option Header) (grandparentHeader : option CompactAncestor) : result unit :=
  let! config := chainConfigFor chainID in
  if negb (IsShasta config (hd_Time header)) then Ok tt
  else
    reject_if (negb (present (hd_BaseFee header)))
      (Errorf "missing base fee per gas in block header") ;;!
    let! parent := some_or parentHeader
      (Errorf "missing parent header for base fee validation") in
    reject_if (negb (present (hd_Number header)))
      (Errorf "block header is missing number for base fee validation") ;;!
    reject_if (negb (present (hd_Number parent)))
      (Errorf "parent header is missing number for base fee validation") ;;!
    validateManifestHeaderAncestry header parent grandparentHeader ;;!
    reject_if (negb (default 0 (hd_Number parent) =? 0) && negb (present (hd_BaseFee parent)))
      (Errorf "missing base fee per gas in parent block header") ;;!
    let! parentBlockTime := manifestParentBlockTime parent grandparentHeader in
    VerifyEIP4396Header config parent parentBlockTime header.
End Headers.

(* ------------------------------------------------------------------ *)
(** ** The anchor transaction *)

Section Anchor.
Context `{ConfigTypes} `{!ChainParams} `{CoreTypes} `{StateTypes} `{!Evm} `{Secp} `{Keccak}.

(** The transaction without access list and signature. *)
Definition unsigned_anchor (tx : Transaction) : Transaction :=
  NewTx (DynamicFeeTx (tx_ChainId tx) (tx_Nonce tx) (tx_GasTipCap tx) (tx_GasFeeCap tx)
    (tx_Gas tx) (tx_To tx) (tx_Value tx) (tx_Data tx) None 0 0 0).

Definition validateCanonicalAnchorSignature (tx : Transaction) (signer : Signer)
  : result unit :=
  let unsigned := unsigned_anchor tx in
  let! signature := signShastaAnchorPayloadFixedK (Hash_Bytes (Signer_Hash signer unsigned)) in
  let! canonical := wrap_err "sign canonical anchor transaction"
    (WithSignature unsigned signer signature) in
  reject_if (negb (tx_Hash canonical =? tx_Hash tx))
    (Errorf "anchor transaction signature mismatch").

Definition validateManifestAnchorTransaction (view : GuestInputView) (tx : Transaction)
  (header : Header) (expected : shastaManifestBlock) : result anchorV4CheckpointView :=
  let chainID := gv_GuestInputChainID view in
  reject_if (negb (tx_Type tx =? DynamicFeeTxType))
    (Errorf "anchor transaction type mismatch") ;;!
  let! expectedRecipient := shastaTaikoL2Address chainID in
  reject_if (negb (bool_decide (tx_To tx = Some expectedRecipient)))
    (Errorf "anchor transaction recipient mismatch") ;;!
  reject_if (negb (big_Uint64 (tx_ChainId tx) =? chainID))
    (Errorf "anchor transaction chain_id mismatch") ;;!
  reject_if (negb (tx_Value tx =? 0)) (Errorf "anchor transaction value mismatch") ;;!
  reject_if (negb (tx_Gas tx =? shastaAnchorGasLimit))
    (Errorf "anchor transaction gas limit mismatch") ;;!
  let! baseFee := some_or (hd_BaseFee header)
    (Errorf "missing base fee per gas in block header") in
  let! _ := some_or (hd_Number header)
    (Errorf "block header is missing number for anchor transaction validation") in
  reject_if (negb (tx_GasFeeCap tx =? baseFee))
    (Errorf "anchor transaction max_fee_per_gas mismatch") ;;!
  reject_if (negb (tx_GasTipCap tx =? 0))
    (Errorf "anchor transaction max_priority_fee_per_gas mismatch") ;;!
  reject_if (negb (length (tx_AccessList tx) =? 0)%nat)
    (Errorf "anchor transaction access list must be empty") ;;!
  let! config := chainConfigFor chainID in
  let signer := MakeSigner config (hd_Number header) (hd_Time header) in
  let! sender := wrap_err "recover anchor transaction sender" (Sender signer tx) in
  reject_if (negb (sender =? shastaGoldenTouchAccount))
    (Errorf "anchor transaction sender mismatch") ;;!
  validateCanonicalAnchorSignature tx signer ;;!
  let! checkpoint := decodeAnchorV4Checkpoint (tx_Data tx) in
  reject_if (negb (ac_blockNumber checkpoint =? mb_AnchorBlockNumber expected))
    (Errorf "anchor checkpoint block number mismatch") ;;!
  Ok checkpoint.

(* ---------------------------------------------------------------- *)
(** ** One block *)

Context `{!Eip4396}.

Definition validateManifestBlockBinding (ctx : Context) (view : GuestInputView)
  (proposal : shastaProposalView) (block : Block) (witness : Witness)
  (expected : shastaManifestBlock) (parentHeader : option Header)
  (grandparentHeader : option CompactAncestor) : result anchorV4CheckpointView :=
  let header := blk_Header block in
  let chainID := gv_GuestInputChainID view in
  let! anchor := some_or (head (blk_Transactions block)) (Errorf "missing anchor transaction") in
  validateManifestHeaderBaseFee chainID header parentHeader grandparentHeader ;;!
  validateManifestHeaderDifficulty chainID header ;;!
  validateManifestHeaderForkFields chainID header ;;!
  validateManifestHeaderStaticFields header ;;!
  validateManifestTransactionRoot ctx chainID block witness (mb_Transactions expected) ;;!
  reject_if (negb (hd_Time header =? mb_Timestamp expected)) (Errorf "timestamp mismatch") ;;!
  reject_if (negb (hd_Coinbase header =? mb_Coinbase expected)) (Errorf "coinbase mismatch") ;;!
  reject_if (negb (hd_GasLimit header =? add64 (mb_GasLimit expected) shastaAnchorGasLimit))
    (Errorf "gas limit mismatch") ;;!
  reject_if (negb (bool_decide (hd_Extra header =
      encodeShastaManifestExtraData (sp_BasefeeSharingPctg proposal)
        (tk_ProposalID (gv_Taiko view))))) (Errorf "extra_data mismatch") ;;!
  reject_if (negb (hd_MixDigest header =?
      shastaManifestMixHash (shastaManifestParentDifficulty parentHeader) (number_u64 header)))
    (Errorf "mix_hash mismatch") ;;!
  validateManifestAnchorTransaction view anchor header expected.
End Anchor.

(* ------------------------------------------------------------------ *)
(** ** Ancestors *)

Section Ancestors.
Context `{HexUtil} `{CoreTypes}.

Definition compactAncestorFromHeader (header : Header) : CompactAncestor := {|
  ca_Number := number_u64 header; ca_Hash := Header_Hash header;
  ca_ParentHash := hd_ParentHash header; ca_Timestamp := hd_Time header |}.

Definition decodeCompactAncestorHeader (raw : json) : result CompactAncestor :=
  let! fields := decodeJSONObject (Some raw) in
  let! number := requireUint64 fields ["number"] in
  let! hash := requireHash fields ["hash"] in
  let! parentHash := requireHash fields ["parent_hash"; "parentHash"] in
  let! timestamp := requireUint64 fields ["timestamp"] in
  Ok {| ca_Number := number; ca_Hash := hash; ca_ParentHash := parentHash;
        ca_Timestamp := timestamp |}.

(** [shastaProposalAncestorHeader]: a full header with its compact form, or
    only the compact form. *)
Record shastaProposalAncestorHeader := {
  pa_Full : option Header;
  pa_Compact : CompactAncestor;
}.

(** The [header] member, when the document is an object that has one. *)
Definition full_header_member (raw : json) : RawMessage :=
  match struct_members (Some raw) with
  | Err _ => None
  | Ok members => raw_field "header" members
  end.

Definition decodeProposalAncestorHeader (raw : json) : result shastaProposalAncestorHeader :=
  if isEmptyOrNullRawMessage (full_header_member raw) then
    let! compact := wrap_err "decode proposal ancestor header"
      (decodeCompactAncestorHeader raw) in
    Ok {| pa_Full := None; pa_Compact := compact |}
  else
    let! header := wrap_err "decode proposal ancestor header"
      (decodeHeader (full_header_member raw)) in
    Ok {| pa_Full := Some header; pa_Compact := compactAncestorFromHeader header |}.

(** The parent is the last ancestor, the grandparent the one before it. *)
Definition decodeProposalAncestorHeaderContext (raws : list json)
  : result (Header * option CompactAncestor) :=
  let! headers := for_range (fun _ => decodeProposalAncestorHeader) 0 raws in
  match rev headers with
  | [] => Err (Errorf "missing proposal ancestor header")
  | lst :: before =>
      let! parent := some_or (pa_Full lst)
        (Errorf "missing full parent header in proposal ancestor headers") in
      match before with
      | [] => Ok (parent, None)
      | second :: _ =>
          let! grandparentHeader := some_or (pa_Full second)
            (Errorf "missing full grandparent header in proposal ancestor headers") in
          Ok (parent, Some (compactAncestorFromHeader grandparentHeader))
      end
  end.
End Ancestors.

(* ------------------------------------------------------------------ *)
(** ** The whole proposal *)

Section Proposal.
Context `{HexUtil} `{ConfigTypes} `{!ChainParams} `{CoreTypes} `{StateTypes} `{!Evm} `{Secp}
  `{Keccak} `{!Eip4396} `{!ManifestCodec}.

(** The variables of the loop over the sources. *)
Record deriveState := {
  dr_parent : shastaManifestParentContext;
  dr_derived : list shastaManifestBlock;
  dr_sourceSpans : list manifestAnchorSourceSpan;
}.

Definition parent_context (parentHeader : Header) (grandparentHeader : option CompactAncestor)
  (lastAnchor : Z) : shastaManifestParentContext := {|
  pc_Number := hd_Number parentHeader; pc_Time := hd_Time parentHeader;
  pc_GasLimit := hd_GasLimit parentHeader; pc_MixDigest := hd_MixDigest parentHeader;
  pc_GrandparentHeader := grandparentHeader; pc_AnchorBlockNumber := lastAnchor |}.

(** The context after a derived block. *)
Definition next_context (parent : shastaManifestParentContext) (block : shastaManifestBlock)
  : shastaManifestParentContext :=
  let number := add64 (pc_number_u64 parent) 1 in {|
  pc_Number := Some number; pc_Time := mb_Timestamp block;
  pc_GasLimit := add64 (mb_GasLimit block) shastaAnchorGasLimit;
  pc_MixDigest := shastaManifestMixHash (pc_MixDigest parent) number;
  pc_GrandparentHeader := None; pc_AnchorBlockNumber := mb_AnchorBlockNumber block |}.

(** The indices of [view.DataSourcesRaw] and [view.Witnesses] are in range:
    the lengths are compared before the loops. *)
Definition derive_source (ctx : Context) (view : GuestInputView) (proposal : shastaProposalView)
  (forkTimestamp maxBlocks : Z) (sourceIndex : nat) (st : deriveState)
  (source : shastaDerivationSourceView) : result deriveState :=
  ctx_Err ctx (AtSource sourceIndex) ;;!
  let! raw := some_or (gv_DataSourcesRaw view !! sourceIndex) (Errorf "index out of range") in
  let! dataSource := wrap_err "decode data_sources" (decodeBlobSourceData raw) in
  let! manifest := wrap_err "prepare source manifest"
    (prepareSourceManifest dataSource source (dr_parent st) proposal
      (gv_GuestInputChainID view) forkTimestamp maxBlocks) in
  Ok {|
    dr_parent := fold_left next_context (sm_Blocks manifest) (dr_parent st);
    dr_derived := dr_derived st ++ sm_Blocks manifest;
    dr_sourceSpans := dr_sourceSpans st ++ [{|
      as_isForcedInclusion := ds_IsForcedInclusion source;
      as_blockCount := length (sm_Blocks manifest) |}] |}.

(** The variables of the loop over the derived blocks. *)
Record bindState := {
  bn_parent : Header;
  bn_grandparent : option CompactAncestor;
  bn_checkpoints : list anchorV4CheckpointView;
}.

Definition bind_block (ctx : Context) (view : GuestInputView) (proposal : shastaProposalView)
  (index : nat) (st : bindState) (expected : shastaManifestBlock) : result bindState :=
  ctx_Err ctx (AtBlock index) ;;!
  let! w := some_or (gv_Witnesses view !! index) (Errorf "index out of range") in
  let! decoded := wrap_err "decode witness block" (decodeReplayBlock (wv_ReplayBlock w)) in
  let '(block, witness) := decoded in
  let! checkpoint := wrap_err "manifest block"
    (validateManifestBlockBinding (in_block ctx index) view proposal block witness expected
      (Some (bn_parent st)) (bn_grandparent st)) in
  Ok {|
    bn_parent := blk_Header block;
    bn_grandparent := Some (compactAncestorFromHeader (bn_parent st));
    bn_checkpoints := bn_checkpoints st ++ [checkpoint] |}.

Definition ValidateGuestInputManifestBindingWithContext (ctx : Context)
  (view : option GuestInputView) : result unit :=
  let! view := some_or view (Errorf "guest input view is nil") in
  ctx_Err ctx AtEntry ;;!
  let! proposal := decodeGuestInputTaikoProposal (gv_TaikoRaw view) in
  reject_if (length (sp_Sources proposal) =? 0)%nat
    (Errorf "proposal sources must not be empty") ;;!
  reject_if (negb (length (gv_DataSourcesRaw view) =? length (sp_Sources proposal))%nat)
    (Errorf "data source count mismatch") ;;!
  let! ancestors :=
    decodeProposalAncestorHeaderContext (gi_ProposalAncestorHeaders (gv_Raw view)) in
  let '(parentHeader, grandparentHeader) := ancestors in
  reject_if (negb (Header_Hash parentHeader =?
      ti_ParentBlockHash (cv_TransitionInput (gv_Carry view))))
    (Errorf "proposal parent header hash mismatch") ;;!
  let! hostAnchor := decodeGuestInputLastAnchorBlockNumber (gv_TaikoRaw view) in
  let! lastAnchor := some_or hostAnchor
    (Errorf "missing taiko.prover_data.last_anchor_block_number") in
  let! config :=
    shastaDerivationConfig (gv_GuestInputChainID view) (sp_Timestamp proposal) in
  let '(forkTimestamp, maxBlocks) := config in
  let! derivation := for_fold (derive_source ctx view proposal forkTimestamp maxBlocks) 0
    {| dr_parent := parent_context parentHeader grandparentHeader lastAnchor;
       dr_derived := []; dr_sourceSpans := [] |} (sp_Sources proposal) in
  let derived := dr_derived derivation in
  reject_if (negb (length derived =? length (gv_Witnesses view))%nat)
    (Errorf "derived manifest block count mismatch") ;;!
  validateSourceAwareManifestAnchors (mb_AnchorBlockNumber <$> derived)
    (dr_sourceSpans derivation) lastAnchor (sp_OriginBlockNumber proposal)
    (gv_GuestInputChainID view) ;;!
  let! bound := for_fold (bind_block ctx view proposal) 0
    {| bn_parent := parentHeader; bn_grandparent := grandparentHeader; bn_checkpoints := [] |}
    derived in
  validateAnchorL1Linkage view proposal (bn_checkpoints bound) (dr_sourceSpans derivation)
    lastAnchor ;;!
  Ok tt.

Definition ValidateGuestInputManifestBinding (view : option GuestInputView) : result unit :=
  ValidateGuestInputManifestBindingWithContext Background view.
End Proposal.

(* ------------------------------------------------------------------ *)
(** ** Headers, declaratively *)

Section HeaderFacts.
Context `{ConfigTypes} `{!ChainParams} `{CoreTypes} `{!Eip4396}.

Lemma must_be_ok v o m1 m2 u : must_be v o m1 m2 = Ok u <-> o = Some v.
Proof.
  unfold must_be. rewrite res_bind_ok. setoid_rewrite some_or_ok.
  setoid_rewrite reject_if_ok. setoid_rewrite negb_false_iff. setoid_rewrite Z.eqb_eq.
  naive_solver.
Qed.

Lemma present_false {A} (o : option A) e u : reject_if (present o) e = Ok u <-> o = None.
Proof. rewrite reject_if_ok. by destruct o. Qed.

Lemma present_true {A} (o : option A) e u :
  reject_if (negb (present o)) e = Ok u <-> is_Some o.
Proof. rewrite reject_if_ok. destruct o; [|by split; [|intros []]]. split; [by eexists|done]. Qed.

(** The fields fixed by the fork, before and after Unzen. *)
Definition pre_unzen_fields (h : Header) : Prop :=
  hd_Difficulty h = Some 0 /\ hd_BlobGasUsed h = None /\ hd_ExcessBlobGas h = None /\
  hd_ParentBeaconRoot h = None /\ hd_RequestsHash h = None.

Definition unzen_fields (h : Header) : Prop :=
  hd_BlobGasUsed h = Some 0 /\ hd_ExcessBlobGas h = Some 0 /\
  hd_ParentBeaconRoot h = Some 0 /\ hd_RequestsHash h = Some EmptyRequestsHash.

(** A header as the manifest derivation of the chain produces it. *)
Definition manifest_header (config : ChainConfig) (h : Header) : Prop :=
  is_Some (hd_Number h) /\
  (if IsUnzen config (hd_Time h) then unzen_fields h else pre_unzen_fields h) /\
  (is_Some (hd_SlotNumber h) <-> IsAmsterdam config (hd_Number h) (hd_Time h) = true) /\
  hd_Nonce h = zeros 8 /\ hd_UncleHash h = EmptyUncleHash /\
  hd_WithdrawalsHash h = Some EmptyWithdrawalsHash.

Lemma slot_number_ok config h u :
  validateManifestHeaderSlotNumber config h = Ok u <->
  (is_Some (hd_SlotNumber h) <-> IsAmsterdam config (hd_Number h) (hd_Time h) = true).
Proof.
  unfold validateManifestHeaderSlotNumber. destruct (IsAmsterdam _ _ _).
  - rewrite present_true. naive_solver.
  - rewrite present_false. destruct (hd_SlotNumber h) eqn:E.
    + split; [done|]. intros [Hs _]. by discriminate Hs.
    + split; [|done]. split; [by intros []|done].
Qed.

Lemma static_fields_ok h u :
  validateManifestHeaderStaticFields h = Ok u <->
  hd_Nonce h = zeros 8 /\ hd_UncleHash h = EmptyUncleHash /\
  hd_WithdrawalsHash h = Some EmptyWithdrawalsHash.
Proof.
  unfold validateManifestHeaderStaticFields.
  by rewrite !res_seq_ok, !reject_if_ok, !negb_false_iff, bool_decide_eq_true, Z.eqb_eq,
    must_be_ok.
Qed.

Lemma unzen_fields_ok h u : validateManifestUnzenHeaderFields h = Ok u <-> unzen_fields h.
Proof.
  unfold validateManifestUnzenHeaderFields, unzen_fields.
  by rewrite !res_seq_ok, !must_be_ok.
Qed.

Lemma pre_unzen_fields_ok h u : validateManifestPreUnzenHeaderFields h = Ok u <->
  hd_BlobGasUsed h = None /\ hd_ExcessBlobGas h = None /\
  hd_ParentBeaconRoot h = None /\ hd_RequestsHash h = None.
Proof.
  unfold validateManifestPreUnzenHeaderFields.
  by rewrite !res_seq_ok, !present_false.
Qed.

Lemma fork_fields_ok chainID config h : chainConfigFor chainID = Ok config ->
  validateManifestHeaderForkFields chainID h = Ok tt <->
  is_Some (hd_Number h) /\
  (if IsUnzen config (hd_Time h) then validateManifestUnzenHeaderFields h
   else validateManifestPreUnzenHeaderFields h) = Ok tt /\
  (is_Some (hd_SlotNumber h) <-> IsAmsterdam config (hd_Number h) (hd_Time h) = true).
Proof.
  intros Hc. unfold validateManifestHeaderForkFields. rewrite Hc. cbn [res_bind].
  rewrite <- (slot_number_ok config h tt).
  destruct (hd_Number h) as [n|] eqn:En; cbn [some_or res_bind].
  - rewrite res_seq_ok. split; [intros ?; split; [by exists n|done]|by intros [_ ?]].
  - split; [done|]. by intros [[] _].
Qed.

(** The three checks of the fixed header fields. *)
Lemma header_checks_ok chainID config h : chainConfigFor chainID = Ok config ->
  (validateManifestHeaderDifficulty chainID h = Ok tt /\
   validateManifestHeaderForkFields chainID h = Ok tt /\
   validateManifestHeaderStaticFields h = Ok tt) <-> manifest_header config h.
Proof.
  intros Hc. unfold validateManifestHeaderDifficulty. rewrite Hc. cbn [res_bind].
  rewrite static_fields_ok, (fork_fields_ok _ _ _ Hc).
  unfold manifest_header, pre_unzen_fields.
  destruct (IsUnzen config (hd_Time h)).
  - rewrite unzen_fields_ok. tauto.
  - rewrite pre_unzen_fields_ok, must_be_ok. tauto.
Qed.
End HeaderFacts.

(* ------------------------------------------------------------------ *)
(** ** One block, declaratively *)

Section BlockFacts.
Context `{ConfigTypes} `{!ChainParams} `{CoreTypes} `{StateTypes} `{!Evm} `{Secp} `{Keccak}
  `{!Eip4396}.

(** The header is built on [parent], and [parent] on the grandparent, unless
    [parent] is the genesis block. *)
Definition ancestry (h parent : Header) (grandparent : option CompactAncestor) : Prop :=
  number_u64 h = add64 (number_u64 parent) 1 /\ hd_ParentHash h = Header_Hash parent /\
  (default 0 (hd_Number parent) <> 0 -> exists g, grandparent = Some g /\
     number_u64 parent = add64 (ca_Number g) 1 /\ hd_ParentHash parent = ca_Hash g /\
     ca_Timestamp g <= hd_Time parent).

Definition parent_block_time (parent : Header) (grandparent : option CompactAncestor) : Z :=
  match grandparent with
  | Some g => if default 0 (hd_Number parent) =? 0 then 0
              else sub64 (hd_Time parent) (ca_Timestamp g)
  | None => 0
  end.

(** The base fee is there, with what it is computed from, and is right. *)
Definition base_fee_checked (config : ChainConfig) (h parent : Header)
  (grandparent : option CompactAncestor) : Prop :=
  is_Some (hd_BaseFee h) /\ is_Some (hd_Number h) /\ is_Some (hd_Number parent) /\
  ancestry h parent grandparent /\
  (default 0 (hd_Number parent) <> 0 -> is_Some (hd_BaseFee parent)) /\
  VerifyEIP4396Header config parent (parent_block_time parent grandparent) h = Ok tt.

Lemma ancestry_ok h parent grandparent :
  validateManifestHeaderAncestry h parent grandparent = Ok tt /\
  (exists t, manifestParentBlockTime parent grandparent = Ok t) <->
  ancestry h parent grandparent.
Proof.
  unfold validateManifestHeaderAncestry, manifestParentBlockTime, ancestry.
  rewrite !res_seq_ok, !reject_if_ok, !negb_false_iff, !Z.eqb_eq.
  destruct (Z.eqb_spec (default 0 (hd_Number parent)) 0); [naive_solver|].
  destruct grandparent as [g|]; cbn [some_or res_bind]; [|naive_solver].
  rewrite res_seq_ok, !reject_if_ok, !negb_false_iff, !Z.eqb_eq.
  destruct (Z.ltb_spec (hd_Time parent) (ca_Timestamp g)); cbn [reject_if res_bind].
  - split; [naive_solver|]. intros (_ & _ & Hg). destruct (Hg n) as (? & [= <-] & ? & ? & ?). lia.
  - split; [|naive_solver]. intros ((? & ? & ? & ?) & _). split_conj; [congruence..|].
    intros _. exists g. split_conj; congruence || done.
Qed.

Lemma manifestParentBlockTime_ok parent grandparent t :
  manifestParentBlockTime parent grandparent = Ok t -> t = parent_block_time parent grandparent.
Proof.
  unfold manifestParentBlockTime, parent_block_time. intros Ht.
  destruct (default 0 (hd_Number parent) =? 0); [by destruct grandparent; go_inv|].
  destruct grandparent; cbn [some_or res_bind] in Ht; by go_inv.
Qed.

Lemma base_fee_ok chainID config h parent grandparent :
  chainConfigFor chainID = Ok config ->
  validateManifestHeaderBaseFee chainID h (Some parent) grandparent = Ok tt <->
  (IsShasta config (hd_Time h) = true -> base_fee_checked config h parent grandparent).
Proof.
  intros Hc. unfold validateManifestHeaderBaseFee, base_fee_checked. rewrite Hc.
  cbn [res_bind some_or]. destruct (IsShasta config (hd_Time h)); cbn [negb]; [|by split].
  rewrite !res_seq_ok, !present_true, reject_if_ok, <- ancestry_ok.
  assert (Hfee : negb (default 0 (hd_Number parent) =? 0) && negb (present (hd_BaseFee parent)) =
      false <-> (default 0 (hd_Number parent) <> 0 -> is_Some (hd_BaseFee parent))).
  { destruct (Z.eqb_spec (default 0 (hd_Number parent)) 0); cbn [negb andb]; [naive_solver|].
    destruct (hd_BaseFee parent); cbn; [naive_solver|]. split; [done|].
    intros Hn. by destruct (Hn n). }
  rewrite Hfee, res_bind_ok. split.
  - intros (? & ? & ? & ? & ? & t & Ht & Hv) _.
    rewrite <- (manifestParentBlockTime_ok _ _ _ Ht). split_conj; try done. by exists t.
  - intros Hall. destruct (Hall eq_refl) as (? & ? & ? & [? [t Ht]] & ? & Hv). split_conj; try done.
    exists t. split; [done|]. by rewrite (manifestParentBlockTime_ok _ _ _ Ht).
Qed.

(** The transaction signed with the fixed nonce has the hash of [tx]. *)
Definition canonically_signed (signer : Signer) (tx : Transaction) : Prop :=
  exists sig canonical,
    signShastaAnchorPayloadFixedK (Hash_Bytes (Signer_Hash signer (unsigned_anchor tx))) = Ok sig /\
    WithSignature (unsigned_anchor tx) signer sig = Ok canonical /\
    tx_Hash tx = tx_Hash canonical.

Lemma canonical_ok tx signer :
  validateCanonicalAnchorSignature tx signer = Ok tt <-> canonically_signed signer tx.
Proof.
  unfold validateCanonicalAnchorSignature, canonically_signed. split.
  - intros Hv. go_ok. eexists _, _. split_conj; [done|done|congruence].
  - intros (sig & canonical & -> & Hw & Hh). cbn [res_bind]. rewrite Hw. cbn [res_bind wrap_err].
    by rewrite Hh, Z.eqb_refl.
Qed.

(** The anchor call of a block. *)
Record anchor_transaction (config : ChainConfig) (chainID : Z) (h : Header)
  (anchorNumber : Z) (tx : Transaction) (cp : anchorV4CheckpointView) : Prop := {
  at_type : tx_Type tx = DynamicFeeTxType;
  at_to : exists to, shastaTaikoL2Address chainID = Ok to /\ tx_To tx = Some to;
  at_chain : big_Uint64 (tx_ChainId tx) = chainID;
  at_value : tx_Value tx = 0;
  at_gas : tx_Gas tx = shastaAnchorGasLimit;
  at_fees : hd_BaseFee h = Some (tx_GasFeeCap tx) /\ tx_GasTipCap tx = 0;
  at_access : tx_AccessList tx = [];
  at_number : is_Some (hd_Number h);
  at_sender : Sender (MakeSigner config (hd_Number h) (hd_Time h)) tx =
    Ok shastaGoldenTouchAccount;
  at_canonical : canonically_signed (MakeSigner config (hd_Number h) (hd_Time h)) tx;
  at_checkpoint : decodeAnchorV4Checkpoint (tx_Data tx) = Ok cp;
  at_anchor : ac_blockNumber cp = anchorNumber;
}.

Lemma anchor_transaction_ok config view tx h expected cp :
  chainConfigFor (gv_GuestInputChainID view) = Ok config ->
  validateManifestAnchorTransaction view tx h expected = Ok cp <->
  anchor_transaction config (gv_GuestInputChainID view) h (mb_AnchorBlockNumber expected) tx cp.
Proof.
  intros Hc. unfold validateManifestAnchorTransaction. rewrite Hc. cbn [res_bind]. split.
  - intros Hv. go_ok. constructor; try assumption.
    + eexists. by split.
    + split; [|done]. match goal with Hf : hd_BaseFee h = Some _ |- _ => rewrite Hf end. by f_equal.
    + match goal with Hl : length _ = 0%nat |- _ => by apply length_zero_iff_nil in Hl end.
    + by eexists.
    + by match goal with Hs : Sender _ _ = Ok _, He : _ = shastaGoldenTouchAccount |- _ =>
        rewrite Hs, He end.
    + by apply canonical_ok.
  - intros [Ht (to & Hto & Hr) Hch Hv Hg [Hf Htip] Ha [n Hn] Hs Hcan Hcp Hnum].
    rewrite Hto, Ht, Hch, Hv, Hg, Hf, Htip, Ha, Hn, Z.eqb_refl. rewrite Hn in Hs, Hcan.
    cbn [negb reject_if res_bind]. rewrite Hr, bool_decide_eq_true_2 by done.
    rewrite !Z.eqb_refl, Hs. cbn [negb reject_if res_bind some_or length Nat.eqb wrap_err].
    rewrite !Z.eqb_refl. apply canonical_ok in Hcan. rewrite Hcan. cbn [negb reject_if res_bind].
    rewrite Hcp. cbn [res_bind]. by rewrite Hnum, Z.eqb_refl.
Qed.
End BlockFacts.

(* ------------------------------------------------------------------ *)
(** ** The binding of one block *)

Section BlockBinding.
Context `{ConfigTypes} `{!ChainParams} `{CoreTypes} `{StateTypes} `{!Evm} `{Secp} `{Keccak}
  `{!Eip4396}.

(** The fields a derived block determines. *)
Definition derived_header (view : GuestInputView) (proposal : shastaProposalView)
  (expected : shastaManifestBlock) (parent h : Header) : Prop :=
  hd_Time h = mb_Timestamp expected /\ hd_Coinbase h = mb_Coinbase expected /\
  hd_GasLimit h = add64 (mb_GasLimit expected) shastaAnchorGasLimit /\
  hd_Extra h = encodeShastaManifestExtraData (sp_BasefeeSharingPctg proposal)
    (tk_ProposalID (gv_Taiko view)) /\
  hd_MixDigest h =
    shastaManifestMixHash (shastaManifestParentDifficulty (Some parent)) (number_u64 h).

(** [block] is the derived block [expected] on top of [parent], with the
    anchor checkpoint [cp]. *)
Definition bound_block (ctx : Context) (view : GuestInputView) (proposal : shastaProposalView)
  (config : ChainConfig) (witness : Witness) (parent : Header)
  (grandparent : option CompactAncestor) (expected : shastaManifestBlock) (block : Block)
  (cp : anchorV4CheckpointView) : Prop :=
  let h := blk_Header block in
  let chainID := gv_GuestInputChainID view in
  manifest_header config h /\
  (IsShasta config (hd_Time h) = true -> base_fee_checked config h parent grandparent) /\
  derived_header view proposal expected parent h /\
  validateManifestTransactionRoot ctx chainID block witness (mb_Transactions expected) = Ok tt /\
  exists anchor, head (blk_Transactions block) = Some anchor /\
    anchor_transaction config chainID h (mb_AnchorBlockNumber expected) anchor cp.

Lemma validateManifestBlockBinding_bound ctx view proposal block witness expected parent
  grandparent cp :
  validateManifestBlockBinding ctx view proposal block witness expected (Some parent)
    grandparent = Ok cp <->
  exists config, chainConfigFor (gv_GuestInputChainID view) = Ok config /\
    bound_block ctx view proposal config witness parent grandparent expected block cp.
Proof.
  unfold validateManifestBlockBinding, bound_block, derived_header.
  destruct (chainConfigFor (gv_GuestInputChainID view)) as [config|e] eqn:Hc.
  2:{ split; [|by intros (? & ? & _)]. intros Hv. apply res_bind_ok in Hv as (? & _ & Hv).
      apply res_seq_ok in Hv as [Hv _]. unfold validateManifestHeaderBaseFee in Hv.
      by rewrite Hc in Hv. }
  pose proof (header_checks_ok _ _ (blk_Header block) Hc) as Hh. rewrite res_bind_ok.
  assert (Hex : forall P : ChainConfig -> Prop,
    (exists c, Ok config = Ok c /\ P c) <-> P config) by naive_solver.
  rewrite Hex. clear Hex. split.
  - intros (anchor & Ha & Hv). rewrite some_or_ok in Ha.
    rewrite !res_seq_ok, (base_fee_ok _ _ _ _ _ Hc), (anchor_transaction_ok _ _ _ _ _ _ Hc) in Hv.
    rewrite !reject_if_ok, !negb_false_iff, bool_decide_eq_true, !Z.eqb_eq in Hv.
    destruct Hv as (? & ? & ? & ? & ? & ? & ? & ? & ? & ? & ?). split_conj; try done.
    + by apply Hh.
    + by exists anchor.
  - intros (Hm & Hb & (? & ? & ? & ? & ?) & Hr & anchor & Ha & Ht). exists anchor.
    rewrite some_or_ok, !res_seq_ok, (base_fee_ok _ _ _ _ _ Hc),
      (anchor_transaction_ok _ _ _ _ _ _ Hc).
    rewrite !reject_if_ok, !negb_false_iff, bool_decide_eq_true, !Z.eqb_eq.
    apply Hh in Hm as (? & ? & ?). split_conj; done.
Qed.

(** C12 (a block is its manifest entry): on a known chain a witnessed block is
    accepted for a derived block, with checkpoint [cp], exactly when its fixed
    fields are the manifest ones, its base fee and ancestry are right wherever
    the Shasta rules apply, its time, coinbase, gas limit, extra data and mix
    digest are the derived ones, its transaction root is that of the filtered
    manifest list, and its first transaction is the canonically signed
    GoldenTouch anchor call of [cp] with the derived anchor number. *)
Theorem validateManifestBlockBinding_spec ctx view proposal block witness expected parent
  grandparent cp :
  validateManifestBlockBinding ctx view proposal block witness expected (Some parent)
    grandparent = Ok cp <->
  exists config, chainConfigFor (gv_GuestInputChainID view) = Ok config /\
    bound_block ctx view proposal config witness parent grandparent expected block cp.
Proof. apply validateManifestBlockBinding_bound. Qed.

(** The second signature of the same call. *)
Definition same_call (a b : Transaction) : Prop :=
  tx_ChainId a = tx_ChainId b /\ tx_Nonce a = tx_Nonce b /\ tx_GasTipCap a = tx_GasTipCap b /\
  tx_GasFeeCap a = tx_GasFeeCap b /\ tx_Gas a = tx_Gas b /\ tx_To a = tx_To b /\
  tx_Value a = tx_Value b /\ tx_Data a = tx_Data b.

(** C31 (anchor signatures are not malleable): two transactions that make the
    same call and both pass the canonical signature check of a block have the
    same hash, so the block's transaction root and hash leave the prover no
    choice of signature; and a transaction is refused as soon as its hash
    differs from that of the canonically signed call. *)
Theorem validateCanonicalAnchorSignature_unique signer a b
  (Hcall : same_call a b) (Ha : validateCanonicalAnchorSignature a signer = Ok tt) :
  validateCanonicalAnchorSignature b signer = Ok tt <-> tx_Hash b = tx_Hash a.
Proof.
  destruct Hcall as (H1' & H2' & H3' & H4' & H5' & H6' & H7' & H8').
  assert (Hu : unsigned_anchor a = unsigned_anchor b).
  { unfold unsigned_anchor. by rewrite H1', H2', H3', H4', H5', H6', H7', H8'. }
  rewrite canonical_ok in Ha |- *. destruct Ha as (sig & c & Hs & Hw & Hh).
  rewrite Hu in Hs, Hw. split.
  - intros (sig' & c' & Hs' & Hw' & Hh'). congruence.
  - intros Hb. exists sig, c. split_conj; [done|done|congruence].
Qed.
End BlockBinding.

(* ------------------------------------------------------------------ *)
(** ** The binding of a proposal *)

Section ProposalBinding.
Context `{HexUtil} `{ConfigTypes} `{!ChainParams} `{CoreTypes} `{StateTypes} `{!Evm} `{Secp}
  `{Keccak} `{!Eip4396} `{!ManifestCodec}.

(** The manifests the sources stand for, each on top of the blocks before. *)
Inductive derives (view : GuestInputView) (proposal : shastaProposalView)
  (fork maxBlocks : Z) : nat -> shastaManifestParentContext ->
  list shastaDerivationSourceView -> list shastaSourceManifest -> Prop :=
  | derives_nil i parent : derives view proposal fork maxBlocks i parent [] []
  | derives_cons i parent source sources raw data m ms :
      gv_DataSourcesRaw view !! i = Some raw ->
      decodeBlobSourceData raw = Ok data ->
      prepareSourceManifest data source parent proposal (gv_GuestInputChainID view) fork
        maxBlocks = Ok m ->
      derives view proposal fork maxBlocks (i + 1)
        (fold_left next_context (sm_Blocks m) parent) sources ms ->
      derives view proposal fork maxBlocks i parent (source :: sources) (m :: ms).

Definition all_blocks (ms : list shastaSourceManifest) : list shastaManifestBlock :=
  concat (sm_Blocks <$> ms).

Definition spans_of (sources : list shastaDerivationSourceView) (ms : list shastaSourceManifest)
  : list manifestAnchorSourceSpan :=
  zip_with (fun s m => {| as_isForcedInclusion := ds_IsForcedInclusion s;
    as_blockCount := length (sm_Blocks m) |}) sources ms.

Lemma derive_fold_ok ctx view proposal fork maxBlocks sources : forall i st st',
  for_fold (derive_source ctx view proposal fork maxBlocks) i st sources = Ok st' ->
  exists ms, derives view proposal fork maxBlocks i (dr_parent st) sources ms /\
    dr_derived st' = dr_derived st ++ all_blocks ms /\
    dr_sourceSpans st' = dr_sourceSpans st ++ spans_of sources ms.
Proof.
  induction sources as [|source sources IH]; intros i st st'; cbn [for_fold].
  { intros [= <-]. exists []. rewrite !app_nil_r. split; [constructor|done]. }
  intros Hf. apply res_bind_ok in Hf as (st1 & Hs & Hf). unfold derive_source in Hs. go_inv.
  apply IH in Hf as (ms & Hd & Hb & Hsp). cbn [dr_parent dr_derived dr_sourceSpans] in *.
  eexists (_ :: ms). split_conj.
  - by econstructor.
  - by rewrite Hb, <- app_assoc.
  - by rewrite Hsp, <- app_assoc.
Qed.

(** No derived block is older than the Shasta fork. *)
Lemma lower_bound_fork parent proposal fork chainID :
  fork <= manifestTimestampLowerBound parent proposal fork chainID.
Proof.
  unfold manifestTimestampLowerBound.
  match goal with |- context [?a <? fork] => destruct (Z.ltb_spec a fork) end; lia.
Qed.

Lemma inherit_fork proposalTime proposer anchor gas fork chainID blocks : forall t,
  Forall (fun b => fork <= mb_Timestamp b)
    (inherit_blocks proposalTime proposer anchor gas fork chainID t blocks).
Proof.
  induction blocks as [|b rest IH]; intros t; cbn [inherit_blocks]; constructor; [|done].
  apply lower_bound_fork.
Qed.

Lemma timestamps_fork proposalTime fork chainID blocks : forall t,
  timestamps_ok proposalTime fork chainID t blocks = true ->
  Forall (fun b => fork <= mb_Timestamp b) blocks.
Proof.
  induction blocks as [|b rest IH]; intros t; cbn [timestamps_ok]; [constructor|].
  pose proof (lower_bound_fork t proposalTime fork chainID).
  destruct (_ >? _); [done|].
  destruct (Z.ltb_spec (mb_Timestamp b) (manifestTimestampLowerBound t proposalTime fork chainID));
    cbn [orb]; [done|].
  destruct (_ >? _); [done|]. intros Hr. constructor; [lia|by eapply IH].
Qed.

Lemma prepare_fork data source parent proposal chainID fork maxBlocks m :
  prepareSourceManifest data source parent proposal chainID fork maxBlocks = Ok m ->
  Forall (fun b => fork <= mb_Timestamp b) (sm_Blocks m).
Proof.
  unfold prepareSourceManifest. intros Hp. apply res_bind_ok in Hp as (m0 & _ & Hp).
  destruct (validateSourceManifest _ _ _ _ _ _) eqn:Hv; cbn [negb] in Hp; injection Hp as <-.
  - unfold validateSourceManifest in Hv. destruct (_ =? _)%nat; [done|].
    apply andb_true_iff in Hv as [Hv _]. apply andb_true_iff in Hv as [Hv _].
    by eapply timestamps_fork.
  - apply inherit_fork.
Qed.

Lemma derives_fork view proposal fork maxBlocks i parent sources ms :
  derives view proposal fork maxBlocks i parent sources ms ->
  Forall (fun b => fork <= mb_Timestamp b) (all_blocks ms).
Proof.
  induction 1; [constructor|]. unfold all_blocks. rewrite fmap_cons. cbn [concat].
  apply Forall_app. split; [by eapply prepare_fork|done].
Qed.

(** The witnessed blocks from index [i] on are the derived ones, each bound to
    the block before. *)
Inductive bound_chain (ctx : Context) (view : GuestInputView) (proposal : shastaProposalView)
  (config : ChainConfig) : nat -> Header -> option CompactAncestor ->
  list shastaManifestBlock -> list Block -> list anchorV4CheckpointView -> Prop :=
  | bound_nil i parent grandparent :
      bound_chain ctx view proposal config i parent grandparent [] [] []
  | bound_cons i parent grandparent expected derived w block witness blocks cp cps :
      gv_Witnesses view !! i = Some w ->
      decodeReplayBlock (wv_ReplayBlock w) = Ok (block, witness) ->
      bound_block (in_block ctx i) view proposal config witness parent grandparent expected
        block cp ->
      bound_chain ctx view proposal config (i + 1) (blk_Header block)
        (Some (compactAncestorFromHeader parent)) derived blocks cps ->
      bound_chain ctx view proposal config i parent grandparent (expected :: derived)
        (block :: blocks) (cp :: cps).

Lemma bind_fold_ok ctx view proposal config derived : forall i st st',
  chainConfigFor (gv_GuestInputChainID view) = Ok config ->
  for_fold (bind_block ctx view proposal) i st derived = Ok st' ->
  exists blocks cps,
    bound_chain ctx view proposal config i (bn_parent st) (bn_grandparent st) derived blocks cps /\
    bn_checkpoints st' = bn_checkpoints st ++ cps.
Proof.
  induction derived as [|expected derived IH]; intros i st st' Hc; cbn [for_fold].
  { intros [= <-]. exists [], []. rewrite app_nil_r. split; [constructor|done]. }
  intros Hf. apply res_bind_ok in Hf as (st1 & Hs & Hf). unfold bind_block in Hs.
  apply res_seq_ok in Hs as [_ Hs]. apply res_bind_ok in Hs as (w & Hw & Hs).
  apply res_bind_ok in Hs as ([block witness] & Hdec & Hs).
  apply res_bind_ok in Hs as (cp & Hb & [= <-]). rewrite some_or_ok in Hw.
  apply wrap_err_ok in Hdec. apply wrap_err_ok in Hb.
  apply validateManifestBlockBinding_bound in Hb as (config' & Hc' & Hb).
  assert (config' = config) as -> by congruence.
  apply IH in Hf as (blocks & cps & Hch & Hcp); [|done].
  cbn [bn_parent bn_grandparent bn_checkpoints] in *.
  exists (block :: blocks), (cp :: cps). split; [by econstructor|].
  by rewrite Hcp, <- app_assoc.
Qed.

(** A header on top of another. *)
Definition header_on (parent h : Header) : Prop :=
  hd_ParentHash h = Header_Hash parent /\ number_u64 h = add64 (number_u64 parent) 1.

Lemma bound_chain_linked ctx view proposal config i parent grandparent derived blocks cps :
  bound_chain ctx view proposal config i parent grandparent derived blocks cps ->
  Forall (fun b => IsShasta config (mb_Timestamp b) = true) derived ->
  chained header_on (parent :: (blk_Header <$> blocks)).
Proof.
  induction 1 as [|i parent grandparent expected derived w block witness blocks cp cps _ _ Hb _ IH];
    intros Hs; [done|].
  apply Forall_cons in Hs as [Hs Hrest]. rewrite fmap_cons. split; [|by apply IH].
  destruct Hb as (_ & Hfee & (Ht & _) & _). rewrite Ht in Hfee.
  destruct (Hfee Hs) as (_ & _ & _ & (Hn & Hp & _) & _). by split.
Qed.

(** [ChainConfig.IsShasta]: from the fork time on. *)
Definition IsShasta_from_time : Prop :=
  forall config t, IsShasta config t =
    match cfg_ShastaTime config with Some s => s <=? t | None => false end.

(** What an accepted proposal is. *)
Record bound_proposal (ctx : Context) (view : GuestInputView) (proposal : shastaProposalView)
  (parent : Header) (lastAnchor : Z) (blocks : list Block) : Prop := {
  bp_proposal : decodeGuestInputTaikoProposal (gv_TaikoRaw view) = Ok proposal;
  bp_anchor : decodeGuestInputLastAnchorBlockNumber (gv_TaikoRaw view) = Ok (Some lastAnchor);
  bp_parent : Header_Hash parent = ti_ParentBlockHash (cv_TransitionInput (gv_Carry view));
  bp_linked : chained header_on (parent :: (blk_Header <$> blocks));
  bp_derived : exists config fork maxBlocks grandparent manifests cps,
    chainConfigFor (gv_GuestInputChainID view) = Ok config /\
    cfg_ShastaTime config = Some fork /\
    derives view proposal fork maxBlocks 0
      (parent_context parent grandparent lastAnchor) (sp_Sources proposal) manifests /\
    length (all_blocks manifests) = length (gv_Witnesses view) /\
    bound_chain ctx view proposal config 0 parent grandparent (all_blocks manifests) blocks cps /\
    validateSourceAwareManifestAnchors (mb_AnchorBlockNumber <$> all_blocks manifests)
      (spans_of (sp_Sources proposal) manifests) lastAnchor (sp_OriginBlockNumber proposal)
      (gv_GuestInputChainID view) = Ok tt /\
    validateAnchorL1Linkage view proposal cps (spans_of (sp_Sources proposal) manifests)
      lastAnchor = Ok tt;
}.

Lemma ValidateGuestInputManifestBinding_bound ctx view (Hshasta : IsShasta_from_time)
  (Hok : ValidateGuestInputManifestBindingWithContext ctx (Some view) = Ok tt) :
  exists proposal parent lastAnchor blocks,
    bound_proposal ctx view proposal parent lastAnchor blocks.
Proof.
  unfold ValidateGuestInputManifestBindingWithContext in Hok. cbn [some_or res_bind] in Hok.
  apply res_seq_ok in Hok as [_ Hok]. apply res_bind_ok in Hok as (proposal & Hp & Hok).
  apply res_seq_ok in Hok as [_ Hok]. apply res_seq_ok in Hok as [_ Hok].
  apply res_bind_ok in Hok as ([parent grandparent] & _ & Hok).
  apply res_seq_ok in Hok as [Hph Hok]. apply res_bind_ok in Hok as (hostAnchor & Hha & Hok).
  apply res_bind_ok in Hok as (lastAnchor & Hla & Hok). apply some_or_ok in Hla as ->.
  apply res_bind_ok in Hok as ([fork maxBlocks] & Hcfg & Hok).
  apply res_bind_ok in Hok as (derivation & Hder & Hok). apply res_seq_ok in Hok as [Hlen Hok].
  apply res_seq_ok in Hok as [Han Hok]. apply res_bind_ok in Hok as (bound & Hbind & Hok).
  apply res_seq_ok in Hok as [Hlink _]. apply reject_if_ok in Hph, Hlen. go_bool.
  unfold shastaDerivationConfig in Hcfg. apply res_bind_ok in Hcfg as (config & Hc & Hcfg).
  apply res_bind_ok in Hcfg as (fork' & Hfork & [= <- <-]). apply some_or_ok in Hfork.
  apply derive_fold_ok in Hder as (manifests & Hd & Hb & Hs). cbn in Hb, Hs, Hd.
  eapply bind_fold_ok in Hbind as (blocks & cps & Hch & Hcps); [|done]. cbn in Hch, Hcps.
  rewrite Hb in *. rewrite Hs, Hcps in *.
  exists proposal, parent, lastAnchor, blocks. constructor; try done.
  - eapply bound_chain_linked; [done|].
    eapply Forall_impl; [by eapply derives_fork|]. cbn. intros b Hle.
    rewrite (Hshasta config), Hfork. by apply Z.leb_le.
  - eexists config, _, _, grandparent, manifests, cps. split_conj; try done.
Qed.

(** The blocks bound to the manifest are those their witnesses decode to. *)
Lemma bound_chain_blocks ctx view proposal config i parent grandparent derived blocks cps :
  bound_chain ctx view proposal config i parent grandparent derived blocks cps ->
  length blocks = length derived /\
  forall j b, blocks !! j = Some b -> exists w witness,
    gv_Witnesses view !! (i + j)%nat = Some w /\
    decodeReplayBlock (wv_ReplayBlock w) = Ok (b, witness).
Proof.
  induction 1 as [|i parent grandparent expected derived w block witness blocks cp cps Hw Hd _ _ [Hl IH]].
  { split; [done|]. intros j b Hj. by rewrite lookup_nil in Hj. }
  split; [cbn; by rewrite Hl|]. intros [|j] b; cbn.
  - intros [= <-]. exists w, witness. by rewrite Nat.add_0_r.
  - intros Hj. destruct (IH _ _ Hj) as (w' & wit' & Hw' & Hd'). exists w', wit'.
    split; [|done]. by rewrite <- Hw', Nat.add_succ_r, Nat.add_1_r.
Qed.

(** C2 (an accepted proposal is the canonical derivation): when the manifest
    binding accepts a guest input, its witnessed blocks are, one by one and in
    order, the blocks its proposal's sources stand for (each source prepared on
    top of the blocks before it), every block is bound to its derived block and
    hash-linked to the one before, the first one to the parent header the
    proof carry data commits to, and the anchors of all the blocks pass the
    source-aware rules and the link to L1. *)
Theorem ValidateGuestInputManifestBinding_sound ctx view (Hshasta : IsShasta_from_time)
  (Hok : ValidateGuestInputManifestBindingWithContext ctx (Some view) = Ok tt) :
  exists proposal parent lastAnchor blocks,
    bound_proposal ctx view proposal parent lastAnchor blocks.
Proof. by apply ValidateGuestInputManifestBinding_bound. Qed.
End ProposalBinding.
