(* ===== verification/Signer.v ===== *)
(** * Signing

    [internal/prover/signer.go]: the native and the enclave signer behind the
    [ProofSigner] interface and the 89-byte proof they emit. *)

From Stdlib Require Import Ascii.
From S2P Require Import Prelude Bytes GoStd Json External Types BlobCoder Hash.

#[local] Open Scope string_scope.
#[local] Open Scope list_scope.
#[local] Open Scope Z_scope.

Definition ProvingModeNative : string := "native".
Definition ProvingModeTEE : string := "tee".

Record ServiceConfig := {
  sv_Mode : string;
  sv_TeeType : string;
  sv_SecretDir : string;
  sv_ConfigDir : string;
  sv_Fork : string;
  sv_InstanceID : Z;
  sv_InstanceIDConfigured : bool;
  sv_DevMode : bool;
}.

Record SignerIdentity := {
  id_PublicKey : list byte;
  id_InstanceAddress : Z;
  id_InstanceID : Z;
}.

Record SignerOutput := {
  so_Signature : list byte;
  so_Quote : list byte;
  so_PublicKey : list byte;
  so_InstanceAddress : Z;
  so_InstanceID : Z;
}.

(** The interface [ProofSigner]. *)
Record ProofSigner := {
  SignHash : Z -> result SignerOutput;
  Identity : result SignerIdentity;
}.

(** [protocol.ProofResult]. *)
Record ProofResult := {
  pr_Proof : option string;
  pr_Quote : option string;
  pr_PublicKey : option string;
  pr_InstanceAddress : option string;
  pr_Input : string;
}.

Definition nativeProofPrivateKey : string :=
  "22d82c2b37ec42ade37eaec2f4b6fda7e2e1cdca5f483ab179ed1420c201872f".
Definition shastaNativeMockInstance : Z := 0xDEADC0DE.

Definition defaultInstanceID (instanceID : Z) : Z :=
  if instanceID =? 0 then shastaNativeMockInstance else instanceID.

(* ------------------------------------------------------------------ *)
(** ** The proof bytes *)

Definition prefixedHex (data : list byte) : string := "0x" +:+ hex_EncodeToString data.

(** [common.Hash.Hex]. *)
Definition Hash_Hex (h : Z) : string := prefixedHex (Hash_Bytes h).

Definition encodeOneshotProof (instanceID instanceAddress : Z) (signature : list byte)
  : list byte :=
  be_bytes 4 instanceID ++ Address_Bytes instanceAddress ++ signature.

Definition decodeOneshotProof (proofBytes : list byte) : result (Z * Z * list byte) :=
  reject_if (negb (length proofBytes =? 4 + AddressLength + 65)%nat)
    (Errorf "proof length mismatch") ;;!
  let instanceID := be_Z (take 4 proofBytes) in
  let instanceAddress := BytesToAddress (take AddressLength (drop 4 proofBytes)) in
  let signature := drop (4 + AddressLength) proofBytes in
  Ok (instanceID, instanceAddress, signature).

(** [common.Address.Hex], with its mixed-case checksum. *)
Class AddressText : Type := { Address_Hex : Z -> string }.

Section Signers.
Context `{Ecdsa}.

Definition buildSignerOutput (hash : Z) (privateKey : PrivateKey) (quote : list byte)
  (instanceID : Z) : result SignerOutput :=
  let! signature := wrap_err "sign input hash" (Sign (Hash_Bytes hash) privateKey) in
  let signed := take 64 signature ++ [byte_of (byte_val (zget 64 signature) + 27)] in
  Ok {|
    so_Signature := signed;
    so_Quote := quote;
    so_PublicKey := FromECDSAPub (key_PublicKey privateKey);
    so_InstanceAddress := PubkeyToAddress (key_PublicKey privateKey);
    so_InstanceID := instanceID |}.

Definition signerIdentity (privateKey : PrivateKey) (instanceID : Z) : SignerIdentity := {|
  id_PublicKey := FromECDSAPub (key_PublicKey privateKey);
  id_InstanceAddress := PubkeyToAddress (key_PublicKey privateKey);
  id_InstanceID := instanceID |}.

(** [*NativeProofSigner] and its methods. *)
Record NativeProofSigner := { ns_instanceID : Z }.

Definition NewNativeProofSigner (instanceID : Z) : NativeProofSigner :=
  {| ns_instanceID := defaultInstanceID instanceID |}.

Definition native_signer (s : NativeProofSigner) : ProofSigner :=
  let load := wrap_err "load native proof private key" (HexToECDSA nativeProofPrivateKey) in {|
  SignHash hash :=
    let! privateKey := load in buildSignerOutput hash privateKey [] (ns_instanceID s);
  Identity := let! privateKey := load in Ok (signerIdentity privateKey (ns_instanceID s)) |}.

(** [*TEEProofSigner] and its methods. *)
Record TEEProofSigner := {
  ts_privateKey : PrivateKey;
  ts_instanceID : Z;
  ts_instanceIDConfigured : bool;
}.

Definition NewTEEProofSigner (privateKey : PrivateKey) (instanceID : Z) : TEEProofSigner := {|
  ts_privateKey := privateKey; ts_instanceID := instanceID; ts_instanceIDConfigured := true |}.

Definition newTEEProofSignerFromConfig (privateKey : PrivateKey) (cfg : ServiceConfig)
  : TEEProofSigner := {|
  ts_privateKey := privateKey; ts_instanceID := sv_InstanceID cfg;
  ts_instanceIDConfigured := sv_InstanceIDConfigured cfg |}.

Definition instance_id_required : error :=
  Errorf "tee proving requires GAIKO2_INSTANCE_ID or a registered GAIKO2_FORK mapping".

Definition tee_signer (s : TEEProofSigner) : ProofSigner := {|
  SignHash hash :=
    reject_if (negb (ts_instanceIDConfigured s)) instance_id_required ;;!
    buildSignerOutput hash (ts_privateKey s) [] (ts_instanceID s);
  Identity :=
    reject_if (negb (ts_instanceIDConfigured s)) instance_id_required ;;!
    Ok (signerIdentity (ts_privateKey s) (ts_instanceID s)) |}.

(* ---------------------------------------------------------------- *)
(** ** Results *)

Context `{AddressText}.

Definition proofResultFromSignerOutput (inputHash : Z) (output : SignerOutput) : ProofResult := {|
  pr_Proof := Some (prefixedHex (encodeOneshotProof (so_InstanceID output)
    (so_InstanceAddress output) (so_Signature output)));
  pr_Quote := if (0 <? length (so_Quote output))%nat then Some (prefixedHex (so_Quote output))
              else None;
  pr_PublicKey := Some (prefixedHex (so_PublicKey output));
  pr_InstanceAddress := Some (Address_Hex (so_InstanceAddress output));
  pr_Input := Hash_Hex inputHash |}.

Definition buildProofResult (inputHash : Z) (signer : ProofSigner) : result ProofResult :=
  let! output := SignHash signer inputHash in
  Ok (proofResultFromSignerOutput inputHash output).

(** [sigToAddress] of [aggregate.go]. *)
Definition sigToAddress (inputHash : Z) (sig : list byte) : result Z :=
  reject_if (negb (length sig =? 65)%nat) (Errorf "signature length mismatch") ;;!
  let v := byte_val (zget 64 sig) in
  let normalized := if 27 <=? v then take 64 sig ++ [byte_of (v - 27)] else sig in
  let! pubkey := SigToPub (Hash_Bytes inputHash) normalized in
  Ok (PubkeyToAddress pubkey).
End Signers.

(* ------------------------------------------------------------------ *)
(** ** Facts *)

Lemma be_bytes_be_Z n bs : length bs = n -> be_bytes n (be_Z bs) = bs.
Proof. intros <-. apply be_bytes_Z. Qed.

Lemma decodeOneshotProof_ok bs instanceID instanceAddress signature :
  decodeOneshotProof bs = Ok (instanceID, instanceAddress, signature) <->
  bs = encodeOneshotProof instanceID instanceAddress signature /\
  is_uint 32 instanceID /\ is_address instanceAddress /\ length signature = 65%nat.
Proof.
  unfold decodeOneshotProof, encodeOneshotProof. split.
  - intros Hd. go_ok. simplify_eq.
    assert (Hlen : length bs = 89%nat) by lia.
    assert (L1 : length (take 4 bs) = 4%nat) by (rewrite length_take; lia).
    assert (L2 : length (take 20 (drop 4 bs)) = 20%nat) by (rewrite length_take, length_drop; lia).
    split_conj.
    + rewrite be_bytes_be_Z, Address_Bytes_BytesToAddress by done.
      replace (drop 24 bs) with (drop 20 (drop 4 bs)) by by rewrite drop_drop.
      by rewrite !take_drop.
    + pose proof (be_Z_range (take 4 bs)) as Hr. rewrite L1 in Hr. exact Hr.
    + apply BytesToAddress_range.
    + rewrite length_drop. lia.
  - intros (-> & Hid & Haddr & Hsig).
    rewrite !length_app, length_be_bytes, length_Address_Bytes, Hsig.
    cbn [Nat.add Nat.eqb negb reject_if res_bind].
    rewrite take_app_length', drop_app_length' by (by rewrite length_be_bytes).
    rewrite take_app_length' by (by rewrite length_Address_Bytes).
    rewrite app_assoc, drop_app_length' by
      (rewrite length_app, length_be_bytes, length_Address_Bytes; done).
    rewrite be_Z_bytes, BytesToAddress_Bytes by done. by rewrite Z.mod_small.
Qed.

(** C39 (the 89-byte proof): decoding inverts encoding and accepts nothing else:
    bytes decode to an instance id, an address and a signature exactly when they
    are the encoding of these, with the id in 32 bits, the address in 160 and a
    65-byte signature. *)
Theorem decodeOneshotProof_spec bs instanceID instanceAddress signature :
  decodeOneshotProof bs = Ok (instanceID, instanceAddress, signature) <->
  bs = encodeOneshotProof instanceID instanceAddress signature /\
  is_uint 32 instanceID /\ is_address instanceAddress /\ length signature = 65%nat.
Proof. apply decodeOneshotProof_ok. Qed.

Section Recovery.
Context `{Ecdsa}.

(** The documented behaviour of [crypto.Sign] and [crypto.SigToPub]: a
    signature has the recovery id 0 or 1 and gives the signer's key back. *)
Definition recovers : Prop :=
  forall hash key sig, Sign hash key = Ok sig ->
    byte_val (zget 64 sig) <= 1 /\ SigToPub hash sig = Ok (key_PublicKey key).

(** What a signer that holds [key] as instance [id] does. *)
Definition signs_with (s : ProofSigner) (key : PrivateKey) (id : Z) : Prop :=
  Identity s = Ok (signerIdentity key id) /\
  forall hash, SignHash s hash = buildSignerOutput hash key [] id.

(** Whatever the mode, a signer that knows who it is signs with one key. *)
Lemma native_signs_with s key : HexToECDSA nativeProofPrivateKey = Ok key ->
  signs_with (native_signer s) key (ns_instanceID s).
Proof. intros Hk. split; [|intros hash]; cbn; by rewrite Hk. Qed.

Lemma tee_signs_with s : ts_instanceIDConfigured s = true ->
  signs_with (tee_signer s) (ts_privateKey s) (ts_instanceID s).
Proof. intros Hc. split; [|intros hash]; cbn; by rewrite Hc. Qed.

Lemma zget_64_snoc (l : list byte) b : length l = 64%nat -> zget 64 (l ++ [b]) = b.
Proof. intros Hl. unfold zget. by rewrite lookup_app_r, Hl by (rewrite Hl; done). Qed.

Lemma take_64_split (sig : list byte) : length sig = 65%nat ->
  sig = take 64 sig ++ [zget 64 sig] /\ length (take 64 sig) = 64%nat.
Proof.
  intros Hl. assert (Ht : length (take 64 sig) = 64%nat) by (rewrite length_take; lia).
  split; [|done]. rewrite <- (take_drop 64 sig) at 1. f_equal.
  destruct (drop 64 sig) as [|b [|c r]] eqn:Ed;
    apply (f_equal length) in Ed as El; rewrite length_drop in El; cbn in El; try lia.
  rewrite <- (take_drop 64 sig), Ed. by rewrite zget_64_snoc.
Qed.

(** The address a proof carries is the one its signature recovers to. *)
Lemma signed_recovers (Hr : recovers) hash key quote id output :
  buildSignerOutput hash key quote id = Ok output ->
  so_InstanceAddress output = PubkeyToAddress (key_PublicKey key) /\
  so_InstanceID output = id /\ so_Quote output = quote /\
  length (so_Signature output) = 65%nat /\
  sigToAddress hash (so_Signature output) = Ok (so_InstanceAddress output).
Proof.
  unfold buildSignerOutput. intros Hb. apply res_bind_ok in Hb as (sig & Hs & [= <-]).
  apply wrap_err_ok in Hs. destruct (Hr _ _ _ Hs) as [Hv Hp]. apply Sign_length in Hs as Hl.
  cbn [so_InstanceAddress so_InstanceID so_Quote so_Signature].
  destruct (take_64_split sig Hl) as [Hsplit Ht].
  assert (Hlen : length (take 64 sig ++ [byte_of (byte_val (zget 64 sig) + 27)]) = 65%nat)
    by (rewrite length_app, Ht; done).
  split_conj; try done. unfold sigToAddress. rewrite Hlen. cbn [Nat.eqb negb reject_if res_bind].
  rewrite zget_64_snoc, byte_val_of by done. pose proof (byte_val_range (zget 64 sig)).
  rewrite Z.mod_small by lia.
  assert ((27 <=? byte_val (zget 64 sig) + 27) = true) as -> by (apply Z.leb_le; lia).
  rewrite take_app_length' by done.
  replace (byte_val (zget 64 sig) + 27 - 27) with (byte_val (zget 64 sig)) by lia.
  rewrite byte_of_val. rewrite <- Hsplit, Hp. done.
Qed.
End Recovery.

(* ------------------------------------------------------------------ *)
(** ** A transparent signature scheme *)

Section Sample.
(** A signature shows the key and the message. *)
Definition sample_ecdsa : Ecdsa.
Proof.
  refine {|
    PrivateKey := Z;
    PublicKeyT := Z;
    key_PublicKey k := k mod 2 ^ 256;
    Sign h k := Ok (be_bytes 32 k ++ be_bytes 32 (be_Z h) ++ [x01]);
    SigToPub h sig :=
      if bool_decide (take 32 (drop 32 sig) = be_bytes 32 (be_Z h))
      then Ok (be_Z (take 32 sig)) else Err (Errorf "invalid signature");
    PubkeyToAddress p := p mod 2 ^ 160;
    FromECDSAPub p := be_bytes 64 p;
    HexToECDSA s := match hex_DecodeString s with Ok bs => Ok (be_Z bs) | Err e => Err e end |}.
  - intros p. apply Z.mod_pos_bound. lia.
  - intros h k sig [= <-]. rewrite !length_app, !length_be_bytes. done.
Defined.

Definition sample_address_text : AddressText := {| Address_Hex a := prefixedHex (Address_Bytes a) |}.

Lemma sample_recovers : @recovers sample_ecdsa.
Proof.
  intros h k sig [= <-]. split.
  - rewrite app_assoc, zget_64_snoc; [by vm_compute|]. by rewrite length_app, !length_be_bytes.
  - cbn [SigToPub sample_ecdsa key_PublicKey].
    rewrite drop_app_length', take_app_length' by (by rewrite length_be_bytes).
    rewrite bool_decide_eq_true_2 by done.
    rewrite take_app_length' by (by rewrite length_be_bytes).
    rewrite be_Z_bytes. done.
Qed.
End Sample.
