(* ===== verification/Replay.v ===== *)
(** * Replaying a block

    [internal/prover/replay.go] up to the service: the checks of a block and its
    witness before execution, the stateless execution of [GethRunner] with its
    own loop for Unzen blocks, and the [Anchored] event of the receipts. *)

From Stdlib Require Import Ascii.
From S2P Require Import Prelude Bytes GoStd External Types CoreTypes Samples Anchors BlobCoder.
From S2P Require Import Hash Forks AnchorLink Execution.

#[local] Open Scope string_scope.
#[local] Open Scope list_scope.
#[local] Open Scope Z_scope.

(** [ReplayResult]; a receipt pointer may be nil. *)
Record ReplayResult := {
  rr_StateRoot : Z;
  rr_ReceiptRoot : Z;
  rr_Receipts : list (option Receipt);
}.

(** [core.ProcessResult]; [Requests] may be a nil slice. *)
Record ProcessResult := {
  px_Receipts : list Receipt;
  px_Requests : option (list (list byte));
  px_Logs : list (option Log);
  px_GasUsed : Z;
}.

(** The rest of package [core]: the state processor for the blocks before
    Unzen, the block validator, the request queues and the engine. *)
Class Processor `{Evm} : Type := {
  StateProcessor_Process : replayChainContext -> Context -> Block -> StateDB ->
    result (ProcessResult * StateDB);
  ValidateState : ChainConfig -> Block -> StateDB -> ProcessResult -> bool ->
    result unit * StateDB;
  IntermediateRoot : StateDB -> bool -> Z * StateDB;
  IsEIP158 : ChainConfig -> option Z -> bool;
  ParseDepositLogs : list (list byte) -> list (option Log) -> ChainConfig ->
    result (list (list byte));
  ProcessWithdrawalQueue : list (list byte) -> Machine -> result (list (list byte)) * Machine;
  ProcessConsolidationQueue : list (list byte) -> Machine -> result (list (list byte)) * Machine;
  Finalize : replayChainContext -> Header -> StateDB -> Block -> StateDB;
  DeriveSha_receipts : list Receipt -> Z;
}.

(* ------------------------------------------------------------------ *)
(** ** Before execution *)

Section Checks.
Context `{CoreTypes}.

(** The loop over the ancestors; the list starts at [newer]. *)
Fixpoint ancestors_linked (newer : Header) (rest : list Header) : result unit :=
  match rest with
  | [] => Ok tt
  | older :: rest' =>
      reject_if (negb (bool_decide (is_Some (hd_Number older))))
        (Errorf "ancestor header is missing number") ;;!
      reject_if (negb (number_u64 newer =? add64 (number_u64 older) 1))
        (Errorf "ancestor header number mismatch") ;;!
      reject_if (negb (hd_ParentHash newer =? Header_Hash older))
        (Errorf "ancestor header hash mismatch") ;;!
      ancestors_linked older rest'
  end.

Definition validateReplayWitness (block : Block) (witness : Witness) : result unit :=
  match wt_Headers witness with
  | [] => Err (Errorf "witness must include a full parent header")
  | parent :: ancestors =>
      reject_if (blk_NumberU64 block =? 0) (Errorf "genesis block replay is not supported") ;;!
      reject_if (negb (bool_decide (is_Some (hd_Number parent))))
        (Errorf "parent header is missing number") ;;!
      reject_if (negb (add64 (number_u64 parent) 1 =? blk_NumberU64 block))
        (Errorf "parent header number mismatch") ;;!
      reject_if (negb (Header_Hash parent =? hd_ParentHash (blk_Header block)))
        (Errorf "parent header hash mismatch") ;;!
      reject_if (negb (Witness_Root witness =? hd_Root parent))
        (Errorf "witness root mismatch") ;;!
      ancestors_linked parent ancestors
  end.

Definition validateReplayBlockBody (block : Block) : result unit :=
  let header := blk_Header block in
  reject_if (negb (CalcUncleHash (blk_Uncles block) =? hd_UncleHash header))
    (Errorf "ommer hash mismatch") ;;!
  reject_if (negb (DeriveSha_txs (blk_Transactions block) =? hd_TxHash header))
    (Errorf "transaction root mismatch") ;;!
  match hd_WithdrawalsHash header, blk_Withdrawals block with
  | Some _, None => Err (Errorf "missing withdrawals in block body")
  | Some root, Some withdrawals =>
      reject_if (negb (DeriveSha_withdrawals withdrawals =? root))
        (Errorf "withdrawals root mismatch")
  | None, Some _ => Err (Errorf "withdrawals present in block body without header commitment")
  | None, None => Ok tt
  end.

Definition validateReplayRequestsHash (header : Header)
  (requests : option (list (list byte))) : result unit :=
  match hd_RequestsHash header with
  | None =>
      match requests with
      | Some _ => Err (Errorf "requests present in block body without header commitment")
      | None => Ok tt
      end
  | Some root =>
      reject_if (negb (CalcRequestsHash (default [] requests) =? root))
        (Errorf "requests hash mismatch")
  end.

(** The header an execution must reproduce has no claimed roots. *)
Definition clear_roots (h : Header) : Header := {|
  hd_ParentHash := hd_ParentHash h; hd_UncleHash := hd_UncleHash h;
  hd_Coinbase := hd_Coinbase h; hd_Root := 0; hd_TxHash := hd_TxHash h;
  hd_ReceiptHash := 0; hd_Bloom := hd_Bloom h; hd_Difficulty := hd_Difficulty h;
  hd_Number := hd_Number h; hd_GasLimit := hd_GasLimit h; hd_GasUsed := hd_GasUsed h;
  hd_Time := hd_Time h; hd_Extra := hd_Extra h; hd_MixDigest := hd_MixDigest h;
  hd_Nonce := hd_Nonce h; hd_BaseFee := hd_BaseFee h;
  hd_WithdrawalsHash := hd_WithdrawalsHash h; hd_BlobGasUsed := hd_BlobGasUsed h;
  hd_ExcessBlobGas := hd_ExcessBlobGas h; hd_ParentBeaconRoot := hd_ParentBeaconRoot h;
  hd_RequestsHash := hd_RequestsHash h; hd_SlotNumber := hd_SlotNumber h;
  hd_BlockAccessListHash := hd_BlockAccessListHash h |}.

Definition blockForStatelessExecution (block : Block) : Block :=
  with_header block (clear_roots (blk_Header block)).

Definition validateReplayBlockMatchesView (block : Block) (view : BlockView) : result unit :=
  let header := blk_Header block in
  reject_if (negb (blk_NumberU64 block =? bv_Number view))
    (Errorf "validated replay block number mismatch") ;;!
  reject_if (negb (blk_Hash block =? bv_Hash view))
    (Errorf "validated replay block hash mismatch") ;;!
  reject_if (negb (hd_ParentHash header =? bv_ParentHash view))
    (Errorf "validated replay block parent hash mismatch") ;;!
  reject_if (negb (hd_Root header =? bv_StateRoot view))
    (Errorf "validated replay block state root mismatch") ;;!
  reject_if (negb (hd_ReceiptHash header =? bv_ReceiptsRoot view))
    (Errorf "validated replay block receipt root mismatch").
End Checks.

(* ------------------------------------------------------------------ *)
(** ** Execution *)

Section Execute.
Context `{Processor} `{!ChainParams}.

(** How one transaction of an Unzen block ends. *)
Inductive replay_outcome : Type :=
  | Executed (receipt : Receipt) (m : Machine) (gp : GasPool)
  | Truncated (m : Machine) (gp : GasPool).

Definition mark_anchor (config : ChainConfig) (i : nat) (tx : Transaction)
  : result Transaction :=
  if (i =? 0)%nat && cfg_Taiko config then MarkAsAnchor tx else Ok tx.

Definition replay_transaction (config : ChainConfig) (header : Header) (blockHash : Z)
  (signer : Signer) (i : nat) (tx : Transaction) (m : Machine) (gp : GasPool)
  : result replay_outcome :=
  let! msg := wrap_err "could not apply tx" (TransactionToMessage tx signer (hd_BaseFee header)) in
  let msg := message_share config header msg in
  let m := ResetZkGasErr (meter_ResetTransaction (SetTxContext (tx_Hash tx) i m)) in
  let '(r, gp, m) := ApplyTransactionWithEVM msg gp m (hd_Number header) blockHash
    (hd_Time header) tx in
  match r with
  | Err err =>
      if errors_Is err ErrZkGasLimitExceeded && (0 <? i)%nat
      then Ok (Truncated (ResetZkGasErr (meter_ResetTransaction m)) gp)
      else Err (Wrapf "could not apply tx" err)
  | Ok receipt =>
      let '(commitErr, m) := meter_CommitTransaction m in
      match commitErr with
      | Some _ => if (0 <? i)%nat then Ok (Truncated (meter_ResetTransaction m) gp)
                  else Ok (Executed receipt m gp)
      | None => Ok (Executed receipt m gp)
      end
  end.

(** The variables of the loop; [rs_body] holds the transactions so far, whose
    first one carries the anchor mark. *)
Record replayState := {
  rs_body : list Transaction;
  rs_receipts : list Receipt;
  rs_machine : Machine;
  rs_gp : GasPool;
}.

Fixpoint replay_loop (config : ChainConfig) (header : Header) (blockHash : Z) (signer : Signer)
  (i : nat) (txs : list Transaction) (st : replayState) : result replayState :=
  match txs with
  | [] => Ok st
  | tx :: rest =>
      let! tx := mark_anchor config i tx in
      let! outcome := replay_transaction config header blockHash signer i tx (rs_machine st)
        (rs_gp st) in
      match outcome with
      | Truncated m gp =>
          Ok {| rs_body := rs_body st; rs_receipts := rs_receipts st; rs_machine := m;
                rs_gp := gp |}
      | Executed receipt m gp =>
          replay_loop config header blockHash signer (S i) rest
            {| rs_body := rs_body st ++ [tx]; rs_receipts := rs_receipts st ++ [receipt];
               rs_machine := m; rs_gp := gp |}
      end
  end.

Definition with_transactions (block : Block) (txs : list Transaction) : Block := {|
  blk_Header := blk_Header block; blk_Transactions := txs;
  blk_Uncles := blk_Uncles block; blk_Withdrawals := blk_Withdrawals block |}.

(** On an error the machine is dropped. *)
Definition replayPostExecution (config : ChainConfig) (block : Block)
  (allLogs : list (option Log)) (m : Machine)
  : result (option (list (list byte)) * Machine) :=
  let header := blk_Header block in
  if negb (IsPrague config (hd_Number header) (hd_Time header)) then Ok (None, m)
  else
    let! requests := wrap_err "failed to parse deposit logs"
      (ParseDepositLogs [] allLogs config) in
    let '(r, m) := ProcessWithdrawalQueue requests m in
    let! requests := wrap_err "failed to process withdrawal queue" r in
    let '(r, m) := ProcessConsolidationQueue requests m in
    let! requests := wrap_err "failed to process consolidation queue" r in
    Ok (Some requests, m).

Definition processUnzenReplayBlock (chain : replayChainContext) (config : ChainConfig)
  (block : Block) (expectedDifficulty : option Z) (statedb : StateDB)
  : result (ProcessResult * StateDB) :=
  let header := blk_Header block in
  let gp := NewGasPool (hd_GasLimit header) in
  let signer := MakeSigner config (hd_Number header) (hd_Time header) in
  for_check (fun _ tx =>
    reject_if (tx_Type tx =? BlobTxType) (Errorf "blob transaction not allowed in Unzen block"))
    0 (blk_Transactions block) ;;!
  let m := begin_block chain config header statedb true in
  let! st := replay_loop config header (blk_Hash block) signer 0 (blk_Transactions block)
    {| rs_body := []; rs_receipts := []; rs_machine := m; rs_gp := gp |} in
  let allLogs := concat (rc_Logs <$> rs_receipts st) in
  let! post := replayPostExecution config block allLogs (rs_machine st) in
  let '(requests, m) := post in
  reject_if (negb (length (blk_Transactions block) =? length (rs_receipts st))%nat)
    (Errorf "Unzen block body extends past zk gas truncation point") ;;!
  reject_if (negb (bool_decide (expectedDifficulty = Some (meter_BlockZkGasUsed m))))
    (Errorf "zk gas difficulty mismatch") ;;!
  Ok ({| px_Receipts := rs_receipts st; px_Requests := requests; px_Logs := allLogs;
         px_GasUsed := gp_Used (rs_gp st) |},
      Finalize chain header (machine_StateDB m) (with_transactions block (rs_body st))).

Definition processReplayBlock (ctx : Context) (chain : replayChainContext)
  (config : ChainConfig) (block : Block) (expectedDifficulty : option Z) (statedb : StateDB)
  : result (ProcessResult * StateDB) :=
  if negb (IsUnzen config (hd_Time (blk_Header block)))
  then StateProcessor_Process chain ctx block statedb
  else processUnzenReplayBlock chain config block expectedDifficulty statedb.

(** [db.Error()]. *)
Definition state_error (db : StateDB) (msg : string) : result unit :=
  match StateDB_Error db with Some err => Err (Wrapf msg err) | None => Ok tt end.

(** [GethRunner.Execute]. *)
Definition Execute (ctx : Context) (config : ChainConfig) (block : Block) (witness : Witness)
  : result ReplayResult :=
  let! db := state_New witness (Witness_Root witness) in
  let '(executionBlock, expectedDifficulty) := replayExecutionBlock config block in
  let chain := newReplayChainContext config executionBlock witness in
  let! processed := processReplayBlock ctx chain config executionBlock expectedDifficulty db in
  let '(res, db) := processed in
  state_error db "witness state error during block replay" ;;!
  let '(valid, db) := ValidateState config executionBlock db res true in
  valid ;;!
  validateReplayRequestsHash (blk_Header executionBlock) (px_Requests res) ;;!
  let receiptRoot := DeriveSha_receipts (px_Receipts res) in
  let '(stateRoot, db) :=
    IntermediateRoot db (IsEIP158 config (hd_Number (blk_Header executionBlock))) in
  state_error db "witness state error after computing state root" ;;!
  Ok {| rr_StateRoot := stateRoot; rr_ReceiptRoot := receiptRoot;
        rr_Receipts := Some <$> px_Receipts res |}.
End Execute.

(* ------------------------------------------------------------------ *)
(** ** The [Anchored] event *)

Section Events.
Context `{Keccak}.

Definition anchoredEventTopic : Z :=
  Keccak256Hash (byte_of ∘ ascii_code <$> chars_of "Anchored(uint48,uint48,bytes32)").

Definition uint48FromEventWord (word : list byte) : result Z :=
  let value := be_Z word in
  reject_if (negb (big_IsUint64 value) || (big_Uint64 value >? maxUint48))
    (Errorf "value exceeds uint48") ;;!
  Ok (big_Uint64 value).

Definition is_anchored (anchorAddress : Z) (log : Log) : bool :=
  (lg_Address log =? anchorAddress) &&
  match lg_Topics log with [] => false | topic :: _ => topic =? anchoredEventTopic end.

(** The loop's body: the event found so far. *)
Definition anchored_step (anchorAddress : Z) (found : option (Z * Z)) (log : option Log)
  : result (option (Z * Z)) :=
  match log with
  | None => Ok found
  | Some log =>
      if negb (is_anchored anchorAddress log) then Ok found
      else
        reject_if (bool_decide (is_Some found)) (Errorf "multiple Anchored events from TaikoL2") ;;!
        reject_if (negb (length (lg_Topics log) =? 1)%nat)
          (Errorf "malformed Anchored event topics") ;;!
        reject_if (negb (zlen (lg_Data log) =? 96))
          (Errorf "malformed Anchored event data length") ;;!
        let! prevAnchor := wrap_err "decode prevAnchorBlockNumber"
          (uint48FromEventWord (zslice 0 32 (lg_Data log))) in
        let! anchor := wrap_err "decode anchorBlockNumber"
          (uint48FromEventWord (zslice 32 64 (lg_Data log))) in
        Ok (Some (prevAnchor, anchor))
  end.

Definition replayAnchoredEvent (chainID : Z) (logs : list (option Log)) : result (Z * Z) :=
  let! anchorAddress := shastaTaikoL2Address chainID in
  let! found := for_fold (fun _ => anchored_step anchorAddress) 0 None logs in
  some_or found (Errorf "missing Anchored event from TaikoL2").

(** The previous anchor and the anchor of a block's first receipt. *)
Definition replayAnchorTransition (chainID : Z) (receipts : list (option Receipt))
  : result (Z * Z) :=
  match receipts with
  | Some receipt :: _ =>
      validateSuccessfulAnchorReceipt (Some receipt) ;;!
      replayAnchoredEvent chainID (rc_Logs receipt)
  | _ => Err (Errorf "missing first transaction receipt")
  end.

Definition validateSubsequentReplayAnchorEvent (chainID expectedPreviousAnchor : Z)
  (receipts : list (option Receipt)) : result Z :=
  let! transition := replayAnchorTransition chainID receipts in
  let '(prevAnchor, anchor) := transition in
  reject_if (negb (prevAnchor =? expectedPreviousAnchor))
    (Errorf "anchor continuity mismatch") ;;!
  Ok anchor.
End Events.

(* ------------------------------------------------------------------ *)
(** ** What the checks establish *)

Section CheckFacts.
Context `{CoreTypes}.

(** [newer] is the block after [older]. *)
Definition child_of (newer older : Header) : Prop :=
  is_Some (hd_Number older) /\ number_u64 newer = add64 (number_u64 older) 1 /\
  hd_ParentHash newer = Header_Hash older.

Lemma ancestors_linked_ok rest : forall newer u,
  ancestors_linked newer rest = Ok u <-> chained child_of (newer :: rest).
Proof.
  induction rest as [|older rest IH]; intros newer []; cbn [ancestors_linked]; [by split|].
  rewrite !res_seq_ok, !reject_if_ok, !negb_false_iff, bool_decide_eq_true, !Z.eqb_eq, IH.
  change (chained child_of (newer :: older :: rest)) with
    (child_of newer older /\ chained child_of (older :: rest)).
  unfold child_of at 2. naive_solver.
Qed.

Lemma validateReplayWitness_ok block witness :
  validateReplayWitness block witness = Ok tt <->
  blk_NumberU64 block <> 0 /\ wt_Headers witness <> [] /\
  chained child_of (blk_Header block :: wt_Headers witness) /\
  Some (Witness_Root witness) = hd_Root <$> head (wt_Headers witness).
Proof.
  unfold validateReplayWitness. destruct (wt_Headers witness) as [|parent ancestors]; [naive_solver|].
  rewrite !res_seq_ok, !reject_if_ok, !negb_false_iff, bool_decide_eq_true, Z.eqb_neq, !Z.eqb_eq,
    ancestors_linked_ok.
  change (chained child_of (blk_Header block :: parent :: ancestors)) with
    (child_of (blk_Header block) parent /\ chained child_of (parent :: ancestors)).
  unfold child_of at 2, blk_NumberU64. cbn [head fmap option_fmap option_map].
  split; [intros (? & ? & ? & ? & ? & ?)|intros (? & _ & ((? & ? & ?) & ?) & [= ?])];
    split_conj; congruence || done.
Qed.

(** The headers of an accepted witness. *)
Lemma validateReplayWitness_spec_chain block witness :
  validateReplayWitness block witness = Ok tt ->
  chained child_of (wt_Headers witness) /\
  Forall (fun h => is_Some (hd_Number h)) (wt_Headers witness).
Proof.
  rewrite validateReplayWitness_ok. intros (_ & _ & Hc & _). split.
  - destruct (wt_Headers witness) as [|h l]; [done|]. by destruct Hc.
  - revert Hc. generalize (blk_Header block). induction (wt_Headers witness) as [|h l IH].
    { by constructor. }
    intros newer [(Hn & _) Hc]. constructor; [done|]. by apply (IH h).
Qed.

(** C34 (the witness is anchored to the block): a witness is accepted for a
    block exactly when the block is not the genesis, the witness's state root
    is its first header's, and the block's header followed by the witness's
    headers is one chain in which each header is the parent, by number and by
    hash, of the one before; there is at least one. *)
Theorem validateReplayWitness_spec block witness :
  validateReplayWitness block witness = Ok tt <->
  blk_NumberU64 block <> 0 /\ wt_Headers witness <> [] /\
  chained child_of (blk_Header block :: wt_Headers witness) /\
  Some (Witness_Root witness) = hd_Root <$> head (wt_Headers witness).
Proof. apply validateReplayWitness_ok. Qed.

(** Accepted bodies are the ones the header commits to. *)
Definition body_committed (block : Block) : Prop :=
  let header := blk_Header block in
  CalcUncleHash (blk_Uncles block) = hd_UncleHash header /\
  DeriveSha_txs (blk_Transactions block) = hd_TxHash header /\
  DeriveSha_withdrawals <$> blk_Withdrawals block = hd_WithdrawalsHash header.

Lemma validateReplayBlockBody_ok block u :
  validateReplayBlockBody block = Ok u <-> body_committed block.
Proof.
  destruct u. unfold validateReplayBlockBody, body_committed.
  rewrite !res_seq_ok, !reject_if_ok, !negb_false_iff, !Z.eqb_eq.
  destruct (hd_WithdrawalsHash (blk_Header block)) as [root|], (blk_Withdrawals block) as [ws|];
    cbn [fmap option_fmap option_map]; try rewrite reject_if_ok, negb_false_iff, Z.eqb_eq;
    naive_solver.
Qed.

(** The view of a block. *)
Definition view_of (block : Block) : BlockView := {|
  bv_Number := blk_NumberU64 block; bv_Hash := blk_Hash block;
  bv_ParentHash := hd_ParentHash (blk_Header block);
  bv_StateRoot := hd_Root (blk_Header block);
  bv_ReceiptsRoot := hd_ReceiptHash (blk_Header block) |}.

Lemma validateReplayBlockMatchesView_ok block view u :
  validateReplayBlockMatchesView block view = Ok u <-> view = view_of block.
Proof.
  destruct u. unfold validateReplayBlockMatchesView, view_of.
  rewrite !res_seq_ok, !reject_if_ok, !negb_false_iff, !Z.eqb_eq.
  destruct view; cbn. split; [intros (? & ? & ? & ? & ?); congruence|by intros [= -> -> -> -> ->]].
Qed.

(** Execution does not see the claimed roots. *)
Lemma stateless_ignores_roots block block' :
  clear_roots (blk_Header block) = clear_roots (blk_Header block') ->
  blk_Transactions block = blk_Transactions block' -> blk_Uncles block = blk_Uncles block' ->
  blk_Withdrawals block = blk_Withdrawals block' ->
  blockForStatelessExecution block = blockForStatelessExecution block'.
Proof. unfold blockForStatelessExecution, with_header. by intros -> -> -> ->. Qed.
End CheckFacts.

(* ------------------------------------------------------------------ *)
(** ** The ancestors execution can see *)

Section ChainFacts.
Context `{CoreTypes} `{ConfigTypes} `{!ChainParams}.

Abbreviation add_all := (fold_left (fun c h => addHeader c (Header_Hash h) h)).

(** A map filled by a loop: every entry comes from the loop or was there
    before, and every element of the loop has an entry. *)
Lemma add_all_hash hs : forall c k h,
  cc_headersByHash (add_all hs c) !! k = Some h ->
  (h ∈ hs /\ Header_Hash h = k) \/ cc_headersByHash c !! k = Some h.
Proof.
  induction hs as [|x hs IH]; intros c k h; cbn [fold_left]; [by right|].
  intros Hl. apply IH in Hl as [[Hin Hk]|Hl]; [left; split; [set_solver|done]|].
  cbn in Hl. apply lookup_insert_Some in Hl as [[<- <-]|[_ Hl]]; [left|by right].
  split; [set_solver|done].
Qed.

Lemma add_all_number hs : forall c n k,
  cc_hashesByNumber (add_all hs c) !! n = Some k ->
  (exists h, h ∈ hs /\ number_u64 h = n /\ Header_Hash h = k) \/
  cc_hashesByNumber c !! n = Some k.
Proof.
  induction hs as [|x hs IH]; intros c n k; cbn [fold_left]; [by right|].
  intros Hl. apply IH in Hl as [(h & Hin & ? & ?)|Hl].
  { left. exists h. split; [set_solver|done]. }
  cbn in Hl. apply lookup_insert_Some in Hl as [[<- <-]|[_ Hl]]; [left|by right].
  exists x. split; [set_solver|done].
Qed.

Lemma add_all_defined hs : forall c h,
  h ∈ hs \/ is_Some (cc_headersByHash c !! Header_Hash h) /\
            is_Some (cc_hashesByNumber c !! number_u64 h) ->
  is_Some (cc_headersByHash (add_all hs c) !! Header_Hash h) /\
  is_Some (cc_hashesByNumber (add_all hs c) !! number_u64 h).
Proof.
  induction hs as [|x hs IH]; intros c h Hh; cbn [fold_left].
  { destruct Hh as [Hh|Hh]; [set_solver|done]. }
  apply IH. rewrite elem_of_cons in Hh.
  destruct Hh as [[->|Hh]|[? ?]]; [right|by left|right];
    unfold addHeader; cbn [cc_headersByHash cc_hashesByNumber].
  - rewrite !lookup_insert_eq. by split; eexists.
  - split; by apply lookup_insert_is_Some'; right.
Qed.

(** Numbers fall by one along the chain. *)
Lemma child_chain_number hs : forall i a b,
  chained child_of hs -> hs !! 0%nat = Some a -> hs !! i = Some b ->
  (number_u64 b + Z.of_nat i) mod 2 ^ 64 = number_u64 a mod 2 ^ 64.
Proof.
  induction hs as [|x hs IH]; intros i a b Hc Ha Hb; [done|]. injection Ha as ->.
  destruct i as [|i]; [injection Hb as ->; by rewrite Z.add_0_r|].
  destruct hs as [|y hs]; [done|]. destruct Hc as [(_ & Hn & _) Hc].
  specialize (IH i y b Hc eq_refl Hb). rewrite Hn. unfold add64. rewrite Z.mod_mod by lia.
  rewrite Nat2Z.inj_succ. replace (number_u64 b + Z.succ (Z.of_nat i))
    with (number_u64 b + Z.of_nat i + 1) by lia.
  rewrite <- Z.add_mod_idemp_l, IH, Z.add_mod_idemp_l by lia. done.
Qed.

Lemma child_chain_distinct hs i j a b :
  chained child_of hs -> Z.of_nat (length hs) <= 2 ^ 64 ->
  hs !! i = Some a -> hs !! j = Some b -> number_u64 a = number_u64 b -> i = j.
Proof.
  intros Hc Hlen Ha Hb Hn. destruct (hs !! 0%nat) as [h0|] eqn:Hzero.
  2:{ destruct hs; [by rewrite lookup_nil in Ha|done]. }
  pose proof (child_chain_number hs i h0 a Hc Hzero Ha) as Hi.
  pose proof (child_chain_number hs j h0 b Hc Hzero Hb) as Hj. rewrite Hn in Hi.
  apply lookup_lt_Some in Ha, Hb.
  assert (Hmod : (Z.of_nat i - Z.of_nat j) mod 2 ^ 64 = 0).
  { replace (Z.of_nat i - Z.of_nat j) with
      ((number_u64 b + Z.of_nat i) - (number_u64 b + Z.of_nat j)) by lia.
    rewrite Zminus_mod, Hi, Hj, Z.sub_diag. by apply Z.mod_0_l. }
  apply Z.mod_divide in Hmod as [q Hq]; [|done].
  assert (q = 0) by nia. lia.
Qed.

(** (block hashes come from the witness): the chain context of a replayed
    block finds exactly the witness's headers, which form the chain of the
    block's ancestors: looked up by its own number or hash every header of the
    witness is found, and nothing else ever is.  The headers' hashes are
    distinct by the collision resistance of the hash on them; their numbers
    are distinct because they fall by one, even if they wrapped. *)
Theorem newReplayChainContext_spec config block witness number h
  (Hw : validateReplayWitness block witness = Ok tt)
  (Hlen : Z.of_nat (length (wt_Headers witness)) <= 2 ^ 64)
  (Hinj : forall a b, a ∈ wt_Headers witness -> b ∈ wt_Headers witness ->
     Header_Hash a = Header_Hash b -> a = b) :
  (GetHeaderByNumber (newReplayChainContext config block witness) number = Some h <->
   h ∈ wt_Headers witness /\ number_u64 h = number) /\
  (forall k, GetHeaderByHash (newReplayChainContext config block witness) k = Some h <->
   h ∈ wt_Headers witness /\ Header_Hash h = k).
Proof.
  apply validateReplayWitness_spec_chain in Hw.
  assert (Hhash : forall k, cc_headersByHash (newReplayChainContext config block witness) !! k =
      Some h <-> h ∈ wt_Headers witness /\ Header_Hash h = k).
  { intros k. unfold newReplayChainContext. split.
    - intros Hl. apply add_all_hash in Hl as [?|Hl]; [done|]; cbn in Hl; by rewrite lookup_empty in Hl.
    - intros [Hin <-].
      destruct (add_all_defined (wt_Headers witness) {| cc_config := config;
        cc_current := blk_Header block; cc_headersByHash := ∅; cc_hashesByNumber := ∅ |} h
        (or_introl Hin)) as [[h' Hh'] _].
      rewrite Hh'. f_equal. apply add_all_hash in Hh' as [[Hin' Hk]|Hl].
      { by apply Hinj. }
      cbn in Hl; by rewrite lookup_empty in Hl. }
  split; [|exact Hhash]. unfold GetHeaderByNumber, GetHeader.
  split.
  - destruct (_ !! number) as [k|] eqn:Ek; [|done].
    destruct (cc_headersByHash _ !! k) as [h'|] eqn:Eh; [|done].
    destruct (hd_Number h') as [n|] eqn:En; [|done].
    destruct (Z.eqb_spec (big_Uint64 n) number) as [<-|]; [|done]. intros [= <-].
    apply Hhash in Eh as [Hin _]. split; [done|]. unfold number_u64. by rewrite En.
  - intros [Hin Hn].
    destruct (add_all_defined (wt_Headers witness) {| cc_config := config;
      cc_current := blk_Header block; cc_headersByHash := ∅; cc_hashesByNumber := ∅ |} h
      (or_introl Hin)) as [_ [k Hk]].
    fold (newReplayChainContext config block witness) in Hk. rewrite Hn in Hk. rewrite Hk.
    apply add_all_number in Hk as [(h' & Hin' & Hn' & Hk)|Hl].
    2:{ cbn in Hl; by rewrite lookup_empty in Hl. }
    assert (h' = h) as ->.
    { apply list_elem_of_lookup in Hin as [i Hi]. apply list_elem_of_lookup in Hin' as [j Hj].
      assert (i = j) as ->.
      { apply (child_chain_distinct (wt_Headers witness) i j h h'); [by destruct Hw|done..|].
        congruence. }
      congruence. }
    assert (Hl : cc_headersByHash (newReplayChainContext config block witness) !! k = Some h)
      by (apply Hhash; done).
    rewrite Hl. destruct Hw as [_ Hnum]. rewrite Forall_forall in Hnum.
    destruct (Hnum _ Hin) as [n Hnn]. rewrite Hnn.
    unfold number_u64 in Hn. rewrite Hnn in Hn. cbn in Hn. by rewrite Hn, Z.eqb_refl.
Qed.
End ChainFacts.

(* ------------------------------------------------------------------ *)
(** ** What an execution establishes *)

Section ExecuteFacts.
Context `{Processor} `{!ChainParams}.

(** Every transaction of the list executes, in order, none truncated. *)
Inductive executes (config : ChainConfig) (header : Header) (blockHash : Z) (signer : Signer)
  : nat -> list Transaction -> Machine -> GasPool -> list Receipt -> Machine -> GasPool -> Prop :=
  | executes_nil i m gp : executes config header blockHash signer i [] m gp [] m gp
  | executes_cons i tx marked txs m gp receipt m1 gp1 receipts m2 gp2 :
      mark_anchor config i tx = Ok marked ->
      replay_transaction config header blockHash signer i marked m gp =
        Ok (Executed receipt m1 gp1) ->
      executes config header blockHash signer (S i) txs m1 gp1 receipts m2 gp2 ->
      executes config header blockHash signer i (tx :: txs) m gp (receipt :: receipts) m2 gp2.

(** A loop that commits as many receipts as there are transactions executed
    all of them: after a truncation it can only be short. *)
Lemma replay_loop_ok config header blockHash signer txs : forall i st st',
  replay_loop config header blockHash signer i txs st = Ok st' ->
  (length (rs_receipts st') <= length (rs_receipts st) + length txs)%nat /\
  (length (rs_receipts st') = (length (rs_receipts st) + length txs)%nat ->
   exists receipts body, rs_receipts st' = rs_receipts st ++ receipts /\
     rs_body st' = rs_body st ++ body /\ for_range (mark_anchor config) i txs = Ok body /\
     executes config header blockHash signer i txs (rs_machine st) (rs_gp st) receipts
       (rs_machine st') (rs_gp st')).
Proof.
  induction txs as [|tx txs IH]; intros i st st'; cbn [replay_loop].
  { intros [= <-]. split; [lia|]. intros _. exists [], []. rewrite !app_nil_r.
    split_conj; [done..|constructor]. }
  intros Hl. apply res_bind_ok in Hl as (marked & Hm & Hl).
  apply res_bind_ok in Hl as ([receipt m gp|m gp] & Ht & Hl).
  - apply IH in Hl as [Hle Hex]. cbn [rs_receipts rs_body rs_machine rs_gp length] in *.
    rewrite length_app in *. cbn [length] in *. split; [lia|]. intros Heq.
    destruct Hex as (receipts & body & Hr & Hb & Hmb & He); [lia|].
    exists (receipt :: receipts), (marked :: body).
    rewrite Hr, Hb, <- !app_assoc. cbn [for_range]. rewrite Hm. cbn [res_bind]. rewrite Hmb.
    split_conj; [done..|]. by econstructor.
  - injection Hl as <-. cbn [rs_receipts length]. split; lia.
Qed.

(** An executed transaction after the anchor was metered within its limit. *)
Lemma executed_metered config header blockHash signer i tx m gp receipt m' gp' :
  (0 < i)%nat -> replay_transaction config header blockHash signer i tx m gp =
    Ok (Executed receipt m' gp') ->
  exists before, meter_CommitTransaction before = (None, m').
Proof.
  intros Hi. unfold replay_transaction. intros Ht. apply res_bind_ok in Ht as (msg & _ & Ht).
  destruct (ApplyTransactionWithEVM _ _ _ _ _ _ _) as [[[r|e] gp1] m1].
  - destruct (meter_CommitTransaction m1) as [[e|] m2] eqn:Ec.
    + by replace (0 <? i)%nat with true in Ht by (symmetry; by apply Nat.ltb_lt).
    + injection Ht as _ <- _. by exists m1.
  - by destruct (_ && _).
Qed.

(** The machine of a replayed Unzen block before its first transaction. *)
Definition unzen_start (config : ChainConfig) (block : Block) (witness : Witness) (db : StateDB)
  : Machine :=
  begin_block (newReplayChainContext config block witness) config (blk_Header block) db true.

(** The requests are the ones the header commits to. *)
Definition requests_committed (h : Header) (requests : option (list (list byte))) : Prop :=
  match hd_RequestsHash h with
  | Some root => CalcRequestsHash (default [] requests) = root
  | None => requests = None
  end.

Lemma validateReplayRequestsHash_ok h requests u :
  validateReplayRequestsHash h requests = Ok u <-> requests_committed h requests.
Proof.
  unfold validateReplayRequestsHash, requests_committed.
  destruct (hd_RequestsHash h), u; [by rewrite reject_if_ok, negb_false_iff, Z.eqb_eq|].
  by destruct requests.
Qed.

Lemma state_error_ok db msg u : state_error db msg = Ok u <-> StateDB_Error db = None.
Proof. unfold state_error. destruct (StateDB_Error db), u; naive_solver. Qed.

(** C13 (an Unzen execution is complete): when [Execute] accepts an Unzen
    block, then from the witness state, with the header's difficulty cleared,
    no transaction is a blob transaction and all of them execute in order, none
    cut off by the zk gas limit; the zk gas used is the difficulty of the
    header; the requests are the ones the header commits to; the state
    database that these transactions and the engine leave behind has missed no
    node, the block validator accepts it with these receipts and requests, the
    state root returned is that of the accepted state, whose root was computed
    without missing a node either, and the receipt root returned is that of
    these receipts.  (The roots are compared with the header by [Prove].) *)
Theorem Execute_unzen_sound ctx config block witness r
  (Hunzen : IsUnzen config (hd_Time (blk_Header block)) = true)
  (Hok : Execute ctx config block witness = Ok r) :
  let block0 := with_header block (set_Difficulty (blk_Header block) (Some 0)) in
  let h := blk_Header block0 in
  exists db receipts body m gp requests m',
    state_New witness (Witness_Root witness) = Ok db /\
    Forall (fun tx => tx_Type tx <> BlobTxType) (blk_Transactions block) /\
    for_range (mark_anchor config) 0 (blk_Transactions block) = Ok body /\
    executes config h (blk_Hash block0) (MakeSigner config (hd_Number h) (hd_Time h)) 0
      (blk_Transactions block) (unzen_start config block0 witness db)
      (NewGasPool (hd_GasLimit h)) receipts m gp /\
    replayPostExecution config block0 (concat (rc_Logs <$> receipts)) m = Ok (requests, m') /\
    default 0 (hd_Difficulty (blk_Header block)) = meter_BlockZkGasUsed m' /\
    requests_committed (blk_Header block) requests /\
    (let db1 := Finalize (newReplayChainContext config block0 witness) h (machine_StateDB m')
       (with_transactions block0 body) in
     StateDB_Error db1 = None /\
     exists db2 db3,
       ValidateState config block0 db1
         {| px_Receipts := receipts; px_Requests := requests;
            px_Logs := concat (rc_Logs <$> receipts); px_GasUsed := gp_Used gp |} true =
         (Ok tt, db2) /\
       IntermediateRoot db2 (IsEIP158 config (hd_Number h)) = (rr_StateRoot r, db3) /\
       StateDB_Error db3 = None) /\
    rr_ReceiptRoot r = DeriveSha_receipts receipts /\ rr_Receipts r = Some <$> receipts.
Proof.
  cbv zeta. unfold Execute in Hok. apply res_bind_ok in Hok as (db & Hdb & Hok).
  unfold replayExecutionBlock in Hok. rewrite Hunzen in Hok. cbn [negb] in Hok.
  set (block0 := with_header block _) in *.
  apply res_bind_ok in Hok as ([res db1] & Hp & Hok). apply res_seq_ok in Hok as [Herr Hok].
  destruct (ValidateState _ _ _ _ _) as [valid db2] eqn:Hvs.
  apply res_bind_ok in Hok as ([] & -> & Hok).
  apply res_seq_ok in Hok as [Hreq Hok]. destruct (IntermediateRoot _ _) as [root db3] eqn:Hir.
  apply res_seq_ok in Hok as [Herr3 [= <-]]. cbn [rr_StateRoot rr_ReceiptRoot rr_Receipts].
  apply state_error_ok in Herr, Herr3. apply validateReplayRequestsHash_ok in Hreq.
  unfold processReplayBlock in Hp.
  assert (Htime : hd_Time (blk_Header block0) = hd_Time (blk_Header block)) by done.
  rewrite Htime, Hunzen in Hp. cbn [negb] in Hp. unfold processUnzenReplayBlock in Hp.
  apply res_seq_ok in Hp as [Hblob Hp]. apply res_bind_ok in Hp as (st & Hloop & Hp).
  apply res_bind_ok in Hp as ([requests m'] & Hpost & Hp). apply res_seq_ok in Hp as [Hlen Hp].
  apply res_seq_ok in Hp as [Hdiff [= <- <-]]. cbn [px_Receipts px_Requests] in *.
  apply reject_if_ok in Hlen, Hdiff. go_bool. injection Hdiff as Hdiff.
  apply replay_loop_ok in Hloop as [_ Hex].
  cbn [rs_receipts rs_body rs_machine rs_gp length Nat.add app] in Hex.
  destruct Hex as (receipts & body & Hr & Hb & Hmb & Hex); [done|]. rewrite Hr, Hb in *.
  apply (for_check_Forall (fun tx : Transaction => reject_if (tx_Type tx =? BlobTxType) _)) in Hblob.
  exists db, receipts, body, (rs_machine st), (rs_gp st), requests, m'.
  split_conj; try done; [|by exists db2, db3].
  eapply Forall_impl; [exact Hblob|]. cbn. intros tx Hx. go_ok. done.
Qed.
End ExecuteFacts.

(* ------------------------------------------------------------------ *)
(** ** What an event establishes *)

Section EventFacts.
Context `{Keccak}.

Lemma uint48FromEventWord_ok word v :
  uint48FromEventWord word = Ok v <-> be_Z word = v /\ is_uint 48 v.
Proof.
  unfold uint48FromEventWord, maxUint48, is_uint. pose proof (be_Z_range word) as [Hr _].
  rewrite res_seq_ok, reject_if_ok, orb_false_iff, negb_false_iff, Z.gtb_ltb, Z.ltb_ge.
  unfold big_IsUint64. rewrite andb_true_iff, Z.leb_le, Z.ltb_lt. split.
  - intros [[[_ Hlt] Hle] [= <-]]. rewrite big_Uint64_small in * by (unfold is_uint; lia).
    split; [done|]. lia.
  - intros [<- Hv]. rewrite !big_Uint64_small by (unfold is_uint; lia). split; [lia|done].
Qed.

Definition anchored_log (anchorAddress : Z) (log : option Log) : bool :=
  match log with Some log => is_anchored anchorAddress log | None => false end.

(** The event a log encodes. *)
Definition encodes_anchors (log : option Log) (prev anchor : Z) : Prop :=
  exists l, log = Some l /\ length (lg_Topics l) = 1%nat /\ zlen (lg_Data l) = 96 /\
    be_Z (zslice 0 32 (lg_Data l)) = prev /\ be_Z (zslice 32 64 (lg_Data l)) = anchor /\
    is_uint 48 prev /\ is_uint 48 anchor.

Lemma anchored_step_other addr found log :
  anchored_log addr log = false -> anchored_step addr found log = Ok found.
Proof. destruct log as [l|]; [|done]. cbn. by intros ->. Qed.

Lemma anchored_step_event addr found log r :
  anchored_log addr log = true ->
  anchored_step addr found log = Ok r <->
  found = None /\ exists p a, encodes_anchors log p a /\ r = Some (p, a).
Proof.
  destruct log as [l|]; [|done]. cbn [anchored_log anchored_step]. intros ->. cbn [negb].
  rewrite !res_seq_ok, !reject_if_ok, !negb_false_iff, bool_decide_eq_false, Nat.eqb_eq, Z.eqb_eq.
  rewrite res_bind_ok. unfold encodes_anchors. split.
  - intros (Hn & Ht & Hd & p & Hp & Hr). apply res_bind_ok in Hr as (a & Ha & [= <-]).
    apply wrap_err_ok, uint48FromEventWord_ok in Hp as [? ?].
    apply wrap_err_ok, uint48FromEventWord_ok in Ha as [? ?].
    split; [by destruct found; [destruct Hn; eexists|]|]. exists p, a. split; [|done].
    by exists l.
  - intros (-> & p & a & (l' & [= <-] & Ht & Hd & Hp & Ha & Hpr & Har) & ->).
    split_conj; [by intros [? ?]|done|done|]. exists p.
    rewrite wrap_err_ok, uint48FromEventWord_ok. split; [done|].
    apply res_bind_ok. exists a. rewrite wrap_err_ok, uint48FromEventWord_ok. done.
Qed.

Lemma anchored_fold_ok addr logs : forall i found r,
  for_fold (fun _ => anchored_step addr) i found logs = Ok r <->
  match found with
  | Some _ => List.filter (anchored_log addr) logs = [] /\ r = found
  | None => List.filter (anchored_log addr) logs = [] /\ r = None \/
      exists log p a, List.filter (anchored_log addr) logs = [log] /\ encodes_anchors log p a /\
        r = Some (p, a)
  end.
Proof.
  induction logs as [|log logs IH]; intros i found r; cbn [for_fold List.filter].
  { destruct found; naive_solver. }
  destruct (anchored_log addr log) eqn:El.
  - rewrite res_bind_ok. setoid_rewrite (anchored_step_event addr found log _ El).
    setoid_rewrite IH. destruct found as [pa|]; [naive_solver|]. split.
    + intros (s & (_ & p & a & He & ->) & Hf & ->). right. exists log, p, a. by rewrite Hf.
    + intros [[? _]|(log' & p & a & [= <- Hf] & He & ->)]; [done|].
      exists (Some (p, a)). split; [split; [done|by exists p, a]|done].
  - rewrite (anchored_step_other _ _ _ El). cbn [res_bind]. apply IH.
Qed.

(** C35 (the anchor of a block is its one [Anchored] event): a block's logs
    give the anchors [prev] and [anchor] exactly when one log, and only one,
    has the [Anchored] topic and comes from the network's TaikoL2 contract, and
    it has no other topic and 96 bytes of data whose first two words are
    these anchors, each within 48 bits. *)
Theorem replayAnchoredEvent_spec chainID logs prev anchor :
  replayAnchoredEvent chainID logs = Ok (prev, anchor) <->
  exists addr log, shastaTaikoL2Address chainID = Ok addr /\
    List.filter (anchored_log addr) logs = [log] /\ encodes_anchors log prev anchor.
Proof.
  unfold replayAnchoredEvent. rewrite res_bind_ok. split.
  - intros (addr & Ha & Hf). apply res_bind_ok in Hf as (found & Hf & Hs).
    apply some_or_ok in Hs as ->. apply anchored_fold_ok in Hf as [[_ ?]|(log & p & a & ? & ? & [= -> ->])];
      [done|]. by exists addr, log.
  - intros (addr & log & Ha & Hf & He). exists addr. split; [done|]. apply res_bind_ok.
    exists (Some (prev, anchor)). split; [|done]. apply anchored_fold_ok. right.
    by exists log, prev, anchor.
Qed.
End EventFacts.
