(* ===== verification/Validate.v ===== *)
(** * Validating a request

    [internal/prover/validate.go] with the requests of
    [internal/protocol/shasta_v1.go]: the pipeline of checks that turns a request
    into a [ValidatedRequest], the seal it carries, and the comparison of the
    sealed copies with the exported fields before anything is signed. *)

From S2P Require Import Abi.
From S2P Require Import Prelude Bytes GoStd Json External Types CoreTypes Samples Hash.
From S2P Require Import Proposal Forks Decode GuestInput Blobs Manifest AnchorLink Execution.
From S2P Require Import AnchorSig Binding Replay.

#[local] Open Scope string_scope.
#[local] Open Scope list_scope.
#[local] Open Scope Z_scope.

Definition ShastaRequestSchemaV1 : string := "raiko2-shasta-request-v1".

Record ShastaPayload := {
  sl_ChainID : Z;
  sl_Blocks : list ReplayBlock;
  sl_ProofCarryData : RawMessage;
  sl_GuestInput : option ShastaGuestInput;
}.

Record ShastaRequest := { rq_Schema : string; rq_Payload : ShastaPayload }.

Record RequestLogMetadata := {
  lm_Schema : string;
  lm_ChainID : Z;
  lm_BlockCount : nat;
}.

(** [*ValidationError]; the wrapped error and the metadata to log. *)
Record ValidationError := { ve_Err : error; ve_Metadata : RequestLogMetadata }.

(** The strings a raw block is compared by. *)
Record replayBlockBinding := {
  bi_Block : RawMessage;
  bi_ChainSpec : RawMessage;
  bi_Witness : RawMessage;
  bi_Accounts : RawMessage;
}.

#[export] Instance replayBlockBinding_eq_dec : EqDecision replayBlockBinding.
Proof. solve_decision. Defined.

(** The exported fields, which anyone can assign, and the private ones, which
    only this package does. *)
Record ValidatedRequest := {
  vr_Request : ShastaRequest;
  vr_Carry : CarryView;
  vr_Blocks : list BlockView;
  vr_LogMetadata : RequestLogMetadata;
  vr_validated : bool;
  vr_validatedCarry : CarryView;
  vr_validatedBlocks : list BlockView;
  vr_validatedRawBlocks : list replayBlockBinding;
  vr_validatedGuestInput : bool;
  vr_validatedTaiko : RawMessage;
}.

Definition requestLogMetadata (req : ShastaRequest) : RequestLogMetadata := {|
  lm_Schema := rq_Schema req; lm_ChainID := sl_ChainID (rq_Payload req);
  lm_BlockCount := length (sl_Blocks (rq_Payload req)) |}.

Definition requestLogMetadataFromView (req : ShastaRequest) (view : GuestInputView)
  : RequestLogMetadata :=
  let metadata := requestLogMetadata req in {|
  lm_Schema := lm_Schema metadata;
  lm_ChainID := if negb (gv_GuestInputChainID view =? 0) then gv_GuestInputChainID view
                else lm_ChainID metadata;
  lm_BlockCount := length (gv_Witnesses view) |}.

Definition replayBlockBindings (blocks : list ReplayBlock) : list replayBlockBinding :=
  (fun block => {| bi_Block := rb_Block block; bi_ChainSpec := rb_ChainSpec block;
    bi_Witness := rb_Witness block; bi_Accounts := rb_Accounts block |}) <$> blocks.

(* ------------------------------------------------------------------ *)
(** ** The seal *)

Definition payload_of (req : ValidatedRequest) : ShastaPayload := rq_Payload (vr_Request req).

Definition guest_taiko (req : ValidatedRequest) : RawMessage :=
  match sl_GuestInput (payload_of req) with Some input => gi_Taiko input | None => None end.

Definition has_guest_input (req : ValidatedRequest) : bool :=
  match sl_GuestInput (payload_of req) with Some _ => true | None => false end.

Definition sealValidatedRequest (req : ValidatedRequest) : ValidatedRequest := {|
  vr_Request := vr_Request req; vr_Carry := vr_Carry req; vr_Blocks := vr_Blocks req;
  vr_LogMetadata := vr_LogMetadata req;
  vr_validated := true;
  vr_validatedCarry := vr_Carry req;
  vr_validatedBlocks := vr_Blocks req;
  vr_validatedRawBlocks := replayBlockBindings (sl_Blocks (payload_of req));
  vr_validatedGuestInput := has_guest_input req;
  vr_validatedTaiko := if has_guest_input req then guest_taiko req else vr_validatedTaiko req |}.

(** The loops that compare two slices of the same length. *)
Definition all_equal {A} `{EqDecision A} (msg : string) (l m : list A) : result unit :=
  for_check (fun _ (p : A * A) => reject_if (negb (bool_decide (p.1 = p.2))) (Errorf msg)) 0
    (zip l m).

Definition validateRequestSigningBinding (req : option ValidatedRequest) : result unit :=
  match req with
  | None => Err (Errorf "request validation binding is missing")
  | Some req =>
      reject_if (negb (vr_validated req)) (Errorf "request validation binding is missing") ;;!
      reject_if (negb (bool_decide (vr_Carry req = vr_validatedCarry req)))
        (Errorf "request validation binding mismatch: proof carry changed after validation") ;;!
      reject_if (negb (length (vr_Blocks req) =? length (vr_validatedBlocks req))%nat)
        (Errorf "request validation binding mismatch: replay block count changed after validation") ;;!
      all_equal "request validation binding mismatch: replay block changed after validation"
        (vr_Blocks req) (vr_validatedBlocks req) ;;!
      let rawBlocks := replayBlockBindings (sl_Blocks (payload_of req)) in
      reject_if (negb (length rawBlocks =? length (vr_validatedRawBlocks req))%nat)
        (Errorf "request validation binding mismatch: raw replay block count changed after validation") ;;!
      all_equal "request validation binding mismatch: raw replay block changed after validation"
        rawBlocks (vr_validatedRawBlocks req) ;;!
      let hasGuestInput := has_guest_input req in
      reject_if (negb (Bool.eqb hasGuestInput (vr_validatedGuestInput req)))
        (Errorf "request validation binding mismatch: guest input presence changed after validation") ;;!
      reject_if (hasGuestInput && negb (bool_decide (guest_taiko req = vr_validatedTaiko req)))
        (Errorf "request validation binding mismatch: taiko guest input changed after validation")
  end.

(* ------------------------------------------------------------------ *)
(** ** The views of the blocks *)

(** [current] follows [prev]. *)
Definition view_step (prev current : BlockView) : result unit :=
  reject_if (negb (bv_Number current =? add64 (bv_Number prev) 1))
    (Errorf "block numbers must be contiguous") ;;!
  reject_if (negb (bv_ParentHash current =? bv_Hash prev))
    (Errorf "block parent hash mismatch").

(** The list starts at the loop's [prev]. *)
Fixpoint views_contiguous (blocks : list BlockView) : result unit :=
  match blocks with
  | prev :: ((current :: _) as rest) => view_step prev current ;;! views_contiguous rest
  | _ => Ok tt
  end.

(** The callers pass at least one block. *)
Definition validateBlockViews (blocks : list BlockView) (carry : CarryView) : result unit :=
  let input := cv_TransitionInput carry in
  views_contiguous blocks ;;!
  let! first := some_or (head blocks) (Errorf "index out of range") in
  reject_if (negb (bv_ParentHash first =? ti_ParentBlockHash input))
    (Errorf "first block parent hash mismatch") ;;!
  let! lst := some_or (last blocks) (Errorf "index out of range") in
  reject_if (negb (bv_Number lst =? cp_BlockNumber (ti_Checkpoint input)))
    (Errorf "checkpoint block number mismatch") ;;!
  reject_if (negb (bv_Hash lst =? cp_BlockHash (ti_Checkpoint input)))
    (Errorf "checkpoint block hash mismatch") ;;!
  reject_if (negb (bv_StateRoot lst =? cp_StateRoot (ti_Checkpoint input)))
    (Errorf "checkpoint state root mismatch").

(* ------------------------------------------------------------------ *)
(** ** The pipeline *)

(** [validationError(err, metadata)]. *)
Definition validationError {A} (m : result A) (metadata : RequestLogMetadata)
  : A + ValidationError :=
  match m with
  | Ok a => inl a
  | Err err => inr {| ve_Err := err; ve_Metadata := metadata |}
  end.

(** Stop at the first validation error. *)
Definition on_valid {A B E} (m : A + E) (k : A -> B + E) : B + E :=
  match m with inl a => k a | inr e => inr e end.

Section Validate.
Context `{HexUtil} `{ConfigTypes} `{!ChainParams} `{CoreTypes} `{StateTypes} `{!Evm} `{Secp}
  `{Keccak} `{Abi} `{Kzg} `{!Eip4396} `{!ManifestCodec}.

(** The normalised request, before it is sealed. *)
Definition normalized_request (req : ShastaRequest) (view : GuestInputView)
  (metadata : RequestLogMetadata) : ValidatedRequest := {|
  vr_Request := {|
    rq_Schema := rq_Schema req;
    rq_Payload := {|
      sl_ChainID := gv_GuestInputChainID view;
      sl_Blocks := wv_ReplayBlock <$> gv_Witnesses view;
      sl_ProofCarryData := gi_ProofCarryData (gv_Raw view);
      sl_GuestInput := sl_GuestInput (rq_Payload req) |} |};
  vr_Carry := gv_Carry view;
  vr_Blocks := gv_Blocks view;
  vr_LogMetadata := metadata;
  vr_validated := false;
  vr_validatedCarry := {| cv_ChainID := 0; cv_Verifier := 0; cv_TransitionInput := {|
    ti_ProposalID := 0; ti_ProposalHash := 0; ti_ParentProposalHash := 0;
    ti_ParentBlockHash := 0; ti_ActualProver := 0;
    ti_Transition := {| tv_Proposer := 0; tv_Timestamp := 0 |};
    ti_Checkpoint := {| cp_BlockNumber := 0; cp_BlockHash := 0; cp_StateRoot := 0 |} |} |};
  vr_validatedBlocks := []; vr_validatedRawBlocks := []; vr_validatedGuestInput := false;
  vr_validatedTaiko := None |}.

Definition validateGuestInputRequest (ctx : Context) (req : ShastaRequest)
  : ValidatedRequest + ValidationError :=
  let metadata := requestLogMetadata req in
  on_valid (validationError (some_or (sl_GuestInput (rq_Payload req))
    (Errorf "request must include guest_input")) metadata) (fun guestInput =>
  on_valid (validationError (DecodeGuestInput guestInput) metadata) (fun view =>
  let metadata := requestLogMetadataFromView req view in
  on_valid (validationError (ValidateGuestInputCarry (Some view)) metadata) (fun _ =>
  on_valid (validationError (ValidateGuestInputBlobSources (Some view)) metadata) (fun _ =>
  on_valid (validationError
    (ValidateGuestInputManifestBindingWithContext ctx (Some view)) metadata) (fun _ =>
  on_valid (validationError (validateBlockViews (gv_Blocks view) (gv_Carry view)) metadata)
    (fun _ => inl (sealValidatedRequest (normalized_request req view metadata)))))))).

Definition ValidateRequestWithContext (ctx : Context) (req : ShastaRequest)
  : ValidatedRequest + ValidationError :=
  if String.eqb (rq_Schema req) ShastaRequestSchemaV1 then validateGuestInputRequest ctx req
  else inr {| ve_Err := Errorf "unsupported schema"; ve_Metadata := requestLogMetadata req |}.

Definition ValidateRequest (req : ShastaRequest) : ValidatedRequest + ValidationError :=
  ValidateRequestWithContext Background req.
End Validate.

(* ------------------------------------------------------------------ *)
(** ** The seal holds what it should *)

Lemma all_equal_ok {A} `{EqDecision A} msg (l m : list A) u :
  length l = length m -> all_equal msg l m = Ok u <-> l = m.
Proof.
  unfold all_equal. rewrite (for_check_Forall (fun p : A * A => reject_if _ _)).
  revert m. induction l as [|a l IH]; intros [|b m] Hl; try done.
  cbn [zip zip_with]. rewrite Forall_cons, IH by by injection Hl.
  rewrite reject_if_ok, negb_false_iff, bool_decide_eq_true. naive_solver.
Qed.

Lemma replayBlockBindings_inj l m : replayBlockBindings l = replayBlockBindings m -> l = m.
Proof.
  apply (list_fmap_eq_inj _). intros [? ? ? ?] [? ? ? ?] [= -> -> -> ->]. done.
Qed.

(** A request with the private fields of [sealed]; the exported ones may have
    been assigned since. *)
Definition same_seal (sealed req : ValidatedRequest) : Prop :=
  vr_validated req = vr_validated sealed /\ vr_validatedCarry req = vr_validatedCarry sealed /\
  vr_validatedBlocks req = vr_validatedBlocks sealed /\
  vr_validatedRawBlocks req = vr_validatedRawBlocks sealed /\
  vr_validatedGuestInput req = vr_validatedGuestInput sealed /\
  vr_validatedTaiko req = vr_validatedTaiko sealed.

(** What the signature depends on. *)
Definition same_content (a b : ValidatedRequest) : Prop :=
  vr_Carry a = vr_Carry b /\ vr_Blocks a = vr_Blocks b /\
  sl_Blocks (payload_of a) = sl_Blocks (payload_of b) /\
  has_guest_input a = has_guest_input b /\ guest_taiko a = guest_taiko b.

Lemma signing_binding_ok req req' (Hseal : same_seal (sealValidatedRequest req) req') :
  validateRequestSigningBinding (Some req') = Ok tt <-> same_content req req'.
Proof.
  destruct Hseal as (Hv & Hc & Hb & Hr & Hg & Ht). unfold validateRequestSigningBinding, same_content.
  rewrite !res_seq_ok, !reject_if_ok, !negb_false_iff, Hv, Hc, Hb, Hr, Hg, Ht.
  cbn [sealValidatedRequest vr_validated vr_validatedCarry vr_validatedBlocks
    vr_validatedRawBlocks vr_validatedGuestInput vr_validatedTaiko].
  rewrite bool_decide_eq_true, !Nat.eqb_eq, eqb_true_iff.
  assert (Hgi : forall r, has_guest_input r = false -> guest_taiko r = None).
  { intros r. unfold has_guest_input, guest_taiko. by destruct (sl_GuestInput _). }
  split.
  - intros (_ & ? & Hl1 & He1 & Hl2 & He2 & Hp & Htk).
    rewrite all_equal_ok in He1 by done. rewrite all_equal_ok in He2 by done.
    apply replayBlockBindings_inj in He2. split_conj; try done.
    destruct (has_guest_input req') eqn:E; rewrite <- Hp in Htk; cbn [andb] in Htk.
    + apply negb_false_iff, bool_decide_eq_true in Htk. done.
    + by rewrite !Hgi.
  - intros (Hcar & Hblk & Hraw & Hp & Htk). rewrite <- Hblk, <- Hraw, <- Hp, <- Htk.
    split_conj; try done; try (by apply all_equal_ok).
    destruct (has_guest_input req); [|done]. by rewrite bool_decide_eq_true_2.
Qed.

(** C4 (the seal): a request that carries the seal of [req] passes the check
    before signing exactly when its carry, its block views, its raw blocks and
    its [taiko] input, present or absent, are still those that were sealed; so
    what is signed is what was validated. *)
Theorem validateRequestSigningBinding_spec req req'
  (Hseal : same_seal (sealValidatedRequest req) req') :
  validateRequestSigningBinding (Some req') = Ok tt <-> same_content req req'.
Proof. by apply signing_binding_ok. Qed.

(* ------------------------------------------------------------------ *)
(** ** What validation establishes *)

(** [next] is the block after [prev]. *)
Definition view_follows (prev next : BlockView) : Prop :=
  bv_Number next = add64 (bv_Number prev) 1 /\ bv_ParentHash next = bv_Hash prev.

(** The views are one chain from the committed parent to the checkpoint. *)
Definition views_bound (blocks : list BlockView) (carry : CarryView) : Prop :=
  chained view_follows blocks /\
  exists first lst, head blocks = Some first /\ last blocks = Some lst /\
    bv_ParentHash first = ti_ParentBlockHash (cv_TransitionInput carry) /\
    ti_Checkpoint (cv_TransitionInput carry) =
      {| cp_BlockNumber := bv_Number lst; cp_BlockHash := bv_Hash lst;
         cp_StateRoot := bv_StateRoot lst |}.

Lemma views_contiguous_ok blocks u :
  views_contiguous blocks = Ok u <-> chained view_follows blocks.
Proof.
  destruct u. induction blocks as [|a [|b l] IH]; [done|done|].
  change (views_contiguous (a :: b :: l)) with (view_step a b ;;! views_contiguous (b :: l)).
  change (chained view_follows (a :: b :: l)) with
    (view_follows a b /\ chained view_follows (b :: l)).
  rewrite res_seq_ok, IH. unfold view_step, view_follows.
  by rewrite res_seq_ok, !reject_if_ok, !negb_false_iff, !Z.eqb_eq.
Qed.

Lemma validateBlockViews_ok blocks carry :
  validateBlockViews blocks carry = Ok tt <-> views_bound blocks carry.
Proof.
  unfold validateBlockViews, views_bound. rewrite res_seq_ok, views_contiguous_ok.
  destruct (head blocks) as [first|] eqn:Eh; cbn [some_or res_bind].
  2:{ split; [by intros [_ ?]|]. by intros (_ & ? & ? & ? & _). }
  destruct (last blocks) as [lst|] eqn:El; cbn [some_or res_bind].
  2:{ rewrite res_seq_ok. split; [by intros (_ & _ & ?)|]. by intros (_ & ? & ? & _ & ? & _). }
  rewrite !res_seq_ok, !reject_if_ok, !negb_false_iff, !Z.eqb_eq. split.
  - intros (? & ? & ? & ? & ?). split; [done|]. exists first, lst. split_conj; try done.
    destruct (ti_Checkpoint (cv_TransitionInput carry)); cbn in *. congruence.
  - intros (? & f & l & [= <-] & [= <-] & ? & Hcp). rewrite Hcp. done.
Qed.

Lemma validationError_inl {A} (m : result A) metadata a :
  validationError m metadata = inl a <-> m = Ok a.
Proof. destruct m; naive_solver. Qed.

Lemma on_valid_inl {A B E} (m : A + E) (k : A -> B + E) b :
  on_valid m k = inl b <-> exists a, m = inl a /\ k a = inl b.
Proof. destruct m; naive_solver. Qed.

Section ValidateFacts.
Context `{HexUtil} `{ConfigTypes} `{!ChainParams} `{CoreTypes} `{StateTypes} `{!Evm} `{Secp}
  `{Keccak} `{Abi} `{Kzg} `{!Eip4396} `{!ManifestCodec}.

(** Every check the pipeline makes on a decoded input. *)
Record accepted_view (ctx : Context) (view : GuestInputView) : Prop := {
  av_carry : ValidateGuestInputCarry (Some view) = Ok tt;
  av_blobs : ValidateGuestInputBlobSources (Some view) = Ok tt;
  av_manifest : ValidateGuestInputManifestBindingWithContext ctx (Some view) = Ok tt;
  av_views : views_bound (gv_Blocks view) (gv_Carry view);
}.

Lemma ValidateRequest_ok ctx req v :
  ValidateRequestWithContext ctx req = inl v <->
  rq_Schema req = ShastaRequestSchemaV1 /\
  exists input view, sl_GuestInput (rq_Payload req) = Some input /\
    DecodeGuestInput input = Ok view /\ accepted_view ctx view /\
    v = sealValidatedRequest
      (normalized_request req view (requestLogMetadataFromView req view)).
Proof.
  unfold ValidateRequestWithContext.
  destruct (String.eqb_spec (rq_Schema req) ShastaRequestSchemaV1) as [Hs|Hs].
  2:{ split; [done|]. by intros [? _]. }
  unfold validateGuestInputRequest. rewrite on_valid_inl. split.
  - intros (input & Hi & Hv). split; [done|]. apply validationError_inl, some_or_ok in Hi.
    apply on_valid_inl in Hv as (view & Hd & Hv). apply validationError_inl in Hd.
    apply on_valid_inl in Hv as ([] & Hc & Hv). apply validationError_inl in Hc.
    apply on_valid_inl in Hv as ([] & Hb & Hv). apply validationError_inl in Hb.
    apply on_valid_inl in Hv as ([] & Hm & Hv). apply validationError_inl in Hm.
    apply on_valid_inl in Hv as ([] & Hbv & [= <-]).
    apply validationError_inl, validateBlockViews_ok in Hbv.
    exists input, view. split_conj; [done|done|by constructor|done].
  - intros (_ & input & view & Hi & Hd & [Hc Hb Hm Hv] & ->). exists input.
    rewrite Hi. split; [done|]. rewrite Hd. cbn [validationError on_valid].
    rewrite Hc, Hb, Hm. cbn [validationError on_valid]. apply validateBlockViews_ok in Hv.
    by rewrite Hv.
Qed.

(** A decoded input, as the blocks its witnesses hold. *)
Lemma decoded_blocks input view :
  DecodeGuestInput input = Ok view ->
  Forall2 (fun w v => decodeBlock (wv_ReplayBlock w) = Ok v) (gv_Witnesses view) (gv_Blocks view).
Proof.
  rewrite DecodeGuestInput_ok. intros (decoded & c & t & _ & Hd & _ & _ & ->). cbn.
  apply for_range_ok in Hd as [Hl Hf]. apply Forall2_fmap, Forall_Forall2_diag.
  apply Forall_lookup. intros i [w v] Hi. destruct (lookup_lt_is_Some_2 (gi_Witnesses input) i)
    as [raw Hraw]; [rewrite <- Hl; by eapply lookup_lt_Some|].
  specialize (Hf _ _ _ Hraw Hi). cbn in Hf. apply wrap_err_ok in Hf.
  unfold decodeGuestInputWitness in Hf. by go_inv.
Qed.

(** What a validated request holds: everything comes from its guest input, and
    [blocks] are the blocks its raw blocks decode to. *)
Record holds_input (input : ShastaGuestInput) (proposal : shastaProposalView)
  (blocks : list Block) (v : ValidatedRequest) : Prop := {
  hi_schema : rq_Schema (vr_Request v) = "raiko2-shasta-request-v1";
  hi_input : sl_GuestInput (payload_of v) = Some input;
  hi_carry : decodeCarryStrict (gi_ProofCarryData input) = Ok (vr_Carry v) /\
    sl_ProofCarryData (payload_of v) = gi_ProofCarryData input;
  hi_chain : sl_ChainID (payload_of v) = cv_ChainID (vr_Carry v) /\ cv_ChainID (vr_Carry v) <> 0;
  hi_computed : exists hash prover first lst,
    hashShastaProposal proposal = Ok hash /\
    decodeGuestInputActualProver (gi_Taiko input) = Ok prover /\
    head blocks = Some first /\ last blocks = Some lst /\
    vr_Carry v = carry_of (cv_ChainID (vr_Carry v)) (cv_Verifier (vr_Carry v)) proposal hash
      prover (view_of first) (view_of lst);
  hi_raw : Forall2 (fun raw block => exists witness, decodeReplayBlock raw = Ok (block, witness))
    (sl_Blocks (payload_of v)) blocks;
  hi_views : vr_Blocks v = view_of <$> blocks;
  hi_chained : views_bound (vr_Blocks v) (vr_Carry v);
  hi_metadata : vr_LogMetadata v = {|
    lm_Schema := "raiko2-shasta-request-v1"; lm_ChainID := cv_ChainID (vr_Carry v);
    lm_BlockCount := length blocks |};
}.

(** The blocks bound to the manifest are what the request holds. *)
Lemma bound_blocks_decoded ctx input view proposal parent lastAnchor blocks :
  DecodeGuestInput input = Ok view ->
  bound_proposal ctx view proposal parent lastAnchor blocks ->
  Forall2 (fun raw block => exists witness, decodeReplayBlock raw = Ok (block, witness))
    (wv_ReplayBlock <$> gv_Witnesses view) blocks /\
  gv_Blocks view = view_of <$> blocks.
Proof.
  intros Hdec Hb.
  destruct (bp_derived _ _ _ _ _ _ Hb) as (c & fork & mx & g & ms & cps & _ & _ & _ & Hlen & Hch & _).
  apply bound_chain_blocks in Hch as [Hl Hblocks]. rewrite Hlen in Hl.
  pose proof (decoded_blocks _ _ Hdec) as Hviews. pose proof (Forall2_length _ _ _ Hviews) as Hvl.
  split.
  - apply Forall2_fmap_l, Forall2_same_length_lookup_2; [done|]. intros i w b Hw Hbi.
    destruct (Hblocks _ _ Hbi) as (w' & wit & Hw' & Hd). cbn in Hw'. simplify_eq. by exists wit.
  - apply list_eq_same_length with (length blocks); [by rewrite length_fmap|lia|].
    intros i v v' _ Hv Hv'. apply list_lookup_fmap_Some in Hv' as (b & -> & Hbi).
    destruct (Hblocks _ _ Hbi) as (w & wit & Hw & Hd). cbn in Hw.
    pose proof (Forall2_lookup_lr _ _ _ _ _ _ Hviews Hw Hv) as Hdv. cbn in Hdv.
    by eapply decodeReplayBlock_view.
Qed.

Lemma validated_holds ctx req v (Hshasta : IsShasta_from_time) :
  ValidateRequestWithContext ctx req = inl v ->
  exists input view proposal parent lastAnchor blocks,
    sl_GuestInput (rq_Payload req) = Some input /\ DecodeGuestInput input = Ok view /\
    bound_proposal ctx view proposal parent lastAnchor blocks /\
    Forall2 source_bound (gv_DataSourcesRaw view) (sp_Sources proposal) /\
    holds_input input proposal blocks v.
Proof.
  intros Hok. apply ValidateRequest_ok in Hok as
    (Hs & input & view & Hi & Hd & [Hc Hb Hm Hv] & ->).
  destruct (ValidateGuestInputManifestBinding_bound ctx view Hshasta Hm)
    as (proposal & parent & lastAnchor & blocks & Hbp).
  exists input, view, proposal, parent, lastAnchor, blocks.
  apply ValidateGuestInputBlobSources_ok in Hb as (p & Hp & Hsrc).
  rewrite (bp_proposal _ _ _ _ _ _ Hbp) in Hp. injection Hp as <-.
  destruct (bound_blocks_decoded _ _ _ _ _ _ _ Hd Hbp) as [Hraw Hviews].
  destruct (DecodeGuestInput_witnesses _ _ Hd) as (_ & Hlen & Htaiko & Hrawi).
  apply ValidateGuestInputCarry_ok in Hc as (_ & Hnz & q & hash & prover & first & lst &
    Hq & Hh & Hpr & Hf & Hl & _ & _ & Hcarry).
  rewrite (bp_proposal _ _ _ _ _ _ Hbp) in Hq. injection Hq as <-.
  assert (Hcid : cv_ChainID (gv_Carry view) = gv_GuestInputChainID view) by by rewrite Hcarry.
  split_conj; [done..|]. constructor; cbn [sealValidatedRequest normalized_request payload_of
    vr_Request vr_Carry vr_Blocks vr_LogMetadata rq_Schema rq_Payload sl_ChainID sl_Blocks
    sl_ProofCarryData sl_GuestInput]; try done.
  - split; [|by rewrite Hrawi]. by apply DecodeGuestInput_ok in Hd as (? & ? & ? & _ & _ & ? & _ & ->).
  - by rewrite Hcid.
  - assert (Hhd : head (view_of <$> blocks) = view_of <$> head blocks) by by destruct blocks.
    rewrite Hviews, Hhd in Hf. rewrite Hviews, fmap_last in Hl.
    destruct (head blocks) as [b|] eqn:Eb; [|done]. destruct (last blocks) as [b'|] eqn:Eb'; [|done].
    injection Hf as <-. injection Hl as <-. rewrite Htaiko in Hpr.
    exists hash, prover, b, b'. split_conj; [done..|]. by rewrite Hcid.
  - unfold requestLogMetadataFromView, requestLogMetadata. cbn [lm_Schema lm_ChainID].
    apply Z.eqb_neq in Hnz. rewrite Hnz, Hcid. cbn [negb]. f_equal; [done|].
    by rewrite <- Hlen, Hviews, length_fmap.
Qed.

(** C3 (what validation hands on): a validated request holds a v1 guest input
    whose blocks are the derivation of its proposal and whose blobs are the
    proposal's; its carry is the one decoded from the guest input and the one
    computed from the proposal and its first and last block; its chain id, raw
    blocks, block views and log metadata are those of that carry and those
    blocks, one chain from the committed parent to the checkpoint; and it
    carries a seal that signing accepts.  The chain id, the blocks and the
    carry written in the request beside the guest input have no influence: any
    request with the same schema and guest input validates to the same. *)
Theorem ValidateRequestWithContext_spec ctx req v (Hshasta : IsShasta_from_time)
  (Hok : ValidateRequestWithContext ctx req = inl v) :
  (exists input view proposal parent lastAnchor blocks,
    sl_GuestInput (rq_Payload req) = Some input /\ DecodeGuestInput input = Ok view /\
    bound_proposal ctx view proposal parent lastAnchor blocks /\
    Forall2 source_bound (gv_DataSourcesRaw view) (sp_Sources proposal) /\
    holds_input input proposal blocks v) /\
  (forall v', same_seal v v' ->
     validateRequestSigningBinding (Some v') = Ok tt <-> same_content v v') /\
  (forall req', rq_Schema req' = rq_Schema req ->
     sl_GuestInput (rq_Payload req') = sl_GuestInput (rq_Payload req) ->
     ValidateRequestWithContext ctx req' = inl v).
Proof.
  split_conj; [by apply validated_holds| |].
  - apply ValidateRequest_ok in Hok as (_ & input & view & _ & _ & _ & ->).
    intros v' Hseal. by apply (signing_binding_ok (normalized_request req view
      (requestLogMetadataFromView req view))).
  - intros req' Hschema Hinput. pose proof Hok as Hok'.
    apply ValidateRequest_ok in Hok as (Hs & input & view & Hi & Hd & Hacc & ->).
    apply ValidateRequest_ok. split; [congruence|]. exists input, view.
    split_conj; [congruence|done|done|].
    destruct (proj1 (ValidateGuestInputCarry_ok view) (av_carry _ _ Hacc)) as (_ & Hnz & _).
    apply Z.eqb_neq in Hnz. unfold normalized_request, requestLogMetadataFromView.
    cbn [requestLogMetadata lm_Schema lm_ChainID]. by rewrite Hnz, Hschema, Hinput.
Qed.
End ValidateFacts.
