(* ===== verification/Prove.v ===== *)
(** * Proving a proposal

    [ReplayService] of [internal/prover/replay.go]: [Prove] replays every block
    of a validated request through a [Runner], compares the roots it computed
    with the headers', follows the anchors from block to block, and signs the
    hash of the proof carry data. *)

From S2P Require Import Abi.
From S2P Require Import Prelude Bytes GoStd Json External Types CoreTypes Samples Hash.
From S2P Require Import Proposal Forks Decode GuestInput Blobs Manifest AnchorLink Execution.
From S2P Require Import AnchorSig Binding Signer Replay Validate.

#[local] Open Scope string_scope.
#[local] Open Scope list_scope.
#[local] Open Scope Z_scope.

(** The interface [Runner]. *)
Definition Runner `{CoreTypes} `{ConfigTypes} : Type :=
  Context -> ChainConfig -> Block -> Witness -> result ReplayResult.

Record ReplayService `{CoreTypes} `{ConfigTypes} := {
  svc_runner : Runner;
  svc_signer : ProofSigner;
  svc_aggregateEnabled : bool;
}.

Section Service.
Context `{Processor} `{!ChainParams} `{Ecdsa}.

(** A nil runner or signer stands for the default one. *)
Definition newReplayService (runner : option Runner) (signer : option ProofSigner)
  (aggregateEnabled : bool) : ReplayService := {|
  svc_runner := default Execute runner;
  svc_signer := default (native_signer (NewNativeProofSigner shastaNativeMockInstance)) signer;
  svc_aggregateEnabled := aggregateEnabled |}.

Definition NewReplayService (runner : option Runner) : ReplayService :=
  newReplayService runner
    (Some (native_signer (NewNativeProofSigner shastaNativeMockInstance))) true.
End Service.

Section Prove.
Context `{HexUtil} `{CoreTypes} `{ConfigTypes} `{!ChainParams} `{Keccak} `{AddressText}.

Definition validateFirstReplayAnchorEvent (req : ValidatedRequest)
  (receipts : list (option Receipt)) : result Z :=
  match sl_GuestInput (payload_of req) with
  | None => Ok 0
  | Some input =>
      let! decoded := decodeGuestInputLastAnchorBlockNumber (gi_Taiko input) in
      let! lastAnchor := some_or decoded
        (Errorf "missing taiko.prover_data.last_anchor_block_number") in
      let! transition := replayAnchorTransition (cv_ChainID (vr_Carry req)) receipts in
      let '(prevAnchor, anchor) := transition in
      reject_if (negb (prevAnchor =? lastAnchor))
        (Errorf "prover_data.last_anchor_block_number mismatch") ;;!
      Ok anchor
  end.

(** [if req.validatedGuestInput { ... }]: the first block's event against the
    input, every other block's against the one before. *)
Definition replay_anchor (req : ValidatedRequest) (index : nat) (previousAnchor : Z)
  (receipts : list (option Receipt)) : result Z :=
  if negb (vr_validatedGuestInput req) then Ok previousAnchor
  else wrap_err "replay block anchor event"
    (if (index =? 0)%nat then validateFirstReplayAnchorEvent req receipts
     else validateSubsequentReplayAnchorEvent (cv_ChainID (vr_Carry req)) previousAnchor
            receipts).

(** The body of the loop over the raw blocks; the views have the same
    length. *)
Definition prove_block (s : ReplayService) (ctx : Context) (config : ChainConfig)
  (req : ValidatedRequest) (index : nat) (previousAnchor : Z) (replay : ReplayBlock)
  : result Z :=
  let! decoded := wrap_err "decode replay block" (decodeReplayBlock replay) in
  let '(block, witness) := decoded in
  let! view := some_or (vr_Blocks req !! index) (Errorf "index out of range") in
  validateReplayBlockMatchesView block view ;;!
  wrap_err "validate replay block" (validateReplayWitness block witness) ;;!
  wrap_err "validate replay block body" (validateReplayBlockBody block) ;;!
  let! result := wrap_err "replay block"
    (svc_runner s ctx config (blockForStatelessExecution block) witness) in
  reject_if (negb (rr_StateRoot result =? hd_Root (blk_Header block)))
    (Errorf "block state root mismatch") ;;!
  reject_if (negb (rr_ReceiptRoot result =? hd_ReceiptHash (blk_Header block)))
    (Errorf "block receipt root mismatch") ;;!
  replay_anchor req index previousAnchor (rr_Receipts result).

Definition Prove (s : ReplayService) (ctx : Context) (req : option ValidatedRequest)
  : result ProofResult :=
  match req with
  | None => Err (Errorf "validated request is nil")
  | Some r =>
      validateRequestSigningBinding req ;;!
      let rawBlocks := sl_Blocks (payload_of r) in
      reject_if ((length (vr_Blocks r) =? 0)%nat || (length rawBlocks =? 0)%nat)
        (Errorf "validated request must include at least one replay block") ;;!
      reject_if (negb (length (vr_Blocks r) =? length rawBlocks)%nat)
        (Errorf "validated replay block count mismatch") ;;!
      let! config := chainConfigFor (cv_ChainID (vr_Carry r)) in
      let! _ := for_fold (prove_block s ctx config r) 0 0 rawBlocks in
      wrap_err "validated carry block binding" (validateBlockViews (vr_Blocks r) (vr_Carry r)) ;;!
      let inputHash := hashShastaSubproofCarry (vr_Carry r) in
      buildProofResult inputHash (svc_signer s)
  end.
End Prove.

(* ------------------------------------------------------------------ *)
(** ** What a proof says *)

Section ProveFacts.
Context `{HexUtil} `{CoreTypes} `{ConfigTypes} `{!ChainParams} `{Keccak} `{AddressText}.

(** A raw block replayed to the roots of its header. *)
Record replayed (s : ReplayService) (ctx : Context) (config : ChainConfig)
  (raw : ReplayBlock) (view : BlockView) (block : Block) (receipts : list (option Receipt))
  : Prop := {
  rp_block : exists witness, decodeReplayBlock raw = Ok (block, witness) /\
    validateReplayWitness block witness = Ok tt /\
    svc_runner s ctx config (blockForStatelessExecution block) witness =
      Ok {| rr_StateRoot := hd_Root (blk_Header block);
            rr_ReceiptRoot := hd_ReceiptHash (blk_Header block);
            rr_Receipts := receipts |};
  rp_view : view = view_of block;
  rp_body : body_committed block;
}.

Lemma prove_block_ok s ctx config req index previousAnchor raw anchor :
  prove_block s ctx config req index previousAnchor raw = Ok anchor ->
  exists view block receipts, vr_Blocks req !! index = Some view /\
    replayed s ctx config raw view block receipts /\
    replay_anchor req index previousAnchor receipts = Ok anchor.
Proof.
  unfold prove_block. intros Hp. apply res_bind_ok in Hp as ([block witness] & Hd & Hp).
  apply wrap_err_ok in Hd. apply res_bind_ok in Hp as (view & Hv & Hp). apply some_or_ok in Hv.
  apply res_seq_ok in Hp as [Hm Hp]. apply validateReplayBlockMatchesView_ok in Hm.
  apply res_seq_ok in Hp as [Hw Hp]. apply wrap_err_ok in Hw.
  apply res_seq_ok in Hp as [Hb Hp]. apply wrap_err_ok, validateReplayBlockBody_ok in Hb.
  apply res_bind_ok in Hp as ([sr rr receipts] & Hr & Hp). apply wrap_err_ok in Hr.
  cbn [rr_StateRoot rr_ReceiptRoot rr_Receipts] in Hp.
  apply res_seq_ok in Hp as [Hs Hp]. apply res_seq_ok in Hp as [Hrr Hp].
  apply reject_if_ok in Hs, Hrr. go_bool. subst sr rr.
  exists view, block, receipts. split_conj; [done| |done]. constructor; [|done|done].
  by exists witness.
Qed.

(** The anchors of consecutive blocks: each block's previous anchor is the
    anchor of the block before. *)
Fixpoint anchors_follow (chainID previous : Z) (blocks : list (list (option Receipt))) : Prop :=
  match blocks with
  | [] => True
  | receipts :: rest => exists anchor,
      replayAnchorTransition chainID receipts = Ok (previous, anchor) /\
      anchors_follow chainID anchor rest
  end.

Lemma subsequent_ok chainID previous receipts anchor :
  validateSubsequentReplayAnchorEvent chainID previous receipts = Ok anchor ->
  replayAnchorTransition chainID receipts = Ok (previous, anchor).
Proof.
  unfold validateSubsequentReplayAnchorEvent. intros Hs.
  apply res_bind_ok in Hs as ([p a] & Ht & Hs). go_ok. subst. done.
Qed.

Lemma replay_anchor_next req index previous receipts anchor :
  vr_validatedGuestInput req = true -> (0 < index)%nat ->
  replay_anchor req index previous receipts = Ok anchor ->
  replayAnchorTransition (cv_ChainID (vr_Carry req)) receipts = Ok (previous, anchor).
Proof.
  unfold replay_anchor. intros -> Hi Ha. cbn [negb] in Ha. apply wrap_err_ok in Ha.
  destruct (Nat.eqb_spec index 0); [lia|]. by apply subsequent_ok.
Qed.

Lemma replay_anchor_first req input previous receipts anchor :
  vr_validatedGuestInput req = true -> sl_GuestInput (payload_of req) = Some input ->
  replay_anchor req 0 previous receipts = Ok anchor ->
  exists lastAnchor, decodeGuestInputLastAnchorBlockNumber (gi_Taiko input) = Ok (Some lastAnchor) /\
    replayAnchorTransition (cv_ChainID (vr_Carry req)) receipts = Ok (lastAnchor, anchor).
Proof.
  unfold replay_anchor, validateFirstReplayAnchorEvent. intros -> -> Ha. cbn [negb Nat.eqb] in Ha.
  apply wrap_err_ok in Ha. apply res_bind_ok in Ha as (decoded & Hd & Ha).
  apply res_bind_ok in Ha as (lastAnchor & Hl & Ha). apply some_or_ok in Hl as ->.
  apply res_bind_ok in Ha as ([p a] & Ht & Ha). go_ok. subst. by exists lastAnchor.
Qed.

(** The blocks of a loop, from index [index] on. *)
Lemma prove_fold_ok s ctx config req raws : forall index previous anchor,
  for_fold (prove_block s ctx config req) index previous raws = Ok anchor ->
  exists blocks,
    Forall2 (fun raw (vbr : BlockView * Block * list (option Receipt)) =>
      replayed s ctx config raw vbr.1.1 vbr.1.2 vbr.2) raws blocks /\
    (forall i vbr, blocks !! i = Some vbr -> vr_Blocks req !! (index + i)%nat = Some vbr.1.1) /\
    (vr_validatedGuestInput req = true -> (0 < index)%nat ->
     anchors_follow (cv_ChainID (vr_Carry req)) previous (snd <$> blocks)) /\
    (forall input, vr_validatedGuestInput req = true -> index = 0%nat -> raws <> [] ->
     sl_GuestInput (payload_of req) = Some input ->
     exists lastAnchor,
       decodeGuestInputLastAnchorBlockNumber (gi_Taiko input) = Ok (Some lastAnchor) /\
       anchors_follow (cv_ChainID (vr_Carry req)) lastAnchor (snd <$> blocks)).
Proof.
  induction raws as [|raw raws IH]; intros index previous anchor; cbn [for_fold].
  { intros _. exists []. split_conj; try done. }
  intros Hf. apply res_bind_ok in Hf as (a & Hp & Hf).
  apply prove_block_ok in Hp as (view & block & receipts & Hv & Hr & Ha).
  apply IH in Hf as (blocks & Hall & Hviews & Hanch & _).
  exists ((view, block, receipts) :: blocks). split_conj.
  - by constructor.
  - intros [|i] vbr; cbn.
    + intros [= <-]. by rewrite Nat.add_0_r.
    + intros Hi. apply Hviews in Hi. by rewrite <- Hi, Nat.add_succ_r, Nat.add_1_r.
  - intros Hg Hi. exists a. split; [|apply Hanch; [done|lia]]. by eapply replay_anchor_next.
  - intros input Hg -> _ Hin. eapply replay_anchor_first in Ha as (lastAnchor & Hd & Ht); [|done..].
    exists lastAnchor. split; [done|]. exists a. split; [done|]. apply Hanch; [done|lia].
Qed.

(** The blocks a request was proved by, with their receipts. *)
Record proved (s : ReplayService) (ctx : Context) (config : ChainConfig)
  (r : ValidatedRequest) (blocks : list (Block * list (option Receipt))) : Prop := {
  pv_replayed : Forall2 (fun raw (br : Block * list (option Receipt)) =>
    replayed s ctx config raw (view_of br.1) br.1 br.2) (sl_Blocks (payload_of r)) blocks;
  pv_views : vr_Blocks r = (view_of ∘ fst) <$> blocks;
  pv_bound : views_bound (vr_Blocks r) (vr_Carry r);
  pv_anchors : forall input, vr_validatedGuestInput r = true ->
    sl_GuestInput (payload_of r) = Some input ->
    exists lastAnchor,
      decodeGuestInputLastAnchorBlockNumber (gi_Taiko input) = Ok (Some lastAnchor) /\
      anchors_follow (cv_ChainID (vr_Carry r)) lastAnchor (snd <$> blocks);
}.

Lemma Prove_ok s ctx r result :
  Prove s ctx (Some r) = Ok result ->
  validateRequestSigningBinding (Some r) = Ok tt /\
  exists config blocks output, chainConfigFor (cv_ChainID (vr_Carry r)) = Ok config /\
    proved s ctx config r blocks /\
    SignHash (svc_signer s) (hashShastaSubproofCarry (vr_Carry r)) = Ok output /\
    result = proofResultFromSignerOutput (hashShastaSubproofCarry (vr_Carry r)) output.
Proof.
  unfold Prove. intros Hp. apply res_seq_ok in Hp as [Hbind Hp]. split; [done|].
  apply res_seq_ok in Hp as [Hne Hp]. apply res_seq_ok in Hp as [Hlen Hp].
  apply res_bind_ok in Hp as (config & Hc & Hp). apply res_bind_ok in Hp as (anchor & Hf & Hp).
  apply res_seq_ok in Hp as [Hv Hp]. apply wrap_err_ok, validateBlockViews_ok in Hv.
  unfold buildProofResult in Hp. apply res_bind_ok in Hp as (output & Hs & [= <-]).
  apply reject_if_ok in Hne, Hlen. apply orb_false_iff in Hne as [_ Hne].
  apply negb_false_iff, Nat.eqb_eq in Hlen. apply Nat.eqb_neq in Hne.
  apply prove_fold_ok in Hf as (blocks & Hall & Hviews & _ & Hanch).
  pose proof (Forall2_length _ _ _ Hall) as Hl.
  assert (Heq : Forall2 (fun raw (vbr : BlockView * Block * list (option Receipt)) =>
      vbr.1.1 = view_of vbr.1.2) (sl_Blocks (payload_of r)) blocks).
  { eapply Forall2_impl; [exact Hall|]. by intros raw vbr []. }
  exists config, ((fun vbr => (vbr.1.2, vbr.2)) <$> blocks), output. split_conj; try done.
  constructor; [| |done|].
  - apply Forall2_fmap_r. eapply Forall2_impl; [exact Hall|]. intros raw vbr Hr. cbn.
    by rewrite <- (rp_view _ _ _ _ _ _ _ Hr).
  - rewrite <- list_fmap_compose. apply list_eq_same_length with (length blocks); [|lia|].
    { by rewrite length_fmap. }
    intros i view view' Hi Hvi Hvi'. apply list_lookup_fmap_Some in Hvi' as (vbr & -> & Hb).
    pose proof (Hviews _ _ Hb) as Hview. cbn [Nat.add] in Hview. rewrite Hvi in Hview.
    injection Hview as ->. cbn.
    destruct (Forall2_lookup_r _ _ _ _ _ Heq Hb) as (raw & _ & Hq). exact Hq.
  - intros input Hg Hin. destruct (Hanch input Hg eq_refl) as (lastAnchor & Hd & Ha); [|done|].
    { intros Hn. by rewrite Hn in Hne. }
    exists lastAnchor. split; [done|]. by rewrite <- list_fmap_compose.
Qed.
End ProveFacts.

Section ProveSound.
Context `{HexUtil} `{CoreTypes} `{ConfigTypes} `{!ChainParams} `{Keccak} `{AddressText}.

(** C5 (nothing is signed without a replay): a proof is returned only for a
    request whose seal still matches, whose blocks, each one witnessed by its
    chain of ancestors and committed to by its header, were executed by the
    runner without their claimed roots and gave back exactly these roots, whose
    views are one chain from the committed parent to the checkpoint, and whose
    anchors follow from block to block; the signed hash, and the input of the
    result, is that of the carry. *)
Theorem Prove_sound s ctx r result (Hok : Prove s ctx (Some r) = Ok result) :
  validateRequestSigningBinding (Some r) = Ok tt /\
  exists config blocks output, chainConfigFor (cv_ChainID (vr_Carry r)) = Ok config /\
    proved s ctx config r blocks /\
    SignHash (svc_signer s) (hashShastaSubproofCarry (vr_Carry r)) = Ok output /\
    result = proofResultFromSignerOutput (hashShastaSubproofCarry (vr_Carry r)) output.
Proof. by apply Prove_ok. Qed.
End ProveSound.

(* ------------------------------------------------------------------ *)
(** ** From request to signature *)

Section EndToEnd.
Context `{HexUtil} `{ConfigTypes} `{!ChainParams} `{CoreTypes} `{StateTypes} `{!Evm} `{Secp}
  `{Keccak} `{Abi} `{Kzg} `{!Eip4396} `{!ManifestCodec} `{AddressText}.

(** Decoding is a function, so both loops saw the same blocks. *)
Lemma same_blocks s ctx ctx' config view proposal parent lastAnchor derived_blocks
  replayed_blocks :
  bound_proposal ctx view proposal parent lastAnchor derived_blocks ->
  Forall2 (fun raw (br : Block * list (option Receipt)) =>
    replayed s ctx' config raw (view_of br.1) br.1 br.2)
    (wv_ReplayBlock <$> gv_Witnesses view) replayed_blocks ->
  derived_blocks = fst <$> replayed_blocks.
Proof.
  intros Hb Hr.
  destruct (bp_derived _ _ _ _ _ _ Hb) as (c & fork & mx & g & ms & cps & _ & _ & _ & Hlen & Hch & _).
  apply bound_chain_blocks in Hch as [Hl Hblocks].
  pose proof (Forall2_length _ _ _ Hr) as Hrl. rewrite length_fmap in Hrl.
  apply list_eq_same_length with (length replayed_blocks); [by rewrite length_fmap|lia|].
  intros i b b' _ Hb1 Hb2. apply list_lookup_fmap_Some in Hb2 as (br & -> & Hbr).
  destruct (Hblocks _ _ Hb1) as (w & wit & Hw & Hd). cbn [Nat.add] in Hw.
  destruct (Forall2_lookup_r _ _ _ _ _ Hr Hbr) as (raw & Hraw & Hrep).
  rewrite list_lookup_fmap, Hw in Hraw. injection Hraw as <-.
  destruct (rp_block _ _ _ _ _ _ _ Hrep) as (wit' & Hd' & _). congruence.
Qed.

(** The proof result of [req] stands for its proposal: it is the signer's output
    on the digest of the carry, and that digest is also the input it reports. *)
Definition proves (s : ReplayService) (ctx ctx' : Context) (req : ShastaRequest)
  (result : ProofResult) : Prop :=
  exists input view proposal parent lastAnchor config blocks,
    sl_GuestInput (rq_Payload req) = Some input /\ DecodeGuestInput input = Ok view /\
    ValidateGuestInputCarry (Some view) = Ok tt /\
    ValidateGuestInputBlobSources (Some view) = Ok tt /\
    bound_proposal ctx view proposal parent lastAnchor (fst <$> blocks) /\
    Forall2 (fun w (br : Block * list (option Receipt)) =>
      replayed s ctx' config (wv_ReplayBlock w) (view_of br.1) br.1 br.2)
      (gv_Witnesses view) blocks /\
    gv_Blocks view = (view_of ∘ fst) <$> blocks /\
    views_bound (gv_Blocks view) (gv_Carry view) /\
    anchors_follow (gv_GuestInputChainID view) lastAnchor (snd <$> blocks) /\
    exists output,
      SignHash (svc_signer s) (hashShastaSubproofCarry (gv_Carry view)) = Ok output /\
      result = proofResultFromSignerOutput (hashShastaSubproofCarry (gv_Carry view)) output.

Lemma prove_validated_ok s ctx ctx' req v v' result :
  IsShasta_from_time -> ValidateRequestWithContext ctx req = inl v -> same_seal v v' ->
  Prove s ctx' (Some v') = Ok result -> proves s ctx ctx' req result.
Proof.
  intros Hshasta Hvalid Hseal Hprove. apply ValidateRequest_ok in Hvalid as (Hs & input & view & Hi & Hd & [Hc Hb Hm Hv] & ->).
  apply Prove_ok in Hprove as (Hbind & config & blocks & output & Hcfg & Hp & Hsig & ->).
  apply (signing_binding_ok _ _ Hseal) in Hbind as (Hcar & Hblk & Hraw & Hgi & Htk).
  destruct Hp as [Hrep Hviews _ Hanch].
  cbn [normalized_request vr_Carry vr_Blocks payload_of vr_Request rq_Payload sl_Blocks] in *.
  rewrite <- Hraw in Hrep. rewrite <- Hblk in Hviews. rewrite <- Hcar in *.
  destruct (ValidateGuestInputManifestBinding_bound ctx view Hshasta Hm)
    as (proposal & parent & lastAnchor & dblocks & Hbp).
  assert (dblocks = fst <$> blocks) as -> by by eapply (same_blocks s ctx ctx' config).
  pose proof (ValidateGuestInputCarry_ok view) as Hcarry. rewrite Hc in Hcarry.
  destruct (proj1 Hcarry eq_refl) as (_ & _ & p & h & pv & f & l & _ & _ & _ & _ & _ & _ & _ & Heq).
  exists input, view, proposal, parent, lastAnchor, config, blocks.
  split_conj; try done.
  - by apply Forall2_fmap_l in Hrep.
  - destruct (DecodeGuestInput_witnesses _ _ Hd) as (_ & _ & Htaiko & _).
    assert (Hhas : has_guest_input v' = true).
    { rewrite <- Hgi. unfold has_guest_input, payload_of. cbn. by rewrite Hi. }
    destruct (sl_GuestInput (payload_of v')) as [input'|] eqn:Ei.
    2:{ unfold has_guest_input in Hhas. by rewrite Ei in Hhas. }
    assert (Hg' : vr_validatedGuestInput v' = true).
    { destruct Hseal as (_ & _ & _ & _ & Hg & _). rewrite Hg.
      cbn [sealValidatedRequest vr_validatedGuestInput]. by rewrite Hgi. }
    destruct (Hanch input' Hg' eq_refl) as (la & Hla & Hfollow).
    assert (Hsame : gi_Taiko input' = gv_TaikoRaw view).
    { rewrite Htaiko. unfold guest_taiko in Htk. rewrite Ei in Htk. rewrite <- Htk.
      unfold payload_of. cbn. by rewrite Hi. }
    rewrite Hsame, (bp_anchor _ _ _ _ _ _ Hbp) in Hla. injection Hla as <-.
    rewrite Heq in Hfollow. exact Hfollow.
  - by exists output.
Qed.

(** C1 (a signature means a canonical, executed proposal): if a request was
    validated and a request with the same seal was then proved, whatever was
    assigned in between, the proof is what the service's signer gave for the
    hash of the carry decoded from the guest input, which is also the input it
    reports, and that carry is the one computed from the rest of the input; the
    blocks bound to the derivation of the proposal from its blobs are the very
    blocks that were executed, each one giving the state and receipt roots of
    its header, and the last one is the checkpoint that the signed carry commits
    to. *)
Theorem prove_validated_sound s ctx ctx' req v v' result (Hshasta : IsShasta_from_time)
  (Hvalid : ValidateRequestWithContext ctx req = inl v) (Hseal : same_seal v v')
  (Hprove : Prove s ctx' (Some v') = Ok result) :
  proves s ctx ctx' req result.
Proof. by eapply prove_validated_ok. Qed.
End EndToEnd.
