(* ===== verification/Config.v ===== *)
(** * Service configuration

    [internal/prover/config.go], and the constructor of [signer.go] that
    decides which key a service signs with and whether it serves the aggregate
    endpoint.  The environment variables and the home directory are arguments;
    the registration file and the sealed key are read with the calls of
    [FileSystem]. *)

From S2P Require Import Prelude Bytes GoStd FileSystem External Json JsonText Tee Types CoreTypes.
From S2P Require Import AtomicFile Bootstrap.
From S2P Require Import Forks Decode Manifest Execution Signer Replay Validate Prove.

#[local] Open Scope string_scope.
#[local] Open Scope list_scope.
#[local] Open Scope Z_scope.

(** What a process sees of its surroundings: [os.Getenv] and
    [os.UserHomeDir]. *)
Record Environment := {
  Getenv : string -> string;
  UserHomeDir : result string;
}.

Definition envProvingMode : string := "GAIKO2_PROVING_MODE".
Definition envTEEType : string := "GAIKO2_TEE_TYPE".
Definition envSecretDir : string := "GAIKO2_SECRET_DIR".
Definition envConfigDir : string := "GAIKO2_CONFIG_DIR".
Definition envFork : string := "GAIKO2_FORK".
Definition envInstanceID : string := "GAIKO2_INSTANCE_ID".
Definition envDevMode : string := "GAIKO2_DEV_MODE".

Definition ErrProvingModeRequired : error := Sentinel "prover.ErrProvingModeRequired".

Definition normalizeProvingMode (mode : string) : result string :=
  let mode := ToLower (TrimSpace mode) in
  reject_if (String.eqb mode "") ErrProvingModeRequired ;;!
  Ok mode.

Section Env.
Context (env : Environment).

Definition trimmed (key : string) : string := TrimSpace (Getenv env key).

Definition envOrDefault (key fallback : string) : string :=
  let value := trimmed key in
  if String.eqb value "" then fallback else value.

Definition envFlagEnabled (key : string) : bool :=
  existsb (String.eqb (ToLower (trimmed key))) ["1"; "true"; "yes"; "on"].

(** The configuration before the instance id is resolved. *)
Definition base_config (mode : string) : ServiceConfig := {|
  sv_Mode := mode;
  sv_TeeType := trimmed envTEEType;
  sv_SecretDir := envOrDefault envSecretDir (DefaultSecretDir (UserHomeDir env));
  sv_ConfigDir := envOrDefault envConfigDir (DefaultConfigDir (UserHomeDir env));
  sv_Fork := trimmed envFork;
  sv_InstanceID := 0;
  sv_InstanceIDConfigured := false;
  sv_DevMode := envFlagEnabled envDevMode |}.

Definition with_instance (cfg : ServiceConfig) (instanceID : Z) : ServiceConfig := {|
  sv_Mode := sv_Mode cfg;
  sv_TeeType := sv_TeeType cfg;
  sv_SecretDir := sv_SecretDir cfg;
  sv_ConfigDir := sv_ConfigDir cfg;
  sv_Fork := sv_Fork cfg;
  sv_InstanceID := instanceID;
  sv_InstanceIDConfigured := true;
  sv_DevMode := sv_DevMode cfg |}.

Definition maxUint32 : Z := 2 ^ 32 - 1.

Definition ServiceConfigFromEnv : prog (result ServiceConfig) :=
  try! mode <- Ret (normalizeProvingMode (trimmed envProvingMode)) in
  let cfg := base_config mode in
  let instanceID := trimmed envInstanceID in
  if String.eqb instanceID "" && negb (String.eqb (sv_Fork cfg) "") then
    try! registered <- map_result (wrap_err "load registered instance ids")
      (LoadRegisteredForks (sv_ConfigDir cfg)) in
    Ret (let! resolved := some_or (registered !! sv_Fork cfg)
           (Errorf "registered instance id for fork not found") in
         reject_if (maxUint32 <? resolved)
           (Errorf "registered instance id for fork overflows uint32") ;;!
         Ok (with_instance cfg resolved))
  else if String.eqb instanceID "" then Ret (Ok cfg)
  else
    Ret (let! parsed := wrap_err "parse GAIKO2_INSTANCE_ID" (ParseUint_auto instanceID 32) in
         Ok (with_instance cfg parsed)).
End Env.

Section Configured.
Context `{Processor} `{!ChainParams} `{Ecdsa} `{!Enclave}.

Definition NewConfiguredReplayService (cfg : ServiceConfig) (runner : option Runner)
  : prog (result ReplayService) :=
  try! mode <- Ret (normalizeProvingMode (sv_Mode cfg)) in
  if String.eqb mode ProvingModeNative then
    Ret (Ok (newReplayService runner
      (Some (native_signer (NewNativeProofSigner (sv_InstanceID cfg)))) (sv_DevMode cfg)))
  else if String.eqb mode ProvingModeTEE then
    try! provider <- Ret (NewProvider {| tc_Type := sv_TeeType cfg;
                                         tc_SecretDir := sv_SecretDir cfg |}) in
    try! privateKey <- map_result (wrap_err "tee bootstrap required")
      (pv_LoadPrivateKey provider) in
    Ret (reject_if (negb (sv_InstanceIDConfigured cfg)) instance_id_required ;;!
         Ok (newReplayService runner
           (Some (tee_signer (newTEEProofSignerFromConfig privateKey cfg))) true))
  else Ret (Err (Errorf "unsupported proving mode")).

(** What [gaiko2 server] does before it listens. *)
Definition configured_service (env : Environment) : prog (result (ServiceConfig * ReplayService)) :=
  try! cfg <- ServiceConfigFromEnv env in
  try! service <- NewConfiguredReplayService cfg None in
  Ret (Ok (cfg, service)).
End Configured.

(* ------------------------------------------------------------------ *)
(** ** What a service starts with *)

(** The answer to a read of [p]. *)
Definition read_answer (ch : choice) (fs : FS) (p : path) : result (list byte) :=
  match ch_fault ch with Some e => Err e | None => do_ReadFile fs p end.

Lemma read_answer_ok ch fs p c : read_answer ch fs p = Ok c -> contents fs p = Some c.
Proof.
  unfold read_answer, do_ReadFile. destruct (ch_fault ch); [done|].
  destruct (is_dir fs p); [done|]. destruct (contents fs p); cbn; congruence.
Qed.

Lemma read_answer_contents ch fs p c :
  ch_fault ch = None -> p.2 <> [] -> contents fs p = Some c -> read_answer ch fs p = Ok c.
Proof.
  intros Hch Hp Hc. unfold read_answer, do_ReadFile.
  by rewrite Hch, (contents_not_dir _ _ c Hp Hc), Hc.
Qed.

Lemma LoadRegisteredForks_run {B} who o t configDir (k : result (gmap string Z) -> prog B) fs :
  run who o t (bind (LoadRegisteredForks configDir) k) fs =
  run who o (S t) (k (
    let! text := read_answer (o t) fs (Join_path (Clean configDir) registeredInfoFilename) in
    let! v := Unmarshal_text text in
    let! m := decode_RegisteredForks v in Ok (default ∅ m))) fs.
Proof.
  cbn. unfold guarded, read_answer.
  destruct (ch_fault (o t)); [done|]. destruct (do_ReadFile _ _) as [text|]; [|done]. cbn.
  destruct (Unmarshal_text text) as [v|]; [|done]. cbn.
  by destruct (decode_RegisteredForks v).
Qed.

Lemma LoadPrivateKey_run `{Ecdsa} `{!Enclave} {B} who o t secretDir
  (k : result PrivateKey -> prog B) fs :
  run who o t (bind (LoadPrivateKey secretDir) k) fs =
  run who o (S t) (k (
    let! sealed := read_answer (o t) fs (key_path secretDir) in
    let! plainText := Unseal sealed in ToECDSA plainText)) fs.
Proof.
  cbn. unfold guarded, read_answer.
  destruct (ch_fault (o t)); [done|]. by destruct (do_ReadFile _ _).
Qed.

Lemma bind_assoc {A B C} (m : prog A) (f : A -> prog B) (g : B -> prog C) who o t fs :
  run who o t (bind (bind m f) g) fs = run who o t (bind m (fun a => bind (f a) g)) fs.
Proof.
  revert t fs. induction m as [a|D c k IH]; intros t fs; simpl; [done|].
  destruct (handle who (o t) c fs). apply IH.
Qed.

(** The registration file holds these instance ids. *)
Definition registered_in (fs : FS) (configDir : string) (forks : gmap string Z) : Prop :=
  exists text v m, contents fs (Join_path (Clean configDir) registeredInfoFilename) = Some text /\
    Unmarshal_text text = Ok v /\ decode_RegisteredForks v = Ok m /\ forks = default ∅ m.

(** The configuration the environment and the registration file call for:
    the instance id given wins over the fork's, which must be registered. *)
Definition configured (env : Environment) (fs : FS) (cfg : ServiceConfig) : Prop :=
  exists mode, normalizeProvingMode (trimmed env envProvingMode) = Ok mode /\
  let base := base_config env mode in
  if String.eqb (trimmed env envInstanceID) "" then
    if String.eqb (trimmed env envFork) "" then cfg = base
    else exists forks n, registered_in fs (sv_ConfigDir base) forks /\
      forks !! trimmed env envFork = Some n /\ n <= maxUint32 /\ cfg = with_instance base n
  else exists n, ParseUint_auto (trimmed env envInstanceID) 32 = Ok n /\
    cfg = with_instance base n.

Lemma ServiceConfigFromEnv_run {B} who o t env (k : result ServiceConfig -> prog B) fs :
  exists t' r, run who o t (bind (ServiceConfigFromEnv env) k) fs = run who o t' (k r) fs /\
    (forall cfg, r = Ok cfg -> configured env fs cfg) /\
    ((forall n, ch_fault (o n) = None) -> forall cfg, configured env fs cfg -> r = Ok cfg).
Proof.
  unfold ServiceConfigFromEnv, configured.
  destruct (normalizeProvingMode (trimmed env envProvingMode)) as [mode|e].
  2:{ exists t, (Err e). split_and!; [done|done|]. intros _ cfg (mode & [=] & _). }
  change (bind_ok (Ret (Ok mode)) ?k) with (k mode). cbn zeta beta.
  set (base := base_config env mode).
  destruct (String.eqb (trimmed env envInstanceID) "") eqn:Hid;
    destruct (String.eqb (sv_Fork base) "") eqn:Hfork; cbn [andb negb].
  - exists t, (Ok base). split_and!; [done| |].
    + intros cfg [= <-]. exists mode. split; [done|]. by change (trimmed env envFork) with (sv_Fork base); rewrite Hfork.
    + intros _ cfg (mode' & [= <-] & Hc). change (trimmed env envFork) with (sv_Fork base) in Hc.
      rewrite Hfork in Hc. by rewrite Hc.
  - unfold bind_ok, map_result. rewrite !bind_assoc, LoadRegisteredForks_run. cbn [bind].
    set (answer := let! text := read_answer _ _ _ in _).
    set (r := let! registered := wrap_err "load registered instance ids" answer in
      let! resolved := some_or (registered !! sv_Fork base)
           (Errorf "registered instance id for fork not found") in
      reject_if (maxUint32 <? resolved)
           (Errorf "registered instance id for fork overflows uint32") ;;!
      Ok (with_instance base resolved)).
    exists (S t), r. split_and!.
    + unfold r. by destruct answer.
    + intros cfg Hr. exists mode. split; [done|]. change (trimmed env envFork) with (sv_Fork base).
      rewrite Hfork. unfold r in Hr. go_inv. go_bool. unfold answer in *. go_inv.
      apply read_answer_ok in H2.
      eexists _, _. split_and!; [|done|lia|done]. by eexists _, _, _.
    + intros Ho cfg (mode' & [= <-] & Hc). change (trimmed env envFork) with (sv_Fork base) in Hc.
      rewrite Hfork in Hc. destruct Hc as (forks & n & (text & v & m & Ht & Hv & Hm & ->) & Hn & Hle & ->).
      unfold r, answer. rewrite (read_answer_contents _ _ _ text) by done. cbn [res_bind].
      fold base. rewrite Hv. cbn [res_bind]. rewrite Hm. cbn [res_bind wrap_err]. rewrite Hn.
      cbn [some_or res_bind]. by rewrite (proj2 (Z.ltb_ge maxUint32 n)).
  - exists t, (let! parsed := wrap_err "parse GAIKO2_INSTANCE_ID"
      (ParseUint_auto (trimmed env envInstanceID) 32) in Ok (with_instance base parsed)).
    split_and!; [done| |].
    + intros cfg Hr. go_inv. exists mode. split; [done|]. by eexists.
    + intros _ cfg (mode' & [= <-] & n & Hn & ->). by rewrite Hn.
  - exists t, (let! parsed := wrap_err "parse GAIKO2_INSTANCE_ID"
      (ParseUint_auto (trimmed env envInstanceID) 32) in Ok (with_instance base parsed)).
    split_and!; [done| |].
    + intros cfg Hr. go_inv. exists mode. split; [done|]. by eexists.
    + intros _ cfg (mode' & [= <-] & n & Hn & ->). by rewrite Hn.
Qed.

(** What follows a program that ends in this result, when it makes no call. *)
Lemma run_bind_ok_ret {A B} (m : prog (result A)) (f : A -> B) who o t fs r fs' :
  run who o t m fs = (r, fs') ->
  run who o t (bind_ok m (fun a => Ret (Ok (f a)))) fs = (let! a := r in Ok (f a), fs').
Proof.
  unfold bind_ok. revert t fs. induction m as [a|C c k IH]; intros t fs; simpl.
  - intros [= -> ->]. by destruct r.
  - destruct (handle who (o t) c fs). apply IH.
Qed.

Section Started.
Context `{Processor} `{!ChainParams} `{Ecdsa} `{!Enclave}.

(** [tee.NewProvider] knows one provider. *)
Definition ego_provider (teeType secretDir : string) : bool :=
  (String.eqb (ToLower (TrimSpace teeType)) "" ||
   String.eqb (ToLower (TrimSpace teeType)) TypeEGo) &&
  negb (String.eqb (TrimSpace secretDir) "").

Lemma NewProvider_ok teeType secretDir provider :
  NewProvider {| tc_Type := teeType; tc_SecretDir := secretDir |} = Ok provider <->
  ego_provider teeType secretDir = true /\ provider = NewEGoProvider secretDir.
Proof.
  unfold NewProvider, ego_provider. cbn [tc_Type tc_SecretDir].
  destruct (String.eqb_spec (ToLower (TrimSpace teeType)) "") as [->|Hne]; cbn -[TrimSpace].
  - destruct (String.eqb (TrimSpace secretDir) ""); cbn; naive_solver.
  - destruct (String.eqb (ToLower (TrimSpace teeType)) TypeEGo); cbn; [|naive_solver].
    destruct (String.eqb (TrimSpace secretDir) ""); cbn; naive_solver.
Qed.

(** The service a configuration stands for.  In native mode the published key
    signs, and aggregation is served in dev mode only; in TEE mode the sealed
    key signs, with a configured instance id. *)
Definition service_for (fs : FS) (cfg : ServiceConfig) (s : ReplayService) : Prop :=
  (normalizeProvingMode (sv_Mode cfg) = Ok ProvingModeNative /\
   s = newReplayService None
         (Some (native_signer (NewNativeProofSigner (sv_InstanceID cfg)))) (sv_DevMode cfg)) \/
  (normalizeProvingMode (sv_Mode cfg) = Ok ProvingModeTEE /\
   ego_provider (sv_TeeType cfg) (sv_SecretDir cfg) = true /\
   sv_InstanceIDConfigured cfg = true /\
   exists sealed key, contents fs (key_path (sv_SecretDir cfg)) = Some sealed /\
     loads sealed key /\
     s = newReplayService None
           (Some (tee_signer (NewTEEProofSigner key (sv_InstanceID cfg)))) true).

Lemma NewConfiguredReplayService_run who o t cfg fs :
  exists r, run who o t (NewConfiguredReplayService cfg None) fs = (r, fs) /\
    (forall s, r = Ok s -> service_for fs cfg s) /\
    ((forall n, ch_fault (o n) = None) -> forall s, service_for fs cfg s -> r = Ok s).
Proof.
  unfold NewConfiguredReplayService, service_for.
  destruct (normalizeProvingMode (sv_Mode cfg)) as [mode|e].
  2:{ exists (Err e). split_and!; [done|done|]. by intros _ s [[[=] _]|[[=] _]]. }
  change (bind_ok (Ret (Ok mode)) ?k) with (k mode). cbv beta.
  destruct (String.eqb_spec mode ProvingModeNative) as [->|Hnat].
  { eexists. split_and!; [done|intros s [= <-]; by left|].
    intros _ s [[_ ->]|[[=] _]]. done. }
  destruct (String.eqb_spec mode ProvingModeTEE) as [->|Htee].
  2:{ eexists. split_and!; [done|done|]. intros _ s [[[= ->] _]|[[= ->] _]]; done. }
  destruct (NewProvider _) as [provider|e] eqn:Hp.
  2:{ exists (Err e). split_and!; [done|done|]. intros _ s [[[=] _]|(_ & Hego & _)].
      by rewrite (proj2 (NewProvider_ok _ _ _) (conj Hego eq_refl)) in Hp. }
  apply NewProvider_ok in Hp as [Hego ->].
  change (bind_ok (Ret (Ok ?p)) ?k) with (k p). cbv beta.
  unfold bind_ok, map_result. rewrite bind_assoc. cbn [NewEGoProvider pv_LoadPrivateKey].
  rewrite LoadPrivateKey_run. cbn [bind].
  destruct (read_answer (o t) fs (key_path (sv_SecretDir cfg))) as [sealed|e] eqn:Hread.
  - destruct (let! plainText := Unseal sealed in ToECDSA plainText) as [key|e] eqn:Hload.
    + apply read_answer_ok in Hread as Hc. cbn [res_bind]. rewrite Hload. cbn [wrap_err].
      destruct (sv_InstanceIDConfigured cfg) eqn:Hid; eexists; (split; [reflexivity|]); cbn.
      * split.
        -- intros s [= <-]. right. split_and!; try done. exists sealed, key. split_and!; try done.
           unfold newTEEProofSignerFromConfig, NewTEEProofSigner. by rewrite Hid.
        -- intros _ s [[[=] _]|(_ & _ & _ & sealed' & key' & Hc' & Hl & ->)].
           unfold loads in Hl. unfold newTEEProofSignerFromConfig, NewTEEProofSigner.
           rewrite Hid. congruence.
      * split; [done|]. by intros _ s [[[=] _]|(_ & _ & [=] & _)].
    + apply read_answer_ok in Hread as Hc. cbn [res_bind]. rewrite Hload. cbn [wrap_err].
      eexists. split; [reflexivity|]. split; [done|].
      intros _ s [[[=] _]|(_ & _ & _ & sealed' & key' & Hc' & Hl & ->)].
      unfold loads in Hl. congruence.
  - eexists. split; [reflexivity|]. split; [done|].
    intros Ho s [[[=] _]|(_ & _ & _ & sealed' & key' & Hc' & Hl & ->)].
    rewrite (read_answer_contents _ _ _ sealed') in Hread by done. done.
Qed.

(** C11 (what a server may sign with): the command [server] obtains a
    service, without touching the file system, exactly when the proving mode
    is set and the environment resolves to a configuration (an explicit
    instance id, or the one registered for the fork, in 32 bits) that stands
    for a service: the published native key, with aggregation in dev mode
    only, or the key sealed in the secret directory together with a
    configured instance id. *)
Theorem configured_service_spec who o t env fs :
  (forall cfg s fs', run who o t (configured_service env) fs = (Ok (cfg, s), fs') ->
     fs' = fs /\ configured env fs cfg /\ service_for fs cfg s) /\
  ((forall n, ch_fault (o n) = None) -> forall cfg s,
     configured env fs cfg -> service_for fs cfg s ->
     run who o t (configured_service env) fs = (Ok (cfg, s), fs)).
Proof.
  unfold configured_service.
  destruct (ServiceConfigFromEnv_run who o t env (fun r => match r with
    | Ok cfg => bind_ok (NewConfiguredReplayService cfg None)
        (fun service => Ret (Ok (cfg, service)))
    | Err e => Ret (Err e) end) fs) as (t' & r & Hrun0 & Hr & Hno).
  split.
  - intros cfg s fs' E. unfold bind_ok at 1 in E. rewrite Hrun0 in E.
    destruct r as [cfg0|e]; [|discriminate].
    destruct (NewConfiguredReplayService_run who o t' cfg0 fs) as (r & Hrun & Hs & _).
    rewrite (run_bind_ok_ret _ (pair cfg0) _ _ _ _ _ _ Hrun) in E.
    destruct r as [s0|e]; cbn [res_bind] in E; [|discriminate].
    injection E as <- <- <-. split_and!; [done|by apply Hr|by apply Hs].
  - intros Ho cfg s Hc Hf. unfold bind_ok at 1. rewrite Hrun0, (Hno Ho cfg Hc).
    destruct (NewConfiguredReplayService_run who o t' cfg fs) as (r' & Hrun & _ & Hsno).
    rewrite (run_bind_ok_ret _ (pair cfg) _ _ _ _ _ _ Hrun).
    by rewrite (Hsno Ho s Hf).
Qed.
End Started.
