(* ===== verification/Aggregate.v ===== *)
(** * Aggregating proofs

    [internal/prover/aggregate_validate.go] and [aggregate.go], with the digests
    of raw carries of [hash.go]: the proofs of consecutive proposals are checked
    and replaced by one signature on the range. *)

From S2P Require Import Prelude Bytes GoStd Json External Types CoreTypes Samples BlobCoder.
From S2P Require Import Hash Proposal Forks Signer Prove.
From Stdlib Require Import Ascii.

#[local] Open Scope string_scope.
#[local] Open Scope list_scope.
#[local] Open Scope Z_scope.

Definition ShastaAggregateRequestSchemaV1 : string := "raiko2-shasta-aggregate-request-v1".

(** [protocol.AggregateProof], [ShastaAggregatePayload] and
    [ShastaAggregateRequest]. *)
Record AggregateProof := {
  ai_Input : string;
  ai_Proof : string;
  ai_ProofCarryData : RawMessage;
}.

Record ShastaAggregatePayload := {
  ag_Proofs : list AggregateProof;
}.

Record ShastaAggregateRequest := {
  aq_Schema : string;
  aq_Payload : ShastaAggregatePayload;
}.

Record ValidatedAggregateRequest := {
  va_Request : ShastaAggregateRequest;
  va_Proofs : list AggregateProofView;
  va_validated : bool;
}.

Definition parseHexBytes (value : string) : result (list byte) :=
  let trimmed := TrimSpace value in
  reject_if (String.eqb trimmed "") (Errorf "empty hex string") ;;!
  hex_DecodeString (TrimPrefix trimmed "0x").

Definition parseHashHex (value : string) : result Z :=
  let! decoded := parseHexBytes value in
  reject_if (negb (length decoded =? HashLength)%nat) (Errorf "expected 32 bytes") ;;!
  Ok (BytesToHash decoded).

Section Validate.
Context `{HexUtil} `{Keccak} `{ConfigTypes} `{!ChainParams}.

Definition hashShastaSubproofInput (raw : RawMessage) : result Z :=
  let! carry := decodeCarry raw in
  Ok (hashShastaSubproofCarry carry).

Definition hashShastaAggregationInput (rawCarries : list RawMessage) (instance : Z)
  : result Z :=
  reject_if (length rawCarries =? 0)%nat (Errorf "empty shasta aggregation input") ;;!
  let! carries := for_range (fun _ raw =>
    wrap_err "decode aggregation proof_carry_data" (decodeCarry raw)) 0 rawCarries in
  hashShastaAggregationCarries carries instance.

(** The body of the loop over the proofs. *)
Definition aggregate_item (item : AggregateProof) : result AggregateProofView :=
  reject_if (String.eqb (TrimSpace (ai_Input item)) "")
    (Errorf "aggregate proof is missing input") ;;!
  reject_if (String.eqb (TrimSpace (ai_Proof item)) "")
    (Errorf "aggregate proof is missing proof") ;;!
  let! carry := wrap_err "decode proof_carry_data" (decodeCarry (ai_ProofCarryData item)) in
  let! inputHash := wrap_err "decode aggregate proof input" (parseHashHex (ai_Input item)) in
  let! expectedHash := wrap_err "hash proof_carry_data"
    (hashShastaSubproofInput (ai_ProofCarryData item)) in
  reject_if (negb (inputHash =? expectedHash)) (Errorf "aggregate proof input mismatch") ;;!
  let! proofBytes := wrap_err "decode aggregate proof" (parseHexBytes (ai_Proof item)) in
  let! decoded := wrap_err "decode aggregate proof metadata" (decodeOneshotProof proofBytes) in
  let '(instanceID, instanceAddress, signature) := decoded in
  Ok {| ap_InputHash := inputHash; ap_ProofBytes := proofBytes; ap_InstanceID := instanceID;
        ap_InstanceAddress := instanceAddress; ap_Signature := signature; ap_Carry := carry |}.

Definition ValidateAggregateRequest (req : ShastaAggregateRequest)
  : result ValidatedAggregateRequest :=
  reject_if (negb (String.eqb (aq_Schema req) ShastaAggregateRequestSchemaV1))
    (Errorf "unsupported schema") ;;!
  reject_if (length (ag_Proofs (aq_Payload req)) =? 0)%nat
    (Errorf "request must include at least one aggregate proof") ;;!
  let! proofs := for_range (fun _ => aggregate_item) 0 (ag_Proofs (aq_Payload req)) in
  let carries := ap_Carry <$> proofs in
  reject_if (negb (validateShastaProofCarryDataVec carries))
    (Errorf "invalid shasta proof carry data") ;;!
  let! first := some_or (head proofs) (Errorf "index out of range") in
  let! _ := wrap_err "validate aggregate proof chain"
    (chainConfigFor (cv_ChainID (ap_Carry first))) in
  for_check (fun _ proof =>
    reject_if (negb (ap_InstanceID proof =? ap_InstanceID first))
      (Errorf "aggregate proof instance id mismatch") ;;!
    reject_if (negb (ap_InstanceAddress proof =? ap_InstanceAddress first))
      (Errorf "aggregate proof instance address mismatch")) 0 (tail proofs) ;;!
  Ok {| va_Request := req; va_Proofs := proofs; va_validated := true |}.
End Validate.

Definition ErrAggregateDisabled : error := Sentinel "prover.ErrAggregateDisabled".

Section Aggregate.
Context `{CoreTypes} `{ConfigTypes} `{Keccak} `{Ecdsa} `{AddressText}.

Definition validateAggregateProofSignatures (proofs : list AggregateProofView)
  (expectedInstanceID expectedInstance : Z) : result unit :=
  for_check (fun _ proof =>
    reject_if (negb (ap_InputHash proof =? hashShastaSubproofCarry (ap_Carry proof)))
      (Errorf "aggregate proof input mismatch") ;;!
    reject_if (negb (ap_InstanceID proof =? expectedInstanceID))
      (Errorf "aggregate proof instance id mismatch") ;;!
    reject_if (negb (ap_InstanceAddress proof =? expectedInstance))
      (Errorf "aggregate proof instance mismatch") ;;!
    let! recovered := wrap_err "recover aggregate proof signer"
      (sigToAddress (ap_InputHash proof) (ap_Signature proof)) in
    reject_if (negb (recovered =? expectedInstance))
      (Errorf "aggregate proof signer mismatch")) 0 proofs.

(** [ReplayService.Aggregate]. *)
Definition Aggregate (s : ReplayService) (req : option ValidatedAggregateRequest)
  : result ProofResult :=
  reject_if (negb (svc_aggregateEnabled s)) ErrAggregateDisabled ;;!
  let missing := Errorf "aggregate request validation binding is missing" in
  let! req := some_or req missing in
  reject_if (negb (va_validated req)) missing ;;!
  let! identity := Identity (svc_signer s) in
  let carries := ap_Carry <$> va_Proofs req in
  match va_Proofs req with
  | first :: _ =>
      reject_if (negb (ap_InstanceID first =? id_InstanceID identity))
        (Errorf "aggregate subproof instance id mismatch") ;;!
      reject_if (negb (ap_InstanceAddress first =? id_InstanceAddress identity))
        (Errorf "aggregate subproof instance address mismatch")
  | [] => Ok tt
  end ;;!
  let! aggregationHash :=
    hashShastaAggregationCarries carries (id_InstanceAddress identity) in
  validateAggregateProofSignatures (va_Proofs req) (id_InstanceID identity)
    (id_InstanceAddress identity) ;;!
  let! output := SignHash (svc_signer s) aggregationHash in
  Ok (proofResultFromSignerOutput aggregationHash output).
End Aggregate.

(* ------------------------------------------------------------------ *)
(** ** What is aggregated *)

Section AggregateFacts.
Context `{CoreTypes} `{ConfigTypes} `{Keccak} `{Ecdsa} `{AddressText}.

(** A proof of [identity] for its own carry. *)
Definition proof_signed (identity : SignerIdentity) (p : AggregateProofView) : Prop :=
  ap_InputHash p = hashShastaSubproofCarry (ap_Carry p) /\
  ap_InstanceID p = id_InstanceID identity /\
  ap_InstanceAddress p = id_InstanceAddress identity /\
  sigToAddress (ap_InputHash p) (ap_Signature p) = Ok (id_InstanceAddress identity).

Lemma signatures_ok proofs identity u :
  validateAggregateProofSignatures proofs (id_InstanceID identity)
    (id_InstanceAddress identity) = Ok u <-> Forall (proof_signed identity) proofs.
Proof.
  unfold validateAggregateProofSignatures.
  rewrite (for_check_Forall (fun proof : AggregateProofView => reject_if _ _ ;;! _)).
  apply Forall_proper; [|done]. intros p. unfold proof_signed.
  rewrite !res_seq_ok, !reject_if_ok, !negb_false_iff, !Z.eqb_eq, res_bind_ok. split.
  - intros (? & ? & ? & a & Ha & He). apply wrap_err_ok in Ha. go_ok. by subst.
  - intros (? & ? & ? & Ha). split_conj; try done. exists (id_InstanceAddress identity).
    rewrite wrap_err_ok, reject_if_ok, negb_false_iff, Z.eqb_eq. done.
Qed.

Lemma Aggregate_ok s req r :
  Aggregate s req = Ok r <->
  svc_aggregateEnabled s = true /\ exists v identity d output,
    req = Some v /\ va_validated v = true /\ Identity (svc_signer s) = Ok identity /\
    Forall (proof_signed identity) (va_Proofs v) /\
    hashShastaAggregationCarries (ap_Carry <$> va_Proofs v) (id_InstanceAddress identity) = Ok d /\
    SignHash (svc_signer s) d = Ok output /\ r = proofResultFromSignerOutput d output.
Proof.
  unfold Aggregate. split.
  - intros Ha. apply res_seq_ok in Ha as [He Ha]. apply reject_if_ok, negb_false_iff in He.
    split; [done|]. apply res_bind_ok in Ha as (v & Hv & Ha). apply some_or_ok in Hv as ->.
    apply res_seq_ok in Ha as [Hval Ha]. apply reject_if_ok, negb_false_iff in Hval.
    apply res_bind_ok in Ha as (identity & Hi & Ha). apply res_seq_ok in Ha as [_ Ha].
    apply res_bind_ok in Ha as (d & Hd & Ha). apply res_seq_ok in Ha as [Hs Ha].
    apply signatures_ok in Hs. apply res_bind_ok in Ha as (output & Ho & [= <-]).
    by exists v, identity, d, output.
  - intros (He & v & identity & d & output & -> & Hv & Hi & Hs & Hd & Ho & ->).
    rewrite He. cbn [negb reject_if res_bind some_or]. rewrite Hv, Hi.
    cbn [negb reject_if res_bind]. apply (signatures_ok _ _ tt) in Hs as Hs'.
    rewrite Hd. cbn [res_bind]. rewrite Hs'. cbn [res_bind]. rewrite Ho. cbn [res_bind].
    destruct (va_Proofs v) as [|p l]; [done|]. apply Forall_cons in Hs as [(_ & Hid & Ha & _) _].
    by rewrite Hid, Ha, !Z.eqb_refl.
Qed.

(** C22 (what an aggregate signature covers): [Aggregate] returns a proof
    exactly when the service may aggregate, the request was validated, every
    proof in it is for the hash of its own carry, carries this service's
    instance id and address, and has a signature on that hash from this
    address, and the carries form an accepted range; the proof is then the
    signature on the digest of that range for this address. *)
Theorem Aggregate_spec s req r :
  Aggregate s req = Ok r <->
  svc_aggregateEnabled s = true /\ exists v identity d output,
    req = Some v /\ va_validated v = true /\ Identity (svc_signer s) = Ok identity /\
    Forall (proof_signed identity) (va_Proofs v) /\
    hashShastaAggregationCarries (ap_Carry <$> va_Proofs v) (id_InstanceAddress identity) = Ok d /\
    SignHash (svc_signer s) d = Ok output /\ r = proofResultFromSignerOutput d output.
Proof. apply Aggregate_ok. Qed.
End AggregateFacts.

(* ------------------------------------------------------------------ *)
(** ** Hexadecimal text is read back *)

(** No space starts with a hexadecimal digit or the [x] of a prefix, and none
    ends with one. *)
Lemma no_space_digit d cs : 0 <= d < 16 ->
  strip_any space_runes (hex_digit d :: cs) = None /\
  strip_any (map (@rev ascii) space_runes) (hex_digit d :: cs) = None.
Proof.
  intros Hd. assert (Hc : d = 0 \/ d = 1 \/ d = 2 \/ d = 3 \/ d = 4 \/ d = 5 \/ d = 6 \/
    d = 7 \/ d = 8 \/ d = 9 \/ d = 10 \/ d = 11 \/ d = 12 \/ d = 13 \/ d = 14 \/ d = 15) by lia.
  repeat destruct Hc as [->|Hc]; try (split; reflexivity). subst. split; reflexivity.
Qed.

Lemma trim_with_none ps cs : strip_any ps cs = None -> forall n, trim_with ps n cs = cs.
Proof. intros Hn [|n]; [done|]. cbn [trim_with]. by rewrite Hn. Qed.

Lemma hex_encode_chars bs :
  exists cs, hex_EncodeToString bs = string_of_list_ascii cs /\
    (bs <> [] -> exists cs' d, 0 <= d < 16 /\ cs = cs' ++ [hex_digit d]).
Proof.
  unfold hex_EncodeToString. eexists. split; [reflexivity|].
  destruct bs as [|b bs _] using rev_ind; [done|]. intros _.
  rewrite fmap_app, concat_app. cbn [fmap list_fmap concat].
  pose proof (Z.mod_pos_bound (byte_val b) 16 ltac:(lia)). rewrite app_nil_r.
  eexists (_ ++ [_]), _. split; [done|]. by rewrite <- app_assoc.
Qed.

(** Text that begins and ends with a hexadecimal digit has nothing to trim. *)
Lemma TrimSpace_digits d0 d cs cs1 : 0 <= d0 < 16 -> 0 <= d < 16 ->
  hex_digit d0 :: cs = cs1 ++ [hex_digit d] ->
  TrimSpace (string_of_list_ascii (hex_digit d0 :: cs)) =
    string_of_list_ascii (hex_digit d0 :: cs).
Proof.
  intros Hd0 Hd Hcs. unfold TrimSpace. rewrite chars_of_list.
  rewrite (trim_with_none space_runes) by (by apply no_space_digit).
  rewrite Hcs, rev_app_distr. cbn [rev app].
  rewrite trim_with_none by (by apply no_space_digit).
  change (hex_digit d :: rev cs1) with ([hex_digit d] ++ rev cs1).
  by rewrite rev_app_distr, rev_involutive.
Qed.

Lemma TrimSpace_hex bs : bs <> [] -> TrimSpace (prefixedHex bs) = prefixedHex bs.
Proof.
  intros Hne. destruct (hex_encode_chars bs) as (cs & Hs & Hlast).
  destruct (Hlast Hne) as (cs' & d & Hd & ->).
  unfold prefixedHex. rewrite Hs.
  change ("0x" +:+ string_of_list_ascii (cs' ++ [hex_digit d])) with
    (string_of_list_ascii (hex_digit 0 :: ("x"%char :: cs') ++ [hex_digit d])).
  apply (TrimSpace_digits 0 d _ (hex_digit 0 :: "x"%char :: cs')); [lia|done|done].
Qed.

Lemma parseHexBytes_hex bs : bs <> [] -> parseHexBytes (prefixedHex bs) = Ok bs.
Proof.
  intros Hne. unfold parseHexBytes. rewrite TrimSpace_hex by done.
  change (String.eqb (prefixedHex bs) "") with false. cbn [reject_if res_bind].
  assert (TrimPrefix (prefixedHex bs) "0x" = hex_EncodeToString bs) as ->.
  { unfold TrimPrefix, prefixedHex. cbn. apply string_of_list_ascii_of_string. }
  apply hex_Decode_Encode.
Qed.

Lemma parseHashHex_hex h : is_hash h -> parseHashHex (Hash_Hex h) = Ok h.
Proof.
  intros Hh. unfold parseHashHex, Hash_Hex. rewrite parseHexBytes_hex.
  - cbn [res_bind]. rewrite length_Hash_Bytes. cbn [Nat.eqb negb reject_if res_bind].
    by rewrite BytesToHash_Bytes.
  - intros Hn. apply (f_equal length) in Hn. by rewrite length_Hash_Bytes in Hn.
Qed.

(* ------------------------------------------------------------------ *)
(** ** A service aggregates its own proofs *)

Section Roundtrip.
Context `{HexUtil} `{Keccak} `{CoreTypes} `{ConfigTypes} `{!ChainParams} `{Ecdsa} `{AddressText}.

(** The item a client builds from a carry and the proof it was given. *)
Definition proof_item (carry : CarryView) (r : ProofResult) : AggregateProof := {|
  ai_Input := pr_Input r; ai_Proof := default "" (pr_Proof r);
  ai_ProofCarryData := Some (carry_json carry) |}.

Definition aggregate_request (carries : list CarryView) (results : list ProofResult)
  : ShastaAggregateRequest := {|
  aq_Schema := ShastaAggregateRequestSchemaV1;
  aq_Payload := {| ag_Proofs := zip_with proof_item carries results |} |}.

(** One proof read back. *)
Lemma aggregate_item_own (Hhex : hexutil_reads_hex) (Hrec : recovers) signer key inst carry r :
  signs_with signer key inst -> is_uint 32 inst -> typed_carry carry ->
  carryFitsShastaWidths carry = true ->
  buildProofResult (hashShastaSubproofCarry carry) signer = Ok r ->
  exists p, aggregate_item (proof_item carry r) = Ok p /\ ap_Carry p = carry /\
    proof_signed (signerIdentity key inst) p.
Proof.
  intros [_ Hsign] Hid Ht Hf Hb. unfold buildProofResult in Hb. rewrite Hsign in Hb.
  apply res_bind_ok in Hb as (output & Ho & [= <-]).
  destruct (signed_recovers Hrec _ _ _ _ _ Ho) as (Haddr & Hoid & _ & Hlen & Hr).
  unfold aggregate_item, proof_item, proofResultFromSignerOutput.
  cbn [ai_Input ai_Proof ai_ProofCarryData pr_Input pr_Proof default id].
  set (bytes := encodeOneshotProof _ _ _).
  assert (Hbytes : bytes <> []).
  { intros Hn. apply (f_equal length) in Hn. revert Hn. unfold bytes, encodeOneshotProof.
    rewrite !length_app, Hlen. cbn. lia. }
  assert (Hdec : decodeOneshotProof bytes = Ok (inst, so_InstanceAddress output, so_Signature output)).
  { apply decodeOneshotProof_ok. unfold bytes. rewrite Hoid. split; [done|].
    split; [done|]. split; [|done]. rewrite Haddr. apply PubkeyToAddress_range. }
  assert (Hhb : Hash_Bytes (hashShastaSubproofCarry carry) <> []).
  { intros Hn. apply (f_equal length) in Hn. by rewrite length_Hash_Bytes in Hn. }
  unfold Hash_Hex at 1. rewrite !TrimSpace_hex by done.
  change (String.eqb (prefixedHex bytes) "") with false.
  change (String.eqb (prefixedHex (Hash_Bytes (hashShastaSubproofCarry carry))) "") with false.
  unfold hashShastaSubproofInput, decodeCarry. rewrite (decodeCarryStrict_json Hhex) by done.
  cbn [reject_if res_bind wrap_err].
  rewrite parseHashHex_hex by apply hashWords_range. cbn [res_bind wrap_err].
  rewrite Z.eqb_refl, parseHexBytes_hex by done. cbn [negb reject_if res_bind wrap_err].
  rewrite Hdec. cbn [res_bind wrap_err]. eexists. split; [done|]. split; [done|].
  unfold proof_signed, signerIdentity. cbn [ap_InputHash ap_Carry ap_InstanceID
    ap_InstanceAddress ap_Signature id_InstanceID id_InstanceAddress].
  rewrite <- Haddr. done.
Qed.

(** All the items. *)
Lemma aggregate_items_own (Hhex : hexutil_reads_hex) (Hrec : recovers) signer key inst
  carries results :
  signs_with signer key inst -> is_uint 32 inst -> Forall typed_carry carries ->
  Forall (fun c => carryFitsShastaWidths c = true) carries ->
  Forall2 (fun c r => buildProofResult (hashShastaSubproofCarry c) signer = Ok r) carries results ->
  forall i, exists proofs,
    for_range (fun _ => aggregate_item) i (zip_with proof_item carries results) = Ok proofs /\
    ap_Carry <$> proofs = carries /\ Forall (proof_signed (signerIdentity key inst)) proofs.
Proof.
  intros Hs Hi Ht Hf Hall. induction Hall as [|c r carries results Hb Hall IH]; intros i.
  { exists []. split_conj; [done|done|constructor]. }
  apply Forall_cons in Ht as [Htc Ht]. apply Forall_cons in Hf as [Hfc Hf].
  destruct (aggregate_item_own Hhex Hrec _ _ _ _ _ Hs Hi Htc Hfc Hb) as (p & Hp & Hc & Hsig).
  destruct (IH Ht Hf (S i)) as (ps & Hps & Hcs & Hsigs).
  exists (p :: ps). cbn [zip_with for_range]. rewrite Hp. cbn [res_bind]. rewrite Hps.
  split_conj; [done|by rewrite fmap_cons, Hc, Hcs|by constructor].
Qed.

(** The proofs of a validated carry vector fit their widths. *)
Lemma validated_fits carries :
  validateShastaProofCarryDataVec carries = true ->
  Forall (fun c => carryFitsShastaWidths c = true) carries.
Proof.
  unfold validateShastaProofCarryDataVec. destruct carries as [|f l]; [done|].
  rewrite andb_true_iff, forallb_forall. intros [Hall _].
  apply Forall_forall. intros c Hc. apply list_elem_of_In in Hc.
  specialize (Hall _ Hc). by apply andb_true_iff in Hall as [? _].
Qed.

Lemma aggregate_own_proofs (Hhex : hexutil_reads_hex) (Hrec : recovers) s key inst carries
  results config :
  svc_aggregateEnabled s = true -> signs_with (svc_signer s) key inst -> is_uint 32 inst ->
  Forall typed_carry carries -> validateShastaProofCarryDataVec carries = true ->
  chainConfigFor (default 0 (cv_ChainID <$> head carries)) = Ok config ->
  Forall2 (fun c r => buildProofResult (hashShastaSubproofCarry c) (svc_signer s) = Ok r)
    carries results ->
  exists v d, ValidateAggregateRequest (aggregate_request carries results) = Ok v /\
    hashShastaAggregationCarries carries
      (id_InstanceAddress (signerIdentity key inst)) = Ok d /\
    Aggregate s (Some v) = buildProofResult d (svc_signer s).
Proof.
  intros He Hs Hi Ht Hv Hc Hall. pose proof (validated_fits _ Hv) as Hf.
  destruct (aggregate_items_own Hhex Hrec _ _ _ _ _ Hs Hi Ht Hf Hall 0) as (ps & Hps & Hcs & Hsig).
  destruct (proj2 (hashShastaAggregationCarries_ok carries
    (id_InstanceAddress (signerIdentity key inst))) Hv) as [d Hd].
  destruct Hall as [|c r carries results Hb Hall]; [done|].
  destruct ps as [|p ps]; [done|]. apply Forall_cons in Hsig as [Hp Hsig].
  exists {| va_Request := aggregate_request (c :: carries) (r :: results);
    va_Proofs := p :: ps; va_validated := true |}, d. split_conj; [|done|].
  - unfold ValidateAggregateRequest, aggregate_request. cbn [aq_Schema aq_Payload ag_Proofs].
    rewrite String.eqb_refl. cbn [negb reject_if res_bind zip_with length Nat.eqb].
    change (proof_item c r :: zip_with proof_item carries results) with
      (zip_with proof_item (c :: carries) (r :: results)).
    rewrite Hps. cbn [res_bind]. rewrite Hcs, Hv. cbn [negb reject_if res_bind head some_or].
    assert (Hchain : ap_Carry p = c) by by injection Hcs.
    rewrite Hchain. cbn [head fmap option_fmap option_map default] in Hc. unfold id in Hc.
    rewrite Hc. cbn [wrap_err res_bind tail].
    assert (Hcheck : for_check (fun _ proof =>
      reject_if (negb (ap_InstanceID proof =? ap_InstanceID p))
        (Errorf "aggregate proof instance id mismatch") ;;!
      reject_if (negb (ap_InstanceAddress proof =? ap_InstanceAddress p))
        (Errorf "aggregate proof instance address mismatch")) 0 ps = Ok tt) by
      (apply (for_check_Forall (fun proof : AggregateProofView => reject_if _ _ ;;! _));
       eapply Forall_impl; [exact Hsig|]; intros q (_ & Hq1 & Hq2 & _);
       destruct Hp as (_ & Hp1 & Hp2 & _); by rewrite Hq1, Hq2, Hp1, Hp2, !Z.eqb_refl).
    by rewrite Hcheck.
  - unfold buildProofResult. destruct Hs as [Hident Hsign].
    destruct (SignHash (svc_signer s) d) as [output|e] eqn:Eo; cbn [res_bind].
    + apply Aggregate_ok. split; [done|].
      eexists _, (signerIdentity key inst), d, output. split_conj; try done.
      * cbn [va_Proofs]. by constructor.
      * cbn [va_Proofs]. by rewrite Hcs.
    + unfold Aggregate. rewrite He, Hident. cbn [negb reject_if res_bind some_or va_validated va_Proofs].
      destruct Hp as (Hp0 & Hp1 & Hp2 & Hp3). rewrite Hp1, Hp2, !Z.eqb_refl.
      cbn [negb reject_if res_bind]. rewrite Hcs, Hd. cbn [res_bind].
      assert (Hsigs : validateAggregateProofSignatures (p :: ps)
        (id_InstanceID (signerIdentity key inst))
        (id_InstanceAddress (signerIdentity key inst)) = Ok tt)
        by (apply signatures_ok; by constructor).
      rewrite Hsigs. cbn [res_bind]. by rewrite Eo.
Qed.

(** C23 (a service aggregates its own proofs): let a service that may aggregate
    sign the carries of consecutive proposals of a known chain, one result for
    each.  The aggregate request made of these results, inputs, proof texts and
    carries on the wire, is validated, and aggregating it returns what signing
    the digest of the range returns: nothing is lost or refused on the way
    through hexadecimal text, the 89-byte proofs, JSON and signature recovery. *)
Theorem aggregate_roundtrip (Hhex : hexutil_reads_hex) (Hrec : recovers) s key inst carries
  results config
  (He : svc_aggregateEnabled s = true) (Hs : signs_with (svc_signer s) key inst)
  (Hi : is_uint 32 inst) (Ht : Forall typed_carry carries)
  (Hv : validateShastaProofCarryDataVec carries = true)
  (Hc : chainConfigFor (default 0 (cv_ChainID <$> head carries)) = Ok config)
  (Hall : Forall2 (fun c r => buildProofResult (hashShastaSubproofCarry c) (svc_signer s) = Ok r)
    carries results) :
  exists v d, ValidateAggregateRequest (aggregate_request carries results) = Ok v /\
    hashShastaAggregationCarries carries
      (id_InstanceAddress (signerIdentity key inst)) = Ok d /\
    Aggregate s (Some v) = buildProofResult d (svc_signer s).
Proof. by eapply aggregate_own_proofs. Qed.
End Roundtrip.

Section Sample.
#[local] Existing Instance sample_hexutil.
#[local] Existing Instance sample_keccak.
#[local] Existing Instance sample_core_types.
#[local] Existing Instance sample_config_types.
#[local] Existing Instance sample_params.
#[local] Existing Instance sample_ecdsa.
#[local] Existing Instance sample_address_text.

(** Two consecutive proposals signed by instance 9. *)
Definition sample_service : ReplayService := {|
  svc_runner _ _ _ _ := Err (Errorf "not called");
  svc_signer := tee_signer (NewTEEProofSigner (77 : @PrivateKey sample_ecdsa) 9);
  svc_aggregateEnabled := true |}.

Definition sample_result (c : CarryView) : ProofResult :=
  match buildProofResult (hashShastaSubproofCarry c) (svc_signer sample_service) with
  | Ok r => r
  | Err _ => {| pr_Proof := None; pr_Quote := None; pr_PublicKey := None;
                pr_InstanceAddress := None; pr_Input := "" |}
  end.

Lemma aggregate_roundtrip_witness :
  exists v d, ValidateAggregateRequest (aggregate_request [sample_carry 7; sample_carry 8]
      [sample_result (sample_carry 7); sample_result (sample_carry 8)]) = Ok v /\
    Aggregate sample_service (Some v) = buildProofResult d (svc_signer sample_service).
Proof.
  destruct (chainConfigFor 167000) as [config|] eqn:Hc; [|vm_compute in Hc; discriminate].
  destruct (aggregate_roundtrip sample_hexutil_reads sample_recovers sample_service
    (77 : @PrivateKey sample_ecdsa) 9
    [sample_carry 7; sample_carry 8]
    [sample_result (sample_carry 7); sample_result (sample_carry 8)] config)
    as (v & d & Hv & _ & Ha).
  - reflexivity.
  - apply (tee_signs_with (NewTEEProofSigner (77 : @PrivateKey sample_ecdsa) 9)). reflexivity.
  - vm_compute. split; congruence.
  - apply (bool_decide_unpack _). vm_compute. exact I.
  - vm_compute. reflexivity.
  - exact Hc.
  - constructor; [reflexivity|]. constructor; [reflexivity|constructor].
  - exists v, d. split; [exact Hv|exact Ha].
Defined.
End Sample.
