(* ===== verification/Server.v ===== *)
(** * The HTTP server

    [internal/api/server.go], the response types of
    [internal/protocol/shasta_v1.go] and the service interface of
    [internal/prover/service.go]: the body of a request is decoded under the
    size limit, the request validated and proved or aggregated, and every
    outcome answered with its status.  The responses carry the error value
    where the source writes its text.  [http.ServeMux] sends a request to a
    handler when the path is exactly the registered one; its own answers to
    other paths are not modelled. *)

From Stdlib Require Import Ascii.
From S2P Require Import Abi.
From S2P Require Import Prelude Bytes GoStd External Json JsonText Types CoreTypes Hash.
From S2P Require Import Proposal Forks Decode GuestInput Blobs Manifest AnchorLink Execution.
From S2P Require Import AnchorSig Binding Signer Replay Validate Prove Aggregate.

#[local] Open Scope string_scope.
#[local] Open Scope list_scope.
#[local] Open Scope Z_scope.

(* ------------------------------------------------------------------ *)
(** ** Messages *)

Definition ProofSchemaV1 : string := "raiko2-proof-v1".

Inductive ProofStatus := ProofStatusOK | ProofStatusError.

Record ProofError := { pe_Code : string; pe_Message : error }.

Record ProofResponse := {
  ps_Schema : string;
  ps_Status : ProofStatus;
  ps_Result : option ProofResult;
  ps_Error : option ProofError;
}.

Definition Success (result : ProofResult) : ProofResponse := {|
  ps_Schema := ProofSchemaV1; ps_Status := ProofStatusOK;
  ps_Result := Some result; ps_Error := None |}.

Definition Failure (err : ProofError) : ProofResponse := {|
  ps_Schema := ProofSchemaV1; ps_Status := ProofStatusError;
  ps_Result := None; ps_Error := Some err |}.

(** A request with the context the server gives it. *)
Record HttpRequest := {
  hr_Method : string;
  hr_Path : string;
  hr_ContentLength : Z;
  hr_Body : list byte;
  hr_Context : Context;
}.

Inductive ResponseBody :=
  | HealthBody (status : string)
  | ProofBody (response : ProofResponse).

Record HttpResponse := {
  re_Status : Z;
  re_ContentType : string;
  re_Body : ResponseBody;
}.

Definition StatusOK : Z := 200.
Definition StatusBadRequest : Z := 400.
Definition StatusForbidden : Z := 403.
Definition StatusMethodNotAllowed : Z := 405.
Definition StatusRequestEntityTooLarge : Z := 413.
Definition StatusInternalServerError : Z := 500.
Definition StatusNotImplemented : Z := 501.

Definition writeJSON (statusCode : Z) (value : ResponseBody) : HttpResponse := {|
  re_Status := statusCode; re_ContentType := "application/json"; re_Body := value |}.

Definition writeError (statusCode : Z) (code : string) (message : error) : HttpResponse :=
  writeJSON statusCode (ProofBody (Failure {| pe_Code := code; pe_Message := message |})).

(* ------------------------------------------------------------------ *)
(** ** Reading a body *)

Definition io_EOF : string := "io.EOF".
Definition MaxBytesError : string := "http.MaxBytesError".
Definition max_bytes_error : error := Typed MaxBytesError (Errorf "http: request body too large").

(** What a reader delivers: the bytes, and the error after them ([None] is
    [io.EOF]). *)
Definition stream : Type := chars * option error.

(** [http.MaxBytesReader]: an oversized body is cut, and reading on fails. *)
Definition MaxBytesReader (body : list byte) (limit : Z) : stream :=
  if Z.of_nat (length body) <=? limit then (chars_of_bytes body, None)
  else (chars_of_bytes (take (Z.to_nat limit) body), Some max_bytes_error).

(** A value at top level that is not an object or an array ends only where the
    next byte or the end of the input is seen. *)
Definition self_delimiting (v : json) : bool :=
  match v with JObj _ | JArr _ => true | _ => false end.

(** [decoder.Decode] up to the tree: the next value of the stream. *)
Definition next_value (s : stream) : result (json * stream) :=
  let '(input, fin) := s in
  match scan_json input with
  | Bad => Err (Errorf "invalid character")
  | More =>
      match fin with
      | Some e => Err e
      | None =>
          match skip_space input with
          | [] => Err (Sentinel io_EOF)
          | _ => Err (Sentinel "io.ErrUnexpectedEOF")
          end
      end
  | Done v rest =>
      match rest, fin with
      | [], Some e => if self_delimiting v then Ok (v, (rest, fin)) else Err e
      | _, _ => Ok (v, (rest, fin))
      end
  end.

Definition one_value_only : error :=
  Errorf "request body must contain exactly one JSON value".

(** [decode] reads the tree into the destination. *)
Definition decodeRequest {A} (limit : Z) (r : HttpRequest) (decode : json -> result A)
  : result A :=
  if limit <? hr_ContentLength r then Err max_bytes_error
  else
    let! first := next_value (MaxBytesReader (hr_Body r) limit) in
    let! dst := decode first.1 in
    match next_value first.2 with
    | Err err => if errors_Is err io_EOF then Ok dst else Err err
    | Ok (JNull, _) | Ok (JObj _, _) => Err one_value_only
    | Ok _ => Err unmarshal_error
    end.

Definition decodeErrorResponse (err : error) : string * Z :=
  if errors_As err MaxBytesError then ("REQUEST_TOO_LARGE", StatusRequestEntityTooLarge)
  else ("INVALID_JSON", StatusBadRequest).

(* ------------------------------------------------------------------ *)
(** ** Decoding the request types

    [encoding/json] decodes every member with a field's name over what the
    field holds; [null] leaves a scalar or a struct alone and resets a slice
    or a pointer.  A slice keeps the memory of its elements ([fst]) beyond its
    length ([snd]), and a later array of the same object is decoded over it. *)

Definition fold_members {A} (dec : A -> json -> result A) (old : A) (name : string)
  (members : list (string * json)) : result A :=
  for_fold (fun _ => dec) 0 old (members_of name members).

Definition dec_string (old : string) (v : json) : result string :=
  match v with JNull => Ok old | JStr s => Ok s | _ => Err unmarshal_error end.

Definition dec_uint64 (old : Z) (v : json) : result Z :=
  match v with JNull => Ok old | JNum literal => ParseUint literal 10 64
             | _ => Err unmarshal_error end.

Definition dec_raw (_ : RawMessage) (v : json) : result RawMessage := Ok (Some v).

Definition dec_slice {A} (dec : A -> json -> result A) (zero : A) (old : list A * nat) (v : json)
  : result (list A * nat) :=
  match v with
  | JNull | JArr [] => Ok ([], 0%nat)
  | JArr items =>
      let! elements := for_range (fun i item => dec (default zero (old.1 !! i)) item) 0 items in
      Ok (elements ++ drop (length items) old.1, length items)
  | _ => Err unmarshal_error
  end.

Definition slice_field {A} (dec : A -> json -> result A) (zero : A) (name : string)
  (old : list A) (members : list (string * json)) : result (list A) :=
  let! s := fold_members (dec_slice dec zero) (old, length old) name members in
  Ok (take s.2 s.1).

Definition dec_struct {A} (fields : A -> list (string * json) -> result A) (old : A) (v : json)
  : result A :=
  match v with
  | JNull => Ok old
  | JObj members => fields old members
  | _ => Err unmarshal_error
  end.

Definition dec_ReplayBlock : ReplayBlock -> json -> result ReplayBlock :=
  dec_struct (fun old members =>
    let! block := fold_members dec_raw (rb_Block old) "block" members in
    let! chainSpec := fold_members dec_raw (rb_ChainSpec old) "chain_spec" members in
    let! witness := fold_members dec_raw (rb_Witness old) "witness" members in
    let! accounts := fold_members dec_raw (rb_Accounts old) "accounts" members in
    Ok {| rb_Block := block; rb_ChainSpec := chainSpec; rb_Witness := witness;
          rb_Accounts := accounts |}).

Definition zero_ReplayBlock : ReplayBlock :=
  {| rb_Block := None; rb_ChainSpec := None; rb_Witness := None; rb_Accounts := None |}.

(** A list of raw messages: every element is the value itself. *)
Definition dec_item (_ v : json) : result json := Ok v.

Definition dec_ShastaGuestInput : ShastaGuestInput -> json -> result ShastaGuestInput :=
  dec_struct (fun old members =>
    let! witnesses := slice_field dec_item JNull "witnesses" (gi_Witnesses old) members in
    let! taiko := fold_members dec_raw (gi_Taiko old) "taiko" members in
    let! ancestors := slice_field dec_item JNull "proposal_ancestor_headers"
      (gi_ProposalAncestorHeaders old) members in
    let! nodes := slice_field dec_item JNull "proposal_state_nodes"
      (gi_ProposalStateNodes old) members in
    let! carry := fold_members dec_raw (gi_ProofCarryData old) "proof_carry_data" members in
    Ok {| gi_Witnesses := witnesses; gi_Taiko := taiko;
          gi_ProposalAncestorHeaders := ancestors; gi_ProposalStateNodes := nodes;
          gi_ProofCarryData := carry |}).

Definition zero_ShastaGuestInput : ShastaGuestInput :=
  {| gi_Witnesses := []; gi_Taiko := None; gi_ProposalAncestorHeaders := [];
     gi_ProposalStateNodes := []; gi_ProofCarryData := None |}.

(** Into a pointer. *)
Definition dec_pointer {A} (dec : A -> json -> result A) (zero : A) (old : option A) (v : json)
  : result (option A) :=
  match v with
  | JNull => Ok None
  | _ => let! x := dec (default zero old) v in Ok (Some x)
  end.

Definition dec_ShastaPayload : ShastaPayload -> json -> result ShastaPayload :=
  dec_struct (fun old members =>
    let! chainID := fold_members dec_uint64 (sl_ChainID old) "chain_id" members in
    let! blocks := slice_field dec_ReplayBlock zero_ReplayBlock "blocks" (sl_Blocks old) members in
    let! carry := fold_members dec_raw (sl_ProofCarryData old) "proof_carry_data" members in
    let! guestInput := fold_members (dec_pointer dec_ShastaGuestInput zero_ShastaGuestInput)
      (sl_GuestInput old) "guest_input" members in
    Ok {| sl_ChainID := chainID; sl_Blocks := blocks; sl_ProofCarryData := carry;
          sl_GuestInput := guestInput |}).

Definition zero_ShastaPayload : ShastaPayload :=
  {| sl_ChainID := 0; sl_Blocks := []; sl_ProofCarryData := None; sl_GuestInput := None |}.

Definition decode_ShastaRequest (v : json) : result ShastaRequest :=
  dec_struct (fun old members =>
    let! schema := fold_members dec_string (rq_Schema old) "schema" members in
    let! payload := fold_members dec_ShastaPayload (rq_Payload old) "payload" members in
    Ok {| rq_Schema := schema; rq_Payload := payload |})
    {| rq_Schema := ""; rq_Payload := zero_ShastaPayload |} v.

Definition dec_AggregateProof : AggregateProof -> json -> result AggregateProof :=
  dec_struct (fun old members =>
    let! input := fold_members dec_string (ai_Input old) "input" members in
    let! proof := fold_members dec_string (ai_Proof old) "proof" members in
    let! carry := fold_members dec_raw (ai_ProofCarryData old) "proof_carry_data" members in
    Ok {| ai_Input := input; ai_Proof := proof; ai_ProofCarryData := carry |}).

Definition zero_AggregateProof : AggregateProof :=
  {| ai_Input := ""; ai_Proof := ""; ai_ProofCarryData := None |}.

Definition dec_ShastaAggregatePayload
  : ShastaAggregatePayload -> json -> result ShastaAggregatePayload :=
  dec_struct (fun old members =>
    let! proofs := slice_field dec_AggregateProof zero_AggregateProof "proofs" (ag_Proofs old)
      members in
    Ok {| ag_Proofs := proofs |}).

Definition decode_ShastaAggregateRequest (v : json) : result ShastaAggregateRequest :=
  dec_struct (fun old members =>
    let! schema := fold_members dec_string (aq_Schema old) "schema" members in
    let! payload := fold_members dec_ShastaAggregatePayload (aq_Payload old) "payload" members in
    Ok {| aq_Schema := schema; aq_Payload := payload |})
    {| aq_Schema := ""; aq_Payload := {| ag_Proofs := [] |} |} v.

(* ------------------------------------------------------------------ *)
(** ** Services *)

Section Handlers.
Context `{HexUtil} `{ConfigTypes} `{!ChainParams} `{CoreTypes} `{StateTypes} `{!Evm} `{Secp}
  `{Keccak} `{Abi} `{Kzg} `{!Eip4396} `{!ManifestCodec} `{AddressText} `{Ecdsa}.

(** The interface [Service]. *)
Record Service := {
  srv_Prove : Context -> option ValidatedRequest -> result ProofResult;
  srv_Aggregate : Context -> option ValidatedAggregateRequest -> result ProofResult;
}.

Definition ErrNotImplemented : error := Sentinel "prover.ErrNotImplemented".

Definition StubService : Service := {|
  srv_Prove _ _ := Err ErrNotImplemented;
  srv_Aggregate _ _ := Err ErrNotImplemented |}.

Definition replay_service (s : ReplayService) : Service := {|
  srv_Prove := Prove s;
  srv_Aggregate _ := Aggregate s |}.

(* ------------------------------------------------------------------ *)
(** ** Handlers

    A handler returns what it logs and what it answers. *)

Inductive LogEntry :=
  | LogUndecoded (handler code : string) (message : error)
  | LogProveFailed (metadata : RequestLogMetadata) (code : string) (message : error)
  | LogProved (metadata : RequestLogMetadata) (proposalID : Z)
  | LogAggregateFailed (schema : string) (proofCount : nat) (code : string) (message : error)
  | LogAggregated (schema proposalIDs : string) (proofCount : nat).

Definition handler : Type := HttpRequest -> list LogEntry * HttpResponse.

Definition methodNotAllowed (expected : string) : list LogEntry * HttpResponse :=
  ([], writeError StatusMethodNotAllowed "METHOD_NOT_ALLOWED" (Errorf expected)).

Definition undecoded (name : string) (err : error) : list LogEntry * HttpResponse :=
  let '(code, statusCode) := decodeErrorResponse err in
  ([LogUndecoded name code err], writeError statusCode code err).

Definition healthz : handler := fun r =>
  if negb (String.eqb (hr_Method r) "GET") then methodNotAllowed "expected GET"
  else ([], writeJSON StatusOK (HealthBody "ok")).

(** [errors.As] finds the [*ValidationError] the validation returned. *)
Definition proveShastaRequestLogMetadata (req : ShastaRequest) (err : ValidationError + error)
  : RequestLogMetadata :=
  match err with
  | inl validationErr => ve_Metadata validationErr
  | inr _ => {| lm_Schema := rq_Schema req; lm_ChainID := sl_ChainID (rq_Payload req);
                lm_BlockCount := length (sl_Blocks (rq_Payload req)) |}
  end.

(** The metadata of a validated request, as the handler logs it. *)
Definition validated_metadata (v : ValidatedRequest) : RequestLogMetadata := {|
  lm_Schema := rq_Schema (vr_Request v);
  lm_ChainID := sl_ChainID (payload_of v);
  lm_BlockCount := length (sl_Blocks (payload_of v)) |}.

Definition prover_error (err : error) : string * Z :=
  if errors_Is err "prover.ErrNotImplemented" then ("NOT_IMPLEMENTED", StatusNotImplemented)
  else ("PROVER_ERROR", StatusInternalServerError).

Definition proveShasta (service : Service) (bodyLimit : Z) : handler := fun r =>
  if negb (String.eqb (hr_Method r) "POST") then methodNotAllowed "expected POST"
  else
    match decodeRequest bodyLimit r decode_ShastaRequest with
    | Err err => undecoded "prove/shasta" err
    | Ok req =>
        match ValidateRequestWithContext (hr_Context r) req with
        | inr verr =>
            let metadata := proveShastaRequestLogMetadata req (inl verr) in
            ([LogProveFailed metadata "INVALID_REQUEST" (ve_Err verr)],
             writeError StatusBadRequest "INVALID_REQUEST" (ve_Err verr))
        | inl validated =>
            match srv_Prove service (hr_Context r) (Some validated) with
            | Err err =>
                let '(code, statusCode) := prover_error err in
                ([LogProveFailed (validated_metadata validated) code err],
                 writeError statusCode code err)
            | Ok result =>
                ([LogProved (validated_metadata validated)
                    (ti_ProposalID (cv_TransitionInput (vr_Carry validated)))],
                 writeJSON StatusOK (ProofBody (Success result)))
            end
        end
    end.

Definition aggregateProposalIDSummary (proofs : list AggregateProofView) : string :=
  match proofs with
  | [] => "none"
  | p :: _ =>
      let first := ti_ProposalID (cv_TransitionInput (ap_Carry p)) in
      let last_ := ti_ProposalID (cv_TransitionInput (ap_Carry (List.last proofs p))) in
      if first =? last_ then format_uint first
      else format_uint first +:+ ".." +:+ format_uint last_
  end.

Definition aggregate_error (err : error) : string * Z :=
  if errors_Is err "prover.ErrNotImplemented" then ("NOT_IMPLEMENTED", StatusNotImplemented)
  else if errors_Is err "prover.ErrAggregateDisabled" then
    ("AGGREGATE_DISABLED", StatusForbidden)
  else ("PROVER_ERROR", StatusInternalServerError).

Definition proveShastaAggregate (service : Service) (bodyLimit : Z) : handler := fun r =>
  if negb (String.eqb (hr_Method r) "POST") then methodNotAllowed "expected POST"
  else
    match decodeRequest bodyLimit r decode_ShastaAggregateRequest with
    | Err err => undecoded "prove/shasta-aggregate" err
    | Ok req =>
        let schema := aq_Schema req in
        let count := length (ag_Proofs (aq_Payload req)) in
        match ValidateAggregateRequest req with
        | Err err =>
            ([LogAggregateFailed schema count "INVALID_REQUEST" err],
             writeError StatusBadRequest "INVALID_REQUEST" err)
        | Ok validated =>
            match srv_Aggregate service (hr_Context r) (Some validated) with
            | Err err =>
                let '(code, statusCode) := aggregate_error err in
                ([LogAggregateFailed schema count code err], writeError statusCode code err)
            | Ok result =>
                ([LogAggregated schema (aggregateProposalIDSummary (va_Proofs validated)) count],
                 writeJSON StatusOK (ProofBody (Success result)))
            end
        end
    end.

Definition healthzPath : string := "/healthz".
Definition proveShastaPath : string := "/prove/shasta".
Definition proveShastaAggregatePath : string := "/prove/shasta-aggregate".

(** [512 << 20]. *)
Definition maxRequestBodyBytes : Z := Z.shiftl 512 20.

(** The handler registered for a path. *)
Definition newServer (service : Service) (bodyLimit : Z) (path : string) : option handler :=
  if String.eqb path healthzPath then Some healthz
  else if String.eqb path proveShastaPath then Some (proveShasta service bodyLimit)
  else if String.eqb path proveShastaAggregatePath
  then Some (proveShastaAggregate service bodyLimit)
  else None.

Definition NewServer (service : Service) : string -> option handler :=
  newServer service maxRequestBodyBytes.
End Handlers.

(* ------------------------------------------------------------------ *)
(** ** Reading a body *)

Lemma scan_json_space cs : skip_space cs = [] -> scan_json cs = More.
Proof. intros Hs. unfold scan_json. cbn [scan_value]. by rewrite Hs. Qed.

(** Only the end of the input, after blanks, is [io.EOF]. *)
Lemma next_value_eof input fin e :
  next_value (input, fin) = Err e -> errors_Is e io_EOF = true ->
  (fin = None \/ exists e', fin = Some e' /\ e = e') /\
  (fin = None -> skip_space input = []).
Proof.
  unfold next_value. destruct (scan_json input) as [v rest| |] eqn:Hs.
  - destruct rest, fin as [e'|]; try discriminate.
    destruct (self_delimiting v); [discriminate|]. intros [= ->] He.
    split; [right; by exists e|done].
  - destruct fin as [e'|].
    + intros [= ->] He. split; [right; by exists e|done].
    + destruct (skip_space input) as [|c cs] eqn:Hsk; [|by intros [= <-]].
      intros [= <-] _. split; [by left|done].
  - by intros [= <-].
Qed.

Lemma next_value_whole input :
  next_value (input, None) =
  match scan_json input with
  | Done v rest => Ok (v, (rest, None))
  | Bad => Err (Errorf "invalid character")
  | More => match skip_space input with
            | [] => Err (Sentinel io_EOF)
            | _ => Err (Sentinel "io.ErrUnexpectedEOF")
            end
  end.
Proof. unfold next_value. by destruct (scan_json input) as [v []| |]. Qed.

(** A body is read exactly when it fits and is one JSON value. *)
Lemma decodeRequest_ok {A} limit r (decode : json -> result A) a :
  decodeRequest limit r decode = Ok a <->
  hr_ContentLength r <= limit /\ Z.of_nat (length (hr_Body r)) <= limit /\
  exists v, Unmarshal_text (hr_Body r) = Ok v /\ decode v = Ok a.
Proof.
  unfold decodeRequest, MaxBytesReader.
  destruct (Z.ltb_spec limit (hr_ContentLength r)) as [Hcl|Hcl].
  { split; [done|]. intros [? _]. lia. }
  destruct (Z.leb_spec (Z.of_nat (length (hr_Body r))) limit) as [Hlen|Hlen].
  - unfold Unmarshal_text. rewrite next_value_whole.
    destruct (scan_json (chars_of_bytes (hr_Body r))) as [v rest| |] eqn:Hs.
    2:{ split; [by destruct (skip_space _)|]. by intros (_ & _ & v & [=] & _). }
    2:{ split; [done|]. by intros (_ & _ & v & [=] & _). }
    cbn [res_bind fst snd]. split.
    + intros Hd. apply res_bind_ok in Hd as (dst & Hd & Hr).
      destruct (next_value (rest, None)) as [[v2 s2]|e] eqn:Hn; [by destruct v2|].
      destruct (errors_Is e io_EOF) eqn:He; [|done]. injection Hr as <-.
      destruct (next_value_eof _ _ _ Hn He) as [_ Hsk].
      split_conj; [done|done|]. exists v. by rewrite (Hsk eq_refl).
    + intros (_ & _ & v' & Hv & Hd). destruct (skip_space rest) eqn:Hsk; [|done].
      injection Hv as <-. rewrite Hd. cbn [res_bind].
      unfold next_value. rewrite (scan_json_space _ Hsk), Hsk. done.
  - split; [|lia]. intros Hd. exfalso.
    apply res_bind_ok in Hd as ([v s] & Hn & Hd). apply res_bind_ok in Hd as (dst & _ & Hr).
    assert (Hfin : s.2 = Some max_bytes_error).
    { unfold next_value in Hn. repeat case_match; simplify_eq; done. }
    destruct s as [rest fin]. cbn [fst snd] in *. subst fin.
    destruct (next_value (rest, Some max_bytes_error)) as [[v2 s2]|e] eqn:Hn2; [by destruct v2|].
    destruct (errors_Is e io_EOF) eqn:He; [|done].
    destruct (next_value_eof _ _ _ Hn2 He) as [[|(e' & [= <-] & ->)] _]; [done|].
    vm_compute in He. discriminate.
Qed.

(** C14 (one JSON value within the limit): [decodeRequest], which reads a
    stream through a size limiter, hands over a request exactly when the
    declared and the actual size are within the limit and [json.Unmarshal]
    accepts the whole body; an oversized, unfinished or doubled body is never
    processed. *)
Theorem decodeRequest_spec {A} limit r (decode : json -> result A) a :
  decodeRequest limit r decode = Ok a <->
  hr_ContentLength r <= limit /\ Z.of_nat (length (hr_Body r)) <= limit /\
  exists v, Unmarshal_text (hr_Body r) = Ok v /\ decode v = Ok a.
Proof. apply decodeRequest_ok. Qed.

(* ------------------------------------------------------------------ *)
(** ** What is answered *)

Section Answers.
Context `{HexUtil} `{ConfigTypes} `{!ChainParams} `{CoreTypes} `{StateTypes} `{!Evm} `{Secp}
  `{Keccak} `{Abi} `{Kzg} `{!Eip4396} `{!ManifestCodec} `{AddressText} `{Ecdsa}.

(** What the server answers; nothing if no handler has the path. *)
Definition answer (service : Service) (bodyLimit : Z) (r : HttpRequest) : option HttpResponse :=
  (fun h : handler => (h r).2) <$> newServer service bodyLimit (hr_Path r).

(** An answer with an error and nothing else, and one with a result. *)
Definition error_answer (status : Z) (code : string) (err : error) (re : HttpResponse) : Prop :=
  re = {| re_Status := status; re_ContentType := "application/json";
          re_Body := ProofBody {| ps_Schema := "raiko2-proof-v1"; ps_Status := ProofStatusError;
            ps_Result := None; ps_Error := Some {| pe_Code := code; pe_Message := err |} |} |}.

Definition result_answer (result : ProofResult) (re : HttpResponse) : Prop :=
  re = {| re_Status := 200; re_ContentType := "application/json";
          re_Body := ProofBody {| ps_Schema := "raiko2-proof-v1"; ps_Status := ProofStatusOK;
            ps_Result := Some result; ps_Error := None |} |}.

(** The answers of a proving endpoint, case by case: [validate] and [serve] are
    what it asks, [failed] how a failure of the service is answered. *)
Record endpoint_answers {Req Val} (decode : json -> result Req) (validate : Req -> Val + error)
  (serve : Val -> result ProofResult) (failed : error -> HttpResponse -> Prop)
  (bodyLimit : Z) (r : HttpRequest) (re : HttpResponse) : Prop := {
  ea_method : hr_Method r <> "POST" ->
    error_answer 405 "METHOD_NOT_ALLOWED" (Errorf "expected POST") re;
  ea_declared : hr_Method r = "POST" -> bodyLimit < hr_ContentLength r ->
    exists err, error_answer 413 "REQUEST_TOO_LARGE" err re;
  ea_too_large : forall err, hr_Method r = "POST" -> decodeRequest bodyLimit r decode = Err err ->
    errors_As err "http.MaxBytesError" = true -> error_answer 413 "REQUEST_TOO_LARGE" err re;
  ea_undecoded : forall err, hr_Method r = "POST" -> decodeRequest bodyLimit r decode = Err err ->
    errors_As err "http.MaxBytesError" = false -> error_answer 400 "INVALID_JSON" err re;
  ea_invalid : forall req err, hr_Method r = "POST" ->
    decodeRequest bodyLimit r decode = Ok req -> validate req = inr err ->
    error_answer 400 "INVALID_REQUEST" err re;
  ea_failed : forall req v err, hr_Method r = "POST" ->
    decodeRequest bodyLimit r decode = Ok req -> validate req = inl v -> serve v = Err err ->
    failed err re;
  ea_proved : forall req v result, hr_Method r = "POST" ->
    decodeRequest bodyLimit r decode = Ok req -> validate req = inl v -> serve v = Ok result ->
    result_answer result re;
}.

(** How a failure to prove and a failure to aggregate are answered. *)
Definition prove_failure (err : error) (re : HttpResponse) : Prop :=
  (errors_Is err "prover.ErrNotImplemented" = true -> error_answer 501 "NOT_IMPLEMENTED" err re) /\
  (errors_Is err "prover.ErrNotImplemented" = false -> error_answer 500 "PROVER_ERROR" err re).

Definition aggregate_failure (err : error) (re : HttpResponse) : Prop :=
  (errors_Is err "prover.ErrNotImplemented" = true -> error_answer 501 "NOT_IMPLEMENTED" err re) /\
  (errors_Is err "prover.ErrNotImplemented" = false ->
   errors_Is err "prover.ErrAggregateDisabled" = true ->
   error_answer 403 "AGGREGATE_DISABLED" err re) /\
  (errors_Is err "prover.ErrNotImplemented" = false ->
   errors_Is err "prover.ErrAggregateDisabled" = false ->
   error_answer 500 "PROVER_ERROR" err re).

Definition validate_prove (r : HttpRequest) (req : ShastaRequest) : ValidatedRequest + error :=
  match ValidateRequestWithContext (hr_Context r) req with
  | inl v => inl v
  | inr verr => inr (ve_Err verr)
  end.

Definition validate_aggregate (req : ShastaAggregateRequest) : ValidatedAggregateRequest + error :=
  match ValidateAggregateRequest req with Ok v => inl v | Err err => inr err end.

Lemma decodeRequest_declared {A} limit r (decode : json -> result A) :
  limit < hr_ContentLength r -> decodeRequest limit r decode = Err max_bytes_error.
Proof. intros Hl. unfold decodeRequest. apply Z.ltb_lt in Hl. by rewrite Hl. Qed.

Lemma not_post m : m <> "POST" -> String.eqb m "POST" = false.
Proof. apply String.eqb_neq. Qed.

(** One case of the table: the facts of the case decide what the handler does. *)
Ltac endpoint_case :=
  intros; unfold prove_failure, aggregate_failure, error_answer, result_answer in *;
  repeat match goal with
  | H : hr_Method _ = "POST" |- _ => rewrite H; clear H
  | H : hr_Method _ <> "POST" |- _ => rewrite (not_post _ H); clear H
  | H : _ < hr_ContentLength _ |- _ => eexists; rewrite (decodeRequest_declared _ _ _ H); clear H
  | H : decodeRequest _ _ _ = _ |- _ => rewrite H; clear H
  | H : errors_As _ _ = _ |- _ => rewrite H; clear H
  end; try reflexivity.

Lemma proveShasta_answers service bodyLimit r :
  endpoint_answers decode_ShastaRequest (validate_prove r)
    (fun v => srv_Prove service (hr_Context r) (Some v)) prove_failure bodyLimit r
    (proveShasta service bodyLimit r).2.
Proof.
  constructor; unfold proveShasta, undecoded, decodeErrorResponse, validate_prove, MaxBytesError;
    endpoint_case.
  - by destruct (ValidateRequestWithContext _ _) as [v|verr]; simplify_eq.
  - destruct (ValidateRequestWithContext _ _) as [w|verr]; simplify_eq.
    repeat match goal with H : srv_Prove _ _ _ = _ |- _ => rewrite H; clear H end.
    unfold prover_error. split; intros He; by rewrite He.
  - destruct (ValidateRequestWithContext _ _) as [w|verr]; simplify_eq.
    by repeat match goal with H : srv_Prove _ _ _ = _ |- _ => rewrite H; clear H end.
Qed.

Lemma proveShastaAggregate_answers service bodyLimit r :
  endpoint_answers decode_ShastaAggregateRequest validate_aggregate
    (fun v => srv_Aggregate service (hr_Context r) (Some v)) aggregate_failure bodyLimit r
    (proveShastaAggregate service bodyLimit r).2.
Proof.
  constructor; unfold proveShastaAggregate, undecoded, decodeErrorResponse, validate_aggregate,
    MaxBytesError; endpoint_case.
  - by destruct (ValidateAggregateRequest _) as [v|verr]; simplify_eq.
  - destruct (ValidateAggregateRequest _) as [w|verr]; simplify_eq.
    repeat match goal with H : srv_Aggregate _ _ _ = _ |- _ => rewrite H; clear H end.
    unfold aggregate_error. split_conj.
    + intros He. by rewrite He.
    + intros He Hd. by rewrite He, Hd.
    + intros He Hd. by rewrite He, Hd.
  - destruct (ValidateAggregateRequest _) as [w|verr]; simplify_eq.
    by repeat match goal with H : srv_Aggregate _ _ _ = _ |- _ => rewrite H; clear H end.
Qed.

(** C15 (every outcome has its answer): on the two proving paths the server
    answers a method other than POST with 405, a body declared or found too
    large with 413, one that does not decode or a request that does not
    validate with 400, a service that does not implement the call with 501,
    any other failure with 500, except that a disabled aggregation gives 403,
    and a result with 200; an error answer is the v1 object of its code and
    error without a result, and the answer to a result carries it without an
    error.  A valid aggregation request to a service that may not aggregate is
    such a 403.  The health check answers only GET, and no other path has a
    handler. *)
Theorem handlers_answer service bodyLimit r :
  (hr_Path r = "/prove/shasta" -> exists re, answer service bodyLimit r = Some re /\
     endpoint_answers decode_ShastaRequest (validate_prove r)
       (fun v => srv_Prove service (hr_Context r) (Some v)) prove_failure bodyLimit r re) /\
  (hr_Path r = "/prove/shasta-aggregate" -> exists re, answer service bodyLimit r = Some re /\
     endpoint_answers decode_ShastaAggregateRequest validate_aggregate
       (fun v => srv_Aggregate service (hr_Context r) (Some v)) aggregate_failure bodyLimit r re) /\
  (forall s req v, hr_Path r = "/prove/shasta-aggregate" -> hr_Method r = "POST" ->
     decodeRequest bodyLimit r decode_ShastaAggregateRequest = Ok req ->
     ValidateAggregateRequest req = Ok v -> svc_aggregateEnabled s = false ->
     exists re, answer (replay_service s) bodyLimit r = Some re /\
       error_answer 403 "AGGREGATE_DISABLED" ErrAggregateDisabled re) /\
  (hr_Path r = "/healthz" -> exists re, answer service bodyLimit r = Some re /\
     (hr_Method r = "GET" -> re_Status re = 200 /\ re_Body re = HealthBody "ok") /\
     (hr_Method r <> "GET" -> error_answer 405 "METHOD_NOT_ALLOWED" (Errorf "expected GET") re)) /\
  (answer service bodyLimit r = None <->
     hr_Path r ∉ ["/healthz"; "/prove/shasta"; "/prove/shasta-aggregate"]).
Proof.
  unfold answer, newServer. split_conj.
  - intros ->. eexists. split; [reflexivity|]. apply proveShasta_answers.
  - intros ->. eexists. split; [reflexivity|]. apply proveShastaAggregate_answers.
  - intros s req v -> Hm Hd Hv Hs. eexists. split; [reflexivity|].
    eapply (ea_failed _ _ _ _ _ _ _ (proveShastaAggregate_answers (replay_service s) bodyLimit r));
      [done|exact Hd|unfold validate_aggregate; by rewrite Hv| |done|done].
    cbn. unfold Aggregate. by rewrite Hs.
  - intros ->. eexists. split; [reflexivity|]. cbn [healthzPath String.eqb Ascii.eqb Bool.eqb fst snd].
    unfold healthz. split.
    + intros ->. by split.
    + intros Hm%String.eqb_neq. by rewrite Hm.
  - destruct (String.eqb_spec (hr_Path r) healthzPath) as [->|H1n];
      [|destruct (String.eqb_spec (hr_Path r) proveShastaPath) as [->|H2n];
        [|destruct (String.eqb_spec (hr_Path r) proveShastaAggregatePath) as [->|H3n]]];
      unfold healthzPath, proveShastaPath, proveShastaAggregatePath in *; cbn; set_solver.
Qed.

(** Only a result is answered with 200. *)
Lemma proveShasta_200 service bodyLimit r :
  re_Status (proveShasta service bodyLimit r).2 = 200 ->
  hr_Method r = "POST" /\ exists req v result,
    decodeRequest bodyLimit r decode_ShastaRequest = Ok req /\
    ValidateRequestWithContext (hr_Context r) req = inl v /\
    srv_Prove service (hr_Context r) (Some v) = Ok result /\
    result_answer result (proveShasta service bodyLimit r).2.
Proof.
  unfold proveShasta. destruct (String.eqb_spec (hr_Method r) "POST") as [Hm|]; cbn [negb]; [|done].
  destruct (decodeRequest _ _ _) as [req|err].
  2:{ unfold undecoded, decodeErrorResponse. by destruct (errors_As _ _). }
  destruct (ValidateRequestWithContext _ _) as [v|verr] eqn:Hv; [|done].
  destruct (srv_Prove _ _ _) as [res|err] eqn:Hp.
  - intros _. split; [done|]. by exists req, v, res.
  - unfold prover_error. by destruct (errors_Is _ _).
Qed.

Lemma proveShasta_serves service bodyLimit r req v result :
  hr_Method r = "POST" -> decodeRequest bodyLimit r decode_ShastaRequest = Ok req ->
  ValidateRequestWithContext (hr_Context r) req = inl v ->
  srv_Prove service (hr_Context r) (Some v) = Ok result ->
  result_answer result (proveShasta service bodyLimit r).2.
Proof. intros Hm Hd Hv Hp. unfold proveShasta. by rewrite Hm, Hd, Hv, Hp. Qed.

Lemma result_answer_200 result re : result_answer result re -> re_Status re = 200.
Proof. by intros ->. Qed.

Lemma answer_proveShasta service bodyLimit r :
  hr_Path r = "/prove/shasta" ->
  answer service bodyLimit r = Some (proveShasta service bodyLimit r).2.
Proof. unfold answer, newServer. by intros ->. Qed.

(** C6 (a 200 stands for an executed proposal): when the server answers a
    request to [/prove/shasta] with status 200, the request was a POST whose
    body is one JSON value within the limit that decodes to a request, and the
    answer carries a result that proves that request's proposal: it is the
    output of the service's signer on the hash of the carry, the carry follows
    from the guest input, and the blocks are the canonical derivation of the
    proposal from its blobs, each executed to the roots of its header. *)
Theorem served_proof_sound s bodyLimit r re (Hshasta : IsShasta_from_time)
  (Hpath : hr_Path r = "/prove/shasta")
  (Hre : answer (replay_service s) bodyLimit r = Some re) (Hok : re_Status re = 200) :
  hr_Method r = "POST" /\ Z.of_nat (length (hr_Body r)) <= bodyLimit /\
  exists result v req, result_answer result re /\
    Unmarshal_text (hr_Body r) = Ok v /\ decode_ShastaRequest v = Ok req /\
    proves s (hr_Context r) (hr_Context r) req result.
Proof.
  rewrite (answer_proveShasta _ _ _ Hpath) in Hre. injection Hre as <-.
  apply proveShasta_200 in Hok as (Hm & req & v & result & Hd & Hv & Hp & Hres).
  apply decodeRequest_ok in Hd as (_ & Hlen & t & Ht & Hd). split_conj; [done..|].
  exists result, t, req. split_conj; [done..|]. by eapply (prove_validated_ok s _ _ req v v).
Qed.
End Answers.
