(* ===== verification/Serve.v ===== *)
(** * The life of the server

    [serveHTTP] of [cmd/gaiko2/main.go] runs [http.Server.Serve] in a goroutine
    that reports its error through a channel with one place, and waits for
    that error or for the cancellation of its context, upon which it shuts the
    server down within a grace period.  The two goroutines, the channel and the
    server are the state of a transition system; what clients, signals and the
    clock do are transitions of their own.

    The behaviour of [http.Server] is the documented one: [Serve] returns a
    non-nil error, [ErrServerClosed] exactly when [Shutdown] was called;
    [Shutdown] stops new requests at once and returns when the running ones
    have finished or its context expires. *)

From S2P Require Import Prelude GoStd.

#[local] Open Scope string_scope.
#[local] Open Scope Z_scope.

(* ------------------------------------------------------------------ *)
(** ** Addresses *)

(** A [net.Addr]: its [String] method, and for a [*net.TCPAddr] the bytes of
    the IP ([[]] when nil) and the port. *)
Record TCPAddr := { ta_IP : list Z; ta_Port : Z }.
Record Addr := { ad_tcp : option TCPAddr; ad_String : string }.

(** [IP.IsUnspecified]: 0.0.0.0, also written as an IPv6 address, or [::]. *)
Definition IsUnspecified (ip : list Z) : bool :=
  existsb (fun zero => bool_decide (ip = zero))
    [replicate 4 0; (replicate 10 0 ++ [255; 255] ++ replicate 4 0)%list; replicate 16 0].

Definition formatListeningAddr (addr : Addr) : string :=
  match ad_tcp addr with
  | None => ad_String addr
  | Some tcpAddr =>
      if bool_decide (ta_IP tcpAddr = []) || IsUnspecified (ta_IP tcpAddr)
      then "0.0.0.0:" +:+ format_uint (ta_Port tcpAddr)
      else ad_String addr
  end.

(* ------------------------------------------------------------------ *)
(** ** The server *)

Definition second : Z := 1000000000.
Definition serverReadHeaderTimeout : Z := 10 * second.
Definition serverIdleTimeout : Z := 120 * second.
Definition serverShutdownGrace : Z := 30 * second.

(** The fields of [http.Server] that are set; zero is no limit. *)
Record http_Server (Handler : Type) := {
  hs_Handler : Handler;
  hs_ReadHeaderTimeout : Z;
  hs_ReadTimeout : Z;
  hs_WriteTimeout : Z;
  hs_IdleTimeout : Z;
}.
Arguments hs_Handler {Handler}.
Arguments hs_ReadHeaderTimeout {Handler}.
Arguments hs_ReadTimeout {Handler}.
Arguments hs_WriteTimeout {Handler}.
Arguments hs_IdleTimeout {Handler}.

Definition newHTTPServer {Handler} (handler : Handler) : http_Server Handler := {|
  hs_Handler := handler;
  hs_ReadHeaderTimeout := serverReadHeaderTimeout;
  hs_ReadTimeout := 0;
  hs_WriteTimeout := 0;
  hs_IdleTimeout := serverIdleTimeout;
|}.

Definition ErrServerClosed : string := "http.ErrServerClosed".
Definition DeadlineExceeded : error := Sentinel "context.DeadlineExceeded".

(** The error is never nil: [Serve] returned it. *)
Definition normalizeServeError (err : error) : result unit :=
  if errors_Is err ErrServerClosed then Ok tt else Err err.

(* ------------------------------------------------------------------ *)
(** ** [serveHTTP] *)

(** Where the caller of [serveHTTP] is: at the [select], inside [Shutdown],
    at the last receive, or back with a result. *)
Inductive main_at :=
  | Selecting
  | ShuttingDown
  | Receiving
  | Returned (r : result unit).

(** Where the goroutine is: inside [Serve], about to send its error, ended. *)
Inductive goroutine_at :=
  | Serving
  | Sending (err : error)
  | Ended.

Record serveState := {
  ss_main : main_at;
  ss_goroutine : goroutine_at;
  ss_serveErr : option error; (** the channel *)
  ss_cancelled : bool; (** the context *)
  ss_inShutdown : bool; (** [Shutdown] was called *)
  ss_requests : nat; (** being handled *)
}.

Definition serve_start : serveState := {|
  ss_main := Selecting; ss_goroutine := Serving; ss_serveErr := None;
  ss_cancelled := false; ss_inShutdown := false; ss_requests := 0 |}.

Definition at_main (m : main_at) (s : serveState) : serveState := {|
  ss_main := m; ss_goroutine := ss_goroutine s; ss_serveErr := ss_serveErr s;
  ss_cancelled := ss_cancelled s; ss_inShutdown := ss_inShutdown s;
  ss_requests := ss_requests s |}.

Definition at_goroutine (g : goroutine_at) (s : serveState) : serveState := {|
  ss_main := ss_main s; ss_goroutine := g; ss_serveErr := ss_serveErr s;
  ss_cancelled := ss_cancelled s; ss_inShutdown := ss_inShutdown s;
  ss_requests := ss_requests s |}.

Definition set_serveErr (c : option error) (s : serveState) : serveState := {|
  ss_main := ss_main s; ss_goroutine := ss_goroutine s; ss_serveErr := c;
  ss_cancelled := ss_cancelled s; ss_inShutdown := ss_inShutdown s;
  ss_requests := ss_requests s |}.

Definition set_requests (n : nat) (s : serveState) : serveState := {|
  ss_main := ss_main s; ss_goroutine := ss_goroutine s; ss_serveErr := ss_serveErr s;
  ss_cancelled := ss_cancelled s; ss_inShutdown := ss_inShutdown s; ss_requests := n |}.

Definition set_inShutdown (s : serveState) : serveState := {|
  ss_main := ss_main s; ss_goroutine := ss_goroutine s; ss_serveErr := ss_serveErr s;
  ss_cancelled := ss_cancelled s; ss_inShutdown := true; ss_requests := ss_requests s |}.

Definition set_cancelled (s : serveState) : serveState := {|
  ss_main := ss_main s; ss_goroutine := ss_goroutine s; ss_serveErr := ss_serveErr s;
  ss_cancelled := true; ss_inShutdown := ss_inShutdown s; ss_requests := ss_requests s |}.

(** What the two goroutines, the server and the clock of the grace period do. *)
Inductive serve_step : serveState -> serveState -> Prop :=
  (** [Serve] returns once [Shutdown] was called, *)
  | step_closed s :
      ss_goroutine s = Serving -> ss_inShutdown s = true ->
      serve_step s (at_goroutine (Sending (Sentinel ErrServerClosed)) s)
  (** and its error goes into the channel if there is room. *)
  | step_send s err :
      ss_goroutine s = Sending err -> ss_serveErr s = None ->
      serve_step s (set_serveErr (Some err) (at_goroutine Ended s))
  (** The two cases of the [select]: *)
  | step_select_err s err :
      ss_main s = Selecting -> ss_serveErr s = Some err ->
      serve_step s (set_serveErr None (at_main (Returned (normalizeServeError err)) s))
  | step_select_done s :
      ss_main s = Selecting -> ss_cancelled s = true ->
      serve_step s (set_inShutdown (at_main ShuttingDown s))
  (** [Shutdown] returns because nothing runs any more, *)
  | step_shut_down s :
      ss_main s = ShuttingDown -> ss_requests s = 0%nat ->
      serve_step s (at_main Receiving s)
  (** or because closing the listener failed, *)
  | step_shutdown_err s err :
      ss_main s = ShuttingDown -> ss_requests s = 0%nat ->
      serve_step s (at_main (Returned (Err (Wrapf "shutdown http server" err))) s)
  (** or because the grace period is over. *)
  | step_expired s :
      ss_main s = ShuttingDown ->
      serve_step s
        (at_main (Returned (Err (Wrapf "shutdown http server" DeadlineExceeded))) s)
  | step_receive s err :
      ss_main s = Receiving -> ss_serveErr s = Some err ->
      serve_step s (set_serveErr None (at_main (Returned (normalizeServeError err)) s)).

(** What clients, signals and the listener do. *)
Inductive world_step : serveState -> serveState -> Prop :=
  | step_request s :
      ss_goroutine s = Serving -> ss_inShutdown s = false ->
      world_step s (set_requests (S (ss_requests s)) s)
  | step_finish s n :
      ss_requests s = S n -> world_step s (set_requests n s)
  | step_cancel s : world_step s (set_cancelled s)
  | step_listener_err s err :
      ss_goroutine s = Serving -> ss_inShutdown s = false ->
      errors_Is err ErrServerClosed = false ->
      world_step s (at_goroutine (Sending err) s).

Definition any_step (s s' : serveState) : Prop := serve_step s s' \/ world_step s s'.

(* ------------------------------------------------------------------ *)
(** ** Invariant *)

(** The error of [Serve] is on its way: with the goroutine or in the channel. *)
Definition err_pending (s : serveState) : Prop :=
  ss_goroutine s = Ended -> ss_serveErr s <> None.

Record serve_inv (s : serveState) : Prop := {
  si_channel : forall err, ss_serveErr s = Some err -> ss_goroutine s = Ended;
  si_shutdown : ss_inShutdown s = true -> ss_cancelled s = true /\ ss_main s <> Selecting;
  si_closed : forall err, ss_goroutine s = Sending err \/ ss_serveErr s = Some err ->
    errors_Is err ErrServerClosed = true -> ss_inShutdown s = true;
  si_main :
    match ss_main s with
    | Selecting => err_pending s
    | ShuttingDown => ss_inShutdown s = true /\ err_pending s
    | Receiving => ss_inShutdown s = true /\ ss_requests s = 0%nat /\ err_pending s
    | Returned (Ok _) => ss_inShutdown s = true /\ ss_requests s = 0%nat
    | Returned (Err err) =>
        errors_Is err ErrServerClosed = false /\ ss_goroutine s = Ended \/
        ss_inShutdown s = true /\ exists cause, err = Wrapf "shutdown http server" cause
    end;
}.

Lemma serve_start_inv : serve_inv serve_start.
Proof. by constructor; try naive_solver. Qed.

Lemma normalize_result err (shut : bool) (n : nat) :
  (errors_Is err ErrServerClosed = true -> shut = true /\ n = 0%nat) ->
  match normalizeServeError err with
  | Ok _ => shut = true /\ n = 0%nat
  | Err e => errors_Is e ErrServerClosed = false /\ Ended = Ended \/
      shut = true /\ exists cause, e = Wrapf "shutdown http server" cause
  end.
Proof. unfold normalizeServeError. destruct (errors_Is err _) eqn:He; naive_solver. Qed.

Lemma serve_step_inv s s' : serve_inv s -> serve_step s s' -> serve_inv s'.
Proof.
  intros [Hch Hsh Hcl Hm] Hstep.
  destruct Hstep as [s Hg Hi|s err Hg Hc|s err Hma Hc|s Hma Hc|s Hma Hr|s err Hma Hr|s Hma
    |s err Hma Hc]; try rewrite Hma in Hm; destruct s as [m g ch can shut n]; cbn in *; subst;
    unfold err_pending in *; cbn in *.
  - constructor; cbn; [|done|done|].
    + intros e He. by apply Hch in He.
    + unfold err_pending; cbn. destruct m as [| | |[|]]; intuition congruence.
  - constructor; cbn; [done|done| |].
    + intros e [|[= <-]]; [done|]. apply Hcl. by left.
    + unfold err_pending; cbn. destruct m as [| | |[|]]; intuition congruence.
  - specialize (Hch err eq_refl). subst g. constructor; cbn; [done| |intros e [|]; done|].
    + intros Hs. by apply Hsh in Hs as [? ?].
    + apply normalize_result. intros He. exfalso.
      destruct (Hsh (Hcl err (or_intror eq_refl) He)) as [_ Hne]. by apply Hne.
  - constructor; cbn; [done|done| |done]. intros e He Hc. done.
  - constructor; cbn; [done|by intros _; split; [apply Hsh; tauto|]|done|tauto].
  - constructor; cbn; [done|by intros _; split; [apply Hsh; tauto|]|done|].
    right. split; [tauto|]. by eexists.
  - constructor; cbn; [done|by intros _; split; [apply Hsh; tauto|]|done|].
    right. split; [tauto|]. by eexists.
  - specialize (Hch err eq_refl). subst g. constructor; cbn; [done| |intros e [|]; done|].
    + intros Hs. by apply Hsh in Hs as [? ?].
    + apply normalize_result. tauto.
Qed.

Lemma world_step_inv s s' : serve_inv s -> world_step s s' -> serve_inv s'.
Proof.
  intros [Hch Hsh Hcl Hm] Hstep.
  destruct Hstep as [s Hg Hi|s k Hr|s|s err Hg Hi He]; destruct s as [m g ch can shut n];
    cbn in *; subst; unfold err_pending in *; cbn in *.
  - constructor; cbn; [done|done|done|]. unfold err_pending; cbn.
    destruct m as [| | |[|]]; intuition congruence.
  - constructor; cbn; [done|done|done|]. unfold err_pending; cbn.
    destruct m as [| | |[|]]; intuition congruence.
  - constructor; cbn; [done| |done|]; [tauto|done].
  - constructor; cbn; [|done| |].
    + intros e Hc. by apply Hch in Hc.
    + intros e [[= <-]|Hc]; [congruence|]. by apply Hch in Hc.
    + unfold err_pending; cbn. destruct m as [| | |[|]]; intuition congruence.
Qed.

Lemma any_steps_inv s s' : serve_inv s -> rtc any_step s s' -> serve_inv s'.
Proof.
  intros Hi Hr. induction Hr as [s|s s1 s' [Hst|Hst] _ IH]; [done|..]; apply IH.
  - by eapply serve_step_inv.
  - by eapply world_step_inv.
Qed.

(* ------------------------------------------------------------------ *)
(** ** Progress *)

(** What is left to do for the two goroutines. *)
Definition work (s : serveState) : nat :=
  match ss_main s with Selecting => 3 | ShuttingDown => 2 | Receiving => 1 | Returned _ => 0 end +
  match ss_goroutine s with Serving => 2 | Sending _ => 1 | Ended => 0 end.

Lemma work_serve s s' : serve_step s s' -> (work s' < work s)%nat.
Proof.
  intros Hst. unfold work.
  destruct Hst as [s Hg Hi|s err Hg Hc|s err Hma Hc|s Hma Hc|s Hma Hr|s err Hma Hr|s Hma
    |s err Hma Hc]; destruct s as [m g ch can shut n]; cbn in *; subst; lia.
Qed.

Lemma work_world s s' : world_step s s' -> (work s' <= work s)%nat.
Proof.
  intros Hst. unfold work.
  destruct Hst as [s Hg Hi|s k Hr|s|s err Hg Hi He]; destruct s as [m g ch can shut n];
    cbn in *; subst; lia.
Qed.

(** Nobody waits for ever: after the cancellation somebody can move until the
    caller has its result and the goroutine has ended. *)
Lemma cancelled_progress s :
  serve_inv s -> ss_cancelled s = true ->
  (exists s', serve_step s s') \/ (exists r, ss_main s = Returned r) /\ ss_goroutine s = Ended.
Proof.
  intros [Hch Hsh Hcl Hm] Hc. destruct (ss_goroutine s) as [|err|] eqn:Hg.
  - destruct (ss_main s) as [| | |r] eqn:Hma.
    + left. eexists. by apply step_select_done.
    + left. eexists. by apply step_expired.
    + left. eexists. by apply step_closed; [|tauto].
    + left. eexists. apply step_closed; [done|]. destruct r as [|e]; [tauto|].
      by destruct Hm as [[_ [=]]|[? _]].
  - left. eexists. eapply step_send; [done|].
    destruct (ss_serveErr s) as [e|] eqn:He; [|done]. by specialize (Hch _ eq_refl).
  - destruct (ss_main s) as [| | |r] eqn:Hma.
    + left. eexists. by apply step_select_done.
    + left. eexists. by apply step_expired.
    + destruct Hm as (_ & _ & Hp). destruct (ss_serveErr s) as [e|] eqn:He.
      * left. eexists. by eapply step_receive.
      * by apply Hp in Hg.
    + right. eauto.
Qed.

(** C17 (an orderly end): [serveHTTP] returns nil only after its context was
    cancelled and every request had finished, and otherwise the error of the
    listener or of the shutdown; once the context is cancelled, whatever
    requests, the clock and the scheduler do, the two goroutines take at most
    five more steps, and when they cannot take one the function has returned
    and the goroutine inside it has ended, also after a failed shutdown. *)
Theorem serveHTTP_ends s (Hr : rtc any_step serve_start s) :
  (forall r, ss_main s = Returned r ->
     match r with
     | Ok _ => ss_cancelled s = true /\ ss_requests s = 0%nat
     | Err err => errors_Is err ErrServerClosed = false \/
         ss_cancelled s = true /\ exists cause, err = Wrapf "shutdown http server" cause
     end) /\
  (ss_cancelled s = true ->
     (forall n s', nsteps serve_step n s s' -> (n <= 5)%nat) /\
     forall s', rtc any_step s s' -> (forall s'', ~ serve_step s' s'') ->
       (exists r, ss_main s' = Returned r) /\ ss_goroutine s' = Ended).
Proof.
  pose proof (any_steps_inv _ _ serve_start_inv Hr) as Hi. split.
  - intros r Hma. destruct Hi as [_ Hsh _ Hm]. rewrite Hma in Hm.
    destruct r as [|err]; [|destruct Hm as [[? _]|[? ?]]]; naive_solver.
  - intros Hc. split.
    + intros n s' Hn. assert (work s <= 5)%nat as Hw.
      { unfold work. destruct (ss_main s), (ss_goroutine s); lia. }
      enough (work s' + n <= work s)%nat by lia. clear Hw Hi Hr Hc.
      induction Hn as [s|n s s1 s' Hst _ IH]; [lia|]. apply work_serve in Hst. lia.
    + intros s' Hrs Hstuck. assert (ss_cancelled s' = true) as Hc'.
      { clear Hi Hr Hstuck. induction Hrs as [s|s s1 s' Hst _ IH]; [done|]. apply IH.
        by destruct Hst as [Hst|Hst]; destruct Hst. }
      destruct (cancelled_progress s' (any_steps_inv _ _ Hi Hrs) Hc') as [[s'' Hst]|Hd]; [|done].
      by apply Hstuck in Hst.
Qed.

(** A request arrives, the process is told to stop, the request finishes and
    the server is drained. *)
Definition drained : serveState := {|
  ss_main := Returned (Ok tt); ss_goroutine := Ended; ss_serveErr := None;
  ss_cancelled := true; ss_inShutdown := true; ss_requests := 0 |}.

Lemma drained_reachable : rtc any_step serve_start drained.
Proof.
  eapply rtc_l; [by right; apply step_request|]. eapply rtc_l; [right; apply step_cancel|].
  eapply rtc_l; [by left; apply step_select_done|]. eapply rtc_l; [by right; eapply step_finish|].
  eapply rtc_l; [by left; apply step_closed|]. eapply rtc_l; [by left; apply step_shut_down|].
  eapply rtc_l; [by left; eapply step_send|]. eapply rtc_l; [by left; eapply step_receive|].
  apply rtc_refl.
Qed.

Lemma serveHTTP_ends_witness :
  ss_cancelled drained = true /\ ss_requests drained = 0%nat /\
  forall n s', nsteps serve_step n drained s' -> (n <= 5)%nat.
Proof.
  destruct (serveHTTP_ends drained drained_reachable) as [Hret Hstop].
  destruct (Hret (Ok tt) eq_refl) as [Hc Hn]. destruct (Hstop eq_refl) as [Hle _].
  split; [exact Hc|]. split; [exact Hn|exact Hle].
Defined.

Example listening_ipv4 :
  formatListeningAddr {| ad_tcp := Some {| ta_IP := replicate 16 0; ta_Port := 8080 |};
                         ad_String := "[::]:8080" |} = "0.0.0.0:8080".
Proof. reflexivity. Qed.
