(* ===== verification/Command.v ===== *)
(** * The command line

    [cmd/gaiko2/main.go]: the commands [bootstrap], [check], [metadata] and
    [server], and their dispatch.  What listens and serves is an argument of
    [run_command]; [Serve] models it. *)

From Stdlib Require Import Ascii.
From S2P Require Import Prelude Bytes GoStd FileSystem Rely External Json JsonText Tee.
From S2P Require Import AtomicFile Spared Bootstrap Types CoreTypes Hash Proposal Forks Decode.
From S2P Require Import GuestInput Blobs Manifest AnchorLink Execution AnchorSig Binding.
From S2P Require Import Signer Replay Validate Prove Config Aggregate Server.

#[local] Open Scope string_scope.
#[local] Open Scope list_scope.
#[local] Open Scope Z_scope.

(* ------------------------------------------------------------------ *)
(** ** Package [flag] *)

(** The values of the flags of a command, by name. *)
Abbreviation flag_values := (gmap string string).

(** The position of the first [=] that is not the first character. *)
Fixpoint split_equals (acc cs : chars) : string * option string :=
  match cs with
  | [] => (string_of_list_ascii (rev acc), None)
  | c :: cs' =>
      if Ascii.eqb c "=" && negb (length acc =? 0)%nat
      then (string_of_list_ascii (rev acc), Some (string_of_list_ascii cs'))
      else split_equals (c :: acc) cs'
  end.

Definition flag_error : error := Errorf "bad flag syntax".
Definition ErrHelp : error := Sentinel "flag.ErrHelp".

(** [strconv.ParseBool]. *)
Definition ParseBool (s : string) : result bool :=
  if existsb (String.eqb s) ["1"; "t"; "T"; "TRUE"; "true"; "True"] then Ok true
  else if existsb (String.eqb s) ["0"; "f"; "F"; "FALSE"; "false"; "False"] then Ok false
  else Err (Errorf "strconv.ParseBool: invalid syntax").

Definition bool_text (b : bool) : string := if b then "true" else "false".

(** [flags.Parse]: [bools] are the names of the boolean flags; every flag has
    a value in [values]. *)
Fixpoint parse_flags (bools : list string) (values : flag_values) (args : list string)
  : result flag_values :=
  match args with
  | [] => Ok values
  | s :: rest =>
      match chars_of s with
      | "-"%char :: c :: cs =>
          let body := if Ascii.eqb c "-" then cs else c :: cs in
          match body with
          | [] => Ok values
          | "-"%char :: _ | "="%char :: _ => Err flag_error
          | _ =>
              let '(name, value) := split_equals [] body in
              match values !! name with
              | None => Err (if String.eqb name "help" || String.eqb name "h" then ErrHelp
                             else Errorf "flag provided but not defined")
              | Some _ =>
                  if existsb (String.eqb name) bools then
                    let! b := ParseBool (default "true" value) in
                    parse_flags bools (<[name := bool_text b]> values) rest
                  else
                    match value, rest with
                    | Some v, _ => parse_flags bools (<[name := v]> values) rest
                    | None, v :: rest' => parse_flags bools (<[name := v]> values) rest'
                    | None, [] => Err (Errorf "flag needs an argument")
                    end
              end
          end
      | _ => Ok values
      end
  end.

Definition flag_value (values : flag_values) (name : string) : string :=
  default "" (values !! name).

(* ------------------------------------------------------------------ *)
(** ** Commands *)

Definition envPort : string := "GAIKO2_PORT".
Definition envAttestationPath : string := "GAIKO2_ATTESTATION_PATH".

Definition defaultServerAddr (env : Environment) : string :=
  let port := trimmed env envPort in
  if String.eqb port "" then ":8080"
  else if HasPrefix port ":" then port
  else ":" +:+ port.

(** [errors.Join(first, err)] of an error that may be nil and one that is
    not. *)
Definition join_errors (first : option error) (err : error) : error :=
  match first with Some e => Prelude.Join e err | None => err end.

(** [json.NewEncoder(stdout).Encode(value)]. *)
Definition print_json (value : list (string * json)) : prog (result unit) :=
  sys (Print false (string_of_list_ascii (compact (JObj value) ++ ["010"%char]))).

Definition println (stderr : bool) (text : string) : prog (result unit) :=
  sys (Print stderr (text +:+ String "010" "")).

Definition force_warning : string :=
  "WARNING: --force replaces any existing tee key; the old key and any on-chain registration bound to it become unusable".
Definition rerun_with_force : string :=
  "re-run with --force to replace it (the old key and any on-chain registration bound to it become unusable)".

Definition printUsage : prog (result unit) :=
  let line text k := do! _ <- println false text in k in
  line "gaiko2" (line "" (line "Usage:" (line "  gaiko2 help" (line "  gaiko2 version"
    (line "  gaiko2 bootstrap" (line "  gaiko2 check" (line "  gaiko2 metadata"
    (line "  gaiko2 server" (Ret (Ok tt)))))))))).

Section Commands.
Context `{Ecdsa} `{!Enclave} `{HexUtil} `{!HexText} (env : Environment).

Definition bootstrap_flags (args : list string) : result flag_values :=
  parse_flags ["force"]
    (<["tee-type" := trimmed env envTEEType]>
    (<["secret-dir" := envOrDefault env envSecretDir (DefaultSecretDir (UserHomeDir env))]>
    (<["config-dir" := envOrDefault env envConfigDir (DefaultConfigDir (UserHomeDir env))]>
    {["force" := "false"]}))) args.

(** What follows [teeBootstrapFn]: the data, whether it is to be saved, and
    the error to report at the end. *)
Definition recover_existing (provider : Provider) (configDir : string)
  (booted : result BootstrapData) : prog (result (BootstrapData * bool * option error)) :=
  match booted with
  | Ok data => Ret (Ok (data, true, None))
  | Err err =>
      if errors_Is err "tee.ErrPrivateKeyExists" then
        do! recovered <- BootstrapDataForExistingKey provider configDir in
        match recovered with
        | Err recoverErr =>
            if errors_Is recoverErr "tee.ErrPrivateKeyUnavailable"
            then Ret (Err (Wrapf rerun_with_force (Prelude.Join err recoverErr)))
            else Ret (Err (Wrapf "recover bootstrap data" recoverErr))
        | Ok (data, matches) =>
            Ret (Ok (data, negb matches,
                     if matches then Some (Wrapf rerun_with_force err) else None))
        end
      else Ret (Err err)
  end.

(** The image's attestation metadata is copied beside the bootstrap data. *)
Definition copy_attestation (configDir : string) (existingKeyErr : option error)
  : prog (result unit) :=
  let attestationPath := trimmed env envAttestationPath in
  if String.eqb attestationPath "" then Ret (Ok tt)
  else
    do! read <- ReadAttestationMetadataFile attestationPath in
    match read with
    | Err err => Ret (Err (join_errors existingKeyErr (Wrapf "read attestation metadata" err)))
    | Ok metadata =>
        do! saved <- SaveAttestationMetadata configDir metadata in
        match saved with
        | Err err => Ret (Err (join_errors existingKeyErr (Wrapf "save attestation metadata" err)))
        | Ok _ => Ret (Ok tt)
        end
    end.

Definition runBootstrapCommand (args : list string) : prog (result unit) :=
  try! flags <- Ret (bootstrap_flags args) in
  let secretDir := flag_value flags "secret-dir" in
  let configDir := flag_value flags "config-dir" in
  let force := String.eqb (flag_value flags "force") "true" in
  try! provider <- Ret (NewProvider {| tc_Type := flag_value flags "tee-type";
                                       tc_SecretDir := secretDir |}) in
  try! _ <- (if force then map_result (wrap_err "write bootstrap force warning")
                             (println true force_warning)
             else Ret (Ok tt)) in
  do! booted <- Bootstrap provider force in
  try! outcome <- recover_existing provider configDir booted in
  let '(data, saveBootstrapData, existingKeyErr) := outcome in
  try! _ <- (if (saveBootstrapData : bool) then SaveBootstrapData configDir data
             else Ret (Ok tt)) in
  try! _ <- copy_attestation configDir existingKeyErr in
  match existingKeyErr with
  | Some err => Ret (Err err)
  | None => print_json (encode_BootstrapData data)
  end.

Definition runCheckCommand (args : list string) : prog (result unit) :=
  try! flags <- Ret (parse_flags []
    (<["tee-type" := trimmed env envTEEType]>
    {["secret-dir" := envOrDefault env envSecretDir (DefaultSecretDir (UserHomeDir env))]}) args) in
  try! provider <- Ret (NewProvider {| tc_Type := flag_value flags "tee-type";
                                       tc_SecretDir := flag_value flags "secret-dir" |}) in
  try! _ <- Check provider in
  println false "ok".

Definition runMetadataCommand (args : list string) : prog (result unit) :=
  try! flags <- Ret (parse_flags [] {["path" := trimmed env envAttestationPath]} args) in
  let path := flag_value flags "path" in
  if String.eqb (TrimSpace path) "" then Ret (Err (Errorf "GAIKO2_ATTESTATION_PATH is not set"))
  else
    try! metadata <- ReadAttestationMetadataFile path in
    print_json (encode_AttestationMetadata metadata).
End Commands.

(* ------------------------------------------------------------------ *)
(** ** Dispatch *)

Section Run.
Context `{HexUtil} `{ConfigTypes} `{!ChainParams} `{CoreTypes} `{StateTypes} `{!Evm} `{!Processor}
  `{Ecdsa} `{!Enclave} `{!HexText}.

Definition native_warning (devMode : bool) : string :=
  if devMode then
    "WARNING: native proving mode uses a public deterministic signing key with GAIKO2_DEV_MODE enabled; /prove/shasta-aggregate is ENABLED; use it only for local/development testing, never expose it to untrusted clients, and never register its signer in a verifier protecting real value"
  else
    "WARNING: native proving mode uses a public deterministic signing key; /prove/shasta-aggregate is DISABLED (set GAIKO2_DEV_MODE=1 to enable for local testing); use it only for local/development testing and never register its signer in a verifier protecting real value".

(** The command [server] up to the listener: the address and the service. *)
Definition server_start (env : Environment) (args : list string)
  : prog (result (string * ReplayService)) :=
  let addr := match args with a :: _ => a | [] => defaultServerAddr env end in
  try! configured <- configured_service env in
  let '(cfg, service) := configured in
  do! _ <- println false ("starting gaiko2 provider mode=" +:+ sv_Mode cfg +:+
    " tee_type=" +:+ TrimSpace (sv_TeeType cfg) +:+ " fork=" +:+ TrimSpace (sv_Fork cfg) +:+
    " instance_id=" +:+ format_uint (sv_InstanceID cfg) +:+
    " config_dir=" +:+ sv_ConfigDir cfg +:+ " secret_dir=" +:+ sv_SecretDir cfg +:+
    " listen=" +:+ addr) in
  try! _ <- (if String.eqb (sv_Mode cfg) ProvingModeNative
             then map_result (wrap_err "write native mode warning")
                    (println true (native_warning (sv_DevMode cfg)))
             else Ret (Ok tt)) in
  Ret (Ok (addr, service)).

(** [run], with [serve] for what follows the start of the server. *)
Definition run_command (env : Environment) (serve : string -> ReplayService -> prog (result unit))
  (args : list string) : prog (result unit) :=
  match args with
  | [] => printUsage
  | cmd :: rest =>
      if existsb (String.eqb cmd) ["help"; "-h"; "--help"] then printUsage
      else if String.eqb cmd "version" then println false "gaiko2 dev"
      else if String.eqb cmd "bootstrap" then runBootstrapCommand env rest
      else if String.eqb cmd "check" then runCheckCommand env rest
      else if String.eqb cmd "metadata" then runMetadataCommand env rest
      else if existsb (String.eqb cmd) ["server"; "serve"; "s"] then
        try! started <- server_start env rest in
        let '(addr, service) := started in
        serve addr service
      else Ret (Err (Errorf "unknown command"))
  end.
End Run.

(* ------------------------------------------------------------------ *)
(** ** What [bootstrap] leaves behind *)

Section BootstrapCommand.
Context `{Ecdsa} `{!Enclave} `{HexUtil} `{!HexText}.

Lemma describes_data data key : describes data key = true -> data_of data key.
Proof. unfold describes, data_of. intros Hd. by go_bool. Qed.

(** The data of an existing key, saved or rebuilt, is that of the key on
    disk; nothing is written. *)
Lemma BootstrapDataForExistingKey_run secretDir configDir who o t fs data matches fs' :
  run who o t (BootstrapDataForExistingKey (NewEGoProvider secretDir) configDir) fs =
    (Ok (data, matches), fs') ->
  fs' = fs /\ exists sealed key, contents fs (key_path secretDir) = Some sealed /\
    loads sealed key /\ data_of data key.
Proof.
  unfold BootstrapDataForExistingKey, bind_ok at 1, map_result at 1.
  cbn [NewEGoProvider pv_LoadPrivateKey]. rewrite bind_assoc, LoadPrivateKey_run. cbn [bind].
  destruct (read_answer (o t) fs (key_path secretDir)) as [sealed|e] eqn:Hread; [|done].
  apply read_answer_ok in Hread. cbn [res_bind].
  destruct (let! plainText := Unseal sealed in ToECDSA plainText) as [key|e] eqn:Hload; [|done].
  cbv beta iota zeta. set (rebuild := map_result _ _). intros Hr.
  assert (Hre : forall t1 fs1 r fs2, run who o t1 rebuild fs1 = (r, fs2) ->
    fs2 = fs1 /\ forall d m, r = Ok (d, m) -> data_of d key).
  { intros t1 fs1 r fs2. subst rebuild. cbn -[wrap_err]. intros [= <- <-]. split; [done|].
    intros d m. destruct (wrap_err "load tee quote" _) as [q|]; [|done]. cbn. by intros [= <- _]. }
  destruct (run_bind _ _ _ _ _ _ _ _ Hr) as (t1 & loaded & fs1 & Hr1 & Hr2).
  assert (fs1 = fs) as ->.
  { unfold LoadBootstrapData, readJSON in Hr1. cbn in Hr1. unfold guarded in Hr1.
    destruct (ch_fault (o (S t))); [by simplify_eq/=|].
    destruct (do_ReadFile _ _); by simplify_eq/=. }
  assert (Hd : fs' = fs /\ data_of data key); [|destruct Hd as [-> Hd]; split; [done|]; by exists sealed, key].
  destruct loaded as [existing|e].
  - destruct (describes existing key) eqn:Hdesc.
    + cbn in Hr2. simplify_eq. split; [done|]. by apply describes_data.
    + destruct (Hre _ _ _ _ Hr2) as [-> Hok]. split; [done|]. by eapply Hok.
  - destruct (errors_As e "os.PathError" && negb (errors_Is e fs_ErrNotExist)); [done|].
    destruct (Hre _ _ _ _ Hr2) as [-> Hok]. split; [done|]. by eapply Hok.
Qed.

Lemma contents_is_file key fs c : well_formed fs -> contents fs key = Some c -> is_file key fs.
Proof.
  intros Hw. unfold contents. destruct (lookup_name fs key) as [[perm|n]|] eqn:Hl; try done.
  intros _. split; [apply Hw|by exists n].
Qed.

Lemma durable_contents key who n data fs : durable key who n data fs -> contents fs key = Some data.
Proof.
  intros [[Hl (f & Hf & _ & _ & Hd)] _]. unfold contents. rewrite Hl, Hf. cbn. congruence.
Qed.

(** After [Bootstrap] and, if the key was there, the recovery: the key on disk
    is the one the data describes. *)
Lemma key_described secretDir configDir force who o t fs t1 fs1 fs2 booted data save err :
  well_formed fs ->
  run who o t (Bootstrap (NewEGoProvider secretDir) force) fs = (booted, fs1) ->
  run who o t1 (recover_existing (NewEGoProvider secretDir) configDir booted) fs1 =
    (Ok (data, save, err), fs2) ->
  well_formed fs2 /\ (err = None -> save = true) /\
  exists sealed key, contents fs2 (key_path secretDir) = Some sealed /\ loads sealed key /\
    data_of data key.
Proof.
  intros Hw Hb Hr. pose proof (run_well_formed _ _ _ _ _ _ _ Hw Hb) as Hw1.
  split; [by eapply run_well_formed|].
  destruct booted as [d|e]; cbn [recover_existing] in Hr.
  - cbn in Hr. simplify_eq. split; [done|].
    pose proof (guarantees_run who _ _ _ _ _ o t fs _ fs2
      (Bootstrap_guarantees secretDir who true force) (Hw _) Hb) as [_ Hd].
    destruct (Hd data eq_refl) as (key & n & sealed & Hdata & Hl & Hk).
    exists sealed, key. split; [|done]. by eapply durable_contents, Hk.
  - destruct (errors_Is e "tee.ErrPrivateKeyExists"); [|done].
    destruct (run_bind _ _ _ _ _ _ _ _ Hr) as (t2 & recovered & fs3 & Hr1 & Hr2).
    destruct recovered as [[d m]|e'].
    + apply BootstrapDataForExistingKey_run in Hr1 as (-> & sealed & key & Hc & Hl & Hd).
      cbn in Hr2. simplify_eq. split; [by destruct m|]. by exists sealed, key.
    + destruct (errors_Is e' "tee.ErrPrivateKeyUnavailable"); by cbn in Hr2.
Qed.

Lemma copy_attestation_sparing env key configDir err :
  Join_path (Clean configDir) attestationInfoFilename <> key ->
  sparing key (copy_attestation env configDir err).
Proof.
  intros Hne. unfold copy_attestation.
  destruct (String.eqb _ ""); [by apply careful_sparing|].
  apply sparing_bind; [apply readJSON_sparing|]. intros [metadata|e].
  - apply sparing_bind; [by apply writeJSON_sparing|]. intros [u|e]; by apply careful_sparing.
  - by apply careful_sparing.
Qed.

Lemma print_sparing key stderr text : sparing key (sys (Print stderr text)).
Proof. by apply careful_sparing. Qed.

(** What the command does after it saved the data touches neither the key nor
    the bootstrap file. *)
Lemma command_tail_sparing env key configDir err (k : result unit -> prog (result unit)) :
  Join_path (Clean configDir) attestationInfoFilename <> key ->
  (forall r, sparing key (k r)) ->
  sparing key (bind (copy_attestation env configDir err) k).
Proof. intros Hne Hk. apply sparing_bind; [by apply copy_attestation_sparing|done]. Qed.

(** Saving the data of a sealed key leaves the key alone and is durable. *)
Lemma saved_beside_key secretDir configDir data sealed who o t fs fs' :
  well_formed fs -> contents fs (key_path secretDir) = Some sealed ->
  run who o t (SaveBootstrapData configDir data) fs = (Ok tt, fs') ->
  well_formed fs' /\ contents fs' (key_path secretDir) = Some sealed /\
  exists n, durable (bootstrap_path configDir) who n
    (MarshalIndent (encode_BootstrapData data) ++ [byte_of 10]) fs'.
Proof.
  intros Hw Hc Hs. split; [by eapply run_well_formed|]. split.
  - eapply spared_contents; [|exact Hc]. eapply writeJSON_sparing; [| |exact Hs].
    + intros [=].
    + by eapply contents_is_file.
  - destruct (guarantees_run who _ _ _ _ _ o t fs _ fs'
      (writeJSON_guarantees _ who true (eq _) (encode_BootstrapData data) eq_refl) (Hw _) Hs)
      as [_ Hdur].
    destruct (Hdur eq_refl) as [n Hn]. exists n. exact (Hn eq_refl).
Qed.

(** A recorded file: what a reader finds is the text of the data. *)
Definition reads_data (text : list byte) (data : BootstrapData) : Prop :=
  (let! v := Unmarshal_text text in decode_BootstrapData v) = Ok data.

(** C10 (the key and its registration agree): when the command
    [bootstrap] succeeds, with or without force, after any faults it survived,
    the secret directory holds a key this enclave can load, and what anyone
    reads in the bootstrap file, also after a crash, is the data of that very
    key: its public key and its address. *)
Theorem runBootstrapCommand_consistent env args flags who o t fs fs'
  (Hw : well_formed fs) (Hflags : bootstrap_flags env args = Ok flags)
  (Hrun : run who o t (runBootstrapCommand env args) fs = (Ok tt, fs')) :
  exists data key sealed,
    contents fs' (key_path (flag_value flags "secret-dir")) = Some sealed /\
    loads sealed key /\ data_of data key /\
    forall c, may_read fs' (bootstrap_path (flag_value flags "config-dir")) c ->
      exists text, c = Some text /\ reads_data text data.
Proof.
  unfold runBootstrapCommand in Hrun. rewrite Hflags in Hrun.
  change (bind_ok (Ret (Ok flags)) ?k) with (k flags) in Hrun. cbv beta zeta in Hrun.
  set (secretDir := flag_value flags "secret-dir") in *.
  set (configDir := flag_value flags "config-dir") in *.
  set (force := String.eqb _ "true") in *.
  destruct (NewProvider _) as [provider|e] eqn:Hp; [|done].
  apply NewProvider_ok in Hp as [_ ->].
  change (bind_ok (Ret (Ok ?p)) ?k) with (k p) in Hrun. cbv beta in Hrun.
  destruct (run_bind _ _ _ _ _ _ _ _ Hrun) as (t0 & w & fs0 & H0' & Hrun0). clear Hrun.
  assert (Hw0 : well_formed fs0) by by eapply run_well_formed.
  destruct w as [u|e]; [|done].
  destruct (run_bind _ _ _ _ _ _ _ _ Hrun0) as (t1 & booted & fs1 & Hb & Hrun1).
  destruct (run_bind _ _ _ _ _ _ _ _ Hrun1) as (t2 & outcome & fs2 & Hr & Hrun2).
  destruct outcome as [[[data save] err]|e]; [|done].
  destruct (key_described _ _ _ _ _ _ _ _ _ _ _ _ _ _ Hw0 Hb Hr)
    as (Hw2 & Hsave & sealed & key & Hc & Hl & Hd).
  destruct (run_bind _ _ _ _ _ _ _ _ Hrun2) as (t3 & saved & fs3 & Hs & Hrun3).
  destruct saved as [[]|e]; [|done].
  assert (He : err = None).
  { destruct (run_bind _ _ _ _ _ _ _ _ Hrun3) as (t4 & copied & fs4 & _ & Hrun4).
    by destruct copied, err. }
  subst err. rewrite (Hsave eq_refl) in Hs.
  destruct (saved_beside_key _ _ _ _ _ _ _ _ _ Hw2 Hc Hs) as (Hw3 & Hck & n & Hn).
  assert (Haddr : is_address (bd_InstanceAddress data)).
  { destruct Hd as [-> _]. apply PubkeyToAddress_range. }
  destruct (decode_encode_BootstrapData data Haddr) as [Hplain Hdec].
  assert (Hrest : forall p, Join_path (Clean configDir) attestationInfoFilename <> p ->
    is_file p fs3 -> spared p fs3 fs').
  { intros p Hne Hf. eapply command_tail_sparing; [exact Hne| |exact Hf|exact Hrun3].
    intros [u'|e]; [apply print_sparing|by apply careful_sparing]. }
  exists data, key, sealed. split_and!; [|done|done|].
  - eapply spared_contents; [|exact Hck]. apply Hrest; [by intros [=]|].
    by eapply contents_is_file.
  - intros c Hrd. eexists. split.
    + eapply spared_durable; [|exact Hn|exact Hrd]. apply Hrest; [by intros [=]|].
      eapply contents_is_file; [done|]. by eapply durable_contents.
    + unfold reads_data. by rewrite (Unmarshal_MarshalIndent _ Hplain).
Qed.
End BootstrapCommand.
