(* ===== verification/TeeScenario.v ===== *)
(** * Bootstrapping, run

    A stand-in enclave and a small disk, on which the theorems about the key
    and the state files are applied: processes that interleave call by call,
    writes that fail, and a command that runs to its end. *)

From Stdlib Require Import Ascii.
From S2P Require Import Prelude Bytes GoStd FileSystem Rely External Json JsonText Tee.
From S2P Require Import AtomicFile Spared Bootstrap Types CoreTypes Samples Signer Config Command.
From stdpp Require Import relations.

#[local] Open Scope string_scope.
#[local] Open Scope list_scope.
#[local] Open Scope Z_scope.

(* ------------------------------------------------------------------ *)
(** ** Stand-ins *)

(** A key is written as its sign and its bytes. *)
Definition key_bytes (k : Z) : list byte :=
  byte_of (if k <? 0 then 1 else 0) ::
  be_bytes (Z.to_nat (Z.log2 (Z.abs k) / 8 + 1)) (Z.abs k).

Definition bytes_key (bs : list byte) : result Z :=
  match bs with
  | s :: bs' => Ok (if byte_val s =? 1 then - be_Z bs' else be_Z bs')
  | [] => Err (Errorf "invalid length")
  end.

Lemma bytes_key_bytes k : bytes_key (key_bytes k) = Ok k.
Proof.
  unfold key_bytes, bytes_key. rewrite be_Z_bytes, pow256.
  assert (Hk : 0 <= Z.abs k < 2 ^ (8 * Z.of_nat (Z.to_nat (Z.log2 (Z.abs k) / 8 + 1)))).
  { split; [lia|]. destruct (Z.eqb_spec k 0) as [->|Hne]; [done|].
    pose proof (Z.log2_spec (Z.abs k) ltac:(lia)) as [_ Hlt].
    eapply Z.lt_le_trans; [exact Hlt|]. apply Z.pow_le_mono_r; [lia|].
    pose proof (Z.log2_nonneg (Z.abs k)).
    pose proof (Z.div_mod (Z.log2 (Z.abs k)) 8 ltac:(lia)).
    pose proof (Z.mod_pos_bound (Z.log2 (Z.abs k)) 8 ltac:(lia)).
    rewrite Z2Nat.id by lia. lia. }
  rewrite Z.mod_small by done. rewrite byte_val_of.
  destruct (Z.ltb_spec k 0);
    [change (1 mod 256 =? 1) with true|change (0 mod 256 =? 1) with false];
    cbv iota; f_equal; lia.
Qed.

#[local] Existing Instance sample_ecdsa.
#[local] Existing Instance sample_hexutil.

(** The report is a nonce and the data; sealing prepends a mark. *)
Definition sample_enclave : Enclave.
Proof.
  refine {|
    GetRemoteReport ent data := Ok (replicate 16 x00 ++ data);
    SealWithUniqueKey ent plain := Ok (x53 :: plain);
    Unseal sealed := match sealed with x53 :: plain => Ok plain
                     | _ => Err (Errorf "invalid seal") end;
    GenerateKey ent := Ok (be_Z ent + 1);
    FromECDSA := key_bytes;
    ToECDSA := bytes_key |}.
  - intros ent plain sealed [= <-]. done.
  - apply bytes_key_bytes.
Defined.
#[local] Existing Instance sample_enclave.

Lemma hex_digit_ascii d : 0 <= d < 16 -> ascii_code (hex_digit d) < 128.
Proof.
  intros Hd. unfold hex_digit, ascii_code.
  destruct (Z.ltb_spec d 10); rewrite N_ascii_embedding by lia; lia.
Qed.

Lemma prefixedHex_ascii bs : ascii_text (prefixedHex bs).
Proof.
  unfold ascii_text, prefixedHex, hex_EncodeToString.
  change (Forall (fun c => ascii_code c < 128) ("0"%char :: "x"%char ::
    chars_of (string_of_list_ascii (concat ((fun b => [hex_digit (byte_val b / 16);
      hex_digit (byte_val b mod 16)]) <$> bs))))).
  rewrite chars_of_list. do 2 (constructor; [done|]).
  induction bs as [|b bs IH]; [done|]. rewrite fmap_cons, concat_cons.
  pose proof (byte_val_range b). pose proof (Z.mod_pos_bound (byte_val b) 16 ltac:(lia)).
  repeat constructor; [| |done]; apply hex_digit_ascii; [|done].
  split; [apply Z.div_pos; lia|apply Z.div_lt_upper_bound; lia].
Qed.

Lemma sample_unmarshals bs : @hexutil_UnmarshalText sample_hexutil (prefixedHex bs) = Ok bs.
Proof. exact (sample_hexutil_reads bs). Qed.

Definition sample_hextext : HexText.
Proof.
  refine {|
    hexutil_MarshalText := prefixedHex;
    Address_MarshalText a := prefixedHex (Address_Bytes a);
    Address_UnmarshalText s :=
      let! bs := hexutil_UnmarshalText s in
      reject_if (negb (length bs =? 20)%nat) (Errorf "invalid length") ;;!
      Ok (BytesToAddress bs) |}.
  - intros bs. split; [apply prefixedHex_ascii|apply sample_unmarshals].
  - intros a Ha. split; [apply prefixedHex_ascii|]. rewrite sample_unmarshals. cbn [res_bind].
    rewrite length_Address_Bytes. cbn. by rewrite BytesToAddress_Bytes.
Defined.
#[local] Existing Instance sample_hextext.

(* ------------------------------------------------------------------ *)
(** ** A disk and a schedule *)

(** One empty directory. *)
Definition disk : FS := {|
  fs_names := {[ (true, ["data"]) := [Some (DirEntry mode_755)] ]};
  fs_inodes := [];
  fs_umask := 18;
  fs_out := [] |}.

Lemma disk_well_formed : well_formed disk.
Proof.
  intros p n. unfold versions. cbn [disk fs_names].
  destruct (decide (p = (true, ["data"]))) as [->|Hne].
  - rewrite lookup_singleton_eq. cbn [default].
    intros Hin. apply list_elem_of_singleton in Hin. discriminate.
  - rewrite lookup_singleton_ne by done. cbn [default].
    intros Hin. apply list_elem_of_singleton in Hin. discriminate.
Qed.

(** Process [who] draws the byte [b], or its call fails. *)
Definition draws (b : Z) : choice :=
  {| ch_fault := None; ch_partial := 0; ch_bytes := [byte_of b] |}.
Definition fails : choice :=
  {| ch_fault := Some (path_error (Errorf "input/output error")); ch_partial := 1;
     ch_bytes := [] |}.

Definition exec_step {A} (c : pool A) (s : nat * choice) : pool A :=
  match c.1 !! s.1 with
  | Some m => let '(m', fs') := advance s.1 s.2 m c.2 in (<[s.1 := m']> c.1, fs')
  | None => c
  end.

Definition exec {A} (schedule : list (nat * choice)) (c : pool A) : pool A :=
  fold_left exec_step schedule c.

Lemma exec_reachable {A} schedule (c : pool A) : rtc cstep c (exec schedule c).
Proof.
  revert c. induction schedule as [|[who ch] schedule IH]; intros c; [reflexivity|].
  cbn [exec fold_left]. etransitivity; [|apply IH]. destruct c as [ms fs]. unfold exec_step. cbn.
  destruct (ms !! who) as [m|] eqn:Hm; [|reflexivity].
  destruct (advance who ch m fs) as [m' fs'] eqn:Ha. apply rtc_once. by econstructor.
Qed.

Definition turns (who n : nat) (b : Z) : list (nat * choice) := replicate n (who, draws b).

(* ------------------------------------------------------------------ *)
(** ** Two writers *)

Definition state_file : path := (true, ["state"; "data"]).

Definition two_writers : list writer :=
  [ {| wr_data := [x41; x42]; wr_perm := mode_644; wr_overwrite := true |};
    {| wr_data := [x43]; wr_perm := mode_644; wr_overwrite := true |} ].

(** The second writer stops with a torn temporary file while the first one
    writes, installs and returns. *)
Definition writers_schedule : list (nat * choice) :=
  turns 1 2 7 ++ turns 0 20 8 ++ [(1%nat, fails)].

Definition writers_end : pool (result unit) :=
  exec writers_schedule (write_by state_file <$> two_writers, disk).

Lemma contents_may_read fs p c : contents fs p = Some c -> may_read fs p (Some c).
Proof.
  unfold contents. destruct (lookup_name fs p) as [[perm|n]|] eqn:Hl; try done.
  destruct (fs_inodes fs !! n) as [f|] eqn:Hf; [|done]. cbn. intros [= <-].
  eapply read_file; [by apply lookup_in_versions|exact Hf|done].
Qed.

Definition first_returned (c : pool (result unit)) : bool :=
  match c.1 !! 0%nat with Some (Ret (Ok tt)) => true | _ => false end.

Lemma writers_contents :
  contents writers_end.2 state_file = Some [x41; x42] /\ first_returned writers_end = true.
Proof. split; by vm_compute. Qed.

Lemma writers_reached : exists ms fs,
  rtc cstep (write_by state_file <$> two_writers, disk) (ms, fs) /\
  may_read fs state_file (Some [x41; x42]) /\ ms !! 0%nat = Some (Ret (Ok tt)).
Proof.
  assert (Hs : rtc cstep (write_by state_file <$> two_writers, disk) writers_end).
  { unfold writers_end. apply exec_reachable. }
  pose proof writers_contents as Hc.
  revert Hs Hc. generalize writers_end. intros [ms fs] Hs [Hc Hr]. exists ms, fs.
  split; [exact Hs|]. split; [by apply contents_may_read|].
  revert Hr. unfold first_returned. cbn [fst].
  by destruct (ms !! 0%nat) as [[[[]|e]|B c k]|].
Qed.

Lemma atomicWriteFile_crash_safe_witness : exists fs,
  may_read fs state_file (Some [x41; x42]) /\
  exists w, w ∈ two_writers /\ Some [x41; x42] = Some (wr_data w).
Proof.
  destruct writers_reached as (ms & fs & Hs & Hc & Hr). exists fs. split; [exact Hc|].
  destruct (atomicWriteFile_crash_safe state_file two_writers disk ms fs
    (Some [x41; x42]) (disk_well_formed state_file) Hs Hc) as [_ Hall].
  exact (Hall 0%nat Hr).
Defined.

(* ------------------------------------------------------------------ *)
(** ** Two bootstraps *)

(** Both processes find no key; the second one wins, the first one learns that
    the key exists. *)
Definition boot_schedule : list (nat * choice) :=
  turns 0 5 3 ++ turns 1 40 4 ++ turns 0 40 5.

Definition boots_end : pool (result BootstrapData) :=
  exec boot_schedule (replicate 2 (Bootstrap (NewEGoProvider "/data") false), disk).

Definition won_and_lost (c : pool (result BootstrapData)) : bool :=
  match c.1 !! 1%nat, c.1 !! 0%nat with
  | Some (Ret (Ok _)), Some (Ret (Err e)) => errors_Is e "tee.ErrPrivateKeyExists"
  | _, _ => false
  end.

Lemma boots_end_won : won_and_lost boots_end = true.
Proof. by vm_compute. Qed.

Lemma boots_reached : exists ms fs data,
  rtc cstep (replicate 2 (Bootstrap (NewEGoProvider "/data") false), disk) (ms, fs) /\
  ms !! 1%nat = Some (Ret (Ok data)).
Proof.
  assert (Hs : rtc cstep (replicate 2 (Bootstrap (NewEGoProvider "/data") false), disk)
    boots_end).
  { unfold boots_end. apply exec_reachable. }
  pose proof boots_end_won as Hw. revert Hs Hw.
  generalize boots_end. intros [ms fs] Hs. unfold won_and_lost. cbn [fst].
  destruct (ms !! 1%nat) as [[[data|e]|B c k]|] eqn:Hi; try discriminate.
  intros _. by exists ms, fs, data.
Qed.

Lemma Bootstrap_exclusive_witness : exists fs data key sealed,
  data_of data key /\ loads sealed key /\
  forall c, may_read fs (key_path "/data") c -> c = Some sealed.
Proof.
  destruct boots_reached as (ms & fs & data & Hs & Hi).
  assert (Hno : no_open_files disk) by (intros n f Hf; discriminate Hf).
  destruct (Bootstrap_exclusive "/data" 2 disk ms fs (disk_well_formed _) Hno Hs)
    as [_ Hwin].
  destruct (Hwin 1%nat data Hi) as (_ & key & sealed & Hd & Hl & Hr).
  exists fs, data, key, sealed. split_conj; [exact Hd|exact Hl|exact Hr].
Defined.

(* ------------------------------------------------------------------ *)
(** ** A state file, saved and loaded *)

Definition sample_data : BootstrapData :=
  {| bd_PublicKey := [x04; x05]; bd_InstanceAddress := 66; bd_Quote := [x06] |}.

Definition calm : nat -> choice := fun _ => no_fault.

Definition saves (data : BootstrapData) (r : result unit * FS) : bool :=
  match r.1 with Ok _ => true | Err _ => false end &&
  bool_decide (contents r.2 (bootstrap_path "/data") =
    Some (MarshalIndent (encode_BootstrapData data) ++ [byte_of 10])).

Lemma sample_saves :
  saves sample_data (run 0 calm 0 (SaveBootstrapData "/data" sample_data) disk) = true.
Proof. by vm_compute. Qed.

Lemma sample_saved : exists fs, run 0 calm 0 (SaveBootstrapData "/data" sample_data) disk = (Ok tt, fs) /\
  may_read fs (bootstrap_path "/data") (contents fs (bootstrap_path "/data")).
Proof.
  pose proof sample_saves as Hs. revert Hs.
  destruct (run 0 calm 0 (SaveBootstrapData "/data" sample_data) disk) as [r fs].
  unfold saves. cbn [fst snd]. intros Hs. apply andb_true_iff in Hs as [Hr Hc].
  destruct r as [[]|e]; [|discriminate]. exists fs. split; [done|].
  apply bool_decide_eq_true in Hc. rewrite Hc. by apply contents_may_read.
Qed.

Lemma saved_state_reads_back_witness : exists fs,
  run 0 calm 0 (LoadBootstrapData "/data") fs = (Ok sample_data, fs).
Proof.
  destruct sample_saved as (fs & Hs & Hc). exists fs.
  destruct (saved_state_reads_back "/data" 0 calm 0 calm 0 disk fs fs eq_refl) as [Hb _].
  apply (Hb sample_data); [unfold is_uint, sample_data; cbn; lia|apply disk_well_formed|
    exact Hs|exact Hc].
Defined.

(* ------------------------------------------------------------------ *)
(** ** The command *)

Definition sample_env : Environment := {|
  Getenv key :=
    if String.eqb key envSecretDir then " /data " else
    if String.eqb key envConfigDir then "/data/config" else "";
  UserHomeDir := Err (Errorf "$HOME is not defined") |}.

Definition sample_flags : result (gmap string string) := bootstrap_flags sample_env ["-force"].

Definition command_done (r : result unit * FS) : bool :=
  match r.1 with Ok _ => true | Err _ => false end.

Lemma sample_command_runs :
  command_done (run 0 calm 0 (runBootstrapCommand sample_env ["-force"]) disk) = true.
Proof. by vm_compute. Qed.

Lemma sample_command : exists flags fs, sample_flags = Ok flags /\
  run 0 calm 0 (runBootstrapCommand sample_env ["-force"]) disk = (Ok tt, fs).
Proof.
  pose proof sample_command_runs as Hs. revert Hs.
  destruct (run 0 calm 0 (runBootstrapCommand sample_env ["-force"]) disk) as [r fs].
  unfold command_done. cbn [fst]. destruct r as [[]|e]; [|discriminate]. intros _.
  assert (Hf : is_ok sample_flags = true) by by vm_compute.
  apply is_ok_true in Hf as [flags Hf]. by exists flags, fs.
Qed.

Lemma runBootstrapCommand_consistent_witness : exists flags fs data key sealed,
  contents fs (key_path (flag_value flags "secret-dir")) = Some sealed /\
  loads sealed key /\ data_of data key /\
  forall c, may_read fs (bootstrap_path (flag_value flags "config-dir")) c ->
    exists text, c = Some text /\ reads_data text data.
Proof.
  destruct sample_command as (flags & fs & Hf & Hr). exists flags, fs.
  exact (runBootstrapCommand_consistent sample_env ["-force"] flags 0 calm 0 disk fs
    disk_well_formed Hf Hr).
Defined.
