(* ===== verification/Scenario.v ===== *)
(** * A proposal from request to signature

    A complete request, written as the producers write it and built from one
    anchor-only block, run through validation and proving with the stand-ins of
    Samples.  It shows that the hypotheses of the end-to-end theorems hold
    together, and the theorems are applied to it. *)

From S2P Require Import Abi.
From S2P Require Import Prelude Bytes GoStd Json External Types CoreTypes Samples Anchors.
From S2P Require Import BlobCoder Hash Proposal Forks Decode Fixtures GuestInput Blobs.
From S2P Require Import Manifest AnchorLink Execution AnchorSig Binding Signer Replay Validate.
From S2P Require Import Prove JsonText Aggregate Server.

#[local] Open Scope string_scope.
#[local] Open Scope list_scope.
#[local] Open Scope Z_scope.

Section Scenario.
#[local] Existing Instance sample_hexutil.
#[local] Existing Instance sample_core_types.
#[local] Existing Instance sample_keccak.
#[local] Existing Instance spec_abi.
#[local] Existing Instance sample_config_types.
#[local] Existing Instance sample_params.
#[local] Existing Instance sample_state.
#[local] Existing Instance sample_evm.
#[local] Existing Instance sample_secp.
#[local] Existing Instance sample_ecdsa.
#[local] Existing Instance sample_address_text.

Definition sample_kzg : Kzg := {|
  BlobToCommitment raw := Ok (be_bytes 48 (sample_keccak_fn raw));
  CalcBlobHashV1 commitment := be_bytes 32 (sample_keccak_fn commitment) |}.
#[local] Existing Instance sample_kzg.

Definition sample_fee_rule : Eip4396 := {| VerifyEIP4396Header _ _ _ _ := Ok tt |}.
#[local] Existing Instance sample_fee_rule.

Definition sample_codec : ManifestCodec := {|
  ZReader := list byte;
  zlib_NewReader bs := Ok bs;
  io_ReadAll r := Ok r;
  rlp_DecodeBytes _ := Ok {| sm_Blocks := [] |} |}.
#[local] Existing Instance sample_codec.

(** The state root is always 3; the queues are empty. *)
Definition sample_processor : Processor := {|
  StateProcessor_Process _ _ _ _ := Err (Errorf "not called");
  ValidateState _ _ db _ _ := (Ok tt, db);
  IntermediateRoot db _ := (3, db);
  IsEIP158 _ _ := true;
  ParseDepositLogs requests _ _ := Ok requests;
  ProcessWithdrawalQueue requests m := (Ok requests, m);
  ProcessConsolidationQueue requests m := (Ok requests, m);
  Finalize _ _ db _ := db;
  DeriveSha_receipts receipts := 1000 + Z.of_nat (length receipts) |}.
#[local] Existing Instance sample_processor.

(* ---------------------------------------------------------------- *)
(** ** The block *)

Definition sc_grandparent : Header := sample_header 9 8 1.
Definition sc_parent : Header := sample_header 10 (Header_Hash sc_grandparent) 2.

Definition sc_checkpoint : anchorV4CheckpointView := header_checkpoint sample_l1_499.

Definition sc_taikoL2 : Z :=
  match shastaTaikoL2Address 167001 with Ok a => a | Err _ => 0 end.

Definition sc_unsigned : Transaction :=
  DynamicFeeTx 167001 0 0 10000000 1000000 (Some sc_taikoL2) 0 (encode_anchorV4 sc_checkpoint)
    None 0 0 0.

Definition sc_signature : list byte :=
  match signShastaAnchorPayloadFixedK (Hash_Bytes (sample_tx_hash sc_unsigned)) with
  | Ok sig => sig
  | Err _ => []
  end.

Definition sc_anchor_json : json :=
  dynamic_fee_json 167001 0 0 10000000 1000000 sc_taikoL2 0 (encode_anchorV4 sc_checkpoint)
    (sig_v sc_signature) (sig_r sc_signature) (sig_s sc_signature).

Definition sc_anchor : Transaction :=
  DynamicFeeTx 167001 0 0 10000000 1000000 (Some sc_taikoL2) 0 (encode_anchorV4 sc_checkpoint)
    (Some []) (sig_v sc_signature) (sig_r sc_signature) (sig_s sc_signature).

Definition sc_header : Header := {|
  hd_ParentHash := Header_Hash sc_parent;
  hd_UncleHash := EmptyUncleHash;
  hd_Coinbase := 0x88;
  hd_Root := 3;
  hd_TxHash := DeriveSha_txs [sc_anchor];
  hd_ReceiptHash := 1001;
  hd_Bloom := replicate 256 x00;
  hd_Difficulty := Some 1;
  hd_Number := Some 11;
  hd_GasLimit := 16000000;
  hd_GasUsed := 21000;
  hd_Time := 1700000121;
  hd_Extra := encodeShastaManifestExtraData 75 7;
  hd_MixDigest := shastaManifestMixHash 0 11;
  hd_Nonce := zeros 8;
  hd_BaseFee := Some 10000000;
  hd_WithdrawalsHash := Some EmptyWithdrawalsHash;
  hd_BlobGasUsed := Some 0;
  hd_ExcessBlobGas := Some 0;
  hd_ParentBeaconRoot := Some 0;
  hd_RequestsHash := Some EmptyRequestsHash;
  hd_SlotNumber := None;
  hd_BlockAccessListHash := None |}.

(* ---------------------------------------------------------------- *)
(** ** The request *)

Definition sc_taiko : json :=
  taiko_json sample_origin_proposal 0x77 499 [JObj []] sample_origin sample_l1.

Definition sc_view : BlockView := {|
  bv_Number := 11; bv_Hash := Header_Hash sc_header; bv_ParentHash := Header_Hash sc_parent;
  bv_StateRoot := 3; bv_ReceiptsRoot := 1001 |}.

Definition sc_carry : CarryView :=
  carry_of 167001 0x1234 sample_origin_proposal
    match hashShastaProposal sample_origin_proposal with Ok h => h | Err _ => 0 end
    0x77 sc_view sc_view.

Definition sc_input : ShastaGuestInput := {|
  gi_Witnesses := [witness_json 167001 0x5 sc_header [sc_anchor_json] [sc_parent] []];
  gi_Taiko := Some sc_taiko;
  gi_ProposalAncestorHeaders :=
    [JObj [("header", header_json rpc_style sc_grandparent)];
     JObj [("header", header_json rpc_style sc_parent)]];
  gi_ProposalStateNodes := [];
  gi_ProofCarryData := Some (carry_json sc_carry) |}.

Definition sc_request : ShastaRequest := {|
  rq_Schema := ShastaRequestSchemaV1;
  rq_Payload := {| sl_ChainID := 1; sl_Blocks := []; sl_ProofCarryData := None;
                   sl_GuestInput := Some sc_input |} |}.

(** The stand-in fork rule is the documented one. *)
Lemma sample_IsShasta : IsShasta_from_time.
Proof. intros config t. cbn. unfold time_active. by destruct (cfg_ShastaTime config). Qed.

(* ---------------------------------------------------------------- *)
(** ** The scenario runs *)

(** The default runner, which executes with the stand-in machine, and an
    enclave signer. *)
Definition sc_service : ReplayService :=
  newReplayService None
    (Some (tee_signer {| ts_privateKey := (5 : Z); ts_instanceID := 9;
      ts_instanceIDConfigured := true |})) true.

Definition sc_runs : bool :=
  match DecodeGuestInput sc_input, ValidateRequestWithContext Background sc_request with
  | Ok view, inl v =>
      is_ok (ValidateGuestInputManifestBindingWithContext Background (Some view)) &&
      is_ok (Prove sc_service Background (Some v))
  | _, _ => false
  end.

Lemma sc_runs_true : sc_runs = true.
Proof. by vm_compute. Qed.

Lemma sc_decodes : exists view, DecodeGuestInput sc_input = Ok view /\
  ValidateGuestInputManifestBindingWithContext Background (Some view) = Ok tt.
Proof.
  pose proof sc_runs_true as Hr. unfold sc_runs in Hr.
  destruct (DecodeGuestInput sc_input) as [view|]; [|done].
  destruct (ValidateRequestWithContext Background sc_request) as [v|]; [|done].
  apply andb_true_iff in Hr as [Hr _]. exists view. split; [done|].
  by destruct (ValidateGuestInputManifestBindingWithContext _ _) as [[]|].
Qed.

Lemma sc_validates : exists v result,
  ValidateRequestWithContext Background sc_request = inl v /\
  Prove sc_service Background (Some v) = Ok result.
Proof.
  pose proof sc_runs_true as Hr. unfold sc_runs in Hr.
  destruct (DecodeGuestInput sc_input) as [view|]; [|done].
  destruct (ValidateRequestWithContext Background sc_request) as [v|]; [|done].
  apply andb_true_iff in Hr as [_ Hr]. exists v.
  destruct (Prove _ _ _) as [result|]; [by exists result|done].
Qed.

Lemma same_seal_refl v : same_seal v v.
Proof. done. Qed.

(* ---------------------------------------------------------------- *)
(** ** The theorems at the scenario *)

Lemma ValidateGuestInputManifestBinding_sound_witness :
  exists view proposal parent lastAnchor blocks,
    DecodeGuestInput sc_input = Ok view /\
    bound_proposal Background view proposal parent lastAnchor blocks.
Proof.
  destruct sc_decodes as (view & Hd & Hm). exists view.
  destruct (ValidateGuestInputManifestBinding_sound Background view sample_IsShasta Hm)
    as (proposal & parent & lastAnchor & blocks & Hb).
  exists proposal, parent, lastAnchor, blocks. split; [exact Hd|exact Hb].
Defined.

Lemma validateRequestSigningBinding_spec_witness :
  exists v, ValidateRequestWithContext Background sc_request = inl v /\
    (validateRequestSigningBinding (Some (sealValidatedRequest v)) = Ok tt <->
     same_content v (sealValidatedRequest v)).
Proof.
  destruct sc_validates as (v & result & Hv & _). exists v. split; [exact Hv|].
  apply (validateRequestSigningBinding_spec v (sealValidatedRequest v)).
  apply same_seal_refl.
Defined.

(** The same guest input beside another chain id and no schema change. *)
Definition sc_request_other : ShastaRequest := {|
  rq_Schema := ShastaRequestSchemaV1;
  rq_Payload := {| sl_ChainID := 2; sl_Blocks := []; sl_ProofCarryData := Some JNull;
                   sl_GuestInput := Some sc_input |} |}.

Lemma ValidateRequestWithContext_spec_witness :
  exists v proposal blocks, ValidateRequestWithContext Background sc_request = inl v /\
    holds_input sc_input proposal blocks v /\
    ValidateRequestWithContext Background sc_request_other = inl v.
Proof.
  destruct sc_validates as (v & result & Hv & _). exists v.
  destruct (ValidateRequestWithContext_spec Background sc_request v sample_IsShasta Hv)
    as ((input & view & proposal & parent & lastAnchor & blocks & Hi & _ & _ & _ & Hh) & _ & Hn).
  injection Hi as <-. exists proposal, blocks.
  split_conj; [exact Hv|exact Hh|exact (Hn sc_request_other eq_refl eq_refl)].
Defined.

Lemma Prove_sound_witness :
  exists v result config blocks output,
    ValidateRequestWithContext Background sc_request = inl v /\
    chainConfigFor (cv_ChainID (vr_Carry v)) = Ok config /\
    proved sc_service Background config v blocks /\
    SignHash (svc_signer sc_service) (hashShastaSubproofCarry (vr_Carry v)) = Ok output /\
    result = proofResultFromSignerOutput (hashShastaSubproofCarry (vr_Carry v)) output.
Proof.
  destruct sc_validates as (v & result & Hv & Hp). exists v, result.
  destruct (Prove_sound sc_service Background v result Hp)
    as (_ & config & blocks & output & Hc & Hb & Ho & Hr).
  exists config, blocks, output. split_conj; [exact Hv|exact Hc|exact Hb|exact Ho|exact Hr].
Defined.

Lemma prove_validated_sound_witness :
  exists result view proposal parent lastAnchor config blocks,
    DecodeGuestInput sc_input = Ok view /\
    bound_proposal Background view proposal parent lastAnchor (fst <$> blocks) /\
    Forall2 (fun w (br : Block * list (option Receipt)) =>
      replayed sc_service Background config (wv_ReplayBlock w) (view_of br.1) br.1 br.2)
      (gv_Witnesses view) blocks /\
    exists output,
      SignHash (svc_signer sc_service) (hashShastaSubproofCarry (gv_Carry view)) = Ok output /\
      result = proofResultFromSignerOutput (hashShastaSubproofCarry (gv_Carry view)) output.
Proof.
  destruct sc_validates as (v & result & Hv & Hp). exists result.
  destruct (prove_validated_sound sc_service Background Background sc_request v v result
    sample_IsShasta Hv (same_seal_refl v) Hp) as
    (input & view & proposal & parent & lastAnchor & config & blocks &
     Hi & Hd & _ & _ & Hb & Hr & _ & _ & _ & Hin).
  injection Hi as <-. exists view, proposal, parent, lastAnchor, config, blocks.
  split_conj; [exact Hd|exact Hb|exact Hr|exact Hin].
Defined.

Definition sc_signer : Signer := MakeSigner (sample_upstream 167001) None 0.

(** The scenario's anchor with another signature. *)
Definition sc_altered : Transaction :=
  DynamicFeeTx 167001 0 0 10000000 1000000 (Some sc_taikoL2) 0 (encode_anchorV4 sc_checkpoint)
    (Some []) (sig_v sc_signature) (sig_r sc_signature) (sig_s sc_signature + 1).

Lemma validateCanonicalAnchorSignature_unique_witness :
  validateCanonicalAnchorSignature sc_altered sc_signer <> Ok tt.
Proof.
  assert (Hcall : same_call sc_anchor sc_altered) by (vm_compute; repeat split).
  assert (Hok : validateCanonicalAnchorSignature sc_anchor sc_signer = Ok tt)
    by (vm_compute; reflexivity).
  assert (Hdiff : tx_Hash sc_altered <> tx_Hash sc_anchor) by (vm_compute; discriminate).
  intros Hb. apply Hdiff. exact (proj1 (validateCanonicalAnchorSignature_unique sc_signer
    sc_anchor sc_altered Hcall Hok) Hb).
Defined.

(** The block of the scenario, as [Prove] executes it. *)
Definition sc_block : Block := {|
  blk_Header := sc_header; blk_Transactions := [sc_anchor]; blk_Uncles := [];
  blk_Withdrawals := Some [] |}.

Definition sc_witness : Witness :=
  {| wt_Headers := [sc_parent; sc_grandparent]; wt_Codes := ∅; wt_State := ∅ |}.

Definition sc_config : ChainConfig :=
  match chainConfigFor 167001 with Ok c => c | Err _ => sample_upstream 167001 end.

Lemma newReplayChainContext_spec_witness :
  GetHeaderByNumber (newReplayChainContext sc_config sc_block sc_witness) 9 =
    Some sc_grandparent <->
  sc_grandparent ∈ wt_Headers sc_witness /\ number_u64 sc_grandparent = 9.
Proof.
  destruct (fun Hw Hlen Hinj =>
    newReplayChainContext_spec sc_config sc_block sc_witness 9 sc_grandparent Hw Hlen Hinj)
    as [Hnumber _]; [vm_compute; reflexivity|vm_compute; discriminate| |exact Hnumber].
  intros a b Ha Hb. apply list_elem_of_In in Ha, Hb.
  destruct Ha as [<-|[<-|[]]], Hb as [<-|[<-|[]]]; [done| | |done];
    vm_compute; discriminate.
Defined.

Lemma sc_execute : is_ok (Execute Background sc_config (blockForStatelessExecution sc_block)
  sc_witness) = true.
Proof. by vm_compute. Qed.

Lemma Execute_unzen_sound_witness : exists r receipts,
  Execute Background sc_config (blockForStatelessExecution sc_block) sc_witness = Ok r /\
  rr_Receipts r = Some <$> receipts /\ rr_ReceiptRoot r = DeriveSha_receipts receipts.
Proof.
  pose proof sc_execute as He.
  destruct (Execute Background sc_config (blockForStatelessExecution sc_block) sc_witness)
    as [r|e] eqn:Hok; [|discriminate He]. exists r.
  assert (Hu : IsUnzen sc_config
    (hd_Time (blk_Header (blockForStatelessExecution sc_block))) = true)
    by (vm_compute; reflexivity).
  destruct (Execute_unzen_sound Background sc_config (blockForStatelessExecution sc_block)
    sc_witness r Hu Hok) as
    (db & receipts & body & m & gp & requests & m' & _ & _ & _ & _ & _ & _ & _ & _ & Hr & Hrs).
  exists receipts. split_conj; [reflexivity|exact Hrs|exact Hr].
Defined.

(* ---------------------------------------------------------------- *)
(** ** The scenario over HTTP *)

(** The request as a client writes it. *)
Definition sc_request_json : json := JObj [
  ("schema", JStr ShastaRequestSchemaV1);
  ("payload", JObj [
    ("chain_id", JNum "1");
    ("guest_input", JObj [
      ("witnesses", JArr (gi_Witnesses sc_input));
      ("taiko", default JNull (gi_Taiko sc_input));
      ("proposal_ancestor_headers", JArr (gi_ProposalAncestorHeaders sc_input));
      ("proposal_state_nodes", JArr []);
      ("proof_carry_data", default JNull (gi_ProofCarryData sc_input))])])].

Definition sc_http : HttpRequest := {|
  hr_Method := "POST";
  hr_Path := proveShastaPath;
  hr_ContentLength := -1;
  hr_Body := bytes_of_chars (compact sc_request_json);
  hr_Context := Background |}.

Lemma sc_http_decodes :
  decodeRequest maxRequestBodyBytes sc_http decode_ShastaRequest = Ok sc_request.
Proof. vm_compute. reflexivity. Qed.

(** The server that [NewServer] makes of the service answers it. *)
Lemma sc_answers : exists re, answer (replay_service sc_service) maxRequestBodyBytes sc_http = Some re /\
  re_Status re = 200.
Proof.
  destruct sc_validates as (v & result & Hv & Hp).
  pose proof (proveShasta_serves (replay_service sc_service) maxRequestBodyBytes sc_http
    sc_request v result eq_refl sc_http_decodes Hv Hp) as Ha.
  exists (proveShasta (replay_service sc_service) maxRequestBodyBytes sc_http).2.
  split; [by apply answer_proveShasta|]. by apply result_answer_200 in Ha.
Qed.

Lemma served_proof_sound_witness : exists re result v req,
  answer (replay_service sc_service) maxRequestBodyBytes sc_http = Some re /\
  result_answer result re /\
  Unmarshal_text (hr_Body sc_http) = Ok v /\ decode_ShastaRequest v = Ok req /\
  proves sc_service Background Background req result.
Proof.
  destruct sc_answers as (re & Hre & Hok). exists re.
  destruct (served_proof_sound sc_service maxRequestBodyBytes sc_http re sample_IsShasta
    eq_refl Hre Hok) as (_ & _ & result & v & req & Ha & Hu & Hd & Hp).
  exists result, v, req. split_conj; [exact Hre|exact Ha|exact Hu|exact Hd|exact Hp].
Defined.
End Scenario.
